(* ===== verification/_CoqProject ===== *)
-Q . S2P
Prelude.v
GoStrings.v
GoPath.v
Json.v
TreeParser.v
Sha256.v
Schema.v
Sql.v
SqlFacts.v
Bus.v
BusProps.v
World.v
WorldFacts.v
Hoare.v
GoTime.v
GoNet.v
Repository.v
Http.v
ContainerManager.v
Mail.v
Fixtures.v
Tokens.v
Jwt.v
Auth.v
Users.v
ManagerFacts.v
UsersProps.v
ApiKeys.v
Notifications.v
Admin.v
Catalog.v
Middleware.v
ManagerProps.v
AutoStop.v
Recovery.v
RecoveryProps.v
ContainerHandlers.v
Websocket.v
Networks.v
NetworksProps.v
Protocols.v
Server.v
Tenants.v
Privacy.v
Transactions.v
Connections.v
Divergences.v
Main.v
