(* ===== verification/Prelude.v ===== *)
(** * Verification of the container hosting service

    The program is a Go server that runs a user's projects as Docker containers:
    accounts with e-mail verification and JWT or API key authentication, plans
    with limits, containers with files, a terminal and logs, private networks,
    crash recovery with a circuit breaker, an auto-stop watcher and notifications.
    This library is a shallow embedding of the repository under src/ with the
    theorems that make its parts correct.

    ** How the program is modelled

    Everything a handler does to the world is an effect of [World.Eff]: a SQL
    statement on the pool or in a transaction, a Docker call, a folder, the
    clock, random bytes, a step of an SMTP conversation, a publication, a step of
    the process such as listening or catching a signal.  A Go function is a [Prog], a
    finite tree of effects; a function that returns (T, error) is a
    [Prog (result T)].  [World.run] executes one program, [World.sched] and
    [World.pool_step] interleave several one effect at a time.  What lies outside
    (answers of the Docker daemon, failures of the database, clocks, randomness)
    is an [Env], a function of the number of effects performed, so a theorem for
    all [Env] is one for all behaviours of the outside.  Transactions are READ
    COMMITTED: a statement sees the committed tables with the transaction's own
    statements applied, and a failed statement aborts the transaction.

    There is no fuel in the model of the handlers: programs are structurally
    finite.  [Recovery.Start] takes as fuel the number of reconnections, bounded
    by the length of its input (Start_dispatches_all); [GoStrings.trim_with] and
    [Sql.utf8_chars] take the length of the text, which bounds their steps.
    Loops that end with a connection (streams, terminal, watcher) are functions
    of the list of things that happen to them.

    ** Files

    - Prelude: Go errors and results, machine integers, tables, orders, hints.
    - GoStrings, GoPath, GoTime, GoNet, Json: the parts of the Go standard library
      the code relies on (strings, strconv, hex, path/filepath, time, net,
      encoding/json).
    - Sha256: crypto/sha256, executable.
    - TreeParser: utils/parser.go on a heap of nodes, as the code shares them by
      pointer.
    - Schema: migrations/*.sql as finite maps with the constraints [wf_db].
      Sql: one constructor per SQL text of the program and its meaning.  SqlFacts:
      every statement keeps every constraint.
    - Bus, BusProps: service/notificationBus.go, channels with a buffer of 32.
    - World, WorldFacts, Hoare: effects, execution, invariants of interleavings,
      weakest preconditions, rules for transactions and for the trace of calls.
    - Repository: service/repository.go, planService.go, repository/*.go.
    - Http: requests, replies and the helpers of utils/utils.go.
    - ContainerManager: service/hostContainerService.go; ManagerFacts,
      ManagerProps, AutoStop its theorems.
    - Mail, Tokens, Jwt, Auth, Users, UsersProps: email/, repository/tokenRepo.go,
      jwt/, middlware/auth.go and Middlware.go, service/userHnadler.go and
      UserService.go.
    - ApiKeys, Notifications, Admin, Catalog: service/apiKeyHandler.go,
      notificationHandler.go, adminHandler.go, templateHandler.go, Image*.go and
      the /plans handler of main.go.
    - Recovery, RecoveryProps: service/recoveryService.go and
      containerEventsService.go.
    - ContainerHandlers: service/ContainerHandlers.go.
    - Networks, NetworksProps: service/networkService.go, networkHandler.go.
    - Middleware: middlware/ratelimit.go, cors.go, audit.go, recovery.go,
      logging.go.
    - Websocket: websocket/*.go.
    - Protocols: state machines over effects, and what a program that follows one
      does in every run.
    - Server: main.go, the route table and the path of a request through the
      layers.  On it, Tenants (what an account's requests do to the others),
      Privacy (what they learn of them), Transactions and Connections (what the
      activities hold of the database pool), Divergences (defects in which
      several components have part).
    - Main: main.go, migrations_runner.go, db_config/db.go: configuration,
      start-up, listeners, signals and shutdown of the process.
    - Fixtures: a concrete server and world on which properties are instantiated.

    Definitions keep the names of the Go functions; where two files use one
    name the handler carries a prefix (handle_StopContainer is the HTTP handler,
    StopContainer the manager's method).

    ** Parameters

    Libraries and services outside the repository are type classes whose fields
    are their documented behaviour: [Schema.Postgres] (casts, lower, collation,
    clock), [Jwt.JwtLib], [Users.Bcrypt], [Users.ValidatorLib],
    [Admin.UnicodeCase], [ContainerHandlers.MimeTypes], [Middleware.RateLib] (a
    token bucket is initially full and never lets through more than its size and
    its refill), [Websocket.WsLib]; the router's matching of a path is the
    variable [Match] of Server.  Each class has an executable instance in the
    file that uses it.

    ** What the theorems show

    - Data: store_integrity: every constraint of the schema and the consistency
      of the bus hold after any interleaving of any programs.
    - Containers: a failed creation leaves no container and no folder
      (CreateContainer_error_leaves_nothing), a successful one leaves exactly the
      promised state (CreateContainer_success); stop and start change the row
      exactly when Docker did (StopContainer_atomic); RemoveContainer_order,
      auto_stop_only_expired.
    - Recovery: HandleCrash_refines_breaker refines an abstract circuit breaker,
      restart_budget bounds the restarts, event_handlers_never_panic,
      Start_dispatches_all.
    - Accounts and credentials: Login_decision, Register_outcome,
      ResetPassword_outcome, DeleteUser_complete, verification_link_works,
      Send_conversation (what is said to the mail server, and when an error is
      reported), Consume_single_use, api_key_roundtrip, Middleware_gate,
      AuthMiddleware_gate.
    - Networks: outcomes on every branch, ListNetworks_complete against a
      reference.
    - Files and commands: file_handlers_confined, ParserTreeFolder_shows,
      handle_CreateContainer_outcome.
    - Streams and notifications: bus_refines_mailboxes (channels and slices
      implement one bounded queue per subscription), stream_live,
      persist_then_list, log_stream.
    - The server as a whole: routes_guarded and stranger_harmless (a request
      without credentials changes nothing), tenant_isolation (one account's
      request leaves the rows of the others alone), account_privacy (nor do the
      replies about its own rows depend on theirs), limiter_isolation (one bucket
      per address under any interleaving), replies_are_envelopes.
    - The database pool: no_transaction_leaks (any interleaving of requests,
      events, watcher and mails gives every connection back) and pool_wait_bound
      (nobody waits while fewer activities run than there are connections).
    - The process: main_lifecycle (all or nothing at start-up, the order of
      shutdown, what a failing listener skips).

    Further theorems state secondary behaviour and the defects the modelling
    showed (plan_limit_race, stops_deadlock, containers_ignore_caller,
    stopped_container_restarted, stream_unavailable, spoofed_address_unlimited,
    cors_gate, ResetPassword_burns_token, installPackages_always_apt, ...).

    ** Not modelled

    Reading and writing sockets other than the SMTP conversation; what the
    OpenTelemetry and Prometheus libraries record, whose set-up is modelled as
    calls; logging, and the mail that is printed when no host is configured;
    cancellation of a request's context other than as the failure of its calls;
    cleanOutput, which is not called and needs the Unicode print table;
    time.ParseDuration, whose fractions are floating-point, is an argument of
    [Main.read_config]; the conversion of the CPU share to float64.  A panic in
    a handler is an [option] where the code can reach one. *)

From stdpp Require Export base gmap list strings sorting fin_maps.
From Stdlib Require Export Ascii.

#[export] Set Default Goal Selector "!".

Declare Scope host_scope.
Delimit Scope host_scope with host.
Open Scope host_scope.
Open Scope Z_scope.

(** stdpp never unfolds [String.append]; the string lemmas below want it to
    reduce on constructors. *)
#[global] Arguments String.append !_ _ / : simpl nomatch.

(** * Go errors and (value, error) pairs *)

(** The [error] values of the program.  The sentinels that the code compares
    by identity ([pgx.ErrNoRows], [ErrNotFound], [UserNotFound]) are
    constructors of their own; everything made by [errors.New], or by
    [fmt.Errorf] without [%w], or returned by a driver, is [ErrText];
    [fmt.Errorf("ctx: %w", e)] is [ErrWrap "ctx: " e].  [ErrScan] is the
    client-side failure of [Row.Scan] (a NULL scanned into a non-pointer). *)
Inductive GoError :=
| ErrNoRows
| ErrNotFound
| UserNotFound
| ErrScan
| ErrText (msg : string)
| ErrWrap (ctx : string) (e : GoError).

#[export] Instance GoError_eq_dec : EqDecision GoError.
Proof. solve_decision. Defined.

(** [err.Error()] *)
Fixpoint error_text (e : GoError) : string :=
  match e with
  | ErrNoRows => "no rows in result set"
  | ErrNotFound => "container not found"
  | UserNotFound => "User Not Found"
  | ErrScan => "can't scan into dest"
  | ErrText m => m
  | ErrWrap c e' => String.append c (error_text e')
  end.

(** [errors.Is(err, target)]: the wrap chain is searched. *)
Fixpoint errors_Is (e target : GoError) : bool :=
  bool_decide (e = target) ||
  match e with ErrWrap _ e' => errors_Is e' target | _ => false end.

(** A Go function returning [(T, error)] where the value is meaningful only
    when the error is nil. *)
Inductive result (A : Type) :=
| Ok (a : A)
| Err (e : GoError).
Arguments Ok {A} a.
Arguments Err {A} e.

#[export] Instance result_eq_dec {A} `{EqDecision A} : EqDecision (result A).
Proof. solve_decision. Defined.

Definition result_map {A B} (f : A -> B) (r : result A) : result B :=
  match r with Ok a => Ok (f a) | Err e => Err e end.

Definition result_bind {A B} (r : result A) (f : A -> result B) : result B :=
  match r with Ok a => f a | Err e => Err e end.

Definition is_ok {A} (r : result A) : bool :=
  match r with Ok _ => true | Err _ => false end.

(** [if err != nil { return ..., fmt.Errorf(ctx+"%w", err) }] *)
Definition wrap_err {A} (ctx : string) (r : result A) : result A :=
  match r with Ok a => Ok a | Err e => Err (ErrWrap ctx e) end.

Definition of_option {A} (e : GoError) (o : option A) : result A :=
  match o with Some a => Ok a | None => Err e end.

Lemma is_ok_spec {A} (r : result A) : is_ok r = true <-> exists a, r = Ok a.
Proof. destruct r; simpl; split; try done; [eauto | by intros [? [=]]]. Qed.

Lemma of_option_ok {A} e (o : option A) a : of_option e o = Ok a <-> o = Some a.
Proof. destruct o; simpl; split; congruence. Qed.

(** * Fixed-width integers *)

Definition int64_min : Z := - 2 ^ 63.
Definition int64_max : Z := 2 ^ 63 - 1.
Definition int4_max : Z := 2 ^ 31 - 1.

(** Two's-complement wrap-around of Go's [int]/[int64]. *)
Definition wrap_i64 (z : Z) : Z := (z + 2 ^ 63) mod 2 ^ 64 - 2 ^ 63.
(** Wrap-around of [uint64]. *)
Definition wrap_u64 (z : Z) : Z := z mod 2 ^ 64.

Lemma wrap_i64_id z : int64_min <= z <= int64_max -> wrap_i64 z = z.
Proof. unfold wrap_i64, int64_min, int64_max. intros. rewrite Z.mod_small; lia. Qed.

Lemma wrap_i64_range z : int64_min <= wrap_i64 z <= int64_max.
Proof.
  unfold wrap_i64, int64_min, int64_max.
  pose proof (Z.mod_pos_bound (z + 2 ^ 63) (2 ^ 64) ltac:(lia)). lia.
Qed.

Lemma wrap_u64_id z : 0 <= z < 2 ^ 64 -> wrap_u64 z = z.
Proof. unfold wrap_u64. apply Z.mod_small. Qed.

Lemma wrap_u64_range z : 0 <= wrap_u64 z < 2 ^ 64.
Proof. unfold wrap_u64. apply Z.mod_pos_bound. lia. Qed.

(** * Relational tables

    A table is a finite map from primary key to row.  [UPDATE .. WHERE],
    [DELETE .. WHERE] and [SELECT .. WHERE] are the three operations below;
    the rows a query returns come in the map's own (unspecified) order. *)
Section Tables.
Context {K R : Type} `{Countable K}.
Implicit Types (t : gmap K R) (p : K -> R -> bool).

Definition tupdate p (f : R -> R) t : gmap K R :=
  map_imap (fun k r => Some (if p k r then f r else r)) t.
Definition tdelete p t : gmap K R := filter (fun kr => p kr.1 kr.2 = false) t.
Definition tselect p t : list (K * R) :=
  map_to_list (filter (fun kr => p kr.1 kr.2 = true) t).
(** rows affected, or [COUNT(star)] *)
Definition tcount p t : nat := size (filter (fun kr => p kr.1 kr.2 = true) t).
(** [QueryRow(...).Scan]: the first row, or [pgx.ErrNoRows]. *)
Definition tfirst p t : result (K * R) :=
  match tselect p t with kr :: _ => Ok kr | [] => Err ErrNoRows end.

Lemma lookup_tupdate p f t k :
  tupdate p f t !! k = (fun r => if p k r then f r else r) <$> t !! k.
Proof. unfold tupdate. rewrite map_lookup_imap. by destruct (t !! k). Qed.

Lemma lookup_tupdate_Some p f t k r :
  tupdate p f t !! k = Some r ->
  exists r0, t !! k = Some r0 /\ r = if p k r0 then f r0 else r0.
Proof. rewrite lookup_tupdate, fmap_Some. intros (r0 & ? & ?); eauto. Qed.

Lemma lookup_tdelete_Some p t k r :
  tdelete p t !! k = Some r <-> t !! k = Some r /\ p k r = false.
Proof. unfold tdelete. by rewrite map_lookup_filter_Some. Qed.

Lemma lookup_tdelete_None p t k :
  tdelete p t !! k = None <-> t !! k = None \/ exists r, t !! k = Some r /\ p k r = true.
Proof.
  unfold tdelete. rewrite map_lookup_filter_None. simpl.
  destruct (t !! k) as [r|]; split.
  - intros [?|Hp]; [done|]. right. exists r. split; [done|].
    specialize (Hp r eq_refl). by destruct (p k r).
  - intros [?|(r' & [= ->] & Hp)]; [done|]. right. intros ? [= <-]. by rewrite Hp.
  - by left.
  - by left.
Qed.

Lemma elem_of_tselect p t k r :
  (k, r) ∈ tselect p t <-> t !! k = Some r /\ p k r = true.
Proof. unfold tselect. by rewrite elem_of_map_to_list, map_lookup_filter_Some. Qed.

Lemma tfirst_Ok p t k r : tfirst p t = Ok (k, r) -> t !! k = Some r /\ p k r = true.
Proof.
  unfold tfirst. destruct (tselect p t) as [|kr l] eqn:E; [done|].
  intros [= ->]. apply elem_of_tselect. rewrite E. by constructor.
Qed.

Lemma tfirst_Err p t e : tfirst p t = Err e -> e = ErrNoRows.
Proof. unfold tfirst. destruct (tselect p t); congruence. Qed.

Lemma tfirst_None p t : tfirst p t = Err ErrNoRows <-> forall k r, t !! k = Some r -> p k r = false.
Proof.
  unfold tfirst. split.
  - destruct (tselect p t) as [|kr l] eqn:E; [|done]. intros _ k r Hk.
    destruct (p k r) eqn:Hp; [|done].
    assert ((k, r) ∈ tselect p t) as Hin by by apply elem_of_tselect.
    rewrite E in Hin. by apply elem_of_nil in Hin.
  - intros Hall. destruct (tselect p t) as [|[k r] l] eqn:E; [done|].
    assert ((k, r) ∈ tselect p t) as [Hk Hp]%elem_of_tselect by (rewrite E; by constructor).
    by rewrite (Hall _ _ Hk) in Hp.
Qed.

(** A predicate satisfied by exactly one row selects that row. *)
Lemma tfirst_unique p t k r :
  t !! k = Some r -> p k r = true ->
  (forall k' r', t !! k' = Some r' -> p k' r' = true -> k' = k) ->
  tfirst p t = Ok (k, r).
Proof.
  intros Hk Hp Hu. destruct (tfirst p t) as [[k' r']|e] eqn:E.
  - apply tfirst_Ok in E as [Hk' Hp']. assert (k' = k) as -> by eauto. congruence.
  - pose proof (tfirst_Err _ _ _ E) as ->. rewrite tfirst_None in E. by rewrite (E _ _ Hk) in Hp.
Qed.

Lemma length_tselect p t : length (tselect p t) = tcount p t.
Proof. apply length_map_to_list. Qed.

Lemma tcount_zero p t : tcount p t = 0%nat <-> forall k r, t !! k = Some r -> p k r = false.
Proof.
  unfold tcount. rewrite map_size_empty_iff, map_eq_iff. split.
  - intros He k r Hk. destruct (p k r) eqn:Hp; [|done]. specialize (He k).
    assert (filter (fun kr => p kr.1 kr.2 = true) t !! k = Some r) as Hf
      by (apply map_lookup_filter_Some; done).
    rewrite Hf, lookup_empty in He. done.
  - intros Hall k. rewrite lookup_empty, map_lookup_filter_None. right. intros r Hk Hp.
    simpl in Hp. by rewrite (Hall _ _ Hk) in Hp.
Qed.

Lemma tcount_insert p t k r :
  t !! k = None -> tcount p (<[k := r]> t) = ((if p k r then 1 else 0) + tcount p t)%nat.
Proof.
  intros Hk. unfold tcount. rewrite map_filter_insert. simpl.
  destruct (p k r) eqn:Hp; case_decide; try done.
  - rewrite map_size_insert_None; [done|]. apply map_lookup_filter_None. by left.
  - by rewrite delete_id.
Qed.

Lemma tcount_tupdate p q f t :
  (forall k r, t !! k = Some r -> p k (f r) = p k r) -> tcount p (tupdate q f t) = tcount p t.
Proof.
  intros Hf. unfold tcount, tupdate. rewrite <- !size_dom. f_equal.
  apply set_eq. intros k. rewrite !elem_of_dom. unfold is_Some.
  setoid_rewrite map_lookup_filter_Some. setoid_rewrite map_lookup_imap.
  split; simpl.
  - intros (r & (r0 & Hk & [= <-])%bind_Some & Hp). exists r0. split; [done|].
    destruct (q k r0); [by rewrite <- (Hf _ _ Hk)|done].
  - intros (r & Hk & Hp). rewrite Hk. eexists. split; [reflexivity|].
    destruct (q k r); [by rewrite (Hf _ _ Hk)|done].
Qed.

Lemma tcount_tdelete_le p q t : (tcount p (tdelete q t) <= tcount p t)%nat.
Proof.
  unfold tcount, tdelete. apply map_subseteq_size. apply map_filter_subseteq_mono.
  apply map_filter_subseteq.
Qed.
End Tables.

(** A row update keyed by primary key is a map insertion. *)
Lemma tupdate_key {R} (i : Z) (f : R -> R) (t : gmap Z R) r :
  t !! i = Some r -> tupdate (fun k _ => bool_decide (k = i)) f t = <[i := f r]> t.
Proof.
  intros Hi. apply map_eq. intros k. rewrite lookup_tupdate.
  destruct (decide (k = i)) as [->|Hne].
  - rewrite lookup_insert_eq, Hi. simpl. by rewrite bool_decide_eq_true_2.
  - rewrite lookup_insert_ne by done. destruct (t !! k); [|done]. simpl.
    by rewrite bool_decide_eq_false_2.
Qed.

Lemma tupdate_key_absent {R} (i : Z) (f : R -> R) (t : gmap Z R) :
  t !! i = None -> tupdate (fun k _ => bool_decide (k = i)) f t = t.
Proof.
  intros Hi. apply map_eq. intros k. rewrite lookup_tupdate.
  destruct (t !! k) eqn:E; [|done]. simpl. rewrite bool_decide_eq_false_2; [done|congruence].
Qed.

Lemma tdelete_key {R} (i : Z) (t : gmap Z R) :
  tdelete (fun k _ => bool_decide (k = i)) t = delete i t.
Proof.
  apply map_eq. intros k. destruct (decide (k = i)) as [->|Hne].
  - rewrite lookup_delete_eq. apply lookup_tdelete_None. destruct (t !! i) as [r|] eqn:E; [right|by left].
    exists r. split; [done|by apply bool_decide_eq_true].
  - rewrite lookup_delete_ne by done. destruct (t !! k) as [r|] eqn:E.
    + apply lookup_tdelete_Some. split; [done|by apply bool_decide_eq_false].
    + apply lookup_tdelete_None. by left.
Qed.

Lemma filter_all {A} (P : A -> Prop) `{forall x, Decision (P x)} (l : list A) :
  Forall P l -> filter P l = l.
Proof. induction 1 as [|x l Hx Hl IH]; [done|]. by rewrite filter_cons_True, IH. Qed.

(** * ORDER BY *)

Definition asc_by {A} (f : A -> Z) : relation A := fun a b => f a <= f b.
Definition desc_by {A} (f : A -> Z) : relation A := fun a b => f b <= f a.

#[export] Instance asc_by_dec {A} (f : A -> Z) : RelDecision (asc_by f).
Proof. intros a b. unfold asc_by. apply _. Defined.
#[export] Instance desc_by_dec {A} (f : A -> Z) : RelDecision (desc_by f).
Proof. intros a b. unfold desc_by. apply _. Defined.

#[export] Instance asc_by_total {A} (f : A -> Z) : Total (asc_by f).
Proof. intros a b. unfold asc_by. lia. Qed.
#[export] Instance desc_by_total {A} (f : A -> Z) : Total (desc_by f).
Proof. intros a b. unfold desc_by. lia. Qed.

(** * Automation *)

(** Case analysis on the innermost scrutinee, remembering the equation. *)
Ltac case_scrut :=
  match goal with
  | |- context [match ?x with _ => _ end] => destruct x eqn:?
  | H : context [match ?x with _ => _ end] |- _ => destruct x eqn:?
  end.

Tactic Notation "case_result" constr(t) "as" simple_intropattern(p) := destruct t as p eqn:?.

Create HintDb host discriminated.
Create Rewrite HintDb host_rw.
#[export] Hint Rewrite @lookup_tupdate : host_rw.
