(* ===== verification/GoStrings.v ===== *)
(** GoStrings: what the program uses of Go's [strings], [strconv] and
    [encoding/hex], on byte strings ([String.string] is a list of 8-bit
    characters, as a Go string is a sequence of bytes), with the lemmas the
    components share. *)

From Stdlib Require Import DecimalString DecimalZ.
From S2P Require Export Prelude.

(** * Characters and substrings *)

Fixpoint has_char (c : ascii) (s : string) : bool :=
  match s with
  | EmptyString => false
  | String a s' => Ascii.eqb a c || has_char c s'
  end.

(** [strings.HasPrefix(s, p)] *)
Definition HasPrefix (s p : string) : bool := String.prefix p s.

(** [strings.ToLower] on ASCII text. *)
Fixpoint ascii_lower (s : string) : string :=
  match s with
  | EmptyString => ""
  | String a r =>
      let n := nat_of_ascii a in
      String (if (65 <=? n)%nat && (n <=? 90)%nat then ascii_of_nat (n + 32) else a) (ascii_lower r)
  end.

Fixpoint is_ascii (s : string) : bool :=
  match s with EmptyString => true | String a r => (nat_of_ascii a <? 128)%nat && is_ascii r end.

(** [s[n:]] for [n <= len(s)] *)
Fixpoint drop_str (n : nat) (s : string) : string :=
  match n, s with
  | S n', String _ s' => drop_str n' s'
  | _, _ => s
  end.

(** * strings.Split / strings.Join with a one-byte separator *)

Fixpoint Split (c : ascii) (s : string) : list string :=
  match s with
  | EmptyString => [""]
  | String a s' =>
      if Ascii.eqb a c then "" :: Split c s'
      else match Split c s' with
           | h :: t => String a h :: t
           | [] => [String a ""]
           end
  end.

Fixpoint Join (sep : string) (l : list string) : string :=
  match l with
  | [] => ""
  | [x] => x
  | x :: l' => String.append x (String.append sep (Join sep l'))
  end.

(** [strings.SplitN(s, sep, 2)]: at most one cut, at the first separator. *)
Fixpoint cut_first (c : ascii) (s : string) : option (string * string) :=
  match s with
  | EmptyString => None
  | String a s' =>
      if Ascii.eqb a c then Some ("", s')
      else match cut_first c s' with
           | Some (h, t) => Some (String a h, t)
           | None => None
           end
  end.

Definition SplitN2 (c : ascii) (s : string) : list string :=
  match cut_first c s with Some (h, t) => [h; t] | None => [s] end.

(** * strings.TrimSpace and strings.TrimRight

    [unicode.IsSpace] on UTF-8: the ASCII white space and the encodings of
    U+0085, U+00A0, U+1680, U+2000-U+200A, U+2028, U+2029, U+202F, U+205F and
    U+3000.  [space_len l] is the length of the white-space rune that the byte
    list starts with (0 when it starts with none). *)
Definition byte_in (lo hi : nat) (a : ascii) : bool :=
  (lo <=? nat_of_ascii a)%nat && (nat_of_ascii a <=? hi)%nat.

Definition space_len (l : list ascii) : nat :=
  match l with
  | a :: l1 =>
      if byte_in 9 13 a || byte_in 32 32 a then 1%nat else
      match l1 with
      | b :: l2 =>
          if byte_in 194 194 a && (byte_in 133 133 b || byte_in 160 160 b) then 2%nat else
          match l2 with
          | c :: _ =>
              if (byte_in 225 225 a && byte_in 154 154 b && byte_in 128 128 c)
                 || (byte_in 226 226 a && byte_in 128 128 b
                     && (byte_in 128 138 c || byte_in 168 169 c || byte_in 175 175 c))
                 || (byte_in 226 226 a && byte_in 129 129 b && byte_in 159 159 c)
                 || (byte_in 227 227 a && byte_in 128 128 b && byte_in 128 128 c)
              then 3%nat else 0%nat
          | [] => 0%nat
          end
      | [] => 0%nat
      end
  | [] => 0%nat
  end.

(** The same rune read backwards, for the right end of the string. *)
Definition space_len_rev (l : list ascii) : nat :=
  match l with
  | c :: l1 =>
      if byte_in 9 13 c || byte_in 32 32 c then 1%nat else
      match l1 with
      | b :: l2 =>
          if (space_len [b; c] =? 2)%nat then 2%nat else
          match l2 with
          | a :: _ => if (space_len [a; b; c] =? 3)%nat then 3%nat else 0%nat
          | [] => 0%nat
          end
      | [] => 0%nat
      end
  | [] => 0%nat
  end.

(** Repeatedly drop what [len] says the list starts with; the fuel is the
    length of the list, which bounds the number of runes. *)
Fixpoint trim_with (len : list ascii -> nat) (fuel : nat) (l : list ascii) : list ascii :=
  match fuel with
  | O => l
  | S f => match len l with O => l | S n => trim_with len f (drop (S n) l) end
  end.

Definition TrimSpace (s : string) : string :=
  let l := String.list_ascii_of_string s in
  let l1 := trim_with space_len (length l) l in
  let l2 := reverse (trim_with space_len_rev (length l1) (reverse l1)) in
  String.string_of_list_ascii l2.

(** [strings.TrimRight(s, "\n")] *)
Definition TrimRightNewline (s : string) : string :=
  let nl l := match l with a :: _ => if byte_in 10 10 a then 1%nat else 0%nat | [] => 0%nat end in
  let l := String.list_ascii_of_string s in
  String.string_of_list_ascii (reverse (trim_with nl (length l) (reverse l))).

(** * strconv *)

(** [strconv.FormatInt(z, 10)] and [%d] *)
Definition itoa (z : Z) : string := NilZero.string_of_int (Z.to_int z).

Definition parse_digits (s : string) : option Z :=
  Z.of_uint <$> NilZero.uint_of_string s.

(** [strconv.Atoi] / [strconv.ParseInt(s, 10, 64)]: the value returned beside
    the error is 0 on a syntax error and the nearest int64 on a range error. *)
Definition Atoi (s : string) : Z * option GoError :=
  let signed :=
    match s with
    | String "+" r => parse_digits r
    | String "-" r => Z.opp <$> parse_digits r
    | _ => parse_digits s
    end in
  match signed with
  | None => (0, Some (ErrText "invalid syntax"))
  | Some z =>
      if z <? int64_min then (int64_min, Some (ErrText "value out of range"))
      else if int64_max <? z then (int64_max, Some (ErrText "value out of range"))
      else (z, None)
  end.

(** * encoding/hex *)

Definition hex_digit (n : nat) : ascii :=
  ascii_of_nat (if (n <? 10)%nat then 48 + n else 87 + n).

Fixpoint hex_EncodeToString (s : string) : string :=
  match s with
  | EmptyString => ""
  | String a s' =>
      String (hex_digit (nat_of_ascii a / 16))
        (String (hex_digit (nat_of_ascii a mod 16)) (hex_EncodeToString s'))
  end.

(** * Lemmas *)

Lemma append_assoc (a b c : string) :
  String.append (String.append a b) c = String.append a (String.append b c).
Proof. induction a as [|x a IH]; simpl; [done|]. by rewrite IH. Qed.

Lemma append_nil_r (a : string) : String.append a "" = a.
Proof. induction a as [|x a IH]; simpl; [done|]. by rewrite IH. Qed.

Lemma append_inj_l (a b c : string) : String.append a b = String.append a c -> b = c.
Proof. induction a as [|x a IH]; simpl; [done|]. intros [= ?]. auto. Qed.

Lemma length_append (a b : string) :
  String.length (String.append a b) = (String.length a + String.length b)%nat.
Proof. induction a as [|x a IH]; simpl; [done|]. by rewrite IH. Qed.

Lemma has_char_append c a b :
  has_char c (String.append a b) = has_char c a || has_char c b.
Proof. induction a as [|x a IH]; simpl; [done|]. by rewrite IH, orb_assoc. Qed.

Lemma HasPrefix_append p s : HasPrefix (String.append p s) p = true.
Proof.
  unfold HasPrefix. induction p as [|a p IH]; simpl; [by destruct s|].
  destruct (ascii_dec a a); [done|congruence].
Qed.

Lemma HasPrefix_spec s p :
  HasPrefix s p = true <-> exists r, s = String.append p r.
Proof.
  split; [|intros [r ->]; apply HasPrefix_append].
  unfold HasPrefix. revert s. induction p as [|a p IH]; intros s; simpl; [by eauto|].
  destruct s as [|b s]; simpl; [done|]. destruct (ascii_dec a b) as [->|]; [|done].
  intros [r ->]%IH. by exists r.
Qed.

Lemma drop_append p r : drop_str (String.length p) (String.append p r) = r.
Proof. induction p as [|a p IH]; simpl; [by destruct r|done]. Qed.

Lemma Split_not_nil c s : Split c s <> [].
Proof. destruct s as [|a s]; simpl; [done|]. by destruct (Ascii.eqb a c), (Split c s). Qed.

Lemma Split_cons_ne c a s h t :
  Ascii.eqb a c = false -> Split c s = h :: t -> Split c (String a s) = String a h :: t.
Proof. intros Ha Hs. simpl. by rewrite Ha, Hs. Qed.

(** [strings.Join(strings.Split(s, c), c) = s] *)
Lemma Join_Split c s : Join (String c "") (Split c s) = s.
Proof.
  induction s as [|a s IH]; simpl; [done|].
  destruct (Ascii.eqb a c) eqn:Hac.
  - apply Ascii.eqb_eq in Hac as ->.
    destruct (Split c s) as [|h t] eqn:E; [by apply Split_not_nil in E|].
    change (String c (Join (String c "") (h :: t)) = String c s). by rewrite IH.
  - destruct (Split c s) as [|h t] eqn:E; [by apply Split_not_nil in E|].
    destruct t as [|h2 t]; simpl in *; [by subst|]. by rewrite IH.
Qed.

Lemma Split_no_sep c s : Forall (fun x => has_char c x = false) (Split c s).
Proof.
  induction s as [|a s IH]; simpl; [by repeat constructor|].
  destruct (Ascii.eqb a c) eqn:Hac; [by constructor|].
  destruct (Split c s) as [|h t]; [by apply Forall_singleton; simpl; rewrite Hac|].
  inversion IH; subst. constructor; [|done]. simpl. by rewrite Hac.
Qed.

Lemma Split_plain c s : has_char c s = false -> Split c s = [s].
Proof.
  induction s as [|a s IH]; simpl; [done|].
  intros [Ha Hs]%orb_false_iff. rewrite Ha, IH; done.
Qed.

Lemma Split_app c s t :
  has_char c s = false -> Split c (String.append s (String c t)) = s :: Split c t.
Proof.
  induction s as [|a s IH]; simpl.
  - intros _. by rewrite (Ascii.eqb_refl c).
  - intros [Ha Hs]%orb_false_iff. by rewrite Ha, (IH Hs).
Qed.

(** Splitting a join of separator-free pieces gives the pieces back. *)
Lemma Split_Join c l :
  l <> [] -> Forall (fun x => has_char c x = false) l -> Split c (Join (String c "") l) = l.
Proof.
  intros Hne Hl. induction Hl as [|x l Hx Hl IH]; [done|].
  destruct l as [|y l]; [by apply Split_plain|].
  change (Split c (String.append x (String c (Join (String c "") (y :: l)))) = x :: y :: l).
  by rewrite Split_app, IH.
Qed.

Lemma cut_first_Some c s h t :
  cut_first c s = Some (h, t) <-> s = String.append h (String c t) /\ has_char c h = false.
Proof.
  revert h. induction s as [|a s IH]; intros h; simpl.
  { split; [done|]. by intros [? _]; destruct h. }
  destruct (Ascii.eqb a c) eqn:Hac.
  - apply Ascii.eqb_eq in Hac as ->. split.
    + intros [= <- <-]. done.
    + intros [Hs Hh]. destruct h as [|b h]; simpl in *; [by injection Hs as ->|].
      injection Hs as -> ->. by rewrite (Ascii.eqb_refl b) in Hh.
  - split.
    + destruct (cut_first c s) as [[h' t']|]; [|done]. intros [= <- <-].
      destruct (proj1 (IH h') eq_refl) as [-> Hh]. simpl. by rewrite Hac.
    + intros [Hs Hh]. destruct h as [|b h]; simpl in *.
      { injection Hs as -> ->. by rewrite (Ascii.eqb_refl c) in Hac. }
      injection Hs as -> ->. apply orb_false_iff in Hh as [_ Hh].
      by rewrite (proj2 (IH h) (conj eq_refl Hh)).
Qed.

Lemma cut_first_None c s : cut_first c s = None <-> has_char c s = false.
Proof.
  induction s as [|a s IH]; simpl; [done|].
  destruct (Ascii.eqb a c); simpl; [done|].
  rewrite <- IH. by destruct (cut_first c s) as [[??]|].
Qed.

(** [Split] and [SplitN(_, 2)] agree on strings with exactly one separator. *)
Lemma Split_two c h t :
  has_char c h = false -> has_char c t = false ->
  Split c (String.append h (String c t)) = [h; t].
Proof. intros Hh Ht. by rewrite Split_app, Split_plain. Qed.

Lemma parse_itoa_nonneg z : 0 <= z -> parse_digits (itoa z) = Some z.
Proof.
  intros Hz. unfold itoa, parse_digits.
  assert (exists u, Z.to_int z = Decimal.Pos u /\ Z.of_uint u = z /\ u <> Decimal.Nil) as (u & Hu & Hv & Hn).
  { destruct z as [|p|p]; [..|lia].
    - by exists (Decimal.D0 Decimal.Nil).
    - exists (Pos.to_uint p). split; [done|]. split.
      + pose proof (DecimalZ.of_to (Zpos p)) as H. exact H.
      + apply DecimalPos.Unsigned.to_uint_nonnil. }
  rewrite Hu. simpl. rewrite NilZero.usu by done. simpl. by rewrite Hv.
Qed.

Lemma parse_digits_sign a r : a = "+"%char \/ a = "-"%char -> parse_digits (String a r) = None.
Proof. unfold parse_digits. simpl. by intros [->| ->]; destruct (NilEmpty.uint_of_string r). Qed.

(** [ParseInt] reads back what [FormatInt] wrote. *)
Lemma Atoi_itoa z : 0 <= z <= int64_max -> Atoi (itoa z) = (z, None).
Proof.
  intros Hz. pose proof (parse_itoa_nonneg z (proj1 Hz)) as Hp. unfold Atoi.
  assert (match itoa z with
          | String "+" r => parse_digits r
          | String "-" r => Z.opp <$> parse_digits r
          | _ => parse_digits (itoa z)
          end = Some z) as ->.
  { destruct (itoa z) as [|a r]; [exact Hp|].
    destruct (decide (a = "+"%char)) as [->|H1]; [by rewrite parse_digits_sign in Hp by by left|].
    destruct (decide (a = "-"%char)) as [->|H2]; [by rewrite parse_digits_sign in Hp by by right|].
    destruct a as [[] [] [] [] [] [] [] []]; try exact Hp; congruence. }
  unfold int64_min, int64_max in *.
  destruct (Z.ltb_spec z (- 2 ^ 63)); [lia|]. by destruct (Z.ltb_spec (2 ^ 63 - 1) z); [lia|].
Qed.

Lemma nat_of_ascii_bound a : (nat_of_ascii a < 256)%nat.
Proof. destruct a as [[] [] [] [] [] [] [] []]; vm_compute; lia. Qed.

Lemma hex_digit_inj m n :
  (m < 16)%nat -> (n < 16)%nat -> hex_digit m = hex_digit n -> m = n.
Proof.
  intros Hm Hn H. apply (f_equal nat_of_ascii) in H. unfold hex_digit in H.
  destruct (Nat.ltb_spec m 10), (Nat.ltb_spec n 10);
    rewrite !nat_ascii_embedding in H by lia; lia.
Qed.

Lemma hex_length s : String.length (hex_EncodeToString s) = (2 * String.length s)%nat.
Proof. induction s as [|a s IH]; simpl in *; lia. Qed.

Lemma string_cons_inj a b s t : String a s = String b t -> a = b /\ s = t.
Proof. by intros [= -> ->]. Qed.

(** Distinct byte strings have distinct encodings. *)
Lemma hex_inj s t : hex_EncodeToString s = hex_EncodeToString t -> s = t.
Proof.
  revert t. induction s as [|a s IH]; intros [|b t]; try done. cbn [hex_EncodeToString].
  intros [H1 [H2 H3]%string_cons_inj]%string_cons_inj.
  pose proof (nat_of_ascii_bound a). pose proof (nat_of_ascii_bound b).
  apply hex_digit_inj in H1; [|apply Nat.Div0.div_lt_upper_bound; lia..].
  apply hex_digit_inj in H2; [|apply Nat.mod_upper_bound; lia..].
  f_equal; [|by apply IH].
  rewrite <- (ascii_nat_embedding a), <- (ascii_nat_embedding b). f_equal.
  rewrite (Nat.div_mod_eq (nat_of_ascii a) 16), (Nat.div_mod_eq (nat_of_ascii b) 16). lia.
Qed.

#[export] Hint Rewrite append_nil_r append_assoc has_char_append : host_rw.
