(* ===== verification/GoPath.v ===== *)
(** GoPath: Go's [path/filepath] on Unix, as the program uses it ([Clean],
    [Base], [Dir], [Join], [Ext]), by components.  [Clean] processes the
    '/'-separated elements left to right with a stack: empty elements and "."
    are skipped, ".." pops a real element, is dropped at the root and kept at
    the front of a relative path. *)

From S2P Require Export GoStrings.

Definition slash : ascii := "/"%char.

Section Definitions.
Variable rooted : bool.

(** [st] is the output so far, last element first. *)
Definition clean_step (st : list string) (c : string) : list string :=
  if bool_decide (c = "") || bool_decide (c = ".") then st
  else if bool_decide (c = "..") then
    match st with
    | top :: rest => if bool_decide (top = "..") then ".." :: st else rest
    | [] => if rooted then [] else [".."]
    end
  else c :: st.

Definition clean_stack (s : string) : list string :=
  fold_left clean_step (Split slash s) [].
End Definitions.

Definition is_rooted (p : string) : bool := HasPrefix p "/".

(** [filepath.Clean] *)
Definition Clean (p : string) : string :=
  let body := Join "/" (rev (clean_stack (is_rooted p) p)) in
  if bool_decide (p = "") then "."
  else if is_rooted p then String slash body
  else if bool_decide (body = "") then "." else body.

(** [filepath.Split]: the prefix up to and including the last slash, and the rest. *)
Fixpoint path_split (s : string) : string * string :=
  match s with
  | EmptyString => ("", "")
  | String a r =>
      let '(d, f) := path_split r in
      if bool_decide (d = "")
      then if Ascii.eqb a slash then (String a "", f) else ("", String a f)
      else (String a d, f)
  end.

Fixpoint all_slashes (s : string) : bool :=
  match s with EmptyString => true | String a r => Ascii.eqb a slash && all_slashes r end.

Fixpoint strip_trailing_slashes (s : string) : string :=
  match s with
  | EmptyString => ""
  | String a r => if all_slashes s then "" else String a (strip_trailing_slashes r)
  end.

(** [filepath.Base] *)
Definition Base (p : string) : string :=
  if bool_decide (p = "") then "."
  else let b := (path_split (strip_trailing_slashes p)).2 in
       if bool_decide (b = "") then "/" else b.

(** [filepath.Dir] *)
Definition Dir (p : string) : string := Clean (path_split p).1.

(** [filepath.Join]: leading empty elements are dropped, the rest joined and cleaned. *)
Fixpoint PathJoin (elems : list string) : string :=
  match elems with
  | [] => ""
  | e :: es => if bool_decide (e = "") then PathJoin es else Clean (Join "/" elems)
  end.

(** [filepath.Ext]: from the last dot of the last element, the empty string
    when there is none. *)
Fixpoint Ext (s : string) : string :=
  match s with
  | EmptyString => ""
  | String a r =>
      let e := Ext r in
      if negb (bool_decide (e = "")) then e
      else if Ascii.eqb a "."%char && negb (has_char slash r) then s else ""
  end.

(** * Normal elements *)

Definition normal (c : string) : Prop :=
  c <> "" /\ c <> "." /\ c <> ".." /\ has_char slash c = false.

(** What the stack looks like: real elements over a block of "..", which is
    empty for a rooted path. *)
Definition stack_ok (rooted : bool) (st : list string) : Prop :=
  exists l n, st = l ++ replicate n ".." /\ Forall normal l /\ (rooted = true -> n = 0%nat).

Lemma clean_step_ok rooted st c :
  has_char slash c = false -> stack_ok rooted st -> stack_ok rooted (clean_step rooted st c).
Proof.
  intros Hc (l & n & -> & Hl & Hn). unfold clean_step.
  case_bool_decide; simpl; [by exists l, n|].
  case_bool_decide; simpl; [by exists l, n|].
  case_bool_decide as Hdd.
  - destruct l as [|top l]; simpl.
    + destruct n as [|n]; simpl.
      * destruct rooted; [by exists [], 0%nat|]. by exists [], 1%nat.
      * exists [], (S (S n)). repeat split; [done|]. intros Hr. by specialize (Hn Hr).
    + inversion Hl as [|? ? [_ [_ [Htop _]]] Hl']; subst.
      rewrite bool_decide_eq_false_2 by done. by exists l, n.
  - exists (c :: l), n. repeat split; [|done]. constructor; [|done]. by repeat split.
Qed.

Lemma clean_stack_ok rooted s : stack_ok rooted (clean_stack rooted s).
Proof.
  unfold clean_stack. pose proof (Split_no_sep slash s) as Hs.
  assert (forall st, stack_ok rooted st ->
            stack_ok rooted (fold_left (clean_step rooted) (Split slash s) st)) as Hgen.
  { induction Hs as [|c l Hc Hl IH]; intros st Hst; simpl; [done|].
    apply IH. by apply clean_step_ok. }
  apply Hgen. by exists [], 0%nat.
Qed.

Lemma clean_stack_rooted s : Forall normal (clean_stack true s).
Proof.
  destruct (clean_stack_ok true s) as (l & n & -> & Hl & Hn).
  rewrite (Hn eq_refl). simpl. by rewrite app_nil_r.
Qed.

Lemma clean_step_normal rooted st c : normal c -> clean_step rooted st c = c :: st.
Proof.
  intros (H1 & H2 & H3 & _). unfold clean_step. by rewrite !bool_decide_eq_false_2.
Qed.

Lemma fold_clean_normal rooted l st :
  Forall normal l -> fold_left (clean_step rooted) l st = rev l ++ st.
Proof.
  intros Hl. revert st. induction Hl as [|c l Hc Hl IH]; intros st; simpl; [done|].
  rewrite clean_step_normal, IH by done. by rewrite <- app_assoc.
Qed.

Lemma rev_replicate {A} n (x : A) : rev (replicate n x) = replicate n x.
Proof.
  induction n as [|n IH]; simpl; [done|]. rewrite IH. by rewrite <- replicate_S_end.
Qed.

Lemma fold_clean_dots n k :
  fold_left (clean_step false) (replicate n "..") (replicate k "..") = replicate (n + k) "..".
Proof.
  revert k. induction n as [|n IH]; intros k; simpl; [done|].
  assert (clean_step false (replicate k "..") ".." = replicate (S k) "..") as ->.
  { by destruct k. }
  rewrite IH. by rewrite Nat.add_succ_r.
Qed.

(** Re-running the stack machine on its own output rebuilds it. *)
Lemma fold_clean_rev rooted st :
  stack_ok rooted st -> fold_left (clean_step rooted) (rev st) [] = st.
Proof.
  intros (l & n & -> & Hl & Hn). rewrite rev_app_distr, fold_left_app, rev_replicate.
  assert (fold_left (clean_step rooted) (replicate n "..") [] = replicate n "..") as ->.
  { destruct rooted.
    - by rewrite (Hn eq_refl).
    - change [] with (replicate 0 ".."). by rewrite fold_clean_dots, Nat.add_0_r. }
  rewrite fold_clean_normal by by apply Forall_rev. by rewrite rev_involutive.
Qed.

Lemma stack_ok_no_slash rooted st :
  stack_ok rooted st -> Forall (fun c => has_char slash c = false) (rev st).
Proof.
  intros (l & n & -> & Hl & _). apply Forall_rev, Forall_app. split.
  - eapply Forall_impl; [exact Hl|]. by intros c (_ & _ & _ & ?).
  - by apply Forall_replicate.
Qed.

Lemma stack_ok_not_empty rooted st : stack_ok rooted st -> Forall (fun c => c <> "") (rev st).
Proof.
  intros (l & n & -> & Hl & _). apply Forall_rev, Forall_app. split.
  - eapply Forall_impl; [exact Hl|]. by intros c (? & _).
  - by apply Forall_replicate.
Qed.

Lemma clean_stack_Join rooted st :
  stack_ok rooted st -> clean_stack rooted (Join "/" (rev st)) = st.
Proof.
  intros Hst. unfold clean_stack. destruct (rev st) as [|c l] eqn:E.
  - destruct st; [done|]. by destruct (app_cons_not_nil _ _ _ (eq_sym E)).
  - rewrite <- E. rewrite Split_Join.
    + by apply fold_clean_rev.
    + by rewrite E.
    + by eapply stack_ok_no_slash.
Qed.

Lemma clean_stack_slash rooted s : clean_stack rooted (String slash s) = clean_stack rooted s.
Proof. reflexivity. Qed.

Lemma is_rooted_cons a s : is_rooted (String a s) = Ascii.eqb a slash.
Proof.
  by destruct a as [[] [] [] [] [] [] [] []], s.
Qed.

Lemma Join_not_empty sep c l : c <> "" -> Join sep (c :: l) <> "".
Proof. destruct c; [done|]. by destruct l. Qed.

Lemma Join_not_rooted c l :
  c <> "" -> has_char slash c = false -> is_rooted (Join "/" (c :: l)) = false.
Proof.
  destruct c as [|a c]; [done|]. simpl. intros _ [Ha _]%orb_false_iff.
  destruct l; simpl; by rewrite is_rooted_cons.
Qed.

(** The shape of a cleaned rooted path. *)
Lemma Clean_rooted p :
  is_rooted p = true ->
  Clean p = String slash (Join "/" (rev (clean_stack true p))).
Proof.
  intros Hr. unfold Clean. rewrite Hr. rewrite bool_decide_eq_false_2; [done|].
  by intros ->.
Qed.

Lemma Clean_not_rooted p : is_rooted p = false -> is_rooted (Clean p) = false.
Proof.
  intros Hr. unfold Clean. rewrite Hr. case_bool_decide as Hp; [done|].
  case_bool_decide as Hb; [done|].
  pose proof (clean_stack_ok false p) as Hok.
  pose proof (stack_ok_no_slash _ _ Hok) as Hs. pose proof (stack_ok_not_empty _ _ Hok) as He.
  destruct (rev (clean_stack false p)) as [|c l]; [done|].
  inversion Hs; inversion He; subst. by apply Join_not_rooted.
Qed.

Lemma is_rooted_Clean p : is_rooted (Clean p) = is_rooted p.
Proof.
  destruct (is_rooted p) eqn:Hr; [|by apply Clean_not_rooted].
  rewrite Clean_rooted by done. by rewrite is_rooted_cons, (Ascii.eqb_refl slash).
Qed.

Lemma Clean_idempotent_aux p : Clean (Clean p) = Clean p.
Proof.
  pose proof (is_rooted_Clean p) as Hr. destruct (is_rooted p) eqn:Hp.
  - rewrite (Clean_rooted (Clean p)) by done. rewrite (Clean_rooted p) by done.
    rewrite clean_stack_slash, clean_stack_Join; [done|]. apply clean_stack_ok.
  - assert (Clean p = "." \/ (Clean p = Join "/" (rev (clean_stack false p)) /\ Clean p <> ""))
      as [->|[Hb Hne]]; [|done|].
    { unfold Clean. rewrite Hp. case_bool_decide; [by left|]. case_bool_decide; [by left|by right]. }
    assert (clean_stack false (Clean p) = clean_stack false p) as Hs
      by (rewrite Hb; apply clean_stack_Join, clean_stack_ok).
    unfold Clean at 1. rewrite Hr, Hs, <- Hb. by rewrite !bool_decide_eq_false_2.
Qed.

(** Appending a normal last element to a cleaned rooted path. *)
Lemma clean_stack_app rooted s c :
  has_char slash c = false ->
  clean_stack rooted (String.append s (String slash c)) = clean_step rooted (clean_stack rooted s) c.
Proof.
  intros Hc. unfold clean_stack.
  assert (Split slash (String.append s (String slash c)) = Split slash s ++ [c]) as ->.
  { induction s as [|a s IH]; cbn [String.append Split].
    - by rewrite (Ascii.eqb_refl slash), (Split_plain slash c).
    - destruct (Ascii.eqb a slash) eqn:Ha; [by rewrite IH|]. rewrite IH.
      destruct (Split slash s) as [|h t] eqn:E; [by apply Split_not_nil in E|done]. }
  by rewrite fold_left_app.
Qed.

Lemma path_split_append s : String.append (path_split s).1 (path_split s).2 = s.
Proof.
  induction s as [|a s IH]; [done|]. simpl.
  destruct (path_split s) as [d f]. simpl in *.
  case_bool_decide as Hd; [subst d|]; simpl in *; subst.
  - by destruct (Ascii.eqb a slash).
  - done.
Qed.

Lemma path_split_no_slash s : has_char slash (path_split s).2 = false.
Proof.
  induction s as [|a s IH]; [done|]. simpl.
  destruct (path_split s) as [d f]. simpl in *.
  case_bool_decide; [|done]. destruct (Ascii.eqb a slash) eqn:Ha; [done|]. simpl. by rewrite Ha.
Qed.

(** [Base] never contains a separator, except when it is the root itself. *)
Lemma Base_no_slash p : Base p = "/" \/ has_char slash (Base p) = false.
Proof.
  unfold Base. case_bool_decide; [by right|]. case_bool_decide; [by left|].
  right. apply path_split_no_slash.
Qed.

Lemma Base_not_empty p : Base p <> "".
Proof. unfold Base. case_bool_decide; [done|]. by case_bool_decide. Qed.

Example Clean_ex1 : Clean "/workspace/../etc/passwd" = "/etc/passwd". Proof. reflexivity. Qed.
Example Clean_ex2 : Clean "a/..//../b/." = "../b". Proof. reflexivity. Qed.
Example Base_ex : Base "/workspace/src/" = "src". Proof. reflexivity. Qed.
Example Dir_ex : Dir "/workspace/src/main.go" = "/workspace/src". Proof. reflexivity. Qed.
Example Join_ex : PathJoin ["/workspace"; ".."] = "/". Proof. reflexivity. Qed.
Example Ext_ex : Ext "a.tar.gz" = ".gz". Proof. reflexivity. Qed.
