(* ===== verification/Json.v ===== *)
(** Json: JSON values and the rules by which Go's [encoding/json] stores a value
    into a struct, as the request decoders use them.

    A document is the value the syntax analysis yields, object members in the
    order of the text, duplicates included.  A decoder takes the present value
    of its destination, since a [null] leaves it alone and a repeated member is
    stored over the previous one. *)

From S2P Require Export GoStrings.

Inductive Json : Set :=
| JNull
| JBool (b : bool)
| JInt (z : Z)
| JReal (literal : string)
| JStr (s : string)
| JTime (t : Z)
| JArr (l : list Json)
| JObj (members : list (string * Json)).

(** [JInt] is a number whose literal is a plain integer, [JReal] any other;
    [JTime] is the text a [time.Time] marshals to, whose offset depends on the
    zone of the process. *)

Fixpoint json_dec (x y : Json) {struct x} : {x = y} + {x <> y}.
Proof.
  destruct x as [|b|z|r|s|t|l|m], y as [|b'|z'|r'|s'|t'|l'|m']; try (right; congruence).
  - by left.
  - destruct (decide (b = b')); [left|right]; congruence.
  - destruct (decide (z = z')); [left|right]; congruence.
  - destruct (decide (r = r')); [left|right]; congruence.
  - destruct (decide (s = s')); [left|right]; congruence.
  - destruct (decide (t = t')); [left|right]; congruence.
  - destruct (Stdlib.Lists.List.list_eq_dec json_dec l l'); [left|right]; congruence.
  - assert (forall p q : string * Json, {p = q} + {p <> q}) as pair_dec.
    { intros [k v] [k' v']. destruct (decide (k = k')); [|right; congruence].
      destruct (json_dec v v'); [left|right]; congruence. }
    destruct (Stdlib.Lists.List.list_eq_dec pair_dec m m'); [left|right]; congruence.
Defined.

#[export] Instance Json_eq_dec : EqDecision Json := json_dec.

(** * Member names

    A member matches a field by its exact name or, failing that, under the
    folding of [encoding/json], which also identifies U+212A with K and U+017F
    with S; the names of the fields are ASCII. *)
Definition upper_ascii (a : ascii) : ascii :=
  let n := nat_of_ascii a in
  if (97 <=? n)%nat && (n <=? 122)%nat then ascii_of_nat (n - 32) else a.

Definition is_byte (n : nat) (a : ascii) : bool := Nat.eqb (nat_of_ascii a) n.

Fixpoint fold_name (s : string) : string :=
  match s with
  | EmptyString => ""
  | String a r =>
      match r with
      | String b r' =>
          if is_byte 197 a && is_byte 191 b then String "S" (fold_name r') else
          match r' with
          | String c r'' =>
              if is_byte 226 a && is_byte 132 b && is_byte 170 c then String "K" (fold_name r'')
              else String (upper_ascii a) (fold_name r)
          | EmptyString => String (upper_ascii a) (fold_name r)
          end
      | EmptyString => String (upper_ascii a) ""
      end
  end.

Definition name_matches (field key : string) : bool :=
  bool_decide (field = key) || bool_decide (fold_name field = fold_name key).

(** * Decoders *)

Definition Decode (A : Type) : Type := A -> Json -> result A.

Definition type_error : GoError := ErrText "json: cannot unmarshal value into Go value".

Definition dec_string : Decode string := fun cur j =>
  match j with JStr s => Ok s | JNull => Ok cur | _ => Err type_error end.

Definition dec_int : Decode Z := fun cur j =>
  match j with
  | JInt z => if bool_decide (int64_min <= z <= int64_max) then Ok z else Err type_error
  | JNull => Ok cur
  | _ => Err type_error
  end.

Fixpoint dec_elems {A} (zero : A) (dec : Decode A) (cur : list A) (l : list Json) : result (list A) :=
  match l with
  | [] => Ok []
  | j :: l' =>
      result_bind (dec (default zero (head cur)) j) (fun a =>
      result_bind (dec_elems zero dec (tail cur) l') (fun rest => Ok (a :: rest)))
  end.

(** A slice; [null] sets it to nil. *)
Definition dec_slice {A} (zero : A) (dec : Decode A) : Decode (list A) := fun cur j =>
  match j with
  | JArr l => dec_elems zero dec cur l
  | JNull => Ok []
  | _ => Err type_error
  end.

(** The members that match [name], in the order of the text, stored one over
    the other. *)
Definition dec_field {A} (name : string) (dec : Decode A) (cur : A) (members : list (string * Json))
    : result A :=
  fold_left (fun r kv => if name_matches name kv.1 then result_bind r (fun a => dec a kv.2) else r)
    members (Ok cur).

(** A struct: an object is decoded field by field, [null] leaves it alone. *)
Definition dec_struct {A} (fields : A -> list (string * Json) -> result A) : Decode A := fun cur j =>
  match j with
  | JObj members => fields cur members
  | JNull => Ok cur
  | _ => Err type_error
  end.

(** * Encoding

    [json:"name,omitempty"]: the member is left out for a zero value. *)
Definition omit_empty_string (name s : string) : list (string * Json) :=
  if bool_decide (s = "") then [] else [(name, JStr s)].

Definition omit_none {A} (name : string) (f : A -> Json) (o : option A) : list (string * Json) :=
  match o with Some a => [(name, f a)] | None => [] end.

(** A pointer without [omitempty]: nil is [null]. *)
Definition json_opt {A} (f : A -> Json) (o : option A) : Json :=
  match o with Some a => f a | None => JNull end.

(** The member of an object with that exact name. *)
Fixpoint json_member (name : string) (members : list (string * Json)) : option Json :=
  match members with
  | [] => None
  | (k, v) :: m => if bool_decide (k = name) then Some v else json_member name m
  end.

Example fold_name_kelvin :
  name_matches "token" (String "t" (String "O" (String (ascii_of_nat 226) (String (ascii_of_nat 132)
    (String (ascii_of_nat 170) "en"))))) = true.
Proof. reflexivity. Qed.

Example dec_last_wins :
  dec_field "name" dec_string "" [("name", JStr "a"); ("NAME", JStr "b"); ("Name", JNull)] = Ok "b".
Proof. reflexivity. Qed.
