(* ===== verification/TreeParser.v ===== *)
(** TreeParser: utils/parser.go, the folder tree built from the output of
    [find].  The nodes are heap objects, as in the code: the map [nodes] and the
    [Children] slices hold references, and a node's children grow after the
    node has been linked under its parent. *)

From S2P Require Export GoPath Json.

Inductive NodeType := File | Directory.

Definition node_type (t : NodeType) : string := match t with File => "file" | Directory => "dir" end.

(** A node of the heap; its children are references. *)
Record Node := { nd_Name : string; nd_Type : NodeType; nd_Children : list nat }.

Definition newline : ascii := ascii_of_nat 10.

(** The lines that are kept, white space trimmed. *)
Definition tree_paths (input : string) : list string :=
  filter (fun line => line <> "" /\ line <> "/workspace")
    (map TrimSpace (Split newline (TrimSpace input))).

(** [dirSet[p]]: some path starts with [p + "/"]. *)
Definition is_dir (paths : list string) (p : string) : bool :=
  existsb (fun p2 => HasPrefix p2 (String.append p "/")) paths.

Definition path_type (paths : list string) (p : string) : NodeType :=
  if is_dir paths p then Directory else File.

Record TreeState := {
  ts_heap : gmap nat Node;
  ts_nodes : gmap string nat;
  ts_next : nat;
}.

Definition root_node : Node := {| nd_Name := "."; nd_Type := Directory; nd_Children := [] |}.

Definition tree_start : TreeState :=
  {| ts_heap := {[0%nat := root_node]}; ts_nodes := {["/workspace" := 0%nat]}; ts_next := 1 |}.

Definition add_child (c : nat) (n : Node) : Node :=
  {| nd_Name := nd_Name n; nd_Type := nd_Type n; nd_Children := nd_Children n ++ [c] |}.

(** One round of the second pass: a path whose parent is unknown is skipped. *)
Definition tree_step (paths : list string) (s : TreeState) (p : string) : TreeState :=
  let node := {| nd_Name := Base p; nd_Type := path_type paths p; nd_Children := [] |} in
  match ts_nodes s !! Dir p with
  | None => s
  | Some parent =>
      let r := ts_next s in
      {| ts_heap := <[r := node]> (alter (add_child r) parent (ts_heap s));
         ts_nodes := <[p := r]> (ts_nodes s);
         ts_next := S r |}
  end.

Definition build_tree (paths : list string) : TreeState :=
  fold_left (tree_step paths) paths tree_start.

(** The structure a reference leads to. *)
Inductive Tree := Branch (name : string) (t : NodeType) (children : list Tree).

Fixpoint read_tree (fuel : nat) (heap : gmap nat Node) (r : nat) : option Tree :=
  match fuel with
  | O => None
  | S f =>
      match heap !! r with
      | None => None
      | Some n => Branch (nd_Name n) (nd_Type n) <$> mapM (read_tree f heap) (nd_Children n)
      end
  end.

(** [ParserTreeFolder]: the returned root with everything below it.  A child is
    created after its parent, so the number of nodes is enough fuel; with no
    path left the root is returned as it is, which is what the loop does too. *)
Definition ParserTreeFolder (input : string) : option Tree :=
  let s := build_tree (tree_paths input) in
  read_tree (ts_next s) (ts_heap s) 0.

(** [json:"children,omitempty"] *)
Fixpoint json_tree (t : Tree) : Json :=
  let '(Branch name ty cs) := t in
  JObj ([("name", JStr name); ("type", JStr (node_type ty))]
        ++ match cs with [] => [] | _ => [("children", JArr (map json_tree cs))] end).

(** * What the tree holds *)

(** The paths that are attached: those whose parent is /workspace or a path
    attached before. *)
Definition attach (att : list string) (p : string) : list string :=
  if bool_decide (Dir p = "/workspace" \/ Dir p ∈ att) then att ++ [p] else att.
Definition attached (paths : list string) : list string := fold_left attach paths [].

(** Every path comes after its parent, as in sorted output of [find]. *)
Definition parents_first (paths : list string) : Prop := attached paths = paths.

(** [Shows paths att p name ty t]: [t] is the node of path [p], and below it there
    is one child for each attached path whose parent is [p], in order. *)
Inductive Shows (paths att : list string) (p name : string) (ty : NodeType) : Tree -> Prop :=
| shows_node cs :
    Forall2 (fun q c => Shows paths att q (Base q) (path_type paths q) c)
      (filter (fun q => Dir q = p) att) cs ->
    Shows paths att p name ty (Branch name ty cs).

(** The references of the children of [p]; the [i]-th attached path has
    reference [i + 1]. *)
Fixpoint child_refs (p : string) (i : nat) (att : list string) : list nat :=
  match att with
  | [] => []
  | q :: att' => (if bool_decide (Dir q = p) then [S i] else []) ++ child_refs p (S i) att'
  end.

Lemma child_refs_app p i l q :
  child_refs p i (l ++ [q]) =
  child_refs p i l ++ (if bool_decide (Dir q = p) then [S (i + length l)] else []).
Proof.
  revert i. induction l as [|x l IH]; intros i; simpl.
  - by rewrite Nat.add_0_r, app_nil_r.
  - rewrite IH, app_assoc. by rewrite <- Nat.add_succ_comm.
Qed.

Lemma child_refs_Forall2 p i att :
  Forall2 (fun q r => exists j, r = S (i + j) /\ att !! j = Some q /\ Dir q = p)
    (filter (fun q => Dir q = p) att) (child_refs p i att).
Proof.
  revert i. induction att as [|q att IH]; intros i; [by constructor|]. simpl.
  assert (forall l m,
    Forall2 (fun q r => exists j, r = S (S i + j) /\ att !! j = Some q /\ Dir q = p) l m ->
    Forall2 (fun q' r => exists j, r = S (i + j) /\ (q :: att) !! j = Some q' /\ Dir q' = p) l m) as Hs.
  { intros l m Hf. eapply Forall2_impl; [exact Hf|]. intros q' r (j & -> & Hj & Hd).
    exists (S j). split; [lia|]. done. }
  rewrite filter_cons. case_decide as Hd.
  - rewrite bool_decide_eq_true_2 by done. constructor; [|apply Hs, IH].
    exists 0%nat. by rewrite Nat.add_0_r.
  - rewrite bool_decide_eq_false_2 by done. apply Hs, IH.
Qed.

(** The state of the second pass after the paths [att] have been attached. *)
Record tree_inv (paths att : list string) (s : TreeState) : Prop := {
  ti_nodup : NoDup att;
  ti_root_out : "/workspace" ∉ att;
  ti_next : ts_next s = S (length att);
  ti_root : ts_nodes s !! "/workspace" = Some 0%nat;
  ti_nodes : forall q r, q <> "/workspace" ->
    ts_nodes s !! q = Some r <-> exists i, r = S i /\ att !! i = Some q;
  ti_heap_root : ts_heap s !! 0%nat = Some {| nd_Name := "."; nd_Type := Directory;
                                             nd_Children := child_refs "/workspace" 0 att |};
  ti_heap : forall i q, att !! i = Some q ->
    ts_heap s !! S i = Some {| nd_Name := Base q; nd_Type := path_type paths q;
                               nd_Children := child_refs q 0 att |};
  ti_parent : forall j q, att !! j = Some q ->
    Dir q = "/workspace" \/ exists i, (i < j)%nat /\ att !! i = Some (Dir q);
}.

Lemma tree_start_inv paths : tree_inv paths [] tree_start.
Proof.
  split; simpl; try done.
  - by constructor.
  - by apply not_elem_of_nil.
  - intros q r Hq. rewrite lookup_singleton_ne by done. split; [done|]. by intros (? & _ & ?).
Qed.

Lemma ti_lookup paths att s p : tree_inv paths att s ->
  (Dir p = "/workspace" \/ Dir p ∈ att) <-> is_Some (ts_nodes s !! Dir p).
Proof.
  intros H. split.
  - intros [->|[i Hi]%list_elem_of_lookup]; [rewrite (ti_root _ _ _ H); eauto|].
    destruct (decide (Dir p = "/workspace")) as [->|Hne]; [rewrite (ti_root _ _ _ H); eauto|].
    exists (S i). apply (ti_nodes _ _ _ H); eauto.
  - intros [r Hr]. destruct (decide (Dir p = "/workspace")) as [|Hne]; [by left|]. right.
    apply (ti_nodes _ _ _ H) in Hr as (i & _ & Hi); [|done]. by eapply list_elem_of_lookup_2.
Qed.

(** Linking a new node under [parent] adds it to that parent's children only. *)
Lemma link_child paths att s p r : tree_inv paths att s -> ts_nodes s !! Dir p = Some r ->
  forall q i n, q = "/workspace" /\ i = 0%nat \/ (exists j, i = S j /\ att !! j = Some q) ->
  ts_heap s !! i = Some n -> nd_Children n = child_refs q 0 att ->
  alter (add_child (S (length att))) r (ts_heap s) !! i =
    Some {| nd_Name := nd_Name n; nd_Type := nd_Type n;
            nd_Children := child_refs q 0 (att ++ [p]) |}.
Proof.
  intros H Hr q i n Hq Hn Hc. rewrite child_refs_app. simpl.
  destruct (decide (i = r)) as [->|Hne].
  - rewrite lookup_alter_eq, Hn. simpl. unfold add_child. rewrite Hc.
    rewrite bool_decide_eq_true_2; [done|].
    destruct Hq as [[-> ->]|(j & -> & Hj)].
    + destruct (decide (Dir p = "/workspace")) as [|Hw]; [done|].
      by apply (ti_nodes _ _ _ H) in Hr as (? & ? & _).
    + destruct (decide (Dir p = "/workspace")) as [Hw|Hw].
      * rewrite Hw, (ti_root _ _ _ H) in Hr. done.
      * apply (ti_nodes _ _ _ H) in Hr as (i & [= <-] & Hi); congruence.
  - rewrite lookup_alter_ne, Hn by done. rewrite bool_decide_eq_false_2, app_nil_r.
    + rewrite <- Hc. by destruct n.
    + intros <-. destruct Hq as [[Hw ->]|(j & -> & Hj)].
      * rewrite Hw, (ti_root _ _ _ H) in Hr. congruence.
      * apply Hne. destruct (decide (Dir p = "/workspace")) as [Hw|Hw].
        { exfalso. apply (ti_root_out _ _ _ H). rewrite <- Hw. by eapply list_elem_of_lookup_2. }
        apply (ti_nodes _ _ _ H) in Hr as (i & -> & Hi); [|done]. f_equal.
        eapply NoDup_lookup; [apply H|..]; done.
Qed.

(** A path that is neither the root nor attached has no child yet. *)
Lemma no_child_yet paths att s p l : tree_inv paths att s -> p ∉ att -> p <> "/workspace" ->
  l ⊆ att -> child_refs p 0 l = [].
Proof.
  intros H Hp Hw. generalize 0%nat. induction l as [|q l IH]; intros i Hl; [done|]. simpl.
  rewrite bool_decide_eq_false_2; [apply IH; set_solver|]. intros <-.
  assert (q ∈ att) as [j Hj]%list_elem_of_lookup by set_solver.
  destruct (ti_parent _ _ _ H _ _ Hj) as [|(k & _ & Hk)]; [done|].
  by eapply Hp, list_elem_of_lookup_2.
Qed.

Lemma tree_step_inv paths att s p :
  tree_inv paths att s -> p ∉ att -> p <> "/workspace" ->
  tree_inv paths (attach att p) (tree_step paths s p).
Proof.
  intros H Hp Hw. unfold attach, tree_step.
  destruct (ts_nodes s !! Dir p) as [r|] eqn:Hr; cycle 1.
  { rewrite bool_decide_eq_false_2; [done|]. rewrite (ti_lookup _ _ _ _ H), Hr. by intros []. }
  rewrite bool_decide_eq_true_2 by (rewrite (ti_lookup _ _ _ _ H), Hr; eauto).
  rewrite (ti_next _ _ _ H).
  assert (forall i q, (att ++ [p]) !! i = Some q ->
    att !! i = Some q \/ i = length att /\ q = p) as Hsnoc.
  { intros i q. rewrite lookup_app. destruct (att !! i) eqn:E; [by left|].
    intros Hi. right. apply lookup_ge_None in E.
    destruct (i - length att)%nat eqn:Ei; [|by destruct n]. injection Hi as <-. split; [lia|done]. }
  split; simpl.
  - apply NoDup_app. split_and!; [apply H| |apply NoDup_singleton].
    intros x Hx ->%list_elem_of_singleton. done.
  - rewrite elem_of_app, list_elem_of_singleton. intros [?|?]; [by eapply (ti_root_out _ _ _ H)|done].
  - rewrite length_app. simpl. lia.
  - rewrite lookup_insert_ne by done. apply H.
  - intros q i Hq. destruct (decide (q = p)) as [->|Hne].
    + rewrite lookup_insert_eq. split.
      * intros [= <-]. exists (length att). split; [done|]. by rewrite list_lookup_middle.
      * intros (j & -> & [?%list_elem_of_lookup_2|[-> _]]%Hsnoc); done.
    + rewrite lookup_insert_ne by done. rewrite (ti_nodes _ _ _ H) by done.
      split; intros (j & -> & Hj); exists j; (split; [done|]).
      * by apply lookup_app_l_Some.
      * by apply Hsnoc in Hj as [|[_ ->]].
  - rewrite lookup_insert_ne by done.
    by rewrite (link_child _ _ _ _ _ H Hr "/workspace" 0 _ (or_introl (conj eq_refl eq_refl))
             (ti_heap_root _ _ _ H) eq_refl).
  - intros i q [Hi|[-> ->]]%Hsnoc.
    + rewrite lookup_insert_ne by (apply lookup_lt_Some in Hi; lia).
      rewrite (link_child _ _ _ _ _ H Hr q (S i) _ (or_intror (ex_intro _ i (conj eq_refl Hi)))
               (ti_heap _ _ _ H i q Hi) eq_refl). done.
    + rewrite lookup_insert_eq. f_equal. f_equal.
      rewrite child_refs_app, (no_child_yet _ _ _ _ _ H Hp Hw) by done.
      rewrite bool_decide_eq_false_2; [done|]. intros Hd.
      assert (Dir p = "/workspace" \/ Dir p ∈ att) as [|]
        by (rewrite (ti_lookup _ _ _ _ H), Hr; eauto); congruence.
  - intros j q [Hj|[-> ->]]%Hsnoc.
    + destruct (ti_parent _ _ _ H _ _ Hj) as [|(i & ? & ?)]; [by left|]. right.
      exists i. split; [done|]. by apply lookup_app_l_Some.
    + destruct (decide (Dir p = "/workspace")) as [|Hd]; [by left|]. right.
      apply (ti_nodes _ _ _ H) in Hr as (i & _ & Hi); [|done]. exists i.
      split; [by apply lookup_lt_Some in Hi|by apply lookup_app_l_Some].
Qed.

Lemma build_tree_inv_from paths l att s :
  NoDup (att ++ l) -> "/workspace" ∉ l -> tree_inv paths att s ->
  tree_inv paths (fold_left attach l att) (fold_left (tree_step paths) l s).
Proof.
  revert att s. induction l as [|p l IH]; intros att s Hn Hw H; [done|].
  apply not_elem_of_cons in Hw as [Hw1 Hw2].
  assert (p ∉ att) as Hp.
  { intros Hin. apply NoDup_app in Hn as (_ & Hd & _). apply (Hd p Hin). by left. }
  simpl. apply IH; [|done|by apply tree_step_inv].
  unfold attach. case_bool_decide; [by rewrite <- app_assoc|].
  apply NoDup_app in Hn as (Hn1 & Hn2 & [_ Hn3]%NoDup_cons). apply NoDup_app. set_solver.
Qed.

Lemma tree_paths_no_root input : "/workspace" ∉ tree_paths input.
Proof. unfold tree_paths. rewrite list_elem_of_filter. naive_solver. Qed.

(** The path a reference stands for. *)
Definition ref_of (att : list string) (r : nat) (p : string) : Prop :=
  match r with O => p = "/workspace" | S j => att !! j = Some p end.

(** A child has a larger reference than its parent, so reading terminates. *)
Lemma child_ref_later paths att s r p j q :
  tree_inv paths att s -> ref_of att r p -> att !! j = Some q -> Dir q = p -> (r < S j)%nat.
Proof.
  intros H Hr Hj <-. destruct r as [|k]; [lia|]. simpl in Hr.
  destruct (ti_parent _ _ _ H _ _ Hj) as [Hw|(i & Hi & Hp)].
  - rewrite Hw in Hr. by apply list_elem_of_lookup_2, (ti_root_out _ _ _ H) in Hr.
  - rewrite (NoDup_lookup _ _ _ _ (ti_nodup _ _ _ H) Hr Hp). lia.
Qed.

Lemma read_tree_shows paths att s : tree_inv paths att s -> forall fuel r p name ty,
  (length att < fuel + r)%nat -> (r <= length att)%nat -> ref_of att r p ->
  ts_heap s !! r = Some {| nd_Name := name; nd_Type := ty; nd_Children := child_refs p 0 att |} ->
  exists t, read_tree fuel (ts_heap s) r = Some t /\ Shows paths att p name ty t.
Proof.
  intros H. induction fuel as [|fuel IH]; intros r p name ty Hf Hle Hr Hn; [lia|].
  simpl. rewrite Hn. simpl.
  assert (exists cs, mapM (read_tree fuel (ts_heap s)) (child_refs p 0 att) = Some cs /\
    Forall2 (fun q c => Shows paths att q (Base q) (path_type paths q) c)
      (filter (fun q => Dir q = p) att) cs) as (cs & -> & Hcs); [|eexists; by split; [|constructor]].
  pose proof (child_refs_Forall2 p 0 att) as Hrefs. revert Hrefs.
  generalize (filter (fun q => Dir q = p) att), (child_refs p 0 att). intros l rs Hrefs.
  induction Hrefs as [|q i l rs (j & -> & Hj & Hd) _ (cs & Hm & Hcs)];
    [by exists []|].
  pose proof (child_ref_later _ _ _ _ _ _ _ H Hr Hj Hd).
  pose proof (lookup_lt_Some _ _ _ Hj).
  destruct (IH (S j) q (Base q) (path_type paths q)) as (c & Hc & Hs);
    [lia|lia|done|by apply (ti_heap _ _ _ H)|].
  exists (c :: cs). simpl. rewrite Hc. simpl. rewrite Hm. by split; [|constructor].
Qed.

(** C34: whatever distinct paths [find] printed, [ParserTreeFolder] ends with a
    tree (the fuel is enough and no reference dangles): its root is the directory [.] and below the node of every
    path there is exactly one child per attached path whose parent it is, in
    the order of the input, typed [dir] when another path extends it. *)
Theorem ParserTreeFolder_shows input :
  NoDup (tree_paths input) ->
  exists t, ParserTreeFolder input = Some t /\
    Shows (tree_paths input) (attached (tree_paths input)) "/workspace" "." Directory t.
Proof.
  intros Hn. unfold ParserTreeFolder. set (paths := tree_paths input) in *.
  assert (tree_inv paths (attached paths) (build_tree paths)) as H.
  { apply build_tree_inv_from; [done|apply tree_paths_no_root|apply tree_start_inv]. }
  rewrite (ti_next _ _ _ H). apply (read_tree_shows _ _ _ H); [lia|lia|done|apply H].
Qed.

Definition find_output : string :=
  Join (String newline "") ["/workspace"; "/workspace/a"; "/workspace/a/b.txt"; "/workspace/a/c";
    "/workspace/z.go"; "/workspace/lost/x"; ""].

(** A path whose directory is not listed before it is left out. *)
Example find_output_tree : ParserTreeFolder find_output =
  Some (Branch "." Directory [Branch "a" Directory [Branch "b.txt" File []; Branch "c" File []];
                              Branch "z.go" File []]).
Proof. vm_compute. reflexivity. Qed.

Lemma ParserTreeFolder_shows_witness :
  NoDup (tree_paths find_output) /\
  exists t, ParserTreeFolder find_output = Some t /\
    Shows (tree_paths find_output) (attached (tree_paths find_output)) "/workspace" "." Directory t.
Proof.
  assert (NoDup (tree_paths find_output)) as H by (apply (bool_decide_unpack _); vm_compute; reflexivity).
  split; [exact H|]. exact (ParserTreeFolder_shows find_output H).
Defined.
