(* ===== verification/Sha256.v ===== *)
(** Sha256: Go's [crypto/sha256.Sum256] (FIPS 180-4) on byte strings, with
    32-bit words as integers and every sum written modulo 2^32. *)

From S2P Require Export GoStrings.

Definition word (z : Z) : Z := z mod 2 ^ 32.
Definition rotr (n x : Z) : Z := Z.lor (Z.shiftr x n) (word (Z.shiftl x (32 - n))).

Definition round_constants : list Z :=
  [1116352408; 1899447441; 3049323471; 3921009573; 961987163; 1508970993; 2453635748; 2870763221;
   3624381080; 310598401; 607225278; 1426881987; 1925078388; 2162078206; 2614888103; 3248222580;
   3835390401; 4022224774; 264347078; 604807628; 770255983; 1249150122; 1555081692; 1996064986;
   2554220882; 2821834349; 2952996808; 3210313671; 3336571891; 3584528711; 113926993; 338241895;
   666307205; 773529912; 1294757372; 1396182291; 1695183700; 1986661051; 2177026350; 2456956037;
   2730485921; 2820302411; 3259730800; 3345764771; 3516065817; 3600352804; 4094571909; 275423344;
   430227734; 506948616; 659060556; 883997877; 958139571; 1322822218; 1537002063; 1747873779;
   1955562222; 2024104815; 2227730452; 2361852424; 2428436474; 2756734187; 3204031479; 3329325298].

Definition initial_hash : list Z :=
  [1779033703; 3144134277; 1013904242; 2773480762; 1359893119; 2600822924; 528734635; 1541459225].

(** * Padding: a one bit, zeros, and the length in bits on eight bytes *)

Fixpoint be_bytes (n : nat) (z : Z) : list Z :=
  match n with O => [] | S n' => z / 2 ^ (8 * Z.of_nat n') mod 256 :: be_bytes n' z end.

Definition pad_message (m : list Z) : list Z :=
  let len := Z.of_nat (length m) in
  m ++ [128] ++ replicate (Z.to_nat ((55 - len) mod 64)) 0 ++ be_bytes 8 (8 * len).

Fixpoint words_of (l : list Z) : list Z :=
  match l with
  | a :: b :: c :: d :: l' => (a * 2 ^ 24 + b * 2 ^ 16 + c * 2 ^ 8 + d) :: words_of l'
  | _ => []
  end.

(** * Message schedule: the words of the block, most recent first *)

Definition small_sigma0 (x : Z) : Z := Z.lxor (Z.lxor (rotr 7 x) (rotr 18 x)) (Z.shiftr x 3).
Definition small_sigma1 (x : Z) : Z := Z.lxor (Z.lxor (rotr 17 x) (rotr 19 x)) (Z.shiftr x 10).

Definition nth_word (l : list Z) (n : nat) : Z := default 0 (l !! n).

Fixpoint extend (n : nat) (w : list Z) : list Z :=
  match n with
  | O => w
  | S n' =>
      extend n' (word (small_sigma1 (nth_word w 1) + nth_word w 6
                       + small_sigma0 (nth_word w 14) + nth_word w 15) :: w)
  end.

Definition schedule (block : list Z) : list Z := rev (extend 48 (rev block)).

(** * Compression *)

Definition big_sigma0 (x : Z) : Z := Z.lxor (Z.lxor (rotr 2 x) (rotr 13 x)) (rotr 22 x).
Definition big_sigma1 (x : Z) : Z := Z.lxor (Z.lxor (rotr 6 x) (rotr 11 x)) (rotr 25 x).
Definition choose (e f g : Z) : Z := Z.lxor (Z.land e f) (Z.land (Z.lxor e (2 ^ 32 - 1)) g).
Definition majority (a b c : Z) : Z := Z.lxor (Z.lxor (Z.land a b) (Z.land a c)) (Z.land b c).

Definition sha_round (s : list Z) (kw : Z * Z) : list Z :=
  match s with
  | [a; b; c; d; e; f; g; h] =>
      let t1 := word (h + big_sigma1 e + choose e f g + kw.1 + kw.2) in
      let t2 := word (big_sigma0 a + majority a b c) in
      [word (t1 + t2); a; b; c; word (d + t1); e; f; g]
  | _ => s
  end.

Definition compress (h : list Z) (block : list Z) : list Z :=
  let s := fold_left sha_round (combine round_constants (schedule block)) h in
  map (fun p => word (p.1 + p.2)) (combine h s).

Fixpoint blocks (fuel : nat) (l : list Z) : list (list Z) :=
  match fuel, l with
  | S f, _ :: _ => take 16 l :: blocks f (drop 16 l)
  | _, _ => []
  end.

(** [sha256.Sum256]: one block per sixteen words, so the number of words is
    enough fuel. *)
Definition sha256_bytes (m : list Z) : list Z :=
  let ws := words_of (pad_message m) in
  flat_map (be_bytes 4) (fold_left compress (blocks (length ws) ws) initial_hash).

Definition byte_of (a : ascii) : Z := Z.of_nat (nat_of_ascii a).
Definition ascii_of (z : Z) : ascii := ascii_of_nat (Z.to_nat z).

Definition Sum256 (s : string) : string :=
  String.string_of_list_ascii (map ascii_of (sha256_bytes (map byte_of (String.list_ascii_of_string s)))).

Example Sum256_empty : hex_EncodeToString (Sum256 "")
  = "e3b0c44298fc1c149afbf4c8996fb92427ae41e4649b934ca495991b7852b855".
Proof. vm_compute. reflexivity. Qed.
Example Sum256_abc : hex_EncodeToString (Sum256 "abc")
  = "ba7816bf8f01cfea414140de5dae2223b00361a396177a9cb410ff61f20015ad".
Proof. vm_compute. reflexivity. Qed.
Example Sum256_two_blocks :
  hex_EncodeToString (Sum256 "abcdbcdecdefdefgefghfghighijhijkijkljklmklmnlmnomnopnopq")
  = "248d6a61d20638b8e5c026930c3e6039a33ce45964ff2167f6ecedd419db06c1".
Proof. vm_compute. reflexivity. Qed.

(** * The digest has 32 bytes *)

Lemma length_be_bytes n z : length (be_bytes n z) = n.
Proof. induction n as [|n IH]; simpl; [done|]. by rewrite IH. Qed.

Lemma sha_round_length s kw : length s = 8%nat -> length (sha_round s kw) = 8%nat.
Proof. intros H. do 9 (destruct s as [|? s]; try done). Qed.

Lemma rounds_length l s : length s = 8%nat -> length (fold_left sha_round l s) = 8%nat.
Proof. revert s. induction l as [|x l IH]; intros s Hs; simpl; [done|]. by apply IH, sha_round_length. Qed.

Lemma compress_length h b : length h = 8%nat -> length (compress h b) = 8%nat.
Proof. intros Hh. unfold compress. rewrite length_map, length_combine, rounds_length, Hh; done. Qed.

Lemma compress_all_length l h : length h = 8%nat -> length (fold_left compress l h) = 8%nat.
Proof. revert h. induction l as [|b l IH]; intros h Hh; simpl; [done|]. by apply IH, compress_length. Qed.

Lemma flat_map_length_const {A B} (f : A -> list B) n l :
  (forall x, length (f x) = n) -> length (flat_map f l) = (n * length l)%nat.
Proof. intros Hf. induction l as [|x l IH]; simpl; [lia|]. rewrite length_app, Hf, IH. lia. Qed.

Lemma length_string_of_list l : String.length (String.string_of_list_ascii l) = length l.
Proof. induction l as [|a l IH]; simpl; [done|]. by rewrite IH. Qed.

Lemma Sum256_length s : String.length (Sum256 s) = 32%nat.
Proof.
  unfold Sum256, sha256_bytes. rewrite length_string_of_list, length_map.
  rewrite (flat_map_length_const _ 4) by (intros; apply length_be_bytes).
  by rewrite compress_all_length.
Qed.
