(* ===== verification/Schema.v ===== *)
(** Schema: the relational schema built by the migrations, as finite maps, with
    its integrity constraints.

    A BIGSERIAL key is a [Z], a UUID or TEXT key a string; a nullable column is
    an [option]; a timestamp is a [Z] (nanoseconds).  [cascade] is the combined
    effect of the ON DELETE CASCADE clauses. *)

From S2P Require Export Json.

(** * Casts

    What the queries use of PostgreSQL's text conversions ([$n::bigint] and
    the text form of a bigint column, [$n::uuid], [::text] of a timestamp), of
    its locale (LOWER, the collation) and of its calendar (CURRENT_DATE), and
    what the driver makes of a timestamp scanned into a Go string without a
    cast ([None]: it refuses).  The laws are the documented text
    representation of int8, decimal digits that the cast reads back. *)
Class Postgres := {
  timestamptz_text : Z -> string;
  timestamptz_string : Z -> option string;
  pg_lower : string -> string;
  text_leb : string -> string -> bool;
  current_date : Z -> Z;
  to_bigint : string -> option Z;
  bigint_text : Z -> string;
  to_uuid : string -> option string;
  bigint_text_cast : forall z, 0 <= z <= int64_max -> to_bigint (bigint_text z) = Some z;
  bigint_text_decimal : forall z, 0 <= z <= int64_max -> bigint_text z = itoa z;
}.

(** * Rows *)

(** [users]: migrations 1, 7 and 9. *)
Record user_row := {
  u_name : option string;
  u_email : option string;
  u_password_hash : option string;
  u_email_verified_at : option Z;
  u_plan_id : string;
  u_role : string
}.

(** [containers]: migrations 1-4 and 12. *)
Record container_row := {
  c_container_id : string;
  c_project_name : string;
  c_folder_path : string;
  c_port : option string;
  c_status : string;
  c_user_id : Z;
  c_started_at : option Z;
  c_image_name : option string;
  c_created_at : option Z;
  c_restart_count : Z;
  c_last_restart_at : option Z;
  c_health_status : string;
  c_oom_killed : bool;
  c_circuit_open : bool
}.

(** [plans]: migrations 9, 11 and 12. *)
Record plan_row := {
  pl_name : string;
  pl_max_containers : Z;
  pl_max_memory_mb : Z;
  pl_max_cpu_nanocores : Z;
  pl_auto_stop_minutes : Z;
  pl_price_usd_cents : Z;
  pl_max_networks : Z;
  pl_max_auto_restarts : Z
}.

(** [email_tokens]: migration 7. *)
Record token_row := {
  t_user_id : Z;
  t_token_hash : string;
  t_type : string;
  t_expires_at : Z;
  t_used_at : option Z;
  t_created_at : Z
}.

(** [notifications]: migration 8. *)
Record notification_row := {
  n_user_id : Z;
  n_type : string;
  n_title : string;
  n_body : string;
  n_metadata : option Json;
  n_read_at : option Z;
  n_created_at : Z
}.

(** [api_keys]: migration 10. *)
Record api_key_row := {
  k_user_id : Z;
  k_name : string;
  k_key_hash : string;
  k_key_prefix : string;
  k_last_used_at : option Z;
  k_created_at : Z
}.

(** [networks]: migration 11. *)
Record network_row := {
  nt_user_id : Z;
  nt_name : string;
  nt_docker_net_id : string;
  nt_docker_net_name : string;
  nt_created_at : Z
}.

(** [container_networks], keyed by (container_id, network_id): migration 11. *)
Record cnet_row := {
  cn_alias : string;
  cn_connected_at : Z
}.

(** [audit_log]: migration 5. *)
Record audit_row := {
  a_user_id : Z;
  a_action : string;
  a_resource : string;
  a_resource_id : string;
  a_ip : string;
  a_user_agent : string;
  a_metadata : option Json;
  a_created_at : Z
}.

(** [templates]: migration 6; a JSONB column holds a JSON value. *)
Record template_row := {
  tp_name : string;
  tp_description : string;
  tp_image : string;
  tp_category : string;
  tp_tags : Json;
  tp_popular : bool;
  tp_icon : option string;
  tp_default_ports : Json;
  tp_created_at : option Z
}.

(** [images]: migration 3. *)
Record image_row := {
  im_name : string;
  im_tag : string;
  im_created_at : option Z
}.

(** The database: one finite map per table, from primary key to row. *)
Record DB := {
  users : gmap Z user_row;
  containers : gmap Z container_row;
  plans : gmap string plan_row;
  email_tokens : gmap string token_row;
  notifications : gmap string notification_row;
  api_keys : gmap string api_key_row;
  networks : gmap string network_row;
  container_networks : gmap (Z * string) cnet_row;
  audit_log : gmap string audit_row;
  templates : gmap Z template_row;
  images : gmap Z image_row
}.

(** * Column and table updates *)

Definition set_u_email_verified_at (v : option Z) (r : user_row) : user_row :=
  {| u_name := u_name r; u_email := u_email r; u_password_hash := u_password_hash r;
     u_email_verified_at := v; u_plan_id := u_plan_id r; u_role := u_role r |}.

Definition set_u_password_hash (v : option string) (r : user_row) : user_row :=
  {| u_name := u_name r; u_email := u_email r; u_password_hash := v;
     u_email_verified_at := u_email_verified_at r; u_plan_id := u_plan_id r;
     u_role := u_role r |}.

Definition set_u_plan_id (v : string) (r : user_row) : user_row :=
  {| u_name := u_name r; u_email := u_email r; u_password_hash := u_password_hash r;
     u_email_verified_at := u_email_verified_at r; u_plan_id := v; u_role := u_role r |}.

Definition set_c_container_id (v : string) (r : container_row) : container_row :=
  {| c_container_id := v; c_project_name := c_project_name r;
     c_folder_path := c_folder_path r; c_port := c_port r; c_status := c_status r;
     c_user_id := c_user_id r; c_started_at := c_started_at r;
     c_image_name := c_image_name r; c_created_at := c_created_at r;
     c_restart_count := c_restart_count r; c_last_restart_at := c_last_restart_at r;
     c_health_status := c_health_status r; c_oom_killed := c_oom_killed r;
     c_circuit_open := c_circuit_open r |}.

Definition set_c_project_name (v : string) (r : container_row) : container_row :=
  {| c_container_id := c_container_id r; c_project_name := v;
     c_folder_path := c_folder_path r; c_port := c_port r; c_status := c_status r;
     c_user_id := c_user_id r; c_started_at := c_started_at r;
     c_image_name := c_image_name r; c_created_at := c_created_at r;
     c_restart_count := c_restart_count r; c_last_restart_at := c_last_restart_at r;
     c_health_status := c_health_status r; c_oom_killed := c_oom_killed r;
     c_circuit_open := c_circuit_open r |}.

Definition set_c_folder_path (v : string) (r : container_row) : container_row :=
  {| c_container_id := c_container_id r; c_project_name := c_project_name r;
     c_folder_path := v; c_port := c_port r; c_status := c_status r;
     c_user_id := c_user_id r; c_started_at := c_started_at r;
     c_image_name := c_image_name r; c_created_at := c_created_at r;
     c_restart_count := c_restart_count r; c_last_restart_at := c_last_restart_at r;
     c_health_status := c_health_status r; c_oom_killed := c_oom_killed r;
     c_circuit_open := c_circuit_open r |}.

Definition set_c_port (v : option string) (r : container_row) : container_row :=
  {| c_container_id := c_container_id r; c_project_name := c_project_name r;
     c_folder_path := c_folder_path r; c_port := v; c_status := c_status r;
     c_user_id := c_user_id r; c_started_at := c_started_at r;
     c_image_name := c_image_name r; c_created_at := c_created_at r;
     c_restart_count := c_restart_count r; c_last_restart_at := c_last_restart_at r;
     c_health_status := c_health_status r; c_oom_killed := c_oom_killed r;
     c_circuit_open := c_circuit_open r |}.

Definition set_c_status (v : string) (r : container_row) : container_row :=
  {| c_container_id := c_container_id r; c_project_name := c_project_name r;
     c_folder_path := c_folder_path r; c_port := c_port r; c_status := v;
     c_user_id := c_user_id r; c_started_at := c_started_at r;
     c_image_name := c_image_name r; c_created_at := c_created_at r;
     c_restart_count := c_restart_count r; c_last_restart_at := c_last_restart_at r;
     c_health_status := c_health_status r; c_oom_killed := c_oom_killed r;
     c_circuit_open := c_circuit_open r |}.

Definition set_c_started_at (v : option Z) (r : container_row) : container_row :=
  {| c_container_id := c_container_id r; c_project_name := c_project_name r;
     c_folder_path := c_folder_path r; c_port := c_port r; c_status := c_status r;
     c_user_id := c_user_id r; c_started_at := v; c_image_name := c_image_name r;
     c_created_at := c_created_at r; c_restart_count := c_restart_count r;
     c_last_restart_at := c_last_restart_at r; c_health_status := c_health_status r;
     c_oom_killed := c_oom_killed r; c_circuit_open := c_circuit_open r |}.

Definition set_c_image_name (v : option string) (r : container_row) : container_row :=
  {| c_container_id := c_container_id r; c_project_name := c_project_name r;
     c_folder_path := c_folder_path r; c_port := c_port r; c_status := c_status r;
     c_user_id := c_user_id r; c_started_at := c_started_at r; c_image_name := v;
     c_created_at := c_created_at r; c_restart_count := c_restart_count r;
     c_last_restart_at := c_last_restart_at r; c_health_status := c_health_status r;
     c_oom_killed := c_oom_killed r; c_circuit_open := c_circuit_open r |}.

Definition set_c_restart_count (v : Z) (r : container_row) : container_row :=
  {| c_container_id := c_container_id r; c_project_name := c_project_name r;
     c_folder_path := c_folder_path r; c_port := c_port r; c_status := c_status r;
     c_user_id := c_user_id r; c_started_at := c_started_at r;
     c_image_name := c_image_name r; c_created_at := c_created_at r;
     c_restart_count := v; c_last_restart_at := c_last_restart_at r;
     c_health_status := c_health_status r; c_oom_killed := c_oom_killed r;
     c_circuit_open := c_circuit_open r |}.

Definition set_c_last_restart_at (v : option Z) (r : container_row) : container_row :=
  {| c_container_id := c_container_id r; c_project_name := c_project_name r;
     c_folder_path := c_folder_path r; c_port := c_port r; c_status := c_status r;
     c_user_id := c_user_id r; c_started_at := c_started_at r;
     c_image_name := c_image_name r; c_created_at := c_created_at r;
     c_restart_count := c_restart_count r; c_last_restart_at := v;
     c_health_status := c_health_status r; c_oom_killed := c_oom_killed r;
     c_circuit_open := c_circuit_open r |}.

Definition set_c_health_status (v : string) (r : container_row) : container_row :=
  {| c_container_id := c_container_id r; c_project_name := c_project_name r;
     c_folder_path := c_folder_path r; c_port := c_port r; c_status := c_status r;
     c_user_id := c_user_id r; c_started_at := c_started_at r;
     c_image_name := c_image_name r; c_created_at := c_created_at r;
     c_restart_count := c_restart_count r; c_last_restart_at := c_last_restart_at r;
     c_health_status := v; c_oom_killed := c_oom_killed r;
     c_circuit_open := c_circuit_open r |}.

Definition set_c_oom_killed (v : bool) (r : container_row) : container_row :=
  {| c_container_id := c_container_id r; c_project_name := c_project_name r;
     c_folder_path := c_folder_path r; c_port := c_port r; c_status := c_status r;
     c_user_id := c_user_id r; c_started_at := c_started_at r;
     c_image_name := c_image_name r; c_created_at := c_created_at r;
     c_restart_count := c_restart_count r; c_last_restart_at := c_last_restart_at r;
     c_health_status := c_health_status r; c_oom_killed := v;
     c_circuit_open := c_circuit_open r |}.

Definition set_c_circuit_open (v : bool) (r : container_row) : container_row :=
  {| c_container_id := c_container_id r; c_project_name := c_project_name r;
     c_folder_path := c_folder_path r; c_port := c_port r; c_status := c_status r;
     c_user_id := c_user_id r; c_started_at := c_started_at r;
     c_image_name := c_image_name r; c_created_at := c_created_at r;
     c_restart_count := c_restart_count r; c_last_restart_at := c_last_restart_at r;
     c_health_status := c_health_status r; c_oom_killed := c_oom_killed r;
     c_circuit_open := v |}.

Definition set_t_used_at (v : option Z) (r : token_row) : token_row :=
  {| t_user_id := t_user_id r; t_token_hash := t_token_hash r; t_type := t_type r;
     t_expires_at := t_expires_at r; t_used_at := v; t_created_at := t_created_at r |}.

Definition set_n_read_at (v : option Z) (r : notification_row) : notification_row :=
  {| n_user_id := n_user_id r; n_type := n_type r; n_title := n_title r;
     n_body := n_body r; n_metadata := n_metadata r; n_read_at := v;
     n_created_at := n_created_at r |}.

Definition set_k_last_used_at (v : option Z) (r : api_key_row) : api_key_row :=
  {| k_user_id := k_user_id r; k_name := k_name r; k_key_hash := k_key_hash r;
     k_key_prefix := k_key_prefix r; k_last_used_at := v; k_created_at := k_created_at r |}.

Definition set_cn_alias (v : string) (r : cnet_row) : cnet_row :=
  {| cn_alias := v; cn_connected_at := cn_connected_at r |}.

Definition set_users (v : gmap Z user_row) (r : DB) : DB :=
  {| users := v; containers := containers r; plans := plans r;
     email_tokens := email_tokens r; notifications := notifications r;
     api_keys := api_keys r; networks := networks r;
     container_networks := container_networks r; audit_log := audit_log r;
     templates := templates r; images := images r |}.

Definition set_containers (v : gmap Z container_row) (r : DB) : DB :=
  {| users := users r; containers := v; plans := plans r;
     email_tokens := email_tokens r; notifications := notifications r;
     api_keys := api_keys r; networks := networks r;
     container_networks := container_networks r; audit_log := audit_log r;
     templates := templates r; images := images r |}.

Definition set_email_tokens (v : gmap string token_row) (r : DB) : DB :=
  {| users := users r; containers := containers r; plans := plans r; email_tokens := v;
     notifications := notifications r; api_keys := api_keys r; networks := networks r;
     container_networks := container_networks r; audit_log := audit_log r;
     templates := templates r; images := images r |}.

Definition set_notifications (v : gmap string notification_row) (r : DB) : DB :=
  {| users := users r; containers := containers r; plans := plans r;
     email_tokens := email_tokens r; notifications := v; api_keys := api_keys r;
     networks := networks r; container_networks := container_networks r;
     audit_log := audit_log r; templates := templates r; images := images r |}.

Definition set_api_keys (v : gmap string api_key_row) (r : DB) : DB :=
  {| users := users r; containers := containers r; plans := plans r;
     email_tokens := email_tokens r; notifications := notifications r; api_keys := v;
     networks := networks r; container_networks := container_networks r;
     audit_log := audit_log r; templates := templates r; images := images r |}.

Definition set_networks (v : gmap string network_row) (r : DB) : DB :=
  {| users := users r; containers := containers r; plans := plans r;
     email_tokens := email_tokens r; notifications := notifications r;
     api_keys := api_keys r; networks := v; container_networks := container_networks r;
     audit_log := audit_log r; templates := templates r; images := images r |}.

Definition set_container_networks (v : gmap (Z * string) cnet_row) (r : DB) : DB :=
  {| users := users r; containers := containers r; plans := plans r;
     email_tokens := email_tokens r; notifications := notifications r;
     api_keys := api_keys r; networks := networks r; container_networks := v;
     audit_log := audit_log r; templates := templates r; images := images r |}.

Definition set_audit_log (v : gmap string audit_row) (r : DB) : DB :=
  {| users := users r; containers := containers r; plans := plans r;
     email_tokens := email_tokens r; notifications := notifications r;
     api_keys := api_keys r; networks := networks r;
     container_networks := container_networks r; audit_log := v;
     templates := templates r; images := images r |}.

(** * Foreign keys *)

Definition live {K R} `{Countable K} (t : gmap K R) (k : K) : bool :=
  match t !! k with Some _ => true | None => false end.

(** Rows whose referenced row has been deleted go with it. *)
Definition cascade (db : DB) : DB :=
  let cs := tdelete (fun _ r => negb (live (users db) (c_user_id r))) (containers db) in
  let ns := tdelete (fun _ r => negb (live (users db) (nt_user_id r))) (networks db) in
  {| users := users db;
     containers := cs;
     plans := plans db;
     email_tokens := tdelete (fun _ r => negb (live (users db) (t_user_id r))) (email_tokens db);
     notifications := tdelete (fun _ r => negb (live (users db) (n_user_id r))) (notifications db);
     api_keys := tdelete (fun _ r => negb (live (users db) (k_user_id r))) (api_keys db);
     networks := ns;
     container_networks :=
       tdelete (fun k _ => negb (live cs k.1 && live ns k.2)) (container_networks db);
     audit_log := tdelete (fun _ r => negb (live (users db) (a_user_id r))) (audit_log db);
     templates := templates db;
     images := images db |}.

(** * Integrity constraints *)

Section Constraints.
Context {K R : Type} `{Countable K}.

(** FOREIGN KEY (get) REFERENCES t2 *)
Definition fk {K2 R2} `{Countable K2} (get : R -> K2) (t : gmap K R) (t2 : gmap K2 R2) : Prop :=
  forall k r, t !! k = Some r -> is_Some (t2 !! get r).
(** UNIQUE (key); NULLs are distinct *)
Definition uniq {U} (key : R -> option U) (t : gmap K R) : Prop :=
  forall k1 k2 r1 r2 u, t !! k1 = Some r1 -> t !! k2 = Some r2 ->
    key r1 = Some u -> key r2 = Some u -> k1 = k2.
(** CHECK (P), on the key and the row *)
Definition check (P : K -> R -> Prop) (t : gmap K R) : Prop :=
  forall k r, t !! k = Some r -> P k r.
End Constraints.

Definition serial_key {R} (k : Z) (_ : R) : Prop := 0 < k <= int64_max.
Definition health_values : list string := ["none"; "healthy"; "unhealthy"; "starting"].
Definition role_values : list string := ["user"; "admin"].
Definition token_types : list string := ["email_verification"; "password_reset"].

(** Every constraint the migrations declare. *)
Record wf_db (db : DB) : Prop := {
  wf_users_key : check serial_key (users db);
  wf_users_email : uniq u_email (users db);
  wf_users_plan : fk u_plan_id (users db) (plans db);
  wf_users_role : check (fun _ r => u_role r ∈ role_values) (users db);
  wf_containers_key : check serial_key (containers db);
  wf_containers_user : fk c_user_id (containers db) (users db);
  wf_containers_id : uniq (fun r => Some (c_container_id r)) (containers db);
  wf_containers_health : check (fun _ r => c_health_status r ∈ health_values) (containers db);
  wf_tokens_user : fk t_user_id (email_tokens db) (users db);
  wf_tokens_hash : uniq (fun r => Some (t_token_hash r)) (email_tokens db);
  wf_tokens_type : check (fun _ r => t_type r ∈ token_types) (email_tokens db);
  wf_notifications_user : fk n_user_id (notifications db) (users db);
  wf_keys_user : fk k_user_id (api_keys db) (users db);
  wf_keys_hash : uniq (fun r => Some (k_key_hash r)) (api_keys db);
  wf_networks_user : fk nt_user_id (networks db) (users db);
  wf_networks_docker_id : uniq (fun r => Some (nt_docker_net_id r)) (networks db);
  wf_networks_docker_name : uniq (fun r => Some (nt_docker_net_name r)) (networks db);
  wf_networks_name : uniq (fun r => Some (nt_user_id r, nt_name r)) (networks db);
  wf_cnets : check (fun k _ => is_Some (containers db !! k.1) /\ is_Some (networks db !! k.2))
               (container_networks db);
  wf_audit_user : fk a_user_id (audit_log db) (users db);
}.

(** * Constraints under table operations *)

Lemma live_true {K R} `{Countable K} (t : gmap K R) k : live t k = true <-> is_Some (t !! k).
Proof. unfold live. destruct (t !! k); split; done. Qed.

Section ConstraintLemmas.
Context {K R : Type} `{Countable K}.
Implicit Types (t : gmap K R).

Lemma fk_insert {K2 R2} `{Countable K2} (get : R -> K2) t (t2 : gmap K2 R2) k r :
  fk get t t2 -> is_Some (t2 !! get r) -> fk get (<[k := r]> t) t2.
Proof. intros Hf Hr k' r' [[<- <-]|[_ Hk]]%lookup_insert_Some; [done|by eapply Hf]. Qed.

Lemma fk_tupdate {K2 R2} `{Countable K2} (get : R -> K2) t (t2 : gmap K2 R2) p f :
  fk get t t2 -> (forall r, get (f r) = get r) -> fk get (tupdate p f t) t2.
Proof.
  intros Hf He k r (r0 & Hk & ->)%lookup_tupdate_Some.
  destruct (p k r0); [rewrite He|]; by eapply Hf.
Qed.

Lemma fk_tdelete {K2 R2} `{Countable K2} (get : R -> K2) t (t2 : gmap K2 R2) p :
  fk get t t2 -> fk get (tdelete p t) t2.
Proof. intros Hf k r [Hk _]%lookup_tdelete_Some. by eapply Hf. Qed.

(** The referenced table only gains rows, or has rows updated in place. *)
Lemma fk_target {K2 R2} `{Countable K2} (get : R -> K2) t (t2 t2' : gmap K2 R2) :
  fk get t t2 -> (forall k, is_Some (t2 !! k) -> is_Some (t2' !! k)) -> fk get t t2'.
Proof. intros Hf Hm k r Hk. by eapply Hm, Hf. Qed.

Lemma fk_live {K2 R2} `{Countable K2} (get : R -> K2) t (t2 : gmap K2 R2) :
  fk get (tdelete (fun _ r => negb (live t2 (get r))) t) t2.
Proof. intros k r [_ Hl%negb_false_iff]%lookup_tdelete_Some. by apply live_true. Qed.

Lemma uniq_insert {U} (key : R -> option U) t k r :
  uniq key t ->
  (forall k' r' u, t !! k' = Some r' -> key r = Some u -> key r' = Some u -> k' = k) ->
  uniq key (<[k := r]> t).
Proof.
  intros Hu Hn k1 k2 r1 r2 u.
  rewrite !lookup_insert_Some. intros [[-> ->]|[? ?]] [[-> ->]|[? ?]]; eauto.
  intros ??. symmetry. eauto.
Qed.

Lemma uniq_tupdate {U} (key : R -> option U) t p f :
  uniq key t -> (forall r, key (f r) = key r) -> uniq key (tupdate p f t).
Proof.
  intros Hu He k1 k2 r1 r2 u (s1 & H1 & ->)%lookup_tupdate_Some (s2 & H2 & ->)%lookup_tupdate_Some.
  intros E1 E2. eapply (Hu k1 k2 s1 s2 u); [done|done|..].
  - destruct (p k1 s1); [by rewrite <- He|done].
  - destruct (p k2 s2); [by rewrite <- He|done].
Qed.

Lemma uniq_tdelete {U} (key : R -> option U) t p : uniq key t -> uniq key (tdelete p t).
Proof.
  intros Hu k1 k2 r1 r2 u [H1 _]%lookup_tdelete_Some [H2 _]%lookup_tdelete_Some. eauto.
Qed.

Lemma check_insert (P : K -> R -> Prop) t k r :
  check P t -> P k r -> check P (<[k := r]> t).
Proof. intros Hc Hp k' r' [[<- <-]|[_ Hk]]%lookup_insert_Some; [done|by eapply Hc]. Qed.

Lemma check_tupdate (P : K -> R -> Prop) t p f :
  check P t -> (forall k r, t !! k = Some r -> p k r = true -> P k r -> P k (f r)) ->
  check P (tupdate p f t).
Proof.
  intros Hc Hp k r (r0 & Hk & ->)%lookup_tupdate_Some. destruct (p k r0) eqn:E; eauto.
Qed.

Lemma check_tdelete (P : K -> R -> Prop) t p : check P t -> check P (tdelete p t).
Proof. intros Hc k r [Hk _]%lookup_tdelete_Some. eauto. Qed.

Lemma check_impl (P Q : K -> R -> Prop) t :
  check P t -> (forall k r, P k r -> Q k r) -> check Q t.
Proof. intros Hc Hi k r Hk. eauto. Qed.

Lemma is_Some_insert t k r k' : is_Some (t !! k') -> is_Some (<[k := r]> t !! k').
Proof. rewrite lookup_insert. case_decide; [by eauto|done]. Qed.

Lemma is_Some_tupdate t p f k : is_Some (t !! k) <-> is_Some (tupdate p f t !! k).
Proof. rewrite lookup_tupdate. by rewrite fmap_is_Some. Qed.
End ConstraintLemmas.

Create HintDb wf discriminated.
#[export] Hint Resolve fk_insert fk_tupdate fk_tdelete fk_live uniq_tdelete check_tdelete : wf.
#[export] Hint Resolve is_Some_insert : wf.

(** Deleting rows of any table and cascading keeps every constraint. *)
Lemma cascade_wf db :
  check serial_key (users db) -> uniq u_email (users db) -> fk u_plan_id (users db) (plans db) ->
  check (fun _ r => u_role r ∈ role_values) (users db) ->
  check serial_key (containers db) -> uniq (fun r => Some (c_container_id r)) (containers db) ->
  check (fun _ r => c_health_status r ∈ health_values) (containers db) ->
  uniq (fun r => Some (t_token_hash r)) (email_tokens db) ->
  check (fun _ r => t_type r ∈ token_types) (email_tokens db) ->
  uniq (fun r => Some (k_key_hash r)) (api_keys db) ->
  uniq (fun r => Some (nt_docker_net_id r)) (networks db) ->
  uniq (fun r => Some (nt_docker_net_name r)) (networks db) ->
  uniq (fun r => Some (nt_user_id r, nt_name r)) (networks db) ->
  wf_db (cascade db).
Proof.
  intros. split; simpl; auto with wf.
  intros k r [_ [Hc Hn]%negb_false_iff%andb_true_iff]%lookup_tdelete_Some.
  by rewrite <- !live_true.
Qed.
