(* ===== verification/Sql.v ===== *)
(** Sql: one constructor per SQL text of the program and its meaning on the
    schema.  A SELECT returns whole rows (the Go code that scans them picks the
    columns); a data-modifying statement returns what its RETURNING clause or
    its command tag gives.  A statement that violates a constraint, or whose
    argument does not parse, fails and changes nothing. *)

From S2P Require Export Schema.

(** What a statement takes from the server besides the tables: the clock, the
    next values of the two sequences and a fresh [gen_random_uuid()]. *)
Record SqlCtx := {
  ctx_now : Z;
  ctx_user_id : Z;
  ctx_container_id : Z;
  ctx_uuid : string;
}.

Inductive Stmt : Set :=
(* service/repository.go: containers *)
| InsertContainer (container_id project_name folder_path port status user_id : string)
    (started_at : option Z) (image_name : string)
| SelectContainer (id : string)
| UpdateContainerRow (id container_id project_name folder_path : string) (port : string)
    (status : string) (started_at : option Z) (image_name : string)
| DeleteContainerRow (id : string)
| SelectRunningBefore (cutoff : Z)
(* service/repository.go: users *)
| InsertUser (name email password_hash : string)
| SelectUser (id : string)
| SelectUserByEmail (email : string)
| SelectUserContainers (id : string)
| DeleteContainersOfUser (user_id : string)
| DeleteUserRow (id : string)
(* service/planService.go, networkService.go *)
| SelectPlanOfUser (user_id : string)
(* service/hostContainerService.go *)
| ResetHealthRow (id : string)
| SelectDockerNetIds (id : string)
(* service/recoveryService.go, ContainerHandlers.go *)
| SelectCrashInfo (container_id : string)
| OpenCircuit (id : Z)
| IncRestart (id : Z)
| SetStopped (id : Z)
| SetRunningNow (id : Z)
| SetOom (container_id : string)
| SetHealth (status container_id : string)
| SelectByDockerId (container_id : string)
| ResetCircuitRow (id user_id : string)
| SelectHealth (id user_id : string)
| InsertNotification (user_id type title body : string) (metadata : option Json)
(* repository/tokenRepo.go, service/userHnadler.go *)
| InvalidateTokens (user_id : Z) (type : string)
| InsertToken (user_id : Z) (token_hash type : string) (expires_at : Z)
| ConsumeToken (token_hash type : string)
| VerifyEmailRow (user_id : Z)
| SetPassword (hash : string) (user_id : Z)
(* service/networkService.go *)
| CountNetworks (user_id : string)
| InsertNetwork (user_id name docker_net_id docker_net_name : string)
| SelectNetwork (id user_id : string)
| SelectOwnedContainer (id user_id : string)
| UpsertContainerNetwork (container_id : Z) (network_id alias : string)
| DeleteContainerNetwork (container_id : Z) (network_id : string)
| DeleteNetworkRow (id user_id : string)
| SelectNetworksOf (user_id : string)
(* service/apiKeyHandler.go, middlware/auth.go *)
| CountApiKeys (user_id : string)
| InsertApiKey (user_id name key_hash key_prefix : string)
| SelectApiKeys (user_id : string)
| DeleteApiKey (id user_id : string)
| TouchApiKey (key_hash : string)
(* repository/templateRepo.go, auditRepository.go *)
| SelectTemplateImages
| InsertAudit (user_id action resource resource_id ip user_agent : string)
    (metadata : option Json)
(* service/notificationHandler.go *)
| SelectNotifications (user_id : string)
| MarkAllReadRows (user_id : string)
(* service/adminHandler.go, middlware/auth.go *)
| UpdatePlanRow (plan_id user_id : string)
| SelectRole (user_id : string)
| CountUsers
| CountContainers
| CountRunning
| CountToday
| CountUsersOn (plan_id : string)
| SearchUsers (pattern : string) (offset : Z)
(* repository/templateRepo.go, service/repository.go, main.go *)
| SelectTemplates (category : option string)
| SelectTemplate (id : string)
| SelectImages
| SelectPlans.

(** One row of the LEFT JOIN of networks, container_networks and containers. *)
Record net_join_row := {
  nj_id : string;
  nj_net : network_row;
  nj_member : option (cnet_row * Z * container_row);
}.

(** The answer a statement gives on success. *)
Definition rows (s : Stmt) : Set :=
  match s with
  | InsertContainer _ _ _ _ _ _ _ _ | InsertUser _ _ _ => string
  | SelectContainer _ | UpdateContainerRow _ _ _ _ _ _ _ _ | SelectOwnedContainer _ _
  | SelectByDockerId _ => Z * container_row
  | SelectRunningBefore _ => list (Z * container_row)
  | SelectUser _ | SelectUserByEmail _ => Z * user_row
  | SelectUserContainers _ => list ((Z * user_row) * option (Z * container_row))
  | SelectPlanOfUser _ => string * plan_row
  | SelectCrashInfo _ | SelectHealth _ _ => (Z * container_row) * plan_row
  | SelectDockerNetIds _ | SelectTemplateImages => list string
  | DeleteContainerRow _ | DeleteContainersOfUser _ | DeleteUserRow _ | ResetHealthRow _
  | OpenCircuit _ | IncRestart _ | SetStopped _ | SetRunningNow _ | SetOom _ | SetHealth _ _
  | ResetCircuitRow _ _ | InvalidateTokens _ _ | VerifyEmailRow _ | SetPassword _ _
  | CountNetworks _ | DeleteContainerNetwork _ _ | DeleteNetworkRow _ _ | CountApiKeys _
  | DeleteApiKey _ _ | MarkAllReadRows _ | UpdatePlanRow _ _ | CountUsers | CountContainers
  | CountRunning | CountToday | CountUsersOn _ => nat
  | InsertNotification _ _ _ _ _ | InsertToken _ _ _ _ | UpsertContainerNetwork _ _ _
  | InsertAudit _ _ _ _ _ _ _ => unit
  | ConsumeToken _ _ => string * token_row
  | InsertNetwork _ _ _ _ | SelectNetwork _ _ => string * network_row
  | SelectNetworksOf _ => list net_join_row
  | InsertApiKey _ _ _ _ | TouchApiKey _ => string * api_key_row
  | SelectApiKeys _ => list (string * api_key_row)
  | SelectNotifications _ => list (string * notification_row)
  | SelectRole _ => string
  | SearchUsers _ _ => list ((Z * user_row) * nat)
  | SelectTemplates _ => list (Z * template_row)
  | SelectTemplate _ => Z * template_row
  | SelectImages => list (Z * image_row)
  | SelectPlans => list (string * plan_row)
  end.

Section Statements.
Context {PG : Postgres}.
Implicit Types (db : DB) (c : SqlCtx).

Definition reject {A} (msg : string) db : result A * DB := (Err (ErrText msg), db).
Definition bad_bigint : string := "invalid input syntax for type bigint".
Definition bad_uuid : string := "invalid input syntax for type uuid".

Definition with_bigint {A} (s : string) db (k : Z -> result A * DB) : result A * DB :=
  match to_bigint s with Some z => k z | None => reject bad_bigint db end.
Definition with_uuid {A} (s : string) db (k : string -> result A * DB) : result A * DB :=
  match to_uuid s with Some u => k u | None => reject bad_uuid db end.

(** EXISTS (SELECT .. WHERE p) *)
Definition tany {K R} `{Countable K} (p : K -> R -> bool) (t : gmap K R) : bool :=
  negb (Nat.eqb (tcount p t) 0).

Definition on_container (i : Z) : Z -> container_row -> bool := fun k _ => bool_decide (k = i).
Definition on_docker_id (cid : string) : Z -> container_row -> bool :=
  fun _ r => bool_decide (c_container_id r = cid).
Definition owned_by (i u : Z) : Z -> container_row -> bool :=
  fun k r => bool_decide (k = i) && bool_decide (c_user_id r = u).

(** UPDATE containers SET f WHERE p, returning the row count *)
Definition update_containers (p : Z -> container_row -> bool)
    (f : container_row -> container_row) db : result nat * DB :=
  (Ok (tcount p (containers db)), set_containers (tupdate p f (containers db)) db).

(** ** containers *)

Definition new_container c (container_id project_name folder_path port status : string)
    (uid : Z) (started_at : option Z) (image_name : string) : container_row :=
  {| c_container_id := container_id; c_project_name := project_name;
     c_folder_path := folder_path; c_port := Some port; c_status := status;
     c_user_id := uid; c_started_at := started_at; c_image_name := Some image_name;
     c_created_at := Some (ctx_now c); c_restart_count := 0; c_last_restart_at := None;
     c_health_status := "none"; c_oom_killed := false; c_circuit_open := false |}.

Definition sql_insert_container c (container_id project_name folder_path port status user_id : string)
    (started_at : option Z) (image_name : string) db : result string * DB :=
  with_bigint user_id db (fun uid =>
    let id := ctx_container_id c in
    if negb (bool_decide (0 < id <= int64_max)) then reject "nextval: reached maximum value of sequence" db
    else if live (containers db) id then reject "duplicate key value violates containers_pkey" db
    else if tany (on_docker_id container_id) (containers db)
    then reject "duplicate key value violates containers_container_id_key" db
    else if negb (live (users db) uid) then reject "violates foreign key constraint fk_containers_user" db
    else (Ok (bigint_text id),
          set_containers
            (<[id := new_container c container_id project_name folder_path port status uid
                       started_at image_name]> (containers db)) db)).

Definition sql_select_container (id : string) db : result (Z * container_row) * DB :=
  with_bigint id db (fun i => (tfirst (on_container i) (containers db), db)).

Definition sql_update_container (id container_id project_name folder_path port status : string)
    (started_at : option Z) (image_name : string) db : result (Z * container_row) * DB :=
  with_bigint id db (fun i =>
    match containers db !! i with
    | None => (Err ErrNoRows, db)
    | Some r =>
        if tany (fun k r' => on_docker_id container_id k r' && negb (bool_decide (k = i))) (containers db)
        then reject "duplicate key value violates containers_container_id_key" db
        else
          let r' := set_c_container_id container_id (set_c_project_name project_name
                     (set_c_folder_path folder_path (set_c_port (Some port)
                     (set_c_status status (set_c_started_at started_at
                     (set_c_image_name (Some image_name) r)))))) in
          (Ok (i, r'), set_containers (<[i := r']> (containers db)) db)
    end).

Definition sql_delete_container (id : string) db : result nat * DB :=
  with_bigint id db (fun i =>
    (Ok (tcount (on_container i) (containers db)),
     cascade (set_containers (tdelete (on_container i) (containers db)) db))).

Definition running_before (cutoff : Z) : Z -> container_row -> bool := fun _ r =>
  bool_decide (c_status r = "running") &&
  match c_started_at r with Some t => bool_decide (t < cutoff) | None => false end.

Definition sql_select_running_before (cutoff : Z) db : result (list (Z * container_row)) * DB :=
  (Ok (tselect (running_before cutoff) (containers db)), db).

Definition sql_reset_health (id : string) db : result nat * DB :=
  with_bigint id db (fun i =>
    update_containers (on_container i)
      (fun r => set_c_health_status "none" (set_c_oom_killed false (set_c_circuit_open false r))) db).

Definition sql_select_docker_net_ids (id : string) db : result (list string) * DB :=
  with_bigint id db (fun i =>
    (Ok (omap (fun kr => nt_docker_net_id <$> networks db !! kr.1.2)
           (tselect (fun k _ => bool_decide (k.1 = i)) (container_networks db))), db)).

(** ** users *)

Definition sql_insert_user c (name email password_hash : string) db : result string * DB :=
  let id := ctx_user_id c in
  if negb (bool_decide (0 < id <= int64_max)) then reject "nextval: reached maximum value of sequence" db
  else if live (users db) id then reject "duplicate key value violates users_pkey" db
  else if tany (fun _ r => bool_decide (u_email r = Some email)) (users db)
  then reject "duplicate key value violates users_email_key" db
  else if negb (live (plans db) "free") then reject "violates foreign key constraint users_plan_id_fkey" db
  else (Ok (bigint_text id),
        set_users (<[id := {| u_name := Some name; u_email := Some email;
                              u_password_hash := Some password_hash;
                              u_email_verified_at := None; u_plan_id := "free";
                              u_role := "user" |}]> (users db)) db).

Definition sql_select_user (id : string) db : result (Z * user_row) * DB :=
  with_bigint id db (fun i => (tfirst (fun k _ => bool_decide (k = i)) (users db), db)).

Definition sql_select_user_by_email (email : string) db : result (Z * user_row) * DB :=
  (tfirst (fun _ r => bool_decide (u_email r = Some email)) (users db), db).

(** ORDER BY c.id DESC *)
Definition containers_desc (u : Z) db : list (Z * container_row) :=
  merge_sort (desc_by fst) (tselect (fun _ r => bool_decide (c_user_id r = u)) (containers db)).

Definition sql_select_user_containers (id : string) db
    : result (list ((Z * user_row) * option (Z * container_row))) * DB :=
  with_bigint id db (fun i =>
    (Ok match users db !! i with
        | None => []
        | Some u =>
            match containers_desc i db with
            | [] => [((i, u), None)]
            | cs => map (fun kr => ((i, u), Some kr)) cs
            end
        end, db)).

Definition sql_delete_containers_of_user (user_id : string) db : result nat * DB :=
  with_bigint user_id db (fun u =>
    let p := fun (_ : Z) r => bool_decide (c_user_id r = u) in
    (Ok (tcount p (containers db)), cascade (set_containers (tdelete p (containers db)) db))).

Definition sql_delete_user (id : string) db : result nat * DB :=
  with_bigint id db (fun i =>
    let p := fun (k : Z) (_ : user_row) => bool_decide (k = i) in
    (Ok (tcount p (users db)), cascade (set_users (tdelete p (users db)) db))).

Definition update_user (i : Z) (f : user_row -> user_row) db : result nat * DB :=
  let p := fun (k : Z) (_ : user_row) => bool_decide (k = i) in
  (Ok (tcount p (users db)), set_users (tupdate p f (users db)) db).

Definition sql_verify_email c (i : Z) db : result nat * DB :=
  update_user i (set_u_email_verified_at (Some (ctx_now c))) db.

Definition sql_set_password (hash : string) (i : Z) db : result nat * DB :=
  update_user i (set_u_password_hash (Some hash)) db.

Definition sql_update_plan (plan_id user_id : string) db : result nat * DB :=
  with_bigint user_id db (fun i =>
    if live (users db) i && negb (live (plans db) plan_id)
    then reject "violates foreign key constraint users_plan_id_fkey" db
    else update_user i (set_u_plan_id plan_id) db).

(** plans JOIN users ON u.plan_id = pl.id WHERE u.id = i *)
Definition plan_of_user (i : Z) db : result (string * plan_row) :=
  match users db !! i with
  | Some u => match plans db !! u_plan_id u with
              | Some p => Ok (u_plan_id u, p)
              | None => Err ErrNoRows
              end
  | None => Err ErrNoRows
  end.

Definition sql_select_plan_of_user (user_id : string) db : result (string * plan_row) * DB :=
  with_bigint user_id db (fun i => (plan_of_user i db, db)).

(** ** health monitoring and recovery *)

(** containers JOIN users JOIN plans, for the row [kr] *)
Definition with_plan db (kr : result (Z * container_row)) : result ((Z * container_row) * plan_row) :=
  result_bind kr (fun kr => result_map (fun p => (kr, p.2)) (plan_of_user (c_user_id kr.2) db)).

Definition sql_select_crash_info (container_id : string) db : result ((Z * container_row) * plan_row) * DB :=
  (with_plan db (tfirst (on_docker_id container_id) (containers db)), db).

Definition sql_select_health (id user_id : string) db : result ((Z * container_row) * plan_row) * DB :=
  with_bigint id db (fun i => with_bigint user_id db (fun u =>
    (with_plan db (tfirst (owned_by i u) (containers db)), db))).

Definition sql_open_circuit (i : Z) db : result nat * DB :=
  update_containers (on_container i) (fun r => set_c_circuit_open true (set_c_status "stopped" r)) db.

(** restart_count is an INT: the increment fails when it leaves the range. *)
Definition sql_inc_restart c (i : Z) db : result nat * DB :=
  if tany (fun k r => on_container i k r && negb (bool_decide (c_restart_count r < int4_max))) (containers db)
  then reject "integer out of range" db
  else update_containers (on_container i)
         (fun r => set_c_restart_count (c_restart_count r + 1)
                     (set_c_last_restart_at (Some (ctx_now c)) (set_c_status "starting" r))) db.

Definition sql_set_stopped (i : Z) db : result nat * DB :=
  update_containers (on_container i) (set_c_status "stopped") db.

Definition sql_set_running_now c (i : Z) db : result nat * DB :=
  update_containers (on_container i)
    (fun r => set_c_status "running" (set_c_started_at (Some (ctx_now c)) r)) db.

Definition sql_set_oom (container_id : string) db : result nat * DB :=
  update_containers (on_docker_id container_id) (set_c_oom_killed true) db.

Definition sql_set_health (status container_id : string) db : result nat * DB :=
  if tany (on_docker_id container_id) (containers db) && negb (bool_decide (status ∈ health_values))
  then reject "violates check constraint containers_health_status_check" db
  else update_containers (on_docker_id container_id) (set_c_health_status status) db.

Definition sql_select_by_docker_id (container_id : string) db : result (Z * container_row) * DB :=
  (tfirst (on_docker_id container_id) (containers db), db).

Definition sql_reset_circuit (id user_id : string) db : result nat * DB :=
  with_bigint id db (fun i => with_bigint user_id db (fun u =>
    update_containers (owned_by i u)
      (fun r => set_c_circuit_open false (set_c_restart_count 0 (set_c_oom_killed false r))) db)).

Definition sql_insert_notification c (user_id type title body : string) (metadata : option Json) db
    : result unit * DB :=
  with_bigint user_id db (fun u =>
    if live (notifications db) (ctx_uuid c) then reject "duplicate key value violates notifications_pkey" db
    else if negb (live (users db) u) then reject "violates foreign key constraint notifications_user_id_fkey" db
    else (Ok tt, set_notifications
                   (<[ctx_uuid c := {| n_user_id := u; n_type := type; n_title := title; n_body := body;
                                       n_metadata := metadata; n_read_at := None;
                                       n_created_at := ctx_now c |}]> (notifications db)) db)).

Definition sql_select_notifications (user_id : string) db : result (list (string * notification_row)) * DB :=
  with_bigint user_id db (fun u =>
    (Ok (take 20 (merge_sort (desc_by (fun kr => n_created_at kr.2))
           (tselect (fun _ r => bool_decide (n_user_id r = u)) (notifications db)))), db)).

Definition sql_mark_all_read c (user_id : string) db : result nat * DB :=
  with_bigint user_id db (fun u =>
    let p := fun (_ : string) r => bool_decide (n_user_id r = u) && bool_decide (n_read_at r = None) in
    (Ok (tcount p (notifications db)),
     set_notifications (tupdate p (set_n_read_at (Some (ctx_now c))) (notifications db)) db)).

(** ** email tokens *)

Definition live_token (u : Z) (type : string) : string -> token_row -> bool := fun _ r =>
  bool_decide (t_user_id r = u) && bool_decide (t_type r = type) && bool_decide (t_used_at r = None).

Definition sql_invalidate_tokens c (u : Z) (type : string) db : result nat * DB :=
  (Ok (tcount (live_token u type) (email_tokens db)),
   set_email_tokens (tupdate (live_token u type) (set_t_used_at (Some (ctx_now c))) (email_tokens db)) db).

Definition sql_insert_token c (u : Z) (token_hash type : string) (expires_at : Z) db : result unit * DB :=
  if negb (bool_decide (type ∈ token_types)) then reject "violates check constraint email_tokens_type_check" db
  else if live (email_tokens db) (ctx_uuid c) then reject "duplicate key value violates email_tokens_pkey" db
  else if tany (fun _ r => bool_decide (t_token_hash r = token_hash)) (email_tokens db)
  then reject "duplicate key value violates email_tokens_token_hash_key" db
  else if negb (live (users db) u) then reject "violates foreign key constraint email_tokens_user_id_fkey" db
  else (Ok tt, set_email_tokens
                 (<[ctx_uuid c := {| t_user_id := u; t_token_hash := token_hash; t_type := type;
                                     t_expires_at := expires_at; t_used_at := None;
                                     t_created_at := ctx_now c |}]> (email_tokens db)) db).

Definition consumable c (token_hash type : string) : string -> token_row -> bool := fun _ r =>
  bool_decide (t_token_hash r = token_hash) && bool_decide (t_type r = type) &&
  bool_decide (t_used_at r = None) && bool_decide (ctx_now c < t_expires_at r).

Definition sql_consume_token c (token_hash type : string) db : result (string * token_row) * DB :=
  let p := consumable c token_hash type in
  let f := set_t_used_at (Some (ctx_now c)) in
  (result_map (fun kr => (kr.1, f kr.2)) (tfirst p (email_tokens db)),
   set_email_tokens (tupdate p f (email_tokens db)) db).

(** ** networks *)

Definition nets_of (u : Z) : string -> network_row -> bool := fun _ r => bool_decide (nt_user_id r = u).

Definition sql_count_networks (user_id : string) db : result nat * DB :=
  with_bigint user_id db (fun u => (Ok (tcount (nets_of u) (networks db)), db)).

Definition sql_insert_network c (user_id name docker_net_id docker_net_name : string) db
    : result (string * network_row) * DB :=
  with_bigint user_id db (fun u =>
    let r := {| nt_user_id := u; nt_name := name; nt_docker_net_id := docker_net_id;
                nt_docker_net_name := docker_net_name; nt_created_at := ctx_now c |} in
    if live (networks db) (ctx_uuid c) then reject "duplicate key value violates networks_pkey" db
    else if tany (fun _ r' => bool_decide (nt_docker_net_id r' = docker_net_id)) (networks db)
    then reject "duplicate key value violates networks_docker_net_id_key" db
    else if tany (fun _ r' => bool_decide (nt_docker_net_name r' = docker_net_name)) (networks db)
    then reject "duplicate key value violates networks_docker_net_name_key" db
    else if tany (fun _ r' => bool_decide (nt_user_id r' = u) && bool_decide (nt_name r' = name)) (networks db)
    then reject "duplicate key value violates networks_user_id_name_key" db
    else if negb (live (users db) u) then reject "violates foreign key constraint networks_user_id_fkey" db
    else (Ok (ctx_uuid c, r), set_networks (<[ctx_uuid c := r]> (networks db)) db)).

Definition sql_select_network (id user_id : string) db : result (string * network_row) * DB :=
  with_uuid id db (fun n => with_bigint user_id db (fun u =>
    (tfirst (fun k r => bool_decide (k = n) && nets_of u k r) (networks db), db))).

Definition sql_select_owned_container (id user_id : string) db : result (Z * container_row) * DB :=
  with_bigint id db (fun i => with_bigint user_id db (fun u =>
    (tfirst (owned_by i u) (containers db), db))).

(** ON CONFLICT (container_id, network_id) DO UPDATE SET alias=$3 *)
Definition sql_upsert_container_network c (i : Z) (network_id alias : string) db : result unit * DB :=
  with_uuid network_id db (fun n =>
    match container_networks db !! (i, n) with
    | Some r => (Ok tt, set_container_networks (<[(i, n) := set_cn_alias alias r]> (container_networks db)) db)
    | None =>
        if negb (live (containers db) i && live (networks db) n)
        then reject "violates foreign key constraint on container_networks" db
        else (Ok tt, set_container_networks
                (<[(i, n) := {| cn_alias := alias; cn_connected_at := ctx_now c |}]> (container_networks db)) db)
    end).

Definition sql_delete_container_network (i : Z) (network_id : string) db : result nat * DB :=
  with_uuid network_id db (fun n =>
    let p := fun k (_ : cnet_row) => bool_decide (k = (i, n)) in
    (Ok (tcount p (container_networks db)), set_container_networks (tdelete p (container_networks db)) db)).

Definition sql_delete_network (id user_id : string) db : result nat * DB :=
  with_uuid id db (fun n => with_bigint user_id db (fun u =>
    let p := fun k r => bool_decide (k = n) && nets_of u k r in
    (Ok (tcount p (networks db)), cascade (set_networks (tdelete p (networks db)) db)))).

(** ORDER BY n.created_at DESC, c.id ASC (NULLS LAST) *)
Definition net_join_le (a b : net_join_row) : Prop :=
  nt_created_at (nj_net b) < nt_created_at (nj_net a) \/
  (nt_created_at (nj_net a) = nt_created_at (nj_net b) /\
   match nj_member a, nj_member b with
   | _, None => True
   | Some ma, Some mb => ma.1.2 <= mb.1.2
   | None, Some _ => False
   end).

#[export] Instance net_join_le_dec : RelDecision net_join_le.
Proof. intros a b. unfold net_join_le. destruct (nj_member a), (nj_member b); apply _. Defined.

(** The rows of the join for one network: one per attached container, or one
    without a container. *)
Definition network_members (n : string) db : list (cnet_row * Z * container_row) :=
  omap (fun kr => (fun r => (kr.2, kr.1.1, r)) <$> containers db !! kr.1.1)
    (tselect (fun k _ => bool_decide (k.2 = n)) (container_networks db)).

Definition network_join db (nr : string * network_row) : list net_join_row :=
  match network_members nr.1 db with
  | [] => [{| nj_id := nr.1; nj_net := nr.2; nj_member := None |}]
  | ms => map (fun m => {| nj_id := nr.1; nj_net := nr.2; nj_member := Some m |}) ms
  end.

Definition sql_select_networks_of (user_id : string) db : result (list net_join_row) * DB :=
  with_bigint user_id db (fun u =>
    (Ok (merge_sort net_join_le (flat_map (network_join db) (tselect (nets_of u) (networks db)))), db)).

(** ** API keys, templates, audit log *)

Definition sql_count_api_keys (user_id : string) db : result nat * DB :=
  with_bigint user_id db (fun u =>
    (Ok (tcount (fun _ r => bool_decide (k_user_id r = u)) (api_keys db)), db)).

Definition sql_insert_api_key c (user_id name key_hash key_prefix : string) db
    : result (string * api_key_row) * DB :=
  with_bigint user_id db (fun u =>
    let r := {| k_user_id := u; k_name := name; k_key_hash := key_hash; k_key_prefix := key_prefix;
                k_last_used_at := None; k_created_at := ctx_now c |} in
    if live (api_keys db) (ctx_uuid c) then reject "duplicate key value violates api_keys_pkey" db
    else if tany (fun _ r' => bool_decide (k_key_hash r' = key_hash)) (api_keys db)
    then reject "duplicate key value violates api_keys_key_hash_key" db
    else if negb (live (users db) u) then reject "violates foreign key constraint api_keys_user_id_fkey" db
    else (Ok (ctx_uuid c, r), set_api_keys (<[ctx_uuid c := r]> (api_keys db)) db)).

Definition sql_select_api_keys (user_id : string) db : result (list (string * api_key_row)) * DB :=
  with_bigint user_id db (fun u =>
    (Ok (merge_sort (desc_by (fun kr => k_created_at kr.2))
           (tselect (fun _ r => bool_decide (k_user_id r = u)) (api_keys db))), db)).

Definition sql_delete_api_key (id user_id : string) db : result nat * DB :=
  with_uuid id db (fun k => with_bigint user_id db (fun u =>
    let p := fun k' r => bool_decide (k' = k) && bool_decide (k_user_id r = u) in
    (Ok (tcount p (api_keys db)), set_api_keys (tdelete p (api_keys db)) db))).

Definition sql_touch_api_key c (key_hash : string) db : result (string * api_key_row) * DB :=
  let p := fun (_ : string) r => bool_decide (k_key_hash r = key_hash) in
  let f := set_k_last_used_at (Some (ctx_now c)) in
  (result_map (fun kr => (kr.1, f kr.2)) (tfirst p (api_keys db)),
   set_api_keys (tupdate p f (api_keys db)) db).

Definition sql_select_template_images db : result (list string) * DB :=
  (Ok (map (fun kr => tp_image kr.2) (map_to_list (templates db))), db).

Definition sql_insert_audit c (user_id action resource resource_id ip user_agent : string)
    (metadata : option Json) db : result unit * DB :=
  with_bigint user_id db (fun u =>
    if live (audit_log db) (ctx_uuid c) then reject "duplicate key value violates audit_log_pkey" db
    else if negb (live (users db) u) then reject "violates foreign key constraint audit_log_user_id_fkey" db
    else (Ok tt, set_audit_log
                   (<[ctx_uuid c := {| a_user_id := u; a_action := action; a_resource := resource;
                                       a_resource_id := resource_id; a_ip := ip; a_user_agent := user_agent;
                                       a_metadata := metadata; a_created_at := ctx_now c |}]> (audit_log db)) db)).

(** ** LIKE

    On characters: [%] any sequence, [_] any one, a backslash quotes the next. *)
Definition utf8_len (a : ascii) : nat :=
  let n := nat_of_ascii a in
  if (n <? 192)%nat then 1 else if (n <? 224)%nat then 2 else if (n <? 240)%nat then 3 else 4.

Fixpoint utf8_chars (fuel : nat) (l : list ascii) : list (list ascii) :=
  match fuel, l with
  | S f, a :: _ => take (utf8_len a) l :: utf8_chars f (drop (utf8_len a) l)
  | _, _ => []
  end.

Definition chars_of (s : string) : list (list ascii) :=
  let l := String.list_ascii_of_string s in utf8_chars (length l) l.

Fixpoint like_chars (pattern : list (list ascii)) : list (list ascii) -> bool :=
  match pattern with
  | [] => fun t => match t with [] => true | _ => false end
  | c :: p =>
      if bool_decide (c = ["%"%char]) then
        fix any t := like_chars p t || match t with [] => false | _ :: t' => any t' end
      else if bool_decide (c = ["_"%char]) then
        fun t => match t with [] => false | _ :: t' => like_chars p t' end
      else if bool_decide (c = ["\"%char]) then
        match p with
        | [] => fun _ => false
        | d :: p' => fun t => match t with [] => false | x :: t' => bool_decide (x = d) && like_chars p' t' end
        end
      else fun t => match t with [] => false | x :: t' => bool_decide (x = c) && like_chars p t' end
  end.

Definition LIKE (text pattern : string) : bool := like_chars (chars_of pattern) (chars_of text).

(** ** The administrator's view and the catalogue *)

Definition sql_select_role (user_id : string) db : result string * DB :=
  with_bigint user_id db (fun u =>
    (result_map (fun kr => u_role kr.2) (tfirst (fun k _ => bool_decide (k = u)) (users db)), db)).

Definition sql_count_users db : result nat * DB := (Ok (size (users db)), db).
Definition sql_count_containers db : result nat * DB := (Ok (size (containers db)), db).
Definition sql_count_running db : result nat * DB :=
  (Ok (tcount (fun _ r => bool_decide (c_status r = "running")) (containers db)), db).
Definition sql_count_today c db : result nat * DB :=
  (Ok (tcount (fun _ r => match c_created_at r with
                          | Some t => bool_decide (current_date (ctx_now c) <= t)
                          | None => false
                          end) (containers db)), db).
Definition sql_count_users_on (plan_id : string) db : result nat * DB :=
  (Ok (tcount (fun _ r => bool_decide (u_plan_id r = plan_id)) (users db)), db).

Definition lower_like (pattern : string) (o : option string) : bool :=
  match o with Some s => LIKE (pg_lower s) pattern | None => false end.

(** ORDER BY u.id DESC LIMIT 20 OFFSET $2 *)
Definition sql_search_users (pattern : string) (offset : Z) db
    : result (list ((Z * user_row) * nat)) * DB :=
  if offset <? 0 then reject "OFFSET must not be negative" db
  else
    let found := merge_sort (desc_by fst)
      (tselect (fun _ r => lower_like pattern (u_email r) || lower_like pattern (u_name r)) (users db)) in
    (Ok (map (fun kr => (kr, tcount (fun _ r => bool_decide (c_user_id r = kr.1)) (containers db)))
           (take 20 (drop (Z.to_nat offset) found))), db).

(** ORDER BY popular DESC, name ASC *)
Definition template_before (a b : Z * template_row) : bool :=
  match tp_popular a.2, tp_popular b.2 with
  | true, false => true
  | false, true => false
  | _, _ => text_leb (tp_name a.2) (tp_name b.2)
  end.
Definition template_le : relation (Z * template_row) := fun a b => template_before a b = true.
#[export] Instance template_le_dec : RelDecision template_le.
Proof. intros a b. unfold template_le. apply _. Defined.

Definition sql_select_templates (category : option string) db : result (list (Z * template_row)) * DB :=
  (Ok (merge_sort template_le
         (tselect (fun _ r => match category with
                              | Some c => bool_decide (tp_category r = c)
                              | None => true
                              end) (templates db))), db).

Definition sql_select_template (id : string) db : result (Z * template_row) * DB :=
  with_bigint id db (fun i => (tfirst (fun k _ => bool_decide (k = i)) (templates db), db)).

Definition sql_select_images db : result (list (Z * image_row)) * DB :=
  (Ok (map_to_list (images db)), db).

(** ORDER BY price_usd_cents *)
Definition sql_select_plans db : result (list (string * plan_row)) * DB :=
  (Ok (merge_sort (asc_by (fun kr => pl_price_usd_cents kr.2)) (map_to_list (plans db))), db).

(** ** The server *)

Definition exec c (s : Stmt) db : result (rows s) * DB :=
  match s with
  | InsertContainer ci pn fp po st ui sa im => sql_insert_container c ci pn fp po st ui sa im db
  | SelectContainer i => sql_select_container i db
  | UpdateContainerRow i ci pn fp po st sa im => sql_update_container i ci pn fp po st sa im db
  | DeleteContainerRow i => sql_delete_container i db
  | SelectRunningBefore t => sql_select_running_before t db
  | InsertUser n e h => sql_insert_user c n e h db
  | SelectUser i => sql_select_user i db
  | SelectUserByEmail e => sql_select_user_by_email e db
  | SelectUserContainers i => sql_select_user_containers i db
  | DeleteContainersOfUser u => sql_delete_containers_of_user u db
  | DeleteUserRow i => sql_delete_user i db
  | SelectPlanOfUser u => sql_select_plan_of_user u db
  | ResetHealthRow i => sql_reset_health i db
  | SelectDockerNetIds i => sql_select_docker_net_ids i db
  | SelectCrashInfo ci => sql_select_crash_info ci db
  | OpenCircuit i => sql_open_circuit i db
  | IncRestart i => sql_inc_restart c i db
  | SetStopped i => sql_set_stopped i db
  | SetRunningNow i => sql_set_running_now c i db
  | SetOom ci => sql_set_oom ci db
  | SetHealth s ci => sql_set_health s ci db
  | SelectByDockerId ci => sql_select_by_docker_id ci db
  | ResetCircuitRow i u => sql_reset_circuit i u db
  | SelectHealth i u => sql_select_health i u db
  | InsertNotification u ty ti b m => sql_insert_notification c u ty ti b m db
  | InvalidateTokens u ty => sql_invalidate_tokens c u ty db
  | InsertToken u h ty e => sql_insert_token c u h ty e db
  | ConsumeToken h ty => sql_consume_token c h ty db
  | VerifyEmailRow u => sql_verify_email c u db
  | SetPassword h u => sql_set_password h u db
  | CountNetworks u => sql_count_networks u db
  | InsertNetwork u n di dn => sql_insert_network c u n di dn db
  | SelectNetwork i u => sql_select_network i u db
  | SelectOwnedContainer i u => sql_select_owned_container i u db
  | UpsertContainerNetwork i n a => sql_upsert_container_network c i n a db
  | DeleteContainerNetwork i n => sql_delete_container_network i n db
  | DeleteNetworkRow i u => sql_delete_network i u db
  | SelectNetworksOf u => sql_select_networks_of u db
  | CountApiKeys u => sql_count_api_keys u db
  | InsertApiKey u n h p => sql_insert_api_key c u n h p db
  | SelectApiKeys u => sql_select_api_keys u db
  | DeleteApiKey k u => sql_delete_api_key k u db
  | TouchApiKey h => sql_touch_api_key c h db
  | SelectTemplateImages => sql_select_template_images db
  | InsertAudit u a r ri ip ua m => sql_insert_audit c u a r ri ip ua m db
  | SelectNotifications u => sql_select_notifications u db
  | MarkAllReadRows u => sql_mark_all_read c u db
  | UpdatePlanRow p u => sql_update_plan p u db
  | SelectRole u => sql_select_role u db
  | CountUsers => sql_count_users db
  | CountContainers => sql_count_containers db
  | CountRunning => sql_count_running db
  | CountToday => sql_count_today c db
  | CountUsersOn p => sql_count_users_on p db
  | SearchUsers p o => sql_search_users p o db
  | SelectTemplates c => sql_select_templates c db
  | SelectTemplate i => sql_select_template i db
  | SelectImages => sql_select_images db
  | SelectPlans => sql_select_plans db
  end.
End Statements.
