(* ===== verification/SqlFacts.v ===== *)
(** SqlFacts: every statement keeps the schema's constraints, and a statement
    that fails changes nothing. *)

From S2P Require Export Sql.

(** ** Unfolding helpers *)

Section Helpers.
Context {PG : Postgres}.

Lemma tany_false {K R} `{Countable K} (p : K -> R -> bool) (t : gmap K R) :
  tany p t = false <-> forall k r, t !! k = Some r -> p k r = false.
Proof. unfold tany. by rewrite negb_false_iff, Nat.eqb_eq, tcount_zero. Qed.

Lemma tany_true {K R} `{Countable K} (p : K -> R -> bool) (t : gmap K R) k r :
  t !! k = Some r -> p k r = true -> tany p t = true.
Proof.
  intros Hk Hp. destruct (tany p t) eqn:E; [done|].
  rewrite tany_false in E. by rewrite (E _ _ Hk) in Hp.
Qed.

(** No row matches: the update is the identity. *)
Lemma tupdate_none {K R} `{Countable K} (p : K -> R -> bool) f (t : gmap K R) :
  (forall k r, t !! k = Some r -> p k r = false) -> tupdate p f t = t.
Proof.
  intros Hn. apply map_eq. intros k. rewrite lookup_tupdate.
  destruct (t !! k) as [r|] eqn:Hk; [|done]. simpl. by rewrite (Hn _ _ Hk).
Qed.

Lemma set_containers_id db : set_containers (containers db) db = db.
Proof. by destruct db. Qed.
Lemma set_users_id db : set_users (users db) db = db.
Proof. by destruct db. Qed.
Lemma set_email_tokens_id db : set_email_tokens (email_tokens db) db = db.
Proof. by destruct db. Qed.
Lemma set_api_keys_id db : set_api_keys (api_keys db) db = db.
Proof. by destruct db. Qed.

(** ** Constraint preservation, by family of statements *)

Lemma wf_update_containers p f db :
  wf_db db ->
  (forall r, c_user_id (f r) = c_user_id r) ->
  (forall r, c_container_id (f r) = c_container_id r) ->
  (forall k r, containers db !! k = Some r -> p k r = true ->
     c_health_status r ∈ health_values -> c_health_status (f r) ∈ health_values) ->
  wf_db (set_containers (tupdate p f (containers db)) db).
Proof.
  intros [] Hu Hc Hh. split; simpl; try done; auto with wf.
  - by apply check_tupdate.
  - apply uniq_tupdate; [done|]. intros r. by rewrite Hc.
  - apply check_tupdate; [done|]. intros k r Hk Hp. by apply (Hh k).
  - eapply check_impl; [done|]. intros k r [??]. by rewrite <- is_Some_tupdate.
Qed.

Lemma wf_update_user i f db :
  wf_db db ->
  (forall r, u_email (f r) = u_email r) -> (forall r, u_role (f r) = u_role r) ->
  (forall r, users db !! i = Some r -> is_Some (plans db !! u_plan_id (f r))) ->
  wf_db (set_users (tupdate (fun k _ => bool_decide (k = i)) f (users db)) db).
Proof.
  intros [] He Hr Hp.
  assert (forall k, is_Some (users db !! k) ->
    is_Some (tupdate (fun k _ => bool_decide (k = i)) f (users db) !! k)) as Hm
    by (intros k; by rewrite <- is_Some_tupdate).
  split; simpl; try done; try (eapply fk_target; by eauto).
  - by apply check_tupdate.
  - by apply uniq_tupdate.
  - intros k r (r0 & Hk & ->)%lookup_tupdate_Some. case_bool_decide; [subst; by apply Hp|].
    by eapply wf_users_plan.
  - apply check_tupdate; [done|]. intros k r _ _. by rewrite Hr.
Qed.

Lemma wf_delete_containers p db :
  wf_db db -> wf_db (cascade (set_containers (tdelete p (containers db)) db)).
Proof. intros []. apply cascade_wf; simpl; auto with wf. Qed.

Lemma wf_delete_users p db :
  wf_db db -> wf_db (cascade (set_users (tdelete p (users db)) db)).
Proof. intros []. apply cascade_wf; simpl; auto with wf. Qed.

Lemma wf_delete_networks p db :
  wf_db db -> wf_db (cascade (set_networks (tdelete p (networks db)) db)).
Proof. intros []. apply cascade_wf; simpl; auto with wf. Qed.

(** A new value of a unique column that no row has. *)
Lemma uniq_insert_fresh {K R U} `{Countable K} `{EqDecision U} (key : R -> U) (t : gmap K R) k r :
  uniq (fun r => Some (key r)) t ->
  tany (fun _ r' => bool_decide (key r' = key r)) t = false ->
  uniq (fun r => Some (key r)) (<[k := r]> t).
Proof.
  intros Hu Hn. apply uniq_insert; [done|].
  intros k' r' u Hk' [= <-] [= E]. rewrite tany_false in Hn.
  specialize (Hn _ _ Hk'). by rewrite bool_decide_eq_true_2 in Hn.
Qed.
End Helpers.

#[export] Hint Resolve wf_delete_containers wf_delete_users wf_delete_networks uniq_insert_fresh : wf.

(** Splits the guards of a statement until its result is a pair. *)
Ltac sql_cases :=
  repeat match goal with
  | |- context [match ?x with _ => _ end] =>
      lazymatch x with
      | context [match _ with _ => _ end] => fail
      | _ => destruct x eqn:?
      end
  end; simpl in *.

(** Turns the boolean guards left in the context into propositions. *)
Ltac bool_norm :=
  repeat match goal with
  | H : negb _ = false |- _ => apply negb_false_iff in H
  | H : negb _ = true |- _ => apply negb_true_iff in H
  | H : _ && _ = true |- _ => apply andb_true_iff in H as [? ?]
  | H : _ || _ = false |- _ => apply orb_false_iff in H as [? ?]
  | H : live _ _ = true |- _ => apply live_true in H
  | H : bool_decide _ = true |- _ => apply bool_decide_eq_true in H
  | H : bool_decide _ = false |- _ => apply bool_decide_eq_false in H
  end.

Lemma none_health : "none" ∈ health_values.
Proof. apply list_elem_of_here. Qed.
Lemma user_role : "user" ∈ role_values.
Proof. apply list_elem_of_here. Qed.
#[export] Hint Resolve none_health user_role : wf.

(** The definitions of the statements, down to the operations on tables. *)
Ltac unfold_sql :=
  cbv [sql_insert_container sql_select_container sql_update_container sql_delete_container
    sql_insert_user sql_select_user sql_select_user_containers sql_delete_containers_of_user
    sql_delete_user sql_select_plan_of_user sql_reset_health sql_select_docker_net_ids
    sql_inc_restart sql_set_health sql_reset_circuit sql_select_health sql_insert_notification
    sql_insert_token sql_count_networks sql_insert_network sql_select_network
    sql_select_owned_container sql_upsert_container_network sql_delete_container_network
    sql_delete_network sql_select_networks_of sql_count_api_keys sql_insert_api_key
    sql_select_api_keys sql_delete_api_key sql_insert_audit sql_select_notifications
    sql_mark_all_read sql_update_plan sql_open_circuit sql_set_stopped sql_set_running_now
    sql_set_oom sql_select_role sql_search_users sql_select_template update_user with_bigint
    with_uuid reject].

Section Facts.
Context {PG : Postgres}.

Lemma wf_insert_container c ci pn fp po st ui sa im db :
  wf_db db -> wf_db (sql_insert_container c ci pn fp po st ui sa im db).2.
Proof.
  intros Hwf. pose proof Hwf as [].
  unfold sql_insert_container, with_bigint, reject. sql_cases; try done.
  bool_norm.
  split; simpl; auto with wf.
  - by apply check_insert.
  - by apply uniq_insert_fresh.
  - apply check_insert; [done|]. exact none_health.
  - eapply check_impl; [done|]. intros k r [??]. auto with wf.
Qed.

Lemma wf_update_container i ci pn fp po st sa im db :
  wf_db db -> wf_db (sql_update_container i ci pn fp po st sa im db).2.
Proof.
  intros Hwf. pose proof Hwf as [].
  unfold sql_update_container, with_bigint, reject. sql_cases; try done.
  rename c into r. rename Heqo0 into Hr.
  rewrite tany_false in Heqb. split; simpl; auto with wf.
  - apply check_insert; [done|]. exact (wf_containers_key _ _ Hr).
  - apply fk_insert; [done|]. exact (wf_containers_user _ _ Hr).
  - apply uniq_insert; [done|]. intros k' r' u Hk' [= <-] [= E].
    specialize (Heqb _ _ Hk'). apply andb_false_iff in Heqb as [Hb|Hb].
    + unfold on_docker_id in Hb. by rewrite bool_decide_eq_true_2 in Hb.
    + by apply negb_false_iff, bool_decide_eq_true in Hb.
  - apply check_insert; [done|]. exact (wf_containers_health _ _ Hr).
  - eapply check_impl; [done|]. intros k r' [??]. auto with wf.
Qed.

Lemma wf_insert_user c n e h db : wf_db db -> wf_db (sql_insert_user c n e h db).2.
Proof.
  intros Hwf. pose proof Hwf as []. unfold sql_insert_user, reject. sql_cases; try done.
  bool_norm.
  split; simpl; auto with wf; try (eapply fk_target; by eauto with wf).
  - by apply check_insert.
  - apply uniq_insert; [done|]. intros k' r' u Hk' [= <-] E.
    rewrite tany_false in Heqb1. specialize (Heqb1 _ _ Hk'). by rewrite bool_decide_eq_true_2 in Heqb1.
  - apply check_insert; [done|]. exact user_role.
Qed.

Lemma wf_insert_notification c u ty ti b m db :
  wf_db db -> wf_db (sql_insert_notification c u ty ti b m db).2.
Proof.
  intros Hwf. pose proof Hwf as [].
  unfold sql_insert_notification, with_bigint, reject. sql_cases; try done.
  bool_norm. split; simpl; auto with wf.
Qed.

Lemma wf_insert_token c u h ty e db : wf_db db -> wf_db (sql_insert_token c u h ty e db).2.
Proof.
  intros Hwf. pose proof Hwf as []. unfold sql_insert_token, reject. sql_cases; try done.
  bool_norm.
  split; simpl; auto with wf; [by apply uniq_insert_fresh|by apply check_insert].
Qed.

Lemma wf_insert_network c u n di dn db : wf_db db -> wf_db (sql_insert_network c u n di dn db).2.
Proof.
  intros Hwf. pose proof Hwf as [].
  unfold sql_insert_network, with_bigint, reject. sql_cases; try done.
  bool_norm. split; simpl; auto with wf.
  - by apply uniq_insert_fresh.
  - by apply uniq_insert_fresh.
  - apply (uniq_insert_fresh (fun r => (nt_user_id r, nt_name r))); [done|]. simpl.
    rewrite tany_false in *. intros k' r' Hk'. specialize (Heqb2 _ _ Hk'). simpl in Heqb2.
    apply bool_decide_eq_false. intros [= E1 E2]. by rewrite !bool_decide_eq_true_2 in Heqb2.
  - eapply check_impl; [done|]. intros k r' [??]. auto with wf.
Qed.

Lemma wf_upsert_container_network c i n a db :
  wf_db db -> wf_db (sql_upsert_container_network c i n a db).2.
Proof.
  intros Hwf. pose proof Hwf as [].
  unfold sql_upsert_container_network, with_uuid, reject. sql_cases; try done.
  - split; simpl; auto. apply check_insert; [done|]. by apply (wf_cnets _ _ Heqo0).
  - bool_norm.
    split; simpl; auto. by apply check_insert.
Qed.

Lemma wf_insert_api_key c u n h p db : wf_db db -> wf_db (sql_insert_api_key c u n h p db).2.
Proof.
  intros Hwf. pose proof Hwf as [].
  unfold sql_insert_api_key, with_bigint, reject. sql_cases; try done.
  bool_norm. split; simpl; auto with wf. by apply uniq_insert_fresh.
Qed.

Lemma wf_insert_audit c u a r ri ip ua m db : wf_db db -> wf_db (sql_insert_audit c u a r ri ip ua m db).2.
Proof.
  intros Hwf. pose proof Hwf as [].
  unfold sql_insert_audit, with_bigint, reject. sql_cases; try done.
  bool_norm. split; simpl; auto with wf.
Qed.

Lemma wf_update_plan p u db : wf_db db -> wf_db (sql_update_plan p u db).2.
Proof.
  intros Hwf. unfold sql_update_plan, with_bigint, reject. sql_cases; try done.
  apply wf_update_user; try done. intros r Hr. simpl.
  apply andb_false_iff in Heqb as [Hl|Hl].
  - unfold live in Hl. by rewrite Hr in Hl.
  - by apply negb_false_iff, live_true in Hl.
Qed.

(** In-place updates that touch no constrained column. *)
Lemma wf_simple_updates c s db :
  wf_db db ->
  match s with
  | ResetHealthRow _ | OpenCircuit _ | IncRestart _ | SetStopped _ | SetRunningNow _ | SetOom _
  | SetHealth _ _ | ResetCircuitRow _ _ | InvalidateTokens _ _ | ConsumeToken _ _
  | VerifyEmailRow _ | SetPassword _ _ | MarkAllReadRows _ | TouchApiKey _
  | DeleteContainerNetwork _ _ | DeleteApiKey _ _ => wf_db (exec c s db).2
  | _ => True
  end.
Proof.
  intros Hwf.
  destruct s; try exact I; simpl.
  - unfold sql_reset_health, with_bigint. sql_cases; [|done].
    apply wf_update_containers; try done. intros. exact none_health.
  - by apply wf_update_containers.
  - unfold sql_inc_restart, reject. sql_cases; [done|]. by apply wf_update_containers.
  - by apply wf_update_containers.
  - by apply wf_update_containers.
  - by apply wf_update_containers.
  - unfold sql_set_health, reject. sql_cases; [done|].
    apply wf_update_containers; try done. intros k r Hk Hp _. simpl.
    apply andb_false_iff in Heqb as [Hb|Hb].
    + by rewrite (tany_true _ _ _ _ Hk Hp) in Hb.
    + by apply negb_false_iff, bool_decide_eq_true in Hb.
  - unfold sql_reset_circuit, with_bigint. sql_cases; try done. by apply wf_update_containers.
  - pose proof Hwf as []. split; simpl; auto with wf; [by apply uniq_tupdate|by apply check_tupdate].
  - pose proof Hwf as []. split; simpl; auto with wf; [by apply uniq_tupdate|by apply check_tupdate].
  - apply wf_update_user; try done. simpl. apply Hwf.
  - apply wf_update_user; try done. simpl. apply Hwf.
  - pose proof Hwf as []. unfold sql_delete_container_network, with_uuid. sql_cases; [|done].
    split; simpl; auto with wf.
  - pose proof Hwf as []. unfold sql_delete_api_key, with_uuid, with_bigint. sql_cases; try done.
    split; simpl; auto with wf.
  - pose proof Hwf as []. split; simpl; auto with wf. by apply uniq_tupdate.
  - pose proof Hwf as []. unfold sql_mark_all_read, with_bigint. sql_cases; [|done].
    split; simpl; auto with wf.
Qed.

(** Every statement preserves every declared constraint. *)
Lemma exec_wf c s db : wf_db db -> wf_db (exec c s db).2.
Proof.
  intros Hwf. pose proof (wf_simple_updates c s db Hwf) as Hs.
  destruct s; try exact Hs; simpl;
    auto using wf_insert_container, wf_update_container, wf_insert_user, wf_insert_notification,
      wf_insert_token, wf_insert_network, wf_upsert_container_network, wf_insert_api_key,
      wf_insert_audit, wf_update_plan;
    unfold_sql;
    sql_cases; auto with wf.
Qed.
(** A statement that fails changes nothing. *)
Lemma exec_err c s db e : (exec c s db).1 = Err e -> (exec c s db).2 = db.
Proof.
  destruct s; simpl;
    unfold_sql; cbv [update_containers];
    try (sql_cases; congruence).
  - unfold sql_consume_token. destruct (tfirst _ _) as [|e'] eqn:E; [done|]. simpl. intros _.
    pose proof (tfirst_Err _ _ _ E) as ->. rewrite tfirst_None in E.
    by rewrite tupdate_none, set_email_tokens_id.
  - unfold sql_touch_api_key. destruct (tfirst _ _) as [|e'] eqn:E; [done|]. simpl. intros _.
    pose proof (tfirst_Err _ _ _ E) as ->. rewrite tfirst_None in E.
    by rewrite tupdate_none, set_api_keys_id.
Qed.
End Facts.
