(* ===== verification/Bus.v ===== *)
(** Bus: service/notificationBus.go, the in-memory publish/subscribe broker
    behind the SSE stream.

    The map of subscriber slices and the channels are separate stores, as in
    the code: [b_subs] holds channel references, [b_chans] the channels.  A
    channel has a buffer of capacity 32 and a closed flag; sending on, or
    closing, a closed channel panics ([None]).  Subscribing and cancelling hold
    the bus mutex alone, so they are atomic steps, and the in-place
    [append(subs[:i], subs[i+1:]...)] is not observable: a slice is a list.
    Publications hold the mutex for reading and may interleave; as no channel can
    tell ([BusProps.concurrent_publications]), each is one step too. *)

From S2P Require Export Json.

Record Notification := {
  n_ID : string;
  n_Type : string;
  n_Title : string;
  n_Body : string;
  n_Metadata : option Json;
  n_CreatedAt : string;
}.

#[export] Instance Notification_eq_dec : EqDecision Notification.
Proof. solve_decision. Defined.

(** [make(chan Notification, 32)] *)
Definition chan_capacity : nat := 32.

Record Chan := { ch_buf : list Notification; ch_closed : bool }.

Record Bus := {
  b_subs : gmap string (list nat);
  b_chans : gmap nat Chan;
  b_next : nat;
}.

Definition empty_bus : Bus := {| b_subs := ∅; b_chans := ∅; b_next := 0 |}.

(** [b.subscribers[userID]]: the nil slice when the key is absent. *)
Definition subs_of (b : Bus) (userID : string) : list nat := default [] (b_subs b !! userID).

Definition Subscribe (userID : string) (b : Bus) : nat * Bus :=
  let ch := b_next b in
  (ch, {| b_subs := <[userID := subs_of b userID ++ [ch]]> (b_subs b);
          b_chans := <[ch := {| ch_buf := []; ch_closed := false |}]> (b_chans b);
          b_next := S ch |}).

(** [select { case ch <- n: default: }] *)
Definition try_send (n : Notification) (chans : gmap nat Chan) (ch : nat) : option (gmap nat Chan) :=
  match chans !! ch with
  | None => None
  | Some c =>
      if ch_closed c then None
      else if (length (ch_buf c) <? chan_capacity)%nat
           then Some (<[ch := {| ch_buf := ch_buf c ++ [n]; ch_closed := false |}]> chans)
           else Some chans
  end.

Fixpoint send_all (n : Notification) (chans : gmap nat Chan) (chs : list nat) : option (gmap nat Chan) :=
  match chs with
  | [] => Some chans
  | ch :: chs' => match try_send n chans ch with
                  | Some chans' => send_all n chans' chs'
                  | None => None
                  end
  end.

Definition Publish (userID : string) (n : Notification) (b : Bus) : option Bus :=
  match send_all n (b_chans b) (subs_of b userID) with
  | Some chans => Some {| b_subs := b_subs b; b_chans := chans; b_next := b_next b |}
  | None => None
  end.

(** [close(ch)] *)
Definition close_chan (ch : nat) (chans : gmap nat Chan) : option (gmap nat Chan) :=
  match chans !! ch with
  | Some c => if ch_closed c then None
              else Some (<[ch := {| ch_buf := ch_buf c; ch_closed := true |}]> chans)
  | None => None
  end.

(** [append(subs[:i], subs[i+1:]...)] at the first index holding [ch]. *)
Fixpoint remove_first (ch : nat) (subs : list nat) : option (list nat) :=
  match subs with
  | [] => None
  | c :: subs' => if Nat.eqb c ch then Some subs'
                  else match remove_first ch subs' with Some s => Some (c :: s) | None => None end
  end.

Definition unsubscribe (userID : string) (ch : nat) (b : Bus) : option Bus :=
  match remove_first ch (subs_of b userID) with
  | None => Some b
  | Some subs' =>
      match close_chan ch (b_chans b) with
      | Some chans => Some {| b_subs := <[userID := subs']> (b_subs b);
                              b_chans := chans; b_next := b_next b |}
      | None => None
      end
  end.

(** [n := <-ch] in the Stream loop: the head of the buffer, when there is one. *)
Definition receive (ch : nat) (b : Bus) : option (Notification * Bus) :=
  match b_chans b !! ch with
  | Some c =>
      match ch_buf c with
      | n :: buf => Some (n, {| b_subs := b_subs b;
                                b_chans := <[ch := {| ch_buf := buf; ch_closed := ch_closed c |}]> (b_chans b);
                                b_next := b_next b |})
      | [] => None
      end
  | None => None
  end.

(** ** The bus as a state machine *)

Inductive BusEvent :=
| EvSubscribe (userID : string) (ch : nat)
| EvPublish (userID : string) (n : Notification)
| EvUnsubscribe (userID : string) (ch : nat)
| EvReceive (ch : nat) (n : Notification).

Inductive bus_step : Bus -> BusEvent -> Bus -> Prop :=
| step_subscribe b u ch b' : Subscribe u b = (ch, b') -> bus_step b (EvSubscribe u ch) b'
| step_publish b u n b' : Publish u n b = Some b' -> bus_step b (EvPublish u n) b'
| step_unsubscribe b u ch b' : unsubscribe u ch b = Some b' -> bus_step b (EvUnsubscribe u ch) b'
| step_receive b ch n b' : receive ch b = Some (n, b') -> bus_step b (EvReceive ch n) b'.

(** [bus_run evs b]: the history [evs] (oldest first) leads from the empty bus to [b]. *)
Inductive bus_run : list BusEvent -> Bus -> Prop :=
| run_nil : bus_run [] empty_bus
| run_snoc evs b e b' : bus_run evs b -> bus_step b e b' -> bus_run (evs ++ [e]) b'.

(** The notifications published for a user, and those taken from a channel. *)
Definition published (u : string) (evs : list BusEvent) : list Notification :=
  omap (fun e => match e with
                 | EvPublish u' n => if bool_decide (u' = u) then Some n else None
                 | _ => None end) evs.
Definition received (ch : nat) (evs : list BusEvent) : list Notification :=
  omap (fun e => match e with
                 | EvReceive ch' n => if Nat.eqb ch' ch then Some n else None
                 | _ => None end) evs.

Definition open_chan (b : Bus) (ch : nat) : Prop :=
  exists c, b_chans b !! ch = Some c /\ ch_closed c = false.

(** ** Invariant *)

Record bus_inv (b : Bus) : Prop := {
  inv_open : forall u ch, ch ∈ subs_of b u -> open_chan b ch;
  inv_nodup : forall u, NoDup (subs_of b u);
  inv_owner : forall u v ch, ch ∈ subs_of b u -> ch ∈ subs_of b v -> u = v;
  inv_fresh : forall ch c, b_chans b !! ch = Some c -> (ch < b_next b)%nat;
  inv_bound : forall ch c, b_chans b !! ch = Some c -> (length (ch_buf c) <= chan_capacity)%nat;
}.

(** ** Lemmas *)

Lemma subs_of_insert b u v l chans nx :
  subs_of {| b_subs := <[u := l]> (b_subs b); b_chans := chans; b_next := nx |} v
  = if decide (u = v) then l else subs_of b v.
Proof.
  unfold subs_of. simpl. rewrite lookup_insert. by case_decide.
Qed.

Lemma empty_bus_inv : bus_inv empty_bus.
Proof.
  split; unfold subs_of; simpl; intros *; rewrite ?lookup_empty; simpl;
    try (intros H; by apply elem_of_nil in H); try done. constructor.
Qed.

Lemma remove_first_Some ch l l' :
  remove_first ch l = Some l' -> exists l1 l2, l = l1 ++ ch :: l2 /\ l' = l1 ++ l2.
Proof.
  revert l'. induction l as [|c l IH]; intros l'; simpl; [done|].
  destruct (Nat.eqb_spec c ch) as [->|Hne].
  - intros [= <-]. by exists [], l.
  - destruct (remove_first ch l) as [s|]; [|done]. intros [= <-].
    destruct (IH s eq_refl) as (l1 & l2 & -> & ->). by exists (c :: l1), l2.
Qed.

Lemma remove_first_None ch l : remove_first ch l = None -> ch ∉ l.
Proof.
  induction l as [|c l IH]; simpl; [intros _; apply not_elem_of_nil|].
  destruct (Nat.eqb_spec c ch) as [->|Hne]; [done|].
  destruct (remove_first ch l); [done|]. intros _. apply not_elem_of_cons. split; [done|].
  by apply IH.
Qed.

(** What one non-blocking send does to a buffer. *)
Definition deliver (n : Notification) (c : Chan) : Chan :=
  if (length (ch_buf c) <? chan_capacity)%nat
  then {| ch_buf := ch_buf c ++ [n]; ch_closed := ch_closed c |} else c.

Lemma try_send_open n chans ch c :
  chans !! ch = Some c -> ch_closed c = false ->
  try_send n chans ch = Some (<[ch := deliver n c]> chans).
Proof.
  intros Hc Ho. unfold try_send, deliver. rewrite Hc, Ho. case_match; [done|].
  by rewrite insert_id.
Qed.

(** Sending to distinct open channels delivers to each of them and to no other. *)
Lemma send_all_spec n chs chans :
  NoDup chs -> (forall ch, ch ∈ chs -> exists c, chans !! ch = Some c /\ ch_closed c = false) ->
  exists chans', send_all n chans chs = Some chans' /\
    forall ch, chans' !! ch = if decide (ch ∈ chs) then deliver n <$> chans !! ch else chans !! ch.
Proof.
  revert chans. induction chs as [|ch chs IH]; intros chans Hnd Ho.
  { exists chans. split; [done|]. intros ch. rewrite decide_False; [done|]. apply not_elem_of_nil. }
  inversion Hnd as [|? ? Hni Hnd']; subst.
  destruct (Ho ch) as (c & Hc & Hcl); [by left|].
  simpl. rewrite (try_send_open _ _ _ _ Hc Hcl).
  destruct (IH (<[ch := deliver n c]> chans) Hnd') as (chans' & Hs & Hl).
  { intros ch' Hin. rewrite lookup_insert_ne; [apply Ho; by right|]. by intros ->. }
  exists chans'. split; [done|]. intros ch'. rewrite Hl.
  destruct (decide (ch' = ch)) as [->|Hne].
  - rewrite decide_False by done. rewrite decide_True by by left.
    by rewrite lookup_insert_eq, Hc.
  - rewrite lookup_insert_ne by done.
    destruct (decide (ch' ∈ chs)); [rewrite decide_True by by right|rewrite decide_False]; try done.
    by intros [?|?]%elem_of_cons.
Qed.

Lemma Publish_spec u n b :
  bus_inv b -> exists b', Publish u n b = Some b' /\ b_subs b' = b_subs b /\ b_next b' = b_next b /\
    forall ch, b_chans b' !! ch =
      if decide (ch ∈ subs_of b u) then deliver n <$> b_chans b !! ch else b_chans b !! ch.
Proof.
  intros [Ho Hn Hw Hf Hb]. unfold Publish.
  destruct (send_all_spec n (subs_of b u) (b_chans b)) as (chans & -> & Hl); [done|..].
  { intros ch Hch. by apply (Ho u). }
  by eexists.
Qed.

Lemma deliver_length n c : (length (ch_buf c) <= chan_capacity)%nat ->
  (length (ch_buf (deliver n c)) <= chan_capacity)%nat.
Proof.
  intros Hc. unfold deliver. destruct (Nat.ltb_spec (length (ch_buf c)) chan_capacity); [|done].
  simpl. rewrite length_app. simpl. lia.
Qed.

Lemma deliver_closed n c : ch_closed (deliver n c) = ch_closed c.
Proof. unfold deliver. by case_match. Qed.

Lemma unsubscribe_spec u ch b :
  bus_inv b -> exists b', unsubscribe u ch b = Some b' /\
    (forall v, subs_of b' v = if decide (u = v) then filter (fun c => c <> ch) (subs_of b v) else subs_of b v) /\
    b_next b' = b_next b /\
    (forall ch', b_chans b' !! ch' =
      if decide (ch' = ch /\ ch ∈ subs_of b u)
      then (fun c => {| ch_buf := ch_buf c; ch_closed := true |}) <$> b_chans b !! ch' else b_chans b !! ch').
Proof.
  intros [Ho Hn Hw Hf Hb]. unfold unsubscribe. destruct (remove_first ch (subs_of b u)) as [l|] eqn:Hr.
  - pose proof (remove_first_Some _ _ _ Hr) as (l1 & l2 & Hl & ->).
    assert (ch ∈ subs_of b u) as Hin by (rewrite Hl; set_solver).
    destruct (Ho _ _ Hin) as (c & Hc & Hcl). unfold close_chan. rewrite Hc, Hcl.
    eexists. split; [done|]. split_and!; [|done|].
    + intros v. rewrite subs_of_insert. case_decide as Hv; [subst v|done].
      pose proof (Hn u) as Hnd. rewrite Hl in Hnd |- *.
      apply NoDup_app in Hnd as (Hnd1 & Hd & [Hn2 Hnd2]%NoDup_cons).
      rewrite filter_app, filter_cons_False by (intros ?; by apply H).
      rewrite !filter_all; [done|..]; apply Forall_forall; intros x Hx ->; [done|].
      apply (Hd _ Hx). by left.
    + simpl. intros ch'. rewrite lookup_insert. destruct (decide (ch = ch')) as [->|Hne].
      * rewrite decide_True by done. by rewrite Hc.
      * rewrite decide_False; [done|]. by intros [-> _].
  - pose proof (remove_first_None _ _ Hr) as Hni. exists b. split; [done|]. split_and!; [|done|].
    + intros v. case_decide as Hv; [subst v|done]. rewrite filter_all; [done|].
      apply Forall_forall. by intros x Hx ->.
    + intros ch'. rewrite decide_False; [done|]. by intros [_ ?].
Qed.

(** ** The invariant holds along every history *)

Lemma open_chan_impl b b' ch :
  (forall c, b_chans b !! ch = Some c -> ch_closed c = false ->
     exists c', b_chans b' !! ch = Some c' /\ ch_closed c' = false) ->
  open_chan b ch -> open_chan b' ch.
Proof. intros Hi (c & Hc & Ho). by apply (Hi c). Qed.

Lemma Subscribe_inv u b : bus_inv b -> bus_inv (Subscribe u b).2.
Proof.
  intros [Ho Hn Hw Hf Hb].
  assert (forall v, b_next b ∉ subs_of b v) as Hfresh.
  { intros v Hin. destruct (Ho _ _ Hin) as (c & Hc & _). apply Hf in Hc. lia. }
  assert (forall v ch, ch ∈ subs_of (Subscribe u b).2 v ->
            (ch ∈ subs_of b v) \/ (v = u /\ ch = b_next b)) as Hs.
  { intros v ch. simpl. rewrite subs_of_insert. case_decide as Hv; [subst v|by left].
    rewrite elem_of_app, list_elem_of_singleton. intros [?| ->]; [by left|by right]. }
  split.
  - intros v ch [Hin|[-> ->]]%Hs.
    + eapply open_chan_impl; [|by eapply Ho]. intros c Hc Hcl. exists c. split; [|done].
      simpl. rewrite lookup_insert_ne; [done|]. intros <-. by apply (Hfresh v).
    + eexists. simpl. by rewrite lookup_insert_eq.
  - intros v. simpl. rewrite subs_of_insert. case_decide; [subst v|done].
    apply NoDup_app. split_and!; [done| |apply NoDup_singleton].
    intros x Hx ->%list_elem_of_singleton. by apply (Hfresh u).
  - intros v1 v2 ch [H1|[-> E1]]%Hs [H2|[-> E2]]%Hs; [by eapply Hw|..]; subst; try done.
    + by apply Hfresh in H1.
    + by apply Hfresh in H2.
  - intros ch c. simpl. rewrite lookup_insert_Some. intros [[<- _]|[_ Hc%Hf]]; lia.
  - intros ch c. simpl. rewrite lookup_insert_Some. intros [[_ <-]|[_ Hc%Hb]]; [simpl; lia|done].
Qed.

Lemma Publish_inv u n b b' : bus_inv b -> Publish u n b = Some b' -> bus_inv b'.
Proof.
  intros Hinv Hp. destruct (Publish_spec u n b Hinv) as (b'' & Hp' & Hs & Hx & Hl).
  rewrite Hp in Hp'. injection Hp' as <-. destruct Hinv as [Ho Hn Hw Hf Hb].
  assert (forall v, subs_of b' v = subs_of b v) as Hsub by (intros v; unfold subs_of; by rewrite Hs).
  split; intros *; rewrite ?Hsub, ?Hx; eauto.
  - intros Hin. eapply open_chan_impl; [|by eapply Ho]. intros c Hc Hcl. rewrite Hl, Hc.
    case_decide; simpl; [|by eauto]. eexists. split; [done|]. by rewrite deliver_closed.
  - rewrite Hl. case_decide; [|apply Hf]. destruct (b_chans b !! ch) eqn:E; [|done].
    intros _. by eapply Hf.
  - rewrite Hl. case_decide; [|apply Hb]. destruct (b_chans b !! ch) eqn:E; [|done].
    intros [= <-]. apply deliver_length. by eapply Hb.
Qed.

Lemma unsubscribe_inv u ch b b' : bus_inv b -> unsubscribe u ch b = Some b' -> bus_inv b'.
Proof.
  intros Hinv Hp. destruct (unsubscribe_spec u ch b Hinv) as (b'' & Hp' & Hs & Hx & Hl).
  rewrite Hp in Hp'. injection Hp' as <-. destruct Hinv as [Ho Hn Hw Hf Hb].
  assert (forall v c, c ∈ subs_of b' v -> c ∈ subs_of b v /\ (u = v -> c <> ch)) as Hsub.
  { intros v c. rewrite Hs. destruct (decide (u = v)) as [<-|Hv]; [|done].
    intros [? ?]%list_elem_of_filter. done. }
  split.
  - intros v c [Hin Hne]%Hsub. eapply open_chan_impl; [|by eapply Ho].
    intros k Hk Hcl. rewrite Hl, decide_False; [by eauto|].
    intros [-> Hin']. pose proof (Hw _ _ _ Hin Hin') as ->. by apply Hne.
  - intros v. rewrite Hs. destruct (decide (u = v)); [by apply NoDup_filter|done].
  - intros v1 v2 c [H1 _]%Hsub [H2 _]%Hsub. by eapply Hw.
  - intros c k. rewrite Hl, Hx. destruct (decide _); [|apply Hf].
    destruct (b_chans b !! c) eqn:E; [|done]. intros _. by eapply Hf.
  - intros c k. rewrite Hl. destruct (decide _); [|apply Hb].
    destruct (b_chans b !! c) eqn:E; [|done]. intros [= <-]. simpl. by eapply Hb.
Qed.

Lemma receive_Some ch b n b' :
  receive ch b = Some (n, b') ->
  exists c buf, b_chans b !! ch = Some c /\ ch_buf c = n :: buf /\
    b_subs b' = b_subs b /\ b_next b' = b_next b /\
    b_chans b' = <[ch := {| ch_buf := buf; ch_closed := ch_closed c |}]> (b_chans b).
Proof.
  unfold receive. destruct (b_chans b !! ch) as [c|]; [|done].
  destruct (ch_buf c) as [|m buf] eqn:E; [done|]. intros [= -> <-]. by exists c, buf.
Qed.

Lemma receive_inv ch n b b' : bus_inv b -> receive ch b = Some (n, b') -> bus_inv b'.
Proof.
  intros [Ho Hn Hw Hf Hb] (c & buf & Hc & Hbuf & Hs & Hx & Hch)%receive_Some.
  assert (forall v, subs_of b' v = subs_of b v) as Hsub by (intros v; unfold subs_of; by rewrite Hs).
  split; intros *; rewrite ?Hsub, ?Hx, ?Hch; eauto.
  - intros Hin. eapply open_chan_impl; [|by eapply Ho]. intros k Hk Hcl. rewrite Hch.
    rewrite lookup_insert. case_decide; [subst|by eauto]. eexists. split; [done|]. simpl. congruence.
  - rewrite lookup_insert_Some. intros [[<- _]|[_ ?]]; by eapply Hf.
  - rewrite lookup_insert_Some. intros [[<- <-]|[_ ?]]; [|by eapply Hb].
    pose proof (Hb _ _ Hc) as Hlen. rewrite Hbuf in Hlen. simpl in *. lia.
Qed.

Lemma bus_step_inv b e b' : bus_inv b -> bus_step b e b' -> bus_inv b'.
Proof.
  intros Hinv Hstep. inv Hstep;
    eauto using Publish_inv, unsubscribe_inv, receive_inv.
  replace b' with (Subscribe u b).2; [by apply Subscribe_inv|]. by rewrite H.
Qed.

Lemma bus_run_inv evs b : bus_run evs b -> bus_inv b.
Proof. induction 1; eauto using empty_bus_inv, bus_step_inv. Qed.

Create HintDb bus discriminated.
#[export] Hint Resolve empty_bus_inv Subscribe_inv Publish_inv unsubscribe_inv receive_inv bus_run_inv : bus.

(** ** Histories *)

Lemma published_snoc u evs e : published u (evs ++ [e]) = published u evs ++ published u [e].
Proof. unfold published. by rewrite omap_app. Qed.
Lemma received_snoc ch evs e : received ch (evs ++ [e]) = received ch evs ++ received ch [e].
Proof. unfold received. by rewrite omap_app. Qed.

(** What has been taken from a channel and what is still buffered. *)
Definition channel_history (ch : nat) (evs : list BusEvent) (b : Bus) : list Notification :=
  received ch evs ++ default [] (ch_buf <$> b_chans b !! ch).

Definition history_ok (evs : list BusEvent) (b : Bus) : Prop :=
  (forall u ch, ch ∈ subs_of b u -> channel_history ch evs b `sublist_of` published u evs) /\
  (forall ch, (b_next b <= ch)%nat -> received ch evs = []).

Lemma history_subscribe evs u b :
  bus_inv b -> history_ok evs b -> history_ok (evs ++ [EvSubscribe u (b_next b)]) (Subscribe u b).2.
Proof.
  intros Hinv [Hs Hr]. unfold history_ok, channel_history.
  setoid_rewrite published_snoc. setoid_rewrite received_snoc. simpl.
  setoid_rewrite app_nil_r. split; [|intros; apply Hr; lia].
  intros v ch. rewrite subs_of_insert. intros Hin. rewrite lookup_insert.
  destruct (decide (b_next b = ch)) as [<-|Hne]; simpl.
  - rewrite Hr by done. apply sublist_nil_l.
  - apply Hs. destruct (decide (u = v)) as [->|]; [|done].
    apply elem_of_app in Hin as [?| ->%list_elem_of_singleton]; done.
Qed.

Lemma deliver_sublist n c l p :
  l ++ ch_buf c `sublist_of` p -> l ++ ch_buf (deliver n c) `sublist_of` p ++ [n].
Proof.
  intros Hl. unfold deliver. case_match; simpl.
  - rewrite app_assoc. by apply sublist_app.
  - by apply sublist_inserts_r.
Qed.

Lemma history_publish evs u n b b' :
  bus_inv b -> Publish u n b = Some b' -> history_ok evs b -> history_ok (evs ++ [EvPublish u n]) b'.
Proof.
  intros Hinv Hp [Hs Hr]. destruct (Publish_spec u n b Hinv) as (b'' & Hp' & Hsub & Hx & Hl).
  rewrite Hp in Hp'. injection Hp' as <-. unfold history_ok, channel_history.
  setoid_rewrite published_snoc. setoid_rewrite received_snoc. simpl.
  setoid_rewrite app_nil_r. rewrite Hx. split; [|done].
  intros v ch Hin. assert (ch ∈ subs_of b v) as Hin' by (unfold subs_of in *; by rewrite Hsub in Hin).
  specialize (Hs _ _ Hin'). unfold channel_history in Hs.
  destruct (inv_open _ Hinv _ _ Hin') as (c & Hc & _). rewrite Hc in Hs. simpl in Hs.
  rewrite Hl, Hc. destruct (decide (ch ∈ subs_of b u)) as [Hu|Hu]; simpl.
  - rewrite (inv_owner _ Hinv _ _ _ Hu Hin'). rewrite bool_decide_eq_true_2 by done.
    by apply deliver_sublist.
  - case_bool_decide; [by subst|]. by rewrite app_nil_r.
Qed.

Lemma history_unsubscribe evs u ch b b' :
  bus_inv b -> unsubscribe u ch b = Some b' -> history_ok evs b ->
  history_ok (evs ++ [EvUnsubscribe u ch]) b'.
Proof.
  intros Hinv Hp [Hs Hr]. destruct (unsubscribe_spec u ch b Hinv) as (b'' & Hp' & Hsub & Hx & Hl).
  rewrite Hp in Hp'. injection Hp' as <-. unfold history_ok, channel_history.
  setoid_rewrite published_snoc. setoid_rewrite received_snoc. simpl.
  setoid_rewrite app_nil_r. rewrite Hx. split; [|done].
  intros v c Hin. assert (c ∈ subs_of b v) as Hin'.
  { rewrite Hsub in Hin. destruct (decide (u = v)); [by apply list_elem_of_filter in Hin as [_ ?]|done]. }
  specialize (Hs _ _ Hin'). unfold channel_history in Hs. rewrite Hl.
  destruct (decide (c = ch /\ ch ∈ subs_of b u)); [|done]. by destruct (b_chans b !! c).
Qed.

Lemma history_receive evs ch n b b' :
  receive ch b = Some (n, b') -> history_ok evs b -> bus_inv b ->
  history_ok (evs ++ [EvReceive ch n]) b'.
Proof.
  intros (c & buf & Hc & Hbuf & Hsub & Hx & Hch)%receive_Some [Hs Hr] Hinv.
  unfold history_ok, channel_history.
  setoid_rewrite published_snoc. setoid_rewrite received_snoc. simpl.
  setoid_rewrite app_nil_r. rewrite Hx, Hch. split.
  - intros v k Hin. assert (k ∈ subs_of b v) as Hin' by (unfold subs_of in *; by rewrite Hsub in Hin).
    specialize (Hs _ _ Hin'). unfold channel_history in Hs.
    destruct (Nat.eqb_spec ch k) as [<-|Hne].
    + rewrite lookup_insert_eq. rewrite Hc in Hs. simpl in *. rewrite Hbuf in Hs.
      by rewrite <- app_assoc.
    + rewrite lookup_insert_ne by done. by rewrite app_nil_r.
  - intros k Hk. rewrite (Hr _ Hk). apply (inv_fresh _ Hinv) in Hc.
    destruct (Nat.eqb_spec ch k) as [<-|Hne]; [lia|done].
Qed.

Lemma bus_run_history evs b : bus_run evs b -> history_ok evs b.
Proof.
  induction 1 as [|evs b e b' Hrun IH Hstep].
  { split; [|done]. intros u ch Hin. by apply elem_of_nil in Hin. }
  pose proof (bus_run_inv _ _ Hrun) as Hinv. inv Hstep.
  - unfold Subscribe in *. simplify_eq. by apply history_subscribe.
  - by eapply history_publish.
  - by eapply history_unsubscribe.
  - by eapply history_receive.
Qed.
