(* ===== verification/BusProps.v ===== *)
(** BusProps: the properties of the notification bus, over every history of
    subscriptions, publications, receptions and cancellations. *)

From S2P Require Export Bus.

(** After any history, no operation of the bus panics: publishing never
    sends on a closed channel, cancelling a subscription (even one cancelled
    before, or another user's) never closes a channel twice, and no channel
    holds more than its 32 slots. *)
Theorem bus_never_panics evs b :
  bus_run evs b ->
  (forall u n, is_Some (Publish u n b)) /\ (forall u ch, is_Some (unsubscribe u ch b)) /\
  (forall ch c, b_chans b !! ch = Some c -> (length (ch_buf c) <= chan_capacity)%nat).
Proof.
  intros Hr. pose proof (bus_run_inv _ _ Hr) as Hinv. split; [|split].
  - intros u n. destruct (Publish_spec u n b Hinv) as (b' & -> & _). by eexists.
  - intros u ch. destruct (unsubscribe_spec u ch b Hinv) as (b' & -> & _). by eexists.
  - apply Hinv.
Qed.

(** A publication reaches exactly the open streams of its user: each of
    them receives the notification last in its buffer unless the buffer is
    full, in which case it is dropped for that stream alone; every other
    channel, of that user or of another, is as before, and so is the list of
    subscribers. *)
Theorem Publish_isolated evs b u n b' :
  bus_run evs b -> Publish u n b = Some b' ->
  b_subs b' = b_subs b /\
  (forall ch, ch ∈ subs_of b u -> exists c, b_chans b !! ch = Some c /\ ch_closed c = false /\
     b_chans b' !! ch = Some (if (length (ch_buf c) <? chan_capacity)%nat
                              then {| ch_buf := ch_buf c ++ [n]; ch_closed := false |} else c)) /\
  (forall ch, ch ∉ subs_of b u -> b_chans b' !! ch = b_chans b !! ch) /\
  (forall v ch, v <> u -> ch ∈ subs_of b v -> b_chans b' !! ch = b_chans b !! ch).
Proof.
  intros Hr Hp. pose proof (bus_run_inv _ _ Hr) as Hinv.
  destruct (Publish_spec u n b Hinv) as (b'' & Hp' & Hs & _ & Hl).
  rewrite Hp in Hp'. injection Hp' as <-.
  assert (forall ch, ch ∉ subs_of b u -> b_chans b' !! ch = b_chans b !! ch) as Hout.
  { intros ch Hch. by rewrite Hl, decide_False. }
  split; [done|]. split; [|split; [done|]].
  - intros ch Hch. destruct (inv_open _ Hinv _ _ Hch) as (c & Hc & Ho). exists c.
    split; [done|]. split; [done|]. rewrite Hl, decide_True, Hc by done. simpl. unfold deliver.
    by rewrite Ho.
  - intros v ch Hv Hch. apply Hout. intros Hu. by apply Hv, (inv_owner _ Hinv _ _ ch).
Qed.

(** What an open stream has delivered, followed by what waits in its
    buffer, is a subsequence of what was published for that user since the
    program started, in order of publication: nothing is duplicated, reordered
    or delivered to another user. *)
Theorem stream_fifo evs b u ch c :
  bus_run evs b -> ch ∈ subs_of b u -> b_chans b !! ch = Some c ->
  received ch evs ++ ch_buf c `sublist_of` published u evs.
Proof.
  intros Hr Hch Hc. pose proof (bus_run_history _ _ Hr) as [Hs _].
  specialize (Hs _ _ Hch). unfold channel_history in Hs. by rewrite Hc in Hs.
Qed.

(** ** A concrete history: two users, one reception, one cancellation *)

Definition note (id : string) : Notification :=
  {| n_ID := id; n_Type := "t"; n_Title := ""; n_Body := ""; n_Metadata := None; n_CreatedAt := "" |}.

Definition history : list BusEvent :=
  [EvSubscribe "1" 0; EvSubscribe "2" 1; EvPublish "1" (note "a"); EvPublish "2" (note "b");
   EvPublish "1" (note "c"); EvReceive 0 (note "a"); EvUnsubscribe "2" 1].

Definition history_bus : Bus :=
  {| b_subs := <["2" := []]> (<["1" := [0%nat]]> ∅);
     b_chans := <[1%nat := {| ch_buf := [note "b"]; ch_closed := true |}]>
                  (<[0%nat := {| ch_buf := [note "c"]; ch_closed := false |}]> ∅);
     b_next := 2 |}.

(** Replaying a history. *)
Definition bus_do (e : BusEvent) (b : Bus) : option Bus :=
  match e with
  | EvSubscribe u ch => let '(c, b') := Subscribe u b in if Nat.eqb c ch then Some b' else None
  | EvPublish u n => Publish u n b
  | EvUnsubscribe u ch => unsubscribe u ch b
  | EvReceive ch n => match receive ch b with
                      | Some (m, b') => if bool_decide (m = n) then Some b' else None
                      | None => None
                      end
  end.

Lemma bus_do_step e b b' : bus_do e b = Some b' -> bus_step b e b'.
Proof.
  destruct e as [u ch|u n|u ch|ch n]; simpl.
  - destruct (Nat.eqb_spec (b_next b) ch) as [<-|]; [|done]. intros [= <-]. by constructor.
  - by constructor.
  - by constructor.
  - destruct (receive ch b) as [[m b1]|] eqn:E; [|done]. case_bool_decide; [|done].
    intros [= <-]. subst. by constructor.
Qed.

Definition replay (evs : list BusEvent) : option Bus :=
  fold_left (fun o e => o ≫= bus_do e) evs (Some empty_bus).

Lemma replay_run evs b : replay evs = Some b -> bus_run evs b.
Proof.
  revert b. induction evs as [|e evs IH] using rev_ind; intros b.
  { intros [= <-]. constructor. }
  unfold replay. rewrite fold_left_app. simpl. intros (b1 & H1 & H2)%bind_Some.
  eapply run_snoc; [by apply IH|by apply bus_do_step].
Qed.

Lemma history_run : bus_run history history_bus.
Proof. apply replay_run. vm_compute. reflexivity. Qed.

Lemma bus_never_panics_witness :
  bus_run history history_bus /\ is_Some (Publish "2" (note "d") history_bus) /\
  is_Some (unsubscribe "2" 1 history_bus).
Proof.
  split; [exact history_run|].
  pose proof (bus_never_panics history history_bus history_run) as (Hp & Hu & _). by split.
Defined.

Lemma Publish_isolated_witness :
  exists b', Publish "1" (note "d") history_bus = Some b' /\
    b_chans b' !! 1%nat = b_chans history_bus !! 1%nat /\
    b_chans b' !! 0%nat = Some {| ch_buf := [note "c"; note "d"]; ch_closed := false |}.
Proof.
  destruct (Publish "1" (note "d") history_bus) as [b'|] eqn:E; [|by vm_compute in E].
  exists b'. split; [done|].
  pose proof (Publish_isolated history history_bus "1" (note "d") b' history_run E) as (_ & Hin & Hout & _).
  split; [apply Hout|].
  - vm_compute. intros H. apply elem_of_cons in H as [H|H]; [done|by apply elem_of_nil in H].
  - destruct (Hin 0%nat) as (c & Hc & _ & Hb); [vm_compute; left|].
    vm_compute in Hc. injection Hc as <-. exact Hb.
Defined.

Lemma stream_fifo_witness :
  bus_run history history_bus /\ [note "a"] ++ [note "c"] `sublist_of` published "1" history.
Proof.
  split; [exact history_run|].
  apply (stream_fifo history history_bus "1" 0 {| ch_buf := [note "c"]; ch_closed := false |} history_run);
    [vm_compute; left|vm_compute; reflexivity].
Defined.

(** * The bus as mailboxes *)

(** What the bus promises, without slices, closed flags and references: an open
    subscription is a mailbox of its user. *)
Notation Mailboxes := (gmap nat (string * list Notification)).

Definition offer (u : string) (n : Notification) (box : string * list Notification) : string * list Notification :=
  (box.1, if bool_decide (box.1 = u) && (length box.2 <? chan_capacity)%nat then box.2 ++ [n] else box.2).

(** [None]: the event cannot happen. *)
Definition mailbox_do (e : BusEvent) (s : Mailboxes) : option Mailboxes :=
  match e with
  | EvSubscribe u ch => match s !! ch with Some _ => None | None => Some (<[ch := (u, [])]> s) end
  | EvPublish u n => Some (offer u n <$> s)
  | EvUnsubscribe u ch =>
      Some (match s !! ch with Some box => if bool_decide (box.1 = u) then delete ch s else s | None => s end)
  | EvReceive ch n =>
      match s !! ch with
      | Some (u, m :: q) => if bool_decide (m = n) then Some (<[ch := (u, q)]> s) else None
      | Some (_, []) => None
      | None => Some s
      end
  end.

(** The mailboxes are the open channels that are still subscribed; a cancelled
    channel may only be drained. *)
Definition mailboxes_of (b : Bus) (s : Mailboxes) : Prop := forall ch u q,
  s !! ch = Some (u, q) <-> ch ∈ subs_of b u /\ b_chans b !! ch = Some {| ch_buf := q; ch_closed := false |}.

Lemma mailbox_of_sub b s u ch : bus_inv b -> mailboxes_of b s -> ch ∈ subs_of b u ->
  exists c, b_chans b !! ch = Some c /\ ch_closed c = false /\ s !! ch = Some (u, ch_buf c).
Proof.
  intros Hb Hs Hin. destruct (inv_open _ Hb _ _ Hin) as ([q cl] & Hc & Hcl). simpl in Hcl. subst cl.
  exists {| ch_buf := q; ch_closed := false |}. split; [done|]. split; [done|]. by apply Hs.
Qed.

Lemma mailbox_subscribe u b s : bus_inv b -> mailboxes_of b s ->
  exists s', mailbox_do (EvSubscribe u (b_next b)) s = Some s' /\ mailboxes_of (Subscribe u b).2 s'.
Proof.
  intros Hb Hs. simpl.
  assert (b_chans b !! b_next b = None) as Hfresh.
  { apply eq_None_not_Some. intros [c Hc]. apply (inv_fresh _ Hb) in Hc. lia. }
  assert (forall v, b_next b ∉ subs_of b v) as Hni.
  { intros v Hin. destruct (inv_open _ Hb _ _ Hin) as (c & Hc & _). congruence. }
  assert (s !! b_next b = None) as ->.
  { apply eq_None_not_Some. intros [[v q] Hq]. apply Hs in Hq as [Hq _]. by apply Hni in Hq. }
  eexists. split; [done|]. intros ch v q. simpl. rewrite subs_of_insert.
  destruct (decide (ch = b_next b)) as [->|Hne].
  - rewrite !lookup_insert_eq. split.
    + intros E. simplify_eq. rewrite decide_True by done. split; [set_solver|done].
    + intros [Hin E]. simplify_eq. case_decide as Hv; [by subst|by apply Hni in Hin].
  - rewrite !lookup_insert_ne, (Hs ch v q) by done. case_decide as Hv; [subst v|done]. set_solver.
Qed.

Lemma mailbox_publish u n b b' s : bus_inv b -> mailboxes_of b s -> Publish u n b = Some b' ->
  mailboxes_of b' (offer u n <$> s).
Proof.
  intros Hb Hs Hp. destruct (Publish_spec u n b Hb) as (b'' & Hp' & Hsub & _ & Hl).
  rewrite Hp in Hp'. injection Hp' as <-. intros ch v q. rewrite lookup_fmap, fmap_Some, Hl.
  assert (subs_of b' v = subs_of b v) as -> by (unfold subs_of; by rewrite Hsub). split.
  - intros ([v' q'] & Hq & E). unfold offer in E. injection E as -> ->. apply Hs in Hq as [Hin Hc]. split; [done|]. rewrite Hc.
    destruct (decide (ch ∈ subs_of b u)) as [Hu|Hu]; simpl.
    + rewrite (inv_owner _ Hb _ _ _ Hin Hu). rewrite bool_decide_eq_true_2 by done. unfold deliver. simpl.
      by destruct (length q' <? chan_capacity)%nat.
    + rewrite bool_decide_eq_false_2; [done|]. by intros ->.
  - intros [Hin Hc]. destruct (mailbox_of_sub _ _ _ _ Hb Hs Hin) as (c & Hc0 & Hcl & Hq).
    exists (v, ch_buf c). split; [done|]. rewrite Hc0 in Hc. unfold offer. cbn [fst snd].
    destruct (decide (ch ∈ subs_of b u)) as [Hu|Hu]; simpl in Hc.
    + rewrite (inv_owner _ Hb _ _ _ Hin Hu), bool_decide_eq_true_2 by done. unfold deliver in Hc.
      by destruct (length (ch_buf c) <? chan_capacity)%nat; simplify_eq.
    + rewrite bool_decide_eq_false_2 by by intros ->. by simplify_eq.
Qed.

Lemma mailbox_unsubscribe u ch b b' s : bus_inv b -> mailboxes_of b s -> unsubscribe u ch b = Some b' ->
  exists s', mailbox_do (EvUnsubscribe u ch) s = Some s' /\ mailboxes_of b' s'.
Proof.
  intros Hb Hs Hp. destruct (unsubscribe_spec u ch b Hb) as (b'' & Hp' & Hsub & _ & Hl).
  rewrite Hp in Hp'. injection Hp' as <-. eexists. split; [reflexivity|]. intros c v q. rewrite Hsub, Hl.
  destruct (decide (ch ∈ subs_of b u)) as [Hin|Hni].
  - destruct (mailbox_of_sub _ _ _ _ Hb Hs Hin) as (k & Hk & Hcl & Hq). rewrite Hq. cbn [fst].
    rewrite bool_decide_eq_true_2 by done. destruct (decide (c = ch)) as [->|Hne].
    + rewrite lookup_delete_eq, (decide_True (P := ch = ch /\ _)), Hk by done. split; [done|]. by intros [_ [=]].
    + rewrite lookup_delete_ne, (Hs c v q), (decide_False (P := c = ch /\ _)) by naive_solver.
      destruct (decide (u = v)); [|done]. rewrite (list_elem_of_filter (fun k => k <> ch)). naive_solver.
  - rewrite (decide_False (P := c = ch /\ _)) by naive_solver.
    assert (match s !! ch with Some box => if bool_decide (box.1 = u) then delete ch s else s | None => s end = s) as ->.
    { destruct (s !! ch) as [[v' q']|] eqn:E; [|done]. apply Hs in E as [E _]. simpl.
      rewrite bool_decide_eq_false_2; [done|]. by intros ->. }
    rewrite (Hs c v q). destruct (decide (u = v)) as [<-|]; [|done]. rewrite (list_elem_of_filter (fun k => k <> ch)).
    split; [|naive_solver].
    intros [Hc ?]. split; [split; [|done]|done]. by intros ->.
Qed.

Lemma mailbox_receive ch n b b' s : bus_inv b -> mailboxes_of b s -> receive ch b = Some (n, b') ->
  exists s', mailbox_do (EvReceive ch n) s = Some s' /\ mailboxes_of b' s'.
Proof.
  intros Hb Hs (c & buf & Hc & Hbuf & Hsub & _ & Hch)%receive_Some.
  assert (forall v, subs_of b' v = subs_of b v) as Hv by (intros v; unfold subs_of; by rewrite Hsub). simpl.
  destruct (s !! ch) as [[u q]|] eqn:E.
  - pose proof (proj1 (Hs _ _ _) E) as [Hin Hq]. rewrite Hc in Hq. injection Hq as ->. simpl in Hbuf. subst q.
    rewrite bool_decide_eq_true_2 by done. eexists. split; [done|]. intros c v q. rewrite Hv, Hch. simpl.
    destruct (decide (c = ch)) as [->|Hne]; [|by rewrite !lookup_insert_ne].
    rewrite !lookup_insert_eq. split; [intros E'; by simplify_eq|]. intros [Hin' E']. simplify_eq.
    by rewrite (inv_owner _ Hb _ _ _ Hin Hin').
  - exists s. split; [done|]. intros c' v q. rewrite Hv, Hch. destruct (decide (c' = ch)) as [->|Hne].
    + rewrite E, lookup_insert_eq. split; [done|]. intros [Hin _].
      destruct (mailbox_of_sub _ _ _ _ Hb Hs Hin) as (k & _ & _ & Hk). congruence.
    + by rewrite lookup_insert_ne.
Qed.

(** C31: the bus is a set of mailboxes: along every history of subscriptions,
    publications, cancellations and receptions, the channels, closed flags and
    slices of subscribers implement one bounded queue per open subscription, to
    which a publication appends exactly when the mailbox is its user's and not
    full, and from which receptions take in order; every event that the code
    performs is one the mailboxes allow. *)
Theorem bus_refines_mailboxes evs b : bus_run evs b ->
  exists s, fold_left (fun o e => o ≫= mailbox_do e) evs (Some ∅) = Some s /\ mailboxes_of b s.
Proof.
  induction 1 as [|evs b e b' Hrun (s & Hf & Hs) Hstep].
  { exists ∅. split; [done|]. intros ch u q. rewrite lookup_empty. split; [done|]. intros [H _]. by apply elem_of_nil in H. }
  pose proof (bus_run_inv _ _ Hrun) as Hb.
  assert (exists s', mailbox_do e s = Some s' /\ mailboxes_of b' s') as (s' & He & Hs').
  { inv Hstep.
    - unfold Subscribe in *. simplify_eq. by apply mailbox_subscribe.
    - eexists. split; [reflexivity|]. by eapply mailbox_publish.
    - by eapply mailbox_unsubscribe.
    - by eapply mailbox_receive. }
  exists s'. split; [|done]. rewrite fold_left_app, Hf. exact He.
Qed.

Lemma bus_refines_mailboxes_witness :
  bus_run history history_bus /\ mailboxes_of history_bus (<[0%nat := ("1", [note "c"])]> ∅).
Proof.
  split; [exact history_run|]. destruct (bus_refines_mailboxes history history_bus history_run) as (s & Hf & Hs).
  vm_compute in Hf. injection Hf as <-. exact Hs.
Defined.

(** * Publications at the same time

    [Publish] holds the read lock only: two publications interleave, one send at
    a time, while no subscription comes or goes. *)

Inductive interleaved {A} : list A -> list A -> list A -> Prop :=
| interleaved_nil : interleaved [] [] []
| interleaved_l x l1 l2 l : interleaved l1 l2 l -> interleaved (x :: l1) l2 (x :: l)
| interleaved_r x l1 l2 l : interleaved l1 l2 l -> interleaved l1 (x :: l2) (x :: l).

(** The sends of [Publish userID n]. *)
Definition sends (u : string) (n : Notification) (b : Bus) : list (Notification * nat) := map (pair n) (subs_of b u).

Fixpoint run_sends (l : list (Notification * nat)) (chans : gmap nat Chan) : option (gmap nat Chan) :=
  match l with
  | [] => Some chans
  | (n, ch) :: l' => match try_send n chans ch with Some chans' => run_sends l' chans' | None => None end
  end.

(** What is sent to [ch], in order. *)
Definition sent_to (ch : nat) (l : list (Notification * nat)) : list Notification :=
  omap (fun s => if bool_decide (s.2 = ch) then Some s.1 else None) l.

Definition all_open (chans : gmap nat Chan) (l : list (Notification * nat)) : Prop :=
  Forall (fun s => exists c, chans !! s.2 = Some c /\ ch_closed c = false) l.

Lemma run_sends_spec l chans : all_open chans l ->
  exists chans', run_sends l chans = Some chans' /\
    forall ch, chans' !! ch = (fun c => fold_left (fun c n => deliver n c) (sent_to ch l) c) <$> chans !! ch.
Proof.
  revert chans. induction l as [|[n k] l IH]; intros chans Ho; simpl.
  { exists chans. split; [done|]. intros ch. by destruct (chans !! ch). }
  apply Forall_cons in Ho as [(c & Hc & Hcl) Ho]. simpl in Hc. rewrite (try_send_open _ _ _ _ Hc Hcl).
  destruct (IH (<[k := deliver n c]> chans)) as (chans' & Hr & Hl).
  { apply (Forall_impl _ _ _ Ho). intros [m j] (c' & Hc' & Hcl'). simpl in *. rewrite lookup_insert.
    case_decide; [|by exists c']. eexists. split; [done|]. by rewrite deliver_closed. }
  exists chans'. split; [done|]. intros ch. rewrite Hl, lookup_insert. case_decide as Hk; simpl.
  - subst ch. by rewrite Hc, bool_decide_eq_true_2.
  - by rewrite bool_decide_eq_false_2.
Qed.

Lemma send_all_sends n chs chans : send_all n chans chs = run_sends (map (pair n) chs) chans.
Proof. revert chans. induction chs as [|ch chs IH]; intros chans; simpl; [done|]. by destruct (try_send n chans ch). Qed.

Lemma sent_to_sends ch u n b : bus_inv b ->
  sent_to ch (sends u n b) = if decide (ch ∈ subs_of b u) then [n] else [].
Proof.
  intros Hb. pose proof (inv_nodup _ Hb u) as Hn. unfold sends, sent_to. induction Hn as [|k l Hk Hn IH].
  { rewrite decide_False by apply not_elem_of_nil. done. }
  cbn [map omap list_omap snd fst]. destruct (decide (k = ch)) as [->|Hne].
  - rewrite bool_decide_eq_true_2, IH, decide_False, decide_True by (done || by left). done.
  - rewrite bool_decide_eq_false_2, IH by done. destruct (decide (ch ∈ l)) as [Hin|Hni].
    + by rewrite decide_True by by right.
    + rewrite decide_False; [done|]. by intros [?|?]%elem_of_cons.
Qed.

Lemma interleaved_sent ch l1 l2 l : interleaved l1 l2 l -> interleaved (sent_to ch l1) (sent_to ch l2) (sent_to ch l).
Proof.
  induction 1 as [|[n k] l1 l2 l H IH|[n k] l1 l2 l H IH]; [constructor|..]; unfold sent_to in *; simpl;
    (case_bool_decide; [by constructor|done]).
Qed.

Lemma all_open_sends u n b : bus_inv b -> all_open (b_chans b) (sends u n b).
Proof.
  intros Hb. apply Forall_forall. intros [m k] (j & [= -> ->] & Hj)%list_elem_of_fmap. exact (inv_open _ Hb _ _ Hj).
Qed.

Lemma interleaved_Forall {A} (P : A -> Prop) l1 l2 l : interleaved l1 l2 l -> Forall P l1 -> Forall P l2 -> Forall P l.
Proof. induction 1; rewrite ?Forall_cons; naive_solver. Qed.

Lemma interleaved_short {A} (l1 l2 l : list A) : interleaved l1 l2 l -> (length l1 <= 1)%nat -> (length l2 <= 1)%nat ->
  l = l1 ++ l2 \/ l = l2 ++ l1.
Proof.
  assert (forall (l1 l2 l : list A), interleaved l1 l2 l -> (l1 = [] -> l = l2) /\ (l2 = [] -> l = l1)) as Hnil.
  { induction 1 as [|x l1' l2' l' H [IH1 IH2]|x l1' l2' l' H [IH1 IH2]]; [done|..]; (split; intros E; [|]); try done;
      f_equal; auto. }
  intros H H1 H2. inversion H as [|x l1' l2' l' H'|x l1' l2' l' H']; subst; [by left|left|right]; simpl in *.
  - assert (l1' = []) as -> by (destruct l1'; simpl in *; [done|lia]). by rewrite (proj1 (Hnil _ _ _ H') eq_refl).
  - assert (l2' = []) as -> by (destruct l2'; simpl in *; [done|lia]). by rewrite (proj2 (Hnil _ _ _ H') eq_refl).
Qed.

(** Two publications under the read lock leave in every channel what one of the
    two orders leaves there, whichever way their sends interleave; no send fails. *)
Theorem concurrent_publications b u1 n1 u2 n2 l b12 b21 : bus_inv b ->
  interleaved (sends u1 n1 b) (sends u2 n2 b) l ->
  Publish u1 n1 b ≫= Publish u2 n2 = Some b12 -> Publish u2 n2 b ≫= Publish u1 n1 = Some b21 ->
  exists chans, run_sends l (b_chans b) = Some chans /\
    forall ch, chans !! ch = b_chans b12 !! ch \/ chans !! ch = b_chans b21 !! ch.
Proof.
  intros Hb Hl H12 H21.
  assert (forall u n v m b', Publish u n b ≫= Publish v m = Some b' -> forall ch,
    b_chans b' !! ch = (fun c => fold_left (fun c n => deliver n c) (sent_to ch (sends u n b) ++ sent_to ch (sends v m b)) c)
      <$> b_chans b !! ch) as Hseq.
  { intros u n v m b' (b1 & H1 & H2)%bind_Some ch.
    destruct (Publish_spec u n b Hb) as (b1' & E1 & S1 & _ & L1). rewrite H1 in E1. injection E1 as <-.
    destruct (Publish_spec v m b1) as (b2 & E2 & _ & _ & L2); [by eapply Publish_inv|]. rewrite H2 in E2. injection E2 as <-.
    rewrite L2, L1, !sent_to_sends by done. assert (subs_of b1 v = subs_of b v) as -> by (unfold subs_of; by rewrite S1).
    destruct (b_chans b !! ch); by repeat case_decide. }
  destruct (run_sends_spec l (b_chans b)) as (chans & Hr & Hc).
  { apply (interleaved_Forall _ _ _ _ Hl); by apply all_open_sends. }
  exists chans. split; [done|]. intros ch. rewrite Hc, (Hseq _ _ _ _ _ H12), (Hseq _ _ _ _ _ H21).
  destruct (interleaved_short _ _ _ (interleaved_sent ch _ _ _ Hl)) as [-> | ->]; [..|by left|by right].
  all: rewrite sent_to_sends by done; by case_decide; simpl; lia.
Qed.
