(* ===== verification/World.v ===== *)
(** World: the effects the Go code performs, the state they act on, and
    programs as trees of effects.

    A handler or service method is a [Prog A]: a finite tree whose nodes are
    effects and whose leaves are results.  [run] executes a program alone;
    [sched] interleaves several at the granularity of one effect.  What comes
    from outside the repository (the Docker daemon, the disk, clocks, random
    numbers, infrastructure failures) is an [Env]: a function of the number of
    effects performed so far, so that every sequence of answers is some
    environment. *)

From S2P Require Export Sql Bus.

(** * The Docker API *)

(** [container.Config] and [container.HostConfig], the fields the code sets. *)
Record ContainerConfig := {
  cfg_Image : string;
  cfg_Tty : bool;
  cfg_WorkingDir : string;
  cfg_Cmd : list string;
  cfg_Labels : list (string * string);
  cfg_ExposedPorts : list string;
  cfg_MountSource : string;
  cfg_MountTarget : string;
  cfg_PortBindings : list (string * (string * string));
  cfg_Memory : Z;
  cfg_NanoCPUs : Z;
}.

Inductive DockerCall :=
| ImageInspect (image : string)
| ImagePull (image : string)
| PullDrain (image : string)
| ContainerCreate (cfg : ContainerConfig)
| ContainerStart (id : string)
| ContainerStop (id : string) (timeout : option Z)
| ContainerRestart (id : string) (timeout : option Z)
| ContainerRemove (id : string) (force : bool)
| ContainerInspectPorts (id : string)
| ContainerExecCreate (id : string) (cmd : list string) (stdin tty : bool)
| ContainerExecAttach (exec_id : string) (tty : bool)
| ExecReadOutput (exec_id : string)
| ContainerExecResize (exec_id : string) (cols rows : Z)
| ContainerLogs (id : string)
| ContainerStats (id : string)
| CopyToContainer (id dir name : string) (mode : Z) (content : string)
| NetworkCreate (name driver : string) (attachable : bool) (labels : list (string * string))
| NetworkRemove (id : string)
| NetworkConnect (net_id container_id : string) (aliases : list string)
| NetworkDisconnect (net_id container_id : string) (force : bool)
| NetworkInspect (id : string).

#[export] Instance DockerCall_eq_dec : EqDecision DockerCall.
Proof.
  assert (EqDecision ContainerConfig) by solve_decision. solve_decision.
Defined.

(** What each call returns on success: an ID, the port map
    (exposed port -> host ports), the demultiplexed (stdout, stderr), the IDs
    of the containers attached to a network, or nothing. *)
Definition reply (c : DockerCall) : Set :=
  match c with
  | ContainerCreate _ | ContainerExecCreate _ _ _ _ | NetworkCreate _ _ _ _ => string
  | ContainerInspectPorts _ => list (string * list string)
  | ExecReadOutput _ => string * string
  | NetworkInspect _ => list string
  | _ => unit
  end.

(** The ID in a reply, for the log of calls. *)
Definition reply_id (c : DockerCall) : reply c -> string :=
  match c with
  | ContainerCreate _ | ContainerExecCreate _ _ _ _ | NetworkCreate _ _ _ _ => fun id => id
  | _ => fun _ => ""
  end.

(** * Effects *)

(** [archive/tar]'s writer: [WriteHeader], [Write], [Close]. *)
Inductive TarCall :=
| TarWriteHeader (name : string) (mode size : Z)
| TarWrite (content : string)
| TarClose.

(** net/smtp: [smtp.SendMail], and the conversation of a [smtp.Client] over
    [tls.Dial]. *)
Record SmtpAuth := {
  sa_identity : string;
  sa_username : string;
  sa_password : string;
  sa_host : string;
}.

Inductive MailCall :=
| SendMail (addr : string) (auth : SmtpAuth) (from : string) (to : list string) (msg : string)
| TlsDial (addr serverName : string)
| NewClient (host : string)
| ClientAuth (auth : SmtpAuth)
| ClientMail (from : string)
| ClientRcpt (to : string)
| ClientData
| DataWrite (msg : string)
| DataClose
| ClientQuit.

(** What the process asks of the system and of the libraries while it starts
    and stops. *)
Record Metric := { mt_name : string; mt_labels : list string }.

Inductive SysCall :=
| NotifyContext
| StopNotify
| OtlpExporter
| OtelResource (serviceName : string)
| SetTracerProvider
| SetTextMapPropagator
| OtelShutdown
| MustRegister (metrics : list Metric)
| PoolParseConfig (dsn : string)
| PoolNew
| PoolPing
| PoolClose
| MigrationSource
| NewMigrator (url : string)
| MigrateUp
| MigrateVersion
| MigratorClose
| NewDockerClient
| CloseDockerClient
| GoAutoStopWatcher
| CloseStopChan
| GoContainerEvents
| GoListenAndServe (addr : string)
| WithTimeout (d : Z)
| CancelTimeout
| ServerShutdown (addr : string).

(** The answer of [m.Up()]; [UpNoChange] is [migrate.ErrNoChange]. *)
Inductive UpResult := UpDone | UpNoChange | UpFailed (e : GoError).

Definition sys_reply (c : SysCall) : Set :=
  match c with MigrateUp => UpResult | _ => result unit end.

Definition sys_ok (c : SysCall) : sys_reply c -> bool :=
  match c with
  | MigrateUp => fun r => match r with UpFailed _ => false | _ => true end
  | _ => is_ok
  end.

Inductive Conn := Pool | InTx (t : nat).

Inductive Eff : Set :=
| ESql (conn : Conn) (s : Stmt)
| EBegin
| ECommit (t : nat)
| ERollback (t : nat)
| EDocker (c : DockerCall)
| EMkdirAll (path : string)
| ERemoveAll (path : string)
| ETar (c : TarCall)
| ENow
| ESleep (d : Z)
| EUuid
| ERandRead (n : nat)
| EPublish (user : string) (n : Notification)
| EMail (c : MailCall)
| ESys (c : SysCall).

Definition ans (e : Eff) : Set :=
  match e with
  | ESql _ s => result (rows s)
  | EBegin => result nat
  | ECommit _ => result unit
  | ERollback _ => unit
  | EDocker c => result (reply c)
  | EMkdirAll _ | ERemoveAll _ | ETar _ | EMail _ => result unit
  | ENow => Z
  | ESleep _ => unit
  | EUuid => string
  | ERandRead _ => result string
  | EPublish _ _ => unit
  | ESys c => sys_reply c
  end.

Inductive Prog (A : Type) : Type :=
| Ret (a : A)
| Do (e : Eff) (k : ans e -> Prog A).
Arguments Ret {A} a.
Arguments Do {A} e k.

Fixpoint bind {A B} (p : Prog A) (f : A -> Prog B) : Prog B :=
  match p with
  | Ret a => f a
  | Do e k => Do e (fun x => bind (k x) f)
  end.

Definition perform (e : Eff) : Prog (ans e) := Do e Ret.

Declare Scope prog_scope.
Delimit Scope prog_scope with prog.
Notation "x <- p ;; q" := (bind p (fun x => q))
  (at level 100, p at next level, right associativity) : prog_scope.
Notation "p ;;; q" := (bind p (fun _ => q)) (at level 100, right associativity) : prog_scope.

(** [x, err := p; if err != nil { return err }] *)
Notation "x <-? p ;; q" := (bind p (fun r => match r with Ok x => q | Err e => Ret (Err e) end))
  (at level 100, p at next level, right associativity) : prog_scope.
(** [x, err := p; if err != nil { return fmt.Errorf(ctx+"%w", err) }] *)
Notation "x <-? p 'wrap' ctx ;; q" :=
  (bind p (fun r => match r with Ok x => q | Err e => Ret (Err (ErrWrap ctx e)) end))
  (at level 100, p at next level, ctx at next level, right associativity) : prog_scope.

(** [defer cleanup(result)]: runs after the body whatever it returned. *)
Definition defer {A} (body : Prog A) (cleanup : A -> Prog unit) : Prog A :=
  bind body (fun r => bind (cleanup r) (fun _ => Ret r)).

(** [for _, x := range l { f(x) }] *)
Fixpoint for_each {X} (l : list X) (f : X -> Prog unit) : Prog unit :=
  match l with
  | [] => Ret tt
  | x :: l' => bind (f x) (fun _ => for_each l' f)
  end.

(** * State *)

Record LogEntry := { le_ctx : SqlCtx; le_stmt : Stmt }.

(** An open transaction is the list of statements it has executed (oldest
    first); a statement that fails on the server aborts it. *)
Inductive TxState := TxOpen (log : list LogEntry) | TxAborted.

(** The calls that leave the process, with the error or the ID they returned. *)
Inductive Event :=
| EvDocker (c : DockerCall) (r : result string)
| EvMkdirAll (path : string) (ok : bool)
| EvRemoveAll (path : string) (ok : bool)
| EvSleep (d : Z)
| EvMail (c : MailCall) (ok : bool)
| EvSys (c : SysCall) (ok : bool).

Record World := {
  w_db : DB;
  w_txs : gmap nat TxState;
  w_next_tx : nat;
  w_seq_users : Z;
  w_seq_containers : Z;
  w_bus : Bus;
  w_trace : list Event;
  w_tick : nat;
}.

Record Env := {
  e_sql : nat -> option GoError;
  e_docker : nat -> forall c : DockerCall, result (reply c);
  e_fs : nat -> option GoError;
  e_tar : nat -> option GoError;
  e_mail : nat -> option GoError;
  e_sys : nat -> forall c : SysCall, sys_reply c;
  e_now : nat -> Z;
  e_uuid : nat -> string;
  e_rand : nat -> result string;
}.

Definition tick (w : World) : World :=
  {| w_db := w_db w; w_txs := w_txs w; w_next_tx := w_next_tx w; w_seq_users := w_seq_users w;
     w_seq_containers := w_seq_containers w; w_bus := w_bus w; w_trace := w_trace w;
     w_tick := S (w_tick w) |}.
Definition set_w_db (v : DB) (w : World) : World :=
  {| w_db := v; w_txs := w_txs w; w_next_tx := w_next_tx w; w_seq_users := w_seq_users w;
     w_seq_containers := w_seq_containers w; w_bus := w_bus w; w_trace := w_trace w;
     w_tick := w_tick w |}.
Definition set_w_txs (v : gmap nat TxState) (w : World) : World :=
  {| w_db := w_db w; w_txs := v; w_next_tx := w_next_tx w; w_seq_users := w_seq_users w;
     w_seq_containers := w_seq_containers w; w_bus := w_bus w; w_trace := w_trace w;
     w_tick := w_tick w |}.
Definition set_w_bus (v : Bus) (w : World) : World :=
  {| w_db := w_db w; w_txs := w_txs w; w_next_tx := w_next_tx w; w_seq_users := w_seq_users w;
     w_seq_containers := w_seq_containers w; w_bus := v; w_trace := w_trace w;
     w_tick := w_tick w |}.
Definition emit (e : Event) (w : World) : World :=
  {| w_db := w_db w; w_txs := w_txs w; w_next_tx := w_next_tx w; w_seq_users := w_seq_users w;
     w_seq_containers := w_seq_containers w; w_bus := w_bus w; w_trace := w_trace w ++ [e];
     w_tick := w_tick w |}.
Definition open_tx (w : World) : World :=
  {| w_db := w_db w; w_txs := <[w_next_tx w := TxOpen []]> (w_txs w); w_next_tx := S (w_next_tx w);
     w_seq_users := w_seq_users w; w_seq_containers := w_seq_containers w; w_bus := w_bus w;
     w_trace := w_trace w; w_tick := w_tick w |}.

(** [nextval] advances the sequence of the table inserted into, whether or not
    the insert succeeds and whether or not it is rolled back. *)
Definition advance_seq (s : Stmt) (w : World) : World :=
  {| w_db := w_db w; w_txs := w_txs w; w_next_tx := w_next_tx w;
     w_seq_users := match s with InsertUser _ _ _ => w_seq_users w + 1 | _ => w_seq_users w end;
     w_seq_containers := match s with InsertContainer _ _ _ _ _ _ _ _ => w_seq_containers w + 1
                                    | _ => w_seq_containers w end;
     w_bus := w_bus w; w_trace := w_trace w; w_tick := w_tick w |}.

(** Errors raised by the client library while reading a row leave the
    server-side transaction usable. *)
Definition client_error (e : GoError) : bool :=
  match e with ErrNoRows | ErrScan => true | _ => false end.

Definition tx_closed : GoError := ErrText "tx is closed".
Definition tx_aborted : GoError := ErrText "current transaction is aborted".
Definition commit_rollback : GoError := ErrText "commit unexpectedly resulted in rollback".

(** [n] random bytes, from whatever the environment offers. *)
Fixpoint fit_bytes (n : nat) (s : string) : string :=
  match n, s with
  | O, _ => ""
  | S n', String a s' => String a (fit_bytes n' s')
  | S n', EmptyString => String (ascii_of_nat 0) (fit_bytes n' "")
  end.

Lemma fit_bytes_length n s : String.length (fit_bytes n s) = n.
Proof. revert s. induction n as [|n IH]; intros [|a s]; simpl; rewrite ?IH; done. Qed.

Section Semantics.
Context {PG : Postgres} (env : Env).

(** Statement-level view of a READ COMMITTED transaction: the committed
    tables with the transaction's own statements applied. *)
Definition tx_view (log : list LogEntry) (db : DB) : DB :=
  fold_left (fun d en => (exec (le_ctx en) (le_stmt en) d).2) log db.

Definition sql_ctx (w : World) : SqlCtx :=
  {| ctx_now := e_now env (w_tick w); ctx_user_id := w_seq_users w;
     ctx_container_id := w_seq_containers w; ctx_uuid := e_uuid env (w_tick w) |}.

Definition run_sql (conn : Conn) (s : Stmt) (w : World) : result (rows s) * World :=
  match conn with
  | Pool =>
      match e_sql env (w_tick w) with
      | Some err => (Err err, w)
      | None => let '(r, db) := exec (sql_ctx w) s (w_db w) in (r, advance_seq s (set_w_db db w))
      end
  | InTx t =>
      match w_txs w !! t with
      | None => (Err tx_closed, w)
      | Some TxAborted => (Err tx_aborted, w)
      | Some (TxOpen log) =>
          match e_sql env (w_tick w) with
          | Some err => (Err err, set_w_txs (<[t := TxAborted]> (w_txs w)) w)
          | None =>
              let r := (exec (sql_ctx w) s (tx_view log (w_db w))).1 in
              let st := match r with
                        | Err e => if client_error e then TxOpen log else TxAborted
                        | Ok _ => TxOpen (log ++ [{| le_ctx := sql_ctx w; le_stmt := s |}])
                        end in
              (r, advance_seq s (set_w_txs (<[t := st]> (w_txs w)) w))
          end
      end
  end.

(** [tx.Commit]: a failure leaves the tables as they were. *)
Definition run_commit (t : nat) (w : World) : result unit * World :=
  match w_txs w !! t with
  | None => (Err tx_closed, w)
  | Some TxAborted => (Err commit_rollback, set_w_txs (delete t (w_txs w)) w)
  | Some (TxOpen log) =>
      match e_sql env (w_tick w) with
      | Some err => (Err err, set_w_txs (delete t (w_txs w)) w)
      | None => (Ok tt, set_w_db (tx_view log (w_db w)) (set_w_txs (delete t (w_txs w)) w))
      end
  end.

Definition run_fallible (f : nat -> option GoError) (ev : bool -> option Event) (w : World)
    : result unit * World :=
  let r := match f (w_tick w) with Some err => Err err | None => Ok tt end in
  (r, match ev (is_ok r) with Some e => emit e w | None => w end).

Definition run_eff (e : Eff) (w : World) : ans e * World :=
  let '(x, w') :=
    match e return ans e * World with
    | ESql conn s => run_sql conn s w
    | EBegin => match e_sql env (w_tick w) with
                | Some err => (Err err, w)
                | None => (Ok (w_next_tx w), open_tx w)
                end
    | ECommit t => run_commit t w
    | ERollback t => (tt, set_w_txs (delete t (w_txs w)) w)
    | EDocker c => let r := e_docker env (w_tick w) c in
                   (r, emit (EvDocker c (result_map (reply_id c) r)) w)
    | EMkdirAll p => run_fallible (e_fs env) (fun ok => Some (EvMkdirAll p ok)) w
    | ERemoveAll p => run_fallible (e_fs env) (fun ok => Some (EvRemoveAll p ok)) w
    | ETar _ => run_fallible (e_tar env) (fun _ => None) w
    | ENow => (e_now env (w_tick w), w)
    | ESleep d => (tt, emit (EvSleep d) w)
    | EUuid => (e_uuid env (w_tick w), w)
    | ERandRead n => (result_map (fit_bytes n) (e_rand env (w_tick w)), w)
    | EPublish u n => (tt, match Publish u n (w_bus w) with
                           | Some b => set_w_bus b w
                           | None => w
                           end)
    | ESys c => let r := e_sys env (w_tick w) c in (r, emit (EvSys c (sys_ok c r)) w)
    | EMail c => run_fallible (e_mail env) (fun ok => Some (EvMail c ok)) w
    end in
  (x, tick w').

Fixpoint run {A} (p : Prog A) (w : World) : A * World :=
  match p with
  | Ret a => (a, w)
  | Do e k => let '(x, w') := run_eff e w in run (k x) w'
  end.

(** One thread of a pool performs its next effect. *)
Inductive pool_step {A} : list (Prog A) * World -> list (Prog A) * World -> Prop :=
| pool_step_intro ts i e k w x w' :
    ts !! i = Some (Do e k) -> run_eff e w = (x, w') ->
    pool_step (ts, w) (<[i := k x]> ts, w').

(** Executes a schedule: the list of thread indices to step; a finished or
    absent thread makes the step a no-op. *)
Fixpoint sched {A} (order : list nat) (ts : list (Prog A)) (w : World) : list (Prog A) * World :=
  match order with
  | [] => (ts, w)
  | i :: order' =>
      match ts !! i with
      | Some (Do e k) => let '(x, w') := run_eff e w in sched order' (<[i := k x]> ts) w'
      | _ => sched order' ts w
      end
  end.
End Semantics.
