(* ===== verification/WorldFacts.v ===== *)
(** WorldFacts: reasoning principles for programs.

    [run] is compositional over [bind]; an invariant of every single effect is
    an invariant of every program and of every interleaving of programs;
    [all_effs] describes what a program may do by its effects alone, and
    [quiet] what a program that touches no table, transaction or bus leaves
    unchanged. *)

From S2P Require Export World SqlFacts.

(** * Laws of [bind] and [run] *)

Lemma bind_assoc {A B C} (p : Prog A) (f : A -> Prog B) (g : B -> Prog C) w
    {PG : Postgres} (env : Env) :
  run env (bind (bind p f) g) w = run env (bind p (fun a => bind (f a) g)) w.
Proof.
  revert w. induction p as [a|e k IH]; intros w; simpl; [done|].
  destruct (run_eff env e w). apply IH.
Qed.

Section Run.
Context {PG : Postgres} (env : Env).

Lemma run_bind {A B} (p : Prog A) (f : A -> Prog B) w :
  run env (bind p f) w = let '(a, w') := run env p w in run env (f a) w'.
Proof.
  revert w. induction p as [a|e k IH]; intros w; simpl; [done|].
  destruct (run_eff env e w). apply IH.
Qed.

Lemma run_perform e w : run env (perform e) w = run_eff env e w.
Proof. simpl. by destruct (run_eff env e w). Qed.

Lemma run_defer {A} (p : Prog A) (c : A -> Prog unit) w :
  run env (defer p c) w = let '(a, w') := run env p w in (a, (run env (c a) w').2).
Proof.
  unfold defer. rewrite run_bind. destruct (run env p w) as [a w'].
  rewrite run_bind. by destruct (run env (c a) w') as [[] w''].
Qed.

(** ** Invariants *)

Definition eff_invariant (I : World -> Prop) : Prop :=
  forall e w, I w -> I (run_eff env e w).2.

Lemma run_invariant I : eff_invariant I ->
  forall A (p : Prog A) w, I w -> I (run env p w).2.
Proof.
  intros HI A p. induction p as [a|e k IH]; intros w Hw; simpl; [done|].
  specialize (HI e w Hw). destruct (run_eff env e w) as [x w']. by apply IH.
Qed.

Lemma pool_invariant I : eff_invariant I ->
  forall A (c c' : list (Prog A) * World), rtc (pool_step env) c c' -> I c.2 -> I c'.2.
Proof.
  intros HI A c c' Hr. induction Hr as [c|c1 c2 c3 Hs Hr IH]; [done|].
  intros Hw. apply IH. inv Hs. simpl in *.
  specialize (HI e w Hw). by rewrite H0 in HI.
Qed.

(** What a thread becomes by its next effect. *)
Definition next {A} (p : Prog A) (w : World) : option (Prog A * World) :=
  match p with
  | Ret _ => None
  | Do e k => let '(x, w') := run_eff env e w in Some (k x, w')
  end.

Lemma pool_step_next {A} (c c' : list (Prog A) * World) :
  pool_step env c c' -> exists i p p',
    c.1 !! i = Some p /\ next p c.2 = Some (p', c'.2) /\ c'.1 = <[i := p']> c.1.
Proof.
  intros Hs. inv Hs as [ts i e k w x w' Hi He]. exists i, (Do e k), (k x).
  split; [done|]. simpl. by rewrite He.
Qed.

(** The scheduler takes only pool steps. *)
Lemma sched_pool_steps {A} order (ts : list (Prog A)) w :
  rtc (pool_step env) (ts, w) (sched env order ts w).
Proof.
  revert ts w. induction order as [|i order IH]; intros ts w; simpl; [done|].
  destruct (ts !! i) as [[a|e k]|] eqn:Hi; [apply IH| |apply IH].
  destruct (run_eff env e w) as [x w'] eqn:He.
  eapply rtc_l; [|apply IH]. by econstructor.
Qed.

(** ** Integrity of the store *)

Lemma tx_view_wf log db : wf_db db -> wf_db (tx_view log db).
Proof.
  revert db. induction log as [|en log IH]; intros db Hwf; simpl; [done|].
  by apply IH, exec_wf.
Qed.

(** Every declared constraint holds, and the bus is consistent. *)
Record world_ok (w : World) : Prop := {
  ok_db : wf_db (w_db w);
  ok_bus : bus_inv (w_bus w);
  ok_txs : forall t st, w_txs w !! t = Some st -> (t < w_next_tx w)%nat;
}.

Lemma txs_fresh w : world_ok w -> w_txs w !! w_next_tx w = None.
Proof.
  intros Hok. destruct (w_txs w !! w_next_tx w) eqn:E; [|done].
  apply (ok_txs _ Hok) in E. lia.
Qed.

Lemma run_eff_ok : eff_invariant world_ok.
Proof.
  intros e w [Hdb Hbus Htx]. unfold run_eff.
  assert (forall st, forall (t : nat) s, w_txs w !! t = Some s ->
    forall t' st', <[t := st]> (w_txs w) !! t' = Some st' -> (t' < w_next_tx w)%nat) as Hins.
  { intros st t s Ht t' st' [[<- _]|[_ H]]%lookup_insert_Some; by eapply Htx. }
  assert (forall t t' st', delete t (w_txs w) !! t' = Some st' -> (t' < w_next_tx w)%nat) as Hdel.
  { intros t t' st' [_ H]%lookup_delete_Some. by eapply Htx. }
  destruct e; simpl; try (by split).
  - unfold run_sql. destruct conn as [|t].
    + destruct (e_sql env (w_tick w)); [by split|].
      pose proof (exec_wf (sql_ctx env w) s _ Hdb) as Hx.
      destruct (exec _ s (w_db w)). by split.
    + destruct (w_txs w !! t) as [[log|]|] eqn:Ht; [|by split..].
      destruct (e_sql env (w_tick w)); split; simpl; eauto.
  - destruct (e_sql env (w_tick w)); [by split|]. split; simpl; try done.
    intros t st [[<- _]|[_ H%Htx]]%lookup_insert_Some; lia.
  - unfold run_commit. destruct (w_txs w !! t) as [[log|]|] eqn:Ht; [..|by split].
    + destruct (e_sql env (w_tick w)); split; simpl; eauto using tx_view_wf.
    + split; simpl; eauto.
  - split; simpl; eauto.
  - destruct (Publish user n (w_bus w)) eqn:Hp; split; simpl; eauto with bus.
Qed.

(** ** Programs by their effects *)

Fixpoint all_effs (P : Eff -> Prop) {A} (p : Prog A) : Prop :=
  match p with
  | Ret _ => True
  | Do e k => P e /\ forall x, all_effs P (k x)
  end.

Lemma all_effs_bind P {A B} (p : Prog A) (f : A -> Prog B) :
  all_effs P p -> (forall a, all_effs P (f a)) -> all_effs P (bind p f).
Proof. induction p as [a|e k IH]; simpl; [by auto|]. intros [He Hk] Hf. split; auto. Qed.

Lemma all_effs_impl (P Q : Eff -> Prop) {A} (p : Prog A) :
  (forall e, P e -> Q e) -> all_effs P p -> all_effs Q p.
Proof. intros Hi. induction p as [a|e k IH]; simpl; [done|]. intros [He Hk]. split; auto. Qed.

Lemma all_effs_for_each P {X} (l : list X) f :
  (forall x, all_effs P (f x)) -> all_effs P (for_each l f).
Proof. intros Hf. induction l as [|x l IH]; simpl; [done|]. by apply all_effs_bind. Qed.

(** A relation on worlds that every allowed effect establishes. *)
Lemma all_effs_rel (R : relation World) `{!PreOrder R} P {A} (p : Prog A) w :
  (forall e w, P e -> R w (run_eff env e w).2) -> all_effs P p -> R w (run env p w).2.
Proof.
  intros HR. revert w. induction p as [a|e k IH]; intros w; simpl; [done|].
  intros [He Hk]. specialize (HR e w He). destruct (run_eff env e w) as [x w'].
  etransitivity; [exact HR|]. by apply IH.
Qed.
End Run.

#[export] Hint Rewrite @run_bind @run_defer : host_rw.

(** * Resources a trace leaves behind *)

Inductive Resource := RContainer (id : string) | RFolder (path : string).
#[export] Instance Resource_eq_dec : EqDecision Resource.
Proof. solve_decision. Defined.
#[export] Instance Resource_countable : Countable Resource.
Proof.
  refine (inj_countable' (fun r => match r with RContainer i => inl i | RFolder p => inr p end)
            (fun s => match s with inl i => RContainer i | inr p => RFolder p end) _).
  by intros [].
Defined.

(** A container exists once ContainerCreate has returned its ID, a folder once
    MkdirAll has succeeded, until their removal is requested. *)
Definition track (s : gset Resource) (ev : Event) : gset Resource :=
  match ev with
  | EvDocker (ContainerCreate _) (Ok id) => {[RContainer id]} ∪ s
  | EvDocker (ContainerRemove id _) _ => s ∖ {[RContainer id]}
  | EvMkdirAll p true => {[RFolder p]} ∪ s
  | EvRemoveAll p _ => s ∖ {[RFolder p]}
  | _ => s
  end.

Definition leftovers_from (s : gset Resource) (tr : list Event) : gset Resource :=
  fold_left track tr s.
Definition leftovers (tr : list Event) : gset Resource := leftovers_from ∅ tr.

(** Events that neither create nor remove a resource. *)
Definition neutral (ev : Event) : Prop :=
  match ev with
  | EvDocker (ContainerCreate _) _ | EvDocker (ContainerRemove _ _) _
  | EvMkdirAll _ _ | EvRemoveAll _ _ => False
  | _ => True
  end.

Lemma leftovers_from_app s l1 l2 :
  leftovers_from s (l1 ++ l2) = leftovers_from (leftovers_from s l1) l2.
Proof. unfold leftovers_from. by rewrite fold_left_app. Qed.

Lemma leftovers_from_neutral s tr : Forall neutral tr -> leftovers_from s tr = s.
Proof.
  unfold leftovers_from. intros Htr. induction Htr as [|ev tr Hev Htr IH]; simpl; [done|].
  assert (track s ev = s) as ->; [|done].
  destruct ev as [c r|p ok|p ok|d|c ok|c ok]; try done. by destruct c.
Qed.

(** * Quiet programs *)

(** Same tables, transactions, sequences and bus; the trace grows by neutral
    events only. *)
Record quiet (w w' : World) : Prop := {
  quiet_db : w_db w' = w_db w;
  quiet_txs : w_txs w' = w_txs w;
  quiet_next_tx : w_next_tx w' = w_next_tx w;
  quiet_seq_users : w_seq_users w' = w_seq_users w;
  quiet_seq_containers : w_seq_containers w' = w_seq_containers w;
  quiet_bus : w_bus w' = w_bus w;
  quiet_trace : exists tr, w_trace w' = w_trace w ++ tr /\ Forall neutral tr;
}.

#[export] Instance quiet_preorder : PreOrder quiet.
Proof.
  split.
  - intros w. split; try done. exists []. by rewrite app_nil_r.
  - intros w1 w2 w3 [] [].
    split; try congruence. destruct quiet_trace0 as (t1 & E1 & H1), quiet_trace1 as (t2 & E2 & H2).
    exists (t1 ++ t2). rewrite E2, E1, app_assoc. split; [done|]. by apply Forall_app.
Qed.

Definition quiet_eff (e : Eff) : Prop :=
  match e with
  | EDocker (ContainerCreate _) | EDocker (ContainerRemove _ _) => False
  | EDocker _ | ETar _ | ENow | ESleep _ | EUuid | ERandRead _ | EMail _ => True
  | _ => False
  end.

Lemma quiet_emit ev w : neutral ev -> quiet w (tick (emit ev w)).
Proof. intros Hev. split; try done. exists [ev]. split; [done|]. by constructor. Qed.

Lemma quiet_tick w : quiet w (tick w).
Proof. split; try done. exists []. by rewrite app_nil_r. Qed.

Section Quiet.
Context {PG : Postgres} (env : Env).

Lemma run_eff_quiet e w : quiet_eff e -> quiet w (run_eff env e w).2.
Proof.
  destruct e; simpl; try done; intros He; try apply quiet_tick;
    apply quiet_emit; by try destruct c.
Qed.

Lemma run_quiet {A} (p : Prog A) w : all_effs quiet_eff p -> quiet w (run env p w).2.
Proof. apply all_effs_rel; [apply _|]. intros. by apply run_eff_quiet. Qed.
End Quiet.

(** * The Docker calls of a trace, in order, whatever they returned *)

Definition docker_calls (tr : list Event) : list DockerCall :=
  omap (fun ev => match ev with EvDocker c _ => Some c | _ => None end) tr.

Lemma docker_calls_app l1 l2 : docker_calls (l1 ++ l2) = docker_calls l1 ++ docker_calls l2.
Proof. apply omap_app. Qed.
