(* ===== verification/Hoare.v ===== *)
(** Hoare: weakest preconditions of programs, with the rules for transactions
    and for the trace of outside calls.

    [wp env p Q w]: run from [w], [p] ends with a result and a world that
    satisfy [Q].  [in_tx] describes a world with one more transaction open than
    [w0] has, by the tables that transaction sees; [after_tx] one in which it
    has ended. *)

From S2P Require Export WorldFacts.

Section Wp.
Context {PG : Postgres} (env : Env).

Definition wp {A} (p : Prog A) (Q : A -> World -> Prop) (w : World) : Prop :=
  Q (run env p w).1 (run env p w).2.

Lemma wp_ret {A} (a : A) Q w : Q a w -> wp (Ret a) Q w.
Proof. done. Qed.

Lemma wp_mono {A} (p : Prog A) (Q Q' : A -> World -> Prop) w :
  wp p Q w -> (forall a w', Q a w' -> Q' a w') -> wp p Q' w.
Proof. unfold wp. auto. Qed.

Lemma wp_bind {A B} (p : Prog A) (f : A -> Prog B) Q w :
  wp p (fun a w' => wp (f a) Q w') w -> wp (bind p f) Q w.
Proof. unfold wp. rewrite run_bind. by destruct (run env p w). Qed.

(** [bind] with the specification of its first part. *)
Lemma wp_seq {A B} (p : Prog A) (f : A -> Prog B) P Q w :
  wp p P w -> (forall a w', P a w' -> wp (f a) Q w') -> wp (bind p f) Q w.
Proof. intros. apply wp_bind. eapply wp_mono; eauto. Qed.

Lemma wp_perform e Q w : Q (run_eff env e w).1 (run_eff env e w).2 -> wp (perform e) Q w.
Proof. unfold wp. by rewrite run_perform. Qed.

Lemma wp_defer {A} (p : Prog A) (c : A -> Prog unit) P Q w :
  wp p P w -> (forall a w', P a w' -> wp (c a) (fun _ => Q a) w') -> wp (defer p c) Q w.
Proof.
  intros Hp Hc. specialize (Hc _ _ Hp). unfold wp in *. rewrite run_defer.
  by destruct (run env p w).
Qed.

Lemma wp_run {A} (p : Prog A) Q w a w' : wp p Q w -> run env p w = (a, w') -> Q a w'.
Proof. unfold wp. intros H E. by rewrite E in H. Qed.

Lemma wp_intro {A} (p : Prog A) Q w : Q (run env p w).1 (run env p w).2 -> wp p Q w.
Proof. done. Qed.

Lemma wp_elim {A} (p : Prog A) Q w : wp p Q w -> Q (run env p w).1 (run env p w).2.
Proof. done. Qed.

Lemma wp_and {A} (p : Prog A) Q1 Q2 w :
  wp p Q1 w -> wp p Q2 w -> wp p (fun a w' => Q1 a w' /\ Q2 a w') w.
Proof. done. Qed.

(** A loop keeps an invariant that its body keeps. *)
Lemma wp_for_each {X} (l : list X) f (I : World -> Prop) w :
  (forall x w', x ∈ l -> I w' -> wp (f x) (fun _ => I) w') -> I w ->
  wp (for_each l f) (fun _ => I) w.
Proof.
  revert w. induction l as [|x l IH]; intros w Hf Hw; simpl; [done|].
  eapply wp_seq; [apply Hf; [left|done]|]. intros ? w' Hw'. apply IH; [|done].
  intros y w'' Hy. apply Hf. by right.
Qed.
End Wp.
(** The program has ended without an error. *)
Definition succeeded {A} (p : Prog (result A)) : bool :=
  match p with Ret r => is_ok r | Do _ _ => false end.

(** No statement loses the connection. *)
Definition sql_up (env : Env) : Prop := forall n, e_sql env n = None.

Lemma run_pool_up {PG : Postgres} env s w : sql_up env ->
  run_eff env (ESql Pool s) w =
  ((exec (sql_ctx env w) s (w_db w)).1,
   tick (advance_seq s (set_w_db (exec (sql_ctx env w) s (w_db w)).2 w))).
Proof.
  intros Hup. unfold run_eff, run_sql. rewrite Hup.
  by destruct (exec (sql_ctx env w) s (w_db w)).
Qed.

(** * The trace *)

(** From [w] to [w'] the trace grows by calls that turn the resources [s] into [s']. *)
Definition res (s : gset Resource) (w : World) (s' : gset Resource) (w' : World) : Prop :=
  exists tr, w_trace w' = w_trace w ++ tr /\ leftovers_from s tr = s'.

Lemma res_trans s1 w1 s2 w2 s3 w3 : res s1 w1 s2 w2 -> res s2 w2 s3 w3 -> res s1 w1 s3 w3.
Proof.
  intros (t1 & E1 & <-) (t2 & E2 & <-). exists (t1 ++ t2).
  by rewrite E2, E1, app_assoc, leftovers_from_app.
Qed.

Lemma res_same s w w' : w_trace w' = w_trace w -> res s w s w'.
Proof. intros E. exists []. by rewrite app_nil_r. Qed.

Lemma res_quiet s w w' : quiet w w' -> res s w s w'.
Proof.
  intros H. destruct (quiet_trace _ _ H) as (tr & E & Hn). exists tr.
  by rewrite leftovers_from_neutral.
Qed.

Lemma res_one s w w' ev : w_trace w' = w_trace w ++ [ev] -> res s w (track s ev) w'.
Proof. intros E. by exists [ev]. Qed.

(** * Calls that leave the tables, the transactions and the bus alone *)

Record outside (w w' : World) : Prop := {
  out_db : w_db w' = w_db w;
  out_txs : w_txs w' = w_txs w;
  out_next_tx : w_next_tx w' = w_next_tx w;
  out_bus : w_bus w' = w_bus w;
}.

#[export] Instance outside_preorder : PreOrder outside.
Proof. split; [by split|]. intros w1 w2 w3 [] []. split; congruence. Qed.

Lemma quiet_outside w w' : quiet w w' -> outside w w'.
Proof. by intros []. Qed.

Lemma outside_ok w w' : outside w w' -> world_ok w -> world_ok w'.
Proof. intros [E1 E2 E3 E4] []. split; rewrite ?E1, ?E2, ?E3, ?E4; done. Qed.

(** * Programs that only read *)

Definition read_only (s : Stmt) : bool :=
  match s with
  | SelectContainer _ | SelectRunningBefore _ | SelectUser _ | SelectUserByEmail _
  | SelectUserContainers _ | SelectPlanOfUser _ | SelectDockerNetIds _ | SelectCrashInfo _
  | SelectByDockerId _ | SelectHealth _ _ | CountNetworks _ | SelectNetwork _ _
  | SelectOwnedContainer _ _ | SelectNetworksOf _ | CountApiKeys _ | SelectApiKeys _
  | SelectTemplateImages | SelectNotifications _ | SelectRole _ | CountUsers | CountContainers
  | CountRunning | CountToday | CountUsersOn _ | SearchUsers _ _ | SelectTemplates _
  | SelectTemplate _ | SelectImages | SelectPlans => true
  | _ => false
  end.

Lemma read_only_exec {PG : Postgres} c s db : read_only s = true -> (exec c s db).2 = db.
Proof. destruct s; try done; intros _; simpl; unfold_sql; try done; sql_cases; done. Qed.

Definition read_eff (e : Eff) : Prop :=
  match e with
  | ESql Pool s => read_only s = true
  | ENow | EUuid | ERandRead _ => True
  | _ => False
  end.

(** Nothing has changed and nothing has left the process. *)
Definition reads (w w' : World) : Prop := outside w w' /\ w_trace w' = w_trace w.

#[export] Instance reads_preorder : PreOrder reads.
Proof.
  split; [done|]. intros w1 w2 w3 [O1 T1] [O2 T2]. split; [by transitivity w2|congruence].
Qed.

Lemma run_eff_reads {PG : Postgres} env e w : read_eff e -> reads w (run_eff env e w).2.
Proof.
  destruct e as [[|t] s| | | | | | | | | | | | | |]; try done. intros Hs.
  unfold run_eff, run_sql. destruct (e_sql env (w_tick w)); [done|].
  pose proof (read_only_exec (sql_ctx env w) s (w_db w) Hs) as Hx.
  destruct (exec _ s (w_db w)) as [r db]. simpl in Hx. subst db. by split; [split|].
Qed.

Lemma run_reads {PG : Postgres} env {A} (p : Prog A) w : all_effs read_eff p -> reads w (run env p w).2.
Proof. apply all_effs_rel; [apply _|]. intros. by apply run_eff_reads. Qed.

(** Walks through a program, splitting every branch. *)
Ltac effs_step :=
  match goal with
  | |- all_effs _ (bind _ _) => apply all_effs_bind; [|intros ?]
  | |- all_effs _ (perform _) => split; [done|intros ?]
  | |- all_effs _ (Ret _) => exact I
  | |- all_effs _ (Do _ _) => split; [done|intros ?]
  | |- all_effs _ (match ?x with _ => _ end) => destruct x
  | |- all_effs _ (let _ := _ in _) => cbv zeta
  end.

(** * Transactions *)

Section Rules.
Context {PG : Postgres}.

(** One transaction [t] more than in [w0]: open, seeing the tables [v], or
  aborted. *)
Record in_tx (w0 : World) (t : nat) (v : option DB) (w : World) : Prop := {
it_db : w_db w = w_db w0;
it_txs : exists st, w_txs w = <[t := st]> (w_txs w0) /\
  match v with
  | Some db => exists log, st = TxOpen log /\ tx_view log (w_db w0) = db
  | None => st = TxAborted
  end;
it_fresh : w_txs w0 !! t = None;
it_next : w_next_tx w = S (w_next_tx w0);
it_bus : w_bus w = w_bus w0;
}.

(** The transaction has ended, leaving the tables [db]. *)
Record after_tx (w0 : World) (db : DB) (w : World) : Prop := {
at_db : w_db w = db;
at_txs : w_txs w = w_txs w0;
at_bus : w_bus w = w_bus w0;
}.

(** No change of the tables is visible outside the transaction [t]. *)
Definition pending (w0 : World) (t : nat) (w : World) : Prop :=
w_txs w0 !! t = None /\ ((exists v, in_tx w0 t v w) \/ after_tx w0 (w_db w0) w).

Lemma in_tx_pending w0 t v w : in_tx w0 t v w -> pending w0 t w.
Proof. intros H. split; [apply H|]. left. by exists v. Qed.

Lemma in_tx_outside w0 t v w w' : outside w w' -> in_tx w0 t v w -> in_tx w0 t v w'.
Proof.
intros [E1 E2 E3 E4] [H1 H2 H3 H4 H5]. split; rewrite ?E1, ?E2, ?E3, ?E4; done.
Qed.

Lemma after_tx_outside w0 db w w' : outside w w' -> after_tx w0 db w -> after_tx w0 db w'.
Proof. intros [] []. split; congruence. Qed.

Lemma pending_outside w0 t w w' : outside w w' -> pending w0 t w -> pending w0 t w'.
Proof.
intros Ho [Hf [[v H]|H]]; split; try done; [left|right].
- exists v. by eapply in_tx_outside.
- by eapply after_tx_outside.
Qed.

Context (env : Env).

Lemma wp_quiet {A} (p : Prog A) w : all_effs quiet_eff p -> wp env p (fun _ w' => quiet w w') w.
Proof. apply run_quiet. Qed.

Lemma wp_begin w : world_ok w ->
  wp env (perform EBegin) (fun r w' => w_trace w' = w_trace w /\
    match r with
    | Ok t => in_tx w t (Some (w_db w)) w'
    | Err _ => after_tx w (w_db w) w'
    end) w.
Proof.
  intros Hok. apply wp_perform. unfold run_eff. destruct (e_sql env (w_tick w)); simpl; [done|].
  split; [done|]. split; simpl; try done; [|by apply txs_fresh].
  exists (TxOpen []). split; [done|]. by exists [].
Qed.

Lemma wp_tx_sql w0 t v s w : in_tx w0 t v w ->
  wp env (perform (ESql (InTx t) s)) (fun r w' => w_trace w' = w_trace w /\
    match r with
    | Ok x => exists db, v = Some db /\ (exec (sql_ctx env w) s db).1 = Ok x /\
                in_tx w0 t (Some (exec (sql_ctx env w) s db).2) w'
    | Err _ => exists v', in_tx w0 t v' w'
    end) w.
Proof.
  intros [H1 (st & H2 & Hst) H3 H4 H5]. apply wp_perform. unfold run_eff, run_sql.
  rewrite H2, lookup_insert_eq.
  destruct v as [db|]; [destruct Hst as (log & -> & <-)|subst st].
  - rewrite H1. destruct (e_sql env (w_tick w)) as [err|]; simpl.
    { split; [done|]. exists None. split; simpl; try done.
      exists TxAborted. by rewrite insert_insert_eq. }
    destruct (exec (sql_ctx env w) s (tx_view log (w_db w0))) as [r db'] eqn:Hx. simpl.
    split; [done|]. destruct r as [x|err].
    + exists (tx_view log (w_db w0)). rewrite Hx. split; [done|]. split; [done|].
      split; simpl; try done. eexists. rewrite insert_insert_eq. split; [done|].
      eexists. split; [done|]. unfold tx_view in *. rewrite fold_left_app. simpl. by rewrite Hx.
    + destruct (client_error err); [exists (Some (tx_view log (w_db w0)))|exists None];
        split; simpl; try done; eexists; rewrite insert_insert_eq; eauto.
  - split; [done|]. exists None. split; simpl; try done. eauto.
Qed.

Lemma wp_commit w0 t v w : in_tx w0 t v w ->
  wp env (perform (ECommit t)) (fun r w' => w_trace w' = w_trace w /\
    match r with
    | Ok _ => exists db, v = Some db /\ after_tx w0 db w'
    | Err _ => after_tx w0 (w_db w0) w'
    end) w.
Proof.
  intros [H1 (st & H2 & Hst) H3 H4 H5]. apply wp_perform. unfold run_eff, run_commit.
  rewrite H2, lookup_insert_eq.
  destruct v as [db|]; [destruct Hst as (log & -> & <-)|subst st].
  - destruct (e_sql env (w_tick w)); simpl; split; try done.
    + split; simpl; try done. by rewrite delete_insert_id.
    + eexists. split; [done|]. split; simpl; try done; [by rewrite H1|].
      by rewrite delete_insert_id.
  - split; [done|]. split; simpl; try done. by rewrite delete_insert_id.
Qed.

(** [defer tx.Rollback]: a no-op once the transaction has ended. *)
Lemma wp_rollback_pending w0 t w : pending w0 t w ->
  wp env (perform (ERollback t))
    (fun _ w' => w_trace w' = w_trace w /\ after_tx w0 (w_db w0) w') w.
Proof.
  intros [Hf H]. apply wp_perform. simpl. split; [done|]. split; simpl.
  - by destruct H as [[v []]|[]].
  - destruct H as [[v [_ (st & -> & _) _ _ _]]|[_ -> _]].
    + by rewrite delete_insert_id.
    + by rewrite delete_id.
  - by destruct H as [[v []]|[]].
Qed.

Lemma wp_rollback_done w0 t db w : w_txs w0 !! t = None -> after_tx w0 db w ->
  wp env (perform (ERollback t))
    (fun _ w' => w_trace w' = w_trace w /\ after_tx w0 db w') w.
Proof.
  intros Hf [H1 H2 H3]. apply wp_perform. simpl. split; [done|]. split; simpl; try done.
  by rewrite H2, delete_id.
Qed.

(** Calls to Docker, the disk and the clock. *)
Lemma wp_docker c w :
  wp env (perform (EDocker c)) (fun r w' => outside w w' /\
    w_trace w' = w_trace w ++ [EvDocker c (result_map (reply_id c) r)]) w.
Proof. apply wp_perform. simpl. done. Qed.

Lemma wp_mkdir p w :
  wp env (perform (EMkdirAll p)) (fun r w' => outside w w' /\
    w_trace w' = w_trace w ++ [EvMkdirAll p (is_ok r)]) w.
Proof. apply wp_perform. simpl. done. Qed.

Lemma wp_remove_all p w :
  wp env (perform (ERemoveAll p)) (fun r w' => outside w w' /\
    w_trace w' = w_trace w ++ [EvRemoveAll p (is_ok r)]) w.
Proof. apply wp_perform. simpl. done. Qed.

Lemma wp_now w :
  wp env (perform ENow) (fun _ w' => outside w w' /\ w_trace w' = w_trace w) w.
Proof. apply wp_perform. simpl. done. Qed.

Lemma wp_uuid w :
  wp env (perform EUuid) (fun _ w' => outside w w' /\ w_trace w' = w_trace w) w.
Proof. apply wp_perform. simpl. done. Qed.

(** A statement on the pool commits by itself. *)
Lemma wp_pool_sql s w :
  wp env (perform (ESql Pool s)) (fun r w' => w_trace w' = w_trace w /\ w_txs w' = w_txs w /\
    w_bus w' = w_bus w /\ w_next_tx w' = w_next_tx w /\
    ((exists err, e_sql env (w_tick w) = Some err /\ r = Err err /\ w_db w' = w_db w) \/
     (e_sql env (w_tick w) = None /\ r = (exec (sql_ctx env w) s (w_db w)).1 /\
      w_db w' = (exec (sql_ctx env w) s (w_db w)).2))) w.
Proof.
  apply wp_perform. unfold run_eff, run_sql.
  destruct (e_sql env (w_tick w)) as [err|]; simpl.
  - repeat split; try done. left. eauto.
  - destruct (exec (sql_ctx env w) s (w_db w)) as [r db] eqn:E. simpl.
    repeat split; try done. right. done.
Qed.

(** [defer tx.Rollback] around a body that either commits or leaves the
    transaction pending. *)
Lemma wp_tx_defer {A} (body : Prog (result A)) w0 t w (P : A -> DB -> list Event -> Prop)
    (E : GoError -> list Event -> Prop) :
  w_txs w0 !! t = None ->
  wp env body (fun r w' => match r with
                           | Ok x => exists db, after_tx w0 db w' /\ P x db (w_trace w')
                           | Err e => pending w0 t w' /\ E e (w_trace w')
                           end) w ->
  wp env (defer body (fun _ => perform (ERollback t)))
    (fun r w' => match r with
                 | Ok x => exists db, after_tx w0 db w' /\ P x db (w_trace w')
                 | Err e => after_tx w0 (w_db w0) w' /\ E e (w_trace w')
                 end) w.
Proof.
  intros Hf Hbody. eapply wp_defer; [exact Hbody|]. intros [x|e] w1 H1; simpl in H1.
  - destruct H1 as (db & H1 & Hp). eapply wp_mono; [by apply wp_rollback_done|].
    intros [] w2 [T2 H2]. exists db. by rewrite T2.
  - destruct H1 as [H1 He]. eapply wp_mono; [by apply wp_rollback_pending|].
    intros [] w2 [T2 H2]. by rewrite T2.
Qed.

(** A read on the pool. *)
Lemma wp_pool_read s w : (forall c, (exec c s (w_db w)).2 = w_db w) ->
  wp env (perform (ESql Pool s)) (fun r w' => outside w w' /\ w_trace w' = w_trace w /\
    match r with Ok x => exists c, (exec c s (w_db w)).1 = Ok x | Err _ => True end) w.
Proof.
  intros Hs. eapply wp_mono; [apply wp_pool_sql|].
  intros r w' (T & H1 & H2 & H3 & [(err & _ & -> & Hd)|(_ & -> & Hd)]).
  - by split; [split|].
  - rewrite Hs in Hd. split; [by split|]. split; [done|].
    destruct (exec (sql_ctx env w) s (w_db w)).1 eqn:E; [|done]. by eexists.
Qed.

(** From [w] to [w'] the trace grows by the Docker calls [cs], in that order. *)
Definition calls (w : World) (cs : list DockerCall) (w' : World) : Prop :=
  exists tr, w_trace w' = w_trace w ++ tr /\ docker_calls tr = cs.

Lemma calls_trans w1 l1 w2 l2 w3 : calls w1 l1 w2 -> calls w2 l2 w3 -> calls w1 (l1 ++ l2) w3.
Proof.
  intros (t1 & E1 & <-) (t2 & E2 & <-). exists (t1 ++ t2).
  by rewrite E2, E1, app_assoc, docker_calls_app.
Qed.
Lemma calls_same w w' : w_trace w' = w_trace w -> calls w [] w'.
Proof. intros E. exists []. by rewrite app_nil_r. Qed.
Lemma calls_one w c r w' : w_trace w' = w_trace w ++ [EvDocker c r] -> calls w [c] w'.
Proof. intros E. by eexists. Qed.

(** A best-effort loop of Docker calls. *)
Lemma wp_docker_loop {X} (l : list X) (f : X -> DockerCall) w :
  wp env (for_each l (fun x => bind (perform (EDocker (f x))) (fun _ => Ret tt)))
    (fun _ w' => outside w w' /\ calls w (map f l) w') w.
Proof.
  revert w. induction l as [|x l IH]; intros w; cbn [for_each map].
  { apply wp_ret. split; [done|by apply calls_same]. }
  eapply (wp_seq _ _ _ (fun _ w1 => outside w w1 /\ calls w [f x] w1)).
  { eapply wp_seq; [apply wp_docker|]. intros r w1 [O T]. apply wp_ret.
    split; [done|by eapply calls_one]. }
  intros [] w1 [O1 C1]. eapply wp_mono; [apply IH|]. intros [] w2 [O2 C2].
  split; [by rewrite O1|]. by apply (calls_trans _ [f x] w1).
Qed.
End Rules.

#[export] Hint Resolve in_tx_pending in_tx_outside after_tx_outside pending_outside quiet_outside
  res_same res_quiet : host.

(** The statement rules at the statement in the goal (whose answer type may be
    displayed unfolded). *)
Ltac expose_sql :=
  match goal with
  | |- wp _ ?p _ _ =>
      let p' := eval hnf in p in
      match p' with Do (ESql ?c ?s) _ => change p with (perform (ESql c s)) end
  end.
Ltac wp_tx_call :=
  expose_sql; match goal with |- wp _ (perform (ESql _ ?s')) _ _ => eapply wp_tx_sql with (s := s') end.
Ltac wp_pool_call :=
  expose_sql; match goal with |- wp _ (perform (ESql _ ?s')) _ _ => eapply wp_pool_sql with (s := s') end.

#[global] Opaque wp.
