(* ===== verification/GoTime.v ===== *)
(** GoTime: instants and durations of Go's [time] package, in nanoseconds, and
    the RFC 3339 rendering of a UTC instant. *)

From S2P Require Export GoStrings.

Definition Nanosecond : Z := 1.
Definition Second : Z := 1000000000.
Definition Minute : Z := 60 * Second.
Definition Hour : Z := 60 * Minute.

(** String concatenation and the double-quote character, for [fmt.Sprintf]. *)
Definition cat (l : list string) : string := fold_right String.append "" l.
Definition dquote : string := String (ascii_of_nat 34) "".

Fixpoint zeros (n : nat) : string :=
  match n with O => "" | S n' => String "0" (zeros n') end.

(** [%0wd] for a non-negative number *)
Definition pad (w : nat) (z : Z) : string :=
  let s := itoa z in String.append (zeros (w - String.length s)) s.

(** (year, month, day) of a day number counted from 1970-01-01. *)
Definition civil_of_days (days : Z) : Z * Z * Z :=
  let z := days + 719468 in
  let era := z / 146097 in
  let doe := z mod 146097 in
  let yoe := (doe - doe / 1460 + doe / 36524 - doe / 146096) / 365 in
  let doy := doe - (365 * yoe + yoe / 4 - yoe / 100) in
  let mp := (5 * doy + 2) / 153 in
  let d := doy - (153 * mp + 2) / 5 + 1 in
  let m := if mp <? 10 then mp + 3 else mp - 9 in
  (yoe + era * 400 + (if m <=? 2 then 1 else 0), m, d).

(** [t.UTC().Format(time.RFC3339)] *)
Definition RFC3339 (t : Z) : string :=
  let secs := t / Second in
  let '(y, m, d) := civil_of_days (secs / 86400) in
  let s := secs mod 86400 in
  cat [pad 4 y; "-"; pad 2 m; "-"; pad 2 d; "T";
       pad 2 (s / 3600); ":"; pad 2 (s / 60 mod 60); ":"; pad 2 (s mod 60); "Z"].

Example RFC3339_epoch : RFC3339 0 = "1970-01-01T00:00:00Z". Proof. reflexivity. Qed.
Example RFC3339_leap : RFC3339 (951827696 * Second) = "2000-02-29T12:34:56Z". Proof. reflexivity. Qed.
Example RFC3339_recent : RFC3339 (1700000000 * Second) = "2023-11-14T22:13:20Z". Proof. reflexivity. Qed.
