(* ===== verification/GoNet.v ===== *)
(** GoNet: what the program uses of Go's package net, the parsing of socket
    addresses. *)

From S2P Require Export GoTime.

(** * net.SplitHostPort *)

(** What stands before and after the last [c]. *)
Fixpoint cut_last (c : ascii) (s : string) : option (string * string) :=
  match s with
  | EmptyString => None
  | String a s' =>
      match cut_last c s' with
      | Some (h, t) => Some (String a h, t)
      | None => if Ascii.eqb a c then Some ("", s') else None
      end
  end.

Definition addr_error (hostport why : string) : GoError := ErrText (cat ["address "; hostport; ": "; why]).

Definition SplitHostPort (hostport : string) : result (string * string) :=
  let fail why := Err (addr_error hostport why) in
  match cut_last ":" hostport with
  | None => fail "missing port in address"
  | Some (before, port) =>
      match hostport with
      | String "[" rest =>
          match cut_first "]" rest with
          | None => fail "missing ']' in address"
          | Some (host, after) =>
              if bool_decide (after = "") then fail "missing port in address"
              else if bool_decide (before = cat ["["; host; "]"]) then
                if has_char "[" rest then fail "unexpected '[' in address"
                else if has_char "]" after then fail "unexpected ']' in address"
                else Ok (host, port)
              else if HasPrefix after ":" then fail "too many colons in address"
              else fail "missing port in address"
          end
      | _ =>
          if has_char ":" before then fail "too many colons in address"
          else if has_char "[" hostport then fail "unexpected '[' in address"
          else if has_char "]" hostport then fail "unexpected ']' in address"
          else Ok (before, port)
      end
  end.
