(* ===== verification/Repository.v ===== *)
(** Repository: service/repository.go, service/planService.go and
    repository/templateRepo.go, auditRepository.go: the functions that turn
    rows into Go structs, over the statements of [Sql]. *)

From S2P Require Export World GoTime GoPath.

Open Scope prog_scope.

(** service/hostContainerService.go *)
Record ContainerInfo := {
  ContainerID : string;
  ProjectID : string;
  ProjectName : string;
  ImageName : string;
  FolderPath : string;
  Port : string;
  Status : string;
  UserId : string;
  StartedAt : option Z;
  AutoStopAt : option Z;
  CreatedAt : option Z;
}.

(** service/UserService.go *)
Record User := {
  us_Id : string;
  us_Name : string;
  us_Email : string;
  us_Password : string;
  us_EmailVerified : bool;
  us_Role : string;
  us_PlanID : string;
  us_Containers : option (list ContainerInfo);
}.

(** service/planService.go *)
Record Plan := {
  pn_ID : string;
  pn_Name : string;
  pn_MaxContainers : Z;
  pn_MaxMemoryMB : Z;
  pn_MaxCPUNanoCores : Z;
  pn_AutoStopMinutes : Z;
  pn_PriceUSDCents : Z;
}.

(** [.Scan(&s)] into a plain string: NULL is an error. *)
Definition scan_string (o : option string) : result string := of_option ErrScan o.

(** [errors.Is(err, pgx.ErrNoRows)] mapped to the repository's sentinel. *)
Definition map_no_rows {A} (sentinel : GoError) (r : result A) : result A :=
  match r with
  | Ok a => Ok a
  | Err e => if errors_Is e ErrNoRows then Err sentinel else Err e
  end.

Section Repository.
Context {PG : Postgres}.

(** The columns [id::text, container_id, project_name, folder_path, port,
    status, started_at, image_name, created_at]; user_id is not selected. *)
Definition scan_container (kr : Z * container_row) : result ContainerInfo :=
  let r := kr.2 in
  result_bind (scan_string (c_port r)) (fun port =>
  result_bind (scan_string (c_image_name r)) (fun image =>
  Ok {| ContainerID := c_container_id r; ProjectID := bigint_text kr.1;
        ProjectName := c_project_name r; ImageName := image; FolderPath := c_folder_path r;
        Port := port; Status := c_status r; UserId := ""; StartedAt := c_started_at r;
        AutoStopAt := None; CreatedAt := c_created_at r |})).

Fixpoint scan_all {X A} (scan : X -> result A) (l : list X) : result (list A) :=
  match l with
  | [] => Ok []
  | x :: l' => result_bind (scan x) (fun a => result_bind (scan_all scan l') (fun l => Ok (a :: l)))
  end.

(** ** ContainerRepo *)

Definition repo_CreateContainer (db : Conn) (info : ContainerInfo) : Prog (result string) :=
  perform (ESql db (InsertContainer (ContainerID info) (ProjectName info) (FolderPath info)
    (Port info) (Status info) (UserId info) (StartedAt info) (ImageName info))).

Definition GetContainerByID (db : Conn) (id : string) : Prog (result ContainerInfo) :=
  r <- perform (ESql db (SelectContainer id)) ;;
  Ret (map_no_rows ErrNotFound (result_bind r scan_container)).

Definition UpdateContainer (db : Conn) (id : string) (info : ContainerInfo)
    : Prog (result ContainerInfo) :=
  r <- perform (ESql db (UpdateContainerRow id (ContainerID info) (ProjectName info)
         (FolderPath info) (Port info) (Status info) (StartedAt info) (ImageName info))) ;;
  Ret (map_no_rows ErrNotFound (result_bind r scan_container)).

Definition DeleteContainer (db : Conn) (id : string) : Prog (result unit) :=
  tag <-? perform (ESql db (DeleteContainerRow id)) ;;
  Ret (if Nat.eqb tag 0 then Err ErrNotFound else Ok tt).

Definition GetRunningContainersOlderThan (db : Conn) (maxAge : Z) : Prog (result (list ContainerInfo)) :=
  now <- perform ENow ;;
  rows <-? perform (ESql db (SelectRunningBefore (now - maxAge))) ;;
  Ret (scan_all scan_container rows).

(** ** UserRepo *)

Definition repo_CreateUser (db : Conn) (user : User) : Prog (result string) :=
  perform (ESql db (InsertUser (us_Name user) (us_Email user) (us_Password user))).

Definition scan_user (with_password : bool) (kr : Z * user_row) : result User :=
  let r := kr.2 in
  result_bind (scan_string (u_name r)) (fun name =>
  result_bind (scan_string (u_email r)) (fun email =>
  result_bind (if with_password then scan_string (u_password_hash r) else Ok "") (fun hash =>
  Ok {| us_Id := bigint_text kr.1; us_Name := name; us_Email := email; us_Password := hash;
        us_EmailVerified := bool_decide (is_Some (u_email_verified_at r)); us_Role := u_role r;
        us_PlanID := u_plan_id r; us_Containers := None |}))).

Definition GetUserByID (db : Conn) (id : string) : Prog (result User) :=
  r <- perform (ESql db (SelectUser id)) ;;
  Ret (map_no_rows UserNotFound (result_bind r (scan_user false))).

Definition GetUserByEmail (db : Conn) (email : string) : Prog (result User) :=
  r <- perform (ESql db (SelectUserByEmail email)) ;;
  Ret (map_no_rows UserNotFound (result_bind r (scan_user false))).

Definition GetUserByEmailWithPassword (db : Conn) (email : string) : Prog (result User) :=
  r <- perform (ESql db (SelectUserByEmail email)) ;;
  Ret (map_no_rows UserNotFound (result_bind r (scan_user true))).

(** One row of the LEFT JOIN: the user columns must scan, the container
    columns are pointers and a NULL one leaves the field empty. *)
Definition scan_joined (row : (Z * user_row) * option (Z * container_row))
    : result (User * option ContainerInfo) :=
  result_bind (scan_user false row.1) (fun u =>
    Ok (u, match row.2 with
           | None => None
           | Some (i, c) =>
               Some {| ContainerID := c_container_id c; ProjectID := bigint_text i;
                       ProjectName := c_project_name c; ImageName := default "" (c_image_name c);
                       FolderPath := c_folder_path c; Port := default "" (c_port c);
                       Status := c_status c; UserId := us_Id u; StartedAt := c_started_at c;
                       AutoStopAt := None; CreatedAt := c_created_at c |}
           end)).

Definition set_us_Containers (cs : list ContainerInfo) (u : User) : User :=
  {| us_Id := us_Id u; us_Name := us_Name u; us_Email := us_Email u; us_Password := us_Password u;
     us_EmailVerified := us_EmailVerified u; us_Role := us_Role u; us_PlanID := us_PlanID u;
     us_Containers := Some cs |}.

Definition GetContainersForUserByID (db : Conn) (userId : string)
    : Prog (result (User * list ContainerInfo)) :=
  rows <-? perform (ESql db (SelectUserContainers userId)) ;;
  Ret (result_bind (scan_all scan_joined rows) (fun l =>
    match l with
    | [] => Err UserNotFound
    | (u, _) :: _ =>
        let cs := omap snd l in
        Ok (set_us_Containers cs u, cs)
    end)).

Definition DeleteUserByID (db : Conn) (userId : string) : Prog (result unit) :=
  _ <-? perform (ESql db (DeleteContainersOfUser userId)) ;;
  tag <-? perform (ESql db (DeleteUserRow userId)) ;;
  Ret (if Nat.eqb tag 0 then Err UserNotFound else Ok tt).

(** ** planService.go *)

Definition plan_of_row (id : string) (p : plan_row) : Plan :=
  {| pn_ID := id; pn_Name := pl_name p; pn_MaxContainers := pl_max_containers p;
     pn_MaxMemoryMB := pl_max_memory_mb p; pn_MaxCPUNanoCores := pl_max_cpu_nanocores p;
     pn_AutoStopMinutes := pl_auto_stop_minutes p; pn_PriceUSDCents := pl_price_usd_cents p |}.

Definition GetPlanForUser (db : Conn) (userID : string) : Prog (result Plan) :=
  r <- perform (ESql db (SelectPlanOfUser userID)) ;;
  Ret match r with
      | Err e => Err (ErrWrap (cat ["failed to get plan for user "; userID; ": "]) e)
      | Ok (id, p) => Ok (plan_of_row id p)
      end.

(** ** repository/templateRepo.go *)

Definition GetAllowedImages : Prog (result (list string)) :=
  perform (ESql Pool SelectTemplateImages).

(** ** repository/auditRepository.go *)

Record AuditEntry := {
  ae_UserID : string;
  ae_Action : string;
  ae_Resource : string;
  ae_ResourceID : string;
  ae_IP : string;
  ae_UserAgent : string;
  ae_Metadata : option Json;
}.

Definition audit_Log (e : AuditEntry) : Prog (result unit) :=
  perform (ESql Pool (InsertAudit (ae_UserID e) (ae_Action e) (ae_Resource e) (ae_ResourceID e)
    (ae_IP e) (ae_UserAgent e) (ae_Metadata e))).
End Repository.
