(* ===== verification/Http.v ===== *)
(** Http: requests, replies and handlers, with the helpers of utils/utils.go.

    A handler is a program that returns its reply; the context value of a
    request is the authenticated user's ID.  A handler that starts a goroutine
    returns the goroutine's program beside the reply. *)

From S2P Require Export Repository Hoare.

(** * Requests *)

(** The parsed multipart form: its values and the part of the field [file]. *)
Record Form := {
  fm_Values : list (string * string);
  fm_Files : list (string * (string * result string));
}.

Record Request := {
  rq_Method : string;
  rq_Path : string;
  rq_Query : list (string * string);
  rq_Headers : list (string * string);
  rq_Vars : list (string * string);
  rq_RemoteAddr : string;
  rq_Body : result Json;
  rq_Form : result Form;
  rq_UserID : option string;
}.

(** The first value of a key; the empty string when there is none. *)
Fixpoint get_first (key : string) (l : list (string * string)) : string :=
  match l with
  | [] => ""
  | (k, v) :: l' => if bool_decide (k = key) then v else get_first key l'
  end.

(** [r.URL.Query().Get(k)], [r.Header.Get(k)] (canonical names), [mux.Vars(r)[k]] *)
Definition query (rq : Request) (k : string) : string := get_first k (rq_Query rq).
Definition header (rq : Request) (k : string) : string := get_first k (rq_Headers rq).
Definition var (rq : Request) (k : string) : string := get_first k (rq_Vars rq).

(** [userID, _ := r.Context().Value(utils.UserIDKey).(string)] *)
Definition user_id (rq : Request) : string := default "" (rq_UserID rq).

(** [r.WithContext(context.WithValue(r.Context(), utils.UserIDKey, userID))] *)
Definition with_user (userID : string) (rq : Request) : Request :=
  {| rq_Method := rq_Method rq; rq_Path := rq_Path rq; rq_Query := rq_Query rq;
     rq_Headers := rq_Headers rq; rq_Vars := rq_Vars rq; rq_RemoteAddr := rq_RemoteAddr rq;
     rq_Body := rq_Body rq; rq_Form := rq_Form rq; rq_UserID := Some userID |}.

(** [json.NewDecoder(r.Body).Decode(&req)] into a zero value *)
Definition decode_body {A} (rq : Request) (zero : A) (dec : Decode A) : result A :=
  result_bind (rq_Body rq) (dec zero).

(** * Replies *)

Inductive Body := BodyJson (j : Json) | BodyText (s : string) | NoBody.

Record Reply := {
  rp_Status : Z;
  rp_Headers : list (string * string);
  rp_Body : Body;
}.

Definition Handler : Type := Request -> Prog Reply.

(** net/http status codes *)
Definition StatusOK : Z := 200.
Definition StatusCreated : Z := 201.
Definition StatusNoContent : Z := 204.
Definition StatusBadRequest : Z := 400.
Definition StatusUnauthorized : Z := 401.
Definition StatusForbidden : Z := 403.
Definition StatusNotFound : Z := 404.
Definition StatusMethodNotAllowed : Z := 405.
Definition StatusRequestEntityTooLarge : Z := 413.
Definition StatusTooManyRequests : Z := 429.
Definition StatusInternalServerError : Z := 500.
Definition StatusServiceUnavailable : Z := 503.

Record APIResponse := {
  ar_Success : bool;
  ar_Data : option Json;
  ar_Error : string;
}.

Definition json_APIResponse (a : APIResponse) : Json :=
  JObj ([("success", JBool (ar_Success a))] ++ omit_none "data" (fun j => j) (ar_Data a)
        ++ omit_empty_string "error" (ar_Error a)).

Definition RespondJSON (a : APIResponse) (status : Z) : Reply :=
  {| rp_Status := status; rp_Headers := [("Content-Type", "application/json")];
     rp_Body := BodyJson (json_APIResponse a) |}.

Definition RespondError (message : string) (status : Z) : Reply :=
  RespondJSON {| ar_Success := false; ar_Data := None; ar_Error := message |} status.

(** [RespondJSON(w, APIResponse{Success: true, Data: data}, status)] *)
Definition success (data : Json) (status : Z) : Reply :=
  RespondJSON {| ar_Success := true; ar_Data := Some data; ar_Error := "" |} status.

(** [RespondJSON(w, APIResponse{Success: true}, status)] *)
Definition success_empty (status : Z) : Reply :=
  RespondJSON {| ar_Success := true; ar_Data := None; ar_Error := "" |} status.

(** [w.WriteHeader(http.StatusNoContent)] *)
Definition no_content : Reply :=
  {| rp_Status := StatusNoContent; rp_Headers := []; rp_Body := NoBody |}.

(** A [map[string]string] literal; [Encode] sorts the keys, which the literals
    of the program already are. *)
Definition json_strings (l : list (string * string)) : Json :=
  JObj (map (fun kv => (kv.1, JStr kv.2)) l).

(** * Guards *)

(** [if r.Method != m { RespondError(...); return }] *)
Definition require_method (m : string) (message : string) (rq : Request) (k : Prog Reply) : Prog Reply :=
  if bool_decide (rq_Method rq <> m) then Ret (RespondError message StatusMethodNotAllowed) else k.

(** [if v == "" { RespondError(w, message, 400); return }] *)
Definition require_value (v message : string) (k : Prog Reply) : Prog Reply :=
  if bool_decide (v = "") then Ret (RespondError message StatusBadRequest) else k.

(** [if err != nil { reply; return }] *)
Definition on_ok {A} (r : result A) (failed : GoError -> Reply) (k : A -> Prog Reply) : Prog Reply :=
  match r with Ok a => k a | Err e => Ret (failed e) end.

(** * Encodings of the shared structs *)

Definition json_ContainerInfo (i : ContainerInfo) : Json :=
  JObj ([("container_id", JStr (ContainerID i)); ("project_id", JStr (ProjectID i));
         ("project_name", JStr (ProjectName i)); ("image_name", JStr (ImageName i));
         ("folder_path", JStr (FolderPath i))]
        ++ omit_empty_string "port" (Port i)
        ++ [("status", JStr (Status i)); ("userId", JStr (UserId i))]
        ++ omit_none "started_at" JTime (StartedAt i)
        ++ omit_none "auto_stop_at" JTime (AutoStopAt i)
        ++ omit_none "created_at" JTime (CreatedAt i)).

Definition json_User (u : User) : Json :=
  JObj ([("id", JStr (us_Id u))]
        ++ omit_empty_string "name" (us_Name u)
        ++ omit_empty_string "email" (us_Email u)
        ++ omit_empty_string "password" (us_Password u)
        ++ [("email_verified", JBool (us_EmailVerified u))]
        ++ omit_empty_string "role" (us_Role u)
        ++ omit_empty_string "plan_id" (us_PlanID u)
        ++ omit_none "project" (fun l => JArr (map json_ContainerInfo l)) (us_Containers u)).

(** * Facts *)

Lemma on_ok_Err {A} e (failed : GoError -> Reply) (k : A -> Prog Reply) :
  on_ok (Err e) failed k = Ret (failed e).
Proof. done. Qed.

(** The status decides the member [success] of every envelope. *)
Definition envelope_ok (r : Reply) : Prop :=
  exists a, rp_Body r = BodyJson (json_APIResponse a) /\
    (ar_Success a = true <-> rp_Status r < 400).

Lemma envelope_success data status : status < 400 -> envelope_ok (success data status).
Proof. intros H. eexists. split; [reflexivity|]. by split. Qed.
Lemma envelope_error message status : 400 <= status -> envelope_ok (RespondError message status).
Proof. intros H. eexists. split; [reflexivity|]. simpl. split; [done|lia]. Qed.

Lemma require_method_ok m message rq k : rq_Method rq = m -> require_method m message rq k = k.
Proof. intros H. unfold require_method. rewrite bool_decide_eq_false_2; [done|]. by intros []. Qed.
Lemma require_method_bad m message rq k :
  rq_Method rq <> m -> require_method m message rq k = Ret (RespondError message StatusMethodNotAllowed).
Proof. intros H. unfold require_method. by rewrite bool_decide_eq_true_2. Qed.
Lemma require_value_ok v message k : v <> "" -> require_value v message k = k.
Proof. intros H. unfold require_value. by rewrite bool_decide_eq_false_2. Qed.
Lemma require_value_empty v message k :
  v = "" -> require_value v message k = Ret (RespondError message StatusBadRequest).
Proof. intros ->. done. Qed.

(** ** The effects of a handler *)

Lemma on_ok_effs P {A} (r : result A) failed (k : A -> Prog Reply) :
  (forall a, r = Ok a -> all_effs P (k a)) -> all_effs P (on_ok r failed k).
Proof. destruct r; simpl; auto. Qed.

Lemma require_value_effs P v message k : all_effs P k -> all_effs P (require_value v message k).
Proof. unfold require_value. by case_bool_decide. Qed.
Lemma require_method_effs P m message rq k : all_effs P k -> all_effs P (require_method m message rq k).
Proof. unfold require_method. by case_bool_decide. Qed.

Ltac handler_step :=
  first [ effs_step
        | apply on_ok_effs; intros ? ?
        | apply require_value_effs
        | apply require_method_effs ].
