(* ===== verification/ContainerManager.v ===== *)
(** ContainerManager: service/hostContainerService.go, the container lifecycle
    over the database, the Docker daemon and the project folders. *)

From S2P Require Export Repository.

Record ContainerManager := {
  cm_basePath : string;
  cm_autoStopTimeout : Z;
}.

(** service/ContainerHandlers.go *)
Record Project := { pj_ID : string; pj_Name : string; pj_UserId : string }.

Definition sys (c : SysCall) : Prog (sys_reply c) := perform (ESys c).
Definition docker (c : DockerCall) : Prog (result (reply c)) := perform (EDocker c).
Definition ignore {A} (p : Prog A) : Prog unit := bind p (fun _ => Ret tt).

Definition DEFAULT_MAX_CONTAINERS_PER_USER : Z := 10.

(** [getMaxContainersPerUser], from the value of MAX_CONTAINERS_PER_USER. *)
Definition getMaxContainersPerUser (envMax : string) : Z :=
  if bool_decide (envMax <> "") then
    match Atoi envMax with
    | (parsed, None) => if 0 <? parsed then parsed else DEFAULT_MAX_CONTAINERS_PER_USER
    | (_, Some _) => DEFAULT_MAX_CONTAINERS_PER_USER
    end
  else DEFAULT_MAX_CONTAINERS_PER_USER.

(** [newClient]'s options come from the environment of the process; the two
    repositories work on the pool. *)
Definition NewContainerManager (basePath : string) (autoStopTimeout : Z) : Prog (result ContainerManager) :=
  _ <-? sys NewDockerClient wrap "failed to create docker client: " ;;
  _ <-? perform (EMkdirAll basePath) wrap "failed to create base path: " ;;
  Ret (Ok {| cm_basePath := basePath; cm_autoStopTimeout := autoStopTimeout |}).

Definition ContainerManager_Close : Prog (result unit) := sys CloseDockerClient.

(** ** Exec helpers *)

(** The command's exit code is not inspected: the result is the outcome of
    reading the output stream to its end. *)
Definition execInContainer (containerID : string) (cmd : list string) : Prog (result unit) :=
  execID <-? docker (ContainerExecCreate containerID cmd false false) ;;
  _ <-? docker (ContainerExecAttach execID false) ;;
  _ <-? docker (ExecReadOutput execID) ;;
  Ret (Ok tt).

Definition installCmds (pkgList : string) : list (list string * list string) :=
  [ (["sh"; "-c"; "command -v apt-get"],
     ["sh"; "-c"; cat ["apt-get update && apt-get install -y "; pkgList]]);
    (["sh"; "-c"; "command -v apk"],
     ["sh"; "-c"; cat ["apk add --no-cache "; pkgList]]);
    (["sh"; "-c"; "command -v yum"],
     ["sh"; "-c"; cat ["yum install -y "; pkgList]]);
    (["sh"; "-c"; "command -v dnf"],
     ["sh"; "-c"; cat ["dnf install -y "; pkgList]]) ].

Fixpoint try_installers (containerID : string) (l : list (list string * list string)) : Prog (result unit) :=
  match l with
  | [] => Ret (Err (ErrText (cat ["no supported package manager found in container "; containerID])))
  | (check, install) :: l' =>
      r <- execInContainer containerID check ;;
      if is_ok r then execInContainer containerID install
      else try_installers containerID l'
  end.

Definition installPackages (containerID : string) (packages : list string) : Prog (result unit) :=
  try_installers containerID (installCmds (Join " " packages)).

Definition pullImageIfNeeded (imageName : string) : Prog (result unit) :=
  r <- docker (ImageInspect imageName) ;;
  if is_ok r then Ret (Ok tt)
  else _ <-? docker (ImagePull imageName) ;;
       docker (PullDrain imageName).

(** ** Creation *)

Section Create.
Context {PG : Postgres} (cm : ContainerManager).

(** [int64(plan.MaxMemoryMB) * 1024 * 1024] *)
Definition memory_bytes (plan : Plan) : Z := wrap_i64 (wrap_i64 (pn_MaxMemoryMB plan * 1024) * 1024).

Definition managed_labels (project : Project) : list (string * string) :=
  [("codedock.managed", "true"); ("codedock.user_id", pj_UserId project)].

Definition container_config (plan : Plan) (project : Project) (imageName folderPath : string)
    : ContainerConfig :=
  {| cfg_Image := imageName; cfg_Tty := true; cfg_WorkingDir := "/workspace"; cfg_Cmd := ["/bin/sh"];
     cfg_Labels := managed_labels project; cfg_ExposedPorts := [];
     cfg_MountSource := folderPath; cfg_MountTarget := "/workspace"; cfg_PortBindings := [];
     cfg_Memory := memory_bytes plan; cfg_NanoCPUs := pn_MaxCPUNanoCores plan |}.

Definition container_config_port (plan : Plan) (project : Project)
    (imageName folderPath exposedPort : string) : ContainerConfig :=
  {| cfg_Image := imageName; cfg_Tty := true; cfg_WorkingDir := "/workspace"; cfg_Cmd := [];
     cfg_Labels := managed_labels project; cfg_ExposedPorts := [exposedPort];
     cfg_MountSource := folderPath; cfg_MountTarget := "/workspace";
     cfg_PortBindings := [(exposedPort, ("0.0.0.0", ""))];
     cfg_Memory := memory_bytes plan; cfg_NanoCPUs := pn_MaxCPUNanoCores plan |}.

Definition new_info (id : string) (project : Project) (imageName folderPath port : string) (now : Z)
    : ContainerInfo :=
  {| ContainerID := id; ProjectID := pj_ID project; ProjectName := pj_Name project;
     ImageName := imageName; FolderPath := folderPath; Port := port; Status := "running";
     UserId := pj_UserId project; StartedAt := Some now; AutoStopAt := None; CreatedAt := Some now |}.

(** [info.ProjectID = id] *)
Definition set_ProjectID (id : string) (i : ContainerInfo) : ContainerInfo :=
  {| ContainerID := ContainerID i; ProjectID := id; ProjectName := ProjectName i;
     ImageName := ImageName i; FolderPath := FolderPath i; Port := Port i; Status := Status i;
     UserId := UserId i; StartedAt := StartedAt i; AutoStopAt := AutoStopAt i;
     CreatedAt := CreatedAt i |}.

Definition plan_limit_error (plan : Plan) : GoError :=
  ErrText (cat ["plan limit reached: your "; pn_Name plan; " plan allows ";
                itoa (pn_MaxContainers plan); " containers"]).

Definition project_folder (project : Project) : string :=
  PathJoin [cm_basePath cm; pj_Name project; pj_ID project].

(** From [cm.repo.CreateContainer] to the end of the function. *)
Definition record_container (tx : nat) (info : ContainerInfo) : Prog (result ContainerInfo) :=
  id <-? repo_CreateContainer (InTx tx) info ;;
  _ <-? perform (ECommit tx) ;;
  Ret (Ok (set_ProjectID id info)).

(** From [cm.client.ContainerStart] on: the body guarded by the second
    deferred cleanup. *)
Definition start_and_record (tx : nat) (project : Project) (imageName folderPath id : string)
    : Prog (result ContainerInfo) :=
  _ <-? docker (ContainerStart id) wrap "failed to start container: " ;;
  _ <- installPackages id ["tree"] ;;
  now <- perform ENow ;;
  record_container tx (new_info id project imageName folderPath "" now).

Definition discard_container (id : string) : Prog unit :=
  ignore (docker (ContainerStop id None)) ;;; ignore (docker (ContainerRemove id true)).

Definition remove_folder (folderPath : string) : Prog unit :=
  ignore (perform (ERemoveAll folderPath)).

(** [defer func() { if err != nil { cleanup } }()] *)
Definition on_error {A} (cleanup : Prog unit) (r : result A) : Prog unit :=
  if is_ok r then Ret tt else cleanup.

(** From [cm.client.ContainerCreate] on: the body guarded by the first
    deferred cleanup. *)
Definition create_in_folder (tx : nat) (plan : Plan) (project : Project) (imageName folderPath : string)
    : Prog (result ContainerInfo) :=
  id <-? docker (ContainerCreate (container_config plan project imageName folderPath))
    wrap "failed to create container: " ;;
  defer (start_and_record tx project imageName folderPath id) (on_error (discard_container id)).

(** The part shared by both creation methods: the user's containers, the plan
    and the limit. *)
Definition check_limit (tx : nat) (project : Project) : Prog (result Plan) :=
  uc <-? GetContainersForUserByID (InTx tx) (pj_UserId project)
    wrap "failed to get the user and container: " ;;
  plan <-? GetPlanForUser (InTx tx) (pj_UserId project) wrap "failed to fetch plan: " ;;
  if pn_MaxContainers plan <=? Z.of_nat (length uc.2)
  then Ret (Err (plan_limit_error plan)) else Ret (Ok plan).

Definition create_body (tx : nat) (project : Project) (imageName : string) : Prog (result ContainerInfo) :=
  plan <-? check_limit tx project ;;
  _ <-? pullImageIfNeeded imageName wrap "failed to pull image: " ;;
  let folderPath := project_folder project in
  _ <-? perform (EMkdirAll folderPath) wrap "failed to create project folder: " ;;
  defer (create_in_folder tx plan project imageName folderPath) (on_error (remove_folder folderPath)).

Definition CreateContainer (project : Project) (imageName : string) : Prog (result ContainerInfo) :=
  tx <-? perform EBegin ;;
  defer (create_body tx project imageName) (fun _ => perform (ERollback tx)).

(** ** Creation with a published port *)

Definition removeFolderRollBack (folderPath : string) : Prog (result unit) :=
  r <- perform (ERemoveAll folderPath) ;;
  Ret (wrap_err "failed to remove project folder: " r).

(** [inspect.NetworkSettings.Ports[exposedPort]], first binding. *)
Fixpoint lookup_port (exposedPort : string) (ports : list (string * list string)) : string :=
  match ports with
  | [] => ""
  | (p, bindings) :: ports' =>
      if bool_decide (p = exposedPort)
      then match bindings with hp :: _ => hp | [] => "" end
      else lookup_port exposedPort ports'
  end.

Definition port_entry (assignedPort containerPort : string) : string :=
  if bool_decide (assignedPort <> "") then cat [assignedPort; ":"; containerPort] else "".

Definition start_with_port (tx : nat) (project : Project) (imageName folderPath containerPort id : string)
    : Prog (result ContainerInfo) :=
  let exposedPort := cat [containerPort; "/tcp"] in
  started <- docker (ContainerStart id) ;;
  match started with
  | Err e =>
      ignore (docker (ContainerRemove id true)) ;;;
      ignore (removeFolderRollBack folderPath) ;;;
      Ret (Err (ErrWrap "failed to start container: " e))
  | Ok _ =>
      _ <- installPackages id ["tree"] ;;
      ports <-? docker (ContainerInspectPorts id) wrap "failed to inspect container: " ;;
      let portEntry := port_entry (lookup_port exposedPort ports) containerPort in
      now <- perform ENow ;;
      record_container tx (new_info id project imageName folderPath portEntry now)
  end.

Definition create_body_port (tx : nat) (project : Project) (imageName containerPort : string)
    : Prog (result ContainerInfo) :=
  plan <-? check_limit tx project ;;
  _ <-? pullImageIfNeeded imageName wrap "failed to pull image: " ;;
  let folderPath := project_folder project in
  _ <-? perform (EMkdirAll folderPath) wrap "failed to create project folder: " ;;
  created <- docker (ContainerCreate (container_config_port plan project imageName folderPath
                       (cat [containerPort; "/tcp"]))) ;;
  match created with
  | Err e =>
      ignore (removeFolderRollBack folderPath) ;;;
      Ret (Err (ErrWrap "failed to create container: " e))
  | Ok id => start_with_port tx project imageName folderPath containerPort id
  end.

Definition CreateContainerWithPort (project : Project) (imageName containerPort : string)
    : Prog (result ContainerInfo) :=
  tx <-? perform EBegin ;;
  defer (create_body_port tx project imageName containerPort) (fun _ => perform (ERollback tx)).
End Create.

(** ** Lifecycle *)

Section Lifecycle.
Context {PG : Postgres} (cm : ContainerManager).

Definition not_found (projectID : string) : GoError :=
  ErrText (cat ["container not found for project "; projectID]).

(** [info, err := GetContainerByID(...); if err != nil { "container not found ..." }] *)
Definition find_container {A} (db : Conn) (projectID : string)
    (k : ContainerInfo -> Prog (result A)) : Prog (result A) :=
  r <- GetContainerByID db projectID ;;
  match r with
  | Ok info => k info
  | Err _ => Ret (Err (not_found projectID))
  end.

Definition set_Status (s : string) (i : ContainerInfo) : ContainerInfo :=
  {| ContainerID := ContainerID i; ProjectID := ProjectID i; ProjectName := ProjectName i;
     ImageName := ImageName i; FolderPath := FolderPath i; Port := Port i; Status := s;
     UserId := UserId i; StartedAt := StartedAt i; AutoStopAt := AutoStopAt i;
     CreatedAt := CreatedAt i |}.
Definition set_StartedAt (t : option Z) (i : ContainerInfo) : ContainerInfo :=
  {| ContainerID := ContainerID i; ProjectID := ProjectID i; ProjectName := ProjectName i;
     ImageName := ImageName i; FolderPath := FolderPath i; Port := Port i; Status := Status i;
     UserId := UserId i; StartedAt := t; AutoStopAt := AutoStopAt i; CreatedAt := CreatedAt i |}.
Definition set_AutoStopAt (t : option Z) (i : ContainerInfo) : ContainerInfo :=
  {| ContainerID := ContainerID i; ProjectID := ProjectID i; ProjectName := ProjectName i;
     ImageName := ImageName i; FolderPath := FolderPath i; Port := Port i; Status := Status i;
     UserId := UserId i; StartedAt := StartedAt i; AutoStopAt := t; CreatedAt := CreatedAt i |}.

Definition StopContainer (projectID : string) : Prog (result unit) :=
  tx <-? perform EBegin ;;
  defer
    (find_container Pool projectID (fun info =>
       let info := set_Status "stopped" info in
       _ <-? UpdateContainer (InTx tx) (ProjectID info) info ;;
       _ <-? docker (ContainerStop (ContainerID info) (Some 10)) wrap "failed to stop container: " ;;
       perform (ECommit tx)))
    (fun _ => perform (ERollback tx)).

Definition StartContainer (projectID : string) : Prog (result unit) :=
  tx <-? perform EBegin ;;
  defer
    (find_container Pool projectID (fun info =>
       now <- perform ENow ;;
       let info := set_StartedAt (Some now) (set_Status "running" info) in
       _ <-? UpdateContainer (InTx tx) (ProjectID info) info ;;
       _ <-? docker (ContainerStart (ContainerID info)) wrap "failed to start container: " ;;
       _ <-? perform (ECommit tx) ;;
       _ <- perform (ESql Pool (ResetHealthRow (ProjectID info))) ;;
       Ret (Ok tt)))
    (fun _ => perform (ERollback tx)).

(** [netRows, _ := Query(...)]: an error leaves the list empty. *)
Definition container_networks_of (projectID : string) : Prog (list string) :=
  r <- perform (ESql Pool (SelectDockerNetIds projectID)) ;;
  Ret (match r with Ok ids => ids | Err _ => [] end).

Definition RemoveContainer (projectID : string) (removeFolder : bool) : Prog (result unit) :=
  tx <-? perform EBegin ;;
  defer
    (find_container (InTx tx) projectID (fun info =>
       dockerNetIDs <- container_networks_of projectID ;;
       _ <-? DeleteContainer (InTx tx) projectID ;;
       _ <-? perform (ECommit tx) ;;
       for_each dockerNetIDs (fun netID =>
         ignore (docker (NetworkDisconnect netID (ContainerID info) true))) ;;;
       ignore (docker (ContainerStop (ContainerID info) (Some 5))) ;;;
       ignore (docker (ContainerRemove (ContainerID info) true)) ;;;
       (if removeFolder then remove_folder (FolderPath info) else Ret tt) ;;;
       Ret (Ok tt)))
    (fun _ => perform (ERollback tx)).

Definition GetContainerInfo (projectID : string) : Prog (result ContainerInfo) :=
  find_container Pool projectID (fun info =>
    Ret (Ok match StartedAt info with
            | Some t => if bool_decide (Status info = "running")
                        then set_AutoStopAt (Some (t + cm_autoStopTimeout cm)) info else info
            | None => info
            end)).

(** ** Commands, terminal, logs and files *)

Definition ExecCommand (projectID : string) (cmd : list string) : Prog (result (string * string)) :=
  find_container Pool projectID (fun info =>
    execID <-? docker (ContainerExecCreate (ContainerID info) cmd false false)
      wrap "failed to create exec: " ;;
    _ <-? docker (ContainerExecAttach execID false) wrap "failed to attach exec: " ;;
    out <-? docker (ExecReadOutput execID) wrap "failed to read output: " ;;
    Ret (Ok (out : string * string))).

Definition ExecTerminal (projectID : string) : Prog (result string) :=
  find_container Pool projectID (fun info =>
    execID <-? docker (ContainerExecCreate (ContainerID info) ["/bin/sh"] true true)
      wrap "failed to create exec: " ;;
    _ <-? docker (ContainerExecAttach execID true) wrap "failed to attach exec: " ;;
    Ret (Ok execID)).

Definition ResizeTerminal (execID : string) (cols rows : Z) : Prog (result unit) :=
  docker (ContainerExecResize execID cols rows).

Definition StreamLogs (projectID : string) : Prog (result unit) :=
  find_container Pool projectID (fun info =>
    _ <-? docker (ContainerLogs (ContainerID info)) wrap "failed to get container logs: " ;;
    Ret (Ok tt)).

Definition WriteFileToContainer (projectID destPath content : string) : Prog (result unit) :=
  find_container Pool projectID (fun info =>
    let fileName := Base destPath in
    let dirPath := Dir destPath in
    _ <-? execInContainer (ContainerID info) ["mkdir"; "-p"; dirPath]
      wrap (cat ["failed to create directory "; dirPath; ": "]) ;;
    _ <-? perform (ETar (TarWriteHeader fileName 420 (Z.of_nat (String.length content))))
      wrap "failed to write tar header: " ;;
    _ <-? perform (ETar (TarWrite content)) wrap "failed to write tar content: " ;;
    _ <-? perform (ETar TarClose) wrap "failed to close tar writer: " ;;
    docker (CopyToContainer (ContainerID info) dirPath fileName 420 content)).

(** ** Auto-stop *)

Definition auto_stop_notification (c : ContainerInfo) (now : Z) : Notification :=
  {| n_ID := ProjectID c; n_Type := "container_auto_stopped"; n_Title := "Container auto-stopped";
     n_Body := cat ["Container "; dquote; ProjectName c; dquote;
                    " was automatically stopped after the idle timeout."];
     n_Metadata := None; n_CreatedAt := RFC3339 now |}.

Definition auto_stop_one (c : ContainerInfo) : Prog unit :=
  r <- StopContainer (ProjectID c) ;;
  match r with
  | Err _ => Ret tt
  | Ok _ =>
      now <- perform ENow ;;
      perform (EPublish (UserId c) (auto_stop_notification c now))
  end.

Definition checkAndStopExpiredContainers : Prog unit :=
  r <- GetRunningContainersOlderThan Pool (cm_autoStopTimeout cm) ;;
  match r with
  | Err _ => Ret tt
  | Ok containers => for_each containers auto_stop_one
  end.

(** What the watcher's [select] picks next: the ticker, or [stopChan] once it is
    closed. *)
Inductive WatchEvent := WatchTick | WatchStop.

(** The goroutine of [StartAutoStopWatcher]. *)
Fixpoint StartAutoStopWatcher (evs : list WatchEvent) : Prog unit :=
  match evs with
  | [] | WatchStop :: _ => Ret tt
  | WatchTick :: evs' => checkAndStopExpiredContainers ;;; StartAutoStopWatcher evs'
  end.

(** [close(cm.stopChan)]: the channel is closed once; a second time panics. *)
Definition StopAutoStopWatcher (closed : bool) : option bool := if closed then None else Some true.

(** The stream of statistics, and its decoder. *)
Definition GetMetricOfContainer (containerID : string) : Prog (result unit) :=
  _ <-? docker (ContainerStats containerID) wrap "failed to GET METRIC OF THE CONTAINER: " ;;
  Ret (Ok tt).

(** [withTx]: rollback only on error, commit otherwise. *)
Definition withTx (fn : nat -> Prog (result unit)) : Prog (result unit) :=
  tx <-? perform EBegin ;;
  defer (_ <-? fn tx ;; perform (ECommit tx)) (on_error (perform (ERollback tx))).
End Lifecycle.
