(* ===== verification/Mail.v ===== *)
(** Mail: email/mailer.go and email/templates.go, the two transactional mails, the
    escaping that Go's [html/template] applies to their variables, and the
    conversation with the mail server. *)

From S2P Require Export GoNet Http Hoare.

Open Scope prog_scope.

(** * html/template

    A variable in text is HTML-escaped; one that starts a quoted [href] goes
    through the URL filter, the URL normalizer and the attribute escaper. *)
Definition is_alnum (n : nat) : bool :=
  ((48 <=? n)%nat && (n <=? 57)%nat) || ((65 <=? n)%nat && (n <=? 90)%nat)
  || ((97 <=? n)%nat && (n <=? 122)%nat).

Definition escape_char (a : ascii) : string :=
  match nat_of_ascii a with
  | 0%nat => String (ascii_of_nat 239) (String (ascii_of_nat 191) (String (ascii_of_nat 189) ""))
  | 34%nat => "&#34;"
  | 38%nat => "&amp;"
  | 39%nat => "&#39;"
  | 43%nat => "&#43;"
  | 60%nat => "&lt;"
  | 62%nat => "&gt;"
  | _ => String a ""
  end.

Fixpoint html_escape (s : string) : string :=
  match s with
  | EmptyString => ""
  | String a r => String.append (escape_char a) (html_escape r)
  end.

(** [isSafeURL]: a scheme other than http, https and mailto is rejected. *)
Definition safe_url (s : string) : bool :=
  match cut_first ":"%char s with
  | Some (protocol, _) =>
      if has_char "/"%char protocol then true
      else bool_decide (fold_name protocol ∈ ["HTTP"; "HTTPS"; "MAILTO"])
  | None => true
  end.

Definition url_filter (s : string) : string := if safe_url s then s else "#ZgotmplZ".

Definition is_hex (a : ascii) : bool :=
  let n := nat_of_ascii a in
  ((48 <=? n)%nat && (n <=? 57)%nat) || ((65 <=? n)%nat && (n <=? 70)%nat)
  || ((97 <=? n)%nat && (n <=? 102)%nat).

(** The bytes [! # $ & * + , / : ; = ? @ [ ]] and [- . _ ~] pass. *)
Definition url_pass (n : nat) : bool :=
  is_alnum n ||
  bool_decide (n ∈ [33; 35; 36; 38; 42; 43; 44; 47; 58; 59; 61; 63; 64; 91; 93; 45; 46; 95; 126]%nat).

Fixpoint url_normalize (s : string) : string :=
  match s with
  | EmptyString => ""
  | String a r =>
      let quoted := match r with
                    | String x (String y _) => Ascii.eqb a "%"%char && is_hex x && is_hex y
                    | _ => false
                    end in
      String.append
        (if url_pass (nat_of_ascii a) || quoted then String a ""
         else String "%"%char (String (hex_digit (nat_of_ascii a / 16))
                (String (hex_digit (nat_of_ascii a mod 16)) "")))
        (url_normalize r)
  end.

Definition escape_url (s : string) : string := html_escape (url_normalize (url_filter s)).

Inductive Piece := Text (s : string) | Name | URL.

Definition Template : Type := list Piece.

Definition render_piece (name url : string) (p : Piece) : string :=
  match p with
  | Text s => s
  | Name => html_escape name
  | URL => escape_url url
  end.

Definition renderTemplate (tmpl : Template) (name url : string) : string :=
  cat (map (render_piece name url) tmpl).

(** A literal with back quotes for the double quotes. *)
Fixpoint html (s : string) : string :=
  match s with
  | EmptyString => ""
  | String a r => String (if is_byte 96 a then ascii_of_nat 34 else a) (html r)
  end.

Definition verificationTmpl : Template :=
  [Text (html "<!DOCTYPE html>
<html>
<body style=`font-family:sans-serif;max-width:600px;margin:0 auto;padding:32px;background:#0f172a;color:#e2e8f0`>
  <div style=`background:#1e293b;border:1px solid #334155;border-radius:12px;padding:32px`>
    <h2 style=`color:#818cf8;margin-top:0`>Verify your email</h2>
    <p>Hi <strong>");
   Name;
   Text (html "</strong>, thanks for signing up to Docker Wrapper.</p>
    <p>Click the button below to verify your email address.</p>
    <a href=`");
   URL;
   Text (html "`
       style=`display:inline-block;background:#6366f1;color:#fff;padding:12px 28px;border-radius:8px;text-decoration:none;font-weight:600;margin:16px 0`>
      Verify Email
    </a>
    <p style=`color:#64748b;font-size:13px;margin-top:24px`>
      This link expires in <strong>24 hours</strong>.<br>
      If you didn't create an account, you can safely ignore this email.
    </p>
  </div>
</body>
</html>")].

Definition passwordResetTmpl : Template :=
  [Text (html "<!DOCTYPE html>
<html>
<body style=`font-family:sans-serif;max-width:600px;margin:0 auto;padding:32px;background:#0f172a;color:#e2e8f0`>
  <div style=`background:#1e293b;border:1px solid #334155;border-radius:12px;padding:32px`>
    <h2 style=`color:#818cf8;margin-top:0`>Reset your password</h2>
    <p>Hi <strong>");
   Name;
   Text (html "</strong>, we received a request to reset your password.</p>
    <a href=`");
   URL;
   Text (html "`
       style=`display:inline-block;background:#6366f1;color:#fff;padding:12px 28px;border-radius:8px;text-decoration:none;font-weight:600;margin:16px 0`>
      Reset Password
    </a>
    <p style=`color:#64748b;font-size:13px;margin-top:24px`>
      This link expires in <strong>1 hour</strong>.<br>
      If you didn't request a password reset, you can safely ignore this email.
    </p>
  </div>
</body>
</html>")].

(** * The mailer *)

Record Mailer := {
  ml_host : string;
  ml_port : string;
  ml_user : string;
  ml_password : string;
  ml_from : string;
}.

Definition crlf : string := String (ascii_of_nat 13) (String (ascii_of_nat 10) "").

Definition buildMessage (from to subject htmlBody : string) : string :=
  cat ["From: "; from; crlf; "To: "; to; crlf; "Subject: "; subject; crlf;
       "MIME-Version: 1.0"; crlf; "Content-Type: text/html; charset=UTF-8"; crlf; crlf; htmlBody].

(** [getenv]: [os.Getenv]. *)
Definition NewMailer (getenv : string -> string) : Mailer :=
  {| ml_host := getenv "SMTP_HOST"; ml_port := getenv "SMTP_PORT"; ml_user := getenv "SMTP_USER";
     ml_password := getenv "SMTP_PASSWORD"; ml_from := getenv "SMTP_FROM" |}.

Definition smtp (c : MailCall) : Prog (result unit) := perform (EMail c).

(** [host, _, _ := net.SplitHostPort(addr)]; the errors of closing the message
    and of [Quit] are dropped. *)
Definition sendTLS (addr : string) (auth : SmtpAuth) (from to msg : string) : Prog (result unit) :=
  let host := match SplitHostPort addr with Ok (h, _) => h | Err _ => "" end in
  _ <-? smtp (TlsDial addr host) ;;
  _ <-? smtp (NewClient host) ;;
  defer
    (_ <-? smtp (ClientAuth auth) ;;
     _ <-? smtp (ClientMail from) ;;
     _ <-? smtp (ClientRcpt to) ;;
     _ <-? smtp ClientData ;;
     r <- smtp (DataWrite msg) ;;
     smtp DataClose ;;;
     Ret r)
    (fun _ => smtp ClientQuit ;;; Ret tt).

Section Mailer.
Variable m : Mailer.

Definition Enabled : bool := bool_decide (ml_host m <> "").

Definition plain_auth : SmtpAuth :=
  {| sa_identity := ""; sa_username := ml_user m; sa_password := ml_password m; sa_host := ml_host m |}.

(** Without a host the mail is printed, which is not modelled. *)
Definition Send (to subject htmlBody : string) : Prog (result unit) :=
  if negb Enabled then Ret (Ok tt)
  else
    let msg := buildMessage (ml_from m) to subject htmlBody in
    let addr := cat [ml_host m; ":"; ml_port m] in
    if bool_decide (ml_port m = "465") then sendTLS addr plain_auth (ml_from m) to msg
    else smtp (SendMail addr plain_auth (ml_from m) [to] msg).

Definition SendVerificationEmail (to name verifyURL : string) : Prog (result unit) :=
  Send to "Verify your Docker Wrapper account" (renderTemplate verificationTmpl name verifyURL).

Definition SendPasswordResetEmail (to name resetURL : string) : Prog (result unit) :=
  Send to "Reset your Docker Wrapper password" (renderTemplate passwordResetTmpl name resetURL).
End Mailer.

(** ** The conversation *)

Section Conversation.
Context {PG : Postgres} (env : Env).

(** The calls of [sendTLS] that must succeed, in order. *)
Definition dialogue (addr : string) (auth : SmtpAuth) (from to msg : string) : list MailCall :=
  let host := match SplitHostPort addr with Ok (h, _) => h | Err _ => "" end in
  [TlsDial addr host; NewClient host; ClientAuth auth; ClientMail from; ClientRcpt to; ClientData; DataWrite msg].

(** What the trace shows of a dialogue that got through [k] calls: these, the
    one that failed, then the end of the message if it was begun and the end of
    the session if there was one. *)
Definition transcript (calls : list MailCall) (k : nat) (closed quit : bool) : list Event :=
  map (fun c => EvMail c true) (take k calls)
  ++ (match calls !! k with Some c => [EvMail c false] | None => [] end)
  ++ (if (6 <=? k)%nat then [EvMail DataClose closed] else [])
  ++ (if (2 <=? k)%nat then [EvMail ClientQuit quit] else []).

(** Nothing has changed but the clock and the trace, which has grown by [tr]. *)
Definition only_trace (w : World) (tr : list Event) (w' : World) : Prop :=
  outside w w' /\ w_trace w' = w_trace w ++ tr.

Lemma only_trace_cons w ev tr w1 w' :
  outside w w1 -> w_trace w1 = w_trace w ++ [ev] -> only_trace w1 tr w' -> only_trace w (ev :: tr) w'.
Proof.
  intros Ho Ht [Ho' Ht']. split; [by transitivity w1|]. by rewrite Ht', Ht, <- app_assoc.
Qed.

Lemma only_trace_nil w : only_trace w [] w.
Proof. split; [done|]. by rewrite app_nil_r. Qed.

(** One more call: its answer decides the flag of its event. *)
Lemma run_smtp {A} c (f : result unit -> Prog A) w :
  exists r w1, run env (Do (EMail c) f) w = run env (f r) w1 /\
    (forall tr w', only_trace w1 tr w' -> only_trace w (EvMail c (is_ok r) :: tr) w').
Proof.
  cbn [run run_eff run_fallible]. eexists _, _. split; [reflexivity|]. intros tr w' H.
  eapply only_trace_cons; [| |exact H]; done.
Qed.

(** The answer to the call at the head of the program. *)
Ltac ask :=
  match goal with |- run env (Do (EMail ?c) ?f) ?w = _ -> _ =>
    let r := fresh "r" in let w1 := fresh "w" in let E := fresh "E" in let T := fresh "T" in
    destruct (run_smtp c f w) as (r & w1 & E & T); rewrite E; clear E; cbn [bind]
  end.
(** A call whose refusal ends the dialogue after [k] others. *)
Ltac seen :=
  repeat match goal with H : forall _ _, only_trace ?w0 _ _ -> only_trace ?w _ _ |- only_trace ?w _ _ => apply H end;
  apply only_trace_nil.
Ltac ended k :=
  repeat ask; intros [= <- <-]; exists k;
  first [exists true, true; split; [seen|by split; [lia|]]
        |exists true; eexists; split; [seen|by split; [lia|]]
        |eexists _, _; split; [seen|by split; [lia|]]].
Ltac ask_or k :=
  ask; match goal with |- context [match ?r with Ok _ => _ | Err _ => _ end] =>
    is_var r; destruct r as [[]|]; cbn [bind]; [|ended k]
  end.

Lemma run_sendTLS addr auth from to msg w r w' :
  run env (sendTLS addr auth from to msg) w = (r, w') ->
  exists k closed quit,
    only_trace w (transcript (dialogue addr auth from to msg) k closed quit) w' /\
    (k <= 7)%nat /\ is_ok r = (7 <=? k)%nat.
Proof.
  unfold sendTLS, dialogue. generalize (match SplitHostPort addr with Ok (h, _) => h | Err _ => "" end). intros host.
  unfold defer, smtp, perform. cbn [bind].
  ask_or 0%nat. ask_or 1%nat. ask_or 2%nat. ask_or 3%nat. ask_or 4%nat. ask_or 5%nat.
  ask. destruct r0 as [[]|]; [ended 7%nat|ended 6%nat].
Qed.


(** The mails a trace hands over to a server, each with its recipients. *)
Fixpoint handed_over (rcpt : list string) (tr : list Event) : list (list string * string) :=
  match tr with
  | [] => []
  | EvMail (SendMail _ _ _ to msg) _ :: tr' => (to, msg) :: handed_over rcpt tr'
  | EvMail (NewClient _) _ :: tr' => handed_over [] tr'
  | EvMail (ClientRcpt to) _ :: tr' => handed_over (rcpt ++ [to]) tr'
  | EvMail (DataWrite msg) _ :: tr' => (rcpt, msg) :: handed_over rcpt tr'
  | _ :: tr' => handed_over rcpt tr'
  end.

(** [Send] hands over at most its own mail. *)
Lemma run_Send m to subject htmlBody w r w' :
  run env (Send m to subject htmlBody) w = (r, w') -> exists tr, only_trace w tr w' /\
    (handed_over [] tr = [] \/
     handed_over [] tr = [([to], buildMessage (ml_from m) to subject htmlBody)]).
Proof.
  unfold Send. destruct (Enabled m); cbn [negb].
  2:{ intros [= <- <-]. exists []. split; [apply only_trace_nil|by left]. }
  case_bool_decide.
  - intros (k & c & q & Ht & Hk & _)%run_sendTLS. eexists. split; [exact Ht|].
    do 8 (destruct k as [|k]; [first [by left|by right]|]). lia.
  - intros [= <- <-]. eexists [_]. split; [by split|]. by right.
Qed.
End Conversation.

(** ** Facts *)

Definition markup : list ascii := ["<"; ">"; "'"; ascii_of_nat 34]%char.

Lemma escape_char_safe c a : c ∈ markup -> has_char c (escape_char a) = false.
Proof.
  intros Hc. unfold markup in Hc. rewrite !elem_of_cons, elem_of_nil in Hc.
  destruct a as [b0 b1 b2 b3 b4 b5 b6 b7].
  destruct Hc as [->|[->|[->|[->|[]]]]];
    destruct b0, b1, b2, b3, b4, b5, b6, b7; vm_compute; reflexivity.
Qed.

Lemma html_escape_safe c s : c ∈ markup -> has_char c (html_escape s) = false.
Proof.
  intros Hc. induction s as [|a s IH]; simpl; [done|].
  by rewrite has_char_append, IH, escape_char_safe.
Qed.

(** A link none of whose bytes an escaper changes. *)
Definition plain_url (s : string) : Prop :=
  safe_url s = true /\ Forall (fun a => url_pass (nat_of_ascii a) = true /\ escape_char a = String a "")
    (String.list_ascii_of_string s).

Lemma url_normalize_plain s :
  Forall (fun a => url_pass (nat_of_ascii a) = true /\ escape_char a = String a "")
    (String.list_ascii_of_string s) -> url_normalize s = s /\ html_escape s = s.
Proof.
  induction s as [|a s IH]; simpl; [done|]. intros [[Hp He] Hs]%Forall_cons.
  destruct (IH Hs) as [-> ->]. by rewrite Hp, He.
Qed.

Lemma escape_url_plain s : plain_url s -> escape_url s = s.
Proof.
  intros [Hs Hf]. unfold escape_url, url_filter. rewrite Hs.
  destruct (url_normalize_plain s Hf) as [E1 E2]. by rewrite E1, E2.
Qed.

(** A mail shows the name the user registered and the link as text: both
    can add no tag and close no attribute, the rest of the mail does not
    depend on them, and a link made of plain URL bytes arrives unchanged. *)
Theorem mail_escapes name url tmpl :
  tmpl = verificationTmpl \/ tmpl = passwordResetTmpl ->
  (exists a b c, renderTemplate tmpl name url = cat [a; html_escape name; b; escape_url url; c] /\
     renderTemplate tmpl "" "" = cat [a; b; c]) /\
  (forall c, c ∈ markup -> has_char c (html_escape name) = false /\ has_char c (escape_url url) = false) /\
  (plain_url url -> escape_url url = url).
Proof.
  intros Ht. split; [|split].
  - assert (exists a b c, tmpl = [Text a; Name; Text b; URL; Text c]) as (a & b & c & ->)
      by (destruct Ht as [-> | ->]; do 3 eexists; reflexivity).
    exists a, b, c. split; reflexivity.
  - intros c Hc. split; by apply html_escape_safe.
  - apply escape_url_plain.
Qed.

Lemma mail_escapes_witness :
  has_char "<"%char (html_escape "<script>alert(1)</script>") = false /\
  escape_url "https://app.example.org/verify-email?token=00ff" = "https://app.example.org/verify-email?token=00ff".
Proof.
  pose proof (mail_escapes "<script>alert(1)</script>" "https://app.example.org/verify-email?token=00ff"
    verificationTmpl (or_introl eq_refl)) as (_ & Hs & Hu).
  split; [apply (Hs "<"%char); left|apply Hu].
  split; [reflexivity|]. repeat constructor.
Defined.
