(* ===== verification/Fixtures.v ===== *)
(** Fixtures: a concrete server, a seeded database and concrete environments,
    on which the properties with hypotheses are instantiated. *)

From S2P Require Export Hoare GoTime Http.

(** Unsigned decimal casts; any text is a UUID. *)
#[export, refine] Instance decimal_postgres : Postgres := {
  to_bigint s := match parse_digits s with
                 | Some z => if z <=? int64_max then Some z else None
                 | None => None
                 end;
  bigint_text := itoa;
  to_uuid := Some;
  timestamptz_text := itoa;
  timestamptz_string := fun _ => None;
  pg_lower := ascii_lower;
  text_leb := fun s t => negb (String.ltb t s);
  current_date := fun t => t / (24 * Hour) * (24 * Hour);
}.
Proof.
  - intros z Hz. rewrite parse_itoa_nonneg by lia. by destruct (Z.leb_spec z int64_max); [|lia].
  - done.
Defined.

Definition plan_free : plan_row :=
  {| pl_name := "Free"; pl_max_containers := 3; pl_max_memory_mb := 512;
     pl_max_cpu_nanocores := 1000000000; pl_auto_stop_minutes := 30; pl_price_usd_cents := 0;
     pl_max_networks := 1; pl_max_auto_restarts := 3 |}.
Definition plan_pro : plan_row :=
  {| pl_name := "Pro"; pl_max_containers := 10; pl_max_memory_mb := 2048;
     pl_max_cpu_nanocores := 2000000000; pl_auto_stop_minutes := 120; pl_price_usd_cents := 900;
     pl_max_networks := 5; pl_max_auto_restarts := 10 |}.
Definition plan_team : plan_row :=
  {| pl_name := "Team"; pl_max_containers := 30; pl_max_memory_mb := 4096;
     pl_max_cpu_nanocores := 4000000000; pl_auto_stop_minutes := 480; pl_price_usd_cents := 2900;
     pl_max_networks := 20; pl_max_auto_restarts := 30 |}.

(** The tables after the migrations, without the template and image rows. *)
Definition seed_db : DB :=
  {| users := ∅; containers := ∅;
     plans := <["free" := plan_free]> (<["pro" := plan_pro]> (<["team" := plan_team]> ∅));
     email_tokens := ∅; notifications := ∅; api_keys := ∅; networks := ∅;
     container_networks := ∅; audit_log := ∅; templates := ∅; images := ∅ |}.

Lemma seed_db_wf : wf_db seed_db.
Proof. split; simpl; repeat intro; by rewrite ?lookup_empty in *. Qed.

Definition fixture_ctx (n : Z) (uuid : string) : SqlCtx :=
  {| ctx_now := 1000 + n; ctx_user_id := n; ctx_container_id := n; ctx_uuid := uuid |}.

Definition exec_all (l : list (SqlCtx * Stmt)) (db : DB) : DB :=
  fold_left (fun d cs => (exec cs.1 cs.2 d).2) l db.

Lemma exec_all_wf l db : wf_db db -> wf_db (exec_all l db).
Proof. revert db. induction l as [|cs l IH]; intros db H; simpl; [done|]. by apply IH, exec_wf. Qed.

(** Two users; user 1 owns container 1, running since the start of the clock. *)
Definition fixture_stmts : list (SqlCtx * Stmt) :=
  [ (fixture_ctx 1 "", InsertUser "alice" "alice@example.org" "hash-a");
    (fixture_ctx 2 "", InsertUser "bob" "bob@example.org" "hash-b");
    (fixture_ctx 1 "", InsertContainer "c-1" "web" "/data/web/p1" "" "running" "1" (Some 0) "alpine") ].
Definition fixture_db : DB := exec_all fixture_stmts seed_db.

Definition world_of (db : DB) : World :=
  {| w_db := db; w_txs := ∅; w_next_tx := 0; w_seq_users := 3; w_seq_containers := 2;
     w_bus := empty_bus; w_trace := []; w_tick := 0 |}.
Definition fixture_world : World := world_of fixture_db.

Lemma world_of_ok db : wf_db db -> world_ok (world_of db).
Proof. intros H. split; [done|apply empty_bus_inv|]. intros t st Ht. simpl in Ht. by rewrite lookup_empty in Ht. Qed.

Lemma fixture_world_ok : world_ok fixture_world.
Proof. apply world_of_ok, exec_all_wf, seed_db_wf. Qed.

(** The answer of a daemon on which every call succeeds. *)
Definition docker_reply (n : nat) (c : DockerCall) : reply c :=
  match c with
  | ContainerCreate _ => cat ["c-new-"; itoa (Z.of_nat n)]
  | ContainerExecCreate _ _ _ _ => "exec-1"
  | NetworkCreate _ _ _ _ => "net-1"
  | ContainerInspectPorts _ => [("80/tcp", ["32768"])]
  | ExecReadOutput _ => ("out", "")
  | NetworkInspect _ => []
  | _ => tt
  end.

Definition sys_done (c : SysCall) : sys_reply c :=
  match c with MigrateUp => UpDone | _ => Ok tt end.

(** Docker calls in [bad] fail; the calls at the ticks in [bad_sql] lose the
    database connection. *)
Definition env_failing (bad : DockerCall -> bool) (bad_sql : nat -> bool) : Env :=
  {| e_sql := fun n => if bad_sql n then Some (ErrText "connection lost") else None;
     e_docker := fun n c => if bad c then Err (ErrText "daemon error") else Ok (docker_reply n c);
     e_fs := fun _ => None; e_tar := fun _ => None; e_mail := fun _ => None;
     e_sys := fun _ => sys_done;
     e_now := fun n => 5000 + Z.of_nat n; e_uuid := fun n => itoa (Z.of_nat n);
     e_rand := fun n => Ok (cat ["0123456789abcdef0123456789"; pad 6 (Z.of_nat n)]) |}.
Definition env_ok : Env := env_failing (fun _ => false) (fun _ => false).

(** The two ways a concrete run ends. *)
Lemma run_error {PG : Postgres} {A} env (p : Prog (result A)) w :
  is_ok (run env p w).1 = false -> exists e, run env p w = (Err e, (run env p w).2).
Proof. destruct (run env p w) as [[a|e] w']; [done|]. by exists e. Qed.

Lemma run_success {PG : Postgres} {A} env (p : Prog (result A)) w :
  is_ok (run env p w).1 = true -> exists a, run env p w = (Ok a, (run env p w).2).
Proof. destruct (run env p w) as [[a|e] w']; [|done]. by exists a. Qed.

(** A request with a method, headers, a query, route variables and a JSON body. *)
Definition request (method : string) (headers query vars : list (string * string)) (body : result Json)
    : Request :=
  {| rq_Method := method; rq_Path := "/"; rq_Query := query; rq_Headers := headers; rq_Vars := vars;
     rq_RemoteAddr := "192.0.2.1:40000"; rq_Body := body; rq_Form := Err (ErrText "not multipart");
     rq_UserID := None |}.
Definition no_body : result Json := Err (ErrText "EOF").

(** A handler that answers with the user it runs for. *)
Definition whoami : Handler := fun rq => Ret (success (JStr (user_id rq)) StatusOK).
