(* ===== verification/Tokens.v ===== *)
(** Tokens: repository/tokenRepo.go, the single-use tokens mailed to verify an
    address or to reset a password.  Only the SHA-256 of a token is stored. *)

From S2P Require Export Http Sha256 Hoare.
From S2P Require Import Fixtures.

Open Scope prog_scope.

Record TokenRecord := { tk_ID : string; tk_UserID : Z; tk_Type : string }.

Definition GenerateRawToken : Prog (result string) :=
  b <-? perform (ERandRead 32) ;;
  Ret (Ok (hex_EncodeToString b)).

Definition HashToken (raw : string) : string := hex_EncodeToString (Sum256 raw).

Section Tokens.
Context {PG : Postgres}.

(** The error of the invalidation is dropped. *)
Definition Create (userID : Z) (tokenType : string) (ttl : Z) : Prog (result string) :=
  raw <-? GenerateRawToken ;;
  _ <- perform (ESql Pool (InvalidateTokens userID tokenType)) ;;
  now <- perform ENow ;;
  _ <-? perform (ESql Pool (InsertToken userID (HashToken raw) tokenType (now + ttl))) ;;
  Ret (Ok raw).

Definition scan_token (kr : string * token_row) : TokenRecord :=
  {| tk_ID := kr.1; tk_UserID := t_user_id kr.2; tk_Type := t_type kr.2 |}.

Definition Consume (rawToken tokenType : string) : Prog (result TokenRecord) :=
  r <- perform (ESql Pool (ConsumeToken (HashToken rawToken) tokenType)) ;;
  Ret (result_map scan_token r).
End Tokens.

(** ** Facts *)

Lemma HashToken_length raw : String.length (HashToken raw) = 64%nat.
Proof. unfold HashToken. by rewrite hex_length, Sum256_length. Qed.

(** No token with hash [h] can be consumed any more. *)
Definition token_dead (h : string) (db : DB) : Prop :=
  forall k r, email_tokens db !! k = Some r -> t_token_hash r = h -> t_used_at r <> None.

Section Facts.
Context {PG : Postgres} (env : Env).

Lemma consumable_hash c h ty k r :
  consumable c h ty k r = true ->
  t_token_hash r = h /\ t_type r = ty /\ t_used_at r = None /\ ctx_now c < t_expires_at r.
Proof. unfold consumable. rewrite !andb_true_iff, !bool_decide_eq_true. tauto. Qed.

Lemma consume_dead c h ty db :
  token_dead h db -> exec c (ConsumeToken h ty) db = (Err ErrNoRows, db).
Proof.
  intros Hd. assert (forall k r, email_tokens db !! k = Some r -> consumable c h ty k r = false) as Hn.
  { intros k r Hk. destruct (consumable c h ty k r) eqn:E; [|done].
    apply consumable_hash in E as (E1 & _ & E2 & _). by destruct (Hd _ _ Hk E1). }
  simpl. unfold sql_consume_token.
  rewrite (proj2 (tfirst_None _ _) Hn). simpl. by rewrite tupdate_none, set_email_tokens_id.
Qed.

Lemma consume_kills c h ty db x :
  wf_db db -> (exec c (ConsumeToken h ty) db).1 = Ok x -> token_dead h (exec c (ConsumeToken h ty) db).2.
Proof.
  intros Hwf. simpl. destruct (tfirst _ _) as [[k r]|] eqn:E; [|done]. intros _ k' r'. simpl.
  apply tfirst_Ok in E as [Hk Hc].
  intros (r0 & Hk' & ->)%lookup_tupdate_Some.
  destruct (consumable c h ty k' r0) eqn:Hc'; [done|]. intros Hh.
  apply consumable_hash in Hc as Hf. destruct Hf as (Hh2 & _).
  assert (k' = k) as -> by (eapply (wf_tokens_hash _ Hwf); [exact Hk'|exact Hk|by rewrite Hh|by rewrite Hh2]).
  congruence.
Qed.

Lemma run_eff_pool_db s w :
  ((exists e, (run_eff env (ESql Pool s) w).1 = Err e) /\ w_db (run_eff env (ESql Pool s) w).2 = w_db w) \/
  ((run_eff env (ESql Pool s) w).1 = (exec (sql_ctx env w) s (w_db w)).1 /\
   w_db (run_eff env (ESql Pool s) w).2 = (exec (sql_ctx env w) s (w_db w)).2).
Proof.
  unfold run_eff, run_sql. destruct (e_sql env (w_tick w)).
  - left. split; [by eexists|done].
  - right. by destruct (exec _ s (w_db w)).
Qed.

(** ** At most one of several concurrent uses succeeds *)

Definition successes (ts : list (Prog (result TokenRecord))) : nat :=
  length (filter (fun t => succeeded t = true) ts).

Lemma successes_insert ts i t t' :
  ts !! i = Some t -> succeeded t = false ->
  successes (<[i := t']> ts) = (successes ts + if succeeded t' then 1 else 0)%nat.
Proof.
  intros Hi Ht. rewrite <- (take_drop_middle ts i t Hi) at 2.
  rewrite insert_take_drop by (by eapply lookup_lt_Some). unfold successes.
  rewrite !filter_app, !length_app, !filter_cons. simpl. rewrite Ht.
  destruct (succeeded t'); simpl; lia.
Qed.

Definition consume_thread (raw ty : string) (t : Prog (result TokenRecord)) : Prop :=
  t = Consume raw ty \/ exists r, t = Ret r.

Definition consume_inv (raw ty : string) (c : list (Prog (result TokenRecord)) * World) : Prop :=
  Forall (consume_thread raw ty) c.1 /\ wf_db (w_db c.2) /\
  (successes c.1 = 0%nat \/ (successes c.1 = 1%nat /\ token_dead (HashToken raw) (w_db c.2))).

Lemma consume_inv_step raw ty c c' :
  pool_step env c c' -> consume_inv raw ty c -> consume_inv raw ty c'.
Proof.
  destruct c as [ts w], c' as [ts' w'].
  intros (i & p & p' & Hi & Hn & E)%pool_step_next (Ht & Hwf & Hd). simpl in *. subst ts'.
  pose proof (Forall_lookup_1 _ _ _ _ Ht Hi) as [->|[r ->]]; [|done].
  set (s := ConsumeToken (HashToken raw) ty) in *.
  pose proof (run_eff_pool_db s w) as Hdb.
  change (next env (Consume raw ty) w) with
    (let '(x, w') := run_eff env (ESql Pool s) w in
     Some (Ret (result_map scan_token x) : Prog (result TokenRecord), w')) in Hn.
  destruct (run_eff env (ESql Pool s) w) as [x w1]. injection Hn as <- <-. cbn [fst snd] in Hdb.
  unfold consume_inv. cbn [fst snd]. rewrite (successes_insert _ _ _ _ Hi eq_refl).
  split; [|split].
  - apply Forall_insert; [done|]. right. by eexists.
  - destruct Hdb as [[_ ->]|[_ ->]]; [done|by apply exec_wf].
  - destruct Hdb as [[[err ->] ->]|[-> ->]]; cbn [result_map succeeded is_ok].
    + rewrite Nat.add_0_r. exact Hd.
    + destruct Hd as [H0|[H1 Hd]].
      * rewrite H0. pose proof (consume_kills (sql_ctx env w) (HashToken raw) ty (w_db w)) as Hk.
        fold s in Hk. destruct (exec (sql_ctx env w) s (w_db w)).1; [right|by left].
        split; [done|]. by eapply Hk.
      * right. unfold s. rewrite (consume_dead _ _ _ _ Hd). split; [cbn; lia|done].
Qed.

Lemma consume_inv_steps raw ty c c' :
  rtc (pool_step env) c c' -> consume_inv raw ty c -> consume_inv raw ty c'.
Proof. induction 1; eauto using consume_inv_step. Qed.

Lemma successes_replicate n raw ty : successes (replicate n (Consume raw ty)) = 0%nat.
Proof. unfold successes. induction n; simpl; [done|]. by rewrite filter_cons_False. Qed.

(** ** What [Create] stores *)

Lemma run_create uid ty ttl w raw w' :
  sql_up env -> run env (Create uid ty ttl) w = (Ok raw, w') ->
  exists c1 c2,
    exec c2 (InsertToken uid (HashToken raw) ty (e_now env (2 + w_tick w) + ttl))
      (exec c1 (InvalidateTokens uid ty) (w_db w)).2 = (Ok tt, w_db w').
Proof.
  intros Hup. unfold Create, GenerateRawToken. rewrite !run_bind, run_perform.
  cbn [run_eff]. destruct (e_rand env (w_tick w)) as [b|err]; [|by intros [=]].
  cbn [result_map run]. rewrite run_bind, run_perform, run_pool_up by done.
  rewrite run_bind, run_perform. cbn [run_eff]. rewrite run_bind, run_perform, run_pool_up by done.
  set (c1 := sql_ctx env (tick w)). set (db1 := (exec c1 (InvalidateTokens uid ty) (w_db w)).2).
  intros H. exists c1. fold db1.
  destruct (exec _ (InsertToken _ _ _ _) _) as [[[]|err] db2] eqn:E; cbn [run fst snd] in H;
    [|by injection H].
  injection H as <- <-. eexists. cbn [tick advance_seq set_w_db w_db w_tick] in *. exact E.
Qed.

Lemma insert_token_ok c uid h ty exp db db' :
  exec c (InsertToken uid h ty exp) db = (Ok tt, db') ->
  email_tokens db !! ctx_uuid c = None /\
  db' = set_email_tokens
          (<[ctx_uuid c := {| t_user_id := uid; t_token_hash := h; t_type := ty; t_expires_at := exp;
                              t_used_at := None; t_created_at := ctx_now c |}]> (email_tokens db)) db.
Proof.
  simpl. unfold sql_insert_token, reject. repeat case_scrut; try done. intros [= <-].
  split; [|done]. unfold live in *. by destruct (email_tokens db !! ctx_uuid c).
Qed.

Lemma create_row uid ty ttl w raw w' :
  sql_up env -> run env (Create uid ty ttl) w = (Ok raw, w') ->
  exists k t, email_tokens (w_db w') !! k =
    Some {| t_user_id := uid; t_token_hash := HashToken raw; t_type := ty;
            t_expires_at := e_now env (2 + w_tick w) + ttl; t_used_at := None; t_created_at := t |}.
Proof.
  intros Hup Hr. destruct (run_create _ _ _ _ _ _ Hup Hr) as (c1 & c2 & [_ ->]%insert_token_ok).
  exists (ctx_uuid c2), (ctx_now c2). simpl. by rewrite lookup_insert_eq.
Qed.

Lemma run_wf {A} (p : Prog A) w : world_ok w -> wf_db (w_db (run env p w).2).
Proof. intros Hok. apply (run_invariant env world_ok (run_eff_ok env) _ _ _ Hok). Qed.

Lemma run_consume raw ty w :
  sql_up env ->
  (run env (Consume raw ty) w).1 =
  result_map scan_token (exec (sql_ctx env w) (ConsumeToken (HashToken raw) ty) (w_db w)).1.
Proof. intros Hup. unfold Consume. by rewrite run_bind, run_perform, run_pool_up. Qed.

Lemma token_live k r c db :
  wf_db db -> email_tokens db !! k = Some r -> t_used_at r = None -> ctx_now c < t_expires_at r ->
  (exec c (ConsumeToken (t_token_hash r) (t_type r)) db).1 = Ok (k, set_t_used_at (Some (ctx_now c)) r).
Proof.
  intros Hwf Hk Hu Hx. simpl. rewrite (tfirst_unique _ _ k r); [done..| |].
  - unfold consumable. by rewrite !bool_decide_eq_true_2.
  - intros k' r' Hk' (Hh & _)%consumable_hash.
    eapply (wf_tokens_hash _ Hwf); [exact Hk'|exact Hk|by rewrite Hh|done].
Qed.

Lemma token_refused k r c ty db :
  wf_db db -> email_tokens db !! k = Some r ->
  (t_type r <> ty \/ t_used_at r <> None \/ t_expires_at r <= ctx_now c) ->
  (exec c (ConsumeToken (t_token_hash r) ty) db).1 = Err ErrNoRows.
Proof.
  intros Hwf Hk Hr. simpl. rewrite (proj2 (tfirst_None _ _)); [done|]. intros k' r' Hk'.
  destruct (consumable _ _ _ k' r') eqn:E; [|done].
  apply consumable_hash in E as (Hh & Ht & Hu & Hx).
  assert (k' = k) as -> by (eapply (wf_tokens_hash _ Hwf); [exact Hk'|exact Hk|by rewrite Hh|done]).
  assert (r' = r) as -> by congruence. destruct Hr as [?|[?|?]]; [congruence|congruence|lia].
Qed.

(** The tokens of the same user and type that were there before are used up. *)
Lemma create_kills uid ty ttl w raw w' k r :
  sql_up env -> world_ok w -> run env (Create uid ty ttl) w = (Ok raw, w') ->
  email_tokens (w_db w) !! k = Some r -> t_user_id r = uid -> t_type r = ty ->
  exists r', email_tokens (w_db w') !! k = Some r' /\ t_token_hash r' = t_token_hash r /\
    t_used_at r' <> None.
Proof.
  intros Hup Hok Hr Hk Hu Ht.
  destruct (run_create _ _ _ _ _ _ Hup Hr) as (c1 & c2 & [Hn ->]%insert_token_ok). simpl in *.
  rewrite lookup_tupdate, fmap_None in Hn.
  exists (if live_token uid ty k r then set_t_used_at (Some (ctx_now c1)) r else r).
  rewrite lookup_insert_ne by congruence. rewrite lookup_tupdate, Hk. simpl. split; [done|].
  destruct (live_token uid ty k r) eqn:E; [done|]. split; [done|]. intros Hn'.
  unfold live_token in E. by rewrite Hu, Ht, Hn', !bool_decide_eq_true_2 in E.
Qed.

(** C11: of any number of concurrent uses of one token, at most one succeeds,
    however they interleave and whatever statements fail; once one has, the
    token stays unusable. *)
Theorem Consume_single_use raw ty n w ts' w' :
  world_ok w -> rtc (pool_step env) (replicate n (Consume raw ty), w) (ts', w') ->
  (successes ts' <= 1)%nat /\ (successes ts' = 1%nat -> token_dead (HashToken raw) (w_db w')).
Proof.
  intros Hok Hr. destruct (consume_inv_steps raw ty _ _ Hr) as (_ & _ & Hd).
  - split; [|split; [apply Hok|left; apply successes_replicate]].
    simpl. apply Forall_replicate. by left.
  - simpl in Hd. destruct Hd as [->|[-> Hd]]; split; try lia; done.
Qed.

(** A token that [Create] returned is accepted, for its user and its type
    only, strictly before its expiry, and refused from the expiry on or for
    another type. *)
Theorem token_roundtrip uid ty ttl w raw w1 w2 :
  sql_up env -> world_ok w -> run env (Create uid ty ttl) w = (Ok raw, w1) -> w_db w2 = w_db w1 ->
  let expiry := e_now env (2 + w_tick w) + ttl in
  (e_now env (w_tick w2) < expiry -> exists id,
     (run env (Consume raw ty) w2).1 = Ok {| tk_ID := id; tk_UserID := uid; tk_Type := ty |}) /\
  (expiry <= e_now env (w_tick w2) -> (run env (Consume raw ty) w2).1 = Err ErrNoRows) /\
  (forall ty', ty' <> ty -> (run env (Consume raw ty') w2).1 = Err ErrNoRows).
Proof.
  intros Hup Hok Hr Hw2 expiry. destruct (create_row _ _ _ _ _ _ Hup Hr) as (k & t & Hk).
  pose proof (run_wf (Create uid ty ttl) w Hok) as Hwf. rewrite Hr in Hwf. cbn [snd] in Hwf.
  rewrite <- Hw2 in Hk, Hwf. setoid_rewrite run_consume; [|done..].
  set (r := {| t_user_id := uid |}) in Hk.
  split; [|split].
  - intros Hx. exists k. by rewrite (token_live k r).
  - intros Hx. rewrite (token_refused k r); [done..|]. right. by right.
  - intros ty' Ht. rewrite (token_refused k r); [done..|]. left. simpl. congruence.
Qed.

(** Only the latest link works: once [Create] has returned, every token of
    the same user and type issued before is refused. *)
Theorem Create_supersedes uid ty ttl w raw w1 w2 k r old ty' :
  sql_up env -> world_ok w -> run env (Create uid ty ttl) w = (Ok raw, w1) -> w_db w2 = w_db w1 ->
  email_tokens (w_db w) !! k = Some r -> t_user_id r = uid -> t_type r = ty ->
  t_token_hash r = HashToken old ->
  (run env (Consume old ty') w2).1 = Err ErrNoRows.
Proof.
  intros Hup Hok Hr Hw2 Hk Hu Ht Hh.
  destruct (create_kills _ _ _ _ _ _ _ _ Hup Hok Hr Hk Hu Ht) as (r' & Hk' & Hh' & Hd).
  pose proof (run_wf (Create uid ty ttl) w Hok) as Hwf. rewrite Hr in Hwf. cbn [snd] in Hwf.
  rewrite <- Hw2 in Hk', Hwf. rewrite run_consume by done.
  rewrite <- Hh, <- Hh', (token_refused k r'); [done..|]. right. by left.
Qed.
End Facts.

(** ** Concrete tokens *)

Definition verification : string := "email_verification".
Definition raw_of (w : World) : string :=
  match (run env_ok (Create 1 verification (24 * Hour)) w).1 with Ok raw => raw | Err _ => "" end.
Definition token_world : World := (run env_ok (Create 1 verification (24 * Hour)) fixture_world).2.

Lemma create_ok w : is_ok (run env_ok (Create 1 verification (24 * Hour)) w).1 = true ->
  run env_ok (Create 1 verification (24 * Hour)) w =
  (Ok (raw_of w), (run env_ok (Create 1 verification (24 * Hour)) w).2).
Proof.
  unfold raw_of. destruct (run env_ok (Create 1 verification (24 * Hour)) w) as [[raw|e] w']; done.
Qed.

Lemma token_world_ok : world_ok token_world.
Proof. apply (run_invariant env_ok world_ok (run_eff_ok env_ok)), fixture_world_ok. Qed.

Lemma env_ok_up : sql_up env_ok.
Proof. intros n. done. Qed.

Lemma Consume_single_use_witness :
  let c := sched env_ok [1; 0]%nat (replicate 2 (Consume (raw_of fixture_world) verification)) token_world in
  successes c.1 = 1%nat /\ token_dead (HashToken (raw_of fixture_world)) (w_db c.2).
Proof.
  intros c. assert (successes c.1 = 1%nat) as H1 by (vm_compute; reflexivity). split; [exact H1|].
  apply (Consume_single_use env_ok (raw_of fixture_world) verification 2 token_world c.1 c.2);
    [apply token_world_ok| |exact H1].
  rewrite <- surjective_pairing. apply sched_pool_steps.
Defined.

Lemma token_roundtrip_witness :
  e_now env_ok (w_tick token_world) < e_now env_ok 2 + 24 * Hour /\
  exists id, (run env_ok (Consume (raw_of fixture_world) verification) token_world).1
    = Ok {| tk_ID := id; tk_UserID := 1; tk_Type := verification |}.
Proof.
  assert (e_now env_ok (w_tick token_world) < e_now env_ok 2 + 24 * Hour) as Hx by (vm_compute; reflexivity).
  split; [exact Hx|].
  apply (token_roundtrip env_ok 1 verification (24 * Hour) fixture_world (raw_of fixture_world)
    token_world token_world env_ok_up fixture_world_ok (create_ok fixture_world eq_refl) eq_refl).
  exact Hx.
Defined.

Lemma Create_supersedes_witness :
  (run env_ok (Consume (raw_of fixture_world) verification)
     (run env_ok (Create 1 verification (24 * Hour)) token_world).2).1 = Err ErrNoRows.
Proof.
  destruct (create_row env_ok 1 verification (24 * Hour) fixture_world (raw_of fixture_world) token_world
    env_ok_up (create_ok fixture_world eq_refl)) as (k & t & Hk).
  exact (Create_supersedes env_ok 1 verification (24 * Hour) token_world (raw_of token_world)
    (run env_ok (Create 1 verification (24 * Hour)) token_world).2 _ k _ (raw_of fixture_world) verification
    env_ok_up token_world_ok (create_ok token_world eq_refl) eq_refl Hk eq_refl eq_refl eq_refl).
Defined.
