(* ===== verification/Jwt.v ===== *)
(** Jwt: jwt/helper.go, the access and refresh tokens.  The signing and the
    parsing of a token belong to the golang-jwt library and are a parameter,
    with its documented behaviour as laws. *)

From S2P Require Export Http Hoare.
From S2P Require Import Fixtures.

Open Scope prog_scope.

(** [jwt.MapClaims] *)
Definition Claims : Type := list (string * Json).

(** [exp] in seconds, as [time.Time.Unix] gives it. *)
Definition claims_exp (c : Claims) : option Z :=
  match json_member "exp" c with Some (JInt z) => Some z | _ => None end.

(** [NewWithClaims(HS256, claims).SignedString(key)] and [jwt.Parse(token,
    keyfunc)] at an instant: a parsed token carries its claims, and [Parse]
    fails when the token is malformed, not signed with the key or expired. *)
Class JwtLib := {
  SignedString : string -> Claims -> result string;
  Parse : string -> Z -> string -> result Claims;
  Parse_signed : forall key c token e now,
    SignedString key c = Ok token -> claims_exp c = Some e -> now < e * Second ->
    Parse key now token = Ok c;
  Parse_expired : forall key c token e now,
    SignedString key c = Ok token -> claims_exp c = Some e -> e * Second <= now ->
    exists err, Parse key now token = Err err;
}.

(** [loadSecret], from the value of JWT_SECRET_KEY; [None]: the process exits. *)
Definition loadSecret (key : string) : option string :=
  if bool_decide (key = "") then None
  else if (String.length key <? 32)%nat then None
  else Some key.

Section Jwt.
Context {JL : JwtLib} (secretKey : string).

Definition unix (t : Z) : Z := t / Second.

Definition access_claims (username email userId : string) (now : Z) : Claims :=
  [("username", JStr username); ("email", JStr email); ("id", JStr userId); ("type", JStr "access");
   ("exp", JInt (unix (now + 15 * Minute)))].

Definition refresh_claims (userId : string) (now : Z) : Claims :=
  [("id", JStr userId); ("type", JStr "refresh"); ("exp", JInt (unix (now + 7 * 24 * Hour)))].

Definition CreateToken (username email userId : string) : Prog (result string) :=
  now <- perform ENow ;;
  Ret (SignedString secretKey (access_claims username email userId now)).

Definition CreateRefreshToken (userId : string) : Prog (result string) :=
  now <- perform ENow ;;
  Ret (SignedString secretKey (refresh_claims userId now)).

(** The library checks the expiry against the clock. *)
Definition parse (tokenString : string) : Prog (result Claims) :=
  now <- perform ENow ;;
  Ret (Parse secretKey now tokenString).

(** [claims["id"].(string)] *)
Definition claims_id (c : Claims) : result string :=
  match json_member "id" c with
  | Some (JStr s) => Ok s
  | _ => Err (ErrText "user id not found in token")
  end.

Definition VerifyRefreshToken (tokenString : string) : Prog (result string) :=
  claims <-? parse tokenString ;;
  if bool_decide (json_member "type" claims <> Some (JStr "refresh"))
  then Ret (Err (ErrText "not a refresh token"))
  else Ret (claims_id claims).

Definition VerifyToken (tokenString : string) : Prog (result unit) :=
  _ <-? parse tokenString ;;
  Ret (Ok tt).

Definition GetUserIDFromToken (tokenString : string) : Prog (result string) :=
  claims <-? parse tokenString ;;
  Ret (claims_id claims).
End Jwt.

(** ** Facts *)

Lemma loadSecret_Some key k : loadSecret key = Some k -> k = key /\ (32 <= String.length k)%nat.
Proof.
  unfold loadSecret. case_bool_decide; [done|].
  destruct (Nat.ltb_spec (String.length key) 32); [done|]. by intros [= <-].
Qed.

Section Facts.
Context {PG : Postgres} {JL : JwtLib} (env : Env) (secretKey : string).

Lemma run_now w : run_eff env ENow w = (e_now env (w_tick w), tick w).
Proof. done. Qed.

Lemma run_parse token w :
  run env (parse secretKey token) w = (Parse secretKey (e_now env (w_tick w)) token, tick w).
Proof. done. Qed.

Lemma unix_bound t d : unix (t + d) * Second <= t + d < (unix (t + d) + 1) * Second.
Proof. unfold unix, Second. pose proof (Z.div_mod (t + d) 1000000000). pose proof (Z.mod_pos_bound (t + d) 1000000000). lia. Qed.

Lemma access_exp u e i now : claims_exp (access_claims u e i now) = Some (unix (now + 15 * Minute)).
Proof. done. Qed.
Lemma refresh_exp i now : claims_exp (refresh_claims i now) = Some (unix (now + 7 * 24 * Hour)).
Proof. done. Qed.

(** An access token is accepted, for the user it was created for, until the
    second in which its fifteen minutes end, and refused from then on; it is
    never accepted as a refresh token. *)
Theorem access_token_lifetime username email userId w token w1 w2 :
  run env (CreateToken secretKey username email userId) w = (Ok token, w1) ->
  let expiry := unix (e_now env (w_tick w) + 15 * Minute) * Second in
  e_now env (w_tick w) + 15 * Minute - Second < expiry <= e_now env (w_tick w) + 15 * Minute /\
  (e_now env (w_tick w2) < expiry ->
     (run env (VerifyToken secretKey token) w2).1 = Ok tt /\
     (run env (GetUserIDFromToken secretKey token) w2).1 = Ok userId) /\
  (expiry <= e_now env (w_tick w2) ->
     is_ok (run env (VerifyToken secretKey token) w2).1 = false /\
     is_ok (run env (GetUserIDFromToken secretKey token) w2).1 = false) /\
  is_ok (run env (VerifyRefreshToken secretKey token) w2).1 = false.
Proof.
  unfold CreateToken. rewrite run_bind, run_perform, run_now. cbn [run]. intros [= Hs <-].
  set (expiry := unix (e_now env (w_tick w) + 15 * Minute) * Second).
  pose proof (unix_bound (e_now env (w_tick w)) (15 * Minute)) as Hb. fold expiry in Hb.
  unfold VerifyToken, GetUserIDFromToken, VerifyRefreshToken. rewrite !run_bind, run_parse. cbn [run fst snd].
  split; [unfold Second in *; lia|]. split; [|split].
  - intros Hx. by rewrite (Parse_signed _ _ _ _ _ Hs (access_exp _ _ _ _) Hx).
  - intros Hx. destruct (Parse_expired _ _ _ _ _ Hs (access_exp _ _ _ _) Hx) as [err ->]. done.
  - destruct (Z.lt_ge_cases (e_now env (w_tick w2)) expiry) as [Hx|Hx].
    + by rewrite (Parse_signed _ _ _ _ _ Hs (access_exp _ _ _ _) Hx).
    + by destruct (Parse_expired _ _ _ _ _ Hs (access_exp _ _ _ _) Hx) as [err ->].
Qed.

(** A refresh token yields its user for seven days; during all that time
    [VerifyToken] and [GetUserIDFromToken], which never look at the claim
    [type], accept it as an access token too. *)
Theorem refresh_token_is_access_token userId w token w1 w2 :
  run env (CreateRefreshToken secretKey userId) w = (Ok token, w1) ->
  let expiry := unix (e_now env (w_tick w) + 7 * 24 * Hour) * Second in
  (e_now env (w_tick w2) < expiry ->
     (run env (VerifyRefreshToken secretKey token) w2).1 = Ok userId /\
     (run env (VerifyToken secretKey token) w2).1 = Ok tt /\
     (run env (GetUserIDFromToken secretKey token) w2).1 = Ok userId) /\
  (expiry <= e_now env (w_tick w2) ->
     is_ok (run env (VerifyRefreshToken secretKey token) w2).1 = false /\
     is_ok (run env (VerifyToken secretKey token) w2).1 = false).
Proof.
  unfold CreateRefreshToken. rewrite run_bind, run_perform, run_now. cbn [run]. intros [= Hs <-].
  set (expiry := unix (e_now env (w_tick w) + 7 * 24 * Hour) * Second).
  unfold VerifyToken, GetUserIDFromToken, VerifyRefreshToken. rewrite !run_bind, run_parse. cbn [run fst snd]. split.
  - intros Hx. by rewrite (Parse_signed _ _ _ _ _ Hs (refresh_exp _ _) Hx).
  - intros Hx. destruct (Parse_expired _ _ _ _ _ Hs (refresh_exp _ _) Hx) as [err ->]. done.
Qed.
End Facts.

(** ** A concrete library: flat claims, in the clear beside the key *)

Definition flat_value (j : Json) : option (string + Z) :=
  match j with JStr s => Some (inl s) | JInt z => Some (inr z) | _ => None end.
Definition unflat_value (v : string + Z) : Json :=
  match v with inl s => JStr s | inr z => JInt z end.

Fixpoint flatten (c : Claims) : option (list (string * (string + Z))) :=
  match c with
  | [] => Some []
  | (k, j) :: c' => match flat_value j, flatten c' with
                    | Some v, Some l => Some ((k, v) :: l)
                    | _, _ => None
                    end
  end.
Definition unflatten (l : list (string * (string + Z))) : Claims :=
  map (fun kv => (kv.1, unflat_value kv.2)) l.

Lemma unflatten_flatten c l : flatten c = Some l -> unflatten l = c.
Proof.
  revert l. induction c as [|[k j] c IH]; intros l; simpl; [by intros [= <-]|].
  destruct (flat_value j) as [v|] eqn:Hj, (flatten c) as [l'|]; try done. intros [= <-]. simpl.
  rewrite (IH _ eq_refl). destruct j; by simplify_eq/=.
Qed.

Definition clear_sign (key : string) (c : Claims) : result string :=
  match flatten c with
  | Some l => Ok (itoa (Zpos (encode (key, l))))
  | None => Err (ErrText "unsupported claims")
  end.

Definition clear_parse (key : string) (now : Z) (token : string) : result Claims :=
  match parse_digits token with
  | Some (Zpos p) =>
      match decode (A := string * list (string * (string + Z))) p with
      | Some (k, l) =>
          if bool_decide (k = key) then
            match claims_exp (unflatten l) with
            | Some e => if e * Second <=? now then Err (ErrText "token is expired") else Ok (unflatten l)
            | None => Ok (unflatten l)
            end
          else Err (ErrText "signature is invalid")
      | None => Err (ErrText "token is malformed")
      end
  | _ => Err (ErrText "token is malformed")
  end.

Lemma clear_parse_sign key c token now :
  clear_sign key c = Ok token ->
  clear_parse key now token =
  match claims_exp c with
  | Some e => if e * Second <=? now then Err (ErrText "token is expired") else Ok c
  | None => Ok c
  end.
Proof.
  unfold clear_sign, clear_parse. destruct (flatten c) as [l|] eqn:E; [|done]. intros [= <-].
  rewrite parse_itoa_nonneg by lia. rewrite decode_encode, bool_decide_eq_true_2 by done.
  by rewrite (unflatten_flatten _ _ E).
Qed.

#[export, refine] Instance clear_jwt : JwtLib := {
  SignedString := clear_sign;
  Parse := clear_parse;
}.
Proof.
  - intros key c token e now Hs He Hx. rewrite (clear_parse_sign _ _ _ _ Hs), He.
    by destruct (Z.leb_spec (e * Second) now); [lia|].
  - intros key c token e now Hs He Hx. rewrite (clear_parse_sign _ _ _ _ Hs), He.
    destruct (Z.leb_spec (e * Second) now); [by eexists|lia].
Defined.

Definition fixture_secret : string := "test-secret-key-at-least-32-chars-long!!".

Lemma access_token_lifetime_witness :
  exists token w1, run env_ok (CreateToken fixture_secret "alice" "alice@example.org" "1") fixture_world = (Ok token, w1) /\
    (run env_ok (GetUserIDFromToken fixture_secret token) w1).1 = Ok "1" /\
    is_ok (run env_ok (VerifyRefreshToken fixture_secret token) w1).1 = false.
Proof.
  assert (is_ok (run env_ok (CreateToken fixture_secret "alice" "alice@example.org" "1") fixture_world).1
    = true) as Ho by (vm_compute; reflexivity).
  destruct (run_success _ _ _ Ho) as [token Hr].
  eexists token, _. split; [exact Hr|].
  pose proof (access_token_lifetime env_ok fixture_secret _ _ _ _ _ _ (tick fixture_world) Hr)
    as (_ & Hv & _ & Hf).
  split; [apply Hv; vm_compute; reflexivity|exact Hf].
Defined.

Lemma refresh_token_is_access_token_witness :
  exists token w1, run env_ok (CreateRefreshToken fixture_secret "1") fixture_world = (Ok token, w1) /\
    (run env_ok (GetUserIDFromToken fixture_secret token) w1).1 = Ok "1".
Proof.
  assert (is_ok (run env_ok (CreateRefreshToken fixture_secret "1") fixture_world).1 = true) as Ho
    by (vm_compute; reflexivity).
  destruct (run_success _ _ _ Ho) as [token Hr].
  eexists token, _. split; [exact Hr|].
  apply (refresh_token_is_access_token env_ok fixture_secret _ _ _ _ (tick fixture_world) Hr).
  vm_compute. reflexivity.
Defined.
