(* ===== verification/Auth.v ===== *)
(** Auth: middlware/Middlware.go and middlware/auth.go, the middlewares that
    put the user's ID in the request's context. *)

From S2P Require Export Jwt Tokens.
From S2P Require Import Fixtures.

Open Scope prog_scope.

(** * splitTwo *)

(** The loop over [i]: [s[i:i+len(sep)] == sep]. *)
Fixpoint find_sep (fuel i : nat) (s sep : string) : option nat :=
  match fuel with
  | O => None
  | S f => if bool_decide (String.substring i (String.length sep) s = sep) then Some i
           else find_sep f (S i) s sep
  end.

(** The index runs below [len(s)-len(sep)+1], so that many rounds suffice;
    [None] is the nil slice. *)
Definition splitTwo (s sep : string) : option (string * string) :=
  let bound := Z.of_nat (String.length s) - Z.of_nat (String.length sep) + 1 in
  match find_sep (Z.to_nat bound) 0 s sep with
  | None => None
  | Some idx => Some (String.substring 0 idx s, drop_str (idx + String.length sep) s)
  end.

Section Auth.
Context {PG : Postgres} {JL : JwtLib} (secretKey : string).

Definition unauthorized (message : string) : Reply := RespondError message StatusUnauthorized.

(** From [if tokenString == ""] on: the same text in [AuthMiddleware] and
    [resolveJWT]. *)
Definition resolve_token (tokenString : string) (rq : Request) : Prog (string + Reply) :=
  let tokenString := if bool_decide (tokenString = "") then query rq "token" else tokenString in
  if bool_decide (tokenString = "") then Ret (inr (unauthorized "authorization required"))
  else
    verified <- VerifyToken secretKey tokenString ;;
    match verified with
    | Err _ => Ret (inr (unauthorized "invalid token"))
    | Ok _ =>
        user <- GetUserIDFromToken secretKey tokenString ;;
        Ret match user with
            | Err _ => inr (unauthorized "invalid or expired token")
            | Ok userId => inl userId
            end
    end.

Definition bad_header : Reply := unauthorized "invalid authorization header format".

(** The token of the Authorization header, split at every space; the empty
    string without a header, [None] for a malformed one. *)
Definition header_token (rq : Request) : option string :=
  let authHeader := header rq "Authorization" in
  if bool_decide (authHeader = "") then Some ""
  else match Split " "%char authHeader with
       | [scheme; token] => if bool_decide (scheme = "Bearer") then Some token else None
       | _ => None
       end.

Definition AuthMiddleware (next : Handler) : Handler := fun rq =>
  match header_token rq with
  | None => Ret bad_header
  | Some tokenString =>
      resolved <- resolve_token tokenString rq ;;
      match resolved with
      | inr reply => Ret reply
      | inl userId => next (with_user userId rq)
      end
  end.

(** The same, split at the first space. *)
Definition header_token_first (rq : Request) : option string :=
  let h := header rq "Authorization" in
  if bool_decide (h = "") then Some ""
  else match splitTwo h " " with
       | Some (scheme, token) => if bool_decide (scheme = "Bearer") then Some token else None
       | None => None
       end.

Definition resolveJWT (rq : Request) : Prog (string + Reply) :=
  match header_token_first rq with
  | None => Ret (inr bad_header)
  | Some token => resolve_token token rq
  end.

Definition resolveApiKey (rawKey : string) : Prog (result string) :=
  r <- perform (ESql Pool (TouchApiKey (hex_EncodeToString (Sum256 rawKey)))) ;;
  Ret (result_map (fun kr => bigint_text (k_user_id kr.2)) r).

Definition Middleware (next : Handler) : Handler := fun rq =>
  let apiKey := header rq "X-API-Key" in
  if bool_decide (apiKey <> "") then
    r <- resolveApiKey apiKey ;;
    match r with
    | Err _ => Ret (unauthorized "invalid API key")
    | Ok userID => next (with_user userID rq)
    end
  else
    resolved <- resolveJWT rq ;;
    match resolved with
    | inr reply => Ret reply
    | inl userID => next (with_user userID rq)
    end.

Definition AdminOnly (next : Handler) : Handler := fun rq =>
  r <- perform (ESql Pool (SelectRole (user_id rq))) ;;
  match r with
  | Ok role => if bool_decide (role <> "admin") then Ret (RespondError "forbidden" StatusForbidden)
               else next rq
  | Err _ => Ret (RespondError "forbidden" StatusForbidden)
  end.
End Auth.

(** ** Facts *)

Lemma substring_whole s : String.substring 0 (String.length s) s = s.
Proof. induction s as [|a s IH]; simpl; [done|]. by rewrite IH. Qed.

Lemma substring_prefix a b n :
  String.substring 0 (String.length a + n) (String.append a b) = String.append a (String.substring 0 n b).
Proof. induction a as [|x a IH]; simpl; [done|]. by rewrite IH. Qed.

Lemma substring_zero s : String.substring 0 0 s = "".
Proof. by destruct s. Qed.

Lemma substring_skip i a b n :
  i = String.length a -> String.substring i n (String.append a b) = String.substring 0 n b.
Proof. intros ->. induction a as [|x a IH]; simpl; [done|]. done. Qed.

Lemma drop_str_append a b : drop_str (String.length a) (String.append a b) = b.
Proof. by induction a. Qed.

Lemma substring_one b : String.substring 0 1 b = match b with String x _ => String x "" | _ => "" end.
Proof. destruct b as [|x b]; simpl; [done|]. by destruct b. Qed.

(** The scan with the separator [c], started after a prefix [p] without it. *)
Lemma find_sep_cut c p s :
  find_sep (String.length s) (String.length p) (String.append p s) (String c "")
  = match cut_first c s with
    | Some (h, _) => Some (String.length p + String.length h)%nat
    | None => None
    end.
Proof.
  revert p. induction s as [|a s IH]; intros p; [done|].
  cbn [String.length find_sep cut_first]. rewrite substring_skip, substring_one by done.
  destruct (Ascii.eqb_spec a c) as [->|Hac].
  - rewrite bool_decide_eq_true_2 by done. simpl. f_equal. lia.
  - rewrite bool_decide_eq_false_2 by (intros [= ?]; done).
    specialize (IH (String.append p (String a ""))).
    rewrite append_assoc, length_append in IH. simpl in IH. rewrite Nat.add_comm in IH. simpl in IH.
    rewrite IH. destruct (cut_first c s) as [[h t]|]; [|done]. simpl. f_equal. lia.
Qed.

Lemma splitTwo_cut s c : splitTwo s (String c "") = cut_first c s.
Proof.
  unfold splitTwo. cbn [String.length].
  replace (Z.to_nat _) with (String.length s) by lia.
  pose proof (find_sep_cut c "" s) as H. simpl in H. rewrite H.
  destruct (cut_first c s) as [[h t]|] eqn:E; [|done].
  apply cut_first_Some in E as [-> _]. simpl.
  rewrite <- (Nat.add_0_r (String.length h)) at 1.
  rewrite substring_prefix, substring_zero, append_nil_r.
  assert (String.append h (String c t) = String.append (String.append h (String c "")) t) as E
    by by rewrite append_assoc.
  rewrite E. do 2 f_equal.
  replace (String.length h + 1)%nat with (String.length (String.append h (String c "")))
    by by rewrite length_append.
  apply drop_str_append.
Qed.

(** What a request presents as its token: after [Bearer ] in the header, or in
    the query when the header carries none. *)
Definition presents (rq : Request) (token : string) : Prop :=
  token <> "" /\
  (header rq "Authorization" = String.append "Bearer " token \/
   ((header rq "Authorization" = "" \/ header rq "Authorization" = "Bearer ") /\ query rq "token" = token)).

Lemma header_token_Some rq t :
  header_token rq = Some t ->
  (header rq "Authorization" = "" /\ t = "") \/ header rq "Authorization" = String.append "Bearer " t.
Proof.
  unfold header_token. case_bool_decide as Hh; [intros [= <-]; by left|].
  pose proof (Join_Split " "%char (header rq "Authorization")) as Hj.
  destruct (Split " "%char _) as [|s [|t' [|]]]; try done.
  case_bool_decide as Hs; [|done]. intros [= ->]. subst s. right. by rewrite <- Hj.
Qed.

Lemma header_token_first_Some rq t :
  header_token_first rq = Some t ->
  (header rq "Authorization" = "" /\ t = "") \/ header rq "Authorization" = String.append "Bearer " t.
Proof.
  unfold header_token_first. case_bool_decide as Hh; [intros [= <-]; by left|].
  rewrite splitTwo_cut. destruct (cut_first _ _) as [[s t']|] eqn:E; [|done].
  apply cut_first_Some in E as [E _]. case_bool_decide as Hs; [|done]. intros [= ->].
  subst s. by right.
Qed.

Section Facts.
Context {PG : Postgres} {JL : JwtLib} (env : Env) (secretKey : string).

(** A token that verifies and names a user, at some instant of the environment. *)
Definition valid_token (token uid : string) (w : World) : Prop :=
  exists claims now, now = e_now env (S (w_tick w)) /\
    Parse secretKey now token = Ok claims /\ claims_id claims = Ok uid.

Lemma resolve_token_spec t rq w :
  (header rq "Authorization" = "" /\ t = "") \/ header rq "Authorization" = String.append "Bearer " t ->
  let c := run env (resolve_token secretKey t rq) w in
  quiet w c.2 /\ w_trace c.2 = w_trace w /\
  match c.1 with
  | inr reply => rp_Status reply = StatusUnauthorized
  | inl uid => exists token, presents rq token /\ valid_token token uid w
  end.
Proof.
  intros Ht. unfold resolve_token.
  set (token := if bool_decide (t = "") then query rq "token" else t).
  case_bool_decide as He; [split; [reflexivity|done]|].
  assert (presents rq token) as Hp.
  { split; [done|]. unfold token. case_bool_decide as E.
    - right. split; [|done]. destruct Ht as [[? _]|Ht]; [by left|right]. by rewrite Ht, E.
    - left. by destruct Ht as [[_ ?]|?]. }
  unfold VerifyToken, GetUserIDFromToken. rewrite run_bind, run_bind, run_parse.
  destruct (Parse secretKey (e_now env (w_tick w)) token) as [c0|e0]; cbn [run].
  2: { split; [apply quiet_tick|done]. }
  rewrite run_bind, run_bind, run_parse.
  assert (quiet w (tick (tick w))) as Hq by (rewrite <- quiet_tick; apply quiet_tick).
  destruct (Parse secretKey (e_now env (w_tick (tick w))) token) as [c1|e1] eqn:Hc; cbn [run fst snd].
  2: { by split. }
  split; [done|]. split; [done|]. destruct (claims_id c1) as [uid|] eqn:Hid; [|done].
  exists token. split; [done|]. by exists c1, (e_now env (S (w_tick w))).
Qed.

Lemma run_AuthMiddleware next rq w rp w' :
  run env (AuthMiddleware secretKey next rq) w = (rp, w') ->
  (rp_Status rp = StatusUnauthorized /\ quiet w w' /\ w_trace w' = w_trace w) \/
  (exists token uid w1, presents rq token /\ valid_token token uid w /\
     quiet w w1 /\ w_trace w1 = w_trace w /\ run env (next (with_user uid rq)) w1 = (rp, w')).
Proof.
  unfold AuthMiddleware. destruct (header_token rq) as [t|] eqn:Ht; [|by intros [= <- <-]; left].
  rewrite run_bind. pose proof (resolve_token_spec t rq w (header_token_Some _ _ Ht)) as Hs.
  destruct (run env (resolve_token secretKey t rq) w) as [[uid|reply] w1]; cbn [fst snd] in Hs;
    destruct Hs as (Hq & Htr & Hs).
  - destruct Hs as (token & Hp & Hv). intros Hr. right. by exists token, uid, w1.
  - intros [= <- <-]. by left.
Qed.

(** C14: behind [AuthMiddleware] a handler runs only for a request that presents
    a token which verifies, and with the user ID of that token in its context,
    whatever the request carried before; any other request is answered 401
    without any effect. *)
Theorem AuthMiddleware_gate next rq w rp w' :
  run env (AuthMiddleware secretKey next rq) w = (rp, w') ->
  (rp_Status rp = StatusUnauthorized /\ quiet w w' /\ w_trace w' = w_trace w) \/
  (exists token uid w1, presents rq token /\ valid_token token uid w /\
     quiet w w1 /\ w_trace w1 = w_trace w /\ run env (next (with_user uid rq)) w1 = (rp, w')).
Proof. exact (run_AuthMiddleware next rq w rp w'). Qed.

(** The owner of an API key. *)
Definition key_owner (rawKey uid : string) (db : DB) : Prop :=
  exists k r, api_keys db !! k = Some r /\ k_key_hash r = hex_EncodeToString (Sum256 rawKey) /\
    uid = bigint_text (k_user_id r).

(** The tables after a use of the key: its row says when. *)
Definition key_used (rawKey : string) (db db' : DB) : Prop := exists t,
  db' = set_api_keys (tupdate (fun _ r => bool_decide (k_key_hash r = hex_EncodeToString (Sum256 rawKey)))
          (set_k_last_used_at (Some t)) (api_keys db)) db.

Lemma key_used_only rawKey db db' : key_used rawKey db db' -> db' = set_api_keys (api_keys db') db.
Proof. by intros [t ->]. Qed.

Lemma resolveApiKey_spec rawKey w :
  let c := run env (resolveApiKey rawKey) w in
  w_trace c.2 = w_trace w /\ w_txs c.2 = w_txs w /\ w_bus c.2 = w_bus w /\
  match c.1 with
  | Ok uid => key_owner rawKey uid (w_db w) /\ key_used rawKey (w_db w) (w_db c.2)
  | Err _ => w_db c.2 = w_db w
  end.
Proof.
  unfold resolveApiKey. rewrite run_bind, run_perform. unfold run_eff, run_sql.
  destruct (e_sql env (w_tick w)); [done|]. simpl. unfold sql_touch_api_key.
  destruct (tfirst _ _) as [[k r]|e] eqn:E; simpl; split_and!; try done.
  - apply tfirst_Ok in E as [Hk Hh%bool_decide_eq_true]. by exists k, r.
  - by eexists.
  - pose proof (tfirst_Err _ _ _ E) as ->. rewrite tfirst_None in E.
    by rewrite tupdate_none, set_api_keys_id.
Qed.

Lemma run_Middleware next rq w rp w' :
  run env (Middleware secretKey next rq) w = (rp, w') ->
  (rp_Status rp = StatusUnauthorized /\ w_db w' = w_db w /\ w_trace w' = w_trace w) \/
  (header rq "X-API-Key" <> "" /\ exists uid w1, key_owner (header rq "X-API-Key") uid (w_db w) /\
     w_trace w1 = w_trace w /\ key_used (header rq "X-API-Key") (w_db w) (w_db w1) /\
     run env (next (with_user uid rq)) w1 = (rp, w')) \/
  (header rq "X-API-Key" = "" /\ exists token uid w1, presents rq token /\ valid_token token uid w /\
     quiet w w1 /\ w_trace w1 = w_trace w /\ run env (next (with_user uid rq)) w1 = (rp, w')).
Proof.
  unfold Middleware. destruct (bool_decide_reflect (header rq "X-API-Key" <> "")) as [Hk|Hk].
  - rewrite run_bind. pose proof (resolveApiKey_spec (header rq "X-API-Key") w) as Hs.
    destruct (run env (resolveApiKey _) w) as [[uid|e] w1]; cbn [fst snd] in Hs;
      destruct Hs as (Htr & _ & _ & Hs).
    + destruct Hs as [Ho Hdb]. intros Hr. right. left. split; [done|]. by exists uid, w1.
    + intros [= <- <-]. by left.
  - assert (header rq "X-API-Key" = "") as Hk' by (destruct (header rq "X-API-Key"); [done|by destruct Hk]).
    unfold resolveJWT.
    destruct (header_token_first rq) as [t|] eqn:Ht; [|by intros [= <- <-]; left].
    rewrite run_bind. pose proof (resolve_token_spec t rq w (header_token_first_Some _ _ Ht)) as Hs.
    destruct (run env (resolve_token secretKey t rq) w) as [[uid|reply] w1]; cbn [fst snd] in Hs;
      destruct Hs as (Hq & Htr & Hs).
    + destruct Hs as (token & Hp & Hv). intros Hr. right. right. split; [done|]. by exists token, uid, w1.
    + intros [= <- <-]. left. split; [done|]. split; [apply Hq|done].
Qed.

(** C13: behind [Auth.Middleware] a request with an API key is decided by the key
    alone: the handler runs as the owner of a stored key with that SHA-256,
    after its last use has been recorded, or the answer is 401 and the tables
    are as before.  A request without one is decided by its token, as behind
    [AuthMiddleware]. *)
Theorem Middleware_gate next rq w rp w' :
  run env (Middleware secretKey next rq) w = (rp, w') ->
  (rp_Status rp = StatusUnauthorized /\ w_db w' = w_db w /\ w_trace w' = w_trace w) \/
  (header rq "X-API-Key" <> "" /\ exists uid w1, key_owner (header rq "X-API-Key") uid (w_db w) /\
     w_trace w1 = w_trace w /\ key_used (header rq "X-API-Key") (w_db w) (w_db w1) /\
     run env (next (with_user uid rq)) w1 = (rp, w')) \/
  (header rq "X-API-Key" = "" /\ exists token uid w1, presents rq token /\ valid_token token uid w /\
     quiet w w1 /\ w_trace w1 = w_trace w /\ run env (next (with_user uid rq)) w1 = (rp, w')).
Proof. exact (run_Middleware next rq w rp w'). Qed.

Lemma run_AdminOnly next rq w rp w' :
  run env (AdminOnly next rq) w = (rp, w') ->
  (rp_Status rp = StatusForbidden /\ outside w w' /\ w_trace w' = w_trace w) \/
  (exists i row w1, to_bigint (user_id rq) = Some i /\ users (w_db w) !! i = Some row /\
     u_role row = "admin" /\ outside w w1 /\ w_trace w1 = w_trace w /\ run env (next rq) w1 = (rp, w')).
Proof.
  unfold AdminOnly. rewrite run_bind, run_perform. unfold run_eff, run_sql.
  destruct (e_sql env (w_tick w)); [by intros [= <- <-]; left|].
  simpl. unfold sql_select_role, with_bigint.
  destruct (to_bigint (user_id rq)) as [i|]; [|by intros [= <- <-]; left].
  destruct (tfirst _ _) as [[k r]|e] eqn:E; [|by intros [= <- <-]; left].
  apply tfirst_Ok in E as [Hk ->%bool_decide_eq_true]. simpl. case_bool_decide as Ha.
  - intros [= <- <-]. by left.
  - intros Hr. right. exists i, r. eexists. split; [done|]. split; [done|]. split; [done|].
    split; [|split; [|exact Hr]]; [by split|done].
Qed.

(** Behind [AdminOnly] a handler runs only when the context's user exists
    and has the role [admin] at that moment; otherwise the answer is 403 and
    nothing has changed. *)
Theorem AdminOnly_gate next rq w rp w' :
  run env (AdminOnly next rq) w = (rp, w') ->
  (rp_Status rp = StatusForbidden /\ outside w w' /\ w_trace w' = w_trace w) \/
  (exists i row w1, to_bigint (user_id rq) = Some i /\ users (w_db w) !! i = Some row /\
     u_role row = "admin" /\ outside w w1 /\ w_trace w1 = w_trace w /\ run env (next rq) w1 = (rp, w')).
Proof. exact (run_AdminOnly next rq w rp w'). Qed.

(** The two authentication middlewares are the same program on a request
    without an API key, unless its Authorization header holds more than one
    space: then [AuthMiddleware] always refuses it, while [Auth.Middleware]
    takes everything after the first space as the token. *)
Theorem middlewares_agree next rq :
  header rq "X-API-Key" = "" ->
  ((length (Split " "%char (header rq "Authorization")) <= 2)%nat ->
     AuthMiddleware secretKey next rq = Middleware secretKey next rq) /\
  ((2 < length (Split " "%char (header rq "Authorization")))%nat ->
     AuthMiddleware secretKey next rq = Ret bad_header).
Proof.
  intros Hk. set (h := header rq "Authorization").
  assert ((length (Split " "%char h) <= 2)%nat -> header_token rq = header_token_first rq) as He.
  { intros Hl. unfold header_token, header_token_first. fold h. case_bool_decide as Hh; [done|].
    pose proof (Join_Split " "%char h) as Hj. pose proof (Split_no_sep " "%char h) as Hn.
    rewrite splitTwo_cut.
    destruct (Split " "%char h) as [|a [|b [|]]]; simpl in *; try lia.
    - done.
    - subst a. apply Forall_cons in Hn as [Hn _]. by rewrite (proj2 (cut_first_None _ _) Hn).
    - apply Forall_cons in Hn as [Ha _].
      by rewrite (proj2 (cut_first_Some " "%char h a b) (conj (eq_sym Hj) Ha)). }
  split; intros Hl.
  - unfold AuthMiddleware, Middleware, resolveJWT. rewrite Hk, bool_decide_eq_false_2 by (intros H; done).
    rewrite <- He by done. by destruct (header_token rq).
  - unfold AuthMiddleware, header_token. fold h.
    destruct (decide (h = "")) as [Hh|Hh]; [rewrite Hh in Hl; simpl in Hl; lia|].
    rewrite bool_decide_eq_false_2 by done.
    by destruct (Split " "%char h) as [|a [|b [|]]]; simpl in Hl; try lia.
Qed.
End Facts.

(** [splitTwo] with a one-byte separator is [strings.SplitN(s, sep, 2)]:
    nil without a separator, otherwise what precedes and what follows the
    first one. *)
Theorem splitTwo_SplitN s c :
  match splitTwo s (String c "") with
  | Some (h, t) => SplitN2 c s = [h; t]
  | None => SplitN2 c s = [s]
  end.
Proof. unfold SplitN2. rewrite splitTwo_cut. by destruct (cut_first c s) as [[h t]|]. Qed.

(** ** Concrete requests *)

Definition alice_token : string :=
  match clear_sign fixture_secret (access_claims "alice" "alice@example.org" "1" 5000) with
  | Ok t => t
  | Err _ => ""
  end.
Definition bearer_request : Request :=
  request "GET" [("Authorization", cat ["Bearer "; alice_token])] [] [] no_body.

Lemma AuthMiddleware_gate_witness :
  let c := run env_ok (AuthMiddleware fixture_secret whoami bearer_request) fixture_world in
  c.1 = success (JStr "1") StatusOK /\
  exists token uid w1, presents bearer_request token /\ valid_token env_ok fixture_secret token uid fixture_world /\
    run env_ok (whoami (with_user uid bearer_request)) w1 = (c.1, c.2).
Proof.
  intros c. assert (c.1 = success (JStr "1") StatusOK) as Hc by (vm_compute; reflexivity).
  split; [exact Hc|].
  destruct (AuthMiddleware_gate env_ok fixture_secret whoami bearer_request fixture_world c.1 c.2
    (surjective_pairing c)) as [[Hs _]|(token & uid & w1 & Hp & Hv & _ & _ & Hr)].
  - rewrite Hc in Hs. discriminate Hs.
  - exists token, uid, w1. split; [exact Hp|]. split; [exact Hv|exact Hr].
Defined.

Definition key_request : Request := request "GET" [("X-API-Key", "dk_live_alice")] [] [] no_body.
Definition key_world : World :=
  world_of (exec_all [(fixture_ctx 10 "k1", InsertApiKey "1" "ci"
    (hex_EncodeToString (Sum256 "dk_live_alice")) "dk_live_alice")] fixture_db).

Lemma Middleware_gate_witness :
  let c := run env_ok (Middleware fixture_secret whoami key_request) key_world in
  c.1 = success (JStr "1") StatusOK /\ exists uid w1, key_owner "dk_live_alice" uid (w_db key_world) /\
    run env_ok (whoami (with_user uid key_request)) w1 = (c.1, c.2).
Proof.
  intros c. assert (c.1 = success (JStr "1") StatusOK) as Hc by (vm_compute; reflexivity).
  split; [exact Hc|].
  pose proof (Middleware_gate env_ok fixture_secret whoami key_request key_world c.1 c.2) as H.
  destruct (H (surjective_pairing c)) as [[Hs _]|[[_ (uid & w1 & Ho & _ & _ & Hr)]|[Hk _]]].
  - rewrite Hc in Hs. discriminate Hs.
  - exists uid, w1. split; [exact Ho|exact Hr].
  - discriminate Hk.
Defined.

Definition admin_world : World :=
  world_of (set_users (<[1 := {| u_name := Some "alice"; u_email := Some "alice@example.org";
    u_password_hash := None; u_email_verified_at := None; u_plan_id := "free"; u_role := "admin" |}]>
    (users fixture_db)) fixture_db).

Lemma AdminOnly_gate_witness :
  let rq := with_user "1" bearer_request in
  let c := run env_ok (AdminOnly whoami rq) admin_world in
  c.1 = success (JStr "1") StatusOK /\ exists i row, to_bigint (user_id rq) = Some i /\
    users (w_db admin_world) !! i = Some row /\ u_role row = "admin".
Proof.
  intros rq c. assert (c.1 = success (JStr "1") StatusOK) as Hc by (vm_compute; reflexivity).
  split; [exact Hc|].
  destruct (AdminOnly_gate env_ok whoami rq admin_world c.1 c.2 (surjective_pairing c))
    as [[Hs _]|(i & row & w1 & H1 & H2 & H3 & _)].
  - rewrite Hc in Hs. discriminate Hs.
  - exists i, row. split; [exact H1|]. split; [exact H2|exact H3].
Defined.

Lemma middlewares_agree_witness :
  header bearer_request "X-API-Key" = "" /\
  AuthMiddleware fixture_secret whoami bearer_request = Middleware fixture_secret whoami bearer_request.
Proof.
  assert (header bearer_request "X-API-Key" = "") as Hk by (vm_compute; reflexivity).
  split; [exact Hk|]. apply (middlewares_agree fixture_secret whoami bearer_request); [exact Hk|].
  vm_compute. repeat constructor.
Defined.
