(* ===== verification/Users.v ===== *)
(** Users: service/UserService.go and service/userHnadler.go, the accounts:
    registration, login, token refresh, address verification and password
    reset.  The bcrypt and validator libraries are parameters. *)

From S2P Require Export Auth Mail.

Open Scope prog_scope.

(** [bcrypt.GenerateFromPassword] on a salt, [bcrypt.CompareHashAndPassword]. *)
Class Bcrypt := {
  GenerateFromPassword : string -> string -> result string;
  CompareHashAndPassword : string -> string -> result unit;
  Compare_generated : forall salt password hash,
    GenerateFromPassword salt password = Ok hash -> CompareHashAndPassword hash password = Ok tt;
}.

(** [validator.Struct] on the fields of a struct: (name, validate tag, value). *)
Class ValidatorLib := {
  Validate : list (string * string * string) -> result unit;
  Validate_required : forall fields name tags value,
    Validate fields = Ok tt -> (name, tags, value) ∈ fields -> "required" ∈ Split ","%char tags ->
    value <> "";
}.

(** utils/validator.go *)
Definition BindAndValidate `{ValidatorLib} (dst : list (string * string * string)) : result unit :=
  match Validate dst with Err e => Err e | Ok _ => Ok tt end.

(** utils/utils.go *)
Definition HashPassword `{Bcrypt} (password : string) : Prog (result string) :=
  salt <-? perform (ERandRead 16) ;;
  Ret (GenerateFromPassword salt password).
Definition VerifyPassword `{Bcrypt} (hashedPassword password : string) : result unit :=
  CompareHashAndPassword hashedPassword password.

(** * UserService *)

Section UserService.
Context {PG : Postgres}.

Definition new_user (name email password : string) : User :=
  {| us_Id := ""; us_Name := name; us_Email := email; us_Password := password;
     us_EmailVerified := false; us_Role := ""; us_PlanID := ""; us_Containers := None |}.

Definition CreateUser (name email password : string) : Prog (result string) :=
  tx <-? perform EBegin ;;
  defer
    (id <-? repo_CreateUser (InTx tx) (new_user name email password) ;;
     _ <-? perform (ECommit tx) ;;
     Ret (Ok id))
    (fun _ => perform (ERollback tx)).

Definition DeleteUser (id : string) : Prog (result unit) :=
  tx <-? perform EBegin ;;
  defer
    (_ <-? DeleteUserByID (InTx tx) id ;;
     perform (ECommit tx))
    (fun _ => perform (ERollback tx)).

Definition GetUser (id : string) : Prog (result User) := GetUserByID Pool id.
Definition GetUserWithContainers (id : string) : Prog (result (User * list ContainerInfo)) :=
  GetContainersForUserByID Pool id.

(** [strconv.ParseInt(u.Id, 10, 64)], the error dropped. *)
Definition IDInt (u : User) : Z := (Atoi (us_Id u)).1.
End UserService.

(** * UserHandler *)

Record LoginRequest := { lr_Email : string; lr_Password : string }.
Definition dec_LoginRequest : Decode LoginRequest := dec_struct (fun cur m =>
  result_bind (dec_field "email" dec_string (lr_Email cur) m) (fun e =>
  result_bind (dec_field "password" dec_string (lr_Password cur) m) (fun p =>
  Ok {| lr_Email := e; lr_Password := p |}))).

Record RegisterRequest := { rr_Name : string; rr_Email : string; rr_Password : string }.
Definition dec_RegisterRequest : Decode RegisterRequest := dec_struct (fun cur m =>
  result_bind (dec_field "name" dec_string (rr_Name cur) m) (fun n =>
  result_bind (dec_field "email" dec_string (rr_Email cur) m) (fun e =>
  result_bind (dec_field "password" dec_string (rr_Password cur) m) (fun p =>
  Ok {| rr_Name := n; rr_Email := e; rr_Password := p |})))).

(** [struct { Token string }] and [struct { Email string }] *)
Definition dec_one (name : string) : Decode string := dec_struct (fun cur m =>
  dec_field name dec_string cur m).

Record ResetRequest := { rs_Token : string; rs_NewPassword : string }.
Definition dec_ResetRequest : Decode ResetRequest := dec_struct (fun cur m =>
  result_bind (dec_field "token" dec_string (rs_Token cur) m) (fun t =>
  result_bind (dec_field "new_password" dec_string (rs_NewPassword cur) m) (fun p =>
  Ok {| rs_Token := t; rs_NewPassword := p |}))).

Record AuthTokenResponse := { at_AccessToken : string; at_RefreshToken : string }.
Definition json_AuthTokenResponse (t : AuthTokenResponse) : Json :=
  JObj [("access_token", JStr (at_AccessToken t)); ("refresh_token", JStr (at_RefreshToken t))].

(** The reply and the goroutine the handler has started. *)
Definition Served : Type := Reply * option (Prog unit).
Definition just (r : Reply) : Prog Served := Ret (r, None).

Definition extractBearerToken (rq : Request) : string :=
  let auth := header rq "Authorization" in
  if bool_decide (auth = "") then query rq "token"
  else match SplitN2 " "%char auth with
       | [scheme; token] => if bool_decide (scheme = "Bearer") then token else ""
       | _ => ""
       end.

(** [*UserHandler]: the service and the token repository work on the pool. *)
Record UserHandler := { uh_mailer : Mailer; uh_baseURL : string }.

Definition NewUserHandler (getenv : string -> string) : UserHandler :=
  {| uh_mailer := NewMailer getenv; uh_baseURL := getenv "APP_BASE_URL" |}.

Section Handlers.
Context {PG : Postgres} {JL : JwtLib} {BC : Bcrypt} {VL : ValidatorLib}.
Context (secretKey : string) (mailer : Mailer) (baseURL : string).

Definition method_not_allowed : Reply := RespondError "method not allowed" StatusMethodNotAllowed.
Definition invalid_credentials : Reply :=
  RespondError "invalid email or password" StatusUnauthorized.
Definition internal_server_error : Reply :=
  RespondError "internal server error" StatusInternalServerError.
Definition internal_error : Reply := RespondError "internal error" StatusInternalServerError.
Definition bad_request (context : string) (e : GoError) : Reply :=
  RespondError (cat [context; error_text e]) StatusBadRequest.
Definition invalid_body (_ : GoError) : Reply := RespondError "invalid body" StatusBadRequest.

Definition issueTokenPair (name email userId : string) : Prog (result AuthTokenResponse) :=
  access <-? CreateToken secretKey name email userId ;;
  refresh <-? CreateRefreshToken secretKey userId ;;
  Ret (Ok {| at_AccessToken := access; at_RefreshToken := refresh |}).

Definition login_fields (req : LoginRequest) : list (string * string * string) :=
  [("Email", "required,email", lr_Email req); ("Password", "required,min=6", lr_Password req)].

(** From the lookup of the user on. *)
Definition login_as (req : LoginRequest) : Prog Reply :=
  found <- GetUserByEmailWithPassword Pool (lr_Email req) ;;
  on_ok found (fun _ => invalid_credentials) (fun user =>
  on_ok (VerifyPassword (us_Password user) (lr_Password req)) (fun _ => invalid_credentials) (fun _ =>
  if negb (us_EmailVerified user) then Ret (RespondError "email_not_verified" StatusForbidden)
  else
    issued <- issueTokenPair (us_Name user) (us_Email user) (us_Id user) ;;
    on_ok issued (fun _ => internal_server_error) (fun tokens =>
    Ret (success (json_AuthTokenResponse tokens) StatusOK)))).

Definition Login : Handler := fun rq =>
  require_method "POST" "method not allowed" rq (
  on_ok (decode_body rq {| lr_Email := ""; lr_Password := "" |} dec_LoginRequest)
    (bad_request "invalid request body: ") (fun req =>
  on_ok (Validate (login_fields req)) (bad_request "validation error: ") (fun _ =>
  login_as req))).

(** [tokenRepo.Create] and the mail with the link; failures are logged only. *)
Definition send_verification (userID : Z) (to name : string) : Prog unit :=
  created <- Create userID "email_verification" (24 * Hour) ;;
  match created with
  | Err _ => Ret tt
  | Ok raw =>
      _ <- SendVerificationEmail mailer to name (cat [baseURL; "/verify-email?token="; raw]) ;;
      Ret tt
  end.

(** The goroutine of [Register]. *)
Definition register_mail (req : RegisterRequest) : Prog unit :=
  found <- GetUserByEmail Pool (rr_Email req) ;;
  let userIDInt := match found with Ok user => IDInt user | Err _ => 0 end in
  if bool_decide (userIDInt = 0) then Ret tt
  else send_verification userIDInt (rr_Email req) (rr_Name req).

Definition register_fields (req : RegisterRequest) : list (string * string * string) :=
  [("Name", "required,min=2,max=100", rr_Name req); ("Email", "required,email", rr_Email req);
   ("Password", "required,min=8", rr_Password req)].

(** [account created], an em dash, [please verify ...] *)
Definition account_created : string :=
  cat ["account created "; String (ascii_of_nat 226) (String (ascii_of_nat 128)
         (String (ascii_of_nat 148) "")); " please verify your email before logging in"].

Definition register_user (req : RegisterRequest) : Prog Served :=
  hashed <- HashPassword (rr_Password req) ;;
  match hashed with
  | Err _ => just (RespondError "error processing password" StatusInternalServerError)
  | Ok hashedPassword =>
      created <- CreateUser (rr_Name req) (rr_Email req) hashedPassword ;;
      match created with
      | Err e => just (RespondError (cat ["error creating user: "; error_text e])
                         StatusInternalServerError)
      | Ok _ => Ret (success (json_strings [("message", account_created)]) StatusCreated,
                     Some (register_mail req))
      end
  end.

Definition Register (rq : Request) : Prog Served :=
  if bool_decide (rq_Method rq <> "POST") then just method_not_allowed
  else match decode_body rq {| rr_Name := ""; rr_Email := ""; rr_Password := "" |} dec_RegisterRequest with
  | Err e => just (bad_request "invalid request body: " e)
  | Ok req =>
      match Validate (register_fields req) with
      | Err e => just (bad_request "validation error: " e)
      | Ok _ => register_user req
      end
  end.

Definition RefreshToken : Handler := fun rq =>
  require_method "POST" "method not allowed" rq (
  let tokenStr := extractBearerToken rq in
  if bool_decide (tokenStr = "") then Ret (unauthorized "refresh token required")
  else
    verified <- VerifyRefreshToken secretKey tokenStr ;;
    on_ok verified (fun _ => unauthorized "invalid or expired refresh token") (fun userId =>
    found <- GetUser userId ;;
    on_ok found (fun _ => unauthorized "user not found") (fun user =>
    signed <- CreateToken secretKey (us_Name user) (us_Email user) (us_Id user) ;;
    on_ok signed (fun _ => internal_server_error) (fun accessToken =>
    Ret (success (json_strings [("access_token", accessToken)]) StatusOK))))).

(** [userId, ok := r.Context().Value(utils.UserIDKey).(string); if !ok ...] *)
Definition with_user_id (rq : Request) (k : string -> Prog Reply) : Prog Reply :=
  match rq_UserID rq with
  | None => Ret (unauthorized "user id not found in context")
  | Some userId => k userId
  end.

Definition handle_GetUser : Handler := fun rq =>
  require_method "GET" "method not allowdoed" rq (
  with_user_id rq (fun userId =>
  found <- GetUser userId ;;
  on_ok found (fun _ => RespondError "user not found" StatusNotFound) (fun user =>
  Ret (success (json_User user) StatusOK)))).

Definition handle_GetUserWithContainers : Handler := fun rq =>
  require_method "GET" "method not allowed" rq (
  with_user_id rq (fun userId =>
  found <- GetUserWithContainers userId ;;
  on_ok found (fun _ => RespondError "user not found" StatusNotFound) (fun uc =>
  Ret (success (json_User (set_us_Containers uc.2 uc.1)) StatusOK)))).

Definition handle_DeleteUser : Handler := fun rq =>
  require_method "DELETE" "method not allowed" rq (
  with_user_id rq (fun userId =>
  deleted <- DeleteUser userId ;;
  on_ok deleted (fun e => RespondError (cat ["error deleting user: "; error_text e])
                            StatusInternalServerError) (fun _ =>
  Ret (success (JStr "user deleted successfully") StatusOK)))).

Definition VerifyEmail : Handler := fun rq =>
  require_method "POST" "method not allowed" rq (
  on_ok (decode_body rq "" (dec_one "token")) invalid_body (fun token =>
  on_ok (Validate [("Token", "required", token)])
    (fun _ => RespondError "token required" StatusBadRequest) (fun _ =>
  consumed <- Consume token "email_verification" ;;
  on_ok consumed (fun _ => RespondError "invalid or expired verification link" StatusBadRequest)
    (fun rec =>
  updated <- perform (ESql Pool (VerifyEmailRow (tk_UserID rec))) ;;
  on_ok updated (fun _ => internal_error) (fun _ =>
  Ret (success (JStr "email verified") StatusOK)))))).

(** The goroutines of [ResendVerification] and [ForgotPassword]. *)
Definition resend_mail (email : string) : Prog unit :=
  found <- GetUserByEmail Pool email ;;
  match found with
  | Err _ => Ret tt
  | Ok user =>
      if us_EmailVerified user then Ret tt
      else send_verification (IDInt user) (us_Email user) (us_Name user)
  end.

Definition ResendVerification (rq : Request) : Prog Served :=
  if bool_decide (rq_Method rq <> "POST") then just method_not_allowed
  else match decode_body rq "" (dec_one "email") with
  | Err e => just (invalid_body e)
  | Ok email =>
      Ret (success (JStr "if that email exists and is unverified, a new link was sent") StatusOK,
           Some (resend_mail email))
  end.

Definition reset_mail (email : string) : Prog unit :=
  found <- GetUserByEmail Pool email ;;
  match found with
  | Err _ => Ret tt
  | Ok user =>
      created <- Create (IDInt user) "password_reset" (1 * Hour) ;;
      match created with
      | Err _ => Ret tt
      | Ok raw =>
          _ <- SendPasswordResetEmail mailer (us_Email user) (us_Name user)
                 (cat [baseURL; "/reset-password?token="; raw]) ;;
          Ret tt
      end
  end.

Definition ForgotPassword (rq : Request) : Prog Served :=
  if bool_decide (rq_Method rq <> "POST") then just method_not_allowed
  else match decode_body rq "" (dec_one "email") with
  | Err e => just (invalid_body e)
  | Ok email =>
      Ret (success (JStr "if that email exists, a reset link was sent") StatusOK,
           Some (reset_mail email))
  end.

Definition reset_fields (req : ResetRequest) : list (string * string * string) :=
  [("Token", "required", rs_Token req); ("NewPassword", "required,min=8", rs_NewPassword req)].

Definition reset_password (req : ResetRequest) : Prog Reply :=
  consumed <- Consume (rs_Token req) "password_reset" ;;
  on_ok consumed
    (fun e => if bool_decide (e = ErrNoRows)
              then RespondError "invalid or expired reset link" StatusBadRequest
              else internal_error) (fun rec =>
  hashed <- HashPassword (rs_NewPassword req) ;;
  on_ok hashed (fun _ => internal_error) (fun hash =>
  updated <- perform (ESql Pool (SetPassword hash (tk_UserID rec))) ;;
  on_ok updated (fun _ => internal_error) (fun _ =>
  Ret (success (JStr "password updated") StatusOK)))).

Definition ResetPassword : Handler := fun rq =>
  require_method "POST" "method not allowed" rq (
  on_ok (decode_body rq {| rs_Token := ""; rs_NewPassword := "" |} dec_ResetRequest)
    invalid_body (fun req =>
  on_ok (Validate (reset_fields req)) (bad_request "validation error: ") (fun _ =>
  reset_password req))).
End Handlers.
