(* ===== verification/ManagerFacts.v ===== *)
(** ManagerFacts: what the container manager's operations do, as weakest
    preconditions, and the properties that follow. *)

From S2P Require Import Hoare.
From S2P Require Export ContainerManager.

(** Splits a program into its effects and decides each against [quiet_eff]. *)
Ltac solve_effs :=
  repeat first
    [ done
    | progress simpl
    | match goal with
      | |- _ /\ _ => split
      | |- forall _, _ => intros
      | |- all_effs _ (match ?x with _ => _ end) => destruct x
      | |- all_effs _ (if ?x then _ else _) => destruct x
      | |- all_effs _ (bind _ _) => apply all_effs_bind
      end ].

Lemma execInContainer_quiet id cmd : all_effs quiet_eff (execInContainer id cmd).
Proof. unfold execInContainer. solve_effs. Qed.
#[export] Hint Resolve execInContainer_quiet : host.

Lemma installPackages_quiet id pk : all_effs quiet_eff (installPackages id pk).
Proof.
  unfold installPackages. induction (installCmds (Join " " pk)) as [|[chk inst] l IH]; [done|].
  cbn [try_installers].
  apply all_effs_bind; [auto with host|]. intros r. destruct (is_ok r); auto with host.
Qed.

Lemma pullImageIfNeeded_quiet image : all_effs quiet_eff (pullImageIfNeeded image).
Proof. unfold pullImageIfNeeded. solve_effs. Qed.
#[export] Hint Resolve installPackages_quiet pullImageIfNeeded_quiet : host.

Section Manager.
Context {PG : Postgres} (env : Env) (cm : ContainerManager).

(** ** The limit check *)

Definition containers_of (u : Z) (db : DB) : nat :=
  tcount (fun _ r => bool_decide (c_user_id r = u)) (containers db).

Lemma containers_desc_length u db : length (containers_desc u db) = containers_of u db.
Proof.
  unfold containers_of. rewrite <- length_tselect. apply Permutation_length, merge_sort_Permutation.
Qed.

Lemma scan_all_omap {X Y} (f : X -> result (Y * option ContainerInfo)) l r :
  scan_all f l = Ok r -> Forall (fun x => forall y, f x = Ok y -> is_Some y.2) l ->
  length (omap snd r) = length l.
Proof.
  revert r. induction l as [|x l IH]; intros r; simpl; [by intros [= <-]|].
  destruct (f x) as [y|] eqn:E; simpl; [|done].
  destruct (scan_all f l) as [r'|]; simpl; [|done].
  intros [= <-] Hall. inv Hall. destruct (H1 _ E) as [z Hz]. simpl. rewrite Hz. simpl. f_equal. auto.
Qed.

Lemma joined_length i u cs r :
  scan_all scan_joined (map (fun kr => ((i, u), Some kr)) cs) = Ok r ->
  length (omap snd r) = length cs.
Proof.
  intros H. erewrite scan_all_omap; [|exact H|]; [by rewrite length_map|].
  apply Forall_map, Forall_true. intros [j c] y. unfold scan_joined. simpl.
  destruct (scan_user false (i, u)); simpl; [|done]. by intros [= <-].
Qed.

(** Outcome of a query inside a transaction that sees [db]. *)
Definition tx_query {A} (w0 : World) (t : nat) (db : DB) (w : World) (P : A -> Prop)
    (r : result A) (w' : World) : Prop :=
  w_trace w' = w_trace w /\
  match r with
  | Ok x => in_tx w0 t (Some db) w' /\ P x
  | Err _ => exists v, in_tx w0 t v w'
  end.

(** A statement that reads. *)
Lemma wp_tx_read w0 t db s w : in_tx w0 t (Some db) w ->
  (forall c, (exec c s db).2 = db) ->
  wp env (perform (ESql (InTx t) s))
    (tx_query w0 t db w (fun x => exists c, (exec c s db).1 = Ok x)) w.
Proof.
  intros Htx Hs. eapply wp_mono; [by eapply wp_tx_sql|].
  intros [x|e] w' [T H]; split; try done.
  destruct H as (db' & [= <-] & Hx & H). rewrite Hs in H. eauto.
Qed.

Lemma wp_tx_containers w0 t db u w : in_tx w0 t (Some db) w ->
  wp env (GetContainersForUserByID (InTx t) u)
    (tx_query w0 t db w (fun uc => exists uid, to_bigint u = Some uid /\
       length uc.2 = containers_of uid db)) w.
Proof.
  intros Htx. eapply wp_seq.
  { eapply wp_tx_read; [done|]. intros c. simpl.
    unfold sql_select_user_containers, with_bigint. by destruct (to_bigint u). }
  intros [l|e] w1 [T H1]; simpl; [|by apply wp_ret].
  destruct H1 as [H1 [c Hx]]. apply wp_ret. split; [done|]. simpl in Hx.
  unfold sql_select_user_containers, with_bigint in Hx.
  destruct (to_bigint u) as [uid|] eqn:Hu; simpl in Hx; [|done]. injection Hx as <-.
  destruct (users db !! uid) as [ur|] eqn:Hur; [|by simpl; eauto].
  destruct (containers_desc uid db) as [|kr cs] eqn:Hcs.
  - simpl. destruct (scan_joined _) as [[us oi]|] eqn:Hj; simpl; [|by eauto].
    split; [done|]. exists uid. split; [done|]. rewrite <- containers_desc_length, Hcs.
    unfold scan_joined in Hj. simpl in Hj.
    destruct (scan_user false (uid, ur)); simpl in Hj; [|done]. by injection Hj as _ <-.
  - destruct (scan_all _ _) as [l'|] eqn:Hl; simpl; [|by eauto].
    apply (joined_length uid ur (kr :: cs)) in Hl. destruct l' as [|[us oi] l'']; [done|].
    split; [done|]. exists uid. split; [done|]. by rewrite <- containers_desc_length, Hcs, <- Hl.
Qed.

Lemma wp_tx_plan w0 t db u w : in_tx w0 t (Some db) w ->
  wp env (GetPlanForUser (InTx t) u)
    (tx_query w0 t db w (fun plan => exists uid id p, to_bigint u = Some uid /\
       plan_of_user uid db = Ok (id, p) /\ plan = plan_of_row id p)) w.
Proof.
  intros Htx. eapply wp_seq.
  { eapply wp_tx_read; [done|]. intros c. simpl.
    unfold sql_select_plan_of_user, with_bigint. by destruct (to_bigint u). }
  intros [[id p]|e] w1 [T H1]; simpl; [|by apply wp_ret].
  destruct H1 as [H1 [c Hx]]. apply wp_ret. split; [done|]. split; [done|]. simpl in Hx.
  unfold sql_select_plan_of_user, with_bigint in Hx.
  destruct (to_bigint u) as [uid|] eqn:Hu; simpl in Hx; [|done]. by exists uid, id, p.
Qed.

Lemma wp_check_limit w0 t db project w : in_tx w0 t (Some db) w ->
  wp env (check_limit t project)
    (tx_query w0 t db w (fun plan => exists uid id p, to_bigint (pj_UserId project) = Some uid /\
       plan_of_user uid db = Ok (id, p) /\ plan = plan_of_row id p /\
       Z.of_nat (containers_of uid db) < pl_max_containers p)) w.
Proof.
  intros Htx. eapply wp_seq; [by apply wp_tx_containers|].
  intros [uc|e] w1 [T1 H1]; [|by apply wp_ret]. destruct H1 as [H1 (uid & Hu & Hn)].
  eapply wp_seq; [by apply wp_tx_plan|].
  intros [plan|e] w2 [T2 H2]; [|by apply wp_ret; split; [congruence|]].
  destruct H2 as [H2 (uid' & id & p & Hu' & Hp & ->)].
  replace uid' with uid in * by congruence. rewrite Hn.
  destruct (Z.leb_spec (pn_MaxContainers (plan_of_row id p)) (Z.of_nat (containers_of uid db)));
    apply wp_ret; split; try congruence; eauto 10.
Qed.

(** ** Creation *)

Lemma insert_container_Ok c ci pn fp po st ui sa im db x :
  (exec c (InsertContainer ci pn fp po st ui sa im) db).1 = Ok x ->
  exists uid, to_bigint ui = Some uid /\ x = bigint_text (ctx_container_id c) /\
    containers db !! ctx_container_id c = None /\
    (exec c (InsertContainer ci pn fp po st ui sa im) db).2 =
      set_containers (<[ctx_container_id c := new_container c ci pn fp po st uid sa im]>
                        (containers db)) db.
Proof.
  simpl. unfold sql_insert_container, with_bigint, reject.
  destruct (to_bigint ui) as [uid|]; [|done].
  destruct (negb (bool_decide _)); [done|].
  destruct (live (containers db) (ctx_container_id c)) eqn:Hl; [done|].
  destruct (tany _ _); [done|]. destruct (negb _); [done|].
  intros [= <-]. exists uid. repeat split; try done.
  unfold live in Hl. by destruct (containers db !! ctx_container_id c).
Qed.

(** The container row a successful creation adds, and nothing else. *)
Definition created (w0 : World) (project : Project) (imageName folder port cid : string)
    (info : ContainerInfo) (w' : World) : Prop :=
  exists id uid now c, to_bigint (pj_UserId project) = Some uid /\
    containers (w_db w0) !! id = None /\
    info = set_ProjectID (bigint_text id) (new_info cid project imageName folder port now) /\
    after_tx w0 (set_containers
      (<[id := new_container c cid (pj_Name project) folder port "running" uid (Some now) imageName]>
         (containers (w_db w0))) (w_db w0)) w'.

(** The outcome of a part of a creation that starts with the resources [s]. *)
Definition create_post (w0 : World) (t : nat) (s : gset Resource) (w : World)
    (P : ContainerInfo -> World -> Prop) (r : result ContainerInfo) (w' : World) : Prop :=
  match r with
  | Ok info => P info w'
  | Err _ => pending w0 t w' /\ res s w s w'
  end.

Lemma wp_record_container w0 t w project image folder port cid now :
  in_tx w0 t (Some (w_db w0)) w ->
  wp env (record_container t (new_info cid project image folder port now))
    (fun r w' => w_trace w' = w_trace w /\
       create_post w0 t ∅ w (created w0 project image folder port cid) r w') w.
Proof.
  intros Htx. eapply wp_seq; [by wp_tx_call|].
  intros [x|e] w1 [T1 H1].
  2:{ destruct H1 as [v H1]. apply wp_ret. split; [done|]. split; eauto with host. }
  destruct H1 as (db & [= <-] & Hx & H1).
  apply insert_container_Ok in Hx as (uid & Hu & -> & Hfresh & Hdb). rewrite Hdb in H1.
  eapply wp_seq; [by eapply wp_commit|]. intros [[]|e] w2 [T2 H2]; apply wp_ret.
  - split; [congruence|]. destruct H2 as (db & [= <-] & H2).
    do 4 eexists. repeat split; try done; apply H2.
  - split; [congruence|]. split; [|apply res_same; congruence].
    split; [by apply H1|by right].
Qed.

Lemma wp_outside_in_tx {A} (p : Prog A) w0 t v w : in_tx w0 t v w -> all_effs quiet_eff p ->
  wp env p (fun _ w' => quiet w w' /\ in_tx w0 t v w') w.
Proof.
  intros Htx Hq. eapply wp_mono; [by apply wp_quiet|]. intros a w' Hw.
  simpl in Hw. split; [done|]. eauto with host.
Qed.

Lemma wp_start_and_record w0 t s w project image folder cid :
  in_tx w0 t (Some (w_db w0)) w ->
  wp env (start_and_record t project image folder cid)
    (create_post w0 t s w (fun info w' => created w0 project image folder "" cid info w' /\
                                          res s w s w')) w.
Proof.
  intros Htx. eapply wp_seq; [by apply wp_outside_in_tx|]. intros [[]|e] w1 [Q1 H1].
  2:{ apply wp_ret. split; eauto with host. }
  eapply wp_seq; [apply wp_outside_in_tx; [done|auto with host]|]. intros _ w2 [Q2 H2].
  eapply wp_seq; [by apply wp_outside_in_tx|]. intros now w3 [Q3 H3].
  assert (quiet w w3) as Q by (by rewrite Q1, Q2).
  eapply wp_mono; [by apply wp_record_container|].
  intros [info|e] w4 [T4 H4]; split; try apply H4;
    (eapply res_trans; [by apply res_quiet|by apply res_same]).
Qed.

Lemma wp_discard cid s w : wp env (discard_container cid)
  (fun _ w' => outside w w' /\ res s w (s ∖ {[RContainer cid]}) w') w.
Proof.
  apply wp_bind, wp_bind. eapply wp_mono; [apply wp_docker|]. intros r1 w1 [O1 T1].
  apply wp_ret, wp_bind. eapply wp_mono; [apply wp_docker|]. intros r2 w2 [O2 T2].
  apply wp_ret. split; [by rewrite O1|].
  eapply res_trans; [by apply res_one|]. by apply (res_one s) in T2.
Qed.

Lemma wp_remove_folder p s w : wp env (remove_folder p)
  (fun _ w' => outside w w' /\ res s w (s ∖ {[RFolder p]}) w') w.
Proof.
  apply wp_bind. eapply wp_mono; [apply wp_remove_all|]. intros r1 w1 [O1 T1].
  apply wp_ret. split; [done|]. by apply (res_one s) in T1.
Qed.

(** [defer func() { if err != nil { cleanup } }()] over a body that fails
    with the resource [x] still there. *)
Lemma wp_cleanup (body : Prog (result ContainerInfo)) cleanup w0 t s x w P :
  x ∉ s ->
  wp env body (create_post w0 t ({[x]} ∪ s) w P) w ->
  (forall w', wp env cleanup (fun _ w'' => outside w' w'' /\
     res ({[x]} ∪ s) w' (({[x]} ∪ s) ∖ {[x]}) w'') w') ->
  wp env (defer body (on_error cleanup))
    (fun r w' => match r with
                 | Ok info => P info w'
                 | Err _ => pending w0 t w' /\ res ({[x]} ∪ s) w s w'
                 end) w.
Proof.
  intros Hx Hbody Hclean. eapply wp_defer; [exact Hbody|].
  intros [info|e] w1 H1; simpl; [by apply wp_ret|].
  eapply wp_mono; [apply Hclean|]. intros [] w2 [O2 R2]. destruct H1 as [H1 R1].
  split; [by eapply pending_outside|]. eapply res_trans; [exact R1|].
  assert (({[x]} ∪ s) ∖ {[x]} = s) as Hs by set_solver. by rewrite Hs in R2.
Qed.

(** From the folder on: on error nothing is left of what was created here. *)
Lemma wp_create_in_folder w0 t p w plan project image :
  in_tx w0 t (Some (w_db w0)) w ->
  wp env (create_in_folder t plan project image p)
    (create_post w0 t {[RFolder p]} w (fun info w' =>
       exists cid, created w0 project image p "" cid info w' /\
         res {[RFolder p]} w {[RContainer cid; RFolder p]} w' /\
         EvDocker (ContainerCreate (container_config plan project image p)) (Ok cid) ∈ w_trace w')) w.
Proof.
  intros Htx. eapply wp_seq; [apply wp_docker|]. intros [cid|e] w1 [O1 T1].
  2:{ apply wp_ret. split; [eauto with host|]. by apply (res_one {[RFolder p]}) in T1. }
  pose proof (in_tx_outside _ _ _ _ _ O1 Htx) as H1.
  apply (res_one {[RFolder p]}) in T1 as R1. simpl in R1.
  eapply wp_mono.
  { eapply (wp_cleanup _ _ _ _ {[RFolder p]} (RContainer cid)); [set_solver|by apply wp_start_and_record|].
    intros w'. apply wp_discard. }
  intros [info|e] w2 H2; simpl.
  - exists cid. destruct H2 as [H2 R2]. split; [done|]. split; [by eapply res_trans|].
    destruct R2 as (tr & -> & _). rewrite T1. set_solver.
  - destruct H2 as [H2 R2]. split; [done|]. by eapply res_trans.
Qed.

Definition create_ok (w0 : World) (project : Project) (image p : string) (w : World)
    (info : ContainerInfo) (w' : World) : Prop :=
  exists cid uid id plan, created w0 project image p "" cid info w' /\
    to_bigint (pj_UserId project) = Some uid /\ plan_of_user uid (w_db w0) = Ok (id, plan) /\
    Z.of_nat (containers_of uid (w_db w0)) < pl_max_containers plan /\
    res ∅ w {[RContainer cid; RFolder p]} w' /\
    EvDocker (ContainerCreate (container_config (plan_of_row id plan) project image p)) (Ok cid)
      ∈ w_trace w'.

Lemma wp_create_body w0 t w project image : in_tx w0 t (Some (w_db w0)) w ->
  wp env (create_body cm t project image)
    (create_post w0 t ∅ w (create_ok w0 project image (project_folder cm project) w)) w.
Proof.
  intros Htx. set (p := project_folder cm project).
  eapply wp_seq; [by apply wp_check_limit|]. intros [plan|e] w1 [T1 H1].
  2:{ destruct H1. apply wp_ret. split; eauto with host. }
  destruct H1 as (H1 & uid & id & pl & Hu & Hp & -> & Hlim).
  eapply wp_seq; [apply wp_outside_in_tx; [done|auto with host]|]. intros [[]|e] w2 [Q2 H2].
  2:{ apply wp_ret. split; [eauto with host|]. eapply res_trans; [by apply res_same|eauto with host]. }
  assert (res ∅ w ∅ w2) as R2 by (eapply res_trans; [by apply res_same|eauto with host]).
  eapply wp_seq; [apply wp_mkdir|]. intros [[]|e] w3 [O3 T3]; simpl in T3.
  2:{ apply wp_ret. split; [eauto with host|]. eapply res_trans; [done|]. by apply (res_one ∅) in T3. }
  pose proof (in_tx_outside _ _ _ _ _ O3 H2) as H3.
  apply (res_one ∅) in T3. simpl in T3.
  eapply wp_mono.
  { apply (wp_cleanup _ _ w0 t ∅ (RFolder p)); [set_solver| |].
    - rewrite union_empty_r_L. by apply wp_create_in_folder.
    - intros w'. apply wp_remove_folder. }
  intros [info|e] w4 H4; simpl.
  - destruct H4 as (cid & Hc & R4 & Hev). exists cid, uid, id, pl. repeat split; try done.
    rewrite union_empty_r_L in T3. by do 2 (eapply res_trans; [done|]).
  - destruct H4 as [H4 R4]. split; [done|]. by do 2 (eapply res_trans; [done|]).
Qed.

Lemma create_ok_settled w0 project image p w info w1 w2 :
  w_trace w2 = w_trace w1 -> (forall db, after_tx w0 db w1 -> after_tx w0 db w2) ->
  create_ok w0 project image p w info w1 -> create_ok w0 project image p w info w2.
Proof.
  intros T Ha (cid & uid & id & plan & Hc & H1 & H2 & H3 & (tr & Htr) & H4).
  exists cid, uid, id, plan. unfold res. rewrite T. split; [|by eauto 10].
  destruct Hc as (i & u & now & c & E1 & E2 & E3 & E4). exists i, u, now, c. auto.
Qed.

Lemma created_after w0 project image p port cid info w1 :
  created w0 project image p port cid info w1 -> exists db, after_tx w0 db w1.
Proof. intros (i & u & now & c & _ & _ & _ & H). eauto. Qed.

Lemma wp_create w project image : world_ok w ->
  wp env (CreateContainer cm project image) (fun r w' =>
    match r with
    | Ok info => create_ok w project image (project_folder cm project) w info w'
    | Err _ => after_tx w (w_db w) w' /\ res ∅ w ∅ w'
    end) w.
Proof.
  intros Hok. eapply wp_seq; [by apply wp_begin|]. intros [t|e] w1 [T1 H1].
  2:{ apply wp_ret. eauto with host. }
  assert (w_txs w !! t = None) as Hfresh by apply H1.
  eapply wp_defer; [by apply wp_create_body|]. intros [info|e] w2 H2; simpl in H2.
  - assert (create_ok w project image (project_folder cm project) w info w2) as H.
    { destruct H2 as (cid & uid & id & plan & ? & ? & ? & ? & (tr & Htr) & ?).
      exists cid, uid, id, plan. unfold res. rewrite <- T1. eauto 10. }
    pose proof H as (cid & _ & _ & _ & [db Hdb]%created_after & _).
    eapply wp_mono; [by apply wp_rollback_done|]. intros [] w3 [T3 H3].
    eapply create_ok_settled; [exact T3| |exact H]. intros db' Hdb'.
    replace db' with db; [done|]. by rewrite <- (at_db _ _ _ Hdb), (at_db _ _ _ Hdb').
  - destruct H2 as [H2 R2]. eapply wp_mono; [by apply wp_rollback_pending|].
    intros [] w3 [T3 H3]. split; [done|]. destruct R2 as (tr & E & Htr). exists tr.
    by rewrite T3, E, T1.
Qed.

(** ** Creation with a published port *)

(** After the container exists a failure leaves either nothing or both the
    container and its folder. *)
Definition nothing_or_both (p : string) (s : gset Resource) : Prop :=
  s = ∅ \/ exists cid, s = {[RContainer cid; RFolder p]}.

Definition port_post (w0 : World) (t : nat) (p : string) (w : World) (s : gset Resource)
    (P : ContainerInfo -> World -> Prop) (r : result ContainerInfo) (w' : World) : Prop :=
  match r with
  | Ok info => P info w'
  | Err _ => pending w0 t w' /\ exists s', nothing_or_both p s' /\ res s w s' w'
  end.

Lemma wp_drop_folder {A} p s w (k : Prog A) Q :
  (forall w', outside w w' -> res s w (s ∖ {[RFolder p]}) w' -> wp env k Q w') ->
  wp env (bind (ignore (removeFolderRollBack p)) (fun _ => k)) Q w.
Proof.
  intros Hk. apply wp_bind, wp_bind, wp_bind. eapply wp_mono; [apply wp_remove_all|].
  intros r w1 [O1 T1]. apply wp_ret, wp_ret. apply Hk; [done|]. by apply (res_one s) in T1.
Qed.

Lemma wp_start_with_port w0 t w project image p cport cid :
  in_tx w0 t (Some (w_db w0)) w ->
  let s := {[RContainer cid; RFolder p]} in
  wp env (start_with_port t project image p cport cid)
    (port_post w0 t p w s (fun info w' => exists port, created w0 project image p port cid info w' /\
       res s w s w')) w.
Proof.
  intros Htx s. unfold start_with_port.
  eapply wp_seq; [by apply wp_outside_in_tx|]. intros [[]|e] w1 [Q1 H1].
  2:{ apply wp_bind, wp_bind. eapply wp_mono; [apply wp_docker|]. intros r w2 [O2 T2].
      apply wp_ret. apply (wp_drop_folder p (s ∖ {[RContainer cid]})). intros w3 O3 R3. apply wp_ret.
      split; [by eauto using in_tx_pending, pending_outside|]. exists ∅. split; [by left|].
      apply (res_one s) in T2. eapply res_trans; [by apply res_quiet|]. eapply res_trans; [exact T2|].
      assert (s ∖ {[RContainer cid]} ∖ {[RFolder p]} = ∅) as E by set_solver. by rewrite E in R3. }
  eapply wp_seq; [apply wp_outside_in_tx; [done|auto with host]|]. intros _ w2 [Q2 H2].
  eapply wp_seq; [by apply wp_outside_in_tx|]. intros [ports|e] w3 [Q3 H3].
  2:{ apply wp_ret. split; [by eauto using in_tx_pending|]. exists s. split; [right; by exists cid|].
      apply res_quiet. by rewrite Q1, Q2. }
  eapply wp_seq; [by apply wp_outside_in_tx|]. intros now w4 [Q4 H4].
  assert (quiet w w4) as Q by (by rewrite Q1, Q2, Q3).
  eapply wp_mono; [by apply wp_record_container|].
  intros [info|e] w5 [T5 H5].
  - eexists. split; [exact H5|]. eapply res_trans; [by apply res_quiet|by apply res_same].
  - destruct H5 as [H5 _]. split; [done|]. exists s. split; [right; by exists cid|].
    eapply res_trans; [by apply res_quiet|by apply res_same].
Qed.

Definition create_port_ok (w : World) (project : Project) (image p : string) (info : ContainerInfo)
    (w' : World) : Prop :=
  exists cid port uid id plan, created w project image p port cid info w' /\
    to_bigint (pj_UserId project) = Some uid /\ plan_of_user uid (w_db w) = Ok (id, plan) /\
    Z.of_nat (containers_of uid (w_db w)) < pl_max_containers plan /\
    res ∅ w {[RContainer cid; RFolder p]} w'.

Lemma wp_create_body_port w0 t w project image cport :
  w_trace w = w_trace w0 -> in_tx w0 t (Some (w_db w0)) w ->
  wp env (create_body_port cm t project image cport)
    (port_post w0 t (project_folder cm project) w ∅
       (create_port_ok w0 project image (project_folder cm project))) w.
Proof.
  intros T0 Htx. unfold create_body_port. set (p := project_folder cm project).
  eapply wp_seq; [by apply wp_check_limit|]. intros [plan|e] w1 [T1 H1].
  2:{ destruct H1. apply wp_ret. split; [eauto with host|]. exists ∅. split; [by left|by apply res_same]. }
  destruct H1 as (H1 & uid & id & pl & Hu & Hp & -> & Hlim).
  eapply wp_seq; [apply wp_outside_in_tx; [done|auto with host]|]. intros r w2 [Q2 H2].
  assert (res ∅ w ∅ w2) as R2 by (eapply res_trans; [by apply res_same|eauto with host]).
  destruct r as [[]|e].
  2:{ apply wp_ret. split; [eauto with host|]. exists ∅. split; [by left|done]. }
  eapply wp_seq; [apply wp_mkdir|]. intros r w3 [O3 T3]. apply (res_one ∅) in T3.
  pose proof (in_tx_outside _ _ _ _ _ O3 H2) as H3. destruct r as [[]|e]; simpl in T3.
  2:{ apply wp_ret. split; [eauto with host|]. exists ∅. split; [by left|by eapply res_trans]. }
  rewrite union_empty_r_L in T3. assert (res ∅ w {[RFolder p]} w3) as R3 by by eapply res_trans.
  eapply wp_seq; [apply wp_docker|]. intros r w4 [O4 T4]. apply (res_one {[RFolder p]}) in T4.
  pose proof (in_tx_outside _ _ _ _ _ O4 H3) as H4. destruct r as [cid|e]; simpl in T4.
  2:{ apply (wp_drop_folder p {[RFolder p]}). intros w5 O5 R5. apply wp_ret.
      rewrite difference_diag_L in R5. split; [by eauto using in_tx_pending, pending_outside|].
      exists ∅. split; [by left|]. by do 2 (eapply res_trans; [done|]). }
  assert (res ∅ w {[RContainer cid; RFolder p]} w4) as R4 by by eapply res_trans.
  eapply wp_mono; [by apply (wp_start_with_port w0 t)|]. intros [info|e] w5 H5.
  - destruct H5 as (port & Hc & R5). exists cid, port, uid, id, pl. repeat split; try done.
    unfold res in *. rewrite <- T0. by eapply res_trans.
  - destruct H5 as (H5 & s' & Hs' & R5). split; [done|]. exists s'. split; [done|]. by eapply res_trans.
Qed.

Lemma wp_create_port w project image cport : world_ok w ->
  wp env (CreateContainerWithPort cm project image cport) (fun r w' =>
    match r with
    | Ok info => create_port_ok w project image (project_folder cm project) info w'
    | Err _ => after_tx w (w_db w) w' /\
               exists s, nothing_or_both (project_folder cm project) s /\ res ∅ w s w'
    end) w.
Proof.
  intros Hok. eapply wp_seq; [by apply wp_begin|]. intros [t|e] w1 [T1 H1].
  2:{ apply wp_ret. split; [done|]. exists ∅. split; [by left|by apply res_same]. }
  assert (w_txs w !! t = None) as Hfresh by apply H1.
  eapply wp_defer; [by apply wp_create_body_port|]. intros [info|e] w2 H2; simpl in H2.
  - destruct H2 as (cid & port & uid & id & plan & Hc & H4 & H5 & H6 & H7).
    pose proof Hc as (i & u & now & c & E1 & E2 & E3 & E4).
    eapply wp_mono; [by apply wp_rollback_done|]. intros [] w3 [T3 H3].
    exists cid, port, uid, id, plan. unfold res. rewrite T3. split; [|done].
    exists i, u, now, c. done.
  - destruct H2 as (H2 & s & Hs & tr & E & Htr). eapply wp_mono; [by apply wp_rollback_pending|].
    intros [] w3 [T3 H3]. split; [done|]. exists s. split; [done|]. exists tr. by rewrite T3, E, T1.
Qed.

(** ** Lookup *)

Lemma tfirst_on_container i db kr : tfirst (on_container i) (containers db) = Ok kr ->
  kr.1 = i /\ containers db !! i = Some kr.2.
Proof.
  destruct kr as [k r]. intros [H1 H2]%tfirst_Ok. unfold on_container in H2.
  apply bool_decide_eq_true in H2. by subst.
Qed.

(** [info] is what scanning the row [i] of [db] gives. *)
Definition found (db : DB) (projectID : string) (info : ContainerInfo) (i : Z) (row : container_row)
    : Prop :=
  to_bigint projectID = Some i /\ containers db !! i = Some row /\ scan_container (i, row) = Ok info.

Lemma scan_container_Ok i row info : scan_container (i, row) = Ok info ->
  ContainerID info = c_container_id row /\ ProjectID info = bigint_text i /\
  ProjectName info = c_project_name row /\ c_image_name row = Some (ImageName info) /\
  FolderPath info = c_folder_path row /\ c_port row = Some (Port info) /\
  Status info = c_status row /\ UserId info = "" /\ StartedAt info = c_started_at row /\
  AutoStopAt info = None.
Proof.
  unfold scan_container. simpl. destruct (c_port row); simpl; [|done].
  destruct (c_image_name row); simpl; [|done]. by intros [= <-].
Qed.

Lemma select_container_Ok c projectID db kr info :
  (exec c (SelectContainer projectID) db).1 = Ok kr -> scan_container kr = Ok info ->
  exists i row, found db projectID info i row.
Proof.
  simpl. unfold sql_select_container, with_bigint. destruct (to_bigint projectID) as [i|] eqn:Hi; [|done].
  simpl. intros [<- Hr]%tfirst_on_container Hs. destruct kr as [k row]. by exists k, row.
Qed.

Lemma select_container_db c projectID db : (exec c (SelectContainer projectID) db).2 = db.
Proof. simpl. unfold sql_select_container, with_bigint. by destruct (to_bigint projectID). Qed.

Lemma map_no_rows_scan (r : result (Z * container_row)) info :
  map_no_rows ErrNotFound (result_bind r scan_container) = Ok info ->
  exists kr, r = Ok kr /\ scan_container kr = Ok info.
Proof.
  destruct r as [kr|e]; simpl; [|by destruct (errors_Is e ErrNoRows)].
  destruct (scan_container kr) as [i|e] eqn:E; simpl; [|by destruct (errors_Is e ErrNoRows)].
  intros [= ->]. eauto.
Qed.

Lemma wp_find_pool {A} projectID (k : ContainerInfo -> Prog (result A)) Q w :
  (forall info i row w', found (w_db w) projectID info i row -> outside w w' ->
     w_trace w' = w_trace w -> wp env (k info) Q w') ->
  (forall w', outside w w' -> w_trace w' = w_trace w -> Q (Err (not_found projectID)) w') ->
  wp env (find_container Pool projectID k) Q w.
Proof.
  intros Hk He. apply wp_bind. eapply wp_seq.
  { apply wp_pool_read. intros c. apply select_container_db. }
  intros r w1 (O1 & T1 & H1). apply wp_ret.
  destruct (map_no_rows ErrNotFound (result_bind r scan_container)) as [info|e] eqn:E; [|apply wp_ret; auto].
  apply map_no_rows_scan in E as (kr & -> & Hs). destruct H1 as [c Hc].
  destruct (select_container_Ok c projectID _ kr info Hc Hs) as (i & row & Hf). eauto.
Qed.

Lemma found_project_id db projectID info i row : wf_db db -> found db projectID info i row ->
  to_bigint (ProjectID info) = Some i.
Proof.
  intros Hwf (_ & Hrow & Hs). apply scan_container_Ok in Hs as (_ & -> & _).
  apply bigint_text_cast. pose proof (wf_containers_key _ Hwf i row Hrow) as Hk.
  unfold serial_key in Hk. lia.
Qed.

(** ** Updates in a transaction *)

Lemma wp_tx_update w0 t db id i row info w : in_tx w0 t (Some db) w ->
  to_bigint id = Some i -> containers db !! i = Some row ->
  wp env (UpdateContainer (InTx t) id info) (fun r w' => w_trace w' = w_trace w /\
    match r with
    | Ok _ => in_tx w0 t (Some (set_containers
        (<[i := set_c_container_id (ContainerID info) (set_c_project_name (ProjectName info)
                 (set_c_folder_path (FolderPath info) (set_c_port (Some (Port info))
                 (set_c_status (Status info) (set_c_started_at (StartedAt info)
                 (set_c_image_name (Some (ImageName info)) row))))))]> (containers db)) db)) w'
    | Err _ => exists v, in_tx w0 t v w'
    end) w.
Proof.
  intros Htx Hi Hrow. eapply wp_seq; [by wp_tx_call|].
  intros r w1 [T1 H1]. apply wp_ret. split; [done|].
  destruct (map_no_rows _ _) as [i'|e] eqn:E; [|].
  - apply map_no_rows_scan in E as (kr & -> & _). destruct H1 as (db' & [= <-] & Hx & H1).
    simpl in Hx, H1. unfold sql_update_container, with_bigint in Hx, H1. rewrite Hi, Hrow in Hx, H1.
    destruct (tany _ _); [done|]. exact H1.
  - destruct r as [x|e']; [|done]. destruct H1 as (db' & _ & _ & H1). eauto.
Qed.

Lemma row_with_status i (row : container_row) info s st :
  scan_container (i, row) = Ok info ->
  set_c_container_id (ContainerID info) (set_c_project_name (ProjectName info)
    (set_c_folder_path (FolderPath info) (set_c_port (Some (Port info))
    (set_c_status s (set_c_started_at st (set_c_image_name (Some (ImageName info)) row)))))) =
  set_c_status s (set_c_started_at st row).
Proof.
  intros Hs. apply scan_container_Ok in Hs as (-> & _ & -> & <- & -> & <- & _). by destruct row.
Qed.

(** ** Stop, start, remove *)

Definition set_row (i : Z) (row : container_row) (db : DB) : DB :=
  set_containers (<[i := row]> (containers db)) db.

(** Stop and start write the row back with a new status and start time, then
    make one Docker call, all inside the transaction. *)
Lemma wp_status_change w t projectID info info' i row c msg (k : Prog (result unit)) Q w1 :
  world_ok w -> found (w_db w) projectID info i row -> in_tx w t (Some (w_db w)) w1 ->
  set_Status "" (set_StartedAt None info') = set_Status "" (set_StartedAt None info) ->
  (forall w2 r,
     in_tx w t (Some (set_row i (set_c_status (Status info') (set_c_started_at (StartedAt info') row))
                        (w_db w))) w2 ->
     w_trace w2 = w_trace w1 ++ [EvDocker c r] -> wp env k Q w2) ->
  (forall e w2, pending w t w2 -> Q (Err e) w2) ->
  wp env (bind (UpdateContainer (InTx t) (ProjectID info') info') (fun r =>
    match r with
    | Ok _ => bind (docker c) (fun r =>
        match r with Ok _ => k | Err e => Ret (Err (ErrWrap msg e)) end)
    | Err e => Ret (Err e)
    end)) Q w1.
Proof.
  intros Hok Hf Htx Hi Hk He. pose proof Hf as (_ & Hrow & Hs).
  injection Hi as E1 E2 E3 E4 E5 E6 _ _ _.
  eapply wp_seq.
  { eapply (wp_tx_update _ _ _ _ i); [done| |done]. rewrite E2.
    eapply found_project_id; [apply Hok|done]. }
  intros [x|e] w2 [T2 H2]; [|destruct H2; apply wp_ret; by eauto using in_tx_pending].
  rewrite E1, E3, E4, E5, E6, (row_with_status i _ _ _ _ Hs) in H2.
  eapply wp_seq; [apply wp_docker|]. intros [u|e] w3 [O3 T3].
  - eapply Hk; [by eapply in_tx_outside|]. by rewrite T3, T2.
  - apply wp_ret. eauto using in_tx_pending, in_tx_outside.
Qed.

(** [StopContainer] and [StartContainer] end with the row [f] gives, after
    the call [c], or with the tables as they were. *)
Definition status_post (w : World) (projectID : string)
    (f : container_row -> container_row -> Prop) (c : container_row -> DockerCall)
    (r : result unit) (w' : World) : Prop :=
  match r with
  | Ok _ => exists info i row row', found (w_db w) projectID info i row /\ f row row' /\
      after_tx w (set_row i row' (w_db w)) w' /\ calls w [c row] w'
  | Err _ => after_tx w (w_db w) w'
  end.

Lemma wp_stop projectID w : world_ok w ->
  wp env (StopContainer projectID)
    (status_post w projectID (fun row row' => row' = set_c_status "stopped" row)
       (fun row => ContainerStop (c_container_id row) (Some 10))) w.
Proof.
  intros Hok. eapply wp_seq; [by apply wp_begin|]. intros [t|e] w1 [T1 H1]; [|by apply wp_ret].
  eapply wp_mono.
  { eapply (wp_tx_defer _ _ w t _
      (fun _ db tr => exists info i row, found (w_db w) projectID info i row /\
         db = set_row i (set_c_status "stopped" row) (w_db w) /\
         exists r, tr = w_trace w ++ [EvDocker (ContainerStop (c_container_id row) (Some 10)) r])
      (fun _ _ => True)); [apply H1|].
    apply wp_find_pool; [|intros w2 O2 T2; split; [by eauto using in_tx_pending, in_tx_outside|done]].
    rewrite (it_db _ _ _ _ H1). intros info i row w2 Hf O2 T2.
    eapply wp_status_change; [done..|by eapply in_tx_outside|done| |by auto].
    destruct Hf as (Hi & Hrow & Hs).
    destruct (scan_container_Ok _ _ _ Hs) as (Hc & _ & _ & _ & _ & _ & _ & _ & Hst & _).
    simpl. rewrite Hst, Hc. intros w3 r H3 T3.
    eapply wp_mono; [by eapply wp_commit|]. intros [[]|e'] w5 [T5 H5].
    - destruct H5 as (db & [= <-] & H5). eexists. split; [done|]. exists info, i, row.
      split; [done|]. split; [by destruct row|]. eexists. by rewrite T5, T3, T2, T1.
    - split; [|done]. split; [apply H3|by right]. }
  intros [[]|e] w2 H2; [|by destruct H2].
  destruct H2 as (db & H2 & info & i & row & Hf & -> & r & Htr). exists info, i, row.
  eexists. split; [done|]. split; [done|]. split; [done|]. by eapply calls_one.
Qed.

(** The row after a start: running since some instant; the health columns are
    reset unless that last statement failed. *)
Definition started_row (row row' : container_row) : Prop :=
  exists now, let r := set_c_status "running" (set_c_started_at (Some now) row) in
  row' = r \/
  row' = set_c_health_status "none" (set_c_oom_killed false (set_c_circuit_open false r)).

Lemma reset_health_set_row c id i row db :
  to_bigint id = Some i ->
  (exec c (ResetHealthRow id) (set_row i row db)).2 =
  set_row i (set_c_health_status "none" (set_c_oom_killed false (set_c_circuit_open false row))) db.
Proof.
  intros Hi. simpl. unfold sql_reset_health, with_bigint, update_containers. rewrite Hi. simpl.
  unfold set_row. simpl. unfold on_container. erewrite tupdate_key; [|apply lookup_insert_eq].
  by rewrite insert_insert_eq.
Qed.

Lemma wp_start projectID w : world_ok w ->
  wp env (StartContainer projectID)
    (status_post w projectID started_row (fun row => ContainerStart (c_container_id row))) w.
Proof.
  intros Hok. eapply wp_seq; [by apply wp_begin|]. intros [t|e] w1 [T1 H1]; [|by apply wp_ret].
  eapply wp_mono.
  { eapply (wp_tx_defer _ _ w t _
      (fun _ db tr => exists info i row row', found (w_db w) projectID info i row /\
         started_row row row' /\ db = set_row i row' (w_db w) /\
         exists r, tr = w_trace w ++ [EvDocker (ContainerStart (c_container_id row)) r])
      (fun _ _ => True)); [apply H1|].
    apply wp_find_pool; [|intros w2 O2 T2; split; [by eauto using in_tx_pending, in_tx_outside|done]].
    rewrite (it_db _ _ _ _ H1). intros info i row w2 Hf O2 T2.
    eapply wp_seq; [by apply wp_now|]. intros now w3 [O3 T3].
    assert (in_tx w t (Some (w_db w)) w3) as H3 by eauto using in_tx_outside.
    eapply wp_status_change; [done..| |by auto].
    pose proof Hf as (Hi & Hrow & Hs).
    destruct (scan_container_Ok _ _ _ Hs) as (Hc & _).
    cbn [set_Status set_StartedAt ContainerID Status StartedAt]. rewrite Hc. intros w4 r H4 T4.
    eapply wp_seq; [by eapply wp_commit|]. intros [[]|e'] w5 [T5 H5].
    2:{ apply wp_ret. split; [|done]. split; [apply H4|by right]. }
    destruct H5 as (db & [= <-] & H5). eapply wp_seq; [by wp_pool_call|].
    intros r6 w6 (T6 & X6 & B6 & _ & H6). apply wp_ret. rewrite T6, T5, T4, T3, T2, T1.
    destruct H5 as [D5 X5 B5]. destruct H6 as [(err & _ & _ & Hd)|(_ & _ & Hd)].
    - eexists. split; [split; [exact Hd|congruence..]|]. rewrite D5. exists info, i, row.
      eexists. split; [done|]. split; [by exists now; left|]. split; [done|]. by eexists.
    - eexists. split; [split; [exact Hd|congruence..]|]. rewrite D5. exists info, i, row.
      rewrite (reset_health_set_row _ _ i) by ((apply (found_project_id (w_db w) projectID info i row); [apply Hok|done])).
      eexists. split; [done|]. split; [by exists now; right|]. split; [done|]. by eexists. }
  intros [[]|e] w2 H2; [|by destruct H2].
  destruct H2 as (db & H2 & info & i & row & row' & Hf & Hr & -> & r & Htr).
  exists info, i, row, row'. split; [done|]. split; [done|]. split; [done|]. by eapply calls_one.
Qed.

(** [RemoveContainer] after its commit: disconnect, stop, remove, and the
    folder. *)
Definition removal_calls (cid : string) (nets : list string) : list DockerCall :=
  map (fun n => NetworkDisconnect n cid true) nets ++
  [ContainerStop cid (Some 5); ContainerRemove cid true].

Lemma select_nets_db c projectID db : (exec c (SelectDockerNetIds projectID) db).2 = db.
Proof. simpl. unfold sql_select_docker_net_ids, with_bigint. by destruct (to_bigint projectID). Qed.

Lemma wp_container_networks_of projectID w :
  wp env (container_networks_of projectID) (fun nets w' => outside w w' /\ w_trace w' = w_trace w /\
    (nets = [] \/ exists c, (exec c (SelectDockerNetIds projectID) (w_db w)).1 = Ok nets)) w.
Proof.
  eapply wp_seq; [apply wp_pool_read; intros c; apply select_nets_db|].
  intros [ids|e] w1 (O1 & T1 & H1); apply wp_ret; split; try done; split; try done; auto.
Qed.

Lemma wp_find_tx {A} projectID (k : ContainerInfo -> Prog (result A)) Q w0 t db w :
  in_tx w0 t (Some db) w ->
  (forall info i row w', found db projectID info i row -> in_tx w0 t (Some db) w' ->
     w_trace w' = w_trace w -> wp env (k info) Q w') ->
  (forall v w', in_tx w0 t v w' -> w_trace w' = w_trace w -> Q (Err (not_found projectID)) w') ->
  wp env (find_container (InTx t) projectID k) Q w.
Proof.
  intros Htx Hk He. apply wp_bind. eapply wp_seq.
  { eapply wp_tx_read; [done|]. intros c. apply select_container_db. }
  intros r w1 [T1 H1]. apply wp_ret.
  destruct (map_no_rows ErrNotFound (result_bind r scan_container)) as [info|e] eqn:E.
  - apply map_no_rows_scan in E as (kr & -> & Hs). destruct H1 as [H1 [c Hc]].
    destruct (select_container_Ok c projectID _ kr info Hc Hs) as (i & row & Hf). eauto.
  - apply wp_ret. destruct r as [x|e']; [destruct H1|destruct H1]; eauto.
Qed.

Lemma tdelete_container i (t : gmap Z container_row) : tdelete (on_container i) t = delete i t.
Proof.
  apply map_eq. intros k. unfold tdelete, on_container. destruct (decide (k = i)) as [->|Hne].
  - rewrite lookup_delete_eq. apply map_lookup_filter_None. right. intros r _. simpl.
    by rewrite bool_decide_eq_true_2.
  - rewrite lookup_delete_ne by done. destruct (t !! k) as [r|] eqn:E.
    + apply map_lookup_filter_Some. split; [done|]. simpl. by rewrite bool_decide_eq_false_2.
    + apply map_lookup_filter_None. by left.
Qed.

(** The tables without the container [i] and its memberships. *)
Definition without_container (i : Z) (db : DB) : DB :=
  cascade (set_containers (delete i (containers db)) db).

Lemma wp_delete_tx w0 t db id i row w : in_tx w0 t (Some db) w ->
  to_bigint id = Some i -> containers db !! i = Some row ->
  wp env (DeleteContainer (InTx t) id) (fun r w' => w_trace w' = w_trace w /\
    match r with
    | Ok _ => in_tx w0 t (Some (without_container i db)) w'
    | Err _ => exists v, in_tx w0 t v w'
    end) w.
Proof.
  intros Htx Hi Hrow. eapply wp_seq; [by wp_tx_call|].
  intros [n|e] w1 [T1 H1]; apply wp_ret; (split; [done|]); [|done].
  destruct H1 as (db' & [= <-] & _ & H1). simpl in H1. unfold sql_delete_container, with_bigint in H1.
  rewrite Hi in H1. simpl in H1. rewrite tdelete_container in H1.
  destruct (Nat.eqb n 0); [by eauto|done].
Qed.

(** The best-effort cleanup that follows the commit. *)
Lemma wp_removal cid nets folder (removeFolder : bool) w :
  wp env (bind (for_each nets (fun netID => ignore (docker (NetworkDisconnect netID cid true)))) (fun _ =>
          bind (ignore (docker (ContainerStop cid (Some 5)))) (fun _ =>
          bind (ignore (docker (ContainerRemove cid true))) (fun _ =>
          bind (if removeFolder then remove_folder folder else Ret tt) (fun _ => Ret (Ok tt))))))
    (fun r w' => r = Ok tt /\ outside w w' /\ calls w (removal_calls cid nets) w' /\
       (removeFolder = true -> exists ok, EvRemoveAll folder ok ∈ w_trace w')) w.
Proof.
  eapply wp_seq; [apply (wp_docker_loop env nets (fun n => NetworkDisconnect n cid true))|].
  intros u w1 [O1 C1]. apply wp_bind, wp_bind. eapply wp_mono; [apply wp_docker|].
  intros r2 w2 [O2 T2]. apply wp_ret, wp_bind, wp_bind. eapply wp_mono; [apply wp_docker|].
  intros r3 w3 [O3 T3]. apply wp_ret.
  assert (outside w w3) as O by (by rewrite O1, O2).
  assert (calls w (removal_calls cid nets) w3) as C.
  { eapply calls_trans; [exact C1|]. apply (calls_trans _ [_] w2); by eapply calls_one. }
  destruct removeFolder.
  - apply wp_bind, wp_bind. eapply wp_mono; [apply wp_remove_all|]. intros r4 w4 [O4 T4].
    apply wp_ret, wp_ret. split; [done|]. split; [by rewrite O|]. split.
    + unfold removal_calls in *. destruct C as (tr & E & Hc).
      exists (tr ++ [EvRemoveAll folder (is_ok r4)]). rewrite T4, E, docker_calls_app, Hc, app_assoc.
      split; [done|]. by rewrite app_nil_r.
    + intros _. exists (is_ok r4). rewrite T4. set_solver.
  - apply wp_ret. by split.
Qed.

Definition remove_post (w : World) (projectID : string) (removeFolder : bool) (r : result unit)
    (w' : World) : Prop :=
  match r with
  | Ok _ => exists info i row nets, found (w_db w) projectID info i row /\
      after_tx w (without_container i (w_db w)) w' /\
      (nets = [] \/ exists c, (exec c (SelectDockerNetIds projectID) (w_db w)).1 = Ok nets) /\
      calls w (removal_calls (c_container_id row) nets) w' /\
      (removeFolder = true -> exists ok, EvRemoveAll (c_folder_path row) ok ∈ w_trace w')
  | Err _ => after_tx w (w_db w) w' /\ w_trace w' = w_trace w
  end.

Lemma wp_remove projectID removeFolder w : world_ok w ->
  wp env (RemoveContainer projectID removeFolder) (remove_post w projectID removeFolder) w.
Proof.
  intros Hok. eapply wp_seq; [by apply wp_begin|]. intros [t|e] w1 [T1 H1]; [|by apply wp_ret].
  assert (w_txs w !! t = None) as Hfresh by apply H1.
  eapply wp_defer with (P := fun r w' => match r with
    | Ok _ => remove_post w projectID removeFolder r w'
    | Err _ => pending w t w' /\ w_trace w' = w_trace w end).
  - eapply wp_find_tx; [done| |]; rewrite <- T1; [|by eauto using in_tx_pending].
    intros info i row w2 Hf H2 T2. pose proof Hf as (Hi & Hrow & Hs).
    destruct (scan_container_Ok _ _ _ Hs) as (Hc & _ & _ & _ & Hp & _). rewrite Hc, Hp.
    eapply wp_seq; [apply wp_container_networks_of|]. intros nets w3 (O3 & T3 & Hn).
    rewrite (it_db _ _ _ _ H2) in Hn. pose proof (in_tx_outside _ _ _ _ _ O3 H2) as H3.
    eapply wp_seq; [by eapply wp_delete_tx|]. intros [u|e] w4 [T4 H4].
    2:{ destruct H4. apply wp_ret. split; [by eauto using in_tx_pending|congruence]. }
    eapply wp_seq; [by eapply wp_commit|]. intros [[]|e] w5 [T5 H5].
    2:{ apply wp_ret. split; [by split; [|right]|congruence]. }
    destruct H5 as (db & [= <-] & H5). eapply wp_mono; [apply wp_removal|].
    intros r w6 (-> & O6 & C6 & F6). exists info, i, row, nets. split; [done|].
    split; [by eapply after_tx_outside|]. split; [done|]. split; [|done].
    eapply (calls_trans _ []); [|exact C6]. apply calls_same. congruence.
  - intros [[]|e] w2 H2.
    + destruct H2 as (info & i & row & nets & H & Ha & Hn & (tr & Htr) & HF).
      eapply wp_mono; [by apply wp_rollback_done|]. intros u w3 [T3 H3].
      exists info, i, row, nets. unfold calls. rewrite T3. eauto 10.
    + destruct H2 as [H2 T2]. eapply wp_mono; [by apply wp_rollback_pending|].
      intros u w3 [T3 H3]. split; [done|]. congruence.
Qed.
End Manager.
