(* ===== verification/UsersProps.v ===== *)
(** UsersProps: the properties of the accounts. *)

From S2P Require Import Fixtures.
From S2P Require Export Users ManagerFacts.

Open Scope prog_scope.

Section Properties.
Context {PG : Postgres} {JL : JwtLib} {BC : Bcrypt} {VL : ValidatorLib} (env : Env).
Context (secretKey : string) (mailer : Mailer) (baseURL : string).

Ltac walk := repeat (cbv beta; effs_step).

(** ** Login *)

Lemma issue_reads name email id : all_effs read_eff (issueTokenPair secretKey name email id).
Proof. unfold issueTokenPair, CreateToken, CreateRefreshToken. walk. Qed.

Lemma login_reads req : all_effs read_eff (login_as secretKey req).
Proof.
  unfold login_as, GetUserByEmailWithPassword, on_ok.
  repeat (cbv beta; first [exact (issue_reads _ _ _) | effs_step]).
Qed.

(** The row a lookup by address finds. *)
Lemma select_by_email c email db k r :
  wf_db db -> users db !! k = Some r -> u_email r = Some email ->
  (exec c (SelectUserByEmail email) db).1 = Ok (k, r).
Proof.
  intros Hwf Hk He. simpl. apply tfirst_unique; [done|by apply bool_decide_eq_true|].
  intros k' r' Hk' He'%bool_decide_eq_true. by eapply (wf_users_email _ Hwf).
Qed.

Lemma select_by_email_none c email db :
  (forall k r, users db !! k = Some r -> u_email r <> Some email) ->
  (exec c (SelectUserByEmail email) db).1 = Err ErrNoRows.
Proof.
  intros Hn. simpl. apply tfirst_None. intros k r Hk. apply bool_decide_eq_false. by eapply Hn.
Qed.

Lemma run_pool_up_bind {A} s (f : ans (ESql Pool s) -> Prog A) w :
  sql_up env -> read_only s = true ->
  exists w1, reads w w1 /\ w_tick w1 = S (w_tick w) /\
    run env (bind (perform (ESql Pool s)) f) w =
    run env (f (exec (sql_ctx env w) s (w_db w)).1) w1.
Proof.
  intros Hup Hs. eexists. rewrite run_bind, run_perform, run_pool_up by done.
  split; [|split; [|reflexivity]]; [|done].
  rewrite (read_only_exec _ _ _ Hs). by split; [split|].
Qed.

(** C15: [Login] changes nothing, and with the database up it decides as
    follows.  An unknown address and a wrong password get the same reply; the
    right password of an unverified account gets 403; the right password of a
    verified account gets a token pair signed for that account. *)
Theorem Login_decision rq req w :
  sql_up env -> wf_db (w_db w) -> rq_Method rq = "POST" ->
  decode_body rq {| lr_Email := ""; lr_Password := "" |} dec_LoginRequest = Ok req ->
  Validate (login_fields req) = Ok tt ->
  let rp := (run env (Login secretKey rq) w).1 in
  reads w (run env (Login secretKey rq) w).2 /\
  ((forall k r, users (w_db w) !! k = Some r -> u_email r <> Some (lr_Email req)) ->
     rp = invalid_credentials) /\
  (forall k r name hash, users (w_db w) !! k = Some r -> u_email r = Some (lr_Email req) ->
     u_name r = Some name -> u_password_hash r = Some hash ->
     match CompareHashAndPassword hash (lr_Password req), u_email_verified_at r with
     | Err _, _ => rp = invalid_credentials
     | Ok _, None => rp = RespondError "email_not_verified" StatusForbidden
     | Ok _, Some _ =>
         match SignedString secretKey (access_claims name (lr_Email req) (bigint_text k)
                                         (e_now env (1 + w_tick w))),
               SignedString secretKey (refresh_claims (bigint_text k) (e_now env (2 + w_tick w))) with
         | Ok access, Ok refresh =>
             rp = success (json_AuthTokenResponse
                             {| at_AccessToken := access; at_RefreshToken := refresh |}) StatusOK
         | _, _ => rp = internal_server_error
         end
     end).
Proof.
  intros Hup Hwf Hm Hd Hv. unfold Login, require_method, on_ok.
  rewrite Hm, bool_decide_eq_false_2, Hd, Hv by congruence.
  split; [apply run_reads, login_reads|].
  unfold login_as, GetUserByEmailWithPassword.
  rewrite run_bind.
  destruct (run_pool_up_bind (SelectUserByEmail (lr_Email req))
    (fun r => Ret (map_no_rows UserNotFound (result_bind r (scan_user true)))) w Hup eq_refl)
    as (w1 & _ & Ht & ->).
  split.
  - intros Hn. by rewrite select_by_email_none.
  - intros k r name hash Hk He Hna Hh. rewrite (select_by_email _ _ _ k r) by done.
    cbn [run result_bind]. unfold scan_user. cbn [snd fst]. rewrite Hna, He, Hh. cbn.
    unfold VerifyPassword.
    destruct (CompareHashAndPassword hash (lr_Password req)) as [[]|]; [|done]. cbn.
    destruct (u_email_verified_at r) as [t|].
    + rewrite bool_decide_eq_true_2 by by eexists. cbn. rewrite Ht.
      destruct (SignedString _ (access_claims _ _ _ _)); cbn; [|done]. rewrite Ht. cbn.
      by destruct (SignedString _ (refresh_claims _ _)).
    + by rewrite bool_decide_eq_false_2 by apply is_Some_None.
Qed.

(** ** Registration *)

Definition registered (name email hash : string) : user_row :=
  {| u_name := Some name; u_email := Some email; u_password_hash := Some hash;
     u_email_verified_at := None; u_plan_id := "free"; u_role := "user" |}.

(** One row more, under a fresh key. *)
Definition user_added (i : Z) (row : user_row) (db db' : DB) : Prop :=
  users db !! i = None /\ (forall k r, users db !! k = Some r -> u_email r <> u_email row) /\
  db' = set_users (<[i := row]> (users db)) db.

Lemma insert_user_ok c name email hash db id db' :
  exec c (InsertUser name email hash) db = (Ok id, db') ->
  exists i, id = bigint_text i /\ user_added i (registered name email hash) db db'.
Proof.
  simpl. unfold sql_insert_user, reject. repeat case_scrut; try done. intros [= <- <-].
  eexists. split; [reflexivity|]. split; [|split; [|reflexivity]].
  - unfold live in *. by destruct (users db !! ctx_user_id c).
  - match goal with H : tany _ _ = false |- _ => rewrite tany_false in H; rename H into Hn end.
    intros k r Hk He. specialize (Hn k r Hk). simpl in *. by rewrite bool_decide_eq_false in Hn.
Qed.

Lemma after_tx_shift w w1 db w2 : outside w w1 -> after_tx w1 db w2 -> after_tx w db w2.
Proof. intros [] []. split; congruence. Qed.

Lemma wp_create_user name email hash w : world_ok w ->
  wp env (CreateUser name email hash) (fun r w' => w_trace w' = w_trace w /\
    match r with
    | Ok id => exists i db, id = bigint_text i /\ after_tx w db w' /\
        user_added i (registered name email hash) (w_db w) db
    | Err _ => after_tx w (w_db w) w'
    end) w.
Proof.
  intros Hok. eapply wp_seq; [by apply wp_begin|]. intros [t|e] w1 [T1 H1]; [|by apply wp_ret].
  eapply wp_mono.
  { eapply (wp_tx_defer _ _ w t _
      (fun id db tr => tr = w_trace w /\ exists i, id = bigint_text i /\
         user_added i (registered name email hash) (w_db w) db)
      (fun _ tr => tr = w_trace w)); [apply H1|].
    eapply wp_seq; [unfold repo_CreateUser; by wp_tx_call|]. intros [id|e] w2 [T2 H2].
    2:{ destruct H2 as [v H2]. apply wp_ret. split; [eauto with host|congruence]. }
    destruct H2 as (db & [= <-] & Hx & H2).
    destruct (exec _ (InsertUser _ _ _) _) as [r' db'] eqn:Hi in Hx, H2. simpl in Hx. subst r'.
    apply insert_user_ok in Hi as (i & -> & Hadd).
    eapply wp_seq; [by eapply wp_commit|]. intros [[]|e] w3 [T3 H3]; apply wp_ret.
    - destruct H3 as (db3 & [= <-] & H3). exists db'. split; [done|]. split; [congruence|]. by exists i.
    - split; [split; [apply H1|by right]|congruence]. }
  intros [id|e] w2 H2.
  - destruct H2 as (db & H2 & T2 & i & -> & Hadd). split; [done|]. by exists i, db.
  - by destruct H2.
Qed.

Lemma wp_hash_password pw w :
  wp env (HashPassword pw) (fun r w' => reads w w' /\
    match r with Ok h => exists salt, GenerateFromPassword salt pw = Ok h | Err _ => True end) w.
Proof.
  unfold HashPassword. apply wp_intro. rewrite run_bind, run_perform. cbn [run_eff].
  destruct (e_rand env (w_tick w)) as [salt|e]; cbn; (split; [by split; [split|]|]); [|done].
  destruct (GenerateFromPassword _ pw) eqn:E; [by eexists|done].
Qed.

(** What [Register] has done when it returns. *)
Definition register_post (rq : Request) (w : World) (s : Served) (w' : World) : Prop :=
  w_trace w' = w_trace w /\
  match s.2 with
  | None => 400 <= rp_Status s.1 /\ after_tx w (w_db w) w'
  | Some g => rp_Status s.1 = StatusCreated /\ exists req i hash salt db,
      decode_body rq {| rr_Name := ""; rr_Email := ""; rr_Password := "" |} dec_RegisterRequest = Ok req /\
      Validate (register_fields req) = Ok tt /\ GenerateFromPassword salt (rr_Password req) = Ok hash /\
      g = register_mail mailer baseURL req /\ after_tx w db w' /\
      user_added i (registered (rr_Name req) (rr_Email req) hash) (w_db w) db
  end.

Lemma refused rq w w' rp :
  400 <= rp_Status rp -> outside w w' -> w_trace w' = w_trace w -> register_post rq w (rp, None) w'.
Proof. intros Hs [O1 O2 O3 O4] T. split; [done|]. split; [done|]. by split. Qed.

Lemma wp_register rq w : world_ok w -> wp env (Register mailer baseURL rq) (register_post rq w) w.
Proof.
  intros Hok. unfold Register. case_bool_decide; [by apply wp_ret, refused|].
  destruct (decode_body _ _ _) as [req|e] eqn:Hd; [|by apply wp_ret, refused].
  destruct (Validate (register_fields req)) as [[]|e] eqn:Hv; [|by apply wp_ret, refused].
  eapply wp_seq; [apply wp_hash_password|]. intros [hash|e] w1 [[O1 T1] H1].
  2:{ by apply wp_ret, refused. }
  destruct H1 as [salt Hs].
  eapply wp_seq; [by apply wp_create_user, (outside_ok w)|]. intros [id|e] w2 [T2 H2]; apply wp_ret.
  - destruct H2 as (i & db & _ & H2 & Hadd). rewrite (out_db _ _ O1) in Hadd.
    split; [simpl; congruence|]. split; [done|]. exists req, i, hash, salt, db.
    do 4 (split; [done|]). split; [by eapply after_tx_shift|exact Hadd].
  - split; [simpl; congruence|]. split; [done|]. rewrite (out_db _ _ O1) in H2.
    by eapply after_tx_shift.
Qed.

(** C16: [Register] either refuses, with the tables and the outside world
    untouched and no mail to come, or answers 201 after adding exactly one
    account: a fresh key, an address nobody has, the bcrypt hash of the
    password, unverified, on the free plan, an ordinary user; the goroutine
    it starts is the one that mails the link. *)
Theorem Register_outcome rq w s w' :
  world_ok w -> run env (Register mailer baseURL rq) w = (s, w') -> register_post rq w s w'.
Proof. intros Hok Hr. apply (wp_run _ _ _ _ _ _ (wp_register rq w Hok) Hr). Qed.

(** ** Deletion *)

(** The tables without the user [i] and everything that refers to it. *)
Definition user_removed (i : Z) (db db' : DB) : Prop :=
  is_Some (users db !! i) /\ users db' = delete i (users db) /\
  containers db' = filter (fun kr => c_user_id kr.2 <> i) (containers db) /\
  email_tokens db' = filter (fun kr => t_user_id kr.2 <> i) (email_tokens db) /\
  notifications db' = filter (fun kr => n_user_id kr.2 <> i) (notifications db) /\
  api_keys db' = filter (fun kr => k_user_id kr.2 <> i) (api_keys db) /\
  networks db' = filter (fun kr => nt_user_id kr.2 <> i) (networks db) /\
  audit_log db' = filter (fun kr => a_user_id kr.2 <> i) (audit_log db) /\
  plans db' = plans db /\ templates db' = templates db /\ images db' = images db.

(** In a table whose rows refer to existing users, the rows a deletion of
    [i] orphans are those of [i]. *)
Lemma orphans {K R} `{Countable K} (get : R -> Z) (t : gmap K R) (us : gmap Z user_row) i :
  fk get t us ->
  tdelete (fun _ r => negb (live (delete i us) (get r))) t = filter (fun kr => get kr.2 <> i) t.
Proof.
  intros Hfk. apply map_eq. intros k. destruct (t !! k) as [r|] eqn:E.
  - unfold live. destruct (decide (get r = i)) as [Hi|Hi].
    + transitivity (@None R).
      * apply lookup_tdelete_None. right. exists r. by rewrite Hi, lookup_delete_eq.
      * symmetry. apply map_lookup_filter_None. right. intros r' Hr'. simpl.
        by assert (r' = r) as -> by congruence; intros Hn.
    + transitivity (Some r).
      * apply lookup_tdelete_Some. split; [done|]. rewrite lookup_delete_ne by congruence.
        by destruct (Hfk _ _ E) as [u ->].
      * symmetry. by apply map_lookup_filter_Some.
  - transitivity (@None R); [by apply lookup_tdelete_None; left|].
    symmetry. apply map_lookup_filter_None. by left.
Qed.

Lemma all_live {K R} `{Countable K} (get : R -> Z) (t : gmap K R) (us : gmap Z user_row) :
  fk get t us -> tdelete (fun _ r => negb (live us (get r))) t = t.
Proof.
  intros Hfk. apply map_eq. intros k. destruct (t !! k) as [r|] eqn:E.
  - apply lookup_tdelete_Some. split; [done|]. by apply negb_false_iff, live_true, (Hfk _ _ E).
  - apply lookup_tdelete_None. by left.
Qed.

Lemma filter_tdelete {K R} `{Countable K} (get : R -> Z) (t : gmap K R) i :
  filter (fun kr => get kr.2 <> i) (tdelete (fun _ r => bool_decide (get r = i)) t)
  = filter (fun kr => get kr.2 <> i) t.
Proof.
  apply map_eq. intros k. apply option_eq. intros r.
  rewrite !map_lookup_filter_Some, lookup_tdelete_Some, bool_decide_eq_false. simpl. tauto.
Qed.

Lemma delete_user_ok c1 c2 id i db :
  wf_db db -> to_bigint id = Some i ->
  let db1 := (exec c1 (DeleteContainersOfUser id) db).2 in
  let x := exec c2 (DeleteUserRow id) db1 in
  (exists n, x.1 = Ok n /\ (n = 0%nat <-> users db !! i = None)) /\
  (is_Some (users db !! i) -> user_removed i db x.2).
Proof.
  intros Hwf Hi db1 x.
  pose proof (exec_wf c1 (DeleteContainersOfUser id) db Hwf) as Hwf1. fold db1 in Hwf1.
  assert (db1 = cascade (set_containers
            (tdelete (fun _ r => bool_decide (c_user_id r = i)) (containers db)) db)) as E1.
  { unfold db1. simpl. unfold sql_delete_containers_of_user, with_bigint. by rewrite Hi. }
  assert (x = (Ok (tcount (fun k (_ : user_row) => bool_decide (k = i)) (users db1)),
               cascade (set_users (delete i (users db1)) db1))) as ->.
  { unfold x. simpl. unfold sql_delete_user, with_bigint. by rewrite Hi, tdelete_key. }
  assert (users db1 = users db) as Eu by by rewrite E1.
  simpl. rewrite Eu. split.
  - eexists. split; [reflexivity|]. rewrite tcount_zero. split.
    + intros Hn. destruct (users db !! i) as [r|] eqn:E; [|done].
      by apply Hn, bool_decide_eq_false in E.
    + intros Hn k r Hk. apply bool_decide_eq_false. congruence.
  - intros Hu. pose proof (wf_containers_user _ Hwf1) as Hc1. rewrite Eu in Hc1.
    pose proof Hwf as [].
    assert (email_tokens db1 = email_tokens db /\ notifications db1 = notifications db /\
            api_keys db1 = api_keys db /\ networks db1 = networks db /\ audit_log db1 = audit_log db /\
            containers db1 = tdelete (fun _ r => bool_decide (c_user_id r = i)) (containers db))
      as (Et & En & Ek & Ew & Ea & Ec).
    { rewrite E1. simpl. rewrite !all_live by auto with wf. done. }
    split; [done|]. split; [done|]. simpl. rewrite Et, En, Ek, Ew, Ea.
    rewrite !orphans by done. rewrite Ec, filter_tdelete. do 6 (split; [done|]). by rewrite E1.
Qed.

Lemma wp_delete_user id w : world_ok w ->
  wp env (DeleteUser id) (fun r w' => w_trace w' = w_trace w /\
    match r with
    | Ok _ => exists i db, to_bigint id = Some i /\ after_tx w db w' /\ user_removed i (w_db w) db
    | Err _ => after_tx w (w_db w) w'
    end) w.
Proof.
  intros Hok. eapply wp_seq; [by apply wp_begin|]. intros [t|e] w1 [T1 H1]; [|by apply wp_ret].
  eapply wp_mono.
  { eapply (wp_tx_defer _ _ w t _
      (fun _ db tr => tr = w_trace w /\ exists i, to_bigint id = Some i /\ user_removed i (w_db w) db)
      (fun _ tr => tr = w_trace w)); [apply H1|].
    eapply (wp_seq _ _ _ (fun r w2 => w_trace w2 = w_trace w /\
      match r with
      | Ok _ => exists i db, to_bigint id = Some i /\ user_removed i (w_db w) db /\ in_tx w t (Some db) w2
      | Err _ => exists v, in_tx w t v w2
      end)).
    - eapply wp_seq; [by wp_tx_call|]. intros [n|e] w2 [T2 H2].
      2:{ destruct H2 as [v H2]. apply wp_ret. split; [congruence|by exists v]. }
      destruct H2 as (db & [= <-] & Hx2 & H2).
      eapply wp_seq; [by wp_tx_call|]. intros [m|e] w3 [T3 H3].
      2:{ destruct H3 as [v H3]. apply wp_ret. split; [congruence|by exists v]. }
      destruct H3 as (db & [= <-] & Hx & H3). apply wp_ret. split; [congruence|].
      destruct (to_bigint id) as [i|] eqn:Hi.
      2:{ exfalso. simpl in Hx2. unfold sql_delete_containers_of_user, with_bigint in Hx2.
          by rewrite Hi in Hx2. }
      destruct (delete_user_ok (sql_ctx env w1) (sql_ctx env w2) id i (w_db w) (ok_db _ Hok) Hi)
        as [(m' & Hm & Hz) Hrem].
      change (sql_delete_containers_of_user id (w_db w)).2
        with (exec (sql_ctx env w1) (DeleteContainersOfUser id) (w_db w)).2 in Hx, H3.
      rewrite Hm in Hx. injection Hx as ->.
      destruct (Nat.eqb_spec m 0) as [->|Hne]; [by eexists|].
      exists i. eexists. split; [done|]. split; [|exact H3]. apply Hrem.
      destruct (users (w_db w) !! i) eqn:E; [by eexists|]. by destruct Hne; apply Hz.
    - intros [[]|e] w2 [T2 H2].
      2:{ destruct H2 as [v H2]. apply wp_ret. split; [eauto with host|done]. }
      destruct H2 as (i & db & Hi & Hrem & H2).
      eapply wp_mono; [by eapply wp_commit|]. intros [[]|e] w3 [T3 H3].
      + destruct H3 as (db3 & [= <-] & H3). exists db. split; [done|]. split; [congruence|]. by exists i.
      + split; [split; [apply H2|by right]|congruence]. }
  intros [[]|e] w2 H2.
  - destruct H2 as (db & H2 & T2 & i & Hi & Hrem). split; [done|]. by exists i, db.
  - by destruct H2.
Qed.

(** C18: [DeleteUser] either leaves the tables as they were or removes exactly
    the user's row and every row of every table that refers to it, and no
    other user's; either way it makes no call to Docker and touches no folder,
    so the containers and project folders of a deleted user stay behind. *)
Theorem DeleteUser_complete id w r w' :
  world_ok w -> run env (DeleteUser id) w = (r, w') ->
  w_trace w' = w_trace w /\
  match r with
  | Ok _ => exists i, to_bigint id = Some i /\ user_removed i (w_db w) (w_db w')
  | Err _ => w_db w' = w_db w
  end.
Proof.
  intros Hok Hr. destruct (wp_run _ _ _ _ _ _ (wp_delete_user id w Hok) Hr) as [T H].
  split; [done|]. destruct r as [[]|e]; [|apply H].
  destruct H as (i & db & Hi & Hat & Hrem). exists i. by rewrite (at_db _ _ _ Hat).
Qed.

(** ** Links: the token that is mailed is the one that works *)

(** What a successful [Consume] found and did. *)
Definition consumed_post (raw ty : string) (w : World) (rec : TokenRecord) (w' : World) : Prop :=
  exists k tok tokens, email_tokens (w_db w) !! k = Some tok /\ rec = scan_token (k, tok) /\
    t_token_hash tok = HashToken raw /\ t_type tok = ty /\ t_used_at tok = None /\
    w_db w' = set_email_tokens tokens (w_db w) /\ token_dead (HashToken raw) (w_db w').

Lemma wp_consume raw ty w : world_ok w ->
  wp env (Consume raw ty) (fun r w' => w_trace w' = w_trace w /\ world_ok w' /\
    match r with
    | Ok rec => consumed_post raw ty w rec w'
    | Err _ => w_db w' = w_db w
    end) w.
Proof.
  intros Hok. apply wp_intro. unfold Consume. rewrite run_bind, run_perform.
  set (s := ConsumeToken (HashToken raw) ty).
  pose proof (run_eff_ok env (ESql Pool s) w Hok) as Hok'.
  assert (w_trace (run_eff env (ESql Pool s) w).2 = w_trace w) as T.
  { unfold run_eff, run_sql. destruct (e_sql env (w_tick w)); [done|].
    by destruct (exec (sql_ctx env w) s (w_db w)). }
  pose proof (run_eff_pool_db env s w) as Hdb.
  destruct (run_eff env (ESql Pool s) w) as [r w1]. cbn [fst snd run] in *.
  split; [done|]. split; [done|]. destruct Hdb as [[[e ->] ->]|[-> Hd]]; [done|].
  destruct (exec (sql_ctx env w) s (w_db w)).1 as [[k tok']|e] eqn:E; cbn [result_map].
  2:{ by rewrite Hd, (exec_err _ _ _ _ E). }
  pose proof (consume_kills _ _ _ _ _ (ok_db _ Hok) E) as Hdead. fold s in Hdead.
  simpl in E. destruct (tfirst _ _) as [[k0 tok]|] eqn:Hf; [|done]. injection E as -> <-.
  apply tfirst_Ok in Hf as [Hk Hc]. apply consumable_hash in Hc as (H1 & H2 & H3 & _).
  exists k, tok. eexists. do 5 (split; [done|]). rewrite Hd. split; [reflexivity|exact Hdead].
Qed.

Lemma wp_pool_write s w : world_ok w ->
  wp env (perform (ESql Pool s)) (fun r w' => w_trace w' = w_trace w /\ world_ok w' /\
    match r with
    | Ok x => exists c, exec c s (w_db w) = (Ok x, w_db w')
    | Err _ => w_db w' = w_db w
    end) w.
Proof.
  intros Hok. apply wp_intro. rewrite run_perform.
  pose proof (run_eff_ok env (ESql Pool s) w Hok) as Hok'.
  unfold run_eff, run_sql in *. destruct (e_sql env (w_tick w)); [by split|].
  destruct (exec (sql_ctx env w) s (w_db w)) as [r db] eqn:E. cbn [fst snd] in *.
  split; [done|]. split; [done|]. destruct r as [x|e]; [by exists (sql_ctx env w)|].
  pose proof (exec_err (sql_ctx env w) s (w_db w) e) as He. rewrite E in He. by apply He.
Qed.

(** What [ResetPassword] has done when it returns. *)
Definition reset_post (req : ResetRequest) (w : World) (rp : Reply) (w' : World) : Prop :=
  w_trace w' = w_trace w /\
  ((rp_Status rp = StatusOK /\ exists k tok tokens row hash,
      email_tokens (w_db w) !! k = Some tok /\ t_token_hash tok = HashToken (rs_Token req) /\
      t_type tok = "password_reset" /\ t_used_at tok = None /\
      users (w_db w) !! t_user_id tok = Some row /\
      w_db w' = set_users (<[t_user_id tok := set_u_password_hash (Some hash) row]> (users (w_db w)))
                  (set_email_tokens tokens (w_db w)) /\
      token_dead (HashToken (rs_Token req)) (w_db w') /\
      VerifyPassword hash (rs_NewPassword req) = Ok tt) \/
   (400 <= rp_Status rp /\ users (w_db w') = users (w_db w) /\
    (w_db w' = w_db w \/ token_dead (HashToken (rs_Token req)) (w_db w')))).

Lemma reset_failed req w rp w' :
  w_trace w' = w_trace w -> 400 <= rp_Status rp ->
  w_db w' = w_db w \/ (users (w_db w') = users (w_db w) /\ token_dead (HashToken (rs_Token req)) (w_db w')) ->
  reset_post req w rp w'.
Proof.
  intros T S [E|[E D]]; (split; [done|]); right; (split; [done|]).
  - split; [by rewrite E|by left].
  - split; [done|by right].
Qed.

Lemma wp_reset req w : world_ok w -> wp env (reset_password req) (reset_post req w) w.
Proof.
  intros Hok. eapply wp_seq; [by apply wp_consume|]. intros [rec|e] w1 (T1 & Hok1 & H1).
  2:{ unfold on_ok. case_bool_decide; apply wp_ret; (apply reset_failed; [done..|by left]). }
  destruct H1 as (k & tok & tokens & Hk & -> & Hh & Ht & Hu & Hdb & Hd).
  assert (users (w_db w1) = users (w_db w)) as Eu by by rewrite Hdb.
  unfold on_ok. eapply wp_seq; [apply wp_hash_password|]. intros [hash|e] w2 [[O2 T2] H2].
  2:{ apply wp_ret, reset_failed; [congruence|done|]. right. by rewrite (out_db _ _ O2). }
  destruct H2 as [salt Hs].
  eapply wp_seq; [by apply wp_pool_write, (outside_ok w1)|]. intros [n|e] w3 (T3 & Hok3 & H3).
  2:{ apply wp_ret, reset_failed; [congruence|done|]. right. by rewrite H3, (out_db _ _ O2). }
  destruct H3 as [c H3]. rewrite (out_db _ _ O2) in H3. simpl in H3. unfold sql_set_password, update_user in H3.
  injection H3 as _ H3. apply wp_ret. split; [congruence|]. left. split; [done|].
  destruct (wf_tokens_user _ (ok_db _ Hok) _ _ Hk) as [row Hrow].
  exists k, tok, tokens, row, hash. rewrite Eu, (tupdate_key _ _ _ row Hrow), Hdb in H3.
  do 5 (split; [done|]). split; [by rewrite <- H3|].
  split; [|by eapply Compare_generated].
  intros k' r. rewrite <- H3. simpl. intros Hk' Hh'. apply (Hd k' r); [|done]. by rewrite Hdb.
Qed.

(** C17: [ResetPassword] changes a password only for a request with an unused
    reset token: then exactly the token's user gets a hash that the new
    password satisfies, and the token can never be used again.  When it
    answers an error no account has changed; the token may be spent all the
    same, since it is consumed before the password is hashed. *)
Theorem ResetPassword_outcome rq req w rp w' :
  world_ok w -> rq_Method rq = "POST" ->
  decode_body rq {| rs_Token := ""; rs_NewPassword := "" |} dec_ResetRequest = Ok req ->
  Validate (reset_fields req) = Ok tt ->
  run env (ResetPassword rq) w = (rp, w') -> reset_post req w rp w'.
Proof.
  intros Hok Hm Hd Hv Hr. unfold ResetPassword, require_method, on_ok in Hr.
  rewrite Hm, bool_decide_eq_false_2, Hd, Hv in Hr by congruence.
  apply (wp_run _ _ _ _ _ _ (wp_reset req w Hok) Hr).
Qed.

(** A consumption that the server refuses for no reason of its own. *)
Lemma run_VerifyEmail rq raw w k tok row :
  sql_up env -> wf_db (w_db w) -> rq_Method rq = "POST" ->
  decode_body rq "" (dec_one "token") = Ok raw -> Validate [("Token", "required", raw)] = Ok tt ->
  email_tokens (w_db w) !! k = Some tok -> t_token_hash tok = HashToken raw ->
  t_type tok = "email_verification" -> t_used_at tok = None -> e_now env (w_tick w) < t_expires_at tok ->
  users (w_db w) !! t_user_id tok = Some row ->
  (run env (VerifyEmail rq) w).1 = success (JStr "email verified") StatusOK /\
  users (w_db (run env (VerifyEmail rq) w).2) !! t_user_id tok
    = Some (set_u_email_verified_at (Some (e_now env (1 + w_tick w))) row).
Proof.
  intros Hup Hwf Hm Hd Hv Hk Hh Ht Hu Hx Hrow. unfold VerifyEmail, require_method, on_ok.
  rewrite Hm, bool_decide_eq_false_2, Hd, Hv by congruence.
  unfold Consume. rewrite run_bind, run_bind, run_perform, run_pool_up by done.
  rewrite <- Hh, <- Ht, (token_live k tok (sql_ctx env w)) by done. cbn [run result_map scan_token snd].
  rewrite run_bind, run_perform, run_pool_up by done. cbn [run fst snd tk_UserID].
  simpl. split; [done|]. rewrite lookup_tupdate, Hrow. simpl. by rewrite bool_decide_eq_true_2.
Qed.

Lemma run_GetUserByEmail email w k r name :
  sql_up env -> wf_db (w_db w) -> users (w_db w) !! k = Some r -> u_email r = Some email ->
  u_name r = Some name ->
  exists w1 user, run env (GetUserByEmail Pool email) w = (Ok user, w1) /\ reads w w1 /\
    w_tick w1 = S (w_tick w) /\ IDInt user = k /\ us_Email user = email /\ us_Name user = name /\
    us_EmailVerified user = bool_decide (is_Some (u_email_verified_at r)).
Proof.
  intros Hup Hwf Hk He Hn. unfold GetUserByEmail.
  destruct (run_pool_up_bind (SelectUserByEmail email)
    (fun r => Ret (map_no_rows UserNotFound (result_bind r (scan_user false)))) w Hup eq_refl)
    as (w1 & Hr & Ht & ->).
  rewrite (select_by_email _ _ _ k r) by done. cbn [result_bind]. unfold scan_user. cbn [fst snd].
  rewrite Hn, He. cbn. eexists w1, _. split; [reflexivity|]. split; [done|]. split; [done|].
  split; [|done]. unfold IDInt. cbn. destruct (wf_users_key _ Hwf _ _ Hk).
  by rewrite bigint_text_decimal, Atoi_itoa by lia.
Qed.

Lemma run_create_trace uid ty ttl w : w_trace (run env (Create uid ty ttl) w).2 = w_trace w.
Proof.
  unfold Create, GenerateRawToken. rewrite !run_bind, run_perform. cbn [run_eff].
  destruct (e_rand env (w_tick w)) as [b|err]; cbn [result_map run]; [|done].
  assert (forall s w0, w_trace (run_eff env (ESql Pool s) w0).2 = w_trace w0) as Hs.
  { intros s w0. unfold run_eff, run_sql. destruct (e_sql env (w_tick w0)); [done|].
    by destruct (exec (sql_ctx env w0) s (w_db w0)). }
  rewrite run_bind, run_perform.
  pose proof (Hs (InvalidateTokens uid ty) (tick w)) as H1.
  destruct (run_eff env (ESql Pool (InvalidateTokens uid ty)) (tick w)) as [r1 w1].
  rewrite run_bind, run_perform. cbn [run_eff]. rewrite run_bind, run_perform.
  match goal with |- context [run_eff env (ESql Pool ?s) ?w0] =>
    pose proof (Hs s w0) as H2; destruct (run_eff env (ESql Pool s) w0) as [r2 w2] end.
  cbn [fst snd] in *. destruct r2; cbn [run snd]; (etransitivity; [exact H2|exact H1]).
Qed.

Definition verification_subject : string := "Verify your Docker Wrapper account".


(** Nobody learns from [ForgotPassword] or [ResendVerification] whether an
    address has an account: for a request that decodes, the reply is the same
    whatever the address, the tables and the environment, and the handler
    itself does nothing; the lookup happens in the goroutine. *)
Theorem forgot_password_reveals_nothing rq email :
  rq_Method rq = "POST" -> decode_body rq "" (dec_one "email") = Ok email ->
  forall e w,
  run e (ForgotPassword mailer baseURL rq) w =
    ((success (JStr "if that email exists, a reset link was sent") StatusOK,
      Some (reset_mail mailer baseURL email)), w) /\
  run e (ResendVerification mailer baseURL rq) w =
    ((success (JStr "if that email exists and is unverified, a new link was sent") StatusOK,
      Some (resend_mail mailer baseURL email)), w).
Proof.
  intros Hm Hd e w. unfold ForgotPassword, ResendVerification.
  by rewrite Hm, bool_decide_eq_false_2, Hd by congruence.
Qed.
End Properties.

(** ** Concrete accounts *)

(** A [bcrypt] that keeps the password behind a dollar sign and, like the real
    one, refuses more than 72 bytes. *)
#[export, refine] Instance clear_bcrypt : Bcrypt := {
  GenerateFromPassword := fun _ password =>
    if (72 <? String.length password)%nat then Err (ErrText "password length exceeds 72 bytes")
    else Ok (String "$" password);
  CompareHashAndPassword := fun hash password =>
    if bool_decide (hash = String "$" password) then Ok tt else Err (ErrText "mismatch");
}.
Proof.
  intros salt password hash. case_match; [done|]. intros [= <-]. by rewrite bool_decide_eq_true_2.
Defined.

(** A validator that knows the tag [required]. *)
Definition field_ok (f : string * string * string) : bool :=
  negb (bool_decide ("required" ∈ Split ","%char f.1.2)) || negb (bool_decide (f.2 = "")).

#[export, refine] Instance required_validator : ValidatorLib := {
  Validate := fun fields => if forallb field_ok fields then Ok tt else Err (ErrText "required");
}.
Proof.
  intros fields name tags value. destruct (forallb field_ok fields) eqn:E; [|done]. intros _ Hin Hr ->.
  rewrite forallb_forall in E. pose proof (E (name, tags, "") (proj1 (list_elem_of_In _ _) Hin)) as Hf.
  unfold field_ok in Hf. simpl in Hf. by rewrite bool_decide_eq_true_2 in Hf.
Defined.

Definition login_request : Request :=
  request "POST" [] [] [] (Ok (JObj [("email", JStr "alice@example.org"); ("password", JStr "secret1")])).
Definition login_req : LoginRequest := {| lr_Email := "alice@example.org"; lr_Password := "secret1" |}.
Definition verified_world : World :=
  world_of (exec_all [(fixture_ctx 10 "", VerifyEmailRow 1); (fixture_ctx 11 "", SetPassword "$secret1" 1)]
              fixture_db).
Lemma verified_world_ok : world_ok verified_world.
Proof. apply world_of_ok, exec_all_wf, exec_all_wf, seed_db_wf. Qed.

Lemma Login_decision_witness :
  rp_Status (run env_ok (Login fixture_secret login_request) verified_world).1 = StatusOK /\
  reads verified_world (run env_ok (Login fixture_secret login_request) verified_world).2 /\
  (run env_ok (Login fixture_secret login_request) fixture_world).1 = invalid_credentials.
Proof.
  assert (decode_body login_request {| lr_Email := ""; lr_Password := "" |} dec_LoginRequest = Ok login_req)
    as Hd by (vm_compute; reflexivity).
  assert (Validate (login_fields login_req) = Ok tt) as Hv by (vm_compute; reflexivity).
  split; [vm_compute; reflexivity|]. split.
  - apply (Login_decision env_ok fixture_secret login_request login_req verified_world env_ok_up
      (ok_db _ verified_world_ok) eq_refl Hd Hv).
  - pose proof (Login_decision env_ok fixture_secret login_request login_req fixture_world env_ok_up
      (ok_db _ fixture_world_ok) eq_refl Hd Hv) as (_ & _ & H).
    exact (H 1 _ "alice" "hash-a" eq_refl eq_refl eq_refl eq_refl).
Defined.

Definition smtp_mailer : Mailer :=
  {| ml_host := "smtp.example.org"; ml_port := "587"; ml_user := ""; ml_password := "";
     ml_from := "noreply@example.org" |}.
Definition site : string := "https://app.example.org".
Definition register_request : Request :=
  request "POST" [] [] [] (Ok (JObj [("name", JStr "carol"); ("email", JStr "carol@example.org");
                                     ("password", JStr "long enough")])).

Lemma Register_outcome_witness :
  let c := run env_ok (Register smtp_mailer site register_request) fixture_world in
  rp_Status c.1.1 = StatusCreated /\ register_post smtp_mailer site register_request fixture_world c.1 c.2.
Proof.
  intros c. split; [vm_compute; reflexivity|].
  exact (Register_outcome env_ok smtp_mailer site register_request fixture_world c.1 c.2 fixture_world_ok
    (surjective_pairing c)).
Defined.

Lemma DeleteUser_complete_witness :
  let c := run env_ok (DeleteUser "1") fixture_world in
  c.1 = Ok tt /\ w_trace c.2 = [] /\ exists i, to_bigint "1" = Some i /\ user_removed i fixture_db (w_db c.2).
Proof.
  intros c. assert (c.1 = Ok tt) as Hc by (vm_compute; reflexivity). split; [exact Hc|].
  pose proof (DeleteUser_complete env_ok "1" fixture_world c.1 c.2 fixture_world_ok (surjective_pairing c))
    as [Ht H].
  split; [exact Ht|]. rewrite Hc in H. exact H.
Defined.

Definition reset_raw : string :=
  match (run env_ok (Create 1 "password_reset" Hour) fixture_world).1 with Ok raw => raw | Err _ => "" end.
Definition reset_world : World := (run env_ok (Create 1 "password_reset" Hour) fixture_world).2.
Definition reset_request (password : string) : Request :=
  request "POST" [] [] [] (Ok (JObj [("token", JStr reset_raw); ("new_password", JStr password)])).

Lemma ResetPassword_outcome_witness :
  let c := run env_ok (ResetPassword (reset_request "new secret")) reset_world in
  rp_Status c.1 = StatusOK /\
  reset_post {| rs_Token := reset_raw; rs_NewPassword := "new secret" |} reset_world c.1 c.2.
Proof.
  intros c. split; [vm_compute; reflexivity|].
  refine (ResetPassword_outcome env_ok (reset_request "new secret") _ reset_world c.1 c.2 _ eq_refl _ _
    (surjective_pairing c)).
  - apply (run_invariant env_ok world_ok (run_eff_ok env_ok)), fixture_world_ok.
  - vm_compute. reflexivity.
  - vm_compute. reflexivity.
Defined.

(** A mailer on port 465, and a server that refuses the message at its end. *)
Definition tls_mailer : Mailer :=
  {| ml_host := "smtp.example.org"; ml_port := "465"; ml_user := "u"; ml_password := "p";
     ml_from := "noreply@example.org" |}.
Definition env_refused_mail : Env :=
  {| e_sql := e_sql env_ok; e_docker := e_docker env_ok; e_fs := e_fs env_ok; e_tar := e_tar env_ok;
     e_mail := fun n => if (n =? 7)%nat then Some (ErrText "554 rejected") else None;
     e_now := e_now env_ok; e_uuid := e_uuid env_ok; e_rand := e_rand env_ok;
     e_sys := e_sys env_ok |}.


Definition bob_registration : RegisterRequest :=
  {| rr_Name := "bob"; rr_Email := "bob@example.org"; rr_Password := "" |}.


Definition forgot_request : Request :=
  request "POST" [] [] [] (Ok (JObj [("email", JStr "nobody@example.org")])).

Lemma forgot_password_reveals_nothing_witness :
  decode_body forgot_request "" (dec_one "email") = Ok "nobody@example.org" /\
  (run env_ok (ForgotPassword smtp_mailer site forgot_request) fixture_world).1.1
  = success (JStr "if that email exists, a reset link was sent") StatusOK.
Proof.
  assert (decode_body forgot_request "" (dec_one "email") = Ok "nobody@example.org") as Hd
    by (vm_compute; reflexivity).
  split; [exact Hd|].
  destruct (forgot_password_reveals_nothing smtp_mailer site forgot_request _ eq_refl Hd env_ok fixture_world)
    as [H _].
  by rewrite H.
Defined.

(** A reset with a valid link but a password bcrypt refuses (more than 72
    bytes pass the validation) answers 500, leaves the old password in place
    and has used the link up. *)
Theorem ResetPassword_burns_token :
  let password := String.string_of_list_ascii (replicate 73 "x"%char) in
  let c := run env_ok (ResetPassword (reset_request password)) reset_world in
  rp_Status c.1 = StatusInternalServerError /\
  users (w_db c.2) = users (w_db reset_world) /\
  (run env_ok (ResetPassword (reset_request "new secret")) c.2).1
    = RespondError "invalid or expired reset link" StatusBadRequest.
Proof.
  intros password c. split; [vm_compute; reflexivity|]. split; vm_compute; reflexivity.
Qed.
