(* ===== verification/ApiKeys.v ===== *)
(** ApiKeys: service/apiKeyHandler.go, the keys a user creates, lists and
    revokes; middlware/auth.go resolves them ([Auth]). *)

From S2P Require Import Fixtures UsersProps.
From S2P Require Export Users.

Open Scope prog_scope.

Definition apiKeyPrefix : string := "dk_live_".
Definition maxApiKeysPerUser : Z := 10.

(** A row of [List]. *)
Record ApiKeyItem := {
  ak_ID : string;
  ak_Name : string;
  ak_Prefix : string;
  ak_LastUsedAt : option string;
  ak_CreatedAt : string;
}.

Definition json_ApiKeyItem (k : ApiKeyItem) : Json :=
  JObj [("id", JStr (ak_ID k)); ("name", JStr (ak_Name k)); ("prefix", JStr (ak_Prefix k));
        ("last_used_at", json_opt JStr (ak_LastUsedAt k)); ("created_at", JStr (ak_CreatedAt k))].

Section ApiKeys.
Context {PG : Postgres} {VL : ValidatorLib}.

Definition key_fields (name : string) : list (string * string * string) :=
  [("Name", "required,min=1,max=50", name)].

(** The error of the count is not looked at: the variable stays 0. *)
Definition count_keys (userID : string) : Prog Z :=
  r <- perform (ESql Pool (CountApiKeys userID)) ;;
  Ret match r with Ok n => Z.of_nat n | Err _ => 0 end.

(** [rand.Read(rawBytes)], the error dropped: the buffer stays as [make] left it. *)
Definition read_key_bytes : Prog string :=
  r <- perform (ERandRead 32) ;;
  Ret match r with Ok s => s | Err _ => fit_bytes 32 "" end.

Definition raw_key (bytes : string) : string := String.append apiKeyPrefix (hex_EncodeToString bytes).
Definition key_hash (rawKey : string) : string := hex_EncodeToString (Sum256 rawKey).
Definition key_prefix (rawKey : string) : string := String.substring 0 20 rawKey.

Definition json_created_key (id key name prefix : string) (createdAt : Z) : Json :=
  JObj [("created_at", JTime createdAt); ("id", JStr id); ("key", JStr key); ("name", JStr name);
        ("prefix", JStr prefix)].

(** After validation. *)
Definition create_key (userID name : string) : Prog Reply :=
  count <- count_keys userID ;;
  if maxApiKeysPerUser <=? count
  then Ret (RespondError "maximum API keys reached (10)" StatusBadRequest)
  else
    rawBytes <- read_key_bytes ;;
    let rawKey := raw_key rawBytes in
    r <- perform (ESql Pool (InsertApiKey userID name (key_hash rawKey) (key_prefix rawKey))) ;;
    on_ok r (fun _ => internal_error) (fun kr =>
    Ret (success (json_created_key kr.1 rawKey name (key_prefix rawKey) (k_created_at kr.2))
           StatusCreated)).

Definition ApiKey_Create : Handler := fun rq =>
  on_ok (decode_body rq "" (dec_one "name")) invalid_body (fun name =>
  on_ok (Validate (key_fields name)) (fun e => RespondError (error_text e) StatusBadRequest) (fun _ =>
  create_key (user_id rq) name)).

(** [rows.Scan(...)] with its error dropped: a destination after the failing
    column keeps its zero value, and the failure closes the rows.  The two
    timestamps are scanned without a cast into a [*string] and a [string]. *)
Definition scan_key (kr : string * api_key_row) : ApiKeyItem * bool :=
  let r := kr.2 in
  let item last created := {| ak_ID := kr.1; ak_Name := k_name r; ak_Prefix := k_key_prefix r;
                              ak_LastUsedAt := last; ak_CreatedAt := created |} in
  let scan_created last :=
    match timestamptz_string (k_created_at r) with
    | None => (item last "", false)
    | Some s => (item last s, true)
    end in
  match k_last_used_at r with
  | None => scan_created None
  | Some t => match timestamptz_string t with
              | None => (item None "", false)
              | Some s => scan_created (Some s)
              end
  end.

Fixpoint collect_keys (l : list (string * api_key_row)) : list ApiKeyItem :=
  match l with
  | [] => []
  | kr :: l' => let '(k, open) := scan_key kr in k :: (if open then collect_keys l' else [])
  end.

Definition ApiKey_List : Handler := fun rq =>
  r <- perform (ESql Pool (SelectApiKeys (user_id rq))) ;;
  on_ok r (fun _ => internal_error) (fun rows =>
  Ret (success (JArr (map json_ApiKeyItem (collect_keys rows))) StatusOK)).

Definition ApiKey_Dispatch : Handler := fun rq =>
  if bool_decide (rq_Method rq = "GET") then ApiKey_List rq
  else if bool_decide (rq_Method rq = "POST") then ApiKey_Create rq
  else Ret method_not_allowed.

Definition ApiKey_Delete : Handler := fun rq =>
  require_method "DELETE" "method not allowed" rq (
  r <- perform (ESql Pool (DeleteApiKey (var rq "id") (user_id rq))) ;;
  match r with
  | Ok (S _) => Ret no_content
  | _ => Ret (RespondError "key not found" StatusNotFound)
  end).
End ApiKeys.

(** * Facts *)

Section Facts.
Context {PG : Postgres} {VL : ValidatorLib} (env : Env).

Definition keys_of (u : Z) (db : DB) : nat := tcount (fun _ r => bool_decide (k_user_id r = u)) (api_keys db).

Lemma insert_api_key_Ok c userID name h p db x :
  (exec c (InsertApiKey userID name h p) db).1 = Ok x ->
  exists id row, x = (id, row) /\ to_bigint userID = Some (k_user_id row) /\ api_keys db !! id = None /\
    k_name row = name /\ k_key_hash row = h /\ k_key_prefix row = p /\
    (forall id' r', api_keys db !! id' = Some r' -> k_key_hash r' <> h) /\
    (exec c (InsertApiKey userID name h p) db).2 = set_api_keys (<[id := row]> (api_keys db)) db.
Proof.
  cbn [exec]. unfold sql_insert_api_key, with_bigint. destruct (to_bigint userID) as [u|]; [|done].
  destruct (live (api_keys db) (ctx_uuid c)) eqn:Hl; [done|].
  destruct (tany _ _) eqn:Ht; [done|]. case_match; [done|]. intros [= <-].
  eexists _, _. split; [reflexivity|]. repeat split; try done.
  - unfold live in Hl. by destruct (api_keys db !! ctx_uuid c).
  - intros id' r' Hk. rewrite tany_false in Ht. specialize (Ht id' r' Hk).
    by apply bool_decide_eq_false_1 in Ht.
Qed.

Lemma count_keys_up userID u w : sql_up env -> to_bigint userID = Some u ->
  run env (count_keys userID) w =
  (Z.of_nat (keys_of u (w_db w)), (run env (count_keys userID) w).2) /\
  reads w (run env (count_keys userID) w).2.
Proof.
  intros Hup Hu. split; [|apply run_reads; unfold count_keys; repeat effs_step].
  rewrite (surjective_pairing (run env (count_keys userID) w)) at 1. f_equal.
  unfold count_keys, perform. cbn [bind run]. rewrite run_pool_up by done.
  cbn [exec fst]. unfold sql_count_api_keys, with_bigint. by rewrite Hu.
Qed.

Lemma read_key_bytes_run w : exists b w', run env read_key_bytes w = (b, w') /\ reads w w'.
Proof.
  eexists _, _. split; [apply surjective_pairing|]. apply run_reads. unfold read_key_bytes.
  repeat effs_step.
Qed.

(** The key of a reply to a creation. *)
Definition created_key_reply (id raw name : string) (at_ : Z) : Reply :=
  success (json_created_key id raw name (key_prefix raw) at_) StatusCreated.

Lemma create_key_spec userID u name w : sql_up env -> to_bigint userID = Some u ->
  let '(rp, w') := run env (create_key userID name) w in
  w_trace w' = w_trace w /\
  ((rp_Status rp <> StatusCreated /\ w_db w' = w_db w) \/
   exists id raw row, Z.of_nat (keys_of u (w_db w)) < maxApiKeysPerUser /\
     rp = created_key_reply id raw name (k_created_at row) /\ k_user_id row = u /\
     k_key_hash row = key_hash raw /\ api_keys (w_db w) !! id = None /\
     (forall id' r', api_keys (w_db w) !! id' = Some r' -> k_key_hash r' <> key_hash raw) /\
     w_db w' = set_api_keys (<[id := row]> (api_keys (w_db w))) (w_db w)).
Proof.
  intros Hup Hu. unfold create_key. rewrite run_bind.
  destruct (count_keys_up userID u w Hup Hu) as [E R1]. rewrite E. clear E.
  revert R1. generalize (run env (count_keys userID) w).2. intros w1 [O1 T1].
  destruct (Z.leb_spec maxApiKeysPerUser (Z.of_nat (keys_of u (w_db w)))) as [Hle|Hlt].
  { cbn [run]. split; [done|]. left. split; [done|apply O1]. }
  rewrite run_bind. destruct (read_key_bytes_run w1) as (b & w2 & -> & [O2 T2]).
  cbv zeta. set (raw := raw_key b). unfold perform. cbn [bind run].
  assert (w_db w2 = w_db w) as D2 by (rewrite (out_db _ _ O2); apply O1).
  rewrite run_pool_up, D2 by done.
  destruct (exec _ (InsertApiKey _ _ _ _) (w_db w)) as [[x|e] db'] eqn:Ex; cbn [fst snd on_ok run].
  - pose proof (insert_api_key_Ok (sql_ctx env w2) userID name (key_hash raw) (key_prefix raw) (w_db w) x)
      as (id & row & -> & Hu' & Hf & Hn & Hh & Hp & Hall & Hdb); [by rewrite Ex|].
    rewrite Ex in Hdb. simpl in Hdb. subst db'. split; [simpl; congruence|]. right.
    exists id, raw, row. rewrite Hu in Hu'. injection Hu' as ->. done.
  - split; [simpl; congruence|]. left. split; [done|]. simpl.
    pose proof (exec_err (sql_ctx env w2) (InsertApiKey userID name (key_hash raw) (key_prefix raw))
      (w_db w) e) as He. rewrite Ex in He. by apply He.
Qed.

(** A request that reaches the insertion. *)
Lemma ApiKey_Create_201 rq w rp w' :
  run env (ApiKey_Create rq) w = (rp, w') -> rp_Status rp = StatusCreated ->
  exists name, run env (create_key (user_id rq) name) w = (rp, w').
Proof.
  unfold ApiKey_Create. destruct (decode_body rq "" (dec_one "name")) as [name|e]; simpl.
  2:{ by intros [= <- <-]. }
  destruct (Validate (key_fields name)); simpl; [by exists name|by intros [= <- <-]].
Qed.


(** [Delete] revokes: with the database up the owner's request is answered
    204, exactly that key is gone, and no raw key with its hash authenticates any
    more; on a key of somebody else, or on none, the answer is 404 and nothing
    changes. *)
Theorem api_key_delete rq w k u :
  sql_up env -> wf_db (w_db w) -> rq_Method rq = "DELETE" ->
  to_uuid (var rq "id") = Some k -> to_bigint (user_id rq) = Some u ->
  let '(rp, w') := run env (ApiKey_Delete rq) w in
  match api_keys (w_db w) !! k with
  | Some row =>
      if bool_decide (k_user_id row = u)
      then rp = no_content /\ w_db w' = set_api_keys (delete k (api_keys (w_db w))) (w_db w) /\
           forall raw env2 w2, sql_up env2 -> w_db w2 = w_db w' -> k_key_hash row = key_hash raw ->
             (run env2 (resolveApiKey raw) w2).1 = Err ErrNoRows
      else rp = RespondError "key not found" StatusNotFound /\ w_db w' = w_db w
  | None => rp = RespondError "key not found" StatusNotFound /\ w_db w' = w_db w
  end.
Proof.
  intros Hup Hwf Hm Hk Hu. unfold ApiKey_Delete. rewrite require_method_ok by done.
  unfold perform. cbn [bind run]. rewrite run_pool_up by done. cbn [exec fst].
  unfold sql_delete_api_key, with_uuid, with_bigint. rewrite Hk, Hu. cbn [fst snd].
  set (p := fun k' r => bool_decide (k' = k) && bool_decide (k_user_id r = u)).
  assert (forall row, api_keys (w_db w) !! k = Some row -> p k row = bool_decide (k_user_id row = u)) as Hp.
  { intros row _. unfold p. by rewrite bool_decide_eq_true_2. }
  assert ((forall row, api_keys (w_db w) !! k = Some row -> p k row = false) ->
    tcount p (api_keys (w_db w)) = 0%nat /\ tdelete p (api_keys (w_db w)) = api_keys (w_db w)) as Hnone.
  { intros Hn. assert (forall k' r', api_keys (w_db w) !! k' = Some r' -> p k' r' = false) as Ha.
    { intros k' r' Hk'. destruct (decide (k' = k)) as [->|Hne]; [by apply Hn|].
      unfold p. by rewrite bool_decide_eq_false_2. }
    split; [by apply tcount_zero|]. unfold tdelete. apply map_filter_id. intros k' r' Hk'. by apply (Ha k' r'). }
  destruct (api_keys (w_db w) !! k) as [row|] eqn:Er.
  2:{ destruct Hnone as [Hc Hd]; [done|]. rewrite Hc, Hd, set_api_keys_id. done. }
  specialize (Hp row eq_refl). destruct (bool_decide_reflect (k_user_id row = u)) as [Ho|Ho].
  2:{ destruct Hnone as [Hc Hd]; [by intros ? [= <-]|]. rewrite Hc, Hd, set_api_keys_id. done. }
  destruct (tcount p (api_keys (w_db w))) as [|n] eqn:Hc.
  { rewrite tcount_zero in Hc. by rewrite (Hc _ _ Er) in Hp. }
  assert (tdelete p (api_keys (w_db w)) = delete k (api_keys (w_db w))) as Hd.
  { apply map_eq. intros k'. destruct (decide (k' = k)) as [->|Hne].
    - rewrite lookup_delete_eq. apply lookup_tdelete_None. right. by exists row.
    - rewrite lookup_delete_ne by done. destruct (api_keys (w_db w) !! k') eqn:E.
      + apply lookup_tdelete_Some. split; [done|]. unfold p. by rewrite bool_decide_eq_false_2.
      + apply lookup_tdelete_None. by left. }
  rewrite Hd. split; [done|]. split; [done|]. intros raw env2 w2 Hup2 Hw2 Hh.
  unfold resolveApiKey, perform. cbn [bind run]. rewrite run_pool_up by done.
  cbn [exec fst run]. unfold sql_touch_api_key. rewrite Hw2. cbn [api_keys set_api_keys fst].
  rewrite (proj2 (tfirst_None _ _)); [done|].
  intros k' r' Hk'. apply (lookup_delete_Some (api_keys (w_db w))) in Hk' as [Hne Hk'].
  apply bool_decide_eq_false_2. intros He.
  apply Hne. eapply (wf_keys_hash _ Hwf k k' _ _ _ Er Hk'); [done|].
  unfold key_hash in Hh. congruence.
Qed.

(** ** Listing *)

Lemma collect_keys_all l : (forall t, is_Some (timestamptz_string t)) ->
  map ak_ID (collect_keys l) = l.*1.
Proof.
  intros Hs. induction l as [|kr l IH]; [done|]. simpl. unfold scan_key.
  destruct (Hs (k_created_at kr.2)) as [s ->].
  destruct (k_last_used_at kr.2) as [t|]; [destruct (Hs t) as [s' ->]|]; simpl; by rewrite IH.
Qed.

(** [List] ignores the errors of [Scan].  If the driver converts a timestamp
    column to a string, the reply lists all the caller's keys, newest first; if it
    refuses, as for a column without a text cast, the first failing row ends the
    list: the reply has one key, with an empty creation date, whatever the
    number of keys. *)
Theorem api_key_list rq u w :
  sql_up env -> to_bigint (user_id rq) = Some u ->
  exists l rows w', run env (ApiKey_List rq) w = (success (JArr (map json_ApiKeyItem l)) StatusOK, w') /\
    w_db w' = w_db w /\
    rows ≡ₚ tselect (fun _ r => bool_decide (k_user_id r = u)) (api_keys (w_db w)) /\
    StronglySorted (desc_by (fun kr => k_created_at kr.2)) rows /\
    ((forall t, is_Some (timestamptz_string t)) -> map ak_ID l = rows.*1) /\
    ((forall t, timestamptz_string t = None) -> (length l <= 1)%nat /\
       Forall (fun k => ak_CreatedAt k = "") l).
Proof.
  intros Hup Hu.
  set (rows := merge_sort (desc_by (fun kr => k_created_at kr.2))
                 (tselect (fun _ r => bool_decide (k_user_id r = u)) (api_keys (w_db w)))).
  assert (Transitive (desc_by (fun kr : string * api_key_row => k_created_at kr.2))) as Htr
    by (intros a b c; unfold desc_by; lia).
  exists (collect_keys rows), rows, (run env (ApiKey_List rq) w).2. split; [|split; [|split; [|split; [|split]]]].
  - rewrite (surjective_pairing (run env (ApiKey_List rq) w)) at 1. f_equal.
    unfold ApiKey_List, perform. cbn [bind run]. rewrite run_pool_up by done.
    cbn [exec fst]. unfold sql_select_api_keys, with_bigint. rewrite Hu. done.
  - assert (reads w (run env (ApiKey_List rq) w).2) as [O _]; [|apply O].
    apply run_reads. unfold ApiKey_List. repeat handler_step.
  - apply merge_sort_Permutation.
  - apply StronglySorted_merge_sort; apply _.
  - intros Hs. by apply collect_keys_all.
  - intros Hn. destruct rows as [|kr l]; simpl; [split; [lia|constructor]|]. unfold scan_key.
    rewrite Hn. destruct (k_last_used_at kr.2); [rewrite Hn|]; simpl; (split; [lia|by repeat constructor]).
Qed.
End Facts.

(** * Concrete keys *)

Definition new_key_request : Request :=
  with_user "1" (request "POST" [] [] [] (Ok (JObj [("name", JStr "ci")]))).


Definition old_key : api_key_row :=
  {| k_user_id := 1; k_name := "ci"; k_key_hash := "h"; k_key_prefix := "dk_live_0123"; k_last_used_at := None;
     k_created_at := 7 |}.
Definition one_key_db : DB := set_api_keys {["k-1" := old_key]} fixture_db.

Lemma one_key_wf : wf_db one_key_db.
Proof.
  destruct (exec_all_wf fixture_stmts seed_db seed_db_wf). split; try done.
  - intros k r Hk. simpl in Hk. apply lookup_singleton_Some in Hk as [<- <-].
    apply (bool_decide_unpack _). vm_compute. reflexivity.
  - intros k1 k2 r1 r2 u H1 H2 _ _. simpl in H1, H2.
    apply lookup_singleton_Some in H1 as [<- _], H2 as [<- _]. done.
Qed.

Definition revoke_request (userID : string) : Request :=
  with_user userID (request "DELETE" [] [] [("id", "k-1")] no_body).

(** Bob cannot revoke Alice's key; Alice can. *)
Lemma api_key_delete_witness :
  (run env_ok (ApiKey_Delete (revoke_request "2")) (world_of one_key_db)).1 =
    RespondError "key not found" StatusNotFound /\
  (run env_ok (ApiKey_Delete (revoke_request "1")) (world_of one_key_db)).1 = no_content.
Proof.
  assert (api_keys one_key_db !! "k-1" = Some old_key) as Hk by (vm_compute; reflexivity).
  assert (sql_up env_ok) as Hup by (intros n; reflexivity).
  assert (to_bigint (user_id (revoke_request "2")) = Some 2) as U2 by (vm_compute; reflexivity).
  assert (to_bigint (user_id (revoke_request "1")) = Some 1) as U1 by (vm_compute; reflexivity).
  assert (to_uuid (var (revoke_request "2") "id") = Some "k-1") as V2 by reflexivity.
  assert (to_uuid (var (revoke_request "1") "id") = Some "k-1") as V1 by reflexivity.
  pose proof (api_key_delete env_ok (revoke_request "2") (world_of one_key_db) _ _ Hup one_key_wf eq_refl V2 U2) as H2.
  pose proof (api_key_delete env_ok (revoke_request "1") (world_of one_key_db) _ _ Hup one_key_wf eq_refl V1 U1) as H1.
  cbn [w_db world_of] in H1, H2. rewrite Hk in H1, H2.
  destruct (run env_ok (ApiKey_Delete (revoke_request "2")) (world_of one_key_db)) as [rp2 w2].
  destruct (run env_ok (ApiKey_Delete (revoke_request "1")) (world_of one_key_db)) as [rp1 w1].
  exact (conj (proj1 H2) (proj1 H1)).
Defined.

Lemma api_key_list_witness :
  exists l w', run env_ok (ApiKey_List (with_user "1" (request "GET" [] [] [] no_body))) (world_of one_key_db) =
    (success (JArr (map json_ApiKeyItem l)) StatusOK, w') /\ (length l <= 1)%nat.
Proof.
  destruct (api_key_list env_ok (with_user "1" (request "GET" [] [] [] no_body)) 1 (world_of one_key_db))
    as (l & rows & w' & E & _ & _ & _ & _ & Hl); [done|vm_compute; reflexivity|].
  exists l, w'. split; [exact E|]. exact (proj1 (Hl (fun t => eq_refl))).
Defined.
