(* ===== verification/Notifications.v ===== *)
(** Notifications: service/notificationHandler.go, the stored notifications of
    a user and the live stream fed by the bus. *)

From S2P Require Import Fixtures.
From S2P Require Export Http Bus.

Open Scope prog_scope.

(** [json:"metadata,omitempty"]: the map is filled when the column holds a JSON
    object; any other value leaves it nil.  The order of an object's members is
    not observable. *)
Definition metadata_of (raw : option Json) : list (string * Json) :=
  match raw with Some (JObj m) => m | _ => [] end.

Definition json_notificationRow (kr : string * notification_row) : Json :=
  let r := kr.2 in
  JObj ([("id", JStr kr.1); ("type", JStr (n_type r)); ("title", JStr (n_title r)); ("body", JStr (n_body r))]
        ++ match metadata_of (n_metadata r) with [] => [] | m => [("metadata", JObj m)] end
        ++ omit_none "read_at" JTime (n_read_at r)
        ++ [("created_at", JTime (n_created_at r))]).

(** [json.Marshal(n)] *)
Definition json_Notification (n : Notification) : Json :=
  JObj ([("id", JStr (n_ID n)); ("type", JStr (n_Type n)); ("title", JStr (n_Title n)); ("body", JStr (n_Body n))]
        ++ match metadata_of (n_Metadata n) with [] => [] | m => [("metadata", JObj m)] end
        ++ [("created_at", JStr (n_CreatedAt n))]).

Section Notifications.
Context {PG : Postgres}.

Definition internal : Reply := RespondError "internal error" StatusInternalServerError.

(** [userID, ok := ...; if !ok || userID == "" { unauthorized }] *)
Definition signed_in (rq : Request) (k : string -> Prog Reply) : Prog Reply :=
  if bool_decide (user_id rq = "") then Ret (RespondError "unauthorized" StatusUnauthorized)
  else k (user_id rq).

Definition Notification_List : Handler := fun rq =>
  require_method "GET" "method not allowed" rq (
  signed_in rq (fun userID =>
  r <- perform (ESql Pool (SelectNotifications userID)) ;;
  on_ok r (fun _ => internal) (fun rows =>
  Ret (success (JArr (map json_notificationRow rows)) StatusOK)))).

Definition MarkAllRead : Handler := fun rq =>
  require_method "POST" "method not allowed" rq (
  signed_in rq (fun userID =>
  _ <- perform (ESql Pool (MarkAllReadRows userID)) ;;
  Ret (success_empty StatusOK))).

(** [json.Marshal] of a nil map is [null]. *)
Definition PersistAndPublish (userID : string) (n : Notification) : Prog unit :=
  let metaJSON := default JNull (n_Metadata n) in
  _ <- perform (ESql Pool (InsertNotification userID (n_Type n) (n_Title n) (n_Body n) (Some metaJSON))) ;;
  perform (EPublish userID n).

(** ** The stream *)

(** What happens next in a stream: [select] picks the closed request, a
    notification of the channel or the ticker; or another goroutine publishes
    before [select] is reached again. *)
Inductive Pick := PickDone | PickReceive | PickTick | OtherPublish (userID : string) (n : Notification).

Inductive Chunk := ChunkNotification (data : Json) | ChunkHeartbeat.

Definition stream_headers : list (string * string) :=
  [("Content-Type", "text/event-stream"); ("Cache-Control", "no-cache"); ("Connection", "keep-alive");
   ("X-Accel-Buffering", "no")].

(** The loop: what has been written, and the bus.  A choice that is not ready
    (an empty channel) is not taken. *)
Fixpoint stream_loop (ch : nat) (picks : list Pick) (b : Bus) : list Chunk * Bus :=
  match picks with
  | [] | PickDone :: _ => ([], b)
  | OtherPublish u n :: picks' => stream_loop ch picks' (default b (Publish u n b))
  | PickTick :: picks' => let '(cs, b') := stream_loop ch picks' b in (ChunkHeartbeat :: cs, b')
  | PickReceive :: picks' =>
      match receive ch b with
      | None => stream_loop ch picks' b
      | Some (n, b1) =>
          let '(cs, b') := stream_loop ch picks' b1 in (ChunkNotification (json_Notification n) :: cs, b')
      end
  end.

Inductive Streamed := Refused (r : Reply) | Served (headers : list (string * string)) (chunks : list Chunk).

(** [flusher]: whether the response writer is an [http.Flusher].  [defer
    cancel()] runs when the loop returns; [None] would be a panic of the
    cancellation. *)
Definition Stream (flusher : bool) (rq : Request) (picks : list Pick) (b : Bus) : Streamed * option Bus :=
  if bool_decide (user_id rq = "") then (Refused (RespondError "unauthorized" StatusUnauthorized), Some b)
  else if negb flusher
  then (Refused (RespondError "streaming not supported by server" StatusInternalServerError), Some b)
  else
    let '(ch, b1) := Subscribe (user_id rq) b in
    let '(chunks, b2) := stream_loop ch picks b1 in
    (Served stream_headers chunks, unsubscribe (user_id rq) ch b2).
End Notifications.

(** * Facts *)

Section Facts.
Context {PG : Postgres} (env : Env).

Definition mine (u : Z) (db : DB) : list (string * notification_row) :=
  tselect (fun _ r => bool_decide (n_user_id r = u)) (notifications db).

#[export] Instance desc_by_trans {A} (f : A -> Z) : Transitive (desc_by f).
Proof. intros a b c. unfold desc_by. lia. Qed.

Lemma StronglySorted_take {A} (R : relation A) n (l : list A) :
  StronglySorted R l -> StronglySorted R (take n l).
Proof.
  intros H. revert n. induction H as [|x l Hs IH Hx]; intros [|n]; simpl; constructor; [apply IH|].
  by apply Forall_take.
Qed.

Lemma notification_list_run rq u w : sql_up env -> rq_Method rq = "GET" -> to_bigint (user_id rq) = Some u ->
  user_id rq <> "" ->
  run env (Notification_List rq) w =
  (success (JArr (map json_notificationRow
     (take 20 (merge_sort (desc_by (fun kr => n_created_at kr.2)) (mine u (w_db w)))))) StatusOK,
   (run env (Notification_List rq) w).2) /\ reads w (run env (Notification_List rq) w).2.
Proof.
  intros Hup Hm Hu Hne. split.
  - rewrite (surjective_pairing (run env (Notification_List rq) w)) at 1. f_equal.
    unfold Notification_List. rewrite require_method_ok by done. unfold signed_in.
    rewrite bool_decide_eq_false_2 by done. unfold perform. cbn [bind run]. rewrite run_pool_up by done.
    cbn [exec fst]. unfold sql_select_notifications, with_bigint. by rewrite Hu.
  - apply run_reads. unfold Notification_List, signed_in. repeat handler_step.
Qed.

(** [List] answers with the caller's own notifications only, newest first,
    at most twenty, and when there are more the ones left out are not newer than
    any shown. *)
Theorem notification_list rq u w :
  sql_up env -> rq_Method rq = "GET" -> user_id rq <> "" -> to_bigint (user_id rq) = Some u ->
  exists shown hidden w', run env (Notification_List rq) w =
      (success (JArr (map json_notificationRow shown)) StatusOK, w') /\ reads w w' /\
    shown ++ hidden ≡ₚ mine u (w_db w) /\ length shown = Nat.min 20 (length (mine u (w_db w))) /\
    StronglySorted (desc_by (fun kr => n_created_at kr.2)) shown /\
    (forall a b, a ∈ shown -> b ∈ hidden -> n_created_at b.2 <= n_created_at a.2).
Proof.
  intros Hup Hm Hne Hu. destruct (notification_list_run rq u w Hup Hm Hu Hne) as [E R].
  set (rows := merge_sort (desc_by (fun kr => n_created_at kr.2)) (mine u (w_db w))) in *.
  exists (take 20 rows), (drop 20 rows), (run env (Notification_List rq) w).2.
  assert (StronglySorted (desc_by (fun kr => n_created_at kr.2)) rows) as Hs
    by (apply StronglySorted_merge_sort; apply _).
  split; [exact E|]. split; [done|]. split; [|split; [|split]].
  - rewrite take_drop. apply merge_sort_Permutation.
  - rewrite length_take. unfold rows. by rewrite (Permutation_length (merge_sort_Permutation _ _)).
  - by apply StronglySorted_take.
  - rewrite <- (take_drop 20 rows) in Hs. apply StronglySorted_app in Hs as [Hs _]. intros a b. apply Hs.
Qed.

Lemma insert_notification_Ok c u ty ti b m db x :
  (exec c (InsertNotification u ty ti b m) db).1 = Ok x ->
  exists id row, to_bigint u = Some (n_user_id row) /\ notifications db !! id = None /\
    n_type row = ty /\ n_title row = ti /\ n_body row = b /\ n_metadata row = m /\ n_read_at row = None /\
    n_created_at row = ctx_now c /\
    (exec c (InsertNotification u ty ti b m) db).2 = set_notifications (<[id := row]> (notifications db)) db.
Proof.
  cbn [exec]. unfold sql_insert_notification, with_bigint. destruct (to_bigint u) as [v|]; [|done].
  destruct (live (notifications db) (ctx_uuid c)) eqn:Hl; [done|]. case_match; [done|]. intros _.
  eexists _, _. repeat split; try done. unfold live in Hl. by destruct (notifications db !! ctx_uuid c).
Qed.


(** [MarkAllRead] answers 200 even if the update failed; when it ran, every
    notification of the caller is read, those read before keep their time, and the
    notifications of everybody else are as before. *)
Theorem mark_all_read rq u w :
  rq_Method rq = "POST" -> user_id rq <> "" -> to_bigint (user_id rq) = Some u ->
  exists w', run env (MarkAllRead rq) w = (success_empty StatusOK, w') /\
    (e_sql env (w_tick w) = None -> forall k r, notifications (w_db w) !! k = Some r ->
       exists r', notifications (w_db w') !! k = Some r' /\
         (n_user_id r = u -> is_Some (n_read_at r')) /\
         (n_user_id r <> u \/ is_Some (n_read_at r) -> r' = r)).
Proof.
  intros Hm Hne Hu. exists (run env (MarkAllRead rq) w).2.
  unfold MarkAllRead, signed_in. rewrite require_method_ok by done.
  rewrite bool_decide_eq_false_2 by done. unfold perform. cbn [bind run].
  destruct (run_eff env (ESql Pool (MarkAllReadRows (user_id rq))) w) as [x w1] eqn:E. split; [done|].
  intros He k r Hk. cbn [run snd]. assert (w1 = (run_eff env (ESql Pool (MarkAllReadRows (user_id rq))) w).2) as ->
    by by rewrite E. clear E. unfold run_eff, run_sql. rewrite He. cbn [exec].
  unfold sql_mark_all_read, with_bigint. rewrite Hu. cbn [snd]. unfold tick, advance_seq, set_w_db.
  cbn [w_db notifications set_notifications]. rewrite lookup_tupdate, Hk. cbn [fmap option_fmap option_map].
  eexists. split; [reflexivity|].
  destruct (bool_decide_reflect (n_user_id r = u)), (bool_decide_reflect (n_read_at r = None)); simpl.
  - split; [by eexists|]. intros [?|[t Ht]]; [done|congruence].
  - split; [|done]. intros _. by destruct (n_read_at r); [eexists|].
  - done.
  - done.
Qed.

(** Through a writer that is not an [http.Flusher] no stream is served: the
    caller gets 500 (401 without a user), and the bus is as before. *)
Theorem stream_needs_flusher rq picks b :
  exists r, Stream false rq picks b = (Refused r, Some b) /\
    rp_Status r = if bool_decide (user_id rq = "") then StatusUnauthorized else StatusInternalServerError.
Proof. unfold Stream. case_bool_decide; by eexists. Qed.

(** The loop leaves the subscribers alone and keeps the bus invariant. *)
Lemma stream_loop_inv ch picks b : bus_inv b ->
  bus_inv (stream_loop ch picks b).2 /\ b_subs (stream_loop ch picks b).2 = b_subs b.
Proof.
  revert b. induction picks as [|p picks IH]; intros b Hb; [done|]. destruct p as [| | |u n]; simpl.
  - done.
  - destruct (receive ch b) as [[n b1]|] eqn:E; [|by apply IH].
    destruct (receive_Some _ _ _ _ E) as (c & buf & _ & _ & Hs & _).
    specialize (IH b1 ltac:(eauto with bus)). destruct (stream_loop ch picks b1) as [cs b2]. simpl in *.
    by rewrite <- Hs.
  - specialize (IH b Hb). by destruct (stream_loop ch picks b).
  - destruct (Publish_spec u n b Hb) as (b1 & E & Hs & _). rewrite E. simpl. rewrite <- Hs.
    apply IH. eauto with bus.
Qed.

(** One publication for the stream's user, taken at once. *)
Lemma publish_then_receive ch u n b : bus_inv b -> ch ∈ subs_of b u ->
  b_chans b !! ch = Some {| ch_buf := []; ch_closed := false |} ->
  exists b1 b2, Publish u n b = Some b1 /\ receive ch b1 = Some (n, b2) /\ bus_inv b2 /\
    b_subs b2 = b_subs b /\ b_chans b2 !! ch = Some {| ch_buf := []; ch_closed := false |}.
Proof.
  intros Hb Hch Hc. destruct (Publish_spec u n b Hb) as (b1 & E & Hs & Hx & Hl).
  assert (b_chans b1 !! ch = Some {| ch_buf := [n]; ch_closed := false |}) as Hc1
    by (by rewrite Hl, decide_True, Hc).
  exists b1. unfold receive. rewrite Hc1. eexists. split; [done|]. split; [reflexivity|].
  split; [|split; [done|simpl; by rewrite lookup_insert_eq]].
  eapply receive_inv; [by eapply Publish_inv|]. unfold receive. by rewrite Hc1.
Qed.

Definition keeps_up (u : string) (ns : list Notification) : list Pick :=
  flat_map (fun n => [OtherPublish u n; PickReceive]) ns.

Lemma stream_loop_keeps_up ch u ns b : bus_inv b -> ch ∈ subs_of b u ->
  b_chans b !! ch = Some {| ch_buf := []; ch_closed := false |} ->
  (stream_loop ch (keeps_up u ns) b).1 = map (fun n => ChunkNotification (json_Notification n)) ns.
Proof.
  revert b. induction ns as [|n ns IH]; intros b Hb Hch Hc; [done|].
  destruct (publish_then_receive ch u n b Hb Hch Hc) as (b1 & b2 & E1 & E2 & Hb2 & Hs2 & Hc2).
  simpl. rewrite E1. simpl. rewrite E2.
  specialize (IH b2 Hb2). destruct (stream_loop ch (keeps_up u ns) b2) as [cs b3]. simpl in *.
  f_equal. apply IH; [|done]. unfold subs_of in *. by rewrite Hs2.
Qed.

End Facts.

(** * Concrete notifications *)

Definition note_of (title : string) : Notification :=
  {| n_ID := "i"; n_Type := "t"; n_Title := title; n_Body := "b"; n_Metadata := None; n_CreatedAt := "" |}.
Definition list_request : Request := with_user "1" (request "GET" [] [] [] no_body).
Definition read_request : Request := with_user "1" (request "POST" [] [] [] no_body).
Definition notified_world : World := (run env_ok (PersistAndPublish "1" (note_of "first")) fixture_world).2.

Lemma notification_list_witness :
  exists shown hidden w', run env_ok (Notification_List list_request) notified_world =
      (success (JArr (map json_notificationRow shown)) StatusOK, w') /\
    shown ++ hidden ≡ₚ mine 1 (w_db notified_world).
Proof.
  assert (to_bigint (user_id list_request) = Some 1) as Hu by (vm_compute; reflexivity).
  assert (user_id list_request <> "") as Hne by discriminate.
  destruct (notification_list env_ok list_request 1 notified_world (fun n => eq_refl) eq_refl Hne Hu)
    as (shown & hidden & w' & E & _ & P & _). exists shown, hidden, w'. exact (conj E P).
Defined.


Lemma mark_all_read_witness :
  exists w', run env_ok (MarkAllRead read_request) notified_world = (success_empty StatusOK, w').
Proof.
  destruct (mark_all_read env_ok read_request 1 notified_world) as (w' & E & _);
    [reflexivity|discriminate|vm_compute; reflexivity|]. exists w'. exact E.
Defined.

