(* ===== verification/Admin.v ===== *)
(** Admin: service/adminHandler.go, the administrator's statistics, user search
    and plan changes.  [strings.ToLower] on text that is not ASCII is a
    parameter (the Unicode tables). *)

From S2P Require Import Fixtures UsersProps.
From S2P Require Export Users.

Open Scope prog_scope.

Class UnicodeCase := {
  ToLower : string -> string;
  ToLower_ascii : forall s, is_ascii s = true -> ToLower s = ascii_lower s;
}.

Record AdminStats := {
  st_TotalUsers : Z;
  st_TotalContainers : Z;
  st_RunningContainers : Z;
  st_ContainersToday : Z;
  st_FreeUsers : Z;
  st_ProUsers : Z;
  st_TeamUsers : Z;
}.

Definition json_AdminStats (s : AdminStats) : Json :=
  JObj [("total_users", JInt (st_TotalUsers s)); ("total_containers", JInt (st_TotalContainers s));
        ("running_containers", JInt (st_RunningContainers s)); ("containers_today", JInt (st_ContainersToday s));
        ("free_users", JInt (st_FreeUsers s)); ("pro_users", JInt (st_ProUsers s));
        ("team_users", JInt (st_TeamUsers s))].

Record AdminUser := {
  au_ID : string;
  au_Name : string;
  au_Email : string;
  au_Role : string;
  au_PlanID : string;
  au_ContainerCount : Z;
  au_CreatedAt : string;
}.

Definition json_AdminUser (u : AdminUser) : Json :=
  JObj [("id", JStr (au_ID u)); ("name", JStr (au_Name u)); ("email", JStr (au_Email u));
        ("role", JStr (au_Role u)); ("plan_id", JStr (au_PlanID u));
        ("container_count", JInt (au_ContainerCount u)); ("created_at", JStr (au_CreatedAt u))].

Section Admin.
Context {PG : Postgres} {UC : UnicodeCase}.

(** [QueryRow(...).Scan(&n)], the error dropped. *)
Definition count_or_zero (r : result nat) : Z := match r with Ok n => Z.of_nat n | Err _ => 0 end.

Definition Stats : Handler := fun rq =>
  total <- perform (ESql Pool CountUsers) ;;
  containers <- perform (ESql Pool CountContainers) ;;
  running <- perform (ESql Pool CountRunning) ;;
  today <- perform (ESql Pool CountToday) ;;
  free <- perform (ESql Pool (CountUsersOn "free")) ;;
  pro <- perform (ESql Pool (CountUsersOn "pro")) ;;
  team <- perform (ESql Pool (CountUsersOn "team")) ;;
  Ret (success (json_AdminStats
    {| st_TotalUsers := count_or_zero total; st_TotalContainers := count_or_zero containers;
       st_RunningContainers := count_or_zero running; st_ContainersToday := count_or_zero today;
       st_FreeUsers := count_or_zero free; st_ProUsers := count_or_zero pro;
       st_TeamUsers := count_or_zero team |}) StatusOK).

(** [page, _ := strconv.Atoi(...)], at least 1. *)
Definition page_of (rq : Request) : Z :=
  let page := (Atoi (query rq "page")).1 in
  if page <? 1 then 1 else page.

Definition search_pattern (rq : Request) : string :=
  let search := ToLower (query rq "search") in
  if bool_decide (search = "") then "%" else cat ["%"; search; "%"].

(** [(page - 1) * 20] *)
Definition page_offset (page : Z) : Z := wrap_i64 ((page - 1) * 20).

(** [rows.Scan(...)], the error dropped: a NULL name or e-mail leaves that field
    and the later ones empty and closes the rows. *)
Definition scan_admin_user (row : (Z * user_row) * nat) : AdminUser * bool :=
  let '((i, r), count) := row in
  let item name email role plan n :=
    {| au_ID := bigint_text i; au_Name := name; au_Email := email; au_Role := role; au_PlanID := plan;
       au_ContainerCount := n; au_CreatedAt := "" |} in
  match u_name r with
  | None => (item "" "" "" "" 0, false)
  | Some name =>
      match u_email r with
      | None => (item name "" "" "" 0, false)
      | Some email => (item name email (u_role r) (u_plan_id r) (Z.of_nat count), true)
      end
  end.

Fixpoint collect_users (l : list ((Z * user_row) * nat)) : list AdminUser :=
  match l with
  | [] => []
  | row :: l' => let '(u, open) := scan_admin_user row in u :: (if open then collect_users l' else [])
  end.

Definition ListUsers : Handler := fun rq =>
  r <- perform (ESql Pool (SearchUsers (search_pattern rq) (page_offset (page_of rq)))) ;;
  on_ok r (fun _ => internal_error) (fun rows =>
  Ret (success (JArr (map json_AdminUser (collect_users rows))) StatusOK)).

Definition Admin_DeleteUser : Handler := fun rq =>
  require_method "DELETE" "method not allowed" rq (
  r <- perform (ESql Pool (DeleteUserRow (var rq "id"))) ;;
  match r with
  | Ok (S _) => Ret no_content
  | _ => Ret (RespondError "user not found" StatusNotFound)
  end).

Definition known_plans : list string := ["free"; "pro"; "team"].

Definition UpdateUserPlan : Handler := fun rq =>
  require_method "PATCH" "method not allowed" rq (
  on_ok (decode_body rq "" (dec_one "plan_id")) invalid_body (fun planID =>
  if bool_decide (planID ∉ known_plans) then Ret (RespondError "invalid plan_id" StatusBadRequest)
  else
    r <- perform (ESql Pool (UpdatePlanRow planID (var rq "id"))) ;;
    on_ok r (fun _ => internal_error) (fun _ => Ret (success_empty StatusOK)))).
End Admin.

(** * Facts *)

Section Facts.
Context {PG : Postgres} {UC : UnicodeCase} (env : Env).

(** A read that cannot lose the connection, in a world that reads have led to. *)
Lemma run_read_up {A} s (k : result (rows s) -> Prog A) w0 w :
  sql_up env -> read_only s = true -> reads w0 w ->
  exists c w1, reads w0 w1 /\
    run env (bind (perform (ESql Pool s)) k) w = run env (k (exec c s (w_db w0)).1) w1.
Proof.
  intros Hup Hs HR. exists (sql_ctx env w), (run_eff env (ESql Pool s) w).2.
  split; [etransitivity; [exact HR|by apply run_eff_reads]|].
  unfold perform. cbn [bind run]. rewrite run_pool_up by done. by rewrite (out_db _ _ (proj1 HR)).
Qed.

(** Three disjoint classes that cover a table. *)
Lemma tcount_partition {K R} `{Countable K} (p q r : K -> R -> bool) (t : gmap K R) :
  (forall k x, t !! k = Some x -> (if p k x then 1 else 0) + (if q k x then 1 else 0)
                                  + (if r k x then 1 else 0) = 1)%nat ->
  (tcount p t + tcount q t + tcount r t = size t)%nat.
Proof.
  induction t as [|k x t Hk IH] using map_ind; intros Hc; [done|].
  rewrite !tcount_insert, map_size_insert_None by done.
  assert (forall k' x', t !! k' = Some x' -> (if p k' x' then 1 else 0) + (if q k' x' then 1 else 0)
                                  + (if r k' x' then 1 else 0) = 1)%nat as Ht.
  { intros k' x' Hx. apply Hc. rewrite lookup_insert_ne; [done|]. intros ->. congruence. }
  specialize (IH Ht). specialize (Hc k x ltac:(by rewrite lookup_insert_eq)). lia.
Qed.

Ltac next_read Hup :=
  match goal with
  | HR : reads _ ?w |- context [run _ (bind (perform (ESql Pool ?s)) ?k) ?w] =>
      let c := fresh "c" in let w1 := fresh "w" in let R := fresh "R" in let E := fresh "E" in
      destruct (run_read_up s k _ w Hup eq_refl HR) as (c & w1 & R & E); rewrite E; clear E
  end.

(** With the database up the statistics are the contents of the tables, and
    when every plan is one of the three known ones the users on each plan add up
    to the number of users. *)
Theorem stats_exact rq w :
  sql_up env -> wf_db (w_db w) ->
  exists s w', run env (Stats rq) w = (success (json_AdminStats s) StatusOK, w') /\ reads w w' /\
    st_TotalUsers s = Z.of_nat (size (users (w_db w))) /\
    st_TotalContainers s = Z.of_nat (size (containers (w_db w))) /\
    st_RunningContainers s =
      Z.of_nat (tcount (fun _ r => bool_decide (c_status r = "running")) (containers (w_db w))) /\
    0 <= st_ContainersToday s <= st_TotalContainers s /\
    ((forall k, is_Some (plans (w_db w) !! k) -> k ∈ known_plans) ->
       st_FreeUsers s + st_ProUsers s + st_TeamUsers s = st_TotalUsers s).
Proof.
  intros Hup Hwf. unfold Stats. assert (reads w w) as HR by done. revert HR.
  generalize w at 2 3. intros w0 HR. do 7 next_read Hup. cbn [run exec].
  do 2 eexists. split; [reflexivity|]. split; [done|]. cbn -[size].
  split; [done|]. split; [done|]. split; [done|]. split.
  - split; [lia|]. apply inj_le. unfold tcount. apply map_subseteq_size, map_filter_subseteq.
  - intros Hp. rewrite <- !Nat2Z.inj_add. f_equal. apply tcount_partition.
    intros k u Hu. pose proof (Hp _ (wf_users_plan _ Hwf _ _ Hu)) as Hin. unfold known_plans in Hin.
    rewrite !elem_of_cons, elem_of_nil in Hin. by destruct Hin as [->|[->|[->|[]]]].
Qed.

(** ** Paging *)

(** Every user the search matches, by descending ID, with the number of
    containers. *)
Definition matches (pattern : string) (db : DB) : list ((Z * user_row) * nat) :=
  map (fun kr => (kr, tcount (fun _ r => bool_decide (c_user_id r = kr.1)) (containers db)))
    (merge_sort (desc_by fst)
       (tselect (fun _ r => lower_like pattern (u_email r) || lower_like pattern (u_name r)) (users db))).

(** Rows that scan: neither name nor e-mail is NULL. *)
Definition scannable (row : (Z * user_row) * nat) : Prop :=
  is_Some (u_name row.1.2) /\ is_Some (u_email row.1.2).

Definition full_item (row : (Z * user_row) * nat) : AdminUser := (scan_admin_user row).1.

Lemma collect_users_all l : Forall scannable l -> collect_users l = map full_item l.
Proof.
  induction 1 as [|[[i r] n] l [[name Hn] [email He]] _ IH]; [done|]. simpl in *.
  unfold full_item, scan_admin_user. rewrite Hn, He, IH. done.
Qed.

Lemma list_users_run rq w : sql_up env ->
  let offset := page_offset (page_of rq) in
  exists w', reads w w' /\ run env (ListUsers rq) w =
    (if offset <? 0 then internal_error
     else success (JArr (map json_AdminUser (collect_users
            (take 20 (drop (Z.to_nat offset) (matches (search_pattern rq) (w_db w))))))) StatusOK, w').
Proof.
  intros Hup offset. unfold ListUsers. assert (reads w w) as HR by done. next_read Hup.
  exists w0. split; [done|]. cbn [exec]. unfold sql_search_users.
  fold offset. destruct (offset <? 0); [done|]. cbn [fst on_ok run]. unfold matches.
  by rewrite <- firstn_map, <- skipn_map.
Qed.

Lemma page_offset_small p : 0 <= p < 2 ^ 32 -> page_offset (p + 1) = 20 * p.
Proof. intros H. unfold page_offset. rewrite wrap_i64_id; unfold int64_min, int64_max; lia. Qed.

(** The chunks of twenty, one after the other, are the list. *)
Lemma chunks_concat {A B} (f : A -> B) n k (l : list A) :
  concat (map (fun p => map f (take 20 (drop (20 * p) l))) (seq k n)) =
  map f (take (20 * n) (drop (20 * k) l)).
Proof.
  revert k. induction n as [|n IH]; intros k; [done|]. cbn [seq map concat]. rewrite IH.
  rewrite <- map_app. f_equal. replace (20 * S k)%nat with (20 * k + 20)%nat by lia.
  rewrite <- drop_drop. replace (20 * S n)%nat with (20 + 20 * n)%nat by lia.
  generalize (drop (20 * k) l). intros m. apply take_take_drop.
Qed.

(** Pages cover the search: with the database up, and as long as the matching
    users have a name and an e-mail, page [p] lists the [p]-th twenty matching
    users by descending ID with the sizes of their container lists, so that the
    pages from 1 on, one after the other, list every match exactly once. *)
Theorem pages_cover rq w n :
  sql_up env -> Forall scannable (matches (search_pattern rq) (w_db w)) ->
  (length (matches (search_pattern rq) (w_db w)) <= 20 * n)%nat -> Z.of_nat n < 2 ^ 32 ->
  exists pages : list (list AdminUser), length pages = n /\
    concat pages = map full_item (matches (search_pattern rq) (w_db w)) /\
    forall rq' p items, query rq' "search" = query rq "search" -> pages !! p = Some items ->
      page_of rq' = Z.of_nat p + 1 ->
      exists w', reads w w' /\ run env (ListUsers rq') w = (success (JArr (map json_AdminUser items)) StatusOK, w').
Proof.
  intros Hup Hs Hl Hn. set (ms := matches (search_pattern rq) (w_db w)) in *.
  exists (map (fun p => map full_item (take 20 (drop (20 * p) ms))) (seq 0 n)).
  split; [by rewrite length_map, length_seq|]. split.
  { rewrite chunks_concat. rewrite drop_0, take_ge by lia. done. }
  intros rq' p items Hq Hp Hpage.
  assert (p < n)%nat as Hlt.
  { apply lookup_lt_Some in Hp. by rewrite length_map, length_seq in Hp. }
  rewrite list_lookup_fmap, (proj2 (lookup_seq _ _ _ _)) in Hp by (split; [reflexivity|done]).
  injection Hp as <-. destruct (list_users_run rq' w Hup) as (w' & HR & E). exists w'. split; [done|].
  rewrite E, Hpage, page_offset_small by lia. destruct (20 * Z.of_nat p <? 0) eqn:Ez; [lia|].
  replace (Z.to_nat (20 * Z.of_nat p)) with (20 * p)%nat by lia.
  assert (search_pattern rq' = search_pattern rq) as -> by (unfold search_pattern; by rewrite Hq).
  rewrite collect_users_all; [done|]. by apply Forall_take, Forall_drop.
Qed.

(** ** Changing accounts *)

(** Tables whose rows refer to existing rows have nothing to cascade. *)
Lemma cascade_id db : wf_db db -> cascade db = db.
Proof.
  intros Hwf. destruct Hwf. unfold cascade. rewrite !all_live by done.
  assert (tdelete (fun k _ => negb (live (containers db) k.1 && live (networks db) k.2))
            (container_networks db) = container_networks db) as ->; [|by destruct db].
  apply map_eq. intros k. destruct (container_networks db !! k) as [r|] eqn:E.
  - apply lookup_tdelete_Some. split; [done|]. apply negb_false_iff, andb_true_iff.
    rewrite !live_true. by eapply wf_cnets.
  - apply lookup_tdelete_None. by left.
Qed.

Lemma tcount_key {R} (i : Z) (t : gmap Z R) :
  tcount (fun k _ => bool_decide (k = i)) t = if live t i then 1%nat else 0%nat.
Proof.
  destruct (live t i) eqn:E; unfold live in E; destruct (t !! i) as [r|] eqn:Hi; try done.
  - rewrite <- (insert_delete_id t i r Hi), tcount_insert by apply lookup_delete_eq.
    rewrite bool_decide_eq_true_2 by done. f_equal. apply tcount_zero. intros k r'.
    rewrite lookup_delete_Some. intros [Hne _]. by apply bool_decide_eq_false.
  - apply tcount_zero. intros k r' Hk. apply bool_decide_eq_false. congruence.
Qed.

(** An administrator deletes an account: with the database up, when the path
    names an account the reply is 204, the account and every row that refers to
    it are gone, and nothing has left the process: the containers keep running
    and their folders stay.  Otherwise the reply is 404 and nothing has
    changed. *)
Theorem Admin_DeleteUser_outcome rq w :
  sql_up env -> wf_db (w_db w) -> rq_Method rq = "DELETE" ->
  let c := run env (Admin_DeleteUser rq) w in
  w_trace c.2 = w_trace w /\
  ((exists i, to_bigint (var rq "id") = Some i /\ c.1 = no_content /\ user_removed i (w_db w) (w_db c.2)) \/
   ((forall i, to_bigint (var rq "id") = Some i -> users (w_db w) !! i = None) /\
    c.1 = RespondError "user not found" StatusNotFound /\ w_db c.2 = w_db w)).
Proof.
  intros Hup Hwf Hm. unfold Admin_DeleteUser. rewrite require_method_ok by done.
  unfold perform. cbn [bind run]. rewrite run_pool_up by done. cbn [exec].
  unfold sql_delete_user, with_bigint. destruct (to_bigint (var rq "id")) as [i|]; [|by split; [|right]].
  rewrite tdelete_key, tcount_key. unfold live. destruct (users (w_db w) !! i) as [u|] eqn:Hu.
  - split; [done|]. left. exists i. split; [done|]. split; [done|]. cbn. destruct Hwf.
    split; [by eexists|]. split; [done|]. simpl. rewrite !orphans by done. by do 6 (split; [done|]).
  - split; [done|]. right. split; [by intros ? [= <-]|]. split; [done|]. cbn.
    by rewrite delete_id, set_users_id, cascade_id.
Qed.

(** A plan change names a known plan and changes nothing else: with the
    database up and the three plans in place, a request for one of them
    answers 200 and gives the account that plan and leaves every other row; it
    answers 200 as well, changing nothing, when there is no such account.  Any
    other plan answers 400 and is not looked up. *)
Theorem UpdateUserPlan_outcome rq w plan :
  sql_up env -> rq_Method rq = "PATCH" -> decode_body rq "" (dec_one "plan_id") = Ok plan ->
  Forall (fun p => live (plans (w_db w)) p = true) known_plans ->
  let c := run env (UpdateUserPlan rq) w in
  w_trace c.2 = w_trace w /\
  (plan ∈ known_plans -> forall i, to_bigint (var rq "id") = Some i ->
     c.1 = success_empty StatusOK /\
     w_db c.2 = set_users (alter (set_u_plan_id plan) i (users (w_db w))) (w_db w)) /\
  (plan ∉ known_plans -> c = (RespondError "invalid plan_id" StatusBadRequest, w)).
Proof.
  intros Hup Hm Hd Hp. unfold UpdateUserPlan. rewrite require_method_ok, Hd by done. cbn [on_ok].
  destruct (decide (plan ∈ known_plans)) as [Hin|Hin].
  2:{ by rewrite bool_decide_eq_true_2. }
  rewrite bool_decide_eq_false_2 by (intros H; by apply H).
  unfold perform. cbn [bind run]. rewrite run_pool_up by done. cbn [exec].
  unfold sql_update_plan, with_bigint. split.
  - destruct (to_bigint (var rq "id")); [|done]. by destruct (_ && _).
  - split; [|by intros H]. intros _ i ->. rewrite Forall_forall in Hp. rewrite (Hp _ Hin), andb_false_r.
    split; [done|]. cbn. f_equal. apply map_eq. intros k. rewrite lookup_tupdate.
    destruct (decide (k = i)) as [->|Hne].
    + rewrite lookup_alter_eq. by rewrite bool_decide_eq_true_2.
    + rewrite lookup_alter_ne by done. destruct (users (w_db w) !! k); [|done]. simpl.
      by rewrite bool_decide_eq_false_2.
Qed.
End Facts.

(** * Concrete requests *)

#[export, refine] Instance ascii_case : UnicodeCase := { ToLower := ascii_lower }.
Proof. done. Defined.

Definition search_request (page search : string) : Request :=
  request "GET" [] [("page", page); ("search", search)] [] no_body.

Lemma stats_exact_witness :
  exists s w', run env_ok (Stats (search_request "" "")) fixture_world
    = (success (json_AdminStats s) StatusOK, w') /\ st_TotalUsers s = 2 /\ st_RunningContainers s = 1.
Proof.
  destruct (stats_exact env_ok (search_request "" "") fixture_world env_ok_up (ok_db _ fixture_world_ok))
    as (s & w' & E & _ & H1 & _ & H3 & _).
  exists s, w'. split; [exact E|]. split; [rewrite H1; vm_compute; reflexivity|].
  rewrite H3; vm_compute; reflexivity.
Defined.

Lemma pages_cover_witness :
  length (matches (search_pattern (search_request "1" "AL")) fixture_db) = 1%nat /\
  exists pages : list (list AdminUser), length pages = 1%nat /\
    concat pages = map full_item (matches (search_pattern (search_request "1" "AL")) fixture_db).
Proof.
  split; [vm_compute; reflexivity|].
  assert (Forall scannable (matches (search_pattern (search_request "1" "AL")) (w_db fixture_world))) as Hs.
  { vm_compute. constructor; [|constructor]. split; eexists; reflexivity. }
  assert (length (matches (search_pattern (search_request "1" "AL")) (w_db fixture_world)) <= 20 * 1)%nat as Hl.
  { vm_compute. lia. }
  destruct (pages_cover env_ok (search_request "1" "AL") fixture_world 1 env_ok_up Hs Hl eq_refl)
    as (pages & H1 & H2 & _).
  exists pages. exact (conj H1 H2).
Defined.

Definition admin_delete_request : Request := request "DELETE" [] [] [("id", "1")] no_body.

Lemma Admin_DeleteUser_outcome_witness :
  let c := run env_ok (Admin_DeleteUser admin_delete_request) fixture_world in
  c.1 = no_content /\ w_trace c.2 = [] /\ users (w_db c.2) !! 1 = None /\ size (containers (w_db c.2)) = 0%nat.
Proof.
  intros c. destruct (Admin_DeleteUser_outcome env_ok admin_delete_request fixture_world env_ok_up
    (ok_db _ fixture_world_ok) eq_refl) as [Ht _].
  split; [vm_compute; reflexivity|]. split; [exact Ht|]. split; vm_compute; reflexivity.
Defined.

Definition plan_request (plan : string) : Request :=
  request "PATCH" [] [] [("id", "1")] (Ok (JObj [("plan_id", JStr plan)])).

Lemma UpdateUserPlan_outcome_witness :
  let c := run env_ok (UpdateUserPlan (plan_request "pro")) fixture_world in
  c.1 = success_empty StatusOK /\ (u_plan_id <$> users (w_db c.2) !! 1) = Some "pro".
Proof.
  intros c.
  assert (Forall (fun p => live (plans (w_db fixture_world)) p = true) known_plans) as Hp.
  { repeat constructor. }
  assert (decode_body (plan_request "pro") "" (dec_one "plan_id") = Ok "pro") as Hd by (vm_compute; reflexivity).
  destruct (UpdateUserPlan_outcome env_ok (plan_request "pro") fixture_world "pro" env_ok_up eq_refl Hd Hp)
    as (_ & H & _).
  assert ("pro" ∈ known_plans) as Hin by (right; left).
  destruct (H Hin 1 eq_refl) as [H1 H2]. split; [exact H1|]. unfold c. rewrite H2. vm_compute. reflexivity.
Defined.

(** A page number near the end of [int] wraps the offset around to a negative
    one, which the server rejects. *)
Example page_overflow :
  (run env_ok (ListUsers (search_request "9223372036854775807" "")) fixture_world).1 = internal_error.
Proof. vm_compute. reflexivity. Qed.
