(* ===== verification/Catalog.v ===== *)
(** Catalog: the public catalogues.  Templates (repository/templateRepo.go and
    service/templateHandler.go), images (service/repository.go,
    service/ImageService.go, service/ImageHndlers.go) and the plans of the
    billing page (main.go). *)

From S2P Require Import Fixtures.
From S2P Require Export Http.

Open Scope prog_scope.

(** ** Templates *)

Record TemplateRow := {
  tr_ID : Z;
  tr_Name : string;
  tr_Description : string;
  tr_Image : string;
  tr_Category : string;
  tr_Tags : Json;
  tr_Popular : bool;
  tr_Icon : string;
  tr_DefaultPorts : Json;
  tr_CreatedAt : Z;
}.

(** The row of the SELECT, [COALESCE(icon,'')] included; a NULL [created_at]
    does not scan. *)
Definition scan_template (kr : Z * template_row) : result TemplateRow :=
  let r := kr.2 in
  match tp_created_at r with
  | None => Err ErrScan
  | Some t => Ok {| tr_ID := kr.1; tr_Name := tp_name r; tr_Description := tp_description r;
                    tr_Image := tp_image r; tr_Category := tp_category r; tr_Tags := tp_tags r;
                    tr_Popular := tp_popular r; tr_Icon := default "" (tp_icon r);
                    tr_DefaultPorts := tp_default_ports r; tr_CreatedAt := t |}
  end.

Record portMapping := {
  pm_Internal : Z;
  pm_External : Z;
  pm_Protocol : string;
}.

Definition no_port : portMapping := {| pm_Internal := 0; pm_External := 0; pm_Protocol := "" |}.

Definition dec_portMapping : Decode portMapping := dec_struct (fun cur m =>
  result_bind (dec_field "internal" dec_int (pm_Internal cur) m) (fun i =>
  result_bind (dec_field "external" dec_int (pm_External cur) m) (fun e =>
  result_map (fun p => {| pm_Internal := i; pm_External := e; pm_Protocol := p |})
    (dec_field "protocol" dec_string (pm_Protocol cur) m)))).

(** [json.Unmarshal(raw, &xs)] into a nil slice, [xs = []T{}] on an error: nil
    ([None]) is kept for [null]. *)
Definition unmarshal_slice {A} (zero : A) (dec : Decode A) (raw : Json) : option (list A) :=
  match raw with
  | JNull => None
  | _ => Some (match dec_slice zero dec [] raw with Ok l => l | Err _ => [] end)
  end.

Record templateResponse := {
  te_ID : string;
  te_Name : string;
  te_Description : string;
  te_Image : string;
  te_Category : string;
  te_Tags : option (list string);
  te_Popular : bool;
  te_Icon : string;
  te_DefaultPorts : option (list portMapping);
}.

Definition toResponse (t : TemplateRow) : result templateResponse :=
  let tags := unmarshal_slice "" dec_string (tr_Tags t) in
  let ports := unmarshal_slice no_port dec_portMapping (tr_DefaultPorts t) in
  Ok {| te_ID := itoa (tr_ID t); te_Name := tr_Name t; te_Description := tr_Description t;
        te_Image := tr_Image t; te_Category := tr_Category t; te_Tags := tags;
        te_Popular := tr_Popular t; te_Icon := tr_Icon t; te_DefaultPorts := ports |}.

Definition json_portMapping (p : portMapping) : Json :=
  JObj [("internal", JInt (pm_Internal p)); ("external", JInt (pm_External p));
        ("protocol", JStr (pm_Protocol p))].

Definition json_slice {A} (f : A -> Json) (l : option (list A)) : Json :=
  json_opt (fun l => JArr (map f l)) l.

Definition json_templateResponse (t : templateResponse) : Json :=
  JObj ([("id", JStr (te_ID t)); ("name", JStr (te_Name t)); ("description", JStr (te_Description t));
         ("image", JStr (te_Image t)); ("category", JStr (te_Category t));
         ("tags", json_slice JStr (te_Tags t)); ("popular", JBool (te_Popular t))]
        ++ omit_empty_string "icon" (te_Icon t)
        ++ [("defaultPorts", json_slice json_portMapping (te_DefaultPorts t))]).

(** [for .. { resp, err := toResponse(row); if err != nil { continue }; append }] *)
Fixpoint responses (rows : list TemplateRow) : list templateResponse :=
  match rows with
  | [] => []
  | row :: rows' => match toResponse row with
                    | Ok resp => resp :: responses rows'
                    | Err _ => responses rows'
                    end
  end.

Section Catalog.
Context {PG : Postgres}.

(** [category != "" && category != "all"] *)
Definition category_filter (category : string) : option string :=
  if bool_decide (category <> "") && bool_decide (category <> "all") then Some category else None.

Definition GetTemplates (category : string) : Prog (result (list TemplateRow)) :=
  dbRows <-? perform (ESql Pool (SelectTemplates (category_filter category))) wrap "query templates: " ;;
  Ret (wrap_err "scan template row: " (scan_all scan_template dbRows)).

Definition GetTemplateByID (id : string) : Prog (result TemplateRow) :=
  t <-? perform (ESql Pool (SelectTemplate id)) wrap (cat ["get template "; id; ": "]) ;;
  Ret (wrap_err (cat ["get template "; id; ": "]) (scan_template t)).

Definition ListTemplates : Handler := fun rq =>
  require_method "GET" "method not allowed" rq (
  rows <- GetTemplates (query rq "category") ;;
  on_ok rows (fun e => RespondError (cat ["failed to fetch templates: "; error_text e])
                         StatusInternalServerError) (fun rows =>
  Ret (success (JArr (map json_templateResponse (responses rows))) StatusOK))).

Definition GetTemplate : Handler := fun rq =>
  require_method "GET" "method not allowed" rq (
  require_value (var rq "id") "id is required" (
  row <- GetTemplateByID (var rq "id") ;;
  on_ok row (fun _ => RespondError "template not found" StatusNotFound) (fun row =>
  on_ok (toResponse row) (fun _ => RespondError "failed to serialize template" StatusInternalServerError)
    (fun resp => Ret (success (json_templateResponse resp) StatusOK))))).

(** ** Images *)

Record ImageInfo := {
  ii_ID : Z;
  ii_Name : string;
  ii_Tag : string;
  ii_CreatedAt : Z;
}.

Definition scan_image (kr : Z * image_row) : result ImageInfo :=
  match im_created_at kr.2 with
  | None => Err ErrScan
  | Some t => Ok {| ii_ID := kr.1; ii_Name := im_name kr.2; ii_Tag := im_tag kr.2; ii_CreatedAt := t |}
  end.

Definition repo_GetImages (db : Conn) : Prog (result (list ImageInfo)) :=
  rows <-? perform (ESql db SelectImages) ;;
  Ret (scan_all scan_image rows).

Definition service_GetImages : Prog (result (list ImageInfo)) := repo_GetImages Pool.
Definition handler_GetImages : Prog (result (list ImageInfo)) := service_GetImages.

(** ** Plans *)

Definition json_PlanItem (kr : string * plan_row) : Json :=
  let p := kr.2 in
  JObj [("id", JStr kr.1); ("name", JStr (pl_name p)); ("max_containers", JInt (pl_max_containers p));
        ("auto_stop_minutes", JInt (pl_auto_stop_minutes p));
        ("price_usd_cents", JInt (pl_price_usd_cents p))].

Definition bare_status (status : Z) : Reply := {| rp_Status := status; rp_Headers := []; rp_Body := NoBody |}.

Definition Plans : Handler := fun rq =>
  rows <- perform (ESql Pool SelectPlans) ;;
  on_ok rows (fun _ => bare_status StatusInternalServerError) (fun rows =>
  Ret (success (JArr (map json_PlanItem rows)) StatusOK)).
End Catalog.

(** * Facts *)

Section Facts.
Context {PG : Postgres} (env : Env).

Lemma scan_all_ok {A B} (scan : A -> result B) l ys :
  scan_all scan l = Ok ys <-> Forall2 (fun x y => scan x = Ok y) l ys.
Proof.
  revert ys. induction l as [|x l IH]; intros ys; simpl.
  - split; [intros [= <-]; constructor|]. by inversion 1.
  - split.
    + destruct (scan x) as [y|] eqn:Hx; [|done]. simpl. destruct (scan_all scan l) as [ys'|] eqn:Hl; [|done].
      intros [= <-]. constructor; [done|]. by apply IH.
    + inversion 1 as [|? y ? ys' Hx Hl]; subst. rewrite Hx. simpl. apply IH in Hl. by rewrite Hl.
Qed.

(** What the row [kr] is answered with. *)
Definition answers (kr : Z * template_row) (resp : templateResponse) : Prop :=
  te_ID resp = itoa kr.1 /\ te_Name resp = tp_name kr.2 /\ te_Description resp = tp_description kr.2 /\
  te_Image resp = tp_image kr.2 /\ te_Category resp = tp_category kr.2 /\ te_Popular resp = tp_popular kr.2 /\
  te_Icon resp = default "" (tp_icon kr.2) /\
  te_Tags resp = unmarshal_slice "" dec_string (tp_tags kr.2) /\
  te_DefaultPorts resp = unmarshal_slice no_port dec_portMapping (tp_default_ports kr.2).

Lemma responses_answer l : Forall (fun kr => is_Some (tp_created_at kr.2)) l ->
  exists rows, scan_all scan_template l = Ok rows /\ Forall2 answers l (responses rows).
Proof.
  induction 1 as [|[i r] l [t Ht] _ (rows & E & IH)]; [by exists []; split; [|constructor]|].
  assert (exists row, scan_template (i, r) = Ok row /\ forall resp, toResponse row = Ok resp -> answers (i, r) resp)
    as (row & Hrow & Hans).
  { unfold scan_template. simpl in Ht |- *. rewrite Ht. eexists. split; [reflexivity|]. by intros ? [= <-]. }
  exists (row :: rows). cbn [scan_all]. rewrite Hrow, E. split; [done|].
  cbn [responses]. unfold toResponse at 1. constructor; [by apply Hans|exact IH].
Qed.

Lemma tselect_ext {K R} `{Countable K} (p q : K -> R -> bool) (t : gmap K R) :
  (forall k r, p k r = q k r) -> tselect p t = tselect q t.
Proof. intros Hpq. unfold tselect. f_equal. apply map_filter_ext. intros k r _. simpl. by rewrite Hpq. Qed.

(** The templates of a category; all of them for the empty one and [all]. *)
Definition in_category (category : string) (r : template_row) : bool :=
  bool_decide (category = "") || bool_decide (category = "all") || bool_decide (tp_category r = category).
Definition selected (category : string) (db : DB) : list (Z * template_row) :=
  tselect (fun _ r => in_category category r) (templates db).

Lemma category_filter_spec category (r : template_row) :
  match category_filter category with Some c => bool_decide (tp_category r = c) | None => true end
  = in_category category r.
Proof.
  unfold category_filter, in_category. destruct (decide (category = "")) as [->|H1]; [done|].
  rewrite (bool_decide_eq_false_2 _ H1). destruct (decide (category = "all")) as [->|H2]; [done|].
  rewrite (bool_decide_eq_false_2 _ H2), (bool_decide_eq_true_2 _ H1), (bool_decide_eq_true_2 _ H2). done.
Qed.

(** No popular template after one that is not. *)
Definition popular_first (l : list (Z * template_row)) : Prop :=
  StronglySorted (fun a b => tp_popular b.2 = true -> tp_popular a.2 = true) l.

Lemma sorted_popular l : Sorted template_le l -> popular_first l.
Proof.
  intros Hs. apply Sorted_StronglySorted; [intros a b c; auto|].
  induction Hs as [|a l Hs IH Ha]; constructor; [done|].
  destruct Ha as [|b l Hab]; constructor. revert Hab. unfold template_le, template_before.
  by destruct (tp_popular a.2), (tp_popular b.2).
Qed.

Lemma template_le_total : (forall s t, text_leb s t = true \/ text_leb t s = true) -> Total template_le.
Proof.
  intros Ht a b. unfold template_le, template_before.
  destruct (tp_popular a.2), (tp_popular b.2); auto.
Qed.

(** The catalogue is complete and ordered: with the database up and a total
    collation, [ListTemplates] answers with one item for every template of the
    category (of every category for none or [all]), each carrying its row's
    columns, the popular ones first; one row without a creation time turns the
    whole reply into a 500. *)
Theorem ListTemplates_complete rq w :
  sql_up env -> rq_Method rq = "GET" ->
  (forall s t, text_leb s t = true \/ text_leb t s = true) ->
  let c := run env (ListTemplates rq) w in
  reads w c.2 /\
  (Forall (fun kr => is_Some (tp_created_at kr.2)) (selected (query rq "category") (w_db w)) ->
   exists krs resps, krs ≡ₚ selected (query rq "category") (w_db w) /\ popular_first krs /\
     Forall2 answers krs resps /\ c.1 = success (JArr (map json_templateResponse resps)) StatusOK) /\
  ((exists kr, kr ∈ selected (query rq "category") (w_db w) /\ tp_created_at kr.2 = None) ->
   rp_Status c.1 = StatusInternalServerError).
Proof.
  intros Hup Hm Ht c. split.
  { apply run_reads. unfold ListTemplates, GetTemplates. repeat handler_step. }
  pose proof (template_le_total Ht) as HT.
  set (krs := merge_sort template_le (selected (query rq "category") (w_db w))).
  assert (krs ≡ₚ selected (query rq "category") (w_db w)) as Hperm by apply merge_sort_Permutation.
  assert (c.1 = (run env (on_ok (wrap_err "scan template row: " (scan_all scan_template krs))
     (fun e => RespondError (cat ["failed to fetch templates: "; error_text e]) StatusInternalServerError)
     (fun rows => Ret (success (JArr (map json_templateResponse (responses rows))) StatusOK))) w).1) as ->.
  { unfold c, ListTemplates, GetTemplates. rewrite require_method_ok by done.
    unfold perform. cbn [bind run]. rewrite run_pool_up by done. cbn [exec fst snd].
    unfold sql_select_templates.
    rewrite (tselect_ext _ (fun _ r => in_category (query rq "category") r)).
    2:{ intros _ r. apply category_filter_spec. }
    cbn [bind run]. change (tselect _ _) with (selected (query rq "category") (w_db w)).
    fold krs. cbn [fst snd bind run]. fold krs. by destruct (wrap_err _ _). }
  split.
  - intros Hall. assert (Forall (fun kr => is_Some (tp_created_at kr.2)) krs) as Hall'.
    { rewrite Forall_forall in Hall |- *. intros kr Hin. apply Hall. by rewrite <- Hperm. }
    clear Hall. destruct (responses_answer _ Hall') as (rows & E & Hans).
    exists krs, (responses rows). split; [done|]. split; [by apply sorted_popular, Sorted_merge_sort|].
    split; [done|]. by rewrite E.
  - intros (kr & Hin & Hn). destruct (scan_all scan_template krs) as [rows|e] eqn:E; [exfalso|done].
    apply scan_all_ok in E. rewrite <- Hperm in Hin. apply list_elem_of_lookup in Hin as [i Hi].
    destruct (Forall2_lookup_l _ _ _ _ _ E Hi) as (y & _ & Hy). unfold scan_template in Hy. by rewrite Hn in Hy.
Qed.

(** ** The JSON columns *)

Definition json_tags (l : list string) : Json := JArr (map JStr l).
Definition port_ok (p : portMapping) : Prop :=
  int64_min <= pm_Internal p <= int64_max /\ int64_min <= pm_External p <= int64_max.

Lemma dec_elems_map {A} (zero : A) (dec : Decode A) (enc : A -> Json) (P : A -> Prop) l :
  (forall a, P a -> dec zero (enc a) = Ok a) -> Forall P l -> dec_elems zero dec [] (map enc l) = Ok l.
Proof. intros Hd. induction 1 as [|a l Ha _ IH]; [done|]. simpl. by rewrite Hd, IH. Qed.

Lemma dec_portMapping_json p : port_ok p -> dec_portMapping no_port (json_portMapping p) = Ok p.
Proof.
  intros [Hi He]. destruct p as [i e s]. unfold dec_portMapping, json_portMapping, dec_field. simpl in *.
  unfold name_matches. vm_compute fold_name. cbn -[int64_min int64_max].
  by rewrite !bool_decide_eq_true_2.
Qed.

(** What the migrations write is what the API shows: a template whose columns
    hold an array of strings and an array of port mappings is answered with
    those arrays, and any other content (but [null]) with empty ones instead of
    an error. *)
Theorem template_columns_roundtrip t tags ports :
  Forall port_ok ports ->
  (tr_Tags t = json_tags tags -> tr_DefaultPorts t = JArr (map json_portMapping ports) ->
   exists resp, toResponse t = Ok resp /\ te_Tags resp = Some tags /\ te_DefaultPorts resp = Some ports /\
     json_slice JStr (te_Tags resp) = tr_Tags t /\
     json_slice json_portMapping (te_DefaultPorts resp) = tr_DefaultPorts t) /\
  (forall e, tr_Tags t <> JNull -> dec_slice "" dec_string [] (tr_Tags t) = Err e ->
     exists resp, toResponse t = Ok resp /\ te_Tags resp = Some []).
Proof.
  intros Hports. split.
  - intros Ht Hp. eexists. split; [reflexivity|]. cbn [te_Tags te_DefaultPorts]. rewrite Ht, Hp.
    unfold json_tags. cbn [unmarshal_slice dec_slice].
    rewrite (dec_elems_map "" dec_string JStr (fun _ => True)) by (auto; by apply Forall_true).
    rewrite (dec_elems_map no_port dec_portMapping json_portMapping port_ok)
      by (auto using dec_portMapping_json).
    done.
  - intros e Hn He. eexists. split; [reflexivity|]. cbn [te_Tags]. unfold unmarshal_slice.
    rewrite He. by destruct (tr_Tags t).
Qed.

(** The billing page lists every plan once, cheapest first. *)
Theorem plans_complete rq w :
  sql_up env ->
  exists krs w', run env (Plans rq) w = (success (JArr (map json_PlanItem krs)) StatusOK, w') /\ reads w w' /\
    krs ≡ₚ map_to_list (plans (w_db w)) /\
    StronglySorted (asc_by (fun kr => pl_price_usd_cents kr.2)) krs.
Proof.
  intros Hup. eexists _, (run env (Plans rq) w).2. split.
  { rewrite (surjective_pairing (run env (Plans rq) w)) at 1. f_equal. unfold Plans, perform.
    cbn [bind run]. rewrite run_pool_up by done. reflexivity. }
  split; [apply run_reads; unfold Plans; repeat handler_step|].
  split; [apply merge_sort_Permutation|]. apply Sorted_StronglySorted; [|by apply Sorted_merge_sort, _].
  intros a b c. unfold asc_by. lia.
Qed.
End Facts.

(** * Concrete catalogues *)

Definition nginx : template_row :=
  {| tp_name := "Nginx"; tp_description := "web server"; tp_image := "nginx:alpine"; tp_category := "web";
     tp_tags := json_tags ["web"; "http"]; tp_popular := true; tp_icon := Some "nginx";
     tp_default_ports := JArr [json_portMapping {| pm_Internal := 80; pm_External := 8080; pm_Protocol := "tcp" |}];
     tp_created_at := Some 10 |}.
Definition alpine : template_row :=
  {| tp_name := "Alpine"; tp_description := "small Linux"; tp_image := "alpine:latest"; tp_category := "tools";
     tp_tags := JNull; tp_popular := false; tp_icon := None; tp_default_ports := JStr "none";
     tp_created_at := Some 11 |}.
Definition catalog_db : DB :=
  {| users := ∅; containers := ∅; plans := plans seed_db; email_tokens := ∅; notifications := ∅;
     api_keys := ∅; networks := ∅; container_networks := ∅; audit_log := ∅;
     templates := <[1 := alpine]> (<[2 := nginx]> ∅); images := ∅ |}.
Definition catalog_world : World := world_of catalog_db.
Definition catalog_request (category : string) : Request :=
  request "GET" [] [("category", category)] [] no_body.

Lemma text_leb_total s t : text_leb s t = true \/ text_leb t s = true.
Proof.
  simpl. unfold String.ltb. rewrite (String.compare_antisym t s).
  destruct (String.compare s t); simpl; auto.
Qed.

Lemma ListTemplates_complete_witness :
  let c := run env_ok (ListTemplates (catalog_request "all")) catalog_world in
  reads catalog_world c.2 /\ exists krs, krs ≡ₚ selected "all" (w_db catalog_world) /\ popular_first krs.
Proof.
  intros c.
  destruct (ListTemplates_complete env_ok (catalog_request "all") catalog_world (fun n => eq_refl) eq_refl
    text_leb_total) as (HR & H & _).
  split; [exact HR|].
  assert (Forall (fun kr => is_Some (tp_created_at kr.2)) (selected "all" (w_db catalog_world))) as Hf.
  { vm_compute. repeat (constructor; [eexists; reflexivity|]). constructor. }
  destruct (H Hf) as (krs & resps & H1 & H2 & _). exists krs. exact (conj H1 H2).
Defined.

Example catalog_order :
  (run env_ok (ListTemplates (catalog_request "")) catalog_world).1
  = success (JArr (map json_templateResponse
      [ {| te_ID := "2"; te_Name := "Nginx"; te_Description := "web server"; te_Image := "nginx:alpine";
           te_Category := "web"; te_Tags := Some ["web"; "http"]; te_Popular := true; te_Icon := "nginx";
           te_DefaultPorts := Some [{| pm_Internal := 80; pm_External := 8080; pm_Protocol := "tcp" |}] |};
        {| te_ID := "1"; te_Name := "Alpine"; te_Description := "small Linux"; te_Image := "alpine:latest";
           te_Category := "tools"; te_Tags := None; te_Popular := false; te_Icon := "";
           te_DefaultPorts := Some [] |} ])) StatusOK.
Proof. vm_compute. reflexivity. Qed.

Definition nginx_row : TemplateRow :=
  {| tr_ID := 2; tr_Name := "Nginx"; tr_Description := ""; tr_Image := "nginx:alpine"; tr_Category := "web";
     tr_Tags := json_tags ["web"]; tr_Popular := true; tr_Icon := "";
     tr_DefaultPorts := JArr (map json_portMapping [{| pm_Internal := 80; pm_External := 8080; pm_Protocol := "tcp" |}]);
     tr_CreatedAt := 10 |}.

Lemma template_columns_roundtrip_witness :
  exists resp, toResponse nginx_row = Ok resp /\ te_Tags resp = Some ["web"].
Proof.
  assert (Forall port_ok [{| pm_Internal := 80; pm_External := 8080; pm_Protocol := "tcp" |}]) as Hp.
  { constructor; [|constructor]. unfold port_ok, int64_min, int64_max. simpl. lia. }
  destruct (template_columns_roundtrip nginx_row ["web"] _ Hp) as [H _].
  destruct (H eq_refl eq_refl) as (resp & H1 & H2 & _). exists resp. exact (conj H1 H2).
Defined.

Lemma plans_complete_witness :
  exists krs w', run env_ok (Plans (catalog_request "")) catalog_world
    = (success (JArr (map json_PlanItem krs)) StatusOK, w') /\
    krs ≡ₚ map_to_list (plans seed_db) /\ StronglySorted (asc_by (fun kr => pl_price_usd_cents kr.2)) krs.
Proof.
  destruct (plans_complete env_ok (catalog_request "") catalog_world (fun n => eq_refl))
    as (krs & w' & E & _ & Hp & Hs).
  exists krs, w'. exact (conj E (conj Hp Hs)).
Defined.
