(* ===== verification/Middleware.v ===== *)
(** Middleware: the layers around every handler.  Client addresses and the rate
    limiter (middlware/ratelimit.go), cross-origin headers
    (middlware/cors.go), the audit log (middlware/audit.go), panic recovery
    (middlware/recovery.go) and the request log (middlware/logging.go).

    The limiter's map holds pointers: a visitor refers to a limiter in a heap
    that only grows, as a request may hold on to a limiter whose visitor is
    being removed.  [golang.org/x/time/rate] is the parameter [RateLib]. *)

From S2P Require Import Fixtures.
From S2P Require Export GoNet Http GoTime.

Open Scope prog_scope.

(** * The client of a request *)

Definition clientIP (rq : Request) : string :=
  if bool_decide (header rq "X-Real-IP" <> "") then header rq "X-Real-IP"
  else if bool_decide (header rq "X-Forwarded-For" <> "") then
    match SplitHostPort (header rq "X-Forwarded-For") with
    | Ok (h, _) => h
    | Err _ => header rq "X-Forwarded-For"
    end
  else match SplitHostPort (rq_RemoteAddr rq) with Ok (host, _) => host | Err _ => "" end.

(** * The rate limiter *)

(** The verdicts of a limiter at a sequence of instants. *)
Fixpoint verdicts {L} (allow : Z -> L -> bool * L) (l : L) (ts : list Z) : list bool :=
  match ts with
  | [] => []
  | t :: ts' => let '(ok, l') := allow t l in ok :: verdicts allow l' ts'
  end.

Definition passed (l : list bool) : Z := Z.of_nat (length (filter (fun b => b = true) l)).

(** The instants come in order. *)
Definition in_order (ts : list Z) : Prop := StronglySorted Z.le ts.
Definition elapsed (ts : list Z) : Z := default 0 (last ts) - default 0 (head ts).

(** A token bucket of [burst] tokens, initially full and refilled at [r] tokens
    per second; [Allow] takes a token if there is one. *)
Class RateLib := {
  Limiter : Type;
  NewLimiter : Z -> Z -> Limiter;
  Allow : Z -> Limiter -> bool * Limiter;
  Allow_full : forall r burst t, 0 <= r -> 0 < burst -> (Allow t (NewLimiter r burst)).1 = true;
  Allow_rate : forall r burst ts, 0 <= r -> 0 <= burst -> in_order ts ->
    passed (verdicts Allow (NewLimiter r burst) ts) * Second <= burst * Second + r * elapsed ts;
}.

Record visitor := {
  v_limiter : nat;
  v_lastSeen : Z;
}.

Section RateLimiter.
Context {RL : RateLib}.

(** [limiters] is the heap of [*rate.Limiter] values. *)
Record IPRateLimiter := {
  visitors : gmap string visitor;
  limiters : list Limiter;
  rl_r : Z;
  rl_burst : Z;
}.

Definition set_visitors (v : gmap string visitor) (rl : IPRateLimiter) : IPRateLimiter :=
  {| visitors := v; limiters := limiters rl; rl_r := rl_r rl; rl_burst := rl_burst rl |}.
Definition set_limiters (ls : list Limiter) (rl : IPRateLimiter) : IPRateLimiter :=
  {| visitors := visitors rl; limiters := ls; rl_r := rl_r rl; rl_burst := rl_burst rl |}.

Definition NewIPRateLimiter (r burst : Z) : IPRateLimiter :=
  {| visitors := ∅; limiters := []; rl_r := r; rl_burst := burst |}.

(** [now]: what [time.Now()] returns. *)
Definition getLimiter (ip : string) (now : Z) (rl : IPRateLimiter) : nat * IPRateLimiter :=
  let '(ref, rl1) :=
    match visitors rl !! ip with
    | Some v => (v_limiter v, rl)
    | None => (length (limiters rl), set_limiters (limiters rl ++ [NewLimiter (rl_r rl) (rl_burst rl)]) rl)
    end in
  (ref, set_visitors (<[ip := {| v_limiter := ref; v_lastSeen := now |}]> (visitors rl1)) rl1).

(** [limiter.Allow()] through the pointer. *)
Definition allow_ref (ref : nat) (now : Z) (rl : IPRateLimiter) : bool * IPRateLimiter :=
  match limiters rl !! ref with
  | Some l => let '(ok, l') := Allow now l in (ok, set_limiters (<[ref := l']> (limiters rl)) rl)
  | None => (false, rl)
  end.

(** One pass of [cleanupLoop]; [now ip] is the clock when [ip] is visited. *)
Definition cleanup (now : string -> Z) (rl : IPRateLimiter) : IPRateLimiter :=
  set_visitors (filter (fun kv => ~ now kv.1 - v_lastSeen kv.2 > 10 * Minute) (visitors rl)) rl.

Definition quote (s : string) : string := cat [dquote; s; dquote].
Definition failure_body (message : string) : Body :=
  BodyText (cat ["{"; quote "success"; ":false,"; quote "error"; ":"; quote message; "}"]).

Definition too_many_requests : Reply :=
  {| rp_Status := StatusTooManyRequests;
     rp_Headers := [("Content-Type", "application/json"); ("Retry-After", "60")];
     rp_Body := failure_body "rate limit exceeded, please slow down" |}.

(** The request's part of the work is done with the clock at [t1] and [t2]. *)
Definition limit_Middleware (next : Handler) (rq : Request) (t1 t2 : Z) (rl : IPRateLimiter)
    : Prog Reply * IPRateLimiter :=
  let '(ref, rl1) := getLimiter (clientIP rq) t1 rl in
  let '(ok, rl2) := allow_ref ref t2 rl1 in
  (if negb ok then Ret too_many_requests else next rq, rl2).

(** ** Concurrent requests

    Between a request's [getLimiter] and its [Allow] other requests and the
    cleanup may run.  [th] names a request. *)
Inductive RlOp :=
| OpGet (th : nat) (ip : string) (now : Z)
| OpAllow (th : nat) (now : Z)
| OpCleanup (now : string -> Z).

Record RlState := {
  rs_limiter : IPRateLimiter;
  rs_held : gmap nat (string * nat);
}.

(** The next state and, for an [Allow], the address it is for, the instant and
    the verdict. *)
Definition rl_step (op : RlOp) (s : RlState) : option (string * (Z * bool)) * RlState :=
  match op with
  | OpGet th ip now =>
      let '(ref, rl) := getLimiter ip now (rs_limiter s) in
      (None, {| rs_limiter := rl; rs_held := <[th := (ip, ref)]> (rs_held s) |})
  | OpAllow th now =>
      match rs_held s !! th with
      | None => (None, s)
      | Some (ip, ref) =>
          let '(ok, rl) := allow_ref ref now (rs_limiter s) in
          (Some (ip, (now, ok)), {| rs_limiter := rl; rs_held := delete th (rs_held s) |})
      end
  | OpCleanup now => (None, {| rs_limiter := cleanup now (rs_limiter s); rs_held := rs_held s |})
  end.

Fixpoint rl_run (ops : list RlOp) (s : RlState) : list (string * (Z * bool)) * RlState :=
  match ops with
  | [] => ([], s)
  | op :: ops' =>
      let '(v, s1) := rl_step op s in
      let '(vs, s2) := rl_run ops' s1 in
      (option_list v ++ vs, s2)
  end.

(** The verdicts given to [ip]. *)
Definition verdicts_for (ip : string) (log : list (string * (Z * bool))) : list (Z * bool) :=
  omap (fun e => if bool_decide (e.1 = ip) then Some e.2 else None) log.

(** No cleanup finds [ip] idle for more than ten minutes. *)
Fixpoint stays (ip : string) (ops : list RlOp) (s : RlState) : bool :=
  match ops with
  | [] => true
  | op :: ops' =>
      match op, visitors (rs_limiter s) !! ip with
      | OpCleanup now, Some v => bool_decide (now ip - v_lastSeen v <= 10 * Minute)
      | _, _ => true
      end && stays ip ops' (rl_step op s).2
  end.

Definition rl_start (r burst : Z) : RlState :=
  {| rs_limiter := NewIPRateLimiter r burst; rs_held := ∅ |}.
End RateLimiter.

(** ** Facts of the limiter *)

Section RateLimiterFacts.
Context {RL : RateLib}.
Implicit Types (rl : IPRateLimiter) (s : RlState).

(** Each limiter of the heap belongs to the address it was made for. *)
Record owned (own : list string) s : Prop := {
  ow_length : length own = length (limiters (rs_limiter s));
  ow_visitors : forall ip v, visitors (rs_limiter s) !! ip = Some v -> own !! v_limiter v = Some ip;
  ow_held : forall th ip ref, rs_held s !! th = Some (ip, ref) -> own !! ref = Some ip;
}.

(** [ip] has one bucket, now in the state [l]; full before its first request. *)
Definition bucket_of (r burst : Z) (ip : string) (l : Limiter) (own : list string) rl : Prop :=
  rl_r rl = r /\ rl_burst rl = burst /\
  match visitors rl !! ip with
  | None => l = NewLimiter r burst /\ ip ∉ own
  | Some v => limiters rl !! v_limiter v = Some l /\ forall ref, own !! ref = Some ip -> ref = v_limiter v
  end.

Definition tracked (r burst : Z) (ip : string) (l : Limiter) s : Prop :=
  exists own, owned own s /\ bucket_of r burst ip l own (rs_limiter s).

Lemma tracked_start r burst ip : tracked r burst ip (NewLimiter r burst) (rl_start r burst).
Proof.
  exists []. split; [split; done|]. split; [done|]. split; [done|]. simpl. rewrite lookup_empty.
  split; [done|]. apply not_elem_of_nil.
Qed.

Lemma snoc_lookup_inv {A} (l : list A) x i y :
  (l ++ [x]) !! i = Some y -> l !! i = Some y \/ (i = length l /\ y = x).
Proof.
  intros [H|[Hi H]]%lookup_app_Some; [by left|]. apply list_lookup_singleton_Some in H as [H ->].
  right. split; [lia|done].
Qed.

Lemma step_get r burst ip l th ip' now s :
  tracked r burst ip l s -> tracked r burst ip l (rl_step (OpGet th ip' now) s).2.
Proof.
  intros (own & [Hlen Hv Hh] & Hr & Hb & Hip). destruct s as [rl held]. simpl in *. unfold getLimiter.
  destruct (visitors rl !! ip') as [v|] eqn:Hv'; simpl.
  - exists own. split; [split; simpl; [done|..]|].
    + intros ip1 v1 [[<- <-]|[_ H]]%lookup_insert_Some; [exact (Hv _ _ Hv')|by apply Hv].
    + intros th1 ip1 ref1 [[<- [= <- <-]]|[_ H]]%lookup_insert_Some; [exact (Hv _ _ Hv')|by eapply Hh].
    + split; [done|]. split; [done|]. simpl. rewrite lookup_insert. case_decide as E; [|done].
      subst ip'. by rewrite Hv' in Hip.
  - assert (forall i x, own !! i = Some x -> (own ++ [ip']) !! i = Some x) as Hold.
    { intros i x H. rewrite lookup_app_l; [done|]. by eapply lookup_lt_Some. }
    assert ((own ++ [ip']) !! length (limiters rl) = Some ip') as Hnew.
    { rewrite <- Hlen. by apply list_lookup_middle. }
    exists (own ++ [ip']). split; [split; simpl|].
    + rewrite !length_app. simpl. lia.
    + intros ip1 v1 [[<- <-]|[_ H]]%lookup_insert_Some; [done|by apply Hold, Hv].
    + intros th1 ip1 ref1 [[<- [= <- <-]]|[_ H]]%lookup_insert_Some; [done|by apply Hold; eapply Hh].
    + split; [done|]. split; [done|]. simpl. rewrite lookup_insert. case_decide as E.
      * subst ip'. rewrite Hv' in Hip. destruct Hip as [-> Hn]. simpl. rewrite Hr, Hb. split.
        -- by apply list_lookup_middle.
        -- intros ref [H|[-> _]]%snoc_lookup_inv; [|done]. destruct Hn. by eapply list_elem_of_lookup_2.
      * destruct (visitors rl !! ip) as [v|].
        -- destruct Hip as [H1 H2]. split; [by apply lookup_app_l_Some|].
           intros ref [H|[_ H]]%snoc_lookup_inv; [by apply H2|done].
        -- destruct Hip as [-> Hn]. split; [done|]. rewrite elem_of_app, list_elem_of_singleton. by intros [?|?].
Qed.

Lemma step_cleanup r burst ip l now s :
  tracked r burst ip l s ->
  match visitors (rs_limiter s) !! ip with
  | Some v => now ip - v_lastSeen v <= 10 * Minute
  | None => True
  end ->
  tracked r burst ip l (rl_step (OpCleanup now) s).2.
Proof.
  intros (own & [Hlen Hv Hh] & Hr & Hb & Hip) Hstay. destruct s as [rl held]. simpl in *.
  exists own. split; [split; simpl; [done| |done]|].
  - intros ip1 v1 [H _]%map_lookup_filter_Some. by apply Hv.
  - split; [done|]. split; [done|]. simpl. destruct (visitors rl !! ip) as [v|] eqn:E.
    + rewrite (map_lookup_filter_Some_2 _ _ _ v); [done|done|simpl; lia].
    + by rewrite (proj2 (map_lookup_filter_None _ _ _)) by by left.
Qed.

(** A verdict for [ip] is its own bucket's; any other leaves that bucket alone. *)
Lemma step_allow r burst ip l th now s :
  tracked r burst ip l s ->
  let '(v, s') := rl_step (OpAllow th now) s in
  match v with
  | Some (ip', (t, ok)) =>
      if bool_decide (ip' = ip) then ok = (Allow t l).1 /\ tracked r burst ip (Allow t l).2 s'
      else tracked r burst ip l s'
  | None => tracked r burst ip l s'
  end.
Proof.
  intros (own & [Hlen Hv Hh] & Hr & Hb & Hip). destruct s as [rl held]. simpl in *.
  destruct (held !! th) as [[ip' ref]|] eqn:Hth; [|by exists own].
  pose proof (Hh _ _ _ Hth) as Href.
  assert (exists l', limiters rl !! ref = Some l') as [l' Hl'].
  { apply lookup_lt_is_Some. rewrite <- Hlen. by eapply lookup_lt_Some. }
  unfold allow_ref. rewrite Hl'. destruct (Allow now l') as [ok l''] eqn:Ea. simpl.
  assert (forall x l0, bucket_of r burst ip x own (set_limiters l0 rl) -> length l0 = length (limiters rl) ->
    tracked r burst ip x {| rs_limiter := set_limiters l0 rl; rs_held := delete th held |}) as Htr.
  { intros x l0 Hx Hl0. exists own. split; [|done]. split; simpl; [by rewrite Hl0|done|].
    intros th1 ip1 ref1 [_ H]%lookup_delete_Some. by eapply Hh. }
  destruct (visitors rl !! ip) as [v|] eqn:E.
  - destruct Hip as [H1 H2]. case_bool_decide as Hne.
    + subst ip'. specialize (H2 _ Href) as Hrv. subst ref. assert (l' = l) as -> by congruence.
      rewrite Ea. split; [done|]. apply Htr; [|by rewrite length_insert].
      split; [done|]. split; [done|]. simpl. rewrite E. split; [|done].
      apply list_lookup_insert_eq. by eapply lookup_lt_Some.
    + apply Htr; [|by rewrite length_insert]. split; [done|]. split; [done|]. simpl. rewrite E. split; [|done].
      rewrite list_lookup_insert_ne; [done|]. intros ->. specialize (Hv _ _ E). congruence.
  - destruct Hip as [-> Hn]. rewrite bool_decide_eq_false_2.
    2:{ intros ->. destruct Hn. by eapply list_elem_of_lookup_2. }
    apply Htr; [|by rewrite length_insert]. split; [done|]. split; [done|]. simpl. by rewrite E.
Qed.

Lemma isolation ops r burst ip l s :
  tracked r burst ip l s -> stays ip ops s = true ->
  let vs := verdicts_for ip (rl_run ops s).1 in
  map snd vs = verdicts Allow l (map fst vs).
Proof.
  revert l s. induction ops as [|op ops IH]; intros l s Ht Hs; [done|].
  cbn [stays] in Hs. apply andb_true_iff in Hs as [Hop Hs]. cbn [rl_run].
  assert (match op with OpAllow _ _ => False | _ => True end ->
    (rl_step op s).1 = None /\ tracked r burst ip l (rl_step op s).2) as Hquiet.
  { destruct op as [th ip' now|th now|now]; [| done |]; intros _.
    - split; [|by apply step_get]. simpl. by destruct (getLimiter _ _ _).
    - split; [done|]. apply step_cleanup; [done|]. destruct (visitors _ !! ip); [|done].
      by apply bool_decide_eq_true in Hop. }
  destruct op as [th ip' now|th now|now].
  1, 3: destruct (Hquiet I) as [E Ht']; destruct (rl_step _ s) as [v s1]; simpl in E, Ht', Hs; subst v;
    specialize (IH l s1 Ht' Hs); destruct (rl_run ops s1); exact IH.
  pose proof (step_allow r burst ip l th now s Ht) as Hst.
  destruct (rl_step (OpAllow th now) s) as [[[ip' [t ok]]|] s1]; simpl in Hs.
  - unfold verdicts_for. case_bool_decide as Hne.
    + destruct Hst as [Hok Ht']. specialize (IH _ s1 Ht' Hs). destruct (rl_run ops s1). simpl.
      rewrite bool_decide_eq_true_2 by done. simpl. destruct (Allow t l) as [ok' l']. simpl in *.
      subst ok'. f_equal. exact IH.
    + specialize (IH l s1 Hst Hs). destruct (rl_run ops s1). simpl.
      rewrite bool_decide_eq_false_2 by done. exact IH.
  - specialize (IH l s1 Hst Hs). destruct (rl_run ops s1). exact IH.
Qed.

(** C20: every address has a token bucket of its own: whatever requests are in
    flight at the same time and however they interleave with the cleanup, as
    long as no cleanup finds [ip] idle for ten minutes its verdicts are those of
    one bucket asked at the same instants, so that in any such run at most
    [burst] requests, and [r] more per second, get through. *)
Theorem limiter_isolation ops ip r burst :
  0 <= r -> 0 <= burst -> stays ip ops (rl_start r burst) = true ->
  let vs := verdicts_for ip (rl_run ops (rl_start r burst)).1 in
  map snd vs = verdicts Allow (NewLimiter r burst) (map fst vs) /\
  (in_order (map fst vs) -> passed (map snd vs) * Second <= burst * Second + r * elapsed (map fst vs)).
Proof.
  intros Hr Hb Hs vs. assert (map snd vs = verdicts Allow (NewLimiter r burst) (map fst vs)) as E.
  { eapply isolation; [apply tracked_start|done]. }
  split; [exact E|]. rewrite E. by apply Allow_rate.
Qed.

(** A request from an address without a visitor is let through. *)
Lemma limit_fresh next rq t1 t2 rl :
  visitors rl !! clientIP rq = None -> 0 <= rl_r rl -> 0 < rl_burst rl ->
  (limit_Middleware next rq t1 t2 rl).1 = next rq /\
  rl_r (limit_Middleware next rq t1 t2 rl).2 = rl_r rl /\
  rl_burst (limit_Middleware next rq t1 t2 rl).2 = rl_burst rl /\
  dom (visitors (limit_Middleware next rq t1 t2 rl).2) = {[clientIP rq]} ∪ dom (visitors rl).
Proof.
  intros Hn Hr Hb. unfold limit_Middleware, getLimiter. rewrite Hn. unfold allow_ref. simpl.
  rewrite list_lookup_middle by done.
  pose proof (Allow_full (rl_r rl) (rl_burst rl) t2 Hr Hb) as Ha.
  destruct (Allow t2 _) as [ok l]. simpl in Ha. subst ok. simpl. by rewrite dom_insert_L.
Qed.

(** Serving requests one after the other, at the given pairs of instants. *)
Fixpoint limit_all (next : Handler) (rqs : list (Request * (Z * Z))) rl : list (Prog Reply) :=
  match rqs with
  | [] => []
  | (rq, (t1, t2)) :: rqs' =>
      let '(p, rl') := limit_Middleware next rq t1 t2 rl in p :: limit_all next rqs' rl'
  end.

(** The limit rests on what the client says: requests that each claim another
    address in [X-Real-IP] all reach the handler, however many and however fast. *)
Theorem spoofed_address_unlimited next rqs r burst :
  0 <= r -> 0 < burst ->
  Forall (fun x => header x.1 "X-Real-IP" <> "") rqs -> NoDup (map (fun x => header x.1 "X-Real-IP") rqs) ->
  limit_all next rqs (NewIPRateLimiter r burst) = map (fun x => next x.1) rqs.
Proof.
  intros Hr Hb Hne Hnd.
  enough (forall rl, rl_r rl = r -> rl_burst rl = burst ->
    (forall x, x ∈ rqs -> visitors rl !! header x.1 "X-Real-IP" = None) ->
    limit_all next rqs rl = map (fun x => next x.1) rqs) as H.
  { apply H; [done|done|]. intros x _. apply lookup_empty. }
  induction rqs as [|[rq [t1 t2]] rqs IH]; intros rl Hr' Hb' Hfresh; [done|].
  inv Hne as [|? ? Hrq Hne']. inv Hnd as [|? ? Hnin Hnd']. simpl in Hrq, Hnin.
  assert (clientIP rq = header rq "X-Real-IP") as Hip.
  { unfold clientIP. by rewrite bool_decide_eq_true_2. }
  destruct (limit_fresh next rq t1 t2 rl) as (E & H1 & H2 & H3).
  { rewrite Hip. apply (Hfresh (rq, (t1, t2))). left. } { lia. } { lia. }
  cbn [limit_all map]. destruct (limit_Middleware next rq t1 t2 rl) as [p rl']. cbn [fst snd] in *.
  f_equal; [done|]. apply IH; [done|done|congruence|congruence|].
  intros x Hx. apply not_elem_of_dom. rewrite H3, Hip. intros [Heq%elem_of_singleton|Hin]%elem_of_union.
  - apply Hnin. rewrite <- Heq. by apply (list_elem_of_fmap_2 (fun x => header x.1 "X-Real-IP")).
  - apply not_elem_of_dom in Hin; [done|]. apply Hfresh. by right.
Qed.
End RateLimiterFacts.

(** * Cross-origin requests *)

Definition parseAllowedOriginsHTTP (raw : string) : gset string :=
  list_to_set (filter (fun o => o <> "") (map TrimSpace (Split "," raw))).

(** [w.Header().Set(..)] before the handler runs. *)
Definition with_headers (hs : list (string * string)) (r : Reply) : Reply :=
  {| rp_Status := rp_Status r; rp_Headers := hs ++ rp_Headers r; rp_Body := rp_Body r |}.

Definition cors_headers (allowedOrigins : gset string) (origin : string) : list (string * string) :=
  if bool_decide (origin <> "") && bool_decide (origin ∈ allowedOrigins) then
    [("Access-Control-Allow-Origin", origin);
     ("Access-Control-Allow-Methods", "GET, POST, DELETE, OPTIONS, PATCH");
     ("Access-Control-Allow-Headers", "Authorization, Content-Type");
     ("Access-Control-Max-Age", "86400");
     ("Vary", "Origin")]
  else [].

(** [allowed]: the value of ALLOWED_ORIGINS. *)
Definition CORSMiddleware (allowed : string) (next : Handler) : Handler := fun rq =>
  let hs := cors_headers (parseAllowedOriginsHTTP allowed) (header rq "Origin") in
  if bool_decide (rq_Method rq = "OPTIONS") then Ret (with_headers hs no_content)
  else r <- next rq ;; Ret (with_headers hs r).

(** * The audit log *)

Section Audit.
Context {PG : Postgres}.

Definition audit_entry (action resource : string) (rq : Request) : AuditEntry :=
  {| ae_UserID := user_id rq; ae_Action := action; ae_Resource := resource; ae_ResourceID := "";
     ae_IP := clientIP rq; ae_UserAgent := header rq "User-Agent"; ae_Metadata := None |}.

Definition AuditMiddleware (action resource : string) (next : Handler) : Handler := fun rq =>
  rp <- next rq ;;
  if bool_decide (user_id rq = "") then Ret rp
  else _ <- audit_Log (audit_entry action resource rq) ;; Ret rp.
End Audit.

(** * Panics *)

(** How a handler ended: with a reply, or with a panic after having sent
    nothing or a status, headers and part of a body. *)
Inductive Outcome :=
| Finished (r : Reply)
| Panicked (sent : option (Z * list (string * string) * string)).

(** After the header has gone out, [WriteHeader] has no effect and the text of
    the error follows what was written. *)
Definition Recovery (o : Outcome) : Reply :=
  match o with
  | Finished r => r
  | Panicked None =>
      {| rp_Status := StatusInternalServerError; rp_Headers := [("Content-Type", "application/json")];
         rp_Body := failure_body "internal server error" |}
  | Panicked (Some (status, hs, text)) =>
      {| rp_Status := status; rp_Headers := hs;
         rp_Body := match failure_body "internal server error" with
                    | BodyText t => BodyText (String.append text t)
                    | b => b
                    end |}
  end.

(** * The request log *)

Inductive WriterOp := WriteHeader (code : Z) | Write (text : string).

(** The [status] field of [responseWriter] after the calls of a handler. *)
Definition rw_WriteHeader (status : Z) (op : WriterOp) : Z :=
  match op with WriteHeader code => code | Write _ => status end.
Definition rw_status (ops : list WriterOp) : Z := fold_left rw_WriteHeader ops StatusOK.

(** The status net/http sends: that of the first call that is not a 1xx
    information (101 is final), 200 when the body comes first or nothing does. *)
Fixpoint wire_status (ops : list WriterOp) : Z :=
  match ops with
  | [] | Write _ :: _ => StatusOK
  | WriteHeader code :: ops' =>
      if bool_decide (100 <= code <= 199) && bool_decide (code <> 101) then wire_status ops' else code
  end.

(** Which optional interfaces a response writer has. *)
Record Writer := {
  is_Flusher : bool;
  is_Hijacker : bool;
}.

(** [*responseWriter]: the embedded interface value contributes [Header],
    [Write] and [WriteHeader] only; [Hijack] is declared, and fails when the
    wrapped writer has none. *)
Definition responseWriter (w : Writer) : Writer := {| is_Flusher := false; is_Hijacker := true |}.
Definition Hijack (w : Writer) : result unit :=
  if is_Hijacker w then Ok tt
  else Err (ErrText "underlying ResponseWriter does not implement http.Hijacker").

Record LogLine := {
  ll_method : string;
  ll_path : string;
  ll_status : Z;
  ll_duration_ms : Z;
  ll_remote_addr : string;
}.

(** [panicked]: the handler did not return, and the line is not written. *)
Definition RequestLogger (rq : Request) (ops : list WriterOp) (panicked : bool) (start now : Z) : option LogLine :=
  if panicked then None
  else Some {| ll_method := rq_Method rq; ll_path := rq_Path rq; ll_status := rw_status ops;
               ll_duration_ms := Z.quot (now - start) 1000000; ll_remote_addr := rq_RemoteAddr rq |}.

(** * Facts *)

Lemma cut_last_app c h t : has_char c t = false -> cut_last c (String.append h (String c t)) = Some (h, t).
Proof.
  intros Ht. assert (cut_last c t = None) as Hn.
  { induction t as [|a t IH]; [done|]. simpl in *. apply orb_false_iff in Ht as [Ha Ht].
    rewrite IH by done. by rewrite Ha. }
  induction h as [|a h IH]; simpl; [by rewrite Hn, Ascii.eqb_refl|]. by rewrite IH.
Qed.

Lemma origin_allowed raw origin :
  origin ∈ parseAllowedOriginsHTTP raw <->
  origin <> "" /\ exists piece, piece ∈ Split "," raw /\ TrimSpace piece = origin.
Proof.
  unfold parseAllowedOriginsHTTP. rewrite elem_of_list_to_set, list_elem_of_filter, list_elem_of_fmap.
  split; intros [H (piece & H1 & H2)]; (split; [done|]); exists piece; by split.
Qed.

Section Facts.
Context {PG : Postgres} (env : Env).

(** A listed origin is told that it may read the reply, and no other is; but
    the request itself is served to any origin: except for OPTIONS, which never
    reaches the handler, the status, the body and every effect are the
    handler's own. *)
Theorem cors_gate allowed next rq w :
  let origin := header rq "Origin" in
  let listed := origin <> "" /\ exists piece, piece ∈ Split "," allowed /\ TrimSpace piece = origin in
  exists hs, (listed -> get_first "Access-Control-Allow-Origin" hs = origin) /\ (~ listed -> hs = []) /\
    (rq_Method rq = "OPTIONS" ->
       run env (CORSMiddleware allowed next rq) w = (with_headers hs no_content, w)) /\
    (rq_Method rq <> "OPTIONS" ->
       run env (CORSMiddleware allowed next rq) w =
       (with_headers hs (run env (next rq) w).1, (run env (next rq) w).2)).
Proof.
  intros origin listed. exists (cors_headers (parseAllowedOriginsHTTP allowed) origin).
  assert (listed <-> origin ∈ parseAllowedOriginsHTTP allowed) as Hl by (symmetry; apply origin_allowed).
  unfold cors_headers, CORSMiddleware. fold origin. split_and!.
  - intros [Ho Hp]. by rewrite (bool_decide_eq_true_2 _ Ho), (bool_decide_eq_true_2 _ (proj1 Hl (conj Ho Hp))).
  - intros H. rewrite (bool_decide_eq_false_2 (_ ∈ _)) by (by rewrite <- Hl). by rewrite andb_false_r.
  - intros Hm. by rewrite (bool_decide_eq_true_2 (_ = "OPTIONS")).
  - intros Hm. rewrite (bool_decide_eq_false_2 (_ = "OPTIONS")) by done. rewrite run_bind.
    by destruct (run env (next rq) w).
Qed.

(** Behind [AuditMiddleware] the reply is the handler's, and once the handler
    is done a signed-in request leaves one line in the audit log, with the
    user, the action, the resource and the address it came from, and no other
    row changes; a request without a user leaves none. *)
Theorem audit_outcome action resource next rq w :
  sql_up env ->
  let c := run env (next rq) w in
  let c' := run env (AuditMiddleware action resource next rq) w in
  c'.1 = c.1 /\ w_trace c'.2 = w_trace c.2 /\
  (user_id rq = "" -> c' = c) /\
  (forall i, to_bigint (user_id rq) = Some i -> user_id rq <> "" -> is_Some (users (w_db c.2) !! i) ->
   let id := e_uuid env (w_tick c.2) in audit_log (w_db c.2) !! id = None ->
   exists row, a_user_id row = i /\ a_action row = action /\ a_resource row = resource /\
     a_ip row = clientIP rq /\ a_user_agent row = header rq "User-Agent" /\
     w_db c'.2 = set_audit_log (<[id := row]> (audit_log (w_db c.2))) (w_db c.2)).
Proof.
  intros Hup. unfold AuditMiddleware. rewrite run_bind. destruct (run env (next rq) w) as [rp w1]. cbn [fst snd].
  case_bool_decide as Hu; [by split_and!|].
  rewrite run_bind. unfold audit_Log, perform. cbn [run]. rewrite run_pool_up by done. cbn [fst snd run exec].
  split; [done|]. split; [done|].
  split; [done|]. intros i Hi _ [u Hui] Hn. cbn. unfold sql_insert_audit, with_bigint. rewrite Hi.
  cbn [sql_ctx ctx_uuid]. unfold live. rewrite Hn, Hui. simpl.
  by exists {| a_user_id := i; a_action := action; a_resource := resource; a_resource_id := "";
               a_ip := clientIP rq; a_user_agent := header rq "User-Agent"; a_metadata := None;
               a_created_at := e_now env (w_tick w1) |}.
Qed.
End Facts.

(** The log's status is the one sent, unless a handler sets it twice or after
    the body. *)
Lemma logged_status ops :
  (exists code rest, ops = WriteHeader code :: map Write rest /\ ~ 100 <= code <= 199) \/ (exists rest, ops = map Write rest) ->
  rw_status ops = wire_status ops.
Proof.
  assert (forall rest s, fold_left rw_WriteHeader (map Write rest) s = s) as Hw.
  { induction rest as [|t rest IH]; intros s; [done|]. simpl. apply IH. }
  unfold rw_status. intros [(code & rest & -> & Hc)|(rest & ->)].
  - simpl. rewrite Hw, bool_decide_eq_false_2 by done. done.
  - rewrite Hw. by destruct rest.
Qed.

(** A socket address splits into the parts it was made of: a host without
    colons or brackets joined to a port by a colon, or any host without
    brackets in brackets before it, comes back with its port; so behind no
    proxy header the limiter sees the address of the connection. *)
Theorem SplitHostPort_join host port rq :
  has_char "[" host = false -> has_char "]" host = false ->
  has_char ":" port = false -> has_char "[" port = false -> has_char "]" port = false ->
  (has_char ":" host = false -> SplitHostPort (cat [host; ":"; port]) = Ok (host, port)) /\
  SplitHostPort (cat ["["; host; "]:"; port]) = Ok (host, port) /\
  (header rq "X-Real-IP" = "" -> header rq "X-Forwarded-For" = "" ->
   rq_RemoteAddr rq = cat ["["; host; "]:"; port] -> clientIP rq = host).
Proof.
  intros H1 H2 H3 H4 H5. unfold cat; cbn [fold_right]; rewrite !append_nil_r.
  assert (SplitHostPort (String.append "[" (String.append host (String.append "]:" port))) = Ok (host, port)) as Hb.
  { unfold SplitHostPort.
    replace (String.append "[" (String.append host (String.append "]:" port)))
      with (String.append (String.append (String "[" host) "]") (String ":" port)) by (by rewrite append_assoc).
    rewrite cut_last_app by done. rewrite append_assoc. cbn [String.append].
    rewrite (proj2 (cut_first_Some "]" _ host (String ":" port)) (conj eq_refl H2)).
    rewrite bool_decide_eq_false_2, bool_decide_eq_true_2 by done.
    rewrite has_char_append, H1. simpl. by rewrite H4, H5. }
  split; [|split; [exact Hb|]].
  - intros Hc. change (String.append ":" port) with (String ":" port). unfold SplitHostPort. rewrite cut_last_app by done.
    assert (has_char "[" (String.append host (String ":" port)) = false) as Hn1.
    { rewrite has_char_append, H1. simpl. by rewrite H4. }
    assert (has_char "]" (String.append host (String ":" port)) = false) as Hn2.
    { rewrite has_char_append, H2. simpl. by rewrite H5. }
    rewrite Hc, Hn1, Hn2. destruct host as [|[[] [] [] [] [] [] [] []] host]; done.
  - intros E1 E2 E3. unfold clientIP. rewrite E1, E2, E3. by rewrite Hb.
Qed.

(** * Concrete limiters and requests *)

(** A token bucket; a token is [Second] units, refilled at [bk_r] units per
    nanosecond. *)
Record bucket := {
  bk_r : Z;
  bk_burst : Z;
  bk_units : Z;
  bk_last : option Z;
}.

Definition bucket_new (r burst : Z) : bucket :=
  {| bk_r := r; bk_burst := burst; bk_units := burst * Second; bk_last := None |}.

Definition refill (t : Z) (b : bucket) : Z :=
  match bk_last b with
  | None => bk_units b
  | Some t0 => Z.min (bk_burst b * Second) (bk_units b + bk_r b * Z.max 0 (t - t0))
  end.

Definition bucket_allow (t : Z) (b : bucket) : bool * bucket :=
  let units := refill t b in
  let ok := Second <=? units in
  (ok, {| bk_r := bk_r b; bk_burst := bk_burst b; bk_units := if ok then units - Second else units;
          bk_last := Some t |}).

Lemma bucket_spent ts b t0 :
  bk_last b = Some t0 -> 0 <= bk_r b -> 0 <= bk_units b -> 0 <= bk_burst b ->
  StronglySorted Z.le (t0 :: ts) ->
  passed (verdicts bucket_allow b ts) * Second <= bk_units b + bk_r b * (default t0 (last ts) - t0).
Proof.
  revert b t0. induction ts as [|t ts IH]; intros b t0 Hl Hr Hu Hb Hs.
  { simpl. change (passed []) with 0. lia. }
  inversion Hs as [|? ? Hs' Hle]; subst. inversion Hle as [|? ? Ht _]; subst.
  cbn [verdicts]. unfold bucket_allow at 1.
  set (units := refill t b).
  assert (0 <= units <= bk_units b + bk_r b * (t - t0)) as Hun.
  { unfold units, refill. rewrite Hl, Z.max_r by lia. assert (0 <= bk_r b * (t - t0)) by nia.
    assert (0 <= bk_burst b * Second) by (unfold Second; lia). lia. }
  set (b' := {| bk_r := bk_r b; bk_burst := bk_burst b;
                bk_units := if Second <=? units then units - Second else units; bk_last := Some t |}).
  assert (default t0 (last (t :: ts)) = default t (last ts)) as -> by (rewrite last_cons; by destruct (last ts)).
  specialize (IH b' t eq_refl Hr). cbn [bk_units bk_r bk_burst b'] in IH. unfold b' in IH. cbn in IH.
  assert (passed (verdicts bucket_allow b' ts) * Second
    <= (if Second <=? units then units - Second else units) + bk_r b * (default t (last ts) - t)) as H.
  { apply IH; [|done|done]. destruct (Second <=? units) eqn:E; lia. }
  destruct (Second <=? units); unfold passed in *; cbn [filter] in *.
  - rewrite filter_cons_True by done. cbn [length]. lia.
  - rewrite filter_cons_False by done. lia.
Qed.

#[export, refine] Instance bucket_rate : RateLib := {
  Limiter := bucket; NewLimiter := bucket_new; Allow := bucket_allow;
}.
Proof.
  - intros r burst t Hr Hb. unfold bucket_allow, refill. cbn. apply Z.leb_le. unfold Second. lia.
  - intros r burst [|t ts] Hr Hb Hs.
    { change (passed _) with 0. unfold elapsed. simpl. unfold Second. lia. }
    cbn [verdicts]. unfold bucket_allow at 1. unfold refill. cbn [bk_last bucket_new bk_units bk_r bk_burst].
    pose proof (bucket_spent ts {| bk_r := r; bk_burst := burst;
      bk_units := if Second <=? burst * Second then burst * Second - Second else burst * Second;
      bk_last := Some t |} t eq_refl) as H. cbn in H.
    assert (default t (last ts) - t = elapsed (t :: ts)) as <- by (unfold elapsed; rewrite last_cons; by destruct (last ts)).
    assert (0 <= burst * Second) as H0 by (unfold Second; lia).
    destruct (Second <=? burst * Second) eqn:E; unfold passed in *; cbn [filter] in *.
    + rewrite filter_cons_True by done. cbn [length]. specialize (H Hr ltac:(lia) Hb Hs). lia.
    + rewrite filter_cons_False by done. specialize (H Hr ltac:(lia) Hb Hs). lia.
Defined.

(** Two requests of one address and one of another, interleaved, with a cleanup. *)
Definition traffic : list RlOp :=
  [OpGet 0 "198.51.100.1" 0; OpGet 1 "198.51.100.2" 1; OpAllow 1 2; OpCleanup (fun _ => 3);
   OpGet 2 "198.51.100.1" 4; OpAllow 2 5; OpAllow 0 6].

Lemma limiter_isolation_witness :
  stays "198.51.100.1" traffic (rl_start 10 1) = true /\ map snd (verdicts_for "198.51.100.1" (rl_run traffic (rl_start 10 1)).1) = [true; false].
Proof.
  assert (stays "198.51.100.1" traffic (rl_start 10 1) = true) as Hs by (vm_compute; reflexivity).
  split; [exact Hs|].
  destruct (limiter_isolation traffic "198.51.100.1" 10 1) as [H _]; [lia|lia|exact Hs|].
  rewrite H. vm_compute. reflexivity.
Defined.

Definition claiming (ip : string) : Request := request "GET" [("X-Real-IP", ip)] [] [] no_body.

Lemma spoofed_address_unlimited_witness :
  limit_all whoami [(claiming "a", (0, 0)); (claiming "b", (0, 0)); (claiming "c", (0, 0))] (NewIPRateLimiter 10 1)
  = [whoami (claiming "a"); whoami (claiming "b"); whoami (claiming "c")].
Proof.
  apply (spoofed_address_unlimited whoami [(claiming "a", (0, 0)); (claiming "b", (0, 0)); (claiming "c", (0, 0))]);
    [lia|lia| |].
  - repeat (constructor; [discriminate|]). constructor.
  - vm_compute. apply (bool_decide_unpack _). vm_compute. exact I.
Defined.

Lemma audit_outcome_witness :
  let rq := with_user "1" (request "POST" [("User-Agent", "curl")] [] [] no_body) in
  let c := run env_ok (AuditMiddleware "create" "container" whoami rq) fixture_world in
  c.1 = success (JStr "1") StatusOK /\ w_trace c.2 = [] /\ size (audit_log (w_db c.2)) = 1%nat.
Proof.
  intros rq c. destruct (audit_outcome env_ok "create" "container" whoami rq fixture_world (fun n => eq_refl))
    as (H1 & H2 & _ & H3).
  split; [exact H1|]. split; [exact H2|].
  destruct (H3 1 eq_refl) as (row & _ & _ & _ & _ & _ & Hdb); [discriminate|eexists; reflexivity|reflexivity|].
  unfold c. rewrite Hdb. reflexivity.
Defined.

Lemma SplitHostPort_join_witness :
  SplitHostPort "192.0.2.1:40000" = Ok ("192.0.2.1", "40000") /\
  SplitHostPort "[2001:db8::1]:443" = Ok ("2001:db8::1", "443").
Proof.
  split.
  - apply (SplitHostPort_join "192.0.2.1" "40000" (claiming "")); reflexivity.
  - apply (SplitHostPort_join "2001:db8::1" "443" (claiming "")); reflexivity.
Defined.

(** A list of addresses in X-Forwarded-For is taken whole. *)
Example forwarded_list :
  clientIP (request "GET" [("X-Forwarded-For", "203.0.113.7, 10.0.0.1")] [] [] no_body)
  = "203.0.113.7, 10.0.0.1".
Proof. vm_compute. reflexivity. Qed.
