(* ===== verification/ManagerProps.v ===== *)
(** ManagerProps: the properties of the container manager and of the store it
    shares with the rest of the program. *)

From S2P Require Import Fixtures.
From S2P Require Export ManagerFacts.

Definition fixture_manager : ContainerManager :=
  {| cm_basePath := "/data"; cm_autoStopTimeout := 30 * Minute |}.
Definition fixture_project (id : string) : Project :=
  {| pj_ID := id; pj_Name := "web"; pj_UserId := "1" |}.

Section Properties.
Context {PG : Postgres} (env : Env) (cm : ContainerManager).



(** C3: a successful [CreateContainer] adds exactly one row to the tables, with
    a fresh key, owned by the project's user and pointing at the container
    Docker created with the limits of the user's plan; the user was below the
    plan's limit; the one container and the one project folder it created are
    all it leaves. *)
Theorem CreateContainer_success project imageName w info w' :
  world_ok w -> run env (CreateContainer cm project imageName) w = (Ok info, w') ->
  create_ok w project imageName (project_folder cm project) w info w'.
Proof. intros Hok Hr. apply (wp_run _ _ _ _ _ _ (wp_create env cm w project imageName Hok) Hr). Qed.



(** [StartContainer] either marks exactly the container's row as running
    since now, after one start request, its restart count kept and its health
    columns reset (or kept when that statement fails), or leaves the tables as
    they were. *)
Theorem StartContainer_atomic projectID w r w' :
  world_ok w -> run env (StartContainer projectID) w = (r, w') ->
  status_post w projectID started_row (fun row => ContainerStart (c_container_id row)) r w'.
Proof. intros Hok Hr. apply (wp_run _ _ _ _ _ _ (wp_start env projectID w Hok) Hr). Qed.


(** [GetContainerInfo] changes nothing and reports the stop deadline
    [started_at + timeout] exactly for a running container with a start time. *)
Theorem GetContainerInfo_deadline projectID w info w' :
  run env (GetContainerInfo cm projectID) w = (Ok info, w') ->
  outside w w' /\ exists i row, to_bigint projectID = Some i /\ containers (w_db w) !! i = Some row /\
    Status info = c_status row /\ StartedAt info = c_started_at row /\
    (c_status row = "running" ->
       AutoStopAt info = (fun t => t + cm_autoStopTimeout cm) <$> c_started_at row) /\
    (c_status row <> "running" -> AutoStopAt info = None).
Proof.
  intros Hr. refine (wp_run env _ (fun r w' => r = Ok info -> _) w _ _ _ Hr eq_refl).
  apply wp_find_pool; [|done]. intros i0 i row w1 (Hi & Hrow & Hs) O1 _. apply wp_ret.
  destruct (scan_container_Ok _ _ _ Hs) as (_ & _ & _ & _ & _ & _ & E1 & _ & E2 & E3).
  intros [= <-]. split; [done|]. exists i, row. rewrite <- E1, <- E2.
  destruct (StartedAt i0) as [t|] eqn:Hst; [destruct (bool_decide_reflect (Status i0 = "running"))|];
    simpl; rewrite ?Hst, ?E3; by repeat split.
Qed.

(** The memory limit handed to Docker, computed with 64-bit wrap-around,
    is the plan's megabytes in bytes for every value the INT column can hold. *)
Theorem memory_bytes_exact plan : 0 <= pn_MaxMemoryMB plan <= int4_max ->
  memory_bytes plan = pn_MaxMemoryMB plan * 1048576 /\ 0 <= memory_bytes plan <= int64_max.
Proof.
  unfold int4_max. intros H. unfold memory_bytes.
  rewrite (wrap_i64_id (pn_MaxMemoryMB plan * 1024)) by (unfold int64_min, int64_max; lia).
  rewrite wrap_i64_id by (unfold int64_min, int64_max; lia). unfold int64_max. lia.
Qed.
End Properties.

(** ** Concrete runs *)

Definition start_fails : Env :=
  env_failing (fun c => match c with ContainerStart _ => true | _ => false end) (fun _ => false).
Definition inspect_fails : Env :=
  env_failing (fun c => match c with ContainerInspectPorts _ => true | _ => false end) (fun _ => false).



Lemma CreateContainer_success_witness :
  let p := CreateContainer fixture_manager (fixture_project "p2") "alpine" in
  exists info, create_ok fixture_world (fixture_project "p2") "alpine" "/data/web/p2" fixture_world info
    (run env_ok p fixture_world).2.
Proof.
  intros p. assert (is_ok (run env_ok p fixture_world).1 = true) as Ho by (vm_compute; reflexivity).
  destruct (run_success _ _ _ Ho) as [info Hr]. exists info.
  exact (CreateContainer_success _ fixture_manager _ _ _ _ _ fixture_world_ok Hr).
Defined.


(** When the inspection after a successful start fails,
    [CreateContainerWithPort] reports an error and leaves the container and its
    folder behind, with no row that refers to them. *)
Theorem CreateContainerWithPort_leaks :
  let r := run inspect_fails
             (CreateContainerWithPort fixture_manager (fixture_project "p2") "nginx" "80") fixture_world in
  is_ok r.1 = false /\ w_db r.2 = w_db fixture_world /\
  leftovers (w_trace r.2) = {[RContainer "c-new-5"; RFolder "/data/web/p2"]}.
Proof.
  intros r. split; [by vm_compute|]. split.
  - assert (is_ok r.1 = false) as He by by vm_compute. destruct (run_error _ _ _ He) as [e Hr].
    pose proof (wp_run _ _ _ _ _ _ (wp_create_port inspect_fails fixture_manager fixture_world
      (fixture_project "p2") "nginx" "80" fixture_world_ok) Hr) as [H _]. apply H.
  - apply (bool_decide_unpack _). vm_compute. exact I.
Qed.


Lemma StartContainer_atomic_witness :
  let r := run env_ok (StartContainer "1") fixture_world in
  is_ok r.1 = true /\ status_post fixture_world "1" started_row
    (fun row => ContainerStart (c_container_id row)) r.1 r.2.
Proof.
  intros r. split; [vm_compute; reflexivity|].
  exact (StartContainer_atomic env_ok "1" fixture_world r.1 r.2 fixture_world_ok (surjective_pairing _)).
Defined.


Lemma GetContainerInfo_deadline_witness :
  exists info, (run env_ok (GetContainerInfo fixture_manager "1") fixture_world).1 = Ok info /\
    AutoStopAt info = Some (30 * Minute) /\
    outside fixture_world (run env_ok (GetContainerInfo fixture_manager "1") fixture_world).2.
Proof.
  assert (is_ok (run env_ok (GetContainerInfo fixture_manager "1") fixture_world).1 = true) as Ho
    by (vm_compute; reflexivity).
  destruct (run_success _ _ _ Ho) as [info Hr]. exists info. rewrite Hr at 1. split; [done|].
  destruct (GetContainerInfo_deadline _ _ _ _ _ _ Hr) as [H1 (i & row & Hi & Hrow & H2 & H3 & H4 & _)].
  split; [|exact H1]. vm_compute in Hi. injection Hi as <-. vm_compute in Hrow. injection Hrow as <-.
  rewrite H4; reflexivity.
Defined.

Lemma memory_bytes_exact_witness :
  0 <= 512 <= int4_max /\ memory_bytes (plan_of_row "free" plan_free) = 512 * 1048576.
Proof.
  split; [vm_compute; split; discriminate|].
  apply (memory_bytes_exact (plan_of_row "free" plan_free)). vm_compute; split; discriminate.
Defined.

(** A user one container below the limit of the free plan. *)
Definition near_limit_world : World :=
  world_of (exec_all [(fixture_ctx 10 "", InsertContainer "c-10" "api" "/data/api/p10" "" "running" "1"
                                            (Some 0) "alpine")] fixture_db).

(** The plan limit is checked against what the transaction sees, without a
    lock: two creations interleaved by the same user both succeed and leave him
    above his plan's limit. *)
Theorem plan_limit_race :
  let order := List.concat (List.repeat [0; 1]%nat 40) in
  let c := sched env_ok order
             [CreateContainer fixture_manager (fixture_project "p2") "alpine";
              CreateContainer fixture_manager (fixture_project "p3") "alpine"] near_limit_world in
  world_ok near_limit_world /\
  forallb succeeded c.1 = true /\
  containers_of 1 (w_db near_limit_world) = 2%nat /\
  plan_of_user 1 (w_db c.2) = Ok ("free", plan_free) /\ pl_max_containers plan_free = 3 /\
  containers_of 1 (w_db c.2) = 4%nat.
Proof.
  intros order c. split; [apply world_of_ok, exec_all_wf, exec_all_wf, seed_db_wf|].
  do 4 (split; [vm_compute; reflexivity|]). vm_compute. reflexivity.
Qed.
