(* ===== verification/AutoStop.v ===== *)
(** AutoStop: the package installer and the auto-stop watcher of
    service/hostContainerService.go. *)

From S2P Require Import Fixtures ManagerProps.
From S2P Require Export ManagerFacts.

Section Installer.
Context {PG : Postgres} (env : Env).

Definition exec_calls (id exec_id : string) (cmd : list string) : list DockerCall :=
  [ContainerExecCreate id cmd false false; ContainerExecAttach exec_id false; ExecReadOutput exec_id].

(** The daemon accepts every call (commands may still exit with any code). *)
Definition daemon_up : Prop := forall n c, is_ok (e_docker env n c) = true.

Lemma wp_docker_up c w : daemon_up ->
  wp env (perform (EDocker c)) (fun r w' => is_ok r = true /\ calls w [c] w') w.
Proof. intros Hup. apply wp_perform. split; [apply Hup|]. by eapply calls_one. Qed.

Lemma wp_execInContainer_up id cmd w : daemon_up ->
  wp env (execInContainer id cmd)
    (fun r w' => r = Ok tt /\ exists exec_id, calls w (exec_calls id exec_id cmd) w') w.
Proof.
  intros Hup. eapply wp_seq; [by apply wp_docker_up|]. intros [x|e] w1 [H1 C1]; [|done].
  eapply wp_seq; [by apply wp_docker_up|]. intros [y|e] w2 [H2 C2]; [|done].
  eapply wp_seq; [by apply wp_docker_up|]. intros [z|e] w3 [H3 C3]; [|done].
  apply wp_ret. split; [done|]. exists x.
  apply (calls_trans _ [_] w1); [done|]. by apply (calls_trans _ [_] w2).
Qed.

(** With a daemon that accepts the calls, [installPackages] always settles
    on the first package manager of its list: the exit code of
    [command -v apt-get] is not looked at, so apt-get is run, and reported as
    a success, in every image. *)
Theorem installPackages_always_apt id packages w : daemon_up ->
  exists e1 e2,
    (run env (installPackages id packages) w).1 = Ok tt /\
    calls w (exec_calls id e1 ["sh"; "-c"; "command -v apt-get"] ++
             exec_calls id e2 ["sh"; "-c"; cat ["apt-get update && apt-get install -y ";
                                                Join " " packages]])
      (run env (installPackages id packages) w).2.
Proof.
  intros Hup. refine (wp_run _ _ (fun r w' => exists e1 e2, r = Ok tt /\ _ w') _ _ _ _ (surjective_pairing _)).
  eapply wp_seq; [by apply wp_execInContainer_up|]. intros r w1 (-> & e1 & C1).
  eapply wp_mono; [by apply wp_execInContainer_up|]. intros r w2 (-> & e2 & C2).
  exists e1, e2. split; [done|]. by eapply calls_trans.
Qed.
End Installer.

Lemma installPackages_always_apt_witness :
  daemon_up env_ok /\ exists e1 e2, calls fixture_world
    (exec_calls "c-1" e1 ["sh"; "-c"; "command -v apt-get"] ++
     exec_calls "c-1" e2 ["sh"; "-c"; "apt-get update && apt-get install -y tree"])
    (run env_ok (installPackages "c-1" ["tree"]) fixture_world).2.
Proof.
  assert (daemon_up env_ok) as Hup by (intros n c; reflexivity). split; [exact Hup|].
  destruct (installPackages_always_apt env_ok "c-1" ["tree"] fixture_world Hup) as (e1 & e2 & _ & H).
  exists e1, e2. exact H.
Defined.

Section AutoStop.
Context {PG : Postgres} (env : Env) (cm : ContainerManager).

Lemma run_world_ok {A} (p : Prog A) w : world_ok w -> world_ok (run env p w).2.
Proof. apply run_invariant, run_eff_ok. Qed.

Lemma wp_world_ok {A} (p : Prog A) Q w : world_ok w ->
  wp env p Q w -> wp env p (fun a w' => Q a w' /\ world_ok w') w.
Proof.
  intros Hok Hp. apply wp_and; [done|]. apply (run_world_ok p) in Hok.
  by apply (wp_intro env p (fun _ => world_ok)).
Qed.

(** What a pass of the watcher may do to the container [i]. *)
Definition stopped_if_expired (cutoff : Z) (i : Z) (row row' : container_row) : Prop :=
  row' = row \/ (running_before cutoff i row = true /\ row' = set_c_status "stopped" row).

(** The tables differ from [db0] only in containers stopped for being expired. *)
Definition only_expired (cutoff : Z) (db0 db : DB) : Prop :=
  exists rows, db = set_containers rows db0 /\
    forall i, option_relation (stopped_if_expired cutoff i) (fun _ => False) (fun _ => False)
                (containers db0 !! i) (rows !! i).

Lemma only_expired_stop cutoff db0 db i row row0 :
  only_expired cutoff db0 db -> containers db !! i = Some row ->
  containers db0 !! i = Some row0 -> running_before cutoff i row0 = true ->
  only_expired cutoff db0 (set_row i (set_c_status "stopped" row) db).
Proof.
  intros (rows & -> & Hrel) Hrow Hrow0 Hexp. simpl in Hrow.
  eexists. split; [reflexivity|]. intros j. simpl. destruct (decide (i = j)) as [<-|Hne].
  - rewrite lookup_insert_eq, Hrow0. simpl. right. split; [done|].
    specialize (Hrel i). rewrite Hrow0, Hrow in Hrel. simpl in Hrel.
    destruct Hrel as [->|[_ ->]]; [done|by destruct row0].
  - by rewrite lookup_insert_ne.
Qed.

Lemma only_expired_refl cutoff db : only_expired cutoff db db.
Proof.
  exists (containers db). split; [by rewrite set_containers_id|].
  intros i. destruct (containers db !! i); simpl; [by left|done].
Qed.

(** The start times of the containers the watcher selects. *)
Definition expired_list (w : World) (cutoff : Z) (l : list ContainerInfo) : Prop :=
  forall c, c ∈ l -> exists i row, containers (w_db w) !! i = Some row /\
    running_before cutoff i row = true /\ scan_container (i, row) = Ok c.

Lemma scan_all_elem {X B} (f : X -> result B) l r : scan_all f l = Ok r ->
  forall b, b ∈ r -> exists x, x ∈ l /\ f x = Ok b.
Proof.
  revert r. induction l as [|x l IH]; intros r; simpl.
  { intros [= <-] b Hb. by apply elem_of_nil in Hb. }
  destruct (f x) as [y|] eqn:E; simpl; [|done].
  destruct (scan_all f l) as [r'|]; simpl; [|done].
  intros [= <-] b [->|Hb]%elem_of_cons; [by exists x; split; [left|]|].
  destruct (IH _ eq_refl b Hb) as (x' & Hx' & ?). exists x'. by split; [right|].
Qed.

Lemma wp_expired maxAge w :
  wp env (GetRunningContainersOlderThan Pool maxAge) (fun r w' => outside w w' /\
    exists now, match r with Ok l => expired_list w (now - maxAge) l | Err _ => True end) w.
Proof.
  eapply wp_seq; [apply wp_now|]. intros now w1 [O1 T1].
  eapply wp_seq; [by apply wp_pool_read|]. intros [rows|e] w2 (O2 & T2 & H2); apply wp_ret.
  2:{ split; [by rewrite O1|]. by exists now. }
  split; [by rewrite O1|]. exists now.
  destruct (scan_all scan_container rows) as [l|e] eqn:Hl; [|done].
  intros c Hc. destruct (scan_all_elem _ _ _ Hl _ Hc) as ([i row] & Hin & Hs).
  destruct H2 as [c0 H2]. simpl in H2. injection H2 as <-.
  apply elem_of_tselect in Hin as [Hrow Hexp]. rewrite (out_db _ _ O1) in Hrow. eauto.
Qed.

Definition same_bus (w w' : World) : Prop :=
  b_chans (w_bus w') = b_chans (w_bus w) /\ b_subs (w_bus w') = b_subs (w_bus w).

(** The tables and the bus during a pass that started in [w]. *)
Record passing (w : World) (cutoff : Z) (w' : World) : Prop := {
  ps_ok : world_ok w';
  ps_db : only_expired cutoff (w_db w) (w_db w');
  ps_bus : subs_of (w_bus w) "" = [] -> same_bus w w';
}.

Lemma wp_publish_nobody u n w : world_ok w ->
  wp env (perform (EPublish u n)) (fun _ w' => w_db w' = w_db w /\
    (subs_of (w_bus w) u = [] -> same_bus w w')) w.
Proof.
  intros Hok. apply wp_perform. simpl.
  destruct (Publish_spec u n (w_bus w) (ok_bus _ Hok)) as (b' & -> & Hb & _ & Hc).
  split; [done|]. intros Hs. split; [|done]. apply map_eq. intros ch. simpl. rewrite Hc, Hs.
  rewrite decide_False; [done|]. intros H. by apply elem_of_nil in H.
Qed.

Lemma wp_auto_stop_one w cutoff c l w1 : world_ok w ->
  expired_list w cutoff l -> c ∈ l -> passing w cutoff w1 ->
  wp env (auto_stop_one c) (fun _ => passing w cutoff) w1.
Proof.
  intros Hok Hl Hc Hp. destruct (Hl c Hc) as (i & row & Hrow & Hexp & Hs).
  pose proof (scan_container_Ok _ _ _ Hs) as (_ & Hid & _ & _ & _ & _ & _ & Huser & _).
  eapply wp_seq; [apply wp_world_ok; [apply Hp|by apply wp_stop, Hp]|].
  intros [u|e] w2 [H2 Hok2].
  2:{ apply wp_ret. destruct Hp as [_ Hp Hb], H2 as [D2 _ B2]. split; [done|by rewrite D2|].
      unfold same_bus. by rewrite B2. }
  destruct H2 as (info & i' & row1 & row2 & (Hi' & Hrow1 & _) & -> & [D2 _ B2] & _).
  assert (Some i' = Some i) as [= ->].
  { rewrite <- Hi'. apply (found_project_id (w_db w) (ProjectID c) c i row); [apply Hok|].
    split; [|done]. rewrite Hid. apply bigint_text_cast.
    pose proof (wf_containers_key _ (ok_db _ Hok) i row Hrow) as Hk. unfold serial_key in Hk. lia. }
  assert (only_expired cutoff (w_db w) (w_db w2)) as Hdb2.
  { rewrite D2. eapply only_expired_stop; [apply Hp|done..]. }
  eapply wp_seq; [apply wp_world_ok; [done|apply wp_now]|]. intros now w3 [[O3 _] Hok3].
  eapply wp_mono; [by apply wp_world_ok, wp_publish_nobody|].
  intros [] w4 [(D4 & H4) Hok4]. destruct O3 as [O31 _ _ O34].
  split; [done|by rewrite D4, O31|]. intros Hsub. rewrite Huser in H4.
  destruct (ps_bus _ _ _ Hp Hsub) as [C1 S1].
  destruct H4 as [C4 S4]; [unfold subs_of; by rewrite O34, B2, S1|].
  split; [by rewrite C4, O34, B2|by rewrite S4, O34, B2].
Qed.

Lemma passing_outside w w' cutoff : world_ok w' -> outside w w' -> passing w cutoff w'.
Proof.
  intros Hok [D _ _ B]. split; [done|rewrite D; apply only_expired_refl|].
  intros _. split; by rewrite B.
Qed.

Lemma wp_pass w : world_ok w ->
  wp env (checkAndStopExpiredContainers cm)
    (fun _ w' => exists now, passing w (now - cm_autoStopTimeout cm) w') w.
Proof.
  intros Hok. eapply wp_seq; [apply wp_world_ok; [done|apply wp_expired]|].
  intros [l|e] w1 [(O1 & now & H1) Hok1].
  2:{ apply wp_ret. exists now. by apply passing_outside. }
  eapply wp_mono.
  - apply (wp_for_each env l auto_stop_one (passing w (now - cm_autoStopTimeout cm))).
    + intros c w2 Hc Hp. by eapply wp_auto_stop_one.
    + by apply passing_outside.
  - intros u w2 Hp. by exists now.
Qed.


(** The watcher's notifications reach no user: the query it reads the
    containers with does not select user_id, so each notification is published
    for the empty user ID, and the channels of all subscribers are unchanged. *)
Theorem auto_stop_notifies_nobody w : world_ok w -> subs_of (w_bus w) "" = [] ->
  same_bus w (run env (checkAndStopExpiredContainers cm) w).2.
Proof.
  intros Hok Hsub. destruct (wp_elim _ _ _ _ (wp_pass w Hok)) as [now H]. by apply H.
Qed.
End AutoStop.

(** Some container is stopped in this run, and its owner is listening. *)
Definition late_env : Env :=
  {| e_sql := e_sql env_ok; e_docker := e_docker env_ok; e_fs := e_fs env_ok; e_tar := e_tar env_ok;
     e_mail := e_mail env_ok; e_now := fun _ => 31 * Minute; e_uuid := e_uuid env_ok;
     e_rand := e_rand env_ok; e_sys := e_sys env_ok |}.
Definition listening_world : World := set_w_bus (Subscribe "1" empty_bus).2 fixture_world.

Lemma listening_world_ok : world_ok listening_world.
Proof.
  destruct fixture_world_ok as [H1 H2 H3]. split; [exact H1|apply Subscribe_inv, empty_bus_inv|exact H3].
Qed.


Lemma auto_stop_notifies_nobody_witness :
  let w' := (run late_env (checkAndStopExpiredContainers fixture_manager) listening_world).2 in
  (c_status <$> containers (w_db w') !! 1) = Some "stopped" /\ same_bus listening_world w'.
Proof.
  intros w'. split; [vm_compute; reflexivity|].
  apply (auto_stop_notifies_nobody late_env fixture_manager listening_world listening_world_ok).
  vm_compute. reflexivity.
Defined.
