(* ===== verification/Recovery.v ===== *)
(** Recovery: service/recoveryService.go and service/containerEventsService.go,
    the circuit breaker behind automatic restarts and the Docker event stream
    that drives it. *)

From S2P Require Export Repository.

Definition backoffDelays : list Z := [5 * Second; 10 * Second; 20 * Second; 40 * Second; 60 * Second].

(** [l[i]]: out of range panics. *)
Definition slice_index {A} (l : list A) (i : Z) : option A :=
  if i <? 0 then None else l !! Z.to_nat i.

Definition backoff_delay (restartCount : Z) : option Z :=
  let n := Z.of_nat (length backoffDelays) in
  let delayIdx := if n <=? restartCount then n - 1 else restartCount in
  slice_index backoffDelays delayIdx.

Section Recovery.
Context {PG : Postgres}.

Definition exec_pool (s : Stmt) : Prog unit := bind (perform (ESql Pool s)) (fun _ => Ret tt).

Definition persistAndNotify (userID : string) (n : Notification) : Prog unit :=
  exec_pool (InsertNotification userID (n_Type n) (n_Title n) (n_Body n) None) ;;;
  perform (EPublish userID n).

(** [Notification{ID: uuid.New().String(), ..., CreatedAt: time.Now()...}] *)
Definition new_notification (type title body : string) : Prog Notification :=
  id <- perform EUuid ;;
  now <- perform ENow ;;
  Ret {| n_ID := id; n_Type := type; n_Title := title; n_Body := body; n_Metadata := None;
         n_CreatedAt := RFC3339 now |}.

Definition quoted_title (projectName rest : string) : string :=
  cat ["Container "; dquote; projectName; dquote; rest].

Definition open_circuit (projectID : Z) (projectName userID : string) (restartCount : Z) : Prog unit :=
  exec_pool (OpenCircuit projectID) ;;;
  n <- new_notification "circuit_breaker_opened" (quoted_title projectName " permanently stopped")
         (cat ["Restarted "; itoa restartCount;
               " times without success. Circuit breaker opened. Fix the issue and reset manually."]) ;;
  persistAndNotify userID n.

Definition restart (dockerContainerID : string) (projectID : Z) (projectName userID : string)
    (exitCode restartCount maxRestarts : Z) : Prog unit :=
  counted <- perform (ESql Pool (IncRestart projectID)) ;;
  match counted with
  | Err _ => Ret tt
  | Ok _ =>
      restarted <- perform (EDocker (ContainerRestart dockerContainerID (Some 10))) ;;
      match restarted with
      | Err _ => exec_pool (SetStopped projectID)
      | Ok _ =>
          exec_pool (SetRunningNow projectID) ;;;
          n <- new_notification "container_restarted" (quoted_title projectName " restarted")
                 (cat ["Auto-restarted after crash (exit code "; itoa exitCode; "). Attempt ";
                       itoa (restartCount + 1); " of "; itoa maxRestarts; "."]) ;;
          persistAndNotify userID n
      end
  end.

(** [None]: the goroutine panics. *)
Definition HandleCrash (dockerContainerID : string) (exitCode : Z) : Prog (option unit) :=
  found <- perform (ESql Pool (SelectCrashInfo dockerContainerID)) ;;
  match found with
  | Err _ => Ret (Some tt)
  | Ok ((projectID, row), plan) =>
      let projectName := c_project_name row in
      let userID := bigint_text (c_user_id row) in
      let restartCount := c_restart_count row in
      let maxRestarts := pl_max_auto_restarts plan in
      if c_circuit_open row then Ret (Some tt)
      else if maxRestarts <=? restartCount
      then open_circuit projectID projectName userID restartCount ;;; Ret (Some tt)
      else match backoff_delay restartCount with
           | None => Ret None
           | Some delay =>
               perform (ESleep delay) ;;;
               restart dockerContainerID projectID projectName userID exitCode restartCount maxRestarts ;;;
               Ret (Some tt)
           end
  end.

Definition HandleOOM (dockerContainerID : string) : Prog (option unit) :=
  exec_pool (SetOom dockerContainerID) ;;; Ret (Some tt).

Definition HandleHealthChange (dockerContainerID status : string) : Prog (option unit) :=
  exec_pool (SetHealth status dockerContainerID) ;;;
  if bool_decide (status <> "unhealthy") then Ret (Some tt)
  else
    found <- perform (ESql Pool (SelectByDockerId dockerContainerID)) ;;
    match found with
    | Err _ => Ret (Some tt)
    | Ok (_, row) =>
        n <- new_notification "container_unhealthy" (quoted_title (c_project_name row) " is unhealthy")
               "Health check is failing. Check your application logs." ;;
        persistAndNotify (bigint_text (c_user_id row)) n ;;;
        Ret (Some tt)
    end.

Definition ResetCircuit (userID projectID : string) : Prog (result unit) :=
  r <- perform (ESql Pool (ResetCircuitRow projectID userID)) ;;
  Ret match r with
      | Ok (S _) => Ok tt
      | _ => Err (ErrText "container not found or access denied")
      end.

(** ** The event stream *)

Record EventMessage := {
  em_Action : string;
  em_ActorID : string;
  em_exitCode : string;
}.

(** The goroutines one message starts. *)
Definition dispatch (msg : EventMessage) : list (Prog (option unit)) :=
  if bool_decide (em_Action msg = "die") then
    let exitCode := (Atoi (em_exitCode msg)).1 in
    if bool_decide (exitCode <> 0) then [HandleCrash (em_ActorID msg) exitCode] else []
  else if bool_decide (em_Action msg = "oom") then [HandleOOM (em_ActorID msg)]
  else if bool_decide (em_Action msg = "health_status: healthy")
  then [HandleHealthChange (em_ActorID msg) "healthy"]
  else if bool_decide (em_Action msg = "health_status: unhealthy")
  then [HandleHealthChange (em_ActorID msg) "unhealthy"]
  else if bool_decide (em_Action msg = "health_status: starting")
  then [HandleHealthChange (em_ActorID msg) "starting"]
  else [].

(** What [select] picks next: the cancelled context, an error of the stream
    (which ends this subscription), or a message. *)
Inductive StreamItem := SDone | SError | SMessage (msg : EventMessage).

(** [listen]: the goroutines started, and what is left of the stream when it
    returns; a cancelled context stays cancelled. *)
Fixpoint listen (items : list StreamItem) : list (Prog (option unit)) * list StreamItem :=
  match items with
  | [] => ([], [])
  | SDone :: _ => ([], items)
  | SError :: rest => ([], rest)
  | SMessage msg :: rest => let '(gs, rest') := listen rest in (dispatch msg ++ gs, rest')
  end.

(** [Start]: calls [listen] until the context is cancelled. *)
Fixpoint Start (fuel : nat) (items : list StreamItem) : list (Prog (option unit)) :=
  match fuel with
  | O => []
  | S fuel' =>
      match items with
      | [] | SDone :: _ => []
      | _ => let '(gs, rest) := listen items in gs ++ Start fuel' rest
      end
  end.
End Recovery.

#[export] Instance EventMessage_eq_dec : EqDecision EventMessage.
Proof. solve_decision. Defined.
#[export] Instance StreamItem_eq_dec : EqDecision StreamItem.
Proof. solve_decision. Defined.
