(* ===== verification/RecoveryProps.v ===== *)
(** RecoveryProps: the circuit breaker's properties. *)

From S2P Require Import Fixtures ManagerFacts.
From S2P Require Export Recovery.

(** * The back-off *)

(** The delay before attempt [n] is defined for every non-negative count
    (the slice index never panics), is 5, 10, 20, 40 s for the first attempts
    and 60 s from the fifth on, and never decreases. *)
Theorem backoff_schedule n m : 0 <= n <= m ->
  exists d d', backoff_delay n = Some d /\ backoff_delay m = Some d' /\
    5 * Second <= d <= d' /\ d' <= 60 * Second /\
    (n < 4 -> d = 5 * 2 ^ n * Second) /\ (4 <= n -> d = 60 * Second).
Proof.
  intros H.
  assert (forall k, 0 <= k -> (k = 0 \/ k = 1 \/ k = 2 \/ k = 3 \/ 4 <= k) /\
    (4 <= k -> backoff_delay k = Some (60 * Second))) as Hk.
  { intros k Hk. split; [lia|]. intros H4. unfold backoff_delay.
    destruct (Z.leb_spec (Z.of_nat (length backoffDelays)) k) as [_|Hlt]; [done|].
    simpl in Hlt. by replace k with 4 by lia. }
  destruct (Hk n ltac:(lia)) as [Hn Hn4], (Hk m ltac:(lia)) as [Hm Hm4].
  destruct Hn as [->|[->|[->|[->|Hn]]]], Hm as [->|[->|[->|[->|Hm]]]]; try lia;
    rewrite ?Hn4, ?Hm4 by lia; do 2 eexists; repeat split; try lia; vm_compute; congruence.
Qed.

Lemma backoff_schedule_witness :
  0 <= 2 <= 7 /\ exists d d', backoff_delay 2 = Some d /\ backoff_delay 7 = Some d' /\ d <= d'.
Proof.
  split; [lia|]. destruct (backoff_schedule 2 7 ltac:(lia)) as (d & d' & H1 & H2 & H3 & _).
  exists d, d'. split; [exact H1|]. split; [exact H2|]. lia.
Defined.

Lemma backoff_some n : 0 <= n -> is_Some (backoff_delay n).
Proof.
  intros Hn. unfold backoff_delay, slice_index. simpl length.
  destruct (Z.leb_spec (Z.of_nat 5) n) as [H|H]; [by eexists|].
  destruct (Z.ltb_spec n 0); [lia|]. apply lookup_lt_is_Some_2. simpl. lia.
Qed.

(** * The circuit breaker as a step relation *)

Section Breaker.
Context {PG : Postgres} (env : Env).

(** The container [cid], its row and its owner's plan. *)
Definition crash_info (db : DB) (cid : string) : result ((Z * container_row) * plan_row) :=
  with_plan db (tfirst (on_docker_id cid) (containers db)).

Definition opened (row : container_row) : container_row :=
  set_c_circuit_open true (set_c_status "stopped" row).
Definition counted (t : Z) (row : container_row) : container_row :=
  set_c_restart_count (c_restart_count row + 1)
    (set_c_last_restart_at (Some t) (set_c_status "starting" row)).
Definition running_since (t : Z) (row : container_row) : container_row :=
  set_c_status "running" (set_c_started_at (Some t) row).


(** What one crash of [cid] does to the containers table, with the outside
    calls it makes.  The steps guarded by [~ sql_up env] are those of a lost
    connection. *)
Inductive breaker_step (db : DB) (cid : string) : list Event -> gmap Z container_row -> Prop :=
| bs_lost : ~ sql_up env -> breaker_step db cid [] (containers db)
| bs_unknown e : crash_info db cid = Err e -> breaker_step db cid [] (containers db)
| bs_open i row p :
    crash_info db cid = Ok ((i, row), p) -> c_circuit_open row = true ->
    breaker_step db cid [] (containers db)
| bs_trip i row p row' :
    crash_info db cid = Ok ((i, row), p) -> c_circuit_open row = false ->
    pl_max_auto_restarts p <= c_restart_count row ->
    row' = opened row \/ (~ sql_up env /\ row' = row) ->
    breaker_step db cid [] (<[i := row']> (containers db))
| bs_uncounted i row p d :
    crash_info db cid = Ok ((i, row), p) -> c_circuit_open row = false ->
    c_restart_count row < pl_max_auto_restarts p -> backoff_delay (c_restart_count row) = Some d ->
    ~ sql_up env \/ int4_max <= c_restart_count row ->
    breaker_step db cid [EvSleep d] (containers db)
| bs_restart i row p d t r row' :
    crash_info db cid = Ok ((i, row), p) -> c_circuit_open row = false ->
    c_restart_count row < pl_max_auto_restarts p -> backoff_delay (c_restart_count row) = Some d ->
    (exists t', row' = (if is_ok r then running_since t' else set_c_status "stopped") (counted t row)) \/
    (~ sql_up env /\ row' = counted t row) ->
    breaker_step db cid [EvSleep d; EvDocker (ContainerRestart cid (Some 10)) r]
      (<[i := row']> (containers db)).

(** Only notifications changed. *)
Record core_same (w w' : World) : Prop := {
  cs_containers : containers (w_db w') = containers (w_db w);
  cs_users : users (w_db w') = users (w_db w);
  cs_plans : plans (w_db w') = plans (w_db w);
  cs_trace : w_trace w' = w_trace w;
}.

#[local] Instance core_same_preorder : PreOrder core_same.
Proof. split; [by split|]. intros w1 w2 w3 [] []. split; congruence. Qed.

Lemma outside_core w w' : outside w w' -> w_trace w' = w_trace w -> core_same w w'.
Proof. intros [] ?. by split; [congruence..|]. Qed.

Lemma wp_exec_notification u ty ti b m w :
  wp env (exec_pool (InsertNotification u ty ti b m)) (fun _ w' => core_same w w') w.
Proof.
  eapply wp_seq; [by wp_pool_call|]. intros r w1 (T1 & _ & _ & _ & H1). apply wp_ret.
  destruct H1 as [(err & _ & _ & Hd)|(_ & _ & Hd)]; [by split; rewrite ?Hd|].
  simpl in Hd. unfold sql_insert_notification, with_bigint, reject in Hd.
  destruct (to_bigint u); [|by split; rewrite ?Hd].
  destruct (live (notifications (w_db w)) _); [by split; rewrite ?Hd|].
  destruct (negb _); by split; rewrite ?Hd.
Qed.

Lemma wp_notify u n w : wp env (persistAndNotify u n) (fun _ w' => core_same w w') w.
Proof.
  eapply wp_seq; [apply wp_exec_notification|]. intros x w1 H1. simpl in H1.
  apply wp_perform. simpl. rewrite H1. by destruct (Publish u n (w_bus w1)).
Qed.

Lemma wp_new_notification ty ti b w :
  wp env (new_notification ty ti b) (fun _ w' => core_same w w') w.
Proof.
  eapply wp_seq; [apply wp_uuid|]. intros id w1 [O1 T1].
  eapply wp_seq; [apply wp_now|]. intros now w2 [O2 T2]. apply wp_ret.
  apply outside_core; [by rewrite O1|congruence].
Qed.

(** A notification built and sent at the end of a handler. *)
Lemma wp_notify_all ty ti b u w (k : Prog (option unit)) Q :
  (forall w', core_same w w' -> wp env k Q w') ->
  wp env (bind (bind (new_notification ty ti b) (persistAndNotify u)) (fun _ => k)) Q w.
Proof.
  intros Hk. apply wp_bind, wp_bind. eapply wp_mono; [apply wp_new_notification|].
  intros n w1 H1. eapply wp_mono; [apply wp_notify|]. intros x w2 H2. apply Hk.
  simpl in *. by rewrite H1.
Qed.

Lemma set_row_id i row db : containers db !! i = Some row -> set_row i row db = db.
Proof. intros H. unfold set_row. rewrite insert_id by done. apply set_containers_id. Qed.

Lemma update_on_container i row f db : containers db !! i = Some row ->
  (update_containers (on_container i) f db).2 = set_row i (f row) db.
Proof.
  intros H. unfold update_containers, set_row, on_container. simpl. by erewrite tupdate_key.
Qed.

(** An update of one row whose outcome the code ignores. *)
Lemma wp_exec_row s i row f w :
  containers (w_db w) !! i = Some row ->
  (forall c, (exec c s (w_db w)).2 = set_row i (f (ctx_now c) row) (w_db w)) ->
  wp env (exec_pool s) (fun _ w' => w_trace w' = w_trace w /\
    exists row', ((exists t, row' = f t row) \/ (~ sql_up env /\ row' = row)) /\
      w_db w' = set_row i row' (w_db w)) w.
Proof.
  intros Hrow Hs. eapply wp_seq; [by wp_pool_call|].
  intros r w1 (T1 & _ & _ & _ & H1). apply wp_ret. split; [done|].
  destruct H1 as [(err & He & _ & Hd)|(_ & _ & Hd)].
  - exists row. split; [|by rewrite Hd, set_row_id]. right. split; [|done].
    intros Hup. by rewrite Hup in He.
  - eexists. split; [left; by eexists|]. by rewrite Hd, Hs.
Qed.

Lemma wp_inc_restart i row w : containers (w_db w) !! i = Some row ->
  wp env (perform (ESql Pool (IncRestart i))) (fun r w' => w_trace w' = w_trace w /\
    match r with
    | Ok _ => exists t, w_db w' = set_row i (counted t row) (w_db w)
    | Err _ => w_db w' = w_db w /\ (~ sql_up env \/ int4_max <= c_restart_count row)
    end) w.
Proof.
  intros Hrow. eapply wp_mono; [by wp_pool_call|].
  intros r w1 (T1 & _ & _ & _ & H1). split; [done|].
  destruct H1 as [(err & He & -> & Hd)|(_ & -> & Hd)].
  { split; [done|]. left. intros Hup. by rewrite Hup in He. }
  simpl in *. unfold sql_inc_restart in *. destruct (tany _ _) eqn:Hany.
  - split; [done|]. right. destruct (decide (c_restart_count row < int4_max)) as [Hlt|]; [|lia].
    apply not_false_iff_true in Hany. destruct Hany. apply tany_false. intros k r Hk.
    unfold on_container. destruct (bool_decide_reflect (k = i)) as [->|]; [|done]. simpl.
    replace r with row by congruence. by rewrite bool_decide_eq_true_2.
  - simpl. eexists. rewrite Hd. by erewrite update_on_container.
Qed.

Lemma crash_info_row db cid i row p : crash_info db cid = Ok ((i, row), p) ->
  containers db !! i = Some row /\ c_container_id row = cid.
Proof.
  unfold crash_info, with_plan. destruct (tfirst _ _) as [[k r]|] eqn:E; simpl; [|done].
  destruct (plan_of_user _ _); simpl; [|done]. intros [= -> -> _].
  apply tfirst_Ok in E as [H1 H2]. split; [done|]. by apply bool_decide_eq_true in H2.
Qed.

(** [breaker_step], and the tables the step does not touch. *)
Definition breaks (w : World) (cid : string) (out : option unit) (w' : World) : Prop :=
  out = Some tt /\ users (w_db w') = users (w_db w) /\ plans (w_db w') = plans (w_db w) /\
  exists tr, w_trace w' = w_trace w ++ tr /\ breaker_step (w_db w) cid tr (containers (w_db w')).

Lemma breaks_intro w cid i row w1 w2 tr :
  w_db w1 = set_row i row (w_db w) -> w_trace w1 = w_trace w ++ tr -> core_same w1 w2 ->
  breaker_step (w_db w) cid tr (<[i := row]> (containers (w_db w))) ->
  breaks w cid (Some tt) w2.
Proof.
  intros D T [C1 C2 C3 C4] Hs. rewrite D in *.
  split; [done|]. split; [done|]. split; [done|]. exists tr. rewrite C4, C1. by split.
Qed.

Lemma breaks_same w cid tr w2 :
  w_db w2 = w_db w -> w_trace w2 = w_trace w ++ tr ->
  breaker_step (w_db w) cid tr (containers (w_db w)) -> breaks w cid (Some tt) w2.
Proof. intros D T Hs. unfold breaks. rewrite D. eauto 10. Qed.

(** The part after the sleep. *)
Lemma wp_restart w cid i row p d name user code w1 :
  crash_info (w_db w) cid = Ok ((i, row), p) -> c_circuit_open row = false ->
  c_restart_count row < pl_max_auto_restarts p -> backoff_delay (c_restart_count row) = Some d ->
  w_db w1 = w_db w -> w_trace w1 = w_trace w ++ [EvSleep d] ->
  wp env (bind (restart cid i name user code (c_restart_count row) (pl_max_auto_restarts p))
            (fun _ => Ret (Some tt))) (breaks w cid) w1.
Proof.
  intros Hinfo Hopen Hlt Hd D1 T1. destruct (crash_info_row _ _ _ _ _ Hinfo) as [Hrow _].
  apply wp_bind. eapply wp_seq; [apply wp_inc_restart; by rewrite D1|].
  intros [n|e] w2 [T2 H2].
  2:{ destruct H2 as [D2 Hwhy]. apply wp_ret, wp_ret.
      apply (breaks_same _ _ [EvSleep d]); [congruence..|]. by eapply bs_uncounted. }
  destruct H2 as [t D2]. rewrite D1 in D2.
  eapply wp_seq; [apply wp_docker|]. intros r w3 [[D3 _ _ _] T3].
  assert (containers (w_db w3) !! i = Some (counted t row)) as Hrow3.
  { rewrite D3, D2. apply lookup_insert_eq. }
  assert (forall row' w4, w_trace w4 = w_trace w3 -> w_db w4 = set_row i row' (w_db w3) ->
    w_trace w4 = w_trace w ++ [EvSleep d; EvDocker (ContainerRestart cid (Some 10)) (result_map (reply_id _) r)] /\
    w_db w4 = set_row i row' (w_db w)) as Hset.
  { intros row' w4 T4 D4. rewrite T4, T3, T2, T1, <- app_assoc. split; [done|].
    rewrite D4, D3, D2. unfold set_row. simpl. by rewrite insert_insert_eq. }
  destruct r as [[]|e].
  - apply wp_bind. eapply wp_mono.
    { apply (wp_exec_row _ i (counted t row) running_since); [done|]. intros c. by apply update_on_container. }
    intros [] w4 (T4 & row' & Hr & D4). apply Hset in D4 as [T4' D4]; [|done].
    eapply wp_seq; [apply wp_new_notification|]. intros n' w5 C5. simpl in C5.
    eapply wp_mono; [apply wp_notify|]. intros [] w6 C6. apply wp_ret.
    eapply breaks_intro; [exact D4|exact T4'|by etransitivity|].
    eapply bs_restart; [done..|]. destruct Hr as [[t' ->]|[Hup ->]]; [left; by exists t'|by right].
  - eapply wp_mono.
    { apply (wp_exec_row _ i (counted t row) (fun _ => set_c_status "stopped")); [done|].
      intros c. by apply update_on_container. }
    intros [] w4 (T4 & row' & Hr & D4). apply Hset in D4 as [T4' D4]; [|done]. apply wp_ret.
    eapply breaks_intro; [exact D4|exact T4'|done|].
    eapply bs_restart; [done..|]. destruct Hr as [[t' ->]|[Hup ->]]; [left; by exists t'|by right].
Qed.

Lemma wp_handle_crash cid code w :
  check (fun _ r => 0 <= c_restart_count r) (containers (w_db w)) ->
  wp env (HandleCrash cid code) (breaks w cid) w.
Proof.
  intros Hcount. eapply wp_seq; [by wp_pool_call|].
  intros r w1 (T1 & _ & _ & _ & [(err & He & -> & D1)|(_ & -> & D1)]); simpl in D1.
  { apply wp_ret, (breaks_same _ _ []); [done|by rewrite app_nil_r|].
    apply bs_lost. intros Hup. by rewrite Hup in He. }
  change (exec (sql_ctx env w) (SelectCrashInfo cid) (w_db w)).1 with (crash_info (w_db w) cid).
  assert (w_trace w1 = w_trace w ++ []) as T1' by by rewrite app_nil_r.
  destruct (crash_info (w_db w) cid) as [[[i row] p]|e] eqn:Hinfo.
  2:{ apply wp_ret, (breaks_same _ _ []); [done..|]. by eapply bs_unknown. }
  destruct (crash_info_row _ _ _ _ _ Hinfo) as [Hrow Hid].
  cbv beta zeta. destruct (c_circuit_open row) eqn:Hopen.
  { apply wp_ret, (breaks_same _ _ []); [done..|]. by eapply bs_open. }
  destruct (Z.leb_spec (pl_max_auto_restarts p) (c_restart_count row)) as [Hle|Hlt].
  - apply wp_bind, wp_bind. eapply wp_mono.
    { apply (wp_exec_row _ i row (fun _ => opened)); [by rewrite D1|].
      intros c. rewrite D1. by apply update_on_container. }
    intros [] w2 (T2 & row' & Hr & D2). rewrite D1 in D2.
    eapply wp_seq; [apply wp_new_notification|]. intros n' w3 C3. simpl in C3.
    eapply wp_mono; [apply wp_notify|]. intros [] w4 C4. apply wp_ret.
    eapply (breaks_intro _ _ _ _ w2 _ []); [done|by rewrite T2|by etransitivity|].
    eapply bs_trip; [done..|]. destruct Hr as [[_ ->]|[Hup ->]]; [by left|by right].
  - destruct (backoff_some (c_restart_count row)) as [d Hd]; [by apply (Hcount i)|]. rewrite Hd.
    apply wp_bind, wp_perform.
    apply (wp_restart w cid i row p d); [done..|exact D1|simpl; by rewrite T1].
Qed.

(** C10: for any failures of the database and of Docker, one crash event takes
    the containers table, and makes the outside calls, exactly as
    [breaker_step] allows: nothing for an unknown container or an open
    circuit; the circuit opened and no restart at the limit; otherwise the
    back-off, then the count incremented, then one restart request; the
    handler does not panic, and users and plans are untouched. *)
Theorem HandleCrash_refines_breaker cid code w out w' :
  check (fun _ r => 0 <= c_restart_count r) (containers (w_db w)) ->
  run env (HandleCrash cid code) w = (out, w') ->
  out = Some tt /\ users (w_db w') = users (w_db w) /\ plans (w_db w') = plans (w_db w) /\
  exists tr, w_trace w' = w_trace w ++ tr /\ breaker_step (w_db w) cid tr (containers (w_db w')).
Proof. intros Hc Hr. apply (wp_run _ _ _ _ _ _ (wp_handle_crash cid code w Hc) Hr). Qed.
End Breaker.

(** * The restart counter never becomes negative *)

Definition counts_ok (db : DB) : Prop :=
  check (fun _ r => 0 <= c_restart_count r) (containers db).

Section Counts.
Context {PG : Postgres} (env : Env).

Lemma counts_update p f db : counts_ok db ->
  (forall r, 0 <= c_restart_count r -> 0 <= c_restart_count (f r)) ->
  counts_ok (update_containers p f db).2.
Proof. intros Hc Hf. apply check_tupdate; [done|]. auto. Qed.

Lemma exec_counts c s db : counts_ok db -> counts_ok (exec c s db).2.
Proof.
  intros Hc. destruct s; try exact Hc; simpl;
    unfold_sql;
    sql_cases;
    lazymatch goal with
    | |- counts_ok (cascade (set_containers _ _)) => do 2 apply check_tdelete; exact Hc
    | |- counts_ok (cascade _) => apply check_tdelete; exact Hc
    | |- counts_ok (set_containers (<[_ := _]> _) _) =>
        apply check_insert; [exact Hc|]; simpl; try lia; by eapply Hc
    | |- counts_ok (set_containers (tupdate ?p ?f _) _) =>
        apply (counts_update p f); [exact Hc|]; intros r Hr; simpl; lia
    | |- _ => exact Hc
    end.
Qed.

Lemma tx_view_counts log db : counts_ok db -> counts_ok (tx_view log db).
Proof.
  revert db. induction log as [|en log IH]; intros db Hc; simpl; [done|]. by apply IH, exec_counts.
Qed.

Lemma run_eff_counts : eff_invariant env (fun w => counts_ok (w_db w)).
Proof.
  intros e w Hc. unfold run_eff. destruct e; simpl; try done.
  - unfold run_sql. destruct conn as [|t].
    + destruct (e_sql env (w_tick w)); [done|].
      pose proof (exec_counts (sql_ctx env w) s _ Hc) as Hx. by destruct (exec _ s (w_db w)).
    + destruct (w_txs w !! t) as [[log|]|]; [|done..]. by destruct (e_sql env (w_tick w)).
  - by destruct (e_sql env (w_tick w)).
  - unfold run_commit. destruct (w_txs w !! t) as [[log|]|]; try done.
    destruct (e_sql env (w_tick w)); [done|]. by apply tx_view_counts.
  - by destruct (Publish user n (w_bus w)).
Qed.
End Counts.

(** * No crash handler panics *)

Section NoPanic.
Context {PG : Postgres} (env : Env).

(** Answers a database with non-negative counters can give. *)
Definition good_answer (e : Eff) : ans e -> Prop :=
  match e return ans e -> Prop with
  | ESql _ (SelectCrashInfo _) => fun r =>
      match r with Ok kp => 0 <= c_restart_count kp.1.2 | Err _ => True end
  | _ => fun _ => True
  end.

(** The program does not panic on such answers. *)
Fixpoint no_panic (p : Prog (option unit)) : Prop :=
  match p with
  | Ret o => o = Some tt
  | Do e k => forall x, good_answer e x -> no_panic (k x)
  end.

Lemma no_panic_bind {A} (p : Prog A) (k : A -> Prog (option unit)) :
  (forall a, no_panic (k a)) -> no_panic (bind p k).
Proof. intros Hk. induction p as [a|e f IH]; simpl; auto. Qed.

Lemma no_panic_ret : no_panic (Ret (Some tt)).
Proof. exact eq_refl. Qed.

Lemma no_panic_then {A} (p : Prog A) : no_panic (bind p (fun _ => Ret (Some tt))).
Proof. apply no_panic_bind. intros _. exact eq_refl. Qed.

Lemma HandleCrash_no_panic cid code : no_panic (HandleCrash cid code).
Proof.
  intros [[[i row] p]|e] Hcount; [|apply no_panic_ret].
  cbn [bind]. cbv beta iota zeta. simpl in Hcount.
  destruct (c_circuit_open row); [apply no_panic_ret|].
  destruct (pl_max_auto_restarts p <=? c_restart_count row); [apply no_panic_then|].
  destruct (backoff_some _ Hcount) as [d ->]. apply no_panic_bind. intros _. apply no_panic_then.
Qed.

Lemma HandleHealthChange_no_panic cid status : no_panic (HandleHealthChange cid status).
Proof.
  apply no_panic_bind. intros _. case_bool_decide; [apply no_panic_ret|].
  intros [[i row]|e] _; [|apply no_panic_ret]. cbn [bind]. apply no_panic_bind. intros n. apply no_panic_then.
Qed.

Lemma dispatch_no_panic msg : Forall no_panic (dispatch msg).
Proof.
  unfold dispatch.
  repeat case_bool_decide; repeat constructor;
    auto using HandleCrash_no_panic, HandleHealthChange_no_panic, no_panic_then.
Qed.

Lemma dispatch_all_no_panic msgs : Forall no_panic (flat_map dispatch msgs).
Proof.
  induction msgs as [|m msgs IH]; simpl; [done|]. apply Forall_app. split; [apply dispatch_no_panic|done].
Qed.

Lemma run_eff_good_answer e w : counts_ok (w_db w) -> good_answer e (run_eff env e w).1.
Proof.
  intros Hc. unfold run_eff. destruct e as [conn s| | | | | | | | | | | | | |]; try done.
  destruct s; try done. simpl.
  assert (forall c db, counts_ok db -> match (exec c (SelectCrashInfo container_id) db).1 with
    | Ok kp => 0 <= c_restart_count kp.1.2 | Err _ => True end) as Hx.
  { intros c db Hdb. simpl. destruct (with_plan _ _) as [[[i row] p]|] eqn:E; [|done].
    apply crash_info_row in E as [Hrow _]. simpl. by apply (Hdb i). }
  unfold run_sql. destruct conn as [|t].
  - destruct (e_sql env (w_tick w)); [done|].
    specialize (Hx (sql_ctx env w) (w_db w) Hc). by destruct (exec _ _ (w_db w)).
  - destruct (w_txs w !! t) as [[log|]|]; try done.
    destruct (e_sql env (w_tick w)); [done|]. by apply Hx, tx_view_counts.
Qed.

End NoPanic.

(** * The event loop *)

Section Stream.
Context {PG : Postgres}.

(** The messages the stream delivers before the context is cancelled. *)
Fixpoint before_cancel (items : list StreamItem) : list EventMessage :=
  match items with
  | [] | SDone :: _ => []
  | SError :: rest => before_cancel rest
  | SMessage m :: rest => m :: before_cancel rest
  end.

Lemma listen_spec items :
  (length (listen items).2 <= length items)%nat /\
  (listen items).1 ++ flat_map dispatch (before_cancel (listen items).2) =
  flat_map dispatch (before_cancel items).
Proof.
  induction items as [|[| |m] rest [IHl IH]]; simpl; try (split; [lia|done]).
  destruct (listen rest) as [gs rest']. simpl in *. split; [lia|]. by rewrite <- app_assoc, IH.
Qed.

Lemma listen_consumes items i rest : items = i :: rest -> i <> SDone ->
  (length (listen items).2 < length items)%nat.
Proof.
  intros -> Hi. destruct i as [| |m]; [done|simpl; lia|]. simpl.
  pose proof (proj1 (listen_spec rest)). destruct (listen rest). simpl in *. lia.
Qed.

(** C37: the listener reconnects after every stream error and starts exactly
    the goroutines of the messages delivered before cancellation, each once
    and in order; the reconnection loop ends within one round per item. *)
Theorem Start_dispatches_all items fuel : (length items < fuel)%nat ->
  Start fuel items = flat_map dispatch (before_cancel items).
Proof.
  revert items. induction fuel as [|fuel IH]; intros items Hf; [lia|].
  destruct items as [|[| |m] rest]; [done|done|..].
  - simpl. apply IH. simpl in Hf. lia.
  - set (items := SMessage m :: rest) in *.
    pose proof (listen_consumes items _ rest eq_refl ltac:(done)) as Hlt.
    pose proof (proj2 (listen_spec items)) as Hs.
    change (Start (S fuel) items) with
      (let '(gs, rest') := listen items in gs ++ Start fuel rest').
    destruct (listen items) as [gs rest']. cbn [fst snd] in Hlt, Hs. rewrite IH by lia. exact Hs.
Qed.
End Stream.

(** * The restart budget *)

Section Budget.
Context {PG : Postgres} (env : Env).

(** The automatic restarts the container still has. *)
Definition budget (db : DB) (cid : string) : nat :=
  match crash_info db cid with
  | Ok ((_, row), p) => Z.to_nat (pl_max_auto_restarts p - c_restart_count row)
  | Err _ => 0
  end.

(** Replacing the row of [cid] by one with the same identity. *)
Lemma crash_info_set db db' cid i row p row' :
  uniq (fun r => Some (c_container_id r)) (containers db) ->
  crash_info db cid = Ok ((i, row), p) ->
  containers db' = <[i := row']> (containers db) -> users db' = users db -> plans db' = plans db ->
  c_container_id row' = c_container_id row -> c_user_id row' = c_user_id row ->
  crash_info db' cid = Ok ((i, row'), p).
Proof.
  intros Huniq Hinfo Hc Hu Hp Hid Huser. destruct (crash_info_row _ _ _ _ _ Hinfo) as [Hrow Hcid].
  unfold crash_info in *. rewrite (tfirst_unique _ _ i row') in *.
  - unfold with_plan in *. destruct (tfirst _ _) as [[k r]|] eqn:E; simpl in *; [|done].
    apply tfirst_Ok in E as [E1 _].
    destruct (plan_of_user (c_user_id r) db) as [[pid pl]|] eqn:Ep; simpl in Hinfo; [|done].
    injection Hinfo as -> -> ->. unfold plan_of_user in *. rewrite Huser, Hu, Hp.
    destruct (users db !! c_user_id row); [|done]. by destruct (plans db !! u_plan_id u); simplify_eq/=.
  - rewrite Hc. apply lookup_insert_eq.
  - unfold on_docker_id. apply bool_decide_eq_true. congruence.
  - intros k r. rewrite Hc. intros [[<- <-]|[Hne Hk]]%lookup_insert_Some H; [done|].
    unfold on_docker_id in H. apply bool_decide_eq_true in H.
    symmetry. apply (Huniq i k row r cid); [done..|simpl; congruence|simpl; congruence].
Qed.

Lemma crash_info_ext db db' cid : containers db' = containers db -> users db' = users db ->
  plans db' = plans db -> crash_info db' cid = crash_info db cid.
Proof. intros E1 E2 E3. unfold crash_info, with_plan, plan_of_user. by rewrite E1, E2, E3. Qed.

(** Each step pays for its restart requests. *)
Lemma breaker_step_budget db db' cid tr :
  uniq (fun r => Some (c_container_id r)) (containers db) ->
  breaker_step env db cid tr (containers db') -> users db' = users db -> plans db' = plans db ->
  (length (docker_calls tr) + budget db' cid <= budget db cid)%nat /\
  Forall (eq (ContainerRestart cid (Some 10))) (docker_calls tr).
Proof.
  intros Huniq Hs Hu Hp. remember (containers db') as cs eqn:Hcs. symmetry in Hcs. unfold budget.
  destruct Hs; try (rewrite (crash_info_ext db db') by done; split; [simpl; lia|by constructor]).
  - assert (c_restart_count row' = c_restart_count row /\ c_container_id row' = c_container_id row /\
      c_user_id row' = c_user_id row) as (E1 & E2 & E3) by by destruct H2 as [->|[_ ->]].
    rewrite (crash_info_set db db' cid i row p row'), H by done.
    split; [simpl; rewrite E1; lia|by constructor].
  - assert (c_restart_count row' = c_restart_count row + 1 /\ c_container_id row' = c_container_id row /\
      c_user_id row' = c_user_id row) as (E1 & E2 & E3).
    { destruct H3 as [[t' ->]|[_ ->]]; [destruct (is_ok r)|]; done. }
    rewrite (crash_info_set db db' cid i row p row'), H by done.
    split; [simpl; rewrite E1; lia|by repeat constructor].
Qed.

Definition crashes (cid : string) (codes : list Z) : Prog unit :=
  for_each codes (fun code => bind (HandleCrash cid code) (fun _ => Ret tt)).

(** From [w] to [w'] the restart requests for [cid] were paid from its budget,
    and nothing else was asked of Docker. *)
Definition within_budget (cid : string) (w w' : World) : Prop :=
  exists tr, w_trace w' = w_trace w ++ tr /\
    (length (docker_calls tr) + budget (w_db w') cid <= budget (w_db w) cid)%nat /\
    Forall (eq (ContainerRestart cid (Some 10))) (docker_calls tr).

Lemma wp_crash_budget cid code w w1 :
  (world_ok w1 /\ counts_ok (w_db w1)) /\ within_budget cid w w1 ->
  wp env (bind (HandleCrash cid code) (fun _ => Ret tt))
    (fun _ w2 => (world_ok w2 /\ counts_ok (w_db w2)) /\ within_budget cid w w2) w1.
Proof.
  intros ((Hok1 & Hc1) & tr1 & T1 & B1 & F1). apply wp_bind.
  assert (wp env (HandleCrash cid code) (fun _ w2 => world_ok w2 /\ counts_ok (w_db w2)) w1) as Hinv.
  { apply wp_intro. split; [by apply run_invariant; [apply run_eff_ok|]|].
    by apply (run_invariant env (fun w => counts_ok (w_db w)) (run_eff_counts env)). }
  eapply wp_mono; [apply wp_and; [exact Hinv|by apply wp_handle_crash]|].
  intros o w2 [Hw2 (_ & Hu & Hp & tr2 & T2 & Hs)]. apply wp_ret. split; [done|].
  apply breaker_step_budget in Hs as [B2 F2]; [|apply Hok1|done..].
  exists (tr1 ++ tr2). rewrite T2, T1, <- app_assoc, docker_calls_app, length_app.
  split; [done|]. split; [lia|]. by apply Forall_app.
Qed.


(** The outcome of a reset by [userID] of the container [projectID]. *)
Definition reset_post (w : World) (userID projectID : string) (r : result unit) (w' : World) : Prop :=
  match r with
  | Ok _ => exists i u row, to_bigint projectID = Some i /\ to_bigint userID = Some u /\
      containers (w_db w) !! i = Some row /\ c_user_id row = u /\
      w_db w' = set_row i (set_c_circuit_open false (set_c_restart_count 0 (set_c_oom_killed false row)))
                  (w_db w)
  | Err _ => w_db w' = w_db w
  end.

(** [ResetCircuit] succeeds only for a container of the calling user; it
    then closes the circuit, zeroes the counter and the OOM flag of that row,
    and touches no other; otherwise nothing changes. *)
Theorem ResetCircuit_owner userID projectID w r w' :
  run env (ResetCircuit userID projectID) w = (r, w') -> reset_post w userID projectID r w'.
Proof.
  intros Hr. apply (wp_run env (ResetCircuit userID projectID) (reset_post w userID projectID) w); [|done].
  eapply wp_seq; [by wp_pool_call|]. intros r1 w1 (_ & _ & _ & _ & [(err & _ & -> & D1)|(_ & -> & D1)]);
    [by apply wp_ret|]. apply wp_ret. unfold reset_post.
  simpl in *. unfold sql_reset_circuit, with_bigint, update_containers in *.
  destruct (to_bigint projectID) as [i|]; [|done]. destruct (to_bigint userID) as [u|]; [|done].
  simpl in *. destruct (tcount (owned_by i u) (containers (w_db w))) eqn:Hn.
  - rewrite D1, tupdate_none; [apply set_containers_id|]. by apply tcount_zero.
  - destruct (containers (w_db w) !! i) as [row|] eqn:Hrow.
    2:{ exfalso. assert (tcount (owned_by i u) (containers (w_db w)) = 0%nat); [|lia].
        apply tcount_zero. intros k r0 Hk. unfold owned_by.
        destruct (bool_decide_reflect (k = i)) as [->|]; [congruence|done]. }
    destruct (decide (c_user_id row = u)) as [Hu|Hu].
    2:{ exfalso. assert (tcount (owned_by i u) (containers (w_db w)) = 0%nat); [|lia].
        apply tcount_zero. intros k r0 Hk. unfold owned_by.
        destruct (bool_decide_reflect (k = i)) as [->|]; [|done]. simpl.
        apply bool_decide_eq_false. congruence. }
    exists i, u, row. do 4 (split; [done|]). rewrite D1. unfold set_row. f_equal.
    apply map_eq. intros k. rewrite lookup_tupdate, lookup_insert. unfold owned_by.
    case_decide as Hk; [subst k|].
    + rewrite Hrow. simpl. by rewrite !bool_decide_eq_true_2.
    + destruct (containers (w_db w) !! k); [|done]. simpl. by rewrite bool_decide_eq_false_2.
Qed.
End Budget.

(** * Concrete runs *)

Lemma fixture_counts_ok : counts_ok (w_db fixture_world).
Proof.
  assert (counts_ok seed_db) as H by (intros k r Hk; simpl in Hk; by rewrite lookup_empty in Hk).
  simpl. unfold fixture_db. revert H. generalize seed_db. induction fixture_stmts as [|cs l IH]; [done|].
  intros db H. simpl. by apply IH, exec_counts.
Qed.

Lemma HandleCrash_refines_breaker_witness :
  let r := run env_ok (HandleCrash "c-1" 137) fixture_world in
  r.1 = Some tt /\ docker_calls (w_trace r.2) = [ContainerRestart "c-1" (Some 10)] /\
  exists tr, w_trace r.2 = tr /\ breaker_step env_ok (w_db fixture_world) "c-1" tr (containers (w_db r.2)).
Proof.
  intros r.
  destruct (HandleCrash_refines_breaker env_ok "c-1" 137 fixture_world r.1 r.2 fixture_counts_ok
    (surjective_pairing _)) as (Ho & _ & _ & tr & Ht & Hs).
  split; [exact Ho|]. split; [vm_compute; reflexivity|]. exists tr. split; [exact Ht|exact Hs].
Defined.

Definition die_message : EventMessage :=
  {| em_Action := "die"; em_ActorID := "c-1"; em_exitCode := "137" |}.


Lemma Start_dispatches_all_witness :
  let items := [SError; SMessage die_message; SError; SDone; SMessage die_message] in
  (length items < 6)%nat /\ Start 6 items = [HandleCrash "c-1" 137].
Proof.
  intros items. split; [simpl; lia|].
  rewrite (Start_dispatches_all items 6) by (simpl; lia). reflexivity.
Defined.


Lemma ResetCircuit_owner_witness :
  let r := run env_ok (ResetCircuit "1" "1") fixture_world in
  let r' := run env_ok (ResetCircuit "2" "1") fixture_world in
  r.1 = Ok tt /\ reset_post fixture_world "1" "1" r.1 r.2 /\
  is_ok r'.1 = false /\ reset_post fixture_world "2" "1" r'.1 r'.2.
Proof.
  intros r r'. split; [vm_compute; reflexivity|].
  split; [exact (ResetCircuit_owner env_ok "1" "1" fixture_world r.1 r.2 (surjective_pairing _))|].
  split; [vm_compute; reflexivity|].
  exact (ResetCircuit_owner env_ok "2" "1" fixture_world r'.1 r'.2 (surjective_pairing _)).
Defined.
