(* ===== verification/ContainerHandlers.v ===== *)
(** ContainerHandlers: service/ContainerHandlers.go, the HTTP side of the
    container manager: creation with the image whitelist, the lifecycle,
    commands, and the files under /workspace. *)

From S2P Require Import Fixtures.
From S2P Require Export ContainerManager Recovery Http TreeParser Hoare.

Open Scope prog_scope.

(** [*Handler]: [recovery] is nil until [SetRecovery]. *)
Record ContainerHandler := { hd_manager : ContainerManager; hd_recovery : bool }.

Definition NewHandler (basePath : string) (autoStopTimeout : Z) : Prog (result ContainerHandler) :=
  manager <-? NewContainerManager basePath autoStopTimeout ;;
  Ret (Ok {| hd_manager := manager; hd_recovery := false |}).

Definition SetRecovery (h : ContainerHandler) : ContainerHandler :=
  {| hd_manager := hd_manager h; hd_recovery := true |}.

Definition Handler_Close (h : ContainerHandler) : Prog (result unit) := ContainerManager_Close.

Record CreateContainerRequest := { cr_Project : Project; cr_Image : string; cr_Port : string }.

Definition dec_Project : Decode Project := dec_struct (fun cur m =>
  result_bind (dec_field "id" dec_string (pj_ID cur) m) (fun i =>
  result_bind (dec_field "name" dec_string (pj_Name cur) m) (fun n =>
  result_bind (dec_field "userId" dec_string (pj_UserId cur) m) (fun u =>
  Ok {| pj_ID := i; pj_Name := n; pj_UserId := u |})))).

Definition dec_CreateContainerRequest : Decode CreateContainerRequest := dec_struct (fun cur m =>
  result_bind (dec_field "Project" dec_Project (cr_Project cur) m) (fun p =>
  result_bind (dec_field "image" dec_string (cr_Image cur) m) (fun i =>
  result_bind (dec_field "port" dec_string (cr_Port cur) m) (fun o =>
  Ok {| cr_Project := p; cr_Image := i; cr_Port := o |})))).

Definition no_project : Project := {| pj_ID := ""; pj_Name := ""; pj_UserId := "" |}.
Definition empty_create : CreateContainerRequest :=
  {| cr_Project := no_project; cr_Image := ""; cr_Port := "" |}.

(** [struct { Commande []string }] *)
Definition dec_ExecRequest : Decode (list string) := dec_struct (fun cur m =>
  dec_field "commande" (dec_slice "" dec_string) cur m).

Record WriteFileRequest := { wf_Path : string; wf_Content : string }.
Definition dec_WriteFileRequest : Decode WriteFileRequest := dec_struct (fun cur m =>
  result_bind (dec_field "path" dec_string (wf_Path cur) m) (fun p =>
  result_bind (dec_field "content" dec_string (wf_Content cur) m) (fun c =>
  Ok {| wf_Path := p; wf_Content := c |}))).

(** [mime.TypeByExtension] consults the tables of the operating system. *)
Class MimeTypes := { TypeByExtension : string -> string }.

Section Handlers.
Context {PG : Postgres} (cm : ContainerManager).

Definition failed (status : Z) (e : GoError) : Reply := RespondError (error_text e) status.

(** [projectID := r.URL.Query().Get("project_id")], required *)
Definition with_project (rq : Request) (k : string -> Prog Reply) : Prog Reply :=
  require_value (query rq "project_id") "project_id is required" (k (query rq "project_id")).

(** ** Creation *)

(** An image is refused only when the whitelist could be read and has entries. *)
Definition image_refused (allowed : result (list string)) (image : string) : bool :=
  match allowed with
  | Ok (x :: l) => negb (bool_decide (image ∈ x :: l))
  | _ => false
  end.

Definition image_not_allowed : Reply :=
  RespondError (cat ["image not allowed "; String (ascii_of_nat 226) (String (ascii_of_nat 128)
                       (String (ascii_of_nat 148) "")); " choose a predefined template"])
    StatusBadRequest.

Definition run_create (project : Project) (image port : string) : Prog (result ContainerInfo) :=
  if bool_decide (port <> "") then CreateContainerWithPort cm project image port
  else CreateContainer cm project image.

Definition handle_CreateContainer : Handler := fun rq =>
  require_method "POST" "method not allowed" rq (
  on_ok (decode_body rq empty_create dec_CreateContainerRequest)
    (fun e => RespondError (cat ["invalid request body: "; error_text e]) StatusBadRequest) (fun req =>
  require_value (pj_Name (cr_Project req)) "project name is required" (
  require_value (pj_UserId (cr_Project req)) "user Id is required" (
  id <- (if bool_decide (pj_ID (cr_Project req) = "") then perform EUuid
         else Ret (pj_ID (cr_Project req))) ;;
  let project := {| pj_ID := id; pj_Name := pj_Name (cr_Project req); pj_UserId := pj_UserId (cr_Project req) |} in
  let image := if bool_decide (cr_Image req = "") then "alpine:latest" else cr_Image req in
  allowed <- GetAllowedImages ;;
  if image_refused allowed image then Ret image_not_allowed
  else
    created <- run_create project image (cr_Port req) ;;
    on_ok created (failed StatusInternalServerError) (fun info =>
    Ret (success (json_ContainerInfo info) StatusCreated)))))).

(** ** Lifecycle *)

Definition handle_GetContainer : Handler := fun rq =>
  require_method "GET" "method not allowed" rq (
  with_project rq (fun projectID =>
  found <- GetContainerInfo cm projectID ;;
  on_ok found (failed StatusNotFound) (fun info =>
  Ret (success (json_ContainerInfo info) StatusOK)))).

(** The common shape of the handlers that run one operation. *)
Definition operate (rq : Request) (op : string -> Prog (result unit)) (done : string) : Prog Reply :=
  with_project rq (fun projectID =>
  r <- op projectID ;;
  on_ok r (failed StatusInternalServerError) (fun _ => Ret (success (JStr done) StatusOK))).

Definition handle_StartContainer : Handler := fun rq =>
  require_method "POST" "method not allowed" rq (operate rq StartContainer "container started").

Definition handle_StopContainer : Handler := fun rq =>
  require_method "POST" "method not allowed" rq (operate rq StopContainer "container stopped").

Definition handle_RemoveContainer : Handler := fun rq =>
  require_method "DELETE" "method not allowed" rq (
  operate rq (fun projectID => RemoveContainer projectID (bool_decide (query rq "remove_folder" = "true")))
    "container removed").

(** ** Commands *)

Definition handle_ExecCommand : Handler := fun rq =>
  require_method "POST" "method not allowed" rq (
  with_project rq (fun projectID =>
  on_ok (decode_body rq [] dec_ExecRequest)
    (fun _ => RespondError "invalid request body" StatusBadRequest) (fun commande =>
  if bool_decide (commande = []) then Ret (RespondError "command is required" StatusBadRequest)
  else
    r <- ExecCommand projectID commande ;;
    on_ok r (failed StatusInternalServerError) (fun out =>
    Ret (success (json_strings [("output", if bool_decide (out.2 <> "") then out.2 else out.1)]) StatusOK))))).

Definition find_command : list string :=
  ["sh"; "-c"; "find /workspace -maxdepth 10 2>/dev/null | sort"].

Definition handle_TreeFolder : Handler := fun rq =>
  require_method "GET" "method not allowed" rq (
  with_project rq (fun projectID =>
  r <- ExecCommand projectID find_command ;;
  on_ok r (failed StatusInternalServerError) (fun out =>
  Ret (success (json_opt json_tree (ParserTreeFolder out.1)) StatusOK)))).

(** ** Files *)

(** [cleanPath := filepath.Clean(path); if !strings.HasPrefix(cleanPath, "/workspace") ...] *)
Definition in_workspace (cleanPath : string) : bool := HasPrefix cleanPath "/workspace".

Definition access_denied : Reply :=
  RespondError "access denied: path must be within /workspace" StatusForbidden.

Definition with_workspace_path (path : string) (k : string -> Prog Reply) : Prog Reply :=
  if in_workspace (Clean path) then k (Clean path) else Ret access_denied.

Definition handle_ReadFile : Handler := fun rq =>
  require_method "GET" "method not allowed" rq (
  with_project rq (fun projectID =>
  require_value (query rq "path") "path is required" (
  with_workspace_path (query rq "path") (fun cleanPath =>
  r <- ExecCommand projectID ["cat"; cleanPath] ;;
  on_ok r (failed StatusInternalServerError) (fun out =>
  if bool_decide (out.2 <> "") then Ret (RespondError out.2 StatusNotFound)
  else Ret (success (json_strings [("content", out.1)]) StatusOK)))))).

Definition handle_WriteFile : Handler := fun rq =>
  require_method "POST" "method not allowed" rq (
  with_project rq (fun projectID =>
  on_ok (decode_body rq {| wf_Path := ""; wf_Content := "" |} dec_WriteFileRequest)
    (fun e => RespondError (cat ["invalid request body: "; error_text e]) StatusBadRequest) (fun req =>
  require_value (wf_Path req) "path is required" (
  with_workspace_path (wf_Path req) (fun cleanPath =>
  r <- WriteFileToContainer projectID cleanPath (wf_Content req) ;;
  on_ok r (failed StatusInternalServerError) (fun _ =>
  Ret (success (JStr "file saved") StatusOK))))))).

(** [r.FormValue(k)]: the query's values come before those of the body. *)
Definition form_value (rq : Request) (form : Form) (k : string) : string :=
  get_first k (rq_Query rq ++ fm_Values form).

(** [r.FormFile(k)]: the first part of that name; [multipart] has already
    reduced the file name it carries with [filepath.Base]. *)
Fixpoint form_file (k : string) (files : list (string * (string * result string)))
    : option (string * result string) :=
  match files with
  | [] => None
  | (n, (filename, content)) :: l =>
      if bool_decide (n = k) then Some (Base filename, content) else form_file k l
  end.

Definition handle_UploadFile : Handler := fun rq =>
  require_method "POST" "method not allowed" rq (
  with_project rq (fun projectID =>
  on_ok (rq_Form rq) (fun _ => RespondError "file too large (max 10 MB)" StatusRequestEntityTooLarge)
    (fun form =>
  match form_file "file" (fm_Files form) with
  | None => Ret (RespondError "missing file field" StatusBadRequest)
  | Some (filename, content) =>
      let targetFolder := form_value rq form "path" in
      let targetFolder := if bool_decide (targetFolder = "") then "/workspace" else targetFolder in
      with_workspace_path targetFolder (fun cleanFolder =>
      on_ok content (fun _ => RespondError "failed to read uploaded file" StatusInternalServerError)
        (fun data =>
      let destPath := PathJoin [cleanFolder; Base filename] in
      r <- WriteFileToContainer projectID destPath data ;;
      on_ok r (fun e => RespondError (cat ["failed to write file: "; error_text e])
                          StatusInternalServerError) (fun _ =>
      Ret (success (json_strings [("path", destPath)]) StatusOK))))
  end))).

Definition handle_DownloadFile {MT : MimeTypes} : Handler := fun rq =>
  require_method "GET" "method not allowed" rq (
  let projectID := query rq "project_id" in
  let filePath := query rq "path" in
  if bool_decide (projectID = "") || bool_decide (filePath = "")
  then Ret (RespondError "project_id and path are required" StatusBadRequest)
  else
    with_workspace_path filePath (fun cleanPath =>
    r <- ExecCommand projectID ["cat"; cleanPath] ;;
    let not_found := Ret (RespondError "file not found" StatusNotFound) in
    match r with
    | Err _ => not_found
    | Ok (stdout, stderr) =>
        if bool_decide (stderr <> "") then not_found
        else
          let filename := Base cleanPath in
          let mimeType := TypeByExtension (Ext filename) in
          let mimeType := if bool_decide (mimeType = "") then "application/octet-stream" else mimeType in
          Ret {| rp_Status := StatusOK;
                 rp_Headers := [("Content-Disposition", cat ["attachment; filename="; dquote; filename; dquote]);
                                ("Content-Type", mimeType)];
                 rp_Body := BodyText stdout |}
    end)).

(** ** Health *)

Definition handle_GetHealth : Handler := fun rq =>
  require_method "GET" "method not allowed" rq (
  let projectID := query rq "project_id" in
  require_value projectID "project_id required" (
  r <- perform (ESql Pool (SelectHealth projectID (user_id rq))) ;;
  on_ok r (fun _ => RespondError "container not found" StatusNotFound) (fun row =>
  let c := row.1.2 in
  Ret (success (JObj [("restart_count", JInt (c_restart_count c));
                      ("last_restart_at", json_opt JStr (timestamptz_text <$> c_last_restart_at c));
                      ("health_status", JStr (c_health_status c));
                      ("oom_killed", JBool (c_oom_killed c));
                      ("circuit_open", JBool (c_circuit_open c));
                      ("max_auto_restarts", JInt (pl_max_auto_restarts row.2))]) StatusOK)))).

(** [recovery]: whether [SetRecovery] has been called. *)
Definition handle_ResetCircuit (recovery : bool) : Handler := fun rq =>
  require_method "POST" "method not allowed" rq (
  if negb recovery then Ret (RespondError "recovery service unavailable" StatusInternalServerError)
  else
    let projectID := query rq "project_id" in
    require_value projectID "project_id required" (
    r <- ResetCircuit (user_id rq) projectID ;;
    on_ok r (failed StatusBadRequest) (fun _ => Ret (success_empty StatusOK)))).
End Handlers.

(** * The paths the file handlers reach *)

(** A clean absolute path, free of [..], whose first element starts with
    [workspace].  The element need not be [workspace] itself. *)
Definition confined (p : string) : Prop :=
  exists c cs, p = String slash (Join "/" (c :: cs)) /\ Forall normal (c :: cs) /\
    HasPrefix c "workspace" = true.

(** The calls of a handler that reaches paths satisfying [ok] only. *)
Definition touches (ok : string -> Prop) (e : Eff) : Prop :=
  match e with
  | EDocker (ContainerExecCreate _ cmd _ _) =>
      exists p, ok p /\ (cmd = ["cat"; p] \/ cmd = ["mkdir"; "-p"; Dir p])
  | EDocker (CopyToContainer _ dir name _ _) => exists p, ok p /\ dir = Dir p /\ name = Base p
  | EDocker (ContainerExecAttach _ _) | EDocker (ExecReadOutput _) | ETar _ => True
  | ESql Pool s => read_only s = true
  | _ => False
  end.

Lemma stack_confined p st c :
  is_rooted p = true -> clean_stack true p = st ++ [c] -> HasPrefix c "workspace" = true ->
  confined (Clean p).
Proof.
  intros Hr E Hc. rewrite (Clean_rooted p Hr). pose proof (clean_stack_rooted p) as Hn.
  rewrite E in *. rewrite rev_app_distr. apply Forall_app in Hn as [Hst [Hcn _]%Forall_cons].
  exists c, (rev st). split; [done|]. split; [|done].
  constructor; [done|by apply Forall_rev].
Qed.

(** A prefix without a separator ends before the separator. *)
Lemma HasPrefix_before (w c r : string) :
  has_char slash w = false -> HasPrefix (String.append c (String slash r)) w = true ->
  HasPrefix c w = true.
Proof.
  revert c. induction w as [|a w IH]; intros c Hw H; [by destruct c|].
  simpl in Hw. apply orb_false_iff in Hw as [Ha Hw].
  destruct c as [|b c]; unfold HasPrefix in *; cbn [String.append String.prefix] in *.
  - destruct (Ascii.ascii_dec a slash) as [->|]; [done|done].
  - destruct (Ascii.ascii_dec a b); [|done]. by apply IH.
Qed.

(** What the guard of the handlers lets through. *)
Lemma in_workspace_stack p : in_workspace (Clean p) = true ->
  is_rooted p = true /\
  exists st c, clean_stack true p = st ++ [c] /\ HasPrefix c "workspace" = true.
Proof.
  unfold in_workspace. intros H.
  assert (is_rooted p = true) as Hr.
  { rewrite <- is_rooted_Clean. apply HasPrefix_spec in H as [r ->]. done. }
  split; [done|]. rewrite Clean_rooted in H by done.
  destruct (clean_stack true p) as [|c st _] eqn:E using rev_ind; [done|].
  exists st, c. split; [done|]. rewrite rev_app_distr in H. simpl in H.
  unfold HasPrefix in H. cbn [String.prefix] in H.
  change (HasPrefix (Join "/" (c :: rev st)) "workspace" = true) in H.
  destruct (rev st) as [|d l]; [done|]. by eapply HasPrefix_before, H.
Qed.

Lemma in_workspace_confined p : in_workspace (Clean p) = true -> confined (Clean p).
Proof. intros (Hr & st & c & E & Hc)%in_workspace_stack. by eapply stack_confined. Qed.

(** One more element below a confined directory: [..] may lead to the root. *)
Lemma clean_step_confined st c b : Forall normal (st ++ [c]) ->
  clean_step true (st ++ [c]) b = [] \/ exists st', clean_step true (st ++ [c]) b = st' ++ [c].
Proof.
  intros Hn. unfold clean_step. case_bool_decide; simpl; [by right; exists st|].
  case_bool_decide; simpl; [by right; exists st|].
  case_bool_decide; [|by right; exists (b :: st)].
  destruct st as [|top st]; simpl.
  - apply Forall_singleton in Hn as (_ & _ & Hc & _).
    rewrite bool_decide_eq_false_2 by done. by left.
  - apply Forall_cons in Hn as [(_ & _ & Ht & _) _].
    rewrite bool_decide_eq_false_2 by done. right. by exists st.
Qed.

(** [filepath.Join(cleanFolder, filepath.Base(name))] can go up one level. *)
Lemma upload_dest p name : in_workspace (Clean p) = true ->
  confined (PathJoin [Clean p; Base name]) \/ PathJoin [Clean p; Base name] = "/".
Proof.
  intros (Hr & st & c & E & Hc)%in_workspace_stack.
  pose proof (clean_stack_rooted p) as Hn. rewrite E in Hn.
  assert (is_rooted (Clean p) = true) as Hq by by rewrite is_rooted_Clean.
  assert (clean_stack true (Clean p) = st ++ [c]) as Eq.
  { rewrite (Clean_rooted p Hr), clean_stack_slash, clean_stack_Join; [done|].
    apply clean_stack_ok. }
  revert Hq Eq. generalize (Clean p). intros q Hq Eq.
  assert (PathJoin [q; Base name] = Clean (String.append q (String slash (Base name)))) as ->.
  { simpl. rewrite bool_decide_eq_false_2; [done|]. by intros ->. }
  assert (is_rooted (String.append q (String slash (Base name))) = true) as Hd.
  { destruct q as [|a q]; [done|]. rewrite is_rooted_cons in Hq. simpl. by rewrite is_rooted_cons. }
  assert (exists b, clean_stack true (String.append q (String slash (Base name)))
                    = clean_step true (st ++ [c]) b) as [b Hb].
  { destruct (Base_no_slash name) as [->|Hb]; [|exists (Base name); by rewrite clean_stack_app, Eq].
    exists "". change (String slash "/") with (String.append (String slash "") (String slash "")).
    by rewrite <- append_assoc, !clean_stack_app, Eq by done. }
  destruct (clean_step_confined st c b Hn) as [Hs|[st' Hs]]; rewrite Hs in Hb.
  - right. by rewrite (Clean_rooted _ Hd), Hb.
  - left. by eapply stack_confined.
Qed.

Section HandlerFacts.
Context {PG : Postgres} (cm : ContainerManager).

Lemma GetContainerByID_touches ok id : all_effs (touches ok) (GetContainerByID Pool id).
Proof. unfold GetContainerByID. repeat effs_step. Qed.

Lemma ExecCommand_touches (ok : string -> Prop) id p : ok p ->
  all_effs (touches ok) (ExecCommand id ["cat"; p]).
Proof.
  intros Hp. unfold ExecCommand, find_container, docker.
  apply all_effs_bind; [apply GetContainerByID_touches|]. intros [info|e]; [|done].
  apply all_effs_bind; [split; [exists p; by split; [|left]|done]|]. intros ?; repeat effs_step.
Qed.

Lemma WriteFile_touches (ok : string -> Prop) id p content : ok p ->
  all_effs (touches ok) (WriteFileToContainer id p content).
Proof.
  intros Hp. unfold WriteFileToContainer, find_container, execInContainer, docker.
  apply all_effs_bind; [apply GetContainerByID_touches|]. intros [info|e]; [|done]. cbv zeta.
  apply all_effs_bind.
  { apply all_effs_bind; [split; [exists p; by split; [|right]|done]|]. intros ?; repeat effs_step. }
  intros [u|e]; [|done]. repeat effs_step. by split; [exists p|].
Qed.

Lemma with_workspace_path_effs P path k :
  (in_workspace (Clean path) = true -> all_effs P (k (Clean path))) ->
  all_effs P (with_workspace_path path k).
Proof. unfold with_workspace_path. destruct (in_workspace _); [auto|done]. Qed.

(** C25: the three handlers that read or write one file never reach a path
    outside directories of the container's root whose name starts with
    [workspace]: every [cat], [mkdir -p] and copied archive is for a clean
    absolute path without [..], whatever path the request names. *)
Theorem file_handlers_confined {MT : MimeTypes} rq :
  all_effs (touches confined) (handle_ReadFile rq) /\
  all_effs (touches confined) (handle_WriteFile rq) /\
  all_effs (touches confined) (handle_DownloadFile rq).
Proof.
  split_and!.
  - apply require_method_effs, require_value_effs, require_value_effs, with_workspace_path_effs.
    intros Hp. apply all_effs_bind; [by apply ExecCommand_touches, in_workspace_confined|].
    intros ?; repeat handler_step.
  - apply require_method_effs, require_value_effs, on_ok_effs. intros req _.
    apply require_value_effs, with_workspace_path_effs. intros Hp.
    apply all_effs_bind; [by apply WriteFile_touches, in_workspace_confined|]. intros ?; repeat handler_step.
  - apply require_method_effs. cbv zeta. destruct (_ || _); [done|].
    apply with_workspace_path_effs. intros Hp.
    apply all_effs_bind; [by apply ExecCommand_touches, in_workspace_confined|].
    intros [[out err]|e]; [|done]. by case_bool_decide.
Qed.

(** An upload goes to a confined path, or to the root directory itself
    when the file is named [..] and the folder is a top-level one. *)
Theorem UploadFile_confined rq :
  all_effs (touches (fun p => confined p \/ p = "/")) (handle_UploadFile rq).
Proof.
  apply require_method_effs, require_value_effs, on_ok_effs. intros form _.
  destruct (form_file "file" (fm_Files form)) as [[filename content]|]; [|done].
  apply with_workspace_path_effs. intros Hp. apply on_ok_effs. intros data _. cbv zeta.
  apply all_effs_bind; [by apply WriteFile_touches, upload_dest|]. intros ?; repeat handler_step.
Qed.

(** The guard compares strings, not path elements. *)
Example guard_accepts_sibling :
  confined "/workspace-evil/x" /\ in_workspace (Clean "/workspace/../workspace-evil/x") = true.
Proof.
  split; [|done]. exists "workspace-evil", ["x"]. split; [done|]. split; [|done].
  by repeat constructor.
Qed.
(** ** Creation *)

Definition default_image (req : CreateContainerRequest) : string :=
  if bool_decide (cr_Image req = "") then "alpine:latest" else cr_Image req.

(** The project the manager is called with; [id] is a fresh UUID when the
    request has none. *)
Definition with_id (id : string) (p : Project) : Project :=
  {| pj_ID := if bool_decide (pj_ID p = "") then id else pj_ID p; pj_Name := pj_Name p;
     pj_UserId := pj_UserId p |}.

Definition create_reply (r : result ContainerInfo) : Reply :=
  match r with
  | Ok info => success (json_ContainerInfo info) StatusCreated
  | Err e => failed StatusInternalServerError e
  end.

Definition whitelist (db : DB) : list string := match sql_select_template_images db with
                                                | (Ok l, _) => l | (Err _, _) => [] end.

Lemma create_run env rq req w :
  rq_Method rq = "POST" -> decode_body rq empty_create dec_CreateContainerRequest = Ok req ->
  pj_Name (cr_Project req) <> "" -> pj_UserId (cr_Project req) <> "" ->
  exists id w1, reads w w1 /\
    let image := default_image req in
    run env (handle_CreateContainer cm rq) w =
    let '(allowed, w2) := run env GetAllowedImages w1 in
    if image_refused allowed image then (image_not_allowed, w2)
    else let '(r, w3) := run env (run_create cm (with_id id (cr_Project req)) image (cr_Port req)) w2 in
         (create_reply r, w3).
Proof.
  intros Hm Hd Hn Hu. unfold handle_CreateContainer. rewrite require_method_ok, Hd by done.
  cbn [on_ok]. rewrite !require_value_ok, run_bind by done.
  exists (e_uuid env (w_tick w)), (if bool_decide (pj_ID (cr_Project req) = "") then tick w else w).
  unfold with_id, default_image.
  case_bool_decide as Hi; (split; [by split; [split|]|]).
  all: cbn [run perform run_eff]; rewrite run_bind; destruct (run env GetAllowedImages _) as [al w2].
  all: destruct (image_refused _ _); [done|]; rewrite run_bind.
  all: rewrite ?Hi; destruct (run env (run_create _ _ _ _) w2) as [[?|?] ?]; done.
Qed.

(** C26: with the database up and a valid request, an image outside a non-empty
    template list is answered 400 and changes nothing; an image in the list, or
    any image when the list is empty, reaches the container manager with the
    project of the request body (whoever sends it), and the reply is 201 with
    the container or 500 with the manager's error. *)
Theorem handle_CreateContainer_outcome env rq req w :
  sql_up env -> rq_Method rq = "POST" ->
  decode_body rq empty_create dec_CreateContainerRequest = Ok req ->
  pj_Name (cr_Project req) <> "" -> pj_UserId (cr_Project req) <> "" ->
  let '(r, w') := run env (handle_CreateContainer cm rq) w in
  if bool_decide (whitelist (w_db w) = [] \/ default_image req ∈ whitelist (w_db w))
  then exists id w1, reads w w1 /\
         r = create_reply (run env (run_create cm (with_id id (cr_Project req)) (default_image req)
                                      (cr_Port req)) w1).1 /\
         w' = (run env (run_create cm (with_id id (cr_Project req)) (default_image req)
                          (cr_Port req)) w1).2
  else r = image_not_allowed /\ reads w w'.
Proof.
  intros Hup Hm Hd Hn Hu. destruct (create_run env rq req w Hm Hd Hn Hu) as (id & w1 & Hr & E).
  cbv zeta in E. rewrite E. clear E.
  assert (run env GetAllowedImages w1 = (Ok (whitelist (w_db w)), (run env GetAllowedImages w1).2)) as Ea.
  { unfold GetAllowedImages, perform. cbn [run]. rewrite run_pool_up by done. cbn [fst snd exec].
    f_equal. destruct Hr as [Ho _]. rewrite (out_db _ _ Ho). done. }
  assert (reads w (run env GetAllowedImages w1).2) as Hr2.
  { etransitivity; [exact Hr|]. apply run_reads. unfold GetAllowedImages. repeat effs_step. }
  rewrite Ea. clear Ea. revert Hr2. generalize (run env GetAllowedImages w1).2. intros w2 Hr2.
  assert (forall project, exists rr w3, run env (run_create cm project (default_image req) (cr_Port req)) w2
    = (rr, w3)) as Hc by (intros; eexists _, _; apply surjective_pairing).
  destruct (Hc (with_id id (cr_Project req))) as (rr & w3 & E3). rewrite E3.
  destruct (whitelist (w_db w)) as [|x l] eqn:El; simpl; [|case_bool_decide as Hi]; simpl.
  - exists id, w2. by rewrite E3.
  - rewrite bool_decide_eq_true_2 by by right. exists id, w2. by rewrite E3.
  - rewrite bool_decide_eq_false_2; [done|]. by intros [|].
Qed.

(** ** Guards *)

Definition container_routes {MT : MimeTypes} : list (string * Handler) :=
  [("GET", handle_GetContainer cm); ("POST", handle_StartContainer); ("POST", handle_StopContainer);
   ("DELETE", handle_RemoveContainer); ("POST", handle_ExecCommand); ("GET", handle_TreeFolder);
   ("GET", handle_ReadFile); ("POST", handle_WriteFile); ("POST", handle_UploadFile);
   ("GET", handle_DownloadFile); ("GET", handle_GetHealth); ("POST", handle_ResetCircuit true)].

(** Every handler of the container API but creation answers 405 to another
    method and 400 without a project_id, before it performs any effect. *)
Theorem container_handlers_guarded {MT : MimeTypes} m h rq :
  (m, h) ∈ container_routes ->
  (rq_Method rq <> m -> exists r, h rq = Ret r /\ rp_Status r = StatusMethodNotAllowed) /\
  (rq_Method rq = m -> query rq "project_id" = "" ->
     exists r, h rq = Ret r /\ rp_Status r = StatusBadRequest).
Proof.
  assert (Forall (fun mh : string * Handler =>
    (rq_Method rq <> mh.1 -> exists r, mh.2 rq = Ret r /\ rp_Status r = StatusMethodNotAllowed) /\
    (rq_Method rq = mh.1 -> query rq "project_id" = "" ->
     exists r, mh.2 rq = Ret r /\ rp_Status r = StatusBadRequest)) container_routes) as Hall.
  { unfold container_routes. repeat apply Forall_cons_2; [..|by constructor].
    all: cbn [fst snd]; split; [intros Hm|intros Hm Hq].
    all: unfold handle_GetContainer, handle_StartContainer, handle_StopContainer, handle_RemoveContainer,
      handle_ExecCommand, handle_TreeFolder, handle_ReadFile, handle_WriteFile, handle_UploadFile,
      handle_DownloadFile, handle_GetHealth, handle_ResetCircuit, operate, with_project.
    all: try (rewrite require_method_bad by done; by eexists).
    all: rewrite require_method_ok by done; cbv zeta; rewrite ?Hq; by eexists. }
  intros Hin. exact (proj1 (Forall_forall _ _) Hall (m, h) Hin).
Qed.
End HandlerFacts.

(** ** Concrete requests *)

#[export] Instance no_mime : MimeTypes := { TypeByExtension := fun _ => "" }.

Definition fixture_manager : ContainerManager := {| cm_basePath := "/data"; cm_autoStopTimeout := 30 * Minute |}.

Definition create_body_json (image : string) : Json :=
  JObj [("Project", json_strings [("name", "api"); ("userId", "2")]); ("image", JStr image)].
Definition create_rq (image : string) : Request :=
  request "POST" [] [] [] (Ok (create_body_json image)).
Definition create_req (image : string) : CreateContainerRequest :=
  {| cr_Project := {| pj_ID := ""; pj_Name := "api"; pj_UserId := "2" |}; cr_Image := image; cr_Port := "" |}.

(** The fixture world with one template. *)
Definition node_template : template_row :=
  {| tp_name := "Node"; tp_description := "Node.js"; tp_image := "node:20"; tp_category := "web";
     tp_tags := JArr []; tp_popular := true; tp_icon := None; tp_default_ports := JArr [];
     tp_created_at := None |}.
Definition template_world : World :=
  world_of {| users := users fixture_db; containers := containers fixture_db; plans := plans fixture_db;
              email_tokens := ∅; notifications := ∅; api_keys := ∅; networks := ∅;
              container_networks := ∅; audit_log := ∅; templates := {[1 := node_template]};
              images := ∅ |}.

Lemma handle_CreateContainer_outcome_witness :
  decode_body (create_rq "evil") empty_create dec_CreateContainerRequest = Ok (create_req "evil") /\
  (run env_ok (handle_CreateContainer fixture_manager (create_rq "evil")) template_world).1 = image_not_allowed /\
  rp_Status (run env_ok (handle_CreateContainer fixture_manager (create_rq "node:20")) template_world).1 = 201.
Proof.
  assert (decode_body (create_rq "evil") empty_create dec_CreateContainerRequest = Ok (create_req "evil"))
    as Hd by reflexivity.
  split; [exact Hd|]. split; [|vm_compute; reflexivity].
  pose proof (handle_CreateContainer_outcome fixture_manager env_ok (create_rq "evil") (create_req "evil")
    template_world ltac:(done) ltac:(done) Hd ltac:(done) ltac:(done)) as H.
  destruct (run env_ok (handle_CreateContainer fixture_manager (create_rq "evil")) template_world) as [r w'].
  rewrite bool_decide_eq_false_2 in H; [exact (proj1 H)|].
  apply (bool_decide_unpack _). vm_compute. reflexivity.
Defined.

Lemma container_handlers_guarded_witness :
  exists r, handle_GetHealth (request "GET" [] [] [] no_body) = Ret r /\ rp_Status r = StatusBadRequest.
Proof.
  assert (("GET", handle_GetHealth) ∈ container_routes fixture_manager) as Hin
    by (do 10 apply list_elem_of_further; apply list_elem_of_here).
  exact (proj2 (container_handlers_guarded fixture_manager "GET" handle_GetHealth
    (request "GET" [] [] [] no_body) Hin) eq_refl eq_refl).
Defined.
