(* ===== verification/Websocket.v ===== *)
(** Websocket: the handlers of websocket/.  The origin check of the upgrader, the
    log stream (logsHandler.go), the metrics stream (metricHandler.go) and the
    terminal (terminalHandler.go).

    The frames a client or a container sends are arguments; whether the [n]-th
    write on the connection fails is the argument [fails]. *)

From S2P Require Import Fixtures.
From S2P Require Export Http ContainerManager Middleware.

Open Scope prog_scope.

(** * The upgrade *)

Definition parseAllowedOrigins (raw : string) : gset string :=
  list_to_set (filter (fun o => o <> "") (map TrimSpace (Split "," raw))).

(** [allowed]: the value of ALLOWED_ORIGINS. *)
Definition CheckOrigin (allowed : string) (rq : Request) : bool :=
  let origin := header rq "Origin" in
  if bool_decide (origin = "") then true
  else bool_decide (origin ∈ parseAllowedOrigins allowed).

(** gorilla/websocket: what else [Upgrade] asks of a request. *)
Class WsLib := handshake : Request -> result unit.

Definition Upgrade `{WsLib} (allowed : string) (rq : Request) : result unit :=
  if CheckOrigin allowed rq then handshake rq
  else Err (ErrText "websocket: request origin not allowed by Upgrader.CheckOrigin").

(** How a handler ended: refused before the upgrade, refused by [Upgrade] (which
    sends the reply itself), panicked, or closed after sending [sent]. *)
Inductive WsEnd (M : Type) :=
| WsRefused (r : Reply)
| WsNotUpgraded
| WsPanicked (sent : list M)
| WsClosed (sent : list M).
Arguments WsRefused {M} r.
Arguments WsNotUpgraded {M}.
Arguments WsPanicked {M} sent.
Arguments WsClosed {M} sent.

(** * Logs *)

Record logEntry := {
  le_ID : string;
  le_Timestamp : string;
  le_Stream : string;
  le_Message : string;
}.

(** The connection and the counter that the two writers share. *)
Record LogConn := {
  lc_seq : Z;
  lc_sent : list logEntry;
  lc_attempts : nat;
}.
Definition new_log_conn : LogConn := {| lc_seq := 0; lc_sent := []; lc_attempts := 0 |}.

Section Streams.
Context (fails : nat -> bool).

Definition write_failed : GoError := ErrText "websocket: write failed".

(** [w.conn.WriteJSON(entry)] *)
Definition WriteJSON (entry : logEntry) (c : LogConn) : result unit * LogConn :=
  if fails (lc_attempts c)
  then (Err write_failed, {| lc_seq := lc_seq c; lc_sent := lc_sent c; lc_attempts := S (lc_attempts c) |})
  else (Ok tt, {| lc_seq := lc_seq c; lc_sent := lc_sent c ++ [entry]; lc_attempts := S (lc_attempts c) |}).

(** [w.seq.Add(1)] *)
Definition seq_Add (c : LogConn) : Z * LogConn :=
  let n := wrap_i64 (lc_seq c + 1) in
  (n, {| lc_seq := n; lc_sent := lc_sent c; lc_attempts := lc_attempts c |}).

(** The loop of [Write] over the lines; [now n] is the clock at the [n]-th write. *)
Fixpoint write_lines (now : nat -> Z) (stream : string) (lines : list string) (c : LogConn)
    : result unit * LogConn :=
  match lines with
  | [] => (Ok tt, c)
  | line :: lines' =>
      if bool_decide (line = "") then write_lines now stream lines' c
      else
        let '(n, c1) := seq_Add c in
        let entry := {| le_ID := itoa n; le_Timestamp := RFC3339 (now (lc_attempts c1));
                        le_Stream := stream; le_Message := line |} in
        match WriteJSON entry c1 with
        | (Ok _, c2) => write_lines now stream lines' c2
        | (Err e, c2) => (Err e, c2)
        end
  end.

(** [wsLogWriter.Write]: the bytes consumed. *)
Definition wsLogWriter_Write (now : nat -> Z) (stream p : string) (c : LogConn) : result Z * LogConn :=
  match write_lines now stream (Split (ascii_of_nat 10) (TrimRightNewline p)) c with
  | (Ok _, c') => (Ok (Z.of_nat (String.length p)), c')
  | (Err e, c') => (Err e, c')
  end.

(** The writes of [stdcopy.StdCopy]: each frame goes to the writer of its
    stream, and the first error ends the copy. *)
Fixpoint StdCopy (now : nat -> Z) (frames : list (bool * string)) (c : LogConn) : LogConn :=
  match frames with
  | [] => c
  | (stderr, p) :: frames' =>
      match wsLogWriter_Write now (if stderr then "stderr" else "stdout") p c with
      | (Ok _, c') => StdCopy now frames' c'
      | (Err _, c') => c'
      end
  end.

Definition Logs_WsHandler `{Postgres} `{WsLib} (allowed : string) (rq : Request) (now : nat -> Z)
    (frames : list (bool * string)) : Prog (WsEnd logEntry) :=
  if bool_decide (var rq "project_id" = "")
  then Ret (WsRefused (RespondError "project_id requis" StatusBadRequest))
  else match Upgrade allowed rq with
       | Err _ => Ret WsNotUpgraded
       | Ok _ =>
           reader <- StreamLogs (var rq "project_id") ;;
           match reader with
           | Err _ => Ret (WsClosed [])
           | Ok _ => Ret (WsClosed (lc_sent (StdCopy now frames new_log_conn)))
           end
       end.

(** * Metrics *)

(** [container.StatsResponse], the fields the code reads; the counters are
    [uint64], [OnlineCPUs] is [uint32]. *)
Record StatsResponse := {
  sr_Read : Z;
  sr_TotalUsage : Z;
  sr_PreTotalUsage : Z;
  sr_SystemUsage : Z;
  sr_PreSystemUsage : Z;
  sr_OnlineCPUs : Z;
  sr_MemoryUsage : Z;
  sr_MemoryLimit : Z;
  sr_InactiveFile : Z;
}.

(** [CPU] is the [uint64] before its conversion to [float64]. *)
Record MetricsSnapshot := {
  ms_Timestamp : Z;
  ms_CPU : Z;
  ms_MemoryUsed : Z;
  ms_MemoryTotal : Z;
  ms_NetworkRx : Z;
  ms_NetworkTx : Z;
  ms_BlockRead : Z;
  ms_BlockWrite : Z;
}.

(** [None]: the integer division by zero panics. *)
Definition buildSnapshot (current : StatsResponse) : option MetricsSnapshot :=
  let deltaTotalUsage := wrap_u64 (sr_TotalUsage current - sr_PreTotalUsage current) in
  let deltaSystemCpuUsage := wrap_u64 (sr_SystemUsage current - sr_PreSystemUsage current) in
  if bool_decide (deltaSystemCpuUsage = 0) then None
  else
    let cpu := wrap_u64 (wrap_u64 (deltaTotalUsage / deltaSystemCpuUsage * sr_OnlineCPUs current) * 100) in
    Some {| ms_Timestamp := sr_Read current; ms_CPU := cpu;
            ms_MemoryUsed := wrap_u64 (sr_MemoryUsage current - sr_InactiveFile current);
            ms_MemoryTotal := sr_MemoryLimit current; ms_NetworkRx := 0; ms_NetworkTx := 0;
            ms_BlockRead := 0; ms_BlockWrite := 0 |}.

(** The loop: [None] is a frame that does not decode. *)
Fixpoint metrics_loop (n : nat) (samples : list (option StatsResponse)) (sent : list MetricsSnapshot)
    : WsEnd MetricsSnapshot :=
  match samples with
  | [] | None :: _ => WsClosed sent
  | Some v :: samples' =>
      match buildSnapshot v with
      | None => WsPanicked sent
      | Some snapshot =>
          if fails n then WsClosed sent else metrics_loop (S n) samples' (sent ++ [snapshot])
      end
  end.

Definition Metric_WsHandler `{WsLib} (allowed : string) (rq : Request) (samples : list (option StatsResponse))
    : Prog (WsEnd MetricsSnapshot) :=
  if bool_decide (query rq "containerId" = "")
  then Ret (WsRefused (RespondError "containerId requis" StatusBadRequest))
  else match Upgrade allowed rq with
       | Err _ => Ret WsNotUpgraded
       | Ok _ =>
           opened <- GetMetricOfContainer (query rq "containerId") ;;
           match opened with
           | Err _ => Ret (WsClosed [])
           | Ok _ => Ret (metrics_loop 0 samples [])
           end
       end.

(** * Terminal *)

Record resizeMsg := {
  rz_Type : string;
  rz_Cols : Z;
  rz_Rows : Z;
}.

(** A [uint]. *)
Definition dec_uint : Decode Z := fun cur j =>
  match j with
  | JInt z => if bool_decide (0 <= z < 2 ^ 64) then Ok z else Err type_error
  | JNull => Ok cur
  | _ => Err type_error
  end.

Definition dec_resizeMsg : Decode resizeMsg := dec_struct (fun cur m =>
  result_bind (dec_field "type" dec_string (rz_Type cur) m) (fun t =>
  result_bind (dec_field "cols" dec_uint (rz_Cols cur) m) (fun c =>
  result_map (fun r => {| rz_Type := t; rz_Cols := c; rz_Rows := r |})
    (dec_field "rows" dec_uint (rz_Rows cur) m)))).

(** A message: its bytes, and the document they hold if they are JSON. *)
Record Message := {
  msg_data : string;
  msg_json : result Json;
}.

(** [json.Unmarshal(data, &resize) == nil && resize.Type == .. && ..] *)
Definition resize_of (m : Message) : option (Z * Z) :=
  match result_bind (msg_json m) (dec_resizeMsg {| rz_Type := ""; rz_Cols := 0; rz_Rows := 0 |}) with
  | Err _ => None
  | Ok r => if bool_decide (rz_Type r = "resize") && (0 <? rz_Cols r) && (0 <? rz_Rows r)
            then Some (rz_Cols r, rz_Rows r) else None
  end.

(** The input loop: what has been written to the standard input.  [None] is the
    end of the connection or of the context; [n] counts the writes. *)
Fixpoint terminal_loop (execID : string) (n : nat) (inputs : list (option Message)) : Prog (list string) :=
  match inputs with
  | [] | None :: _ => Ret []
  | Some m :: inputs' =>
      match resize_of m with
      | Some (cols, rows) => ignore (ResizeTerminal execID cols rows) ;;; terminal_loop execID n inputs'
      | None =>
          if fails n then Ret []
          else rest <- terminal_loop execID (S n) inputs' ;; Ret (msg_data m :: rest)
      end
  end.

(** The output goroutine: [read, readErr] pairs of [dockerReader.Read]. *)
Fixpoint terminal_output (n : nat) (reads : list (string * bool)) : list string :=
  match reads with
  | [] => []
  | (buf, readErr) :: reads' =>
      if (0 <? String.length buf)%nat then
        if fails n then []
        else buf :: (if readErr then [] else terminal_output (S n) reads')
      else if readErr then [] else terminal_output n reads'
  end.

Definition terminal_failure (e : GoError) : string :=
  cat [String (ascii_of_nat 13) (String (ascii_of_nat 10) (String (ascii_of_nat 27) "[31mFailed to start terminal: "));
       error_text e; String (ascii_of_nat 27) "[0m"; String (ascii_of_nat 13) (String (ascii_of_nat 10) "")].

(** The messages sent, and what the container's shell has read. *)
Definition Terminal_WsHandler `{Postgres} `{WsLib} (allowed : string) (rq : Request)
    (inputs : list (option Message)) (reads : list (string * bool)) : Prog (WsEnd string * list string) :=
  if bool_decide (var rq "project_id" = "")
  then Ret (WsRefused (RespondError "project_id requis" StatusBadRequest), [])
  else match Upgrade allowed rq with
       | Err _ => Ret (WsNotUpgraded, [])
       | Ok _ =>
           exec <- ExecTerminal (var rq "project_id") ;;
           match exec with
           | Err e => Ret (WsClosed [terminal_failure e], [])
           | Ok execID =>
               stdin <- terminal_loop execID 0 inputs ;;
               Ret (WsClosed (terminal_output 0 reads), stdin)
           end
       end.
End Streams.

(** * Facts *)

(** ** The origin check *)

Lemma CheckOrigin_spec allowed rq :
  CheckOrigin allowed rq = true <->
  header rq "Origin" = "" \/
  exists piece, piece ∈ Split "," allowed /\ TrimSpace piece = header rq "Origin".
Proof.
  unfold CheckOrigin. case_bool_decide as Ho; [by split; [left|]|].
  rewrite bool_decide_eq_true. change (parseAllowedOrigins allowed) with (parseAllowedOriginsHTTP allowed).
  rewrite origin_allowed. split; [by intros [_ H]; right|]. by intros [?|H].
Qed.

Section Origin.
Context {PG : Postgres} {WL : WsLib} (env : Env) (fails : nat -> bool).

(** A page of another site cannot open a stream: when the request has an
    Origin that is not in the list, none of the three handlers asks Docker or
    the database for anything or sends a frame. *)
Theorem ws_origin_gate allowed rq w now frames samples inputs reads :
  header rq "Origin" <> "" ->
  (forall piece, piece ∈ Split "," allowed -> TrimSpace piece <> header rq "Origin") ->
  (exists r, run env (Logs_WsHandler fails allowed rq now frames) w = (r, w) /\
             (r = WsNotUpgraded \/ exists rp, r = WsRefused rp)) /\
  (exists r, run env (Metric_WsHandler fails allowed rq samples) w = (r, w) /\
             (r = WsNotUpgraded \/ exists rp, r = WsRefused rp)) /\
  (exists r, run env (Terminal_WsHandler fails allowed rq inputs reads) w = ((r, []), w) /\
             (r = WsNotUpgraded \/ exists rp, r = WsRefused rp)).
Proof.
  intros Ho Hn. assert (CheckOrigin allowed rq = false) as Hc.
  { apply not_true_iff_false. rewrite CheckOrigin_spec. intros [?|(piece & H1 & H2)]; [done|]. by apply (Hn piece). }
  unfold Logs_WsHandler, Metric_WsHandler, Terminal_WsHandler, Upgrade. rewrite Hc.
  split_and!; case_bool_decide; cbn [run]; eexists; (split; [reflexivity|]); eauto.
Qed.
End Origin.

(** ** Log lines *)

Definition newline : ascii := ascii_of_nat 10.
Definition stream_name (stderr : bool) : string := if stderr then "stderr" else "stdout".

(** The lines the client is to see, with their stream. *)
Definition lines_of (p : string) : list string := filter (fun l => l <> "") (Split newline (TrimRightNewline p)).
Definition log_lines (frames : list (bool * string)) : list (string * string) :=
  concat (map (fun f => map (pair (stream_name f.1)) (lines_of f.2)) frames).

Definition log_entry (now : nat -> Z) (n : nat) (sl : string * string) : logEntry :=
  {| le_ID := itoa (Z.of_nat n + 1); le_Timestamp := RFC3339 (now n); le_Stream := sl.1; le_Message := sl.2 |}.

(** Entries from the [n]-th on, up to the first write that fails. *)
Fixpoint deliver (fails : nat -> bool) (now : nat -> Z) (n : nat) (l : list (string * string))
    : list logEntry * bool :=
  match l with
  | [] => ([], true)
  | x :: l' =>
      if fails n then ([], false)
      else let '(es, ok) := deliver fails now (S n) l' in (log_entry now n x :: es, ok)
  end.

Section Logs.
Context (fails : nat -> bool) (now : nat -> Z).

(** After [n] entries, all of which went through. *)
Definition after (n : nat) (c : LogConn) : Prop := lc_seq c = Z.of_nat n /\ lc_attempts c = n.

Lemma write_lines_deliver stream lines n c :
  after n c -> Z.of_nat (n + length lines) <= int64_max ->
  let l := map (pair stream) (filter (fun l => l <> "") lines) in
  let x := write_lines fails now stream lines c in
  lc_sent x.2 = lc_sent c ++ (deliver fails now n l).1 /\
  is_ok x.1 = (deliver fails now n l).2 /\
  (is_ok x.1 = true -> after (n + length l) x.2).
Proof.
  revert n c. induction lines as [|line lines IH]; intros n c [Hs Ha] Hn; cbn [write_lines].
  { cbn. rewrite app_nil_r, Nat.add_0_r. by split_and!. }
  cbn [length] in Hn. case_bool_decide as He.
  - rewrite filter_cons_False by (intros H; by apply H). apply IH; [by split|lia].
  - rewrite filter_cons_True by done. cbn [map deliver length].
    unfold seq_Add. cbn. rewrite Ha. unfold WriteJSON. cbn [lc_attempts lc_seq lc_sent].
    destruct (fails n); [cbn; by rewrite app_nil_r|].
    assert (wrap_i64 (lc_seq c + 1) = Z.of_nat n + 1) as Hw.
    { rewrite wrap_i64_id; [lia|]. unfold int64_min, int64_max in *. lia. }
    rewrite Hw. specialize (IH (S n) {| lc_seq := Z.of_nat n + 1;
      lc_sent := lc_sent c ++ [log_entry now n (stream, line)]; lc_attempts := S n |}).
    destruct IH as (H1 & H2 & H3); [split; cbn; lia|lia|]. unfold log_entry in *. cbn [fst snd lc_sent lc_seq] in *.
    destruct (write_lines fails now stream lines _) as [r c']. cbn [fst snd] in *.
    destruct (deliver fails now (S n) _) as [es ok]. cbn [fst snd] in *.
    rewrite H1, <- app_assoc. split; [done|]. split; [done|]. intros Hr.
    rewrite Nat.add_succ_r. by apply H3.
Qed.

Lemma deliver_app n l1 l2 :
  deliver fails now n (l1 ++ l2) =
  let '(es, ok) := deliver fails now n l1 in
  if ok then (es ++ (deliver fails now (n + length l1) l2).1, (deliver fails now (n + length l1) l2).2)
  else (es, false).
Proof.
  revert n. induction l1 as [|x l1 IH]; intros n; cbn [app deliver length].
  { rewrite Nat.add_0_r. by destruct (deliver fails now n l2). }
  destruct (fails n); [done|]. rewrite IH. rewrite Nat.add_succ_r. cbn [Nat.add].
  destruct (deliver fails now (S n) l1) as [es ok]. by destruct ok.
Qed.

(** The number of lines a client could ever be sent, blank ones included. *)
Definition raw_lines (frames : list (bool * string)) : nat :=
  list_sum (map (fun f => length (Split newline (TrimRightNewline f.2))) frames).

Lemma StdCopy_deliver frames n c :
  after n c -> Z.of_nat (n + raw_lines frames) <= int64_max ->
  lc_sent (StdCopy fails now frames c) = lc_sent c ++ (deliver fails now n (log_lines frames)).1.
Proof.
  revert n c. induction frames as [|[err p] frames IH]; intros n c Hc Hn; cbn [StdCopy].
  { cbn. by rewrite app_nil_r. }
  change (raw_lines ((err, p) :: frames))
    with (length (Split newline (TrimRightNewline p)) + raw_lines frames)%nat in Hn.
  unfold log_lines. cbn [map concat fst snd]. fold (log_lines frames). rewrite deliver_app.
  unfold wsLogWriter_Write. fold newline. fold (stream_name err).
  pose proof (write_lines_deliver (stream_name err) (Split newline (TrimRightNewline p)) n c Hc) as H.
  cbv zeta in H. fold (lines_of p) in H. destruct H as (H1 & H2 & H3); [lia|].
  destruct (write_lines fails now _ _ c) as [r c']. cbn [fst snd] in *.
  destruct (deliver fails now n _) as [es ok]. cbn [fst snd] in *.
  destruct r as [[]|e]; cbn [is_ok] in *; subst ok; [|exact H1].
  rewrite (IH (n + length (map (pair (stream_name err)) (lines_of p)))%nat c' (H3 eq_refl)).
  - cbn [fst]. by rewrite H1, app_assoc.
  - rewrite length_map. unfold lines_of.
    pose proof (length_filter (fun l => l <> "") (Split newline (TrimRightNewline p))). lia.
Qed.

(** The entries delivered are the first ones, numbered from 1. *)
Lemma deliver_prefix n l :
  exists k, (deliver fails now n l).1 = imap (fun i => log_entry now (n + i)) (take k l) /\ (k <= length l)%nat /\
    (forall i, (i < k)%nat -> fails (n + i)%nat = false) /\ (k = length l \/ fails (n + k)%nat = true).
Proof.
  revert n. induction l as [|x l IH]; intros n; cbn [deliver].
  { exists 0%nat. split_and!; [done|done|intros; lia|by left]. }
  destruct (fails n) eqn:Hf.
  { exists 0%nat. split_and!; [done|cbn; lia|intros; lia|right; by rewrite Nat.add_0_r]. }
  destruct (IH (S n)) as (k & H1 & H2 & H3 & H4). exists (S k).
  destruct (deliver fails now (S n) l) as [es ok]. cbn [fst] in *. split_and!.
  - cbn [take imap]. rewrite Nat.add_0_r. f_equal. rewrite H1. apply imap_ext. intros i y _. simpl.
    by rewrite Nat.add_succ_r.
  - cbn. lia.
  - intros [|i] Hi; [by rewrite Nat.add_0_r|]. rewrite Nat.add_succ_r. apply (H3 i). lia.
  - cbn [length]. rewrite Nat.add_succ_r. destruct H4 as [->|H4]; [by left|by right].
Qed.
End Logs.

(** ** Nothing of the text is lost *)

Fixpoint strip (c : ascii) (s : string) : string :=
  match s with
  | EmptyString => ""
  | String a s' => if Ascii.eqb a c then strip c s' else String a (strip c s')
  end.

Lemma strip_append c s t : strip c (String.append s t) = String.append (strip c s) (strip c t).
Proof. induction s as [|a s IH]; simpl; [done|]. destruct (Ascii.eqb a c); simpl; by rewrite IH. Qed.

Lemma cat_cons s l : cat (s :: l) = String.append s (cat l).
Proof. done. Qed.

Lemma cat_app l1 l2 : cat (l1 ++ l2) = String.append (cat l1) (cat l2).
Proof. induction l1 as [|s l1 IH]; [done|]. cbn [app]. by rewrite !cat_cons, IH, append_assoc. Qed.

Lemma cat_Split c s : cat (Split c s) = strip c s.
Proof.
  induction s as [|a s IH]; [done|]. simpl. destruct (Ascii.eqb a c) eqn:E; [by rewrite cat_cons, IH|].
  destruct (Split c s) as [|h t] eqn:Hs; [by apply Split_not_nil in Hs|].
  rewrite cat_cons in *. simpl. by rewrite IH.
Qed.

Lemma cat_nonempty l : cat (filter (fun s => s <> "") l) = cat l.
Proof.
  induction l as [|s l IH]; [done|]. destruct (decide (s <> "")) as [H|H].
  - rewrite filter_cons_True by done. by rewrite !cat_cons, IH.
  - rewrite filter_cons_False by done. assert (s = "") as -> by (destruct s; [done|by destruct H]).
    by rewrite cat_cons.
Qed.

Lemma strip_trim l n :
  strip newline (String.string_of_list_ascii (reverse (trim_with
    (fun l => match l with a :: _ => if byte_in 10 10 a then 1%nat else 0%nat | [] => 0%nat end) n (reverse l))))
  = strip newline (String.string_of_list_ascii l).
Proof.
  revert l. induction n as [|n IH]; intros l; [cbn [trim_with]; by rewrite reverse_involutive|].
  destruct l as [|a l _] using rev_ind; [done|]. rewrite reverse_snoc. cbn [trim_with].
  destruct (byte_in 10 10 a) eqn:Ha; [|by rewrite reverse_cons, reverse_involutive].
  change (drop 1 (a :: reverse l)) with (reverse l). rewrite IH.
  assert (a = newline) as ->.
  { unfold byte_in in Ha. apply andb_true_iff in Ha as [H1%Nat.leb_le H2%Nat.leb_le].
    rewrite <- (ascii_nat_embedding a). unfold newline. f_equal. lia. }
  induction l as [|b l IHl]; [done|]. simpl in *. destruct (Ascii.eqb b newline); [done|]. by rewrite IHl.
Qed.

Lemma strip_TrimRight s : strip newline (TrimRightNewline s) = strip newline s.
Proof. unfold TrimRightNewline. by rewrite strip_trim, String.string_of_list_ascii_of_string. Qed.

Lemma cat_lines_of p : cat (lines_of p) = strip newline p.
Proof. unfold lines_of. by rewrite cat_nonempty, cat_Split, strip_TrimRight. Qed.


(** ** Metrics *)

Definition u64 (z : Z) : Prop := 0 <= z < 2 ^ 64.

(** The processor share is an integer quotient: with counters that do not run
    backwards the snapshot's CPU is a multiple of a hundred per processor, zero
    as long as the container used less than the whole machine; memory in use
    is the usage without the page cache; no system time between two samples is
    a division by zero; and a cache counted larger than the usage wraps around
    to almost 2^64. *)
Theorem snapshot_arithmetic s :
  u64 (sr_TotalUsage s) -> u64 (sr_SystemUsage s) -> u64 (sr_MemoryUsage s) ->
  0 <= sr_PreTotalUsage s <= sr_TotalUsage s -> 0 <= sr_PreSystemUsage s <= sr_SystemUsage s ->
  0 <= sr_InactiveFile s < 2 ^ 64 -> 0 <= sr_OnlineCPUs s < 2 ^ 32 ->
  let dt := sr_TotalUsage s - sr_PreTotalUsage s in
  let ds := sr_SystemUsage s - sr_PreSystemUsage s in
  (ds = 0 -> buildSnapshot s = None) /\
  (ds <> 0 -> exists m, buildSnapshot s = Some m /\
     (dt < ds -> ms_CPU m = 0) /\
     (ds <= dt < 2 * ds -> ms_CPU m = 100 * sr_OnlineCPUs s) /\
     (sr_InactiveFile s <= sr_MemoryUsage s -> ms_MemoryUsed m = sr_MemoryUsage s - sr_InactiveFile s) /\
     (sr_MemoryUsage s < sr_InactiveFile s ->
        ms_MemoryUsed m = 2 ^ 64 - (sr_InactiveFile s - sr_MemoryUsage s))).
Proof.
  intros Ht Hs Hm Hpt Hps Hi Ho dt ds. unfold u64 in *. unfold buildSnapshot.
  rewrite (wrap_u64_id (sr_TotalUsage s - _)), (wrap_u64_id (sr_SystemUsage s - _)) by lia.
  fold dt ds. split; [intros ->; done|]. intros Hds. rewrite bool_decide_eq_false_2 by done.
  eexists. split; [reflexivity|]. cbn [ms_CPU ms_MemoryUsed]. assert (0 <= dt /\ 0 < ds) as [Hdt Hds'] by lia.
  split_and!.
  - intros H. rewrite Z.div_small by lia. done.
  - intros H. replace (dt / ds) with 1.
    + rewrite Z.mul_1_l, (wrap_u64_id (sr_OnlineCPUs s)) by lia. rewrite wrap_u64_id by lia. lia.
    + apply (Z.div_unique dt ds 1 (dt - ds)); lia.
  - intros H. apply wrap_u64_id. lia.
  - intros H. unfold wrap_u64. symmetry. apply (Z.mod_unique _ _ (-1)); lia.
Qed.

(** ** Terminal *)

Definition keystrokes (ms : list Message) : list string :=
  map msg_data (filter (fun m => resize_of m = None) ms).
Definition resizes (execID : string) (ms : list Message) : list DockerCall :=
  map (fun cr => ContainerExecResize execID cr.1 cr.2) (omap resize_of ms).

Section Terminal.
Context {PG : Postgres} {WL : WsLib} (env : Env) (fails : nat -> bool).

Lemma terminal_run execID n ms w : (forall i, fails i = false) ->
  let c := run env (terminal_loop fails execID n (map Some ms)) w in
  c.1 = keystrokes ms /\ outside w c.2 /\ calls w (resizes execID ms) c.2.
Proof.
  intros Hf. revert n w. induction ms as [|m ms IH]; intros n w; cbn [map terminal_loop].
  { split; [done|]. split; [done|]. by apply calls_same. }
  unfold keystrokes, resizes. cbn [omap list_omap]. destruct (resize_of m) as [[cols rows]|] eqn:E.
  - rewrite filter_cons_False by congruence. cbn [map]. unfold ignore, ResizeTerminal, docker, perform.
    cbn [bind run run_eff]. set (w1 := tick _).
    destruct (IH n w1) as (H1 & H2 & H3). split; [exact H1|]. split; [by transitivity w1|].
    eapply (calls_trans _ [_] w1); [by eapply calls_one|exact H3].
  - rewrite filter_cons_True by done. cbn [map]. rewrite Hf, run_bind.
    destruct (IH (S n) w) as (H1 & H2 & H3). destruct (run env _ w) as [rest w1]. cbn [fst snd run] in *.
    split; [f_equal; exact H1|]. by split.
Qed.

(** The shell reads what the user typed: once the terminal is open, and as
    long as its input accepts it, every message that is not a resize request
    reaches the shell, unchanged and in order, every resize request becomes one
    call with its size, in order, and nothing else happens; a message that asks
    for a size of zero is typed into the shell. *)
Theorem terminal_input execID ms w :
  (forall i, fails i = false) ->
  let c := run env (terminal_loop fails execID 0 (map Some ms)) w in
  c.1 = map msg_data (filter (fun m => resize_of m = None) ms) /\ outside w c.2 /\
  calls w (map (fun cr => ContainerExecResize execID cr.1 cr.2) (omap resize_of ms)) c.2 /\
  (forall m cols rows, resize_of m = Some (cols, rows) -> 0 < cols /\ 0 < rows).
Proof.
  intros Hf. destruct (terminal_run execID 0 ms w Hf) as (H1 & H2 & H3).
  split; [exact H1|]. split; [exact H2|]. split; [exact H3|]. intros m cols rows. unfold resize_of.
  destruct (result_bind _ _) as [r|]; [|done]. destruct (_ && _) eqn:E; [|done]. intros [= <- <-].
  apply andb_true_iff in E as [[_ E1]%andb_true_iff E2]. lia.
Qed.
End Terminal.

(** * Concrete streams *)

#[export] Instance plain_handshake : WsLib := fun rq =>
  if bool_decide (header rq "Upgrade" = "websocket") then Ok tt else Err (ErrText "not a websocket handshake").

Definition ws_request (origin : string) : Request :=
  request "GET" [("Upgrade", "websocket"); ("Origin", origin)] [("containerId", "c-1")] [("project_id", "1")] no_body.

Lemma ws_origin_gate_witness :
  CheckOrigin "https://app.example.org" (ws_request "https://evil.example.org") = false /\
  exists r, run env_ok (Terminal_WsHandler (fun _ => false) "https://app.example.org"
    (ws_request "https://evil.example.org") [] []) fixture_world = ((r, []), fixture_world).
Proof.
  split; [vm_compute; reflexivity|].
  destruct (ws_origin_gate env_ok (fun _ => false) "https://app.example.org" (ws_request "https://evil.example.org")
    fixture_world (fun _ => 0) [] [] [] []) as (_ & _ & r & H & _).
  - vm_compute. discriminate.
  - intros piece Hp. apply list_elem_of_singleton in Hp. subst piece. vm_compute. discriminate.
  - exists r. exact H.
Defined.

Definition two_lines : string := String.append "one" (String newline (String newline (String.append "two" (String newline "")))).


Definition busy : StatsResponse :=
  {| sr_Read := 0; sr_TotalUsage := 900; sr_PreTotalUsage := 100; sr_SystemUsage := 4000; sr_PreSystemUsage := 3000;
     sr_OnlineCPUs := 4; sr_MemoryUsage := 5000; sr_MemoryLimit := 10000; sr_InactiveFile := 1000 |}.

Lemma snapshot_arithmetic_witness :
  exists m, buildSnapshot busy = Some m /\ ms_CPU m = 0 /\ ms_MemoryUsed m = 4000.
Proof.
  destruct (snapshot_arithmetic busy) as [_ H]; unfold u64; cbn; try lia.
  destruct H as (m & E & H1 & _ & H2 & _); [cbn; lia|]. exists m.
  split; [exact E|]. split; [apply H1; cbn; lia|]. rewrite H2; cbn; lia.
Defined.

Definition typed (s : string) : Message := {| msg_data := s; msg_json := Err (ErrText "invalid character") |}.
Definition resized (cols rows : Z) : Message :=
  {| msg_data := "resize"; msg_json := Ok (JObj [("type", JStr "resize"); ("cols", JInt cols); ("rows", JInt rows)]) |}.

Lemma terminal_input_witness :
  let c := run env_ok (terminal_loop (fun _ => false) "exec-1" 0
    (map Some [typed "ls"; resized 80 24; resized 0 24; typed "exit"])) fixture_world in
  c.1 = ["ls"; "resize"; "exit"] /\ calls fixture_world [ContainerExecResize "exec-1" 80 24] c.2.
Proof.
  intros c. destruct (terminal_input env_ok (fun _ => false) "exec-1"
    [typed "ls"; resized 80 24; resized 0 24; typed "exit"] fixture_world (fun _ => eq_refl)) as (H1 & _ & H2 & _).
  exact (conj H1 H2).
Defined.
