(* ===== verification/Networks.v ===== *)
(** Networks: service/networkService.go and networkHandler.go, the private
    Docker networks of a user and the containers attached to them. *)

From S2P Require Import Fixtures.
From S2P Require Export ContainerManager Http Hoare.

Open Scope prog_scope.

Record ContainerMember := {
  cmb_ProjectID : string;
  cmb_Name : string;
  cmb_Alias : string;
  cmb_Status : string;
}.

Record NetworkInfo := {
  ni_ID : string;
  ni_Name : string;
  ni_DockerName : string;
  ni_CreatedAt : string;
  ni_Members : list ContainerMember;
}.

Definition json_ContainerMember (m : ContainerMember) : Json :=
  json_strings [("project_id", cmb_ProjectID m); ("name", cmb_Name m); ("alias", cmb_Alias m);
                ("status", cmb_Status m)].

Definition json_NetworkInfo (n : NetworkInfo) : Json :=
  JObj [("id", JStr (ni_ID n)); ("name", JStr (ni_Name n)); ("docker_name", JStr (ni_DockerName n));
        ("created_at", JStr (ni_CreatedAt n)); ("members", JArr (map json_ContainerMember (ni_Members n)))].

Section Networks.
Context {PG : Postgres}.

(** [fmt.Sprintf("codedock_%s_%s", userID, name)] *)
Definition docker_name (userID name : string) : string := cat ["codedock_"; userID; "_"; name].

Definition network_labels (userID name : string) : list (string * string) :=
  [("codedock.user_id", userID); ("codedock.name", name)].

(** The error of the count is not looked at: the variable stays 0. *)
Definition count_networks (userID : string) : Prog Z :=
  r <- perform (ESql Pool (CountNetworks userID)) ;;
  Ret match r with Ok n => Z.of_nat n | Err _ => 0 end.

Definition network_limit_error (maxNets : Z) : GoError :=
  ErrText (cat ["network limit reached: your plan allows "; itoa maxNets; " network(s)"]).

Definition CreateNetwork (userID name : string) : Prog (result NetworkInfo) :=
  plan <-? perform (ESql Pool (SelectPlanOfUser userID)) wrap "plan lookup failed: " ;;
  let maxNets := pl_max_networks (plan : string * plan_row).2 in
  currentNets <- count_networks userID ;;
  if maxNets <=? currentNets then Ret (Err (network_limit_error maxNets))
  else
    let dockerName := docker_name userID name in
    id <-? docker (NetworkCreate dockerName "bridge" true (network_labels userID name))
      wrap "docker NetworkCreate failed: " ;;
    r <- perform (ESql Pool (InsertNetwork userID name id dockerName)) ;;
    match r with
    | Err e => ignore (docker (NetworkRemove id)) ;;; Ret (Err (ErrWrap "db insert failed: " e))
    | Ok (netID, row) =>
        Ret (Ok {| ni_ID := netID; ni_Name := name; ni_DockerName := dockerName;
                   ni_CreatedAt := timestamptz_text (nt_created_at row); ni_Members := [] |})
    end.

(** [if err == pgx.ErrNoRows { denied } else { wrapped }] *)
Definition denied_or {A} (denied ctx : string) (r : result A) : result A :=
  match r with
  | Ok a => Ok a
  | Err e => if bool_decide (e = ErrNoRows) then Err (ErrText denied) else Err (ErrWrap ctx e)
  end.

Definition find_network (userID netID : string) : Prog (result (string * network_row)) :=
  r <- perform (ESql Pool (SelectNetwork netID userID)) ;;
  Ret (denied_or "network not found or access denied" "network lookup failed: " r).

Definition find_owned_container (userID projectID : string) : Prog (result (Z * container_row)) :=
  r <- perform (ESql Pool (SelectOwnedContainer projectID userID)) ;;
  Ret (denied_or "container not found or access denied" "container lookup failed: " r).

(** [_, err := m.pool.Exec(...); return err] *)
Definition exec_error {A} (r : result A) : result unit := result_map (fun _ => tt) r.

Definition ConnectContainer (userID netID projectID alias : string) : Prog (result unit) :=
  net <-? find_network userID netID ;;
  c <-? find_owned_container userID projectID ;;
  _ <-? docker (NetworkConnect (nt_docker_net_id (net : string * network_row).2)
                  (c_container_id (c : Z * container_row).2) [alias])
    wrap "docker NetworkConnect failed: " ;;
  r <- perform (ESql Pool (UpsertContainerNetwork c.1 netID alias)) ;;
  Ret (exec_error r).

Definition DisconnectContainer (userID netID projectID : string) : Prog (result unit) :=
  net <-? find_network userID netID ;;
  c <-? find_owned_container userID projectID ;;
  _ <-? docker (NetworkDisconnect (nt_docker_net_id (net : string * network_row).2)
                  (c_container_id (c : Z * container_row).2) false)
    wrap "docker NetworkDisconnect failed: " ;;
  r <- perform (ESql Pool (DeleteContainerNetwork c.1 netID)) ;;
  Ret (exec_error r).

Definition detach_all (dockerNetID : string) : Prog unit :=
  inspect <- docker (NetworkInspect dockerNetID) ;;
  match inspect with
  | Err _ => Ret tt
  | Ok ids => for_each ids (fun cid => ignore (docker (NetworkDisconnect dockerNetID cid true)))
  end.

Definition DeleteNetwork (userID netID : string) : Prog (result unit) :=
  net <-? find_network userID netID ;;
  let dockerNetID := nt_docker_net_id (net : string * network_row).2 in
  detach_all dockerNetID ;;;
  _ <-? docker (NetworkRemove dockerNetID) wrap "docker NetworkRemove failed: " ;;
  r <- perform (ESql Pool (DeleteNetworkRow netID userID)) ;;
  Ret (exec_error r).

(** ** Listing *)

(** [netMap] and [order] *)
Record ListState := { ls_netMap : gmap string NetworkInfo; ls_order : list string }.

Definition new_network_info (row : net_join_row) : NetworkInfo :=
  {| ni_ID := nj_id row; ni_Name := nt_name (nj_net row); ni_DockerName := nt_docker_net_name (nj_net row);
     ni_CreatedAt := timestamptz_text (nt_created_at (nj_net row)); ni_Members := [] |}.

Definition row_member (row : net_join_row) : option ContainerMember :=
  (fun m : cnet_row * Z * container_row =>
     {| cmb_ProjectID := bigint_text m.1.2; cmb_Name := c_project_name m.2; cmb_Alias := cn_alias m.1.1;
        cmb_Status := c_status m.2 |}) <$> nj_member row.

Definition add_member (m : ContainerMember) (n : NetworkInfo) : NetworkInfo :=
  {| ni_ID := ni_ID n; ni_Name := ni_Name n; ni_DockerName := ni_DockerName n;
     ni_CreatedAt := ni_CreatedAt n; ni_Members := ni_Members n ++ [m] |}.

Definition list_step (s : ListState) (row : net_join_row) : ListState :=
  let s := match ls_netMap s !! nj_id row with
           | Some _ => s
           | None => {| ls_netMap := <[nj_id row := new_network_info row]> (ls_netMap s);
                        ls_order := ls_order s ++ [nj_id row] |}
           end in
  match row_member row with
  | None => s
  | Some m => {| ls_netMap := alter (add_member m) (nj_id row) (ls_netMap s); ls_order := ls_order s |}
  end.

Definition list_rows (rows : list net_join_row) : ListState :=
  fold_left list_step rows {| ls_netMap := ∅; ls_order := [] |}.

(** [*netMap[id]] for each [id] of [order]; a missing one would be a nil
    dereference. *)
Definition list_result (s : ListState) : option (list NetworkInfo) :=
  mapM (fun id => ls_netMap s !! id) (ls_order s).

(** [None]: the handler panics. *)
Definition ListNetworks (userID : string) : Prog (option (result (list NetworkInfo))) :=
  r <- perform (ESql Pool (SelectNetworksOf userID)) ;;
  Ret match r with
      | Err e => Some (Err e)
      | Ok rows => Ok <$> list_result (list_rows rows)
      end.

(** * Handlers *)

Definition handle_Create : Handler := fun rq =>
  match decode_body rq "" (dec_struct (fun cur m => dec_field "name" dec_string cur m)) with
  | Err _ => Ret (RespondError "name is required" StatusBadRequest)
  | Ok name =>
      require_value name "name is required" (
      r <- CreateNetwork (user_id rq) name ;;
      on_ok r (fun e => RespondError (error_text e) StatusBadRequest) (fun net =>
      Ret (success (json_NetworkInfo net) StatusCreated)))
  end.

(** A panic of the handler is answered by the recovery middleware. *)
Definition handle_List (panicked : Reply) : Handler := fun rq =>
  r <- ListNetworks (user_id rq) ;;
  match r with
  | None => Ret panicked
  | Some r =>
      on_ok r (fun _ => RespondError "internal error" StatusInternalServerError) (fun nets =>
      Ret (success (JArr (map json_NetworkInfo nets)) StatusOK))
  end.

Definition handle_Dispatch (panicked : Reply) : Handler := fun rq =>
  if bool_decide (rq_Method rq = "GET") then handle_List panicked rq
  else if bool_decide (rq_Method rq = "POST") then handle_Create rq
  else Ret (RespondError "method not allowed" StatusMethodNotAllowed).

Definition handle_Delete : Handler := fun rq =>
  require_method "DELETE" "method not allowed" rq (
  r <- DeleteNetwork (user_id rq) (var rq "id") ;;
  on_ok r (fun e => RespondError (error_text e) StatusBadRequest) (fun _ => Ret no_content)).

Record ConnectRequest := { cq_ProjectID : string; cq_Alias : string }.
Definition dec_ConnectRequest : Decode ConnectRequest := dec_struct (fun cur m =>
  result_bind (dec_field "project_id" dec_string (cq_ProjectID cur) m) (fun p =>
  result_bind (dec_field "alias" dec_string (cq_Alias cur) m) (fun a =>
  Ok {| cq_ProjectID := p; cq_Alias := a |}))).

Definition handle_Connect : Handler := fun rq =>
  require_method "POST" "method not allowed" rq (
  let missing := RespondError "project_id and alias are required" StatusBadRequest in
  on_ok (decode_body rq {| cq_ProjectID := ""; cq_Alias := "" |} dec_ConnectRequest) (fun _ => missing)
    (fun req =>
  if bool_decide (cq_ProjectID req = "") || bool_decide (cq_Alias req = "") then Ret missing
  else
    r <- ConnectContainer (user_id rq) (var rq "id") (cq_ProjectID req) (cq_Alias req) ;;
    on_ok r (fun e => RespondError (error_text e) StatusBadRequest) (fun _ =>
    Ret (success_empty StatusOK)))).

Definition handle_Disconnect : Handler := fun rq =>
  require_method "DELETE" "method not allowed" rq (
  r <- DisconnectContainer (user_id rq) (var rq "id") (var rq "projectId") ;;
  on_ok r (fun e => RespondError (error_text e) StatusBadRequest) (fun _ => Ret no_content)).
End Networks.
