(* ===== verification/NetworksProps.v ===== *)
(** NetworksProps: what the network operations promise, and the listing
    compared with the tables. *)

From S2P Require Import Fixtures.
From S2P Require Export Networks.

(** * Names *)

Lemma append_sep_inj c a b s t :
  has_char c a = false -> has_char c b = false ->
  String.append a (String c s) = String.append b (String c t) -> a = b /\ s = t.
Proof.
  revert b. induction a as [|x a IH]; intros [|y b] Ha Hb H; simpl in *.
  - by injection H.
  - injection H as -> _. by rewrite Ascii.eqb_refl in Hb.
  - injection H as <- _. by rewrite Ascii.eqb_refl in Ha.
  - injection H as <- H. apply orb_false_iff in Ha as [_ Ha], Hb as [_ Hb].
    by destruct (IH _ Ha Hb H) as [-> ->].
Qed.

(** Two users' networks never share a name on the Docker daemon: user IDs
    have no underscore (they are decimal), and then the name determines the
    user and the user's own name for the network. *)
Theorem docker_name_injective u v m n :
  has_char "_" u = false -> has_char "_" v = false ->
  docker_name u m = docker_name v n -> u = v /\ m = n.
Proof.
  intros Hu Hv H. unfold docker_name, cat in H. cbn [fold_right] in H.
  apply append_inj_l in H. rewrite !append_nil_r in H. by apply append_sep_inj in H.
Qed.

(** * The listing *)

#[export] Instance net_join_le_total : Total net_join_le.
Proof.
  intros a b. unfold net_join_le. destruct (nj_member a) as [ma|], (nj_member b) as [mb|]; lia.
Qed.
#[export] Instance net_join_le_trans : Transitive net_join_le.
Proof.
  intros a b d. unfold net_join_le.
  destruct (nj_member a) as [ma|], (nj_member b) as [mb|], (nj_member d) as [md|]; lia.
Qed.

(** The networks of the rows, at their first occurrence. *)
Definition note_network (acc : list (string * network_row)) (row : net_join_row) :=
  if decide (nj_id row ∈ acc.*1) then acc else acc ++ [(nj_id row, nj_net row)].
Definition networks_of_rows (rows : list net_join_row) : list (string * network_row) :=
  fold_left note_network rows [].

(** The rows of one network. *)
Definition rows_of (x : string) (rows : list net_join_row) : list net_join_row :=
  filter (fun row => nj_id row = x) rows.

Definition info_of (nr : string * network_row) (ms : list ContainerMember) {PG : Postgres} : NetworkInfo :=
  {| ni_ID := nr.1; ni_Name := nt_name nr.2; ni_DockerName := nt_docker_net_name nr.2;
     ni_CreatedAt := timestamptz_text (nt_created_at nr.2); ni_Members := ms |}.

Section Listing.
Context {PG : Postgres}.

(** What the loop has collected after some rows, all rows of a network being
    about the same network. *)
Record list_inv (rows : list net_join_row) (s : ListState) : Prop := {
  li_order : ls_order s = (networks_of_rows rows).*1;
  li_seen : forall row, row ∈ rows -> (nj_id row, nj_net row) ∈ networks_of_rows rows;
  li_from : forall nr, nr ∈ networks_of_rows rows ->
    exists row, row ∈ rows /\ nr = (nj_id row, nj_net row);
  li_nodup : NoDup (networks_of_rows rows).*1;
  li_map : forall nr, nr ∈ networks_of_rows rows ->
    ls_netMap s !! nr.1 = Some (info_of nr (omap row_member (rows_of nr.1 rows)));
  li_none : forall x, x ∉ (networks_of_rows rows).*1 -> ls_netMap s !! x = None;
}.

Definition consistent (rows : list net_join_row) : Prop :=
  forall a b, a ∈ rows -> b ∈ rows -> nj_id a = nj_id b -> nj_net a = nj_net b.

Lemma networks_of_rows_snoc rows row :
  networks_of_rows (rows ++ [row]) = note_network (networks_of_rows rows) row.
Proof. unfold networks_of_rows. by rewrite fold_left_app. Qed.

Lemma rows_of_snoc x rows row :
  rows_of x (rows ++ [row]) = rows_of x rows ++ (if decide (nj_id row = x) then [row] else []).
Proof. unfold rows_of. rewrite filter_app, filter_cons, filter_nil. by case_decide. Qed.

Lemma rows_of_unseen x rows : (forall row, row ∈ rows -> nj_id row <> x) -> rows_of x rows = [].
Proof.
  intros H. unfold rows_of. induction rows as [|row rows IH]; [done|].
  rewrite filter_cons_False by (apply H; left). apply IH. intros r Hr. apply H. by right.
Qed.


Definition absorb (row : net_join_row) (n : option NetworkInfo) : NetworkInfo :=
  let n := default (new_network_info row) n in
  match row_member row with None => n | Some m => add_member m n end.

Lemma list_step_lookup s row x :
  ls_netMap (list_step s row) !! x =
  if decide (nj_id row = x) then Some (absorb row (ls_netMap s !! x)) else ls_netMap s !! x.
Proof.
  unfold list_step, absorb. destruct (ls_netMap s !! nj_id row) as [n|] eqn:E;
    destruct (row_member row) as [m|]; simpl; case_decide as Hx; subst;
    rewrite ?lookup_alter_eq, ?lookup_alter_ne, ?lookup_insert_eq, ?lookup_insert_ne, ?E by done; done.
Qed.

Lemma list_step_order s row :
  ls_order (list_step s row) =
  match ls_netMap s !! nj_id row with Some _ => ls_order s | None => ls_order s ++ [nj_id row] end.
Proof. unfold list_step. by destruct (ls_netMap s !! nj_id row), (row_member row). Qed.

Lemma absorb_info row nr ms : absorb row (Some (info_of nr ms)) =
  info_of nr (ms ++ omap row_member [row]).
Proof. unfold absorb. simpl. destruct (row_member row); simpl; [done|]. by rewrite app_nil_r. Qed.

Lemma list_inv_nil : list_inv [] {| ls_netMap := ∅; ls_order := [] |}.
Proof.
  split; try done; [by intros ? ?%elem_of_nil|by intros ? ?%elem_of_nil|by constructor|].
  by intros ? ?%elem_of_nil.
Qed.

Lemma list_step_inv rows row s :
  consistent (rows ++ [row]) -> list_inv rows s -> list_inv (rows ++ [row]) (list_step s row).
Proof.
  intros Hc H. pose proof (networks_of_rows_snoc rows row) as En. unfold note_network in En.
  destruct (decide (nj_id row ∈ (networks_of_rows rows).*1)) as [Hin|Hout].
  - apply list_elem_of_fmap in Hin as (nr & Hid & Hnr).
    assert (nr = (nj_id row, nj_net row)) as ->.
    { destruct (li_from _ _ H _ Hnr) as (r0 & Hr0 & ->). simpl in Hid. rewrite Hid. f_equal.
      apply Hc; set_solver. }
    pose proof (li_map _ _ H _ Hnr) as Hm. simpl in Hm.
    split; rewrite ?En.
    + rewrite list_step_order, Hm. apply H.
    + intros r [Hr| ->%list_elem_of_singleton]%elem_of_app; [by apply H|done].
    + intros x Hx. destruct (li_from _ _ H _ Hx) as (r & Hr & ->). exists r. set_solver.
    + apply H.
    + intros x Hx. rewrite list_step_lookup, rows_of_snoc, omap_app.
      rewrite (li_map _ _ H _ Hx). case_decide as Hd; [by rewrite absorb_info|].
      simpl. by rewrite app_nil_r.
    + intros x Hx. rewrite list_step_lookup. rewrite decide_False; [by apply H|].
      intros <-. apply Hx, list_elem_of_fmap. by exists (nj_id row, nj_net row).
  - pose proof (li_none _ _ H _ Hout) as Hm.
    assert (rows_of (nj_id row) rows = []) as Hr.
    { apply rows_of_unseen. intros r Hr He. apply Hout. rewrite <- He. apply list_elem_of_fmap.
      exists (nj_id r, nj_net r). split; [done|]. by apply H. }
    split; rewrite ?En.
    + rewrite list_step_order, Hm, fmap_app. by rewrite (li_order _ _ H).
    + intros r [Hr'| ->%list_elem_of_singleton]%elem_of_app; [apply elem_of_app; left; by apply H|].
      set_solver.
    + intros x [Hx| ->%list_elem_of_singleton]%elem_of_app; [|exists row; set_solver].
      destruct (li_from _ _ H _ Hx) as (r & Hr' & ->). exists r. set_solver.
    + rewrite fmap_app. apply NoDup_app. split_and!; [apply H|set_solver|apply NoDup_singleton].
    + intros x Hx. rewrite list_step_lookup, rows_of_snoc, omap_app. apply elem_of_app in Hx as [Hx|Hx].
      * assert (nj_id row <> x.1) as Hne.
        { intros He. apply Hout. rewrite He. apply list_elem_of_fmap. by exists x. }
        rewrite !decide_False by done. simpl. by rewrite app_nil_r, (li_map _ _ H _ Hx).
      * apply list_elem_of_singleton in Hx as ->. simpl. rewrite decide_True, decide_True by done.
        rewrite Hr, Hm. simpl. unfold absorb. simpl. by destruct (row_member row).
    + intros x Hx. rewrite fmap_app in Hx. rewrite list_step_lookup.
      rewrite decide_False by set_solver. apply H. set_solver.
Qed.

Lemma list_rows_inv rows : consistent rows -> list_inv rows (list_rows rows).
Proof.
  unfold list_rows. induction rows as [|row rows IH] using rev_ind; intros Hc; [apply list_inv_nil|].
  rewrite fold_left_app. apply list_step_inv; [done|]. apply IH. intros a b Ha Hb. apply Hc; set_solver.
Qed.

(** The loop returns one entry per network of its rows. *)
Lemma list_result_rows rows : consistent rows ->
  list_result (list_rows rows) =
  Some (map (fun nr => info_of nr (omap row_member (rows_of nr.1 rows))) (networks_of_rows rows)).
Proof.
  intros Hc. pose proof (list_rows_inv rows Hc) as H. unfold list_result. rewrite (li_order _ _ H).
  apply mapM_Some. rewrite Forall2_fmap_l. apply Forall2_fmap_r, Forall_Forall2_diag, Forall_forall.
  intros nr Hnr. by apply (li_map _ _ H).
Qed.

(** ** The rows of the query *)

Lemma network_join_net db nr row : row ∈ network_join db nr -> (nj_id row, nj_net row) = nr.
Proof.
  unfold network_join. destruct nr as [n r]. cbn [fst snd]. destruct (network_members n db) as [|m ms].
  - intros ->%list_elem_of_singleton. done.
  - intros (x & -> & _)%(proj1 (list_elem_of_fmap _ _ _)). done.
Qed.

Lemma network_join_inhabited db nr : exists row, row ∈ network_join db nr.
Proof. unfold network_join. destruct (network_members nr.1 db); eexists; by left. Qed.

Lemma network_join_members db nr : omap nj_member (network_join db nr) = network_members nr.1 db.
Proof.
  unfold network_join. destruct (network_members nr.1 db) as [|m ms]; [done|].
  simpl. f_equal. induction ms as [|m' ms IH]; simpl; [done|]. by rewrite IH.
Qed.

Lemma elem_of_join_rows db nets row :
  row ∈ flat_map (network_join db) nets <-> exists nr, nr ∈ nets /\ row ∈ network_join db nr.
Proof.
  rewrite list_elem_of_In, in_flat_map. by setoid_rewrite <- list_elem_of_In.
Qed.

Lemma rows_of_join db nets nr : NoDup nets.*1 -> nr ∈ nets ->
  rows_of nr.1 (flat_map (network_join db) nets) = network_join db nr.
Proof.
  assert (forall nr', rows_of nr.1 (network_join db nr') = if decide (nr'.1 = nr.1) then network_join db nr' else []) as Hone.
  { intros nr'. unfold rows_of. case_decide as Hd.
    - apply filter_all, Forall_forall. intros row Hrow. by apply network_join_net in Hrow as <-.
    - apply rows_of_unseen. intros row Hrow. by apply network_join_net in Hrow as <-. }
  induction nets as [|x nets IH]; simpl; [by intros _ ?%elem_of_nil|].
  intros [Hx Hn]%NoDup_cons Hin.
  assert (forall l l', rows_of nr.1 (l ++ l') = rows_of nr.1 l ++ rows_of nr.1 l') as Happ
    by (intros; apply filter_app).
  rewrite Happ, Hone.
  apply elem_of_cons in Hin as [<-|Hin].
  - rewrite decide_True by done. rewrite (rows_of_unseen nr.1); [by rewrite app_nil_r|].
    intros row (nr' & Hnr' & Hrow)%elem_of_join_rows He. apply network_join_net in Hrow as <-.
    apply Hx, list_elem_of_fmap. eexists. split; [|done]. done.
  - rewrite decide_False; [by apply IH|]. intros He. apply Hx. rewrite He.
    apply list_elem_of_fmap. by exists nr.
Qed.

(** Newest network first. *)
Lemma networks_of_rows_sorted rows : StronglySorted net_join_le rows ->
  StronglySorted (desc_by (fun nr => nt_created_at nr.2)) (networks_of_rows rows) /\
  (forall nr, nr ∈ networks_of_rows rows -> exists row, row ∈ rows /\ nj_net row = nr.2).
Proof.
  induction rows as [|row rows IH] using rev_ind; [by split; [constructor|intros ? ?%elem_of_nil]|].
  intros (Hle & Hs & _)%StronglySorted_app. destruct (IH Hs) as [Hn Hf].
  rewrite networks_of_rows_snoc. unfold note_network. case_decide.
  { split; [done|]. intros nr (r & ? & ?)%Hf. exists r. set_solver. }
  split.
  - apply StronglySorted_app. split_and!; [|done|by repeat constructor].
    intros nr x Hnr ->%list_elem_of_singleton. destruct (Hf _ Hnr) as (r & Hr & He).
    unfold desc_by. simpl. rewrite <- He. destruct (Hle r row Hr ltac:(by left)) as [|[]]; lia.
  - intros nr [Hnr| ->%list_elem_of_singleton]%elem_of_app; [|exists row; set_solver].
    destruct (Hf _ Hnr) as (r & ? & ?). exists r. set_solver.
Qed.

Lemma StronglySorted_filter {A} (R : relation A) (P : A -> Prop) `{forall x, Decision (P x)} l :
  StronglySorted R l -> StronglySorted R (filter P l).
Proof.
  induction 1 as [|x l Hs IH Hx]; [constructor|]. rewrite filter_cons. case_decide; [|done].
  constructor; [done|]. apply Forall_forall. intros y [_ Hy]%list_elem_of_filter.
  by eapply (proj1 (Forall_forall _ _)).
Qed.

(** Containers in the order of their IDs. *)
Lemma members_sorted rows r : StronglySorted net_join_le rows ->
  Forall (fun row => nj_net row = r) rows ->
  StronglySorted (asc_by (fun m => m.1.2)) (omap nj_member rows).
Proof.
  induction 1 as [|row rows Hs IH Hle]; intros Hr; [constructor|].
  apply Forall_cons in Hr as [Hr1 Hr2]. specialize (IH Hr2). simpl.
  destruct (nj_member row) as [m|] eqn:Em; [|done]. constructor; [done|].
  apply Forall_forall. intros m' (row' & Hrow' & Em')%list_elem_of_omap.
  rewrite Forall_forall in Hle, Hr2. specialize (Hle _ Hrow'). specialize (Hr2 _ Hrow').
  unfold net_join_le in Hle. rewrite Em, Em', Hr1, Hr2 in Hle. unfold asc_by.
  destruct Hle as [|[]]; lia.
Qed.

(** The entry of the listing for one network of the tables. *)
Definition lists_network (db : DB) (nr : string * network_row) (info : NetworkInfo) : Prop :=
  exists ms, ms ≡ₚ network_members nr.1 db /\ StronglySorted (asc_by (fun m => m.1.2)) ms /\
    info = info_of nr (map (fun m => {| cmb_ProjectID := bigint_text m.1.2; cmb_Name := c_project_name m.2;
                                        cmb_Alias := cn_alias m.1.1; cmb_Status := c_status m.2 |}) ms).

Lemma omap_row_member rows :
  omap row_member rows =
  map (fun m : cnet_row * Z * container_row =>
         {| cmb_ProjectID := bigint_text m.1.2; cmb_Name := c_project_name m.2;
            cmb_Alias := cn_alias m.1.1; cmb_Status := c_status m.2 |}) (omap nj_member rows).
Proof.
  induction rows as [|row rows IH]; [done|]. simpl. unfold row_member at 1.
  destruct (nj_member row); simpl; [f_equal|]; apply IH.
Qed.

(** C29: with the database up, [ListNetworks] never panics and lists each of the
    caller's networks exactly once, newest first, each with exactly the
    containers attached to it, by container ID; it changes nothing. *)
Theorem ListNetworks_complete env w userID u :
  sql_up env -> to_bigint userID = Some u ->
  exists nets infos w', run env (ListNetworks userID) w = (Some (Ok infos), w') /\ reads w w' /\
    nets ≡ₚ tselect (nets_of u) (networks (w_db w)) /\
    StronglySorted (desc_by (fun nr => nt_created_at nr.2)) nets /\
    Forall2 (lists_network (w_db w)) nets infos.
Proof.
  intros Hup Hu. set (db := w_db w).
  set (nets0 := tselect (nets_of u) (networks db)).
  set (rows := merge_sort net_join_le (flat_map (network_join db) nets0)).
  assert (StronglySorted net_join_le rows) as Hs by (apply StronglySorted_merge_sort; apply _).
  assert (rows ≡ₚ flat_map (network_join db) nets0) as Hp by apply merge_sort_Permutation.
  assert (NoDup nets0.*1) as Hn0 by apply NoDup_fst_map_to_list.
  assert (forall row, row ∈ rows -> (nj_id row, nj_net row) ∈ nets0) as Hrow.
  { intros row Hr. rewrite Hp in Hr. apply elem_of_join_rows in Hr as (nr & Hnr & Hr).
    by apply network_join_net in Hr as ->. }
  assert (consistent rows) as Hc.
  { intros a b Ha%Hrow Hb%Hrow He. rewrite He in Ha. apply elem_of_tselect in Ha as [Ha _], Hb as [Hb _].
    congruence. }
  pose proof (list_rows_inv rows Hc) as Hi.
  exists (networks_of_rows rows), (map (fun nr => info_of nr (omap row_member (rows_of nr.1 rows)))
    (networks_of_rows rows)).
  exists (run env (ListNetworks userID) w).2. split; [|split; [|split; [|split]]].
  - rewrite (surjective_pairing (run env (ListNetworks userID) w)) at 1. f_equal. unfold ListNetworks. rewrite run_bind. unfold perform. cbn [run].
    rewrite run_pool_up by done. cbn [exec fst]. unfold sql_select_networks_of, with_bigint. rewrite Hu.
    cbn [fst]. fold db nets0 rows. cbn [run]. rewrite (list_result_rows rows Hc). reflexivity.
  - apply run_reads. unfold ListNetworks. repeat effs_step.
  - apply NoDup_Permutation; [eapply NoDup_fmap_1, Hi|by eapply NoDup_fmap_1|].
    intros nr. split.
    + intros (row & Hr & ->)%(li_from _ _ Hi). by apply Hrow.
    + intros Hnr. destruct (network_join_inhabited db nr) as [row Hr].
      rewrite <- (network_join_net _ _ _ Hr). apply (li_seen _ _ Hi). rewrite Hp.
      apply elem_of_join_rows. by exists nr.
  - by apply networks_of_rows_sorted.
  - change (map ?f ?l) with (f <$> l). apply Forall2_fmap_r, Forall_Forall2_diag, Forall_forall.
    intros nr Hnr. destruct (li_from _ _ Hi _ Hnr) as (row & Hr & ->).
    exists (omap nj_member (rows_of (nj_id row) rows)). simpl. rewrite omap_row_member.
    split; [|split; [|done]].
    + pose proof (network_join_members db (nj_id row, nj_net row)) as Em. cbn [fst] in Em.
      rewrite <- Em, <- (rows_of_join db nets0 (nj_id row, nj_net row)) by auto.
      unfold rows_of. by rewrite Hp.
    + apply (members_sorted _ (nj_net row)); [by apply StronglySorted_filter|].
      apply Forall_forall. intros r' [He Hr']%list_elem_of_filter. by apply Hc.
Qed.
End Listing.

(** * The operations *)

Section Operations.
Context {PG : Postgres} (env : Env).

(** A read on the pool, by the row it finds. *)
Lemma wp_read s w : read_only s = true ->
  wp env (perform (ESql Pool s)) (fun r w' => reads w w' /\
    match r with
    | Ok x => exists c, (exec c s (w_db w)).1 = Ok x
    | Err e => sql_up env -> exists c, (exec c s (w_db w)).1 = Err e
    end) w.
Proof.
  intros Hs. eapply wp_mono; [apply wp_pool_sql|].
  intros r w' (T & H1 & H2 & H3 & [(err & He & -> & Hd)|(_ & -> & Hd)]).
  - split; [by split; [split|]|]. intros Hup. by rewrite Hup in He.
  - rewrite read_only_exec in Hd by done. split; [by split; [split|]|].
    destruct (exec (sql_ctx env w) s (w_db w)).1 eqn:E; intros; by eexists.
Qed.

Definition owns_network (db : DB) (userID netID n : string) (row : network_row) : Prop :=
  to_uuid netID = Some n /\ networks db !! n = Some row /\ to_bigint userID = Some (nt_user_id row).

Definition owns_container (db : DB) (userID projectID : string) (i : Z) (row : container_row) : Prop :=
  to_bigint projectID = Some i /\ containers db !! i = Some row /\ to_bigint userID = Some (c_user_id row).

Lemma wp_find_network userID netID w :
  wp env (find_network userID netID) (fun r w' => reads w w' /\
    match r with Ok (n, row) => owns_network (w_db w) userID netID n row | Err _ => True end) w.
Proof.
  eapply wp_seq; [by apply wp_read|]. intros r w1 [R1 H1]. apply wp_ret. split; [done|].
  destruct r as [[n row]|e]; simpl; [|by case_bool_decide].
  destruct H1 as [c H1]. simpl in H1. unfold sql_select_network, with_uuid, with_bigint in H1.
  destruct (to_uuid netID) as [n'|] eqn:En; [|done].
  destruct (to_bigint userID) as [u|] eqn:Eu; [|done].
  apply tfirst_Ok in H1 as [Hn Hp]. unfold nets_of in Hp.
  apply andb_true_iff in Hp as [->%bool_decide_eq_true_1 Hu%bool_decide_eq_true_1].
  split; [done|]. split; [done|]. congruence.
Qed.

Lemma wp_find_owned_container userID projectID w :
  wp env (find_owned_container userID projectID) (fun r w' => reads w w' /\
    match r with Ok (i, row) => owns_container (w_db w) userID projectID i row | Err _ => True end) w.
Proof.
  eapply wp_seq; [by apply wp_read|]. intros r w1 [R1 H1]. apply wp_ret. split; [done|].
  destruct r as [[i row]|e]; simpl; [|by case_bool_decide].
  destruct H1 as [c H1]. simpl in H1. unfold sql_select_owned_container, with_bigint in H1.
  destruct (to_bigint projectID) as [i'|] eqn:Ei; [|done].
  destruct (to_bigint userID) as [u|] eqn:Eu; [|done].
  apply tfirst_Ok in H1 as [Hn Hp]. unfold owned_by in Hp.
  apply andb_true_iff in Hp as [->%bool_decide_eq_true_1 Hu%bool_decide_eq_true_1].
  split; [done|]. split; [done|]. congruence.
Qed.

Definition connect_outcome (userID netID projectID alias : string) (w : World) (r : result unit)
    (w' : World) : Prop :=
  match r with
  | Ok _ => exists n net i c cn,
      owns_network (w_db w) userID netID n net /\ owns_container (w_db w) userID projectID i c /\
      w_trace w' = w_trace w ++
        [EvDocker (NetworkConnect (nt_docker_net_id net) (c_container_id c) [alias]) (Ok "")] /\
      cn_alias cn = alias /\
      w_db w' = set_container_networks (<[(i, n) := cn]> (container_networks (w_db w))) (w_db w)
  | Err _ => w_db w' = w_db w /\
      (w_trace w' = w_trace w \/
       exists n net i c res,
         owns_network (w_db w) userID netID n net /\ owns_container (w_db w) userID projectID i c /\
         w_trace w' = w_trace w ++
           [EvDocker (NetworkConnect (nt_docker_net_id net) (c_container_id c) [alias]) res])
  end.

(** Attaching a container calls Docker only when the caller owns both the
    network and the container; success means that Docker attached that container
    to that network under the alias and that the pair is recorded with it; a
    failure leaves the tables as they were. *)
Theorem ConnectContainer_outcome userID netID projectID alias w r w' :
  run env (ConnectContainer userID netID projectID alias) w = (r, w') ->
  connect_outcome userID netID projectID alias w r w'.
Proof.
  apply wp_run.
  eapply wp_seq; [apply wp_find_network|]. intros [[n net]|e] w1 [[O1 T1] H1].
  2:{ apply wp_ret. split; [apply O1|by left]. }
  eapply wp_seq; [apply wp_find_owned_container|]. intros [[i c]|e] w2 [[O2 T2] H2].
  2:{ apply wp_ret. split; [rewrite (out_db _ _ O2); apply O1|left; congruence]. }
  rewrite (out_db _ _ O1) in H2. cbn [fst snd].
  eapply wp_seq; [apply wp_docker|]. intros d w3 [O3 T3].
  assert (w_db w3 = w_db w) as D3 by (rewrite (out_db _ _ O3), (out_db _ _ O2); apply O1).
  rewrite T2, T1 in T3. destruct d as [[]|e].
  2:{ apply wp_ret. split; [done|]. right. by exists n, net, i, c, (Err e). }
  eapply wp_seq; [apply wp_pool_sql|]. intros x w4 (T4 & _ & _ & _ & H4). apply wp_ret.
  rewrite T3 in T4. rewrite D3 in H4.
  destruct H4 as [(err & _ & -> & D4)|(_ & -> & D4)].
  { split; [done|]. right. by exists n, net, i, c, (Ok ""). }
  cbn [exec] in D4 |- *. unfold sql_upsert_container_network, with_uuid, with_bigint in *.
  destruct H1 as (Hn & Hnet & Hu). rewrite Hn in *.
  destruct (container_networks (w_db w) !! (i, n)) as [cn|] eqn:Ecn; [|case_match].
  - exists n, net, i, c, (set_cn_alias alias cn). done.
  - split; [done|]. right. by exists n, net, i, c, (Ok "").
  - eexists n, net, i, c, _. split; [done|]. split; [done|]. split; [done|]. split; [|exact D4]. done.
Qed.

(** What a creation leaves behind: the tables and the calls to Docker. *)
Definition create_outcome (userID name : string) (w : World) (r : result NetworkInfo) (w' : World) : Prop :=
  let create := NetworkCreate (docker_name userID name) "bridge" true (network_labels userID name) in
  match r with
  | Ok info => exists netID row plan,
      to_bigint userID = Some (nt_user_id row) /\ networks (w_db w) !! netID = None /\
      nt_name row = name /\ nt_docker_net_name row = docker_name userID name /\
      info = info_of (netID, row) [] /\
      w_db w' = set_networks (<[netID := row]> (networks (w_db w))) (w_db w) /\
      w_trace w' = w_trace w ++ [EvDocker create (Ok (nt_docker_net_id row))] /\
      (sql_up env -> exists c, (exec c (SelectPlanOfUser userID) (w_db w)).1 = Ok plan /\
         Z.of_nat (tcount (nets_of (nt_user_id row)) (networks (w_db w))) < pl_max_networks plan.2)
  | Err _ => w_db w' = w_db w /\ exists tr, w_trace w' = w_trace w ++ tr /\
      (tr = [] \/ (exists e, tr = [EvDocker create (Err e)]) \/
       (exists id r, tr = [EvDocker create (Ok id); EvDocker (NetworkRemove id) r]))
  end.

Lemma insert_network_Ok c userID name id dname db x :
  (exec c (InsertNetwork userID name id dname) db).1 = Ok x ->
  exists netID row, x = (netID, row) /\ to_bigint userID = Some (nt_user_id row) /\
    networks db !! netID = None /\ nt_name row = name /\ nt_docker_net_name row = dname /\
    nt_docker_net_id row = id /\
    (exec c (InsertNetwork userID name id dname) db).2 = set_networks (<[netID := row]> (networks db)) db.
Proof.
  cbn [exec]. unfold sql_insert_network, with_bigint. destruct (to_bigint userID) as [u|]; [|done].
  destruct (live (networks db) (ctx_uuid c)) eqn:Hl; [done|].
  repeat (case_match; [done|]). intros [= <-].
  eexists _, _. split; [reflexivity|]. repeat split; try done.
  unfold live in Hl. by destruct (networks db !! ctx_uuid c).
Qed.

Lemma wp_count_networks userID u w : to_bigint userID = Some u ->
  wp env (count_networks userID) (fun n w' => reads w w' /\
    (sql_up env -> n = Z.of_nat (tcount (nets_of u) (networks (w_db w))))) w.
Proof.
  intros Hu. eapply wp_seq; [by apply wp_read|]. intros r w1 [R1 H1]. apply wp_ret.
  split; [done|]. intros Hup.
  assert (exists c, (exec c (CountNetworks userID) (w_db w)).1 = r) as [c <-]
    by (destruct r; [done|by apply H1]).
  cbn [exec]. unfold sql_count_networks, with_bigint. by rewrite Hu.
Qed.


(** The network does not exist, or belongs to another user. *)
Definition not_owned (db : DB) (userID netID : string) : Prop :=
  forall n row, ~ owns_network db userID netID n row.

Lemma find_network_denied userID netID w : not_owned (w_db w) userID netID ->
  exists e w', run env (find_network userID netID) w = (Err e, w') /\ reads w w'.
Proof.
  intros Hn. pose proof (wp_elim _ _ _ _ (wp_find_network userID netID w)) as [R H].
  destruct (run env (find_network userID netID) w) as [[[n row]|e] w']; simpl in *.
  - by apply Hn in H.
  - by exists e, w'.
Qed.

Lemma run_bind_Err {A B} (p : Prog (result A)) (k : A -> Prog (result B)) e w w' :
  run env p w = (Err e, w') ->
  run env (bind p (fun r => match r with Ok x => k x | Err e => Ret (Err e) end)) w = (Err e, w').
Proof. intros E. by rewrite run_bind, E. Qed.

(** On a network of somebody else (or on none) attaching, detaching and
    deleting fail, without a call to Docker and without any change. *)
Theorem network_owner_only userID netID projectID alias w op :
  not_owned (w_db w) userID netID ->
  op ∈ [ConnectContainer userID netID projectID alias; DisconnectContainer userID netID projectID;
        DeleteNetwork userID netID] ->
  exists e w', run env op w = (Err e, w') /\ reads w w'.
Proof.
  intros Hn Hop. destruct (find_network_denied userID netID w Hn) as (e & w' & E & R).
  exists e, w'. split; [|done].
  rewrite !elem_of_cons, elem_of_nil in Hop. destruct Hop as [->|[->|[->|[]]]];
    by apply run_bind_Err.
Qed.

(** What a deletion leaves behind. *)
Definition delete_outcome (userID netID : string) (w : World) (r : result unit) (w' : World) : Prop :=
  match r with
  | Ok _ => exists n net ids tr, owns_network (w_db w) userID netID n net /\
      networks (w_db w') = delete n (networks (w_db w)) /\
      (forall i, container_networks (w_db w') !! (i, n) = None) /\
      containers (w_db w') = containers (w_db w) /\
      w_trace w' = w_trace w ++ tr ++ [EvDocker (NetworkRemove (nt_docker_net_id net)) (Ok "")] /\
      docker_calls tr = NetworkInspect (nt_docker_net_id net)
        :: map (fun cid => NetworkDisconnect (nt_docker_net_id net) cid true) ids
  | Err _ => w_db w' = w_db w
  end.

Lemma tdelete_one {R} (n : string) (p : string -> R -> bool) (t : gmap string R) row :
  t !! n = Some row -> p n row = true ->
  tdelete (fun k r => bool_decide (k = n) && p k r) t = delete n t.
Proof.
  intros Hn Hp. apply map_eq. intros k. destruct (decide (k = n)) as [->|Hne].
  - rewrite lookup_delete_eq. apply lookup_tdelete_None. right. exists row.
    split; [done|]. by rewrite bool_decide_eq_true_2.
  - rewrite lookup_delete_ne by done. destruct (t !! k) eqn:E.
    + apply lookup_tdelete_Some. split; [done|]. by rewrite bool_decide_eq_false_2.
    + apply lookup_tdelete_None. by left.
Qed.

Lemma tdelete_nothing {K R} `{Countable K} (p : K -> R -> bool) (t : gmap K R) :
  (forall k r, t !! k = Some r -> p k r = false) -> tdelete p t = t.
Proof. intros Hp. apply map_filter_id. intros k r Hk. by apply Hp. Qed.

Lemma delete_network_row c userID netID n net db : wf_db db -> owns_network db userID netID n net ->
  let db' := (exec c (DeleteNetworkRow netID userID) db).2 in
  networks db' = delete n (networks db) /\ (forall i, container_networks db' !! (i, n) = None) /\
  containers db' = containers db.
Proof.
  intros Hwf (Hn & Hnet & Hu). cbn [exec]. unfold sql_delete_network, with_uuid, with_bigint.
  rewrite Hn, Hu. cbn [snd].
  assert (tdelete (fun k r => bool_decide (k = n) && nets_of (nt_user_id net) k r) (networks db)
          = delete n (networks db)) as Hd.
  { apply (tdelete_one n (nets_of (nt_user_id net)) _ net); [done|]. unfold nets_of.
    by rewrite bool_decide_eq_true_2. }
  rewrite Hd. unfold cascade. cbn [networks containers container_networks users set_networks].
  assert (tdelete (fun _ r => negb (live (users db) (nt_user_id r))) (delete n (networks db))
          = delete n (networks db)) as Hns.
  { apply tdelete_nothing. intros k r [_ Hk]%lookup_delete_Some.
    by rewrite (proj2 (live_true _ _) (wf_networks_user _ Hwf _ _ Hk)). }
  rewrite Hns. split; [done|]. split.
  - intros i. apply lookup_tdelete_None. destruct (container_networks db !! (i, n)) as [r|]; [|by left].
    right. exists r. split; [done|]. cbn [fst snd].
    assert (live (delete n (networks db)) n = false) as -> by (unfold live; by rewrite lookup_delete_eq).
    by rewrite andb_false_r.
  - apply tdelete_nothing. intros k r Hk. by rewrite (proj2 (live_true _ _) (wf_containers_user _ Hwf _ _ Hk)).
Qed.

Lemma wp_detach_all id w :
  wp env (detach_all id) (fun _ w' => outside w w' /\ exists ids,
    calls w (NetworkInspect id :: map (fun cid => NetworkDisconnect id cid true) ids) w') w.
Proof.
  eapply wp_seq; [apply wp_docker|]. intros [ids|e] w1 [O1 T1].
  - eapply wp_mono; [apply wp_docker_loop|]. intros [] w2 [O2 C2]. split; [by rewrite O1|].
    exists ids. apply (calls_trans _ [NetworkInspect id] w1); [by eapply calls_one|done].
  - apply wp_ret. split; [done|]. exists []. by eapply calls_one.
Qed.

End Operations.

(** * Concrete networks *)

Definition net_stmts : list (SqlCtx * Stmt) :=
  fixture_stmts ++
  [ (fixture_ctx 5 "n-1", InsertNetwork "1" "lan" "net-0" "codedock_1_lan");
    (fixture_ctx 6 "", UpsertContainerNetwork 1 "n-1" "db") ].
Definition net_world : World := world_of (exec_all net_stmts seed_db).

Lemma docker_name_injective_witness :
  has_char "_" "1" = false /\ has_char "_" "12" = false /\
  (docker_name "1" "2_a" = docker_name "12" "a" -> "1" = "12" /\ "2_a" = "a").
Proof. split; [done|]. split; [done|]. by apply docker_name_injective. Defined.

Lemma ListNetworks_complete_witness :
  sql_up env_ok /\ exists nets infos w', run env_ok (ListNetworks "1") net_world = (Some (Ok infos), w') /\
    Forall2 (lists_network (w_db net_world)) nets infos.
Proof.
  split; [done|].
  destruct (ListNetworks_complete env_ok net_world "1" 1) as (nets & infos & w' & E & _ & _ & _ & F);
    [done|vm_compute; reflexivity|]. exists nets, infos, w'. exact (conj E F).
Defined.

Example ListNetworks_ex :
  (run env_ok (ListNetworks "1") net_world).1 =
  Some (Ok [{| ni_ID := "n-1"; ni_Name := "lan"; ni_DockerName := "codedock_1_lan"; ni_CreatedAt := "1005";
               ni_Members := [{| cmb_ProjectID := "1"; cmb_Name := "web"; cmb_Alias := "db";
                                 cmb_Status := "running" |}] |}]).
Proof. vm_compute. reflexivity. Qed.

Lemma ConnectContainer_outcome_witness :
  exists w', run env_ok (ConnectContainer "1" "n-1" "1" "cache") net_world = (Ok tt, w') /\
    connect_outcome "1" "n-1" "1" "cache" net_world (Ok tt) w'.
Proof.
  assert ((run env_ok (ConnectContainer "1" "n-1" "1" "cache") net_world).1 = Ok tt) as E
    by (vm_compute; reflexivity).
  eexists. assert (run env_ok (ConnectContainer "1" "n-1" "1" "cache") net_world = (Ok tt, _)) as H
    by (rewrite <- E; apply surjective_pairing).
  split; [exact H|]. exact (ConnectContainer_outcome env_ok _ _ _ _ _ _ _ H).
Defined.



Lemma network_owner_only_witness :
  exists e w', run env_ok (DeleteNetwork "2" "n-1") net_world = (Err e, w') /\ reads net_world w'.
Proof.
  apply (network_owner_only env_ok "2" "n-1" "1" "x" net_world); [|by right; right; left].
  assert (networks (w_db net_world) = {["n-1" := {| nt_user_id := 1; nt_name := "lan"; nt_docker_net_id := "net-0";
    nt_docker_net_name := "codedock_1_lan"; nt_created_at := 1005 |}]}) as Hn by (vm_compute; reflexivity).
  intros n row (_ & Hr & Hu). rewrite Hn in Hr. apply lookup_singleton_Some in Hr as [_ <-].
  vm_compute in Hu. congruence.
Defined.
