(* ===== verification/Protocols.v ===== *)
(** Protocols: state machines that the effects of a program have to follow.

    A protocol says which effects are allowed in a state, what may be relied on
    about their answers, and the state that an answer leads to.  [follows] checks
    a program against a protocol by its text alone; [follows_run] carries over
    to its runs any relation between protocol states and worlds that the
    interpretation of single effects keeps. *)

From S2P Require Import Websocket.
From S2P Require Export Hoare ManagerFacts.

Record Protocol := {
  pr_state : Type;
  pr_allowed : pr_state -> Eff -> Prop;
  pr_answer : pr_state -> forall e, ans e -> Prop;
  pr_next : pr_state -> forall e, ans e -> pr_state;
}.

Section Follows.
Context (P : Protocol).
Implicit Types s : pr_state P.

(** From [s] the program keeps to the protocol and ends as [Q] says. *)
Fixpoint follows {A} s (p : Prog A) (Q : A -> pr_state P -> Prop) : Prop :=
  match p with
  | Ret a => Q a s
  | Do e k => pr_allowed P s e /\ forall x, pr_answer P s e x -> follows (pr_next P s e x) (k x) Q
  end.

Lemma follows_mono {A} s (p : Prog A) (Q Q' : A -> pr_state P -> Prop) :
  follows s p Q -> (forall a s', Q a s' -> Q' a s') -> follows s p Q'.
Proof.
  intros Hp HQ. revert s Hp. induction p as [a|e k IH]; intros s Hp; simpl in *; [auto|].
  destruct Hp as [He Hk]. split; auto.
Qed.

Lemma follows_seq {A B} s (p : Prog A) (f : A -> Prog B) Q :
  follows s p (fun a s' => follows s' (f a) Q) -> follows s (bind p f) Q.
Proof.
  revert s. induction p as [a|e k IH]; intros s Hp; simpl in *; [done|]. destruct Hp as [He Hk]. split; auto.
Qed.

(** [bind] with the specification of its first part. *)
Lemma follows_bind {A B} s (p : Prog A) (f : A -> Prog B) R Q :
  follows s p R -> (forall a s', R a s' -> follows s' (f a) Q) -> follows s (bind p f) Q.
Proof. intros. apply follows_seq. by eapply follows_mono. Qed.

(** A loop whose body keeps an invariant of the states. *)
Lemma follows_for_each_inv {X} (J : pr_state P -> Prop) s (l : list X) (f : X -> Prog unit)
    (Q : unit -> pr_state P -> Prop) :
  (forall x s', J s' -> follows s' (f x) (fun _ s'' => J s'')) -> (forall s', J s' -> Q tt s') -> J s ->
  follows s (for_each l f) Q.
Proof.
  intros Hf HQ. revert s. induction l as [|x l IH]; intros s Hs; simpl; [auto|].
  eapply follows_bind; [by apply Hf|]. auto.
Qed.

(** A loop whose body comes back to the state it started in. *)
Lemma follows_for_each {X} s (l : list X) (f : X -> Prog unit) (Q : unit -> pr_state P -> Prop) :
  (forall x, follows s (f x) (fun _ s' => s' = s)) -> Q tt s -> follows s (for_each l f) Q.
Proof. intros Hf HQ. apply (follows_for_each_inv (fun s' => s' = s)); [by intros x s' ->|by intros s' ->|done]. Qed.

(** Programs that touch neither the database nor the bus, under a protocol
    that is about these only. *)
Definition ignores_host : Prop :=
  forall s e, quiet_eff e -> pr_allowed P s e /\ forall x, pr_next P s e x = s.

Lemma follows_quiet {A} s (p : Prog A) (Q : A -> pr_state P -> Prop) :
  ignores_host -> all_effs quiet_eff p -> (forall a, Q a s) -> follows s p Q.
Proof.
  intros Hi Hp HQ. induction p as [a|e k IH]; simpl in *; [done|]. destruct Hp as [He Hk].
  destruct (Hi s e He) as [Ha Hn]. split; [done|]. intros x _. rewrite Hn. auto.
Qed.

(** The relation holds along every run. *)
Section Runs.
Context {PG : Postgres} (env : Env) (I : pr_state P -> World -> Prop).
Hypothesis Hstep : forall s e w, pr_allowed P s e -> I s w ->
  pr_answer P s e (run_eff env e w).1 /\ I (pr_next P s e (run_eff env e w).1) (run_eff env e w).2.

Lemma follows_run {A} s (p : Prog A) Q w : follows s p Q -> I s w ->
  exists s', Q (run env p w).1 s' /\ I s' (run env p w).2.
Proof.
  revert s w. induction p as [a|e k IH]; intros s w Hp Hw; simpl in *; [by exists s|]. destruct Hp as [He Hk].
  destruct (Hstep _ _ _ He Hw) as [Hx Hi]. destruct (run_eff env e w) as [x w1]. by eapply IH; [apply Hk|].
Qed.
End Runs.
End Follows.

Lemma terminal_loop_quiet fails execID n inputs : all_effs quiet_eff (terminal_loop fails execID n inputs).
Proof.
  revert n. induction inputs as [|[msg|] inputs IH]; intros n; cbn [terminal_loop]; [done| |done].
  destruct (resize_of msg) as [[cols rows]|]; [by apply all_effs_bind; [solve_effs|]|].
  destruct (fails n); [done|]. by apply all_effs_bind.
Qed.

(** Walks through a program, splitting every branch, down to its effects, which
    [effect] decides after [norm] has unfolded the protocol; [ignores] proves
    [ignores_host].  The user of a request is known and not split on. *)
Ltac head_of t := match t with ?f _ => head_of f | _ => t end.
Ltac split_on x := first [progress cbn [with_user rq_UserID] | destruct x].
Ltac walk_step norm effect ignores :=
  lazymatch goal with
  | |- follows _ _ (Ret _) _ => cbn [follows]
  | |- follows _ _ (for_each _ _) _ => apply follows_for_each; [intros ?|]
  | |- follows _ _ (installPackages _ _) _ => apply follows_quiet; [ignores|apply installPackages_quiet|intros ?]
  | |- follows _ _ (pullImageIfNeeded _) _ => apply follows_quiet; [ignores|apply pullImageIfNeeded_quiet|intros ?]
  | |- follows _ _ (terminal_loop _ _ _ _) _ => apply follows_quiet; [ignores|apply terminal_loop_quiet|intros ?]
  | |- follows _ _ (bind (Ret _) _) _ => cbn [bind]
  | |- follows _ _ (bind (perform _) _) _ => split; [norm; effect|intros ? ?; norm; cbn [bind]]
  | |- follows _ _ (perform _) _ => split; [norm; effect|intros ? ?; norm; cbn [bind]]
  | |- follows _ _ (bind (match ?x with _ => _ end) _) _ => split_on x
  | |- follows _ _ (bind _ _) _ => apply follows_seq
  | |- follows _ _ (match ?x with _ => _ end) _ => split_on x
  | |- follows _ _ (let _ := _ in _) _ => cbv zeta
  | |- follows _ _ ?p _ => let h := head_of p in unfold h
  | |- True => exact I
  | |- ?s = ?s => reflexivity
  end.
