(* ===== verification/Server.v ===== *)
(** Server: the routes of main.go, with the middleware around each handler, and
    the path a request takes through the server.

    The matching of a path against a route template (gorilla/mux), the rest of
    the WebSocket handshake and the instrumentation libraries are parameters.  A handler
    that starts a goroutine appears with its reply; the goroutine's program is
    the second component in Users.  A WebSocket handler appears with the
    status line of its connection. *)

From S2P Require Import Fixtures UsersProps.
From S2P Require Export Users ApiKeys Notifications Admin Catalog Middleware ContainerHandlers Websocket Networks.

Open Scope prog_scope.

(** * Routes *)

Section Server.
Context {PG : Postgres} {JL : JwtLib} {BC : Bcrypt} {VL : ValidatorLib} {UC : UnicodeCase} {MT : MimeTypes}
  {WL : WsLib} {RL : RateLib}.

(** What [main] builds the handlers from; [dp_instrument] is what the metrics and
    tracing libraries make of a response writer under a label, [dp_upgrade_refusal] what the
    upgrader answers when it refuses. *)
Record Deployment := {
  dp_handler : ContainerHandler;
  dp_secretKey : string;
  dp_userHandler : UserHandler;
  dp_allowedOrigins : string;
  dp_instrument : string -> Writer -> Writer;
  dp_upgrade_refusal : Request -> Reply;
}.

Variable dp : Deployment.

Definition dp_mailer : Mailer := uh_mailer (dp_userHandler dp).
Definition dp_baseURL : string := uh_baseURL (dp_userHandler dp).
(** [handler.Manager()] *)
Definition dp_manager : ContainerManager := hd_manager (dp_handler dp).

Definition reply_of (p : Prog Served) : Prog Reply := s <- p ;; Ret s.1.

Definition text_reply (status : Z) (text : string) : Reply :=
  {| rp_Status := status; rp_Headers := []; rp_Body := BodyText text |}.

(** [http.Error] *)
Definition http_Error (message : string) (status : Z) : Reply :=
  {| rp_Status := status;
     rp_Headers := [("Content-Type", "text/plain; charset=utf-8"); ("X-Content-Type-Options", "nosniff")];
     rp_Body := BodyText (String.append message (String newline "")) |}.

Definition ping : Handler := fun _ => Ret (text_reply StatusOK "pong").
Definition health : Handler := fun _ =>
  Ret (text_reply StatusOK (cat ["{"; quote "status"; ":"; quote "ok"; "}"])).

(** The [switch r.Method] of [/containers]; a GET writes nothing. *)
Definition containers_route : Handler := fun rq =>
  if bool_decide (rq_Method rq = "GET") then Ret (bare_status StatusOK)
  else if bool_decide (rq_Method rq = "POST") then handle_CreateContainer dp_manager rq
  else Ret (http_Error "Method not allowed" StatusMethodNotAllowed).

(** [strings.EqualFold] with a text of ASCII letters. *)
Definition EqualFold (s t : string) : bool := bool_decide (fold_name s = fold_name t).

(** The writer that [prometheusMiddleware] hands on: a request that asks for a
    WebSocket goes by it, any other is labelled with the template of its route. *)
Definition prometheusMiddleware (template : option string) (rq : Request) (w : Writer) : Writer :=
  if EqualFold (header rq "Upgrade") "websocket" then w
  else dp_instrument dp (default (rq_Path rq) template) w.

(** The response writer of a routed request: the request log's, inside the
    instrumentation. *)
Definition routed_writer (template : string) (rq : Request) (w : Writer) : Writer :=
  prometheusMiddleware (Some template) rq (responseWriter w).

(** [Stream] on a server whose writers are [w]; while it can stream the reply
    has only started. *)
Definition stream_route (w : Writer) : Handler := fun rq =>
  match (Stream (is_Flusher (routed_writer "/notifications/stream" rq w)) rq [] empty_bus).1 with
  | Refused r => Ret r
  | Notifications.Served hs _ => Ret {| rp_Status := StatusOK; rp_Headers := hs; rp_Body := NoBody |}
  end.

(** The status line of a WebSocket request: 101 once the connection is taken. *)
Definition ws_status {M} (rq : Request) (e : WsEnd M) : Reply :=
  match e with
  | WsRefused r => r
  | WsNotUpgraded => dp_upgrade_refusal dp rq
  | WsPanicked _ | WsClosed _ => bare_status 101
  end.

(** What the other ends of the streams do: clocks, frames, samples, messages. *)
Record Peers := {
  pr_fails : nat -> bool;
  pr_now : nat -> Z;
  pr_frames : list (bool * string);
  pr_samples : list (option StatsResponse);
  pr_inputs : list (option Message);
  pr_reads : list (string * bool);
}.

Variable peers : Peers.

Definition metric_route : Handler := fun rq =>
  e <- Metric_WsHandler (pr_fails peers) (dp_allowedOrigins dp) rq (pr_samples peers) ;; Ret (ws_status rq e).
Definition terminal_route : Handler := fun rq =>
  e <- Terminal_WsHandler (pr_fails peers) (dp_allowedOrigins dp) rq (pr_inputs peers) (pr_reads peers) ;;
  Ret (ws_status rq e.1).
Definition logs_route : Handler := fun rq =>
  e <- Logs_WsHandler (pr_fails peers) (dp_allowedOrigins dp) rq (pr_now peers) (pr_frames peers) ;;
  Ret (ws_status rq e).

Definition jwt (h : Handler) : Handler := AuthMiddleware (dp_secretKey dp) h.
Definition auth (h : Handler) : Handler := Middleware (dp_secretKey dp) h.

(** [router.HandleFunc(template, handler)], in the order of main.go; [w] is the
    server's response writer. *)
Definition routes (w : Writer) : list (string * Handler) :=
  [ ("/ping", ping);
    ("/auth/login", Login (dp_secretKey dp));
    ("/auth/register", fun rq => reply_of (Register dp_mailer dp_baseURL rq));
    ("/auth/refresh", RefreshToken (dp_secretKey dp));
    ("/auth/verify-email", VerifyEmail);
    ("/auth/resend-verification", fun rq => reply_of (ResendVerification dp_mailer dp_baseURL rq));
    ("/auth/forgot-password", fun rq => reply_of (ForgotPassword dp_mailer dp_baseURL rq));
    ("/auth/reset-password", ResetPassword);
    ("/health", health);
    ("/user/me", jwt handle_GetUser);
    ("/user/containers", jwt handle_GetUserWithContainers);
    ("/user", jwt handle_DeleteUser);
    ("/containers", jwt containers_route);
    ("/containers/get", jwt (handle_GetContainer dp_manager));
    ("/containers/start", jwt handle_StartContainer);
    ("/containers/stop", jwt handle_StopContainer);
    ("/containers/remove", jwt handle_RemoveContainer);
    ("/containers/exec", jwt handle_ExecCommand);
    ("/containers/showTreeFolder", jwt handle_TreeFolder);
    ("/containers/file/read", jwt handle_ReadFile);
    ("/containers/file/write", jwt handle_WriteFile);
    ("/containers/file/upload", jwt handle_UploadFile);
    ("/containers/file/download", jwt handle_DownloadFile);
    ("/ws", jwt metric_route);
    ("/ws/terminal/{project_id}", jwt terminal_route);
    ("/ws/logs/{project_id}", jwt logs_route);
    ("/templates", ListTemplates);
    ("/templates/{id}", GetTemplate);
    ("/notifications/stream", jwt (stream_route w));
    ("/notifications", jwt Notification_List);
    ("/notifications/read-all", jwt MarkAllRead);
    ("/api-keys", auth ApiKey_Dispatch);
    ("/api-keys/{id}", auth ApiKey_Delete);
    ("/networks", auth (handle_Dispatch (Recovery (Panicked None))));
    ("/networks/{id}", auth handle_Delete);
    ("/networks/{id}/connect", auth handle_Connect);
    ("/networks/{id}/containers/{projectId}", auth handle_Disconnect);
    ("/containers/health", auth handle_GetHealth);
    ("/containers/health/reset", auth (handle_ResetCircuit (hd_recovery (dp_handler dp))));
    ("/admin/stats", auth (AdminOnly Stats));
    ("/admin/users", auth (AdminOnly ListUsers));
    ("/admin/users/{id}", auth (AdminOnly Admin_DeleteUser));
    ("/admin/users/{id}/plan", auth (AdminOnly UpdateUserPlan));
    ("/plans", Plans) ].

(** gorilla/mux: the variables of a template that a path matches. *)
Variable Match : string -> string -> option (list (string * string)).

(** The first route that matches. *)
Fixpoint find_route (table : list (string * Handler)) (path : string) : option (string * Handler * list (string * string)) :=
  match table with
  | [] => None
  | (template, h) :: table' =>
      match Match template path with
      | Some vars => Some (template, h, vars)
      | None => find_route table' path
      end
  end.

Definition with_vars (vars : list (string * string)) (rq : Request) : Request :=
  {| rq_Method := rq_Method rq; rq_Path := rq_Path rq; rq_Query := rq_Query rq; rq_Headers := rq_Headers rq;
     rq_Vars := vars; rq_RemoteAddr := rq_RemoteAddr rq; rq_Body := rq_Body rq; rq_Form := rq_Form rq;
     rq_UserID := None |}.

Definition page_not_found : Reply :=
  http_Error "404 page not found" StatusNotFound.

(** A request through [CORSMiddleware], the router and, when a route matches,
    the limiter. *)
Definition serve (w : Writer) (t1 t2 : Z) (rq : Request) (rl : IPRateLimiter) : Prog Reply * IPRateLimiter :=
  let '(p, rl') :=
    match find_route (routes w) (rq_Path rq) with
    | None => (Ret page_not_found, rl)
    | Some (_, h, vars) => limit_Middleware h (with_vars vars rq) t1 t2 rl
    end in
  (CORSMiddleware (dp_allowedOrigins dp) (fun _ => p) rq,
   if bool_decide (rq_Method rq = "OPTIONS") then rl else rl').
End Server.

(** * Facts *)

Section Gates.
Context {PG : Postgres} {JL : JwtLib} (env : Env) (secretKey : string).

(** The request names the user [uid]: by a token or by an API key. *)
Definition identifies (rq : Request) (uid : string) (w : World) : Prop :=
  (exists token, presents rq token /\ valid_token env secretKey token uid w) \/
  (header rq "X-API-Key" <> "" /\ key_owner (header rq "X-API-Key") uid (w_db w)).

Definition unchanged (w w' : World) : Prop := w_db w' = w_db w /\ w_trace w' = w_trace w.

(** Without a user the answer is 401 and nothing happens. *)
Definition guarded (h : Handler) : Prop := forall rq w rp w',
  run env (h rq) w = (rp, w') ->
  (rp_Status rp = StatusUnauthorized /\ unchanged w w') \/ exists uid, identifies rq uid w.

(** Without an administrator the answer is 401 or 403, and at most the time an
    API key was last used changes. *)
Definition admin_guarded (h : Handler) : Prop := forall rq w rp w',
  run env (h rq) w = (rp, w') ->
  ((rp_Status rp = StatusUnauthorized \/ rp_Status rp = StatusForbidden) /\ w_trace w' = w_trace w /\
   w_db w' = set_api_keys (api_keys (w_db w')) (w_db w)) \/
  exists uid i row, identifies rq uid w /\ to_bigint uid = Some i /\ users (w_db w) !! i = Some row /\
    u_role row = "admin".

Lemma guarded_jwt h : guarded (AuthMiddleware secretKey h).
Proof.
  intros rq w rp w' [(Hs & Hq & Ht)|(token & uid & w1 & Hp & Hv & _)]%run_AuthMiddleware.
  - left. split; [done|]. split; [apply Hq|done].
  - right. exists uid. left. by exists token.
Qed.

Lemma guarded_auth h : guarded (Middleware secretKey h).
Proof.
  intros rq w rp w' [(Hs & Hd & Ht)|[(Hk & uid & w1 & Ho & _)|(Hk & token & uid & w1 & Hp & Hv & _)]]%run_Middleware.
  - by left.
  - right. exists uid. by right.
  - right. exists uid. left. by exists token.
Qed.

Lemma set_api_keys_same db : set_api_keys (api_keys db) db = db.
Proof. by destruct db. Qed.

Lemma guarded_admin h : admin_guarded (Middleware secretKey (AdminOnly h)).
Proof.
  assert (forall uid rq w w1 rp w', run env (AdminOnly h (with_user uid rq)) w1 = (rp, w') ->
    w_trace w1 = w_trace w -> w_db w1 = set_api_keys (api_keys (w_db w1)) (w_db w) -> identifies rq uid w ->
    ((rp_Status rp = StatusUnauthorized \/ rp_Status rp = StatusForbidden) /\ w_trace w' = w_trace w /\
     w_db w' = set_api_keys (api_keys (w_db w')) (w_db w)) \/
    exists uid i row, identifies rq uid w /\ to_bigint uid = Some i /\ users (w_db w) !! i = Some row /\
      u_role row = "admin") as Hadmin.
  { intros uid rq w w1 rp w' Hr Ht Hd Hid.
    apply run_AdminOnly in Hr as [(Hs & Ho & Ht')|(i & row & w2 & Hi & Hu & Ha & _)].
    - left. split; [by right|]. rewrite (out_db _ _ Ho). split; [congruence|done].
    - right. exists uid, i, row. split; [done|]. split; [done|]. split; [|done]. by rewrite Hd in Hu. }
  intros rq w rp w' [(Hs & Hd & Ht)|[(Hk & uid & w1 & Ho & Ht & Hd%key_used_only & Hr)|(Hk & token & uid & w1 & Hp & Hv & Hq & Ht & Hr)]]%run_Middleware.
  - left. split; [by left|]. split; [done|]. by rewrite Hd, set_api_keys_same.
  - eapply Hadmin; [exact Hr|done|done|]. by right.
  - eapply Hadmin; [exact Hr|done| |left; by exists token].
    by rewrite (quiet_db _ _ Hq), set_api_keys_same.
Qed.
End Gates.

Section Facts.
Context {PG : Postgres} {JL : JwtLib} {BC : Bcrypt} {VL : ValidatorLib} {UC : UnicodeCase} {MT : MimeTypes}
  {WL : WsLib} {RL : RateLib}.
Context (dp : Deployment) (peers : Peers) (env : Env).

Definition public_routes : list string :=
  ["/ping"; "/auth/login"; "/auth/register"; "/auth/refresh"; "/auth/verify-email"; "/auth/resend-verification";
   "/auth/forgot-password"; "/auth/reset-password"; "/health"; "/templates"; "/templates/{id}"; "/plans"].

Lemma routes_protected w :
  Forall (fun th => th.1 ∈ public_routes \/ guarded env (dp_secretKey dp) th.2) (routes dp peers w).
Proof.
  unfold routes, jwt, auth.
  repeat apply Forall_cons_2; [..|by constructor].
  all: cbn [fst snd]; first [ right; apply guarded_jwt | right; apply guarded_auth
                            | left; apply (bool_decide_unpack _); vm_compute; exact I ].
Qed.


Lemma find_route_in Match table path template h vars :
  find_route Match table path = Some (template, h, vars) -> (template, h) ∈ table /\ Match template path = Some vars.
Proof.
  induction table as [|[t h'] table IH]; [done|]. simpl. destruct (Match t path) as [vs|] eqn:E.
  - intros [= <- <- <-]. split; [left|done].
  - intros H. destruct (IH H). split; [by right|done].
Qed.

Lemma identifies_vars secret vars rq uid w : identifies env secret (with_vars vars rq) uid w -> identifies env secret rq uid w.
Proof. done. Qed.


(** The live stream is never served: the writer of the request log is no
    [http.Flusher], and instrumentation adds no interface the wrapped writer
    lacks, so on any server a signed-in request for [/notifications/stream] is
    answered 500, whatever its writer can do. *)
Theorem stream_unavailable wr rq w :
  (forall label w, is_Flusher (dp_instrument dp label w) = true -> is_Flusher w = true) -> user_id rq <> "" ->
  run env (stream_route dp wr rq) w =
  (RespondError "streaming not supported by server" StatusInternalServerError, w).
Proof.
  intros Hi Hu. unfold stream_route, routed_writer, prometheusMiddleware, Stream.
  rewrite bool_decide_eq_false_2 by done.
  destruct (EqualFold _ _); [done|]. destruct (is_Flusher _) eqn:E; [by apply Hi in E|done].
Qed.
End Facts.

(** * The envelope of every reply *)

Fixpoint all_rets {A} (P : A -> Prop) (p : Prog A) : Prop :=
  match p with
  | Ret a => P a
  | Do e k => forall x, all_rets P (k x)
  end.

Lemma all_rets_bind {A B} (P : B -> Prop) (p : Prog A) (f : A -> Prog B) :
  (forall a, all_rets P (f a)) -> all_rets P (bind p f).
Proof. intros Hf. induction p as [a|e k IH]; simpl; [apply Hf|]. exact IH. Qed.

Lemma all_rets_reply_of P p : all_rets (fun s => P s.1) p -> all_rets P (reply_of p).
Proof. unfold reply_of. induction p as [a|e k IH]; simpl; [done|]. auto. Qed.

Lemma run_rets {PG : Postgres} {A} env (P : A -> Prop) (p : Prog A) w : all_rets P p -> P (run env p w).1.
Proof.
  revert w. induction p as [a|e k IH]; intros w; simpl; [done|]. intros H. destruct (run_eff env e w) as [x w'].
  by apply IH.
Qed.

(** A JSON envelope whose member [success] says whether the status is an error,
    or the empty 204. *)
Definition reply_ok (r : Reply) : Prop := envelope_ok r \/ r = no_content.

Lemma reply_ok_success data status : status < 400 -> reply_ok (success data status).
Proof. left. by apply envelope_success. Qed.
Lemma reply_ok_error message status : 400 <= status -> reply_ok (RespondError message status).
Proof. left. by apply envelope_error. Qed.
Lemma reply_ok_empty : reply_ok (success_empty StatusOK).
Proof. left. eexists. split; [reflexivity|]. by split. Qed.
Lemma reply_ok_no_content : reply_ok no_content.
Proof. by right. Qed.

Create HintDb reply discriminated.
#[export] Hint Resolve reply_ok_success reply_ok_error reply_ok_empty reply_ok_no_content : reply.
#[export] Hint Extern 1 (_ < 400) => reflexivity : reply.
#[export] Hint Extern 1 (400 <= _) => discriminate : reply.

#[export] Hint Unfold unauthorized method_not_allowed invalid_credentials internal_server_error internal_error
  bad_request invalid_body failed access_denied internal image_not_allowed : reply.

(** Walks to the replies of a handler, splitting every branch. *)
Ltac rets_step :=
  match goal with
  | |- all_rets _ (reply_of _) => apply all_rets_reply_of
  | |- all_rets _ (bind _ _) => apply all_rets_bind; intros ?
  | |- all_rets _ (Ret (match ?x with _ => _ end)) => destruct x
  | |- all_rets _ (Ret _) => cbn [all_rets fst]; solve [eauto with reply]
  | |- all_rets _ (on_ok ?r _ _) => destruct r; cbn [on_ok]
  | |- all_rets _ (match ?x with _ => _ end) => destruct x
  | |- all_rets _ (let _ := _ in _) => cbv zeta
  | |- all_rets _ (?h _) => unfold h
  | |- all_rets _ (?h _ _) => unfold h
  | |- all_rets _ (?h _ _ _) => unfold h
  | |- all_rets _ (?h _ _ _ _) => unfold h
  | |- all_rets _ (?h _ _ _ _ _) => unfold h
  | |- all_rets _ (?h _ _ _ _ _ _) => unfold h
  end.

Section Envelopes.
Context {PG : Postgres} {JL : JwtLib} {BC : Bcrypt} {VL : ValidatorLib} {UC : UnicodeCase} {MT : MimeTypes}.
Context (dp : Deployment).

(** The handlers that answer with JSON. *)
Definition json_handlers : list Handler :=
  [Login (dp_secretKey dp); (fun rq => reply_of (Register (dp_mailer dp) (dp_baseURL dp) rq));
   RefreshToken (dp_secretKey dp); VerifyEmail;
   (fun rq => reply_of (ResendVerification (dp_mailer dp) (dp_baseURL dp) rq));
   (fun rq => reply_of (ForgotPassword (dp_mailer dp) (dp_baseURL dp) rq)); ResetPassword;
   handle_GetUser; handle_GetUserWithContainers; handle_DeleteUser;
   handle_CreateContainer (dp_manager dp); handle_GetContainer (dp_manager dp); handle_StartContainer;
   handle_StopContainer; handle_RemoveContainer; handle_ExecCommand; handle_TreeFolder; handle_ReadFile;
   handle_WriteFile; handle_UploadFile; ListTemplates; GetTemplate; Notification_List; MarkAllRead;
   ApiKey_Dispatch; ApiKey_Delete; handle_Create; handle_Delete; handle_Connect; handle_Disconnect;
   handle_GetHealth; handle_ResetCircuit (hd_recovery (dp_handler dp)); Stats; ListUsers; Admin_DeleteUser; UpdateUserPlan].

(** C36: the JSON handlers keep the contract of the API: whatever the request, the
    tables and the outside world, the reply is an envelope whose [success] is
    true exactly for a status below 400, or the empty 204. *)
Theorem replies_are_envelopes env rq w :
  Forall (fun h => reply_ok (run env (h rq) w).1) json_handlers.
Proof.
  unfold json_handlers. repeat apply Forall_cons_2; [..|by constructor].
  all: apply run_rets; repeat rets_step.
Qed.
End Envelopes.

(** * A concrete server *)

Definition fixture_deployment : Deployment :=
  {| dp_handler := {| hd_manager := fixture_manager; hd_recovery := true |}; dp_secretKey := fixture_secret; 
     dp_userHandler := {| uh_mailer := smtp_mailer; uh_baseURL := site |};
     dp_allowedOrigins := site; dp_instrument := fun _ w => w;
     dp_upgrade_refusal := fun _ => bare_status StatusForbidden |}.
Definition quiet_peers : Peers :=
  {| pr_fails := fun _ => false; pr_now := fun _ => 0; pr_frames := []; pr_samples := []; pr_inputs := [];
     pr_reads := [] |}.
(** A router without variables. *)
Definition exact_match (template path : string) : option (list (string * string)) :=
  if bool_decide (template = path) then Some [] else None.
Definition net_http_writer : Writer := {| is_Flusher := true; is_Hijacker := true |}.

Definition stranger_request : Request :=
  {| rq_Method := "DELETE"; rq_Path := "/user"; rq_Query := []; rq_Headers := []; rq_Vars := [];
     rq_RemoteAddr := "192.0.2.1:40000"; rq_Body := no_body; rq_Form := Err (ErrText "not multipart");
     rq_UserID := None |}.


Lemma stream_unavailable_witness :
  let rq := with_user "1" (request "GET" [] [] [] no_body) in
  (run env_ok (stream_route fixture_deployment net_http_writer rq) fixture_world).1
  = RespondError "streaming not supported by server" StatusInternalServerError.
Proof.
  intros rq. rewrite (stream_unavailable fixture_deployment env_ok net_http_writer rq fixture_world (fun _ w H => H)).
  - reflexivity.
  - discriminate.
Defined.
