(* ===== verification/Tenants.v ===== *)
(** Tenants: what one account's requests can do to the others.

    [foreign m db] is the database without the rows of the account [m].  A
    statement is [own] when it leaves that part of every database alone, and a
    program [stays] with its tenant when every statement it may perform is. *)

From S2P Require Import Fixtures UsersProps Protocols.
From S2P Require Export Server.

Open Scope prog_scope.

(** * The tables of the other accounts *)

(** [None]: a caller whose ID is no account key owns nothing. *)
Definition is_mine (m : option Z) (u : Z) : bool := bool_decide (m = Some u).

(** Every table without the rows of [m]; of the attachments of containers to
    networks, those between a container and a network of others. *)
Definition foreign (m : option Z) (db : DB) : DB :=
  let cs := tdelete (fun _ r => is_mine m (c_user_id r)) (containers db) in
  let ns := tdelete (fun _ r => is_mine m (nt_user_id r)) (networks db) in
  {| users := tdelete (fun k _ => is_mine m k) (users db);
     containers := cs;
     plans := plans db;
     email_tokens := tdelete (fun _ r => is_mine m (t_user_id r)) (email_tokens db);
     notifications := tdelete (fun _ r => is_mine m (n_user_id r)) (notifications db);
     api_keys := tdelete (fun _ r => is_mine m (k_user_id r)) (api_keys db);
     networks := ns;
     container_networks := tdelete (fun k _ => negb (live cs k.1 && live ns k.2)) (container_networks db);
     audit_log := tdelete (fun _ r => is_mine m (a_user_id r)) (audit_log db);
     templates := templates db;
     images := images db |}.

Lemma is_mine_self m u : m = Some u -> is_mine m u = true.
Proof. intros ->. by apply bool_decide_eq_true_2. Qed.

(** ** Rows that are looked away from *)

Section Rows.
Context {K R : Type} `{Countable K}.
Implicit Types (t : gmap K R) (q : K -> R -> bool).

Lemma tdelete_insert_hidden q t k r :
  q k r = true -> (forall r0, t !! k = Some r0 -> q k r0 = true) -> tdelete q (<[k := r]> t) = tdelete q t.
Proof.
  intros Hr H0. apply map_eq. intros j. apply option_eq. intros x.
  rewrite !lookup_tdelete_Some, lookup_insert_Some. split.
  - intros [[[<- <-]|[Hj Hx]] Hq]; [congruence|done].
  - intros [Hx Hq]. split; [|done]. right. split; [|done]. intros <-. rewrite (H0 _ Hx) in Hq. done.
Qed.

Lemma tdelete_tupdate_hidden q p f t :
  (forall k r, t !! k = Some r -> p k r = true -> q k r = true /\ q k (f r) = true) ->
  tdelete q (tupdate p f t) = tdelete q t.
Proof.
  intros Hp. apply map_eq. intros j. apply option_eq. intros x.
  rewrite !lookup_tdelete_Some, lookup_tupdate, fmap_Some. split.
  - intros [(r & Hr & ->) Hq]. destruct (p j r) eqn:E; [|done].
    destruct (Hp _ _ Hr E) as [_ H2]. congruence.
  - intros [Hx Hq]. split; [|done]. exists x. split; [done|]. destruct (p j x) eqn:E; [|done].
    destruct (Hp _ _ Hx E). congruence.
Qed.

Lemma tdelete_tdelete_hidden q p t :
  (forall k r, t !! k = Some r -> p k r = true -> q k r = true) -> tdelete q (tdelete p t) = tdelete q t.
Proof.
  intros Hp. apply map_eq. intros j. apply option_eq. intros x. rewrite !lookup_tdelete_Some. split.
  - by intros [[Hx _] Hq].
  - intros [Hx Hq]. split; [|done]. split; [done|]. destruct (p j x) eqn:E; [|done].
    rewrite (Hp _ _ Hx E) in Hq. done.
Qed.
End Rows.

Lemma foreign_set_containers m v db :
  tdelete (fun _ r => is_mine m (c_user_id r)) v = tdelete (fun _ r => is_mine m (c_user_id r)) (containers db) ->
  foreign m (set_containers v db) = foreign m db.
Proof. intros E. unfold foreign. simpl. by rewrite E. Qed.
Lemma foreign_set_networks m v db :
  tdelete (fun _ r => is_mine m (nt_user_id r)) v = tdelete (fun _ r => is_mine m (nt_user_id r)) (networks db) ->
  foreign m (set_networks v db) = foreign m db.
Proof. intros E. unfold foreign. simpl. by rewrite E. Qed.
Lemma foreign_set_users m v db :
  tdelete (fun k _ => is_mine m k) v = tdelete (fun k _ => is_mine m k) (users db) ->
  foreign m (set_users v db) = foreign m db.
Proof. intros E. unfold foreign. simpl. by rewrite E. Qed.
Lemma foreign_set_api_keys m v db :
  tdelete (fun _ r => is_mine m (k_user_id r)) v = tdelete (fun _ r => is_mine m (k_user_id r)) (api_keys db) ->
  foreign m (set_api_keys v db) = foreign m db.
Proof. intros E. unfold foreign. simpl. by rewrite E. Qed.
Lemma foreign_set_notifications m v db :
  tdelete (fun _ r => is_mine m (n_user_id r)) v = tdelete (fun _ r => is_mine m (n_user_id r)) (notifications db) ->
  foreign m (set_notifications v db) = foreign m db.
Proof. intros E. unfold foreign. simpl. by rewrite E. Qed.
Lemma foreign_set_container_networks m v db :
  let hidden := fun k (_ : cnet_row) =>
    negb (live (containers (foreign m db)) k.1 && live (networks (foreign m db)) k.2) in
  tdelete hidden v = tdelete hidden (container_networks db) ->
  foreign m (set_container_networks v db) = foreign m db.
Proof. intros hidden E. unfold foreign. simpl. f_equal. exact E. Qed.

(** The rows of the others have live owners. *)
Record owned (o : DB) : Prop := {
  ow_containers : fk c_user_id (containers o) (users o);
  ow_tokens : fk t_user_id (email_tokens o) (users o);
  ow_notifications : fk n_user_id (notifications o) (users o);
  ow_keys : fk k_user_id (api_keys o) (users o);
  ow_networks : fk nt_user_id (networks o) (users o);
  ow_audit : fk a_user_id (audit_log o) (users o);
}.

Lemma fk_foreign {K R} `{Countable K} m (get : R -> Z) (t : gmap K R) (us : gmap Z user_row) :
  fk get t us -> fk get (tdelete (fun _ r => is_mine m (get r)) t) (tdelete (fun k _ => is_mine m k) us).
Proof.
  intros Hf k r [Hk Hq]%lookup_tdelete_Some. destruct (Hf _ _ Hk) as [u Hu]. exists u.
  by apply lookup_tdelete_Some.
Qed.

Lemma foreign_owned m db : wf_db db -> owned (foreign m db).
Proof. intros []. split; simpl; by apply fk_foreign. Qed.

Lemma tdelete_orphans {K R} `{Countable K} m (get : R -> Z) (t : gmap K R) (us : gmap Z user_row) :
  fk get (tdelete (fun _ r => is_mine m (get r)) t) (tdelete (fun k _ => is_mine m k) us) ->
  tdelete (fun _ r => is_mine m (get r)) (tdelete (fun _ r => negb (live us (get r))) t)
  = tdelete (fun _ r => is_mine m (get r)) t.
Proof.
  intros Hf. apply tdelete_tdelete_hidden. intros k r Hk Hl%negb_true_iff.
  destruct (is_mine m (get r)) eqn:E; [done|]. exfalso.
  destruct (Hf k r) as [u [Hu _]%lookup_tdelete_Some]; [by apply lookup_tdelete_Some|].
  unfold live in Hl. by rewrite Hu in Hl.
Qed.

(** What a deletion takes along belongs to the same account. *)
Lemma foreign_cascade m db : owned (foreign m db) -> foreign m (cascade db) = foreign m db.
Proof.
  intros [O1 O2 O3 O4 O5 O6]. unfold foreign, cascade. simpl in *.
  rewrite !tdelete_orphans by done. f_equal.
  apply tdelete_tdelete_hidden. intros k r _ Hl. apply negb_true_iff, andb_false_iff.
  apply negb_true_iff, andb_false_iff in Hl.
  assert (forall {K R : Type} `{Countable K} (t : gmap K R) p q j, tdelete q (tdelete p t) = tdelete q t ->
    live (tdelete p t) j = false -> live (tdelete q t) j = false) as Hlive.
  { intros K R ? ? t p q j E Hj. unfold live in *. destruct (tdelete q t !! j) as [x|] eqn:Ex; [|done].
    rewrite <- E in Ex. apply lookup_tdelete_Some in Ex as [Ex _]. by rewrite Ex in Hj. }
  destruct Hl as [Hl|Hl]; [left|right]; (eapply Hlive; [by apply tdelete_orphans|exact Hl]).
Qed.

(** * Statements *)

Section Statements.
Context {PG : Postgres} (m : option Z) (o : DB).

(** The statement leaves the others' tables [o] alone. *)
Definition own (s : Stmt) : Prop := forall c db,
  wf_db db -> foreign m db = o -> foreign m (exec c s db).2 = o.

Lemma own_read s : read_only s = true -> own s.
Proof. intros Hs c db _ E. by rewrite read_only_exec. Qed.

(** A container that is not somebody else's. *)
Definition not_theirs (i : Z) : Prop := containers o !! i = None.

Lemma not_theirs_mine i db r : foreign m db = o -> not_theirs i -> containers db !! i = Some r ->
  is_mine m (c_user_id r) = true.
Proof.
  intros Hf Hn Hi. unfold not_theirs in Hn. rewrite <- Hf in Hn. simpl in Hn.
  apply lookup_tdelete_None in Hn as [Hn|(r' & Hr & Hm)]; congruence.
Qed.

Lemma mine_not_theirs i db r : foreign m db = o -> containers db !! i = Some r ->
  is_mine m (c_user_id r) = true -> not_theirs i.
Proof. intros Hf Hi Hm. unfold not_theirs. rewrite <- Hf. simpl. apply lookup_tdelete_None. right. eauto. Qed.

Lemma own_update_containers p f db :
  (forall r, c_user_id (f r) = c_user_id r) ->
  (forall k r, containers db !! k = Some r -> p k r = true -> is_mine m (c_user_id r) = true) ->
  foreign m (set_containers (tupdate p f (containers db)) db) = foreign m db.
Proof.
  intros Hf Hp. apply foreign_set_containers, tdelete_tupdate_hidden. intros k r Hk E.
  rewrite Hf. eauto.
Qed.

(** The account named in the statement's text is the caller's. *)
Section Named.
Context (uid : string) (Hm : to_bigint uid = m).

Lemma own_mark_all_read : own (MarkAllReadRows uid).
Proof.
  intros c db _ Hf. rewrite <- Hf. clear Hf. simpl. unfold sql_mark_all_read, with_bigint, reject.
  destruct (to_bigint uid) as [u|] eqn:E; [|done]. apply foreign_set_notifications, tdelete_tupdate_hidden.
  intros k r _ Hp. bool_norm. simpl. subst u. split; by apply is_mine_self.
Qed.

Lemma own_insert_api_key name hash prefix : own (InsertApiKey uid name hash prefix).
Proof.
  intros c db _ Hf. rewrite <- Hf. clear Hf. simpl. unfold sql_insert_api_key, with_bigint, reject.
  destruct (to_bigint uid) as [u|] eqn:E; [|done]. sql_cases; try done. bool_norm.
  apply foreign_set_api_keys, tdelete_insert_hidden; [by apply is_mine_self|]. intros r0 Hr.
  unfold live in *. by rewrite Hr in *.
Qed.

Lemma own_delete_api_key id : own (DeleteApiKey id uid).
Proof.
  intros c db _ Hf. rewrite <- Hf. clear Hf. simpl. unfold sql_delete_api_key, with_bigint, with_uuid, reject.
  destruct (to_uuid id), (to_bigint uid) as [u|] eqn:E; try done.
  apply foreign_set_api_keys, tdelete_tdelete_hidden. intros k r _ Hp. bool_norm. subst u. by apply is_mine_self.
Qed.

Lemma own_insert_network name did dname : own (InsertNetwork uid name did dname).
Proof.
  intros c db _ Hf. rewrite <- Hf. clear Hf. simpl. unfold sql_insert_network, with_bigint, reject.
  destruct (to_bigint uid) as [u|] eqn:E; [|done]. sql_cases; try done. bool_norm.
  apply foreign_set_networks, tdelete_insert_hidden; [by apply is_mine_self|]. intros r0 Hr.
  unfold live in *. by rewrite Hr in *.
Qed.

Lemma own_delete_network id : own (DeleteNetworkRow id uid).
Proof.
  intros c db Hwf Hf. rewrite <- Hf. clear Hf. simpl. unfold sql_delete_network, with_bigint, with_uuid, reject.
  destruct (to_uuid id), (to_bigint uid) as [u|] eqn:E; try done. simpl.
  assert (foreign m (set_networks (tdelete (fun k r => bool_decide (k = s) && nets_of u k r) (networks db)) db)
    = foreign m db) as Ef.
  { apply foreign_set_networks, tdelete_tdelete_hidden. intros k r _ Hp. unfold nets_of in Hp. bool_norm. subst u.
    by apply is_mine_self. }
  rewrite foreign_cascade; rewrite Ef; [done|]. by apply foreign_owned.
Qed.

Lemma own_reset_circuit id : own (ResetCircuitRow id uid).
Proof.
  intros c db _ Hf. rewrite <- Hf. clear Hf. simpl. unfold sql_reset_circuit, with_bigint, reject.
  destruct (to_bigint id), (to_bigint uid) as [u|] eqn:E; try done.
  apply own_update_containers; [done|]. intros k r _ Hp. unfold owned_by in Hp. bool_norm. subst u. by apply is_mine_self.
Qed.

Lemma own_delete_containers_of_user : own (DeleteContainersOfUser uid).
Proof.
  intros c db Hwf Hf. rewrite <- Hf. clear Hf. simpl. unfold sql_delete_containers_of_user, with_bigint, reject.
  destruct (to_bigint uid) as [u|] eqn:E; [|done]. simpl.
  assert (foreign m (set_containers (tdelete (fun _ r => bool_decide (c_user_id r = u)) (containers db)) db)
    = foreign m db) as Ef.
  { apply foreign_set_containers, tdelete_tdelete_hidden. intros k r _ Hp. bool_norm. subst u. by apply is_mine_self. }
  rewrite foreign_cascade; rewrite Ef; [done|]. by apply foreign_owned.
Qed.

Lemma own_delete_user : own (DeleteUserRow uid).
Proof.
  intros c db Hwf Hf. rewrite <- Hf. clear Hf. simpl. unfold sql_delete_user, with_bigint, reject.
  destruct (to_bigint uid) as [u|] eqn:E; [|done]. simpl.
  assert (foreign m (set_users (tdelete (fun k _ => bool_decide (k = u)) (users db)) db) = foreign m db) as Ef.
  { apply foreign_set_users, tdelete_tdelete_hidden. intros k r _ Hp. bool_norm. subst u. by apply is_mine_self. }
  rewrite foreign_cascade; rewrite Ef; [done|]. by apply foreign_owned.
Qed.

Lemma own_insert_container ci pn fp po st sa im : own (InsertContainer ci pn fp po st uid sa im).
Proof.
  intros c db _ Hf. rewrite <- Hf. clear Hf. simpl. unfold sql_insert_container, with_bigint, reject.
  destruct (to_bigint uid) as [u|] eqn:E; [|done]. sql_cases; try done. bool_norm.
  apply foreign_set_containers, tdelete_insert_hidden; [by apply is_mine_self|]. intros r0 Hr.
  unfold live in *. by rewrite Hr in *.
Qed.
End Named.

(** The container named in the statement is not somebody else's. *)
Lemma own_upsert_container_network i n alias : not_theirs i -> own (UpsertContainerNetwork i n alias).
Proof.
  intros Hi c db _ Hf. simpl. unfold sql_upsert_container_network, with_uuid, reject.
  destruct (to_uuid n) as [u|]; [|done]. rewrite <- Hf.
  assert (negb (live (containers (foreign m db)) i && live (networks (foreign m db)) u) = true) as Hhid.
  { rewrite Hf. unfold live at 1. by rewrite Hi. }
  sql_cases; try done; apply foreign_set_container_networks, tdelete_insert_hidden; try exact Hhid; by intros.
Qed.

Lemma own_delete_container_network i n : not_theirs i -> own (DeleteContainerNetwork i n).
Proof.
  intros Hi c db _ Hf. simpl. unfold sql_delete_container_network, with_uuid, reject.
  destruct (to_uuid n) as [u|]; [|done]. rewrite <- Hf.
  apply foreign_set_container_networks, tdelete_tdelete_hidden. intros k r _ Hp. bool_norm. subst k. cbn [fst snd].
  rewrite Hf. unfold live at 1. by rewrite Hi.
Qed.

(** The project named in the request is not somebody else's. *)
Definition project_ok (id : string) : Prop := forall i, to_bigint id = Some i -> not_theirs i.

Lemma own_update_container id ci pn fp po st sa im : project_ok id -> own (UpdateContainerRow id ci pn fp po st sa im).
Proof.
  intros Hp c db _ Hf. simpl. unfold sql_update_container, with_bigint, reject.
  destruct (to_bigint id) as [i|] eqn:E; [|done]. rewrite <- Hf.
  destruct (containers db !! i) as [r|] eqn:Hr; [|done]. pose proof (not_theirs_mine i db r Hf (Hp i E) Hr) as Hm.
  sql_cases; [done|]. apply foreign_set_containers, tdelete_insert_hidden; [done|]. congruence.
Qed.

Lemma own_delete_container id : project_ok id -> own (DeleteContainerRow id).
Proof.
  intros Hp c db Hwf Hf. simpl. unfold sql_delete_container, with_bigint, reject.
  destruct (to_bigint id) as [i|] eqn:E; [|done]. rewrite <- Hf. simpl.
  assert (foreign m (set_containers (tdelete (on_container i) (containers db)) db) = foreign m db) as Ef.
  { apply foreign_set_containers, tdelete_tdelete_hidden. intros k r Hk Hq. unfold on_container in Hq. bool_norm. subst k.
    by eapply not_theirs_mine; eauto. }
  rewrite foreign_cascade; rewrite Ef; [done|]. by apply foreign_owned.
Qed.

Lemma own_reset_health id : project_ok id -> own (ResetHealthRow id).
Proof.
  intros Hp c db _ Hf. simpl. unfold sql_reset_health, with_bigint, reject.
  destruct (to_bigint id) as [i|] eqn:E; [|done]. rewrite <- Hf. simpl.
  apply own_update_containers; [done|]. intros k r Hk Hq. unfold on_container in Hq. bool_norm. subst k.
  by eapply not_theirs_mine; eauto.
Qed.
End Statements.

(** * Programs *)

Section Programs.
Context {PG : Postgres} (m : option Z) (o : DB) (n0 : nat).

(** The transactions from [n0] on are the program's own. *)
Definition effect_ok (e : Eff) : Prop :=
  match e with
  | ESql Pool s => own m o s
  | ESql (InTx t) s => (n0 <= t)%nat /\ own m o s
  | ECommit t => (n0 <= t)%nat
  | _ => True
  end.

(** What is known of an answer: it was given by tables that have [o] for the others. *)
Definition answer_ok (e : Eff) : ans e -> Prop :=
  match e return ans e -> Prop with
  | ESql _ s => fun r => forall x, r = Ok x ->
      exists c db, wf_db db /\ foreign m db = o /\ (exec c s db).1 = Ok x
  | EBegin => fun r => forall t, r = Ok t -> (n0 <= t)%nat
  | _ => fun _ => True
  end.

Definition tenant : Protocol :=
  {| pr_state := unit; pr_allowed := fun _ => effect_ok; pr_answer := fun _ => answer_ok; pr_next := fun _ _ _ => tt |}.

Definition stays {A} (p : Prog A) (Q : A -> Prop) : Prop := follows tenant tt p (fun a _ => Q a).

Lemma tenant_ignores_host : ignores_host tenant.
Proof. intros [] e He. split; [by destruct e|done]. Qed.

Lemma stays_bind {A B} (p : Prog A) (f : A -> Prog B) R Q :
  stays p R -> (forall a, R a -> stays (f a) Q) -> stays (bind p f) Q.
Proof. intros Hp Hf. eapply follows_bind; [exact Hp|]. intros a [] H. by apply Hf. Qed.

Record kept (w : World) : Prop := {
  kp_ok : world_ok w;
  kp_db : foreign m (w_db w) = o;
  kp_next : (n0 <= w_next_tx w)%nat;
  kp_logs : forall t log, (n0 <= t)%nat -> w_txs w !! t = Some (TxOpen log) ->
    Forall (fun en => own m o (le_stmt en)) log;
}.

Lemma tx_view_own log db : wf_db db -> foreign m db = o -> Forall (fun en => own m o (le_stmt en)) log ->
  foreign m (tx_view log db) = o.
Proof.
  unfold tx_view. revert db. induction log as [|en log IH]; intros db Hwf Hf Hl; simpl; [done|].
  apply Forall_cons in Hl as [He Hl]. apply IH; [by apply exec_wf|by apply He|done].
Qed.

Context (env : Env).

Lemma run_eff_kept e w : effect_ok e -> kept w -> kept (run_eff env e w).2 /\ answer_ok e (run_eff env e w).1.
Proof.
  intros He Hw. pose proof (run_eff_ok env e w (kp_ok w Hw)) as Hok. destruct Hw as [Hwf Hdb Hn Hl].
  assert (forall t st t' log, w_txs w !! t = Some st -> <[t:=TxAborted]> (w_txs w) !! t' = Some (TxOpen log) ->
    (n0 <= t')%nat -> Forall (fun en => own m o (le_stmt en)) log) as Hab.
  { intros t st t' log _ [[_ [=]]|[_ H]]%lookup_insert_Some Ht. by eapply Hl. }
  assert (forall t t' log, delete t (w_txs w) !! t' = Some (TxOpen log) -> (n0 <= t')%nat ->
    Forall (fun en => own m o (le_stmt en)) log) as Hdel.
  { intros t t' log [_ H]%lookup_delete_Some Ht. by eapply Hl. }
  destruct e as [[|t] s| |t|t| | | | | | | | | | |]; try (by split; [split|]).
  - unfold run_eff, run_sql in *. destruct (e_sql env (w_tick w)); [by split; [split|]|].
    pose proof (He (sql_ctx env w) (w_db w) (ok_db _ Hwf) Hdb) as Hx.
    destruct (exec (sql_ctx env w) s (w_db w)) as [r db] eqn:Ex. split; [by split|].
    intros x Hr. exists (sql_ctx env w), (w_db w). rewrite Ex. split; [apply Hwf|by split].
  - destruct He as [Ht He]. unfold run_eff, run_sql in *.
    destruct (w_txs w !! t) as [[log|]|] eqn:Et; [|by split; [split|]..].
    destruct (e_sql env (w_tick w)).
    { split; [|done]. split; simpl; try done. intros t' log' Hge H. by eapply Hab. }
    pose proof (Hl _ _ Ht Et) as Hlog.
    pose proof (tx_view_own log _ (ok_db _ Hwf) Hdb Hlog) as Hv. split.
    + split; simpl; try done. intros t' log' Hge [[_ Hst]|[_ H]]%lookup_insert_Some; [|by eapply Hl].
      destruct (exec _ s _).1 as [x|e]; [|destruct (client_error e)]; simplify_eq; [|done].
      apply Forall_app. split; [done|by constructor].
    + intros x Hr. eexists _, _. split; [by apply (tx_view_wf log), Hwf|]. split; [exact Hv|exact Hr].
  - unfold run_eff in *. destruct (e_sql env (w_tick w)); [by split; [split|]|]. split.
    + split; simpl; try done; [lia|]. intros t log Hge [[_ [= <-]]|[_ H]]%lookup_insert_Some; [done|by eapply Hl].
    + intros t [= <-]. done.
  - unfold run_eff, run_commit in *. destruct (w_txs w !! t) as [[log|]|] eqn:Et; [|by split; [split; simpl; eauto|]..].
    destruct (e_sql env (w_tick w)); [by split; [split; simpl; eauto|]|].
    split; [|done]. split; simpl; eauto. apply tx_view_own; [apply Hwf|done|exact (Hl _ _ He Et)].
  - split; [|done]. split; simpl; eauto.
  - unfold run_eff in *. split; [|done]. simpl in *. destruct (Publish user n (w_bus w)); by split.
Qed.

Lemma stays_run {A} (p : Prog A) Q w : stays p Q -> kept w -> kept (run env p w).2.
Proof.
  intros Hp Hw. destruct (follows_run tenant env (fun _ => kept)) with (2 := Hp) (3 := Hw) as (? & _ & H); [|exact H].
  intros s e w' He Hk. apply and_comm, run_eff_kept; [exact He|exact Hk].
Qed.
End Programs.

Lemma kept_start {PG : Postgres} m w : world_ok w -> kept m (foreign m (w_db w)) (w_next_tx w) w.
Proof.
  intros Hok. split; try done. intros t log Ht Hs. pose proof (ok_txs _ Hok _ _ Hs). lia.
Qed.

Create HintDb own discriminated.
#[export] Hint Resolve own_mark_all_read own_insert_api_key own_delete_api_key own_insert_network own_delete_network
  own_reset_circuit own_delete_containers_of_user own_delete_user own_insert_container own_upsert_container_network
  own_delete_container_network own_update_container own_delete_container own_reset_health : own.

(** A container found by its owner. *)
Lemma stays_find_owned_container {PG : Postgres} m o n0 uid projectID Q : to_bigint uid = m ->
  (forall i r, not_theirs o i -> Q (Ok (i, r)) tt) -> (forall e, Q (Err e) tt) ->
  follows (tenant m o n0) tt (find_owned_container uid projectID) Q.
Proof.
  intros Hm H1 H2. unfold find_owned_container. split; [by apply own_read|]. intros [[i r]|e] Hx; simpl.
  2:{ case_bool_decide; apply H2. }
  apply H1. destruct (Hx _ eq_refl) as (c & db & Hwf & Hf & E). simpl in E.
  unfold sql_select_owned_container, with_bigint, reject in E.
  destruct (to_bigint projectID), (to_bigint uid) as [u|] eqn:Eu; try done.
  apply tfirst_Ok in E as [Hi Ho]. unfold owned_by in Ho. bool_norm.
  eapply mine_not_theirs; [exact Hf|exact Hi|]. apply is_mine_self. congruence.
Qed.

Ltac norm_own := cbn [pr_state pr_allowed pr_answer pr_next tenant effect_ok answer_ok] in *.
Ltac effect_own :=
  first [ exact I | solve [eauto] | split; [solve [eauto]|] | idtac ];
  try match goal with |- own _ _ _ => first [apply own_read; reflexivity | solve [eauto with own]] end.
Ltac stays_step :=
  lazymatch goal with
  | |- stays _ _ _ _ _ => unfold stays
  | |- follows _ _ (find_owned_container _ _) _ =>
      apply stays_find_owned_container; [assumption|intros ? ? ?|intros ?]
  | |- _ => walk_step norm_own effect_own ltac:(apply tenant_ignores_host)
  end.

(** The request names no project and no account of somebody else. *)
Definition names_own {PG : Postgres} (m : option Z) (o : DB) (rq : Request) : Prop :=
  project_ok o (query rq "project_id") /\
  forall req, decode_body rq empty_create dec_CreateContainerRequest = Ok req ->
    to_bigint (pj_UserId (cr_Project req)) = m.

Section Handlers.
Context {PG : Postgres} {WL : WsLib} (m : option Z) (o : DB) (n0 : nat) (uid : string) (Hm : to_bigint uid = m).

Notation stays_true p := (stays m o n0 p (fun _ => True)).

(** The container routes that change rows, for a project that is the caller's. *)
Lemma stays_find_container {A} db projectID (k : ContainerInfo -> Prog (result A)) Q :
  match db with Pool => True | InTx t => (n0 <= t)%nat end -> project_ok o projectID ->
  (forall info, project_ok o (ProjectID info) -> follows (tenant m o n0) tt (k info) Q) -> (forall e, Q (Err e) tt) ->
  follows (tenant m o n0) tt (find_container db projectID k) Q.
Proof.
  intros Hdb Hp Hk He. unfold find_container, GetContainerByID. apply follows_seq.
  split; [destruct db; [by apply own_read|by split; [|apply own_read]]|]. intros r Hr. cbn [bind].
  destruct (map_no_rows _ _) as [info|e] eqn:E; [|by apply He].
  apply map_no_rows_scan in E as (kr & -> & Hs). destruct (Hr _ eq_refl) as (c & d & Hwf & Hf & Ex).
  destruct (select_container_Ok _ _ _ _ _ Ex Hs) as (i & row & Hfound).
  pose proof (found_project_id _ _ _ _ _ Hwf Hfound) as Hid. destruct Hfound as (Hi & _ & _).
  apply Hk. intros j. rewrite Hid. intros [= <-]. by apply Hp.
Qed.

Ltac own_project := solve [eauto with own].
Lemma stays_StartContainer projectID : project_ok o projectID -> stays_true (StartContainer projectID).
Proof.
  intros Hp. unfold stays, StartContainer, defer. stays_step. stays_step; [|exact I]. apply follows_seq.
  apply stays_find_container; [done|done| |].
  - intros info Hi. repeat stays_step; own_project.
  - intros e. repeat stays_step.
Qed.
Lemma stays_StopContainer projectID : project_ok o projectID -> stays_true (StopContainer projectID).
Proof.
  intros Hp. unfold stays, StopContainer, defer. stays_step. stays_step; [|exact I]. apply follows_seq.
  apply stays_find_container; [done|done| |].
  - intros info Hi. repeat stays_step; own_project.
  - intros e. repeat stays_step.
Qed.
Lemma stays_RemoveContainer projectID b : project_ok o projectID -> stays_true (RemoveContainer projectID b).
Proof.
  intros Hp. unfold stays, RemoveContainer, defer. stays_step. stays_step; [|exact I]. apply follows_seq.
  apply stays_find_container; [|done| |].
  - cbn [answer_ok] in *. eauto.
  - intros info Hi. repeat stays_step; own_project.
  - intros e. repeat stays_step.
Qed.
Lemma stays_operate rq op done : (forall projectID, project_ok o projectID -> stays_true (op projectID)) ->
  project_ok o (query rq "project_id") -> stays_true (operate rq op done).
Proof.
  intros Hop Hp. unfold stays, operate, with_project. stays_step. stays_step; [exact I|].
  eapply stays_bind; [by apply Hop|]. intros a _. repeat stays_step.
Qed.

Lemma stays_handle_CreateContainer cm rq : names_own m o rq ->
  stays_true (handle_CreateContainer cm (with_user uid rq)).
Proof.
  intros [_ Hok]. unfold stays, handle_CreateContainer. stays_step. stays_step; [exact I|].
  change (decode_body (with_user uid rq) empty_create) with (decode_body rq empty_create). unfold on_ok at 1.
  destruct (decode_body rq _ _) as [req|e]; [|exact I]. specialize (Hok req eq_refl). unfold require_value.
  do 2 (stays_step; [exact I|]). eapply (stays_bind _ _ _ _ _ (fun _ => True)); [repeat stays_step|intros id _].
  cbv zeta. repeat stays_step.
Qed.

Lemma stays_handle_StartContainer rq : names_own m o rq -> stays_true (handle_StartContainer (with_user uid rq)).
Proof.
  intros [Hp _]. unfold stays, handle_StartContainer. do 2 (stays_step; try exact I).
  apply stays_operate; [apply stays_StartContainer|exact Hp].
Qed.
Lemma stays_handle_StopContainer rq : names_own m o rq -> stays_true (handle_StopContainer (with_user uid rq)).
Proof.
  intros [Hp _]. unfold stays, handle_StopContainer. do 2 (stays_step; try exact I).
  apply stays_operate; [apply stays_StopContainer|exact Hp].
Qed.
Lemma stays_handle_RemoveContainer rq : names_own m o rq -> stays_true (handle_RemoveContainer (with_user uid rq)).
Proof.
  intros [Hp _]. unfold stays, handle_RemoveContainer. do 2 (stays_step; try exact I).
  apply stays_operate; [|exact Hp]. intros. by apply stays_RemoveContainer.
Qed.
End Handlers.

(** * Routes *)

(** The routes whose handlers write the rows of the project or the account that
    the request names, without comparing it with the caller. *)
Definition unchecked_routes : list string :=
  ["/containers"; "/containers/start"; "/containers/stop"; "/containers/remove"].

Section Isolation.
Context {PG : Postgres} {JL : JwtLib} {BC : Bcrypt} {VL : ValidatorLib} {UC : UnicodeCase} {MT : MimeTypes}
  {WL : WsLib} {RL : RateLib}.
Context (dp : Deployment) (peers : Peers) (env : Env).

(** Behind its gate the handler stays with the caller, for requests that satisfy [ok]. *)
Definition confined_handler (ok : option Z -> DB -> Request -> Prop) (h : Handler) : Prop :=
  forall uid rq m o n0, to_bigint uid = m -> ok m o rq -> stays m o n0 (h (with_user uid rq)) (fun _ => True).

Lemma confined_run ok h uid rq w : confined_handler ok h -> world_ok w ->
  ok (to_bigint uid) (foreign (to_bigint uid) (w_db w)) rq ->
  foreign (to_bigint uid) (w_db (run env (h (with_user uid rq)) w).2) = foreign (to_bigint uid) (w_db w).
Proof.
  intros Hh Hw Ho.
  exact (kp_db _ _ _ _ (stays_run _ _ _ env _ _ _ (Hh uid rq _ _ (w_next_tx w) eq_refl Ho) (kept_start _ w Hw))).
Qed.

(** Without a user nothing changes; with one, nothing of the others, if [ok]. *)
Definition isolated (ok : option Z -> DB -> Request -> Prop) (h : Handler) : Prop := forall rq w rp w',
  world_ok w -> run env (h rq) w = (rp, w') ->
  w_db w' = w_db w \/
  exists uid, identifies env (dp_secretKey dp) rq uid w /\
    (ok (to_bigint uid) (foreign (to_bigint uid) (w_db w)) rq ->
     foreign (to_bigint uid) (w_db w') = foreign (to_bigint uid) (w_db w)).

Lemma foreign_key_used rawKey uid db db' : wf_db db -> key_owner rawKey uid db -> key_used rawKey db db' ->
  foreign (to_bigint uid) db' = foreign (to_bigint uid) db.
Proof.
  intros Hwf (k & r & Hk & Hh & ->) [t ->]. apply foreign_set_api_keys, tdelete_tupdate_hidden.
  intros k' r' Hk' Hp%bool_decide_eq_true. simpl.
  assert (k' = k) as -> by (eapply (wf_keys_hash _ Hwf k' k r' r); [done|done|done|by rewrite Hh, Hp]).
  assert (r' = r) as -> by congruence.
  destruct (wf_keys_user _ Hwf _ _ Hk) as [u Hu]. pose proof (wf_users_key _ Hwf _ _ Hu) as Hpos.
  unfold serial_key in Hpos. rewrite bigint_text_cast by lia. unfold is_mine. by rewrite bool_decide_eq_true_2.
Qed.

Lemma isolated_jwt ok h : confined_handler ok h -> isolated ok (AuthMiddleware (dp_secretKey dp) h).
Proof.
  intros Hh rq w rp w' Hw [(Hs & Hq & Ht)|(token & uid & w1 & Hp & Hv & Hq & Ht & Hr)]%run_AuthMiddleware.
  - left. apply Hq.
  - right. exists uid. split; [left; by exists token|]. intros Ho.
    pose proof (quiet_outside _ _ Hq) as Hout. rewrite <- (out_db _ _ Hout) in Ho |- *.
    pose proof (confined_run ok h uid rq w1 Hh (outside_ok _ _ Hout Hw) Ho) as H. by rewrite Hr in H.
Qed.

Lemma isolated_auth ok h : confined_handler ok h -> isolated ok (Middleware (dp_secretKey dp) h).
Proof.
  intros Hh rq w rp w' Hw Hrun. destruct (bool_decide_reflect (header rq "X-API-Key" <> "")) as [Hk|Hk].
  - unfold Middleware in Hrun. rewrite bool_decide_eq_true_2, run_bind in Hrun by done.
    pose proof (resolveApiKey_spec env (header rq "X-API-Key") w) as Hs.
    pose proof (run_invariant env world_ok (run_eff_ok env) _ (resolveApiKey (header rq "X-API-Key")) w Hw) as Hw1.
    destruct (run env (resolveApiKey _) w) as [[uid|e] w1]; cbn [fst snd] in *.
    + destruct Hs as (_ & _ & _ & Hown & Hused). right. exists uid. split; [by right|].
      rewrite <- (foreign_key_used _ uid _ _ (ok_db _ Hw) Hown Hused). intros Ho.
      pose proof (confined_run ok h uid rq w1 Hh Hw1 Ho) as H. by rewrite Hrun in H.
    + left. injection Hrun as _ <-. apply Hs.
  - apply run_Middleware in Hrun as [(Hs & Hd & Ht)|[(Hk' & _)|(Hk' & token & uid & w1 & Hp & Hv & Hq & Ht & Hr)]].
    + by left.
    + done.
    + right. exists uid. split; [left; by exists token|]. intros Ho.
      pose proof (quiet_outside _ _ Hq) as Hout. rewrite <- (out_db _ _ Hout) in Ho |- *.
      pose proof (confined_run ok h uid rq w1 Hh (outside_ok _ _ Hout Hw) Ho) as H. by rewrite Hr in H.
Qed.

Definition anything (m : option Z) (o : DB) (rq : Request) : Prop := True.

Lemma routes_isolated wr : Forall (fun th => th.1 ∈ public_routes \/ HasPrefix th.1 "/admin/" = true \/
    isolated (if bool_decide (th.1 ∈ unchecked_routes) then names_own else anything) th.2) (routes dp peers wr).
Proof.
  unfold routes, jwt, auth. repeat apply Forall_cons_2; [..|by constructor].
  all: cbn [fst snd]; first [ left; apply (bool_decide_unpack _); vm_compute; exact I
                            | right; left; reflexivity | right; right ].
  all: match goal with |- isolated (if ?b then _ else _) _ => let b' := eval vm_compute in b in
    change b with b'; cbv iota end.
  all: first [apply isolated_jwt|apply isolated_auth]; intros uid rq m o n0 Hm Hok.
  all: try solve [repeat stays_step].
  - do 3 (stays_step; try exact I). stays_step; [|exact I]. by apply stays_handle_CreateContainer.
  - by apply stays_handle_StartContainer.
  - by apply stays_handle_StopContainer.
  - by apply stays_handle_RemoveContainer.
Qed.

(** C5: no request reaches into another account.  Whatever comes in on a route
    that is neither public nor for administrators, and however the services
    answer, either no row changes, or the caller is identified and every row of
    every other account is afterwards what it was: its account, containers,
    tokens, notifications, keys, networks with their attachments, and audit
    records.  Four container routes take the project or the account from the
    request; there this holds for requests that name the caller's own. *)
Theorem tenant_isolation wr rq w rp w' template h :
  world_ok w -> (template, h) ∈ routes dp peers wr -> template ∉ public_routes ->
  HasPrefix template "/admin/" = false -> run env (h rq) w = (rp, w') ->
  w_db w' = w_db w \/
  exists uid, identifies env (dp_secretKey dp) rq uid w /\
    ((template ∈ unchecked_routes -> names_own (to_bigint uid) (foreign (to_bigint uid) (w_db w)) rq) ->
     foreign (to_bigint uid) (w_db w') = foreign (to_bigint uid) (w_db w)).
Proof.
  intros Hw Hin Hpub Hadm Hrun. pose proof (routes_isolated wr) as Hall. rewrite Forall_forall in Hall.
  destruct (Hall _ Hin) as [H|[H|H]]; cbn [fst snd] in H; [done|congruence|].
  destruct (H _ _ _ _ Hw Hrun) as [Hd|(uid & Hid & Ho)]; [by left|right]. exists uid. split; [done|].
  intros Hn. apply Ho. case_bool_decide as Ht; [by apply Hn|exact I].
Qed.
End Isolation.

(** * A concrete run *)

Definition deletion_request : Request :=
  request "DELETE" [("Authorization", cat ["Bearer "; alice_token])] [] [] no_body.

(** Alice deletes her account; her row goes, Bob's stays. *)
Lemma tenant_isolation_witness :
  let c := run env_ok (jwt fixture_deployment handle_DeleteUser deletion_request) fixture_world in
  live (users (w_db c.2)) 1 = false /\ live (users (w_db c.2)) 2 = true /\
  exists uid, identifies env_ok fixture_secret deletion_request uid fixture_world /\
    foreign (to_bigint uid) (w_db c.2) = foreign (to_bigint uid) (w_db fixture_world).
Proof.
  intros c. assert (live (users (w_db c.2)) 1 = false) as Hc by (vm_compute; reflexivity).
  split; [exact Hc|]. split; [vm_compute; reflexivity|].
  destruct (tenant_isolation fixture_deployment quiet_peers env_ok net_http_writer deletion_request fixture_world
    c.1 c.2 "/user" (jwt fixture_deployment handle_DeleteUser)) as [Hd|(uid & Hid & Ho)].
  - exact fixture_world_ok.
  - unfold routes. repeat (apply list_elem_of_here || apply list_elem_of_further).
  - apply (bool_decide_unpack _). vm_compute. exact I.
  - reflexivity.
  - apply surjective_pairing.
  - rewrite Hd in Hc. discriminate Hc.
  - exists uid. split; [exact Hid|]. apply Ho. intros Hu. exfalso. revert Hu.
    apply (bool_decide_unpack _). vm_compute. exact I.
Defined.
