(* ===== verification/Privacy.v ===== *)
(** Privacy: what an account's requests can learn of the others.

    [visible m db] keeps of the tables what belongs to the account [m], and what
    is attached to its networks.  A statement is [local] when it answers, and
    changes that part, by that part alone; handlers built of local statements
    give the same replies in all worlds that look alike to the caller. *)

From S2P Require Import Fixtures UsersProps Protocols Tenants.
From S2P Require Export Server.

Open Scope prog_scope.

(** * The part of the tables an account sees *)

Section Filters.
Context {K R : Type} `{Countable K}.
Implicit Types (t : gmap K R) (p q : K -> R -> bool).

Definition tkeep q t : gmap K R := tdelete (fun k r => negb (q k r)) t.

Lemma lookup_tkeep_Some q t k r : tkeep q t !! k = Some r <-> t !! k = Some r /\ q k r = true.
Proof. unfold tkeep. by rewrite lookup_tdelete_Some, negb_false_iff. Qed.

Lemma filter_tkeep p q t : (forall k r, t !! k = Some r -> p k r = true -> q k r = true) ->
  filter (fun kr => p kr.1 kr.2 = true) (tkeep q t) = filter (fun kr => p kr.1 kr.2 = true) t.
Proof.
  intros Hpq. apply map_eq. intros k. apply option_eq. intros r.
  rewrite !map_lookup_filter_Some, lookup_tkeep_Some. simpl. split; [by intros [[H1 _] H2]|].
  intros [H1 H2]. split; [split|]; eauto.
Qed.

(** A condition that implies [q] selects the same rows of what [q] keeps. *)
Lemma tselect_tkeep p q t : (forall k r, t !! k = Some r -> p k r = true -> q k r = true) ->
  tselect p (tkeep q t) = tselect p t.
Proof. intros Hpq. unfold tselect. by rewrite filter_tkeep. Qed.
Lemma tcount_tkeep p q t : (forall k r, t !! k = Some r -> p k r = true -> q k r = true) ->
  tcount p (tkeep q t) = tcount p t.
Proof. intros Hpq. unfold tcount. by rewrite filter_tkeep. Qed.
Lemma tfirst_tkeep p q t : (forall k r, t !! k = Some r -> p k r = true -> q k r = true) ->
  tfirst p (tkeep q t) = tfirst p t.
Proof. intros Hpq. unfold tfirst. by rewrite tselect_tkeep. Qed.

Lemma tkeep_lookup q t k : (forall r, t !! k = Some r -> q k r = true) -> tkeep q t !! k = t !! k.
Proof.
  intros Hq. apply option_eq. intros r. rewrite lookup_tkeep_Some. split; [by intros []|]. eauto.
Qed.

Lemma tkeep_tupdate p q f t : (forall k r, q k (f r) = q k r) -> tkeep q (tupdate p f t) = tupdate p f (tkeep q t).
Proof.
  intros Hf. apply map_eq. intros k. apply option_eq. intros r.
  rewrite lookup_tkeep_Some, !lookup_tupdate, !fmap_Some. split.
  - intros [(r0 & H0 & ->) Hq]. exists r0. split; [|done]. apply lookup_tkeep_Some. split; [done|].
    destruct (p k r0); [by rewrite Hf in Hq|done].
  - intros (r0 & [H0 Hq]%lookup_tkeep_Some & ->). split; [by exists r0|]. destruct (p k r0); [by rewrite Hf|done].
Qed.

Lemma tkeep_tdelete p q t : tkeep q (tdelete p t) = tdelete p (tkeep q t).
Proof.
  apply map_eq. intros k. apply option_eq. intros r.
  rewrite lookup_tkeep_Some, !lookup_tdelete_Some, lookup_tkeep_Some. tauto.
Qed.
End Filters.

Definition visible (m : option Z) (db : DB) : DB :=
  let ns := tkeep (fun _ r => is_mine m (nt_user_id r)) (networks db) in
  let cns := tkeep (fun k _ => live ns k.2) (container_networks db) in
  {| users := tkeep (fun k _ => is_mine m k) (users db);
     containers := tkeep (fun i r => is_mine m (c_user_id r) || tany (fun k _ => bool_decide (k.1 = i)) cns)
       (containers db);
     plans := plans db;
     email_tokens := ∅;
     notifications := tkeep (fun _ r => is_mine m (n_user_id r)) (notifications db);
     api_keys := tkeep (fun _ r => is_mine m (k_user_id r)) (api_keys db);
     networks := ns;
     container_networks := cns;
     audit_log := ∅;
     templates := templates db;
     images := images db |}.

Lemma flat_map_ext_elem {A B} (f g : A -> list B) l : (forall x, x ∈ l -> f x = g x) -> flat_map f l = flat_map g l.
Proof.
  induction l as [|x l IH]; intros Hfg; simpl; [done|]. rewrite (Hfg x) by apply list_elem_of_here.
  f_equal. apply IH. intros y Hy. apply Hfg. by apply list_elem_of_further.
Qed.

(** The members of an own network are visible with it. *)
Lemma visible_members m n db r : networks db !! n = Some r -> is_mine m (nt_user_id r) = true ->
  network_members n (visible m db) = network_members n db.
Proof.
  intros Hn Hr. set (cns := container_networks (visible m db)).
  assert (live (networks (visible m db)) n = true) as Hl.
  { unfold live. simpl. by rewrite (proj2 (lookup_tkeep_Some _ (networks db) n r)). }
  unfold network_members. fold cns.
  assert (tselect (fun k _ => bool_decide (k.2 = n)) cns = tselect (fun k _ => bool_decide (k.2 = n)) (container_networks db)) as <-.
  { apply tselect_tkeep. intros k x _ ->%bool_decide_eq_true. exact Hl. }
  apply list_omap_ext, Forall_Forall2_diag, Forall_forall. intros [[i n'] x] [Hk _]%elem_of_tselect.
  simpl. rewrite tkeep_lookup; [done|]. intros. apply orb_true_iff. right.
  eapply tany_true; [exact Hk|]. by apply bool_decide_eq_true_2.
Qed.

(** * Local statements *)

Lemma local_plan_of_user m u db : m = Some u -> plan_of_user u (visible m db) = plan_of_user u db.
Proof. intros Hu. unfold plan_of_user. simpl. rewrite tkeep_lookup; [done|]. intros. by apply is_mine_self. Qed.

Section Local.
Context {PG : Postgres} (m : option Z).

(** Answer and effect on the visible part depend on the visible part and the
    clock. *)
Definition local (s : Stmt) : Prop := forall c c' db, ctx_now c = ctx_now c' ->
  (exec c s db).1 = (exec c' s (visible m db)).1 /\
  visible m (exec c s db).2 = (exec c' s (visible m db)).2.

(** A query: the answer suffices. *)
Lemma local_query s : read_only s = true ->
  (forall c c' db, (exec c s db).1 = (exec c' s (visible m db)).1) -> local s.
Proof. intros Hs Ha c c' db _. split; [apply Ha|]. by rewrite !read_only_exec. Qed.

Context (uid : string) (Hm : to_bigint uid = m).

Ltac query := apply local_query; [done|]; intros c c' db; simpl; unfold_sql; unfold with_bigint, with_uuid;
  rewrite Hm; destruct m as [u|]; [|by repeat case_match].
Ltac mine := intros; bool_norm; subst; try apply orb_true_iff; try left; by apply is_mine_self.

Lemma local_select_user : local (SelectUser uid).
Proof. query. simpl. rewrite tfirst_tkeep; [done|mine]. Qed.

Lemma local_select_user_containers : local (SelectUserContainers uid).
Proof.
  query. simpl. rewrite tkeep_lookup by mine. unfold containers_desc. simpl. rewrite tselect_tkeep; [done|mine].
Qed.

Lemma local_select_notifications : local (SelectNotifications uid).
Proof. query. simpl. rewrite tselect_tkeep; [done|mine]. Qed.

Lemma local_select_api_keys : local (SelectApiKeys uid).
Proof. query. simpl. rewrite tselect_tkeep; [done|mine]. Qed.

Lemma local_select_health id : local (SelectHealth id uid).
Proof.
  query. destruct (to_bigint id) as [i|]; [|done]. simpl. rewrite tfirst_tkeep by (unfold owned_by; mine).
  unfold with_plan. destruct (tfirst (owned_by i u) (containers db)) as [[i' r]|e] eqn:Er; [|done].
  cbn [result_bind fst snd]. rewrite local_plan_of_user; [done|].
  apply tfirst_Ok in Er as [_ Ho]. unfold owned_by in Ho. bool_norm. congruence.
Qed.

Lemma local_select_owned_container id : local (SelectOwnedContainer id uid).
Proof. query. destruct (to_bigint id); [|done]. simpl. rewrite tfirst_tkeep; [done|]. unfold owned_by. mine. Qed.

Lemma local_select_network id : local (SelectNetwork id uid).
Proof. query. destruct (to_uuid id); [|done]. simpl. rewrite tfirst_tkeep; [done|]. unfold nets_of. mine. Qed.

Lemma local_count_networks : local (CountNetworks uid).
Proof. query. simpl. rewrite tcount_tkeep; [done|]. unfold nets_of. mine. Qed.

Lemma local_select_networks_of : local (SelectNetworksOf uid).
Proof.
  query. simpl. rewrite tselect_tkeep by (unfold nets_of; mine). do 2 f_equal. apply flat_map_ext_elem.
  intros [n r] [Hn Ho]%elem_of_tselect. unfold network_join. rewrite (visible_members _ _ _ r); [done|done|].
  unfold nets_of in Ho. mine.
Qed.

Lemma local_mark_all_read : local (MarkAllReadRows uid).
Proof.
  intros c c' db Hc. simpl. unfold sql_mark_all_read, with_bigint, reject. rewrite Hm. destruct m as [u|]; [|done].
  simpl. rewrite tcount_tkeep by mine. split; [done|]. rewrite Hc. unfold visible at 1. simpl.
  by rewrite tkeep_tupdate.
Qed.

Lemma local_reset_circuit id : local (ResetCircuitRow id uid).
Proof.
  intros c c' db _. simpl. unfold sql_reset_circuit, update_containers, with_bigint, reject. rewrite Hm.
  destruct (to_bigint id) as [i|]; [|done]. destruct m as [u|]; [|done].
  simpl. rewrite tcount_tkeep by (unfold owned_by; mine). split; [done|]. unfold visible at 1. simpl. by rewrite tkeep_tupdate.
Qed.

Lemma local_delete_api_key id : local (DeleteApiKey id uid).
Proof.
  intros c c' db _. simpl. unfold sql_delete_api_key, with_bigint, with_uuid, reject. rewrite Hm.
  destruct (to_uuid id) as [k|]; [|done]. destruct m as [u|]; [|done].
  simpl. rewrite tcount_tkeep by mine. split; [done|]. unfold visible at 1. simpl. by rewrite tkeep_tdelete.
Qed.
End Local.

Create HintDb local discriminated.
#[export] Hint Resolve local_select_user local_select_user_containers local_select_notifications local_select_api_keys
  local_select_health local_select_owned_container local_select_network local_count_networks
  local_select_networks_of local_mark_all_read local_reset_circuit local_delete_api_key : local.

(** * Programs of local statements *)

Section Programs.
Context {PG : Postgres} (m : option Z) (env : Env).

Definition local_eff (e : Eff) : Prop :=
  match e with
  | ESql Pool s => local m s
  | ESql (InTx _) _ | EBegin | ECommit _ | ERollback _ => False
  | _ => True
  end.

Definition private : Protocol :=
  {| pr_state := unit; pr_allowed := fun _ => local_eff; pr_answer := fun _ _ _ => True; pr_next := fun _ _ _ => tt |}.

(** Worlds that the account cannot tell apart at the same moment. *)
Definition alike (w1 w2 : World) : Prop :=
  visible m (w_db w1) = visible m (w_db w2) /\ w_tick w1 = w_tick w2.

Lemma run_eff_alike e w1 w2 : local_eff e -> alike w1 w2 ->
  (run_eff env e w1).1 = (run_eff env e w2).1 /\ alike (run_eff env e w1).2 (run_eff env e w2).2.
Proof.
  intros He [Hv Ht]. destruct e as [[|t] s| |t|t| | | | | | | | | | |]; try done.
  all: unfold run_eff, run_fallible; rewrite ?Ht; try by (split; [|split; simpl; rewrite ?Ht]).
  - unfold run_sql. rewrite Ht. destruct (e_sql env (w_tick w2)); [split; [done|by split; simpl; rewrite ?Ht]|].
    assert (ctx_now (sql_ctx env w1) = ctx_now (sql_ctx env w2)) as Hc by (simpl; by rewrite Ht).
    destruct (He _ (sql_ctx env w2) (w_db w1) Hc) as [R1 V1].
    destruct (He (sql_ctx env w2) (sql_ctx env w2) (w_db w2) eq_refl) as [R2 V2].
    rewrite Hv in R1, V1. rewrite <- R2 in R1. rewrite <- V2 in V1.
    destruct (exec (sql_ctx env w1) s (w_db w1)) as [r1 d1], (exec (sql_ctx env w2) s (w_db w2)) as [r2 d2].
    cbn [fst snd] in *. split; [exact R1|]. split; simpl; [|by rewrite Ht].
    by subst r2.
  - destruct (Publish user n (w_bus w1)), (Publish user n (w_bus w2)); by split; [|split; simpl; rewrite ?Ht].
Qed.

Lemma run_alike {A} (p : Prog A) Q w1 w2 : follows private tt p Q -> alike w1 w2 ->
  (run env p w1).1 = (run env p w2).1 /\ alike (run env p w1).2 (run env p w2).2.
Proof.
  revert w1 w2. induction p as [a|e k IH]; intros w1 w2 Hp Hw; simpl; [done|]. destruct Hp as [He Hk].
  destruct (run_eff_alike e w1 w2 He Hw) as [Hr Ha].
  destruct (run_eff env e w1) as [x1 v1], (run_eff env e w2) as [x2 v2]. cbn [fst snd] in *. subst x2.
  apply IH; [by apply Hk|done].
Qed.
End Programs.

Ltac private_step :=
  walk_step ltac:(cbn [pr_state pr_allowed pr_answer pr_next private local_eff] in * )
    ltac:(solve [exact I | eauto with local]) ltac:(fail).

Section Privacy.
Context {PG : Postgres} (env : Env) (panicked : Reply).

(** The handlers that work on the caller's rows alone. *)
Definition own_handlers : list Handler :=
  [handle_GetUser; handle_GetUserWithContainers; Notification_List; MarkAllRead; ApiKey_List; ApiKey_Delete;
   handle_List panicked; handle_GetHealth; handle_ResetCircuit true].

Lemma own_handlers_private uid rq :
  Forall (fun h => follows (private (to_bigint uid)) tt (h (with_user uid rq)) (fun _ _ => True)) own_handlers.
Proof.
  unfold own_handlers. pose proof (eq_refl (to_bigint uid)) as Hm.
  repeat apply Forall_cons_2; [..|by constructor]; repeat private_step.
Qed.

(** C6: replies tell nothing of other accounts.  Two servers whose tables agree
    on the rows of an account, on the containers in its networks and on the plans,
    whatever else they hold, give it the same replies at the same moment from the
    handlers for its profile, containers, notifications, API keys, networks and
    container health, error replies included, and still agree afterwards. *)
Theorem account_privacy h uid rq w1 w2 : h ∈ own_handlers -> alike (to_bigint uid) w1 w2 ->
  (run env (h (with_user uid rq)) w1).1 = (run env (h (with_user uid rq)) w2).1 /\
  alike (to_bigint uid) (run env (h (with_user uid rq)) w1).2 (run env (h (with_user uid rq)) w2).2.
Proof.
  intros Hin. pose proof (proj1 (Forall_forall _ _) (own_handlers_private uid rq) _ Hin) as Hp.
  by apply (run_alike _ env _ _ w1 w2 Hp).
Qed.
End Privacy.

(** * A concrete run *)

(** The tables before Alice creates her container. *)
Definition earlier_world : World := world_of (exec_all (take 2 fixture_stmts) seed_db).

(** Bob cannot tell whether Alice has a container. *)
Lemma account_privacy_witness :
  let rq := request "GET" [] [("project_id", "1")] [] no_body in
  live (containers (w_db earlier_world)) 1 = false /\ live (containers (w_db fixture_world)) 1 = true /\
  (run env_ok (handle_GetUserWithContainers (with_user "2" rq)) earlier_world).1 =
  (run env_ok (handle_GetUserWithContainers (with_user "2" rq)) fixture_world).1 /\
  (run env_ok (handle_GetHealth (with_user "2" rq)) earlier_world).1 =
  (run env_ok (handle_GetHealth (with_user "2" rq)) fixture_world).1.
Proof.
  intros rq. assert (alike (to_bigint "2") earlier_world fixture_world) as Ha.
  { split; [|reflexivity]. vm_compute. reflexivity. }
  split; [vm_compute; reflexivity|]. split; [vm_compute; reflexivity|]. split.
  - apply (account_privacy env_ok no_content handle_GetUserWithContainers "2" rq earlier_world fixture_world); [|exact Ha].
    apply list_elem_of_further, list_elem_of_here.
  - apply (account_privacy env_ok no_content handle_GetHealth "2" rq earlier_world fixture_world); [|exact Ha].
    unfold own_handlers. repeat (apply list_elem_of_here || apply list_elem_of_further).
Defined.
