(* ===== verification/Transactions.v ===== *)
(** Transactions: the database connections that the server's activities hold.

    [tx_protocol] lets a program have one transaction open at a time and end no
    other than its own; every activity of the server [tidies] up: it follows the
    protocol and ends with nothing open.  From that it follows that no
    interleaving of activities leaks a transaction. *)

From S2P Require Import Fixtures UsersProps RecoveryProps Protocols AutoStop.
From S2P Require Export Server.

Open Scope prog_scope.

(** * The protocol *)

(** The transactions a program has begun, and the one it has open. *)
Record TxUse := { begun : list nat; open : option nat }.

(** After the end of [t]. *)
Definition close_tx (t : nat) (o : option nat) : option nat := if bool_decide (o = Some t) then None else o.

Definition tx_protocol : Protocol := {|
  pr_state := TxUse;
  pr_allowed s e :=
    match e with
    | EBegin => open s = None
    | ESql (InTx t) _ | ECommit t | ERollback t => t ∈ begun s
    | _ => True
    end;
  pr_answer _ _ _ := True;
  pr_next s e :=
    match e return ans e -> TxUse with
    | EBegin => fun r => match r with Ok t => {| begun := t :: begun s; open := Some t |} | Err _ => s end
    | ECommit t | ERollback t => fun _ => {| begun := begun s; open := close_tx t (open s) |}
    | _ => fun _ => s
    end;
|}.

Lemma close_tx_same t : close_tx t (Some t) = None.
Proof. unfold close_tx. by rewrite bool_decide_eq_true_2. Qed.
Lemma close_tx_none t : close_tx t None = None.
Proof. done. Qed.

Definition tidied {A} (_ : A) (s : TxUse) : Prop := open s = None.

(** From nothing open to nothing open. *)
Definition tidies {A} (p : Prog A) : Prop := forall l, follows tx_protocol {| begun := l; open := None |} p tidied.

Lemma tidies_from {A} (p : Prog A) s : tidies p -> open s = None -> follows tx_protocol s p tidied.
Proof. destruct s as [l o]. intros Hp E. simpl in E. subst o. apply Hp. Qed.

Lemma tidies_bind {A B} (p : Prog A) (f : A -> Prog B) : tidies p -> (forall a, tidies (f a)) -> tidies (bind p f).
Proof. intros Hp Hf l. eapply follows_bind; [apply Hp|]. intros a s. by apply tidies_from. Qed.

Lemma tidies_for_each {X} (l : list X) (f : X -> Prog unit) : (forall x, tidies (f x)) -> tidies (for_each l f).
Proof.
  intros Hf b. apply (follows_for_each_inv tx_protocol (fun s => open s = None)); [|by intros|done].
  intros x s. by apply tidies_from.
Qed.

Lemma tx_ignores_host : ignores_host tx_protocol.
Proof. intros s e He. by destruct e. Qed.

(** * The activities *)

Ltac norm_tx := cbn [pr_state pr_allowed pr_answer pr_next tx_protocol begun open] in *;
  rewrite ?close_tx_same, ?close_tx_none.
Ltac effect_tx := first [exact I | reflexivity | by left].
Ltac tidy_step :=
  lazymatch goal with
  | |- tidied _ _ => unfold tidied; norm_tx; reflexivity
  | |- _ => walk_step norm_tx effect_tx ltac:(apply tx_ignores_host)
  end.
Ltac tidy := intros ?; repeat tidy_step.

Section Activities.
Context {PG : Postgres} {JL : JwtLib} {BC : Bcrypt} {VL : ValidatorLib} {UC : UnicodeCase} {MT : MimeTypes}
  {WL : WsLib} {RL : RateLib}.

Lemma tidies_routes dp peers wr : Forall (fun th => forall rq, tidies (th.2 rq)) (routes dp peers wr).
Proof.
  unfold routes, jwt, auth. repeat apply Forall_cons_2; [..|by constructor].
  all: cbn [fst snd]; intros rq; tidy.
Qed.

Lemma tidies_dispatch msg : Forall (fun g => tidies g) (dispatch msg).
Proof. unfold dispatch. repeat case_bool_decide; repeat (apply Forall_cons_2 || apply Forall_nil_2); tidy. Qed.

Lemma tidies_watcher cm evs : tidies (StartAutoStopWatcher cm evs).
Proof.
  induction evs as [|[|] evs IH]; cbn [StartAutoStopWatcher]; [done| |done].
  apply tidies_bind; [|done]. unfold checkAndStopExpiredContainers. apply tidies_bind; [tidy|].
  intros [cs|e]; [|done]. apply tidies_for_each. intros c. tidy.
Qed.

Lemma tidies_Send m to subject html : tidies (Send m to subject html).
Proof. tidy. Qed.
End Activities.

(** * What an effect does to the open transactions *)

Section Accounts.
Context {PG : Postgres} (env : Env).

(** Transactions may change their state; [e] may add or remove one. *)
Definition same_txs (txs txs' : gmap nat TxState) : Prop := forall t, is_Some (txs' !! t) <-> is_Some (txs !! t).

Lemma run_eff_txs e w : 
  let x := (run_eff env e w).1 in let w' := (run_eff env e w).2 in
  match e return ans e -> Prop with
  | EBegin => fun x =>
      match x with
      | Ok t => t = w_next_tx w /\ w_next_tx w' = S t /\ exists st, w_txs w' = <[t := st]> (w_txs w)
      | Err _ => w_next_tx w' = w_next_tx w /\ w_txs w' = w_txs w
      end
  | ECommit t | ERollback t => fun _ => w_next_tx w' = w_next_tx w /\ w_txs w' = delete t (w_txs w)
  | ESql (InTx t) _ => fun _ => w_next_tx w' = w_next_tx w /\ same_txs (w_txs w) (w_txs w') /\
      forall t', t' <> t -> w_txs w' !! t' = w_txs w !! t'
  | _ => fun _ => w_next_tx w' = w_next_tx w /\ w_txs w' = w_txs w
  end x.
Proof.
  destruct e as [[|t] s| |t|t| | | | | | | | | | |]; unfold run_eff; try done.
  - unfold run_sql. destruct (e_sql env (w_tick w)); [done|]. by destruct (exec _ s (w_db w)) as [r db].
  - unfold run_sql.
    assert (forall t0 (st : TxState) txs, w_txs w !! t = Some t0 -> txs = <[t:=st]> (w_txs w) ->
      same_txs (w_txs w) txs /\ forall t', t' <> t -> txs !! t' = w_txs w !! t') as Hset.
    { intros t0 st txs Ht ->. split; [|intros; by apply lookup_insert_ne].
      intros t'. destruct (decide (t' = t)) as [->|]; [|by rewrite lookup_insert_ne].
      rewrite lookup_insert_eq, Ht. split; by eexists. }
    destruct (w_txs w !! t) as [[log|]|] eqn:Et; [|by repeat split..].
    destruct (e_sql env (w_tick w)); (split; [done|by eapply Hset]).
  - by destruct (e_sql env (w_tick w)); [|repeat split; eexists].
  - unfold run_commit. destruct (w_txs w !! t) as [[log|]|] eqn:Et; [by destruct (e_sql env (w_tick w))|done|].
    split; [done|]. symmetry. by apply delete_id.
  - by destruct (Publish user n (w_bus w)).
Qed.

(** ** The ledger of a pool: who has begun and who has open which transaction *)

Context (w0 : World).

Record ledger (ss : list TxUse) (w : World) : Prop := {
  lg_next : (w_next_tx w0 <= w_next_tx w)%nat;
  lg_old : forall t, (t < w_next_tx w0)%nat -> w_txs w !! t = w_txs w0 !! t;
  lg_begun : forall i s t, ss !! i = Some s -> t ∈ begun s -> (w_next_tx w0 <= t < w_next_tx w)%nat;
  lg_open : forall i s t, ss !! i = Some s -> open s = Some t -> t ∈ begun s;
  lg_own : forall i j s s' t, ss !! i = Some s -> ss !! j = Some s' -> t ∈ begun s -> t ∈ begun s' -> i = j;
  lg_live : forall t, (w_next_tx w0 <= t)%nat ->
    is_Some (w_txs w !! t) <-> exists i s, ss !! i = Some s /\ open s = Some t;
}.

Lemma ledger_same ss w w' : ledger ss w -> w_next_tx w' = w_next_tx w -> same_txs (w_txs w) (w_txs w') ->
  (forall t, (t < w_next_tx w0)%nat -> w_txs w' !! t = w_txs w !! t) -> ledger ss w'.
Proof.
  intros [H1 H2 H3 H4 H5 H6] En Es Eo. split; rewrite ?En; try done.
  - intros t Ht. rewrite Eo by done. auto.
  - intros t Ht. rewrite (Es t). auto.
Qed.

(** One entry changes; the transactions it names stay its own. *)
Lemma lookup_insert_entry (ss : list TxUse) i s j s' : <[i := s]> ss !! j = Some s' ->
  (j = i /\ s' = s) \/ (j <> i /\ ss !! j = Some s').
Proof. intros [(-> & -> & _)|[Hne H]]%list_lookup_insert_Some; [by left|by right]. Qed.

Lemma ledger_begin ss w w' i s t st : ledger ss w -> ss !! i = Some s -> open s = None -> t = w_next_tx w ->
  w_next_tx w' = S t -> w_txs w' = <[t := st]> (w_txs w) ->
  ledger (<[i := {| begun := t :: begun s; open := Some t |}]> ss) w'.
Proof.
  intros [H1 H2 H3 H4 H5 H6] Hi Ho -> En Et. pose proof (lookup_lt_Some _ _ _ Hi) as Hlt.
  split; rewrite ?En, ?Et.
  - lia.
  - intros t Ht. rewrite lookup_insert_ne by lia. auto.
  - intros j s' t [[-> ->]|[_ Hj]]%lookup_insert_entry Hb; [|apply (H3 _ _ _ Hj) in Hb; lia].
    apply elem_of_cons in Hb as [->|Hb]; [lia|]. apply (H3 _ _ _ Hi) in Hb. lia.
  - intros j s' t [[-> ->]|[_ Hj]]%lookup_insert_entry; [intros [= <-]; by left|eauto].
  - assert (forall j s', ss !! j = Some s' -> w_next_tx w ∉ begun s') as Hfresh.
    { intros j s' Hj Hb. apply (H3 _ _ _ Hj) in Hb. lia. }
    intros j1 j2 s1 s2 t [[-> ->]|[Hn1 E1]]%lookup_insert_entry [[-> ->]|[Hn2 E2]]%lookup_insert_entry B1 B2;
      [done| | |by eapply H5].
    + apply elem_of_cons in B1 as [->|B1]; [by destruct (Hfresh _ _ E2 B2)|by eapply H5].
    + apply elem_of_cons in B2 as [->|B2]; [by destruct (Hfresh _ _ E1 B1)|by eapply H5].
  - intros t Ht. destruct (decide (t = w_next_tx w)) as [->|Hne].
    + rewrite lookup_insert_eq. split; [|by eexists]. intros _. exists i. eexists.
      split; [by apply list_lookup_insert_eq|done].
    + rewrite lookup_insert_ne, H6 by done. split; intros (j & s' & Hj & E).
      * exists j, s'. split; [|done]. rewrite list_lookup_insert_ne; [done|]. congruence.
      * apply lookup_insert_entry in Hj as [[-> ->]|[_ Hj]]; [|by exists j, s'].
        injection E as E. congruence.
Qed.

Lemma ledger_close ss w w' i s t : ledger ss w -> ss !! i = Some s -> t ∈ begun s ->
  w_next_tx w' = w_next_tx w -> w_txs w' = delete t (w_txs w) ->
  ledger (<[i := {| begun := begun s; open := close_tx t (open s) |}]> ss) w'.
Proof.
  intros [H1 H2 H3 H4 H5 H6] Hi Hb En Et. pose proof (lookup_lt_Some _ _ _ Hi) as Hlt.
  pose proof (H3 _ _ _ Hi Hb) as Hr. unfold close_tx. split; rewrite ?En, ?Et.
  - done.
  - intros t' Ht. rewrite lookup_delete_ne by lia. auto.
  - intros j s' t' [[-> ->]|[_ Hj]]%lookup_insert_entry; eauto.
  - intros j s' t' [[-> ->]|[_ Hj]]%lookup_insert_entry; [|eauto]. simpl. case_bool_decide; [done|]. eauto.
  - intros j1 j2 s1 s2 t' [[-> ->]|[Hn1 E1]]%lookup_insert_entry [[-> ->]|[Hn2 E2]]%lookup_insert_entry; eauto.
  - intros t' Ht. destruct (decide (t' = t)) as [->|Hne].
    + rewrite lookup_delete_eq. split; [by intros []|]. intros (j & s' & Hj & E).
      apply lookup_insert_entry in Hj as [[-> ->]|[Hn Hj]].
      * simpl in E. case_bool_decide; congruence.
      * by destruct (Hn (H5 _ _ _ _ _ Hj Hi (H4 _ _ _ Hj E) Hb)).
    + rewrite lookup_delete_ne, H6 by done. split; intros (j & s' & Hj & E).
      * destruct (decide (j = i)) as [->|Hji].
        -- exists i. eexists. split; [by apply list_lookup_insert_eq|]. simpl. replace s' with s in E by congruence.
           rewrite bool_decide_eq_false_2; [done|congruence].
        -- exists j, s'. by rewrite list_lookup_insert_ne.
      * apply lookup_insert_entry in Hj as [[-> ->]|[_ Hj]]; [|by exists j, s'].
        simpl in E. case_bool_decide; [done|]. by exists i, s.
Qed.

Lemma ledger_step ss w i s e : ledger ss w -> ss !! i = Some s -> pr_allowed tx_protocol s e ->
  ledger (<[i := pr_next tx_protocol s e (run_eff env e w).1]> ss) (run_eff env e w).2.
Proof.
  intros Hl Hi He. pose proof (run_eff_txs e w) as Hx.
  assert (w_next_tx (run_eff env e w).2 = w_next_tx w /\ w_txs (run_eff env e w).2 = w_txs w ->
    ledger (<[i := s]> ss) (run_eff env e w).2) as Hsame.
  { intros [En Et]. rewrite list_insert_id by done. apply (ledger_same _ w); [done|done| |]; rewrite Et; done. }
  destruct e as [[|t] q| |t|t| | | | | | | | | | |]; cbn [pr_next pr_allowed tx_protocol] in *;
    try exact (Hsame Hx).
  - destruct Hx as (En & Es & Ho). rewrite list_insert_id by done. apply (ledger_same _ w); [done..|].
    intros t' Ht. apply Ho. intros ->. pose proof (lg_begun _ _ Hl _ _ _ Hi He). lia.
  - destruct (run_eff env EBegin w).1 as [t|e]; [|exact (Hsame Hx)].
    destruct Hx as (Et & En & st & Ew). by eapply ledger_begin.
  - destruct Hx. by eapply (ledger_close _ w).
  - destruct Hx. by eapply (ledger_close _ w).
Qed.
End Accounts.

(** * Pools of activities *)

Lemma size_union_list (X : gset nat) l : (size (X ∪ list_to_set l) <= size X + length l)%nat.
Proof.
  induction l as [|x l IH]; simpl; [rewrite union_empty_r_L; lia|].
  assert (X ∪ ({[x]} ∪ list_to_set l) ⊆ {[x]} ∪ (X ∪ list_to_set l)) as H%subseteq_size by set_solver.
  assert (size ({[x]} ∪ (X ∪ list_to_set l)) <= 1 + size (X ∪ list_to_set l))%nat.
  { rewrite size_union_alt, size_singleton. apply le_n_S, subseteq_size. set_solver. }
  lia.
Qed.

Definition unfinished {A} (p : Prog A) : bool := match p with Ret _ => false | Do _ _ => true end.

Section Pools.
Context {PG : Postgres} {JL : JwtLib} {BC : Bcrypt} {VL : ValidatorLib} {UC : UnicodeCase} {MT : MimeTypes}
  {WL : WsLib} {RL : RateLib}.
Context (dp : Deployment) (peers : Peers) (env : Env).

(** What runs in the server: a request being served, the reaction to an event of
    the Docker daemon, the auto-stop watcher, the delivery of a mail. *)
Inductive activity : Prog unit -> Prop :=
| act_request Match wr t1 t2 rq rl : activity ((serve dp peers Match wr t1 t2 rq rl).1 ;;; Ret tt)
| act_event msg g : g ∈ dispatch msg -> activity (g ;;; Ret tt)
| act_watcher evs : activity (StartAutoStopWatcher (dp_manager dp) evs)
| act_mail to subject html : activity (Send (dp_mailer dp) to subject html ;;; Ret tt).

Lemma tidies_serve Match wr t1 t2 rq rl : tidies (serve dp peers Match wr t1 t2 rq rl).1.
Proof.
  unfold serve. destruct (find_route Match (routes dp peers wr) (rq_Path rq)) as [[[template h] vars]|] eqn:Hr.
  - apply find_route_in in Hr as [Hin _]. pose proof (proj1 (Forall_forall _ _) (tidies_routes dp peers wr) _ Hin) as Hh.
    unfold limit_Middleware. destruct (getLimiter _ _ _) as [ref rl1]. destruct (allow_ref _ _ _) as [ok rl2].
    cbn [fst]. unfold CORSMiddleware. case_bool_decide; [done|]. apply tidies_bind; [|done].
    destruct ok; cbn [negb]; [apply Hh|done].
  - cbn [fst]. unfold CORSMiddleware. by case_bool_decide.
Qed.

Lemma activity_tidies p : activity p -> tidies p.
Proof.
  intros [Match wr t1 t2 rq rl|msg g Hg|evs|to subject html].
  - by apply tidies_bind; [apply tidies_serve|].
  - apply tidies_bind; [|done]. exact (proj1 (Forall_forall _ _) (tidies_dispatch msg) _ Hg).
  - apply tidies_watcher.
  - by apply tidies_bind; [apply tidies_Send|].
Qed.

(** Each thread keeps to the protocol from where the ledger has it. *)
Definition kept_pool (w0 : World) (c : list (Prog unit) * World) : Prop :=
  exists ss, Forall2 (fun p s => follows tx_protocol s p tidied) c.1 ss /\ ledger w0 ss c.2.

Lemma kept_pool_start ts w : world_ok w -> Forall activity ts -> kept_pool w (ts, w).
Proof.
  intros Hw Ha. exists (replicate (length ts) {| begun := []; open := None |}). split.
  - apply Forall2_replicate_r; [done|]. apply (Forall_impl _ _ _ Ha). intros p Hp. by apply activity_tidies.
  - assert (forall i s, replicate (length ts) {| begun := []; open := None |} !! i = Some s ->
      s = {| begun := []; open := None |}) as Hs by (by intros i s [-> _]%lookup_replicate_1).
    split; try done.
    + intros i s t ->%Hs Hb. by apply elem_of_nil in Hb.
    + by intros i s t ->%Hs.
    + intros i j s s' t ->%Hs _ Hb. by apply elem_of_nil in Hb.
    + intros t Ht. split; [|by intros (i & s & ->%Hs & H)]. intros [st Hst]. pose proof (ok_txs _ Hw _ _ Hst). lia.
Qed.

Lemma kept_pool_step w0 c c' : pool_step env c c' -> kept_pool w0 c -> kept_pool w0 c'.
Proof.
  intros Hstep (ss & Hf & Hl). inv Hstep as [ts i e k w x w' Hi He]. cbn [fst snd] in *.
  destruct (Forall2_lookup_l _ _ _ _ _ Hf Hi) as (s & Hs & Ha & Hk).
  exists (<[i := pr_next tx_protocol s e x]> ss). split.
  - apply Forall2_insert; [done|]. by apply Hk.
  - pose proof (ledger_step env w0 ss w i s e Hl Hs Ha) as H. by rewrite He in H.
Qed.

Lemma kept_pool_steps w0 c c' : rtc (pool_step env) c c' -> kept_pool w0 c -> kept_pool w0 c'.
Proof. induction 1 as [|c1 c2 c3 H1 H2 IH]; [done|]. eauto using kept_pool_step. Qed.

Lemma open_unfinished ts ss : Forall2 (fun (p : Prog unit) s => follows tx_protocol s p tidied) ts ss ->
  (length (omap open ss) <= length (filter (fun p => unfinished p = true) ts))%nat.
Proof.
  induction 1 as [|p s ts ss Hp _ IH]; [done|]. simpl. rewrite filter_cons. destruct p as [a|e k]; cbn [unfinished].
  - unfold tidied in Hp. simpl in Hp. by rewrite Hp.
  - destruct (open s); simpl; [apply le_n_S, IH|apply Nat.le_le_succ_r, IH].
Qed.

Lemma transactions_bounded ts w ts' w' : world_ok w -> Forall activity ts -> rtc (pool_step env) (ts, w) (ts', w') ->
  (size (w_txs w') <= size (w_txs w) + length (filter (fun p => unfinished p = true) ts'))%nat.
Proof.
  intros Hw Ha Hr. destruct (kept_pool_steps w _ _ Hr (kept_pool_start ts w Hw Ha)) as (ss & Hf & Hl).
  cbn [fst snd] in *. transitivity (size (dom (w_txs w) ∪ list_to_set (omap open ss))).
  - rewrite <- size_dom. apply subseteq_size. intros t [st Hst]%elem_of_dom.
    rewrite elem_of_union, elem_of_dom, elem_of_list_to_set, list_elem_of_omap.
    destruct (decide (t < w_next_tx w)%nat) as [Ht|Ht]; [left; rewrite <- (lg_old _ _ _ Hl t Ht); by exists st|right].
    destruct (proj1 (lg_live _ _ _ Hl t ltac:(lia))) as (i & s & Hi & Ho); [by exists st|].
    exists s. split; [by eapply list_elem_of_lookup_2|done].
  - rewrite <- (size_dom (w_txs w)). etransitivity; [apply size_union_list|]. apply Nat.add_le_mono_l.
    by apply open_unfinished.
Qed.

(** C7: no connection leaks.  However requests, reactions to Docker events, the
    auto-stop watcher and mails interleave, and whatever fails on the way, a
    pool holds at most one transaction for each activity that has not ended, and
    when all have ended the transactions are those that were open before. *)
Theorem no_transaction_leaks ts w ts' w' :
  world_ok w -> Forall activity ts -> rtc (pool_step env) (ts, w) (ts', w') ->
  (size (w_txs w') <= size (w_txs w) + length (filter (fun p => unfinished p = true) ts'))%nat /\
  (Forall (fun p => unfinished p = false) ts' -> w_txs w' = w_txs w).
Proof.
  intros Hw Ha Hr. split; [by eapply transactions_bounded|].
  destruct (kept_pool_steps w _ _ Hr (kept_pool_start ts w Hw Ha)) as (ss & Hf & Hl). cbn [fst snd] in *.
  intros Hfin. apply map_eq. intros t. destruct (decide (t < w_next_tx w)%nat) as [Ht|Ht]; [by apply Hl|].
  transitivity (@None TxState); [|symmetry; apply eq_None_not_Some; intros [st Hst]; pose proof (ok_txs _ Hw _ _ Hst); lia].
  apply eq_None_not_Some. intros Hs. apply (lg_live _ _ _ Hl t) in Hs as (i & s & Hi & Ho); [|lia].
  destruct (Forall2_lookup_r _ _ _ _ _ Hf Hi) as (p & Hp & Hk).
  pose proof (Forall_lookup_1 _ _ _ _ Hfin Hp) as Hu. destruct p as [a|e k]; [|done].
  simpl in Hk. unfold tidied in Hk. congruence.
Qed.
End Pools.

(** * A concrete run *)

Definition stop_request : Request :=
  {| rq_Method := "POST"; rq_Path := "/containers/stop"; rq_Query := [("project_id", "1")];
     rq_Headers := [("Authorization", cat ["Bearer "; alice_token])]; rq_Vars := [];
     rq_RemoteAddr := "192.0.2.1:40000"; rq_Body := no_body; rq_Form := Err (ErrText "not multipart");
     rq_UserID := None |}.
Definition crash_message : EventMessage := {| em_Action := "die"; em_ActorID := "c-1"; em_exitCode := "137" |}.
Definition stop_activity : Prog unit :=
  (serve fixture_deployment quiet_peers exact_match net_http_writer 0 0 stop_request (NewIPRateLimiter 10 30)).1 ;;; Ret tt.

Definition env_stop_fails : Env :=
  env_failing (fun c => match c with ContainerStop _ _ => true | _ => false end) (fun _ => false).

(** The daemon refuses to stop a container that is being restarted meanwhile. *)
Lemma no_transaction_leaks_witness :
  let ts := [stop_activity; HandleCrash "c-1" 137 ;;; Ret tt] in
  let c := sched env_stop_fails (flat_map (fun _ => [0; 1]%nat) (seq 0 20)) ts fixture_world in
  Forall (fun p => unfinished p = false) c.1 /\ w_next_tx c.2 = 1%nat /\ w_txs c.2 = w_txs fixture_world.
Proof.
  intros ts c. assert (Forall (fun p => unfinished p = false) c.1) as Hc.
  { apply (bool_decide_unpack _). vm_compute. exact I. }
  split; [exact Hc|]. split; [vm_compute; reflexivity|].
  destruct (no_transaction_leaks fixture_deployment quiet_peers env_stop_fails ts fixture_world c.1 c.2) as [_ H].
  - exact fixture_world_ok.
  - repeat apply Forall_cons_2; [constructor|apply act_event with (msg := crash_message)|by constructor].
    apply list_elem_of_here.
  - rewrite <- surjective_pairing. apply sched_pool_steps.
  - exact (H Hc).
Defined.
