(* ===== verification/Connections.v ===== *)
(** Connections: the bounded pool that transactions and statements draw from.

    A transaction keeps the connection it began on; a statement outside of one
    takes a connection for its own time, and waits while all are taken.  Fewer
    activities than connections never wait; as many stops of containers as there
    are connections can wait for each other. *)

From S2P Require Import Fixtures UsersProps RecoveryProps AutoStop.
From S2P Require Export Transactions.

(** [cfg.MaxConns] *)
Definition MaxConns : nat := 10.

Definition needs_connection (e : Eff) : bool :=
  match e with ESql Pool _ | EBegin => true | _ => false end.

(** [Acquire] waits: the thread's next effect needs a connection and none is free. *)
Definition waits {A} (cap : nat) (w : World) (p : Prog A) : bool :=
  match p with
  | Ret _ => false
  | Do e _ => needs_connection e && (cap <=? size (w_txs w))%nat
  end.

Section Limited.
Context {PG : Postgres} (env : Env).

(** One thread that does not wait performs its next effect. *)
Inductive limited_step {A} (cap : nat) : list (Prog A) * World -> list (Prog A) * World -> Prop :=
| limited_step_intro ts i e k w x w' :
    ts !! i = Some (Do e k) -> waits cap w (Do e k) = false -> run_eff env e w = (x, w') ->
    limited_step cap (ts, w) (<[i := k x]> ts, w').

Lemma limited_steps_pool {A} cap (c c' : list (Prog A) * World) :
  rtc (limited_step cap) c c' -> rtc (pool_step env) c c'.
Proof. apply rtc_subrel. intros x y Hs. inv Hs. by econstructor. Qed.

Lemma limited_stuck {A} cap (c c' : list (Prog A) * World) :
  Forall (fun p => waits cap c.2 p = true) c.1 -> ~ limited_step cap c c'.
Proof. intros Hw Hs. inv Hs as [ts i e k w x w' Hi Hn He].
  pose proof (Forall_lookup_1 _ _ _ _ Hw Hi) as H. cbn [fst snd] in H. rewrite Hn in H. done.
Qed.

(** Executes a schedule, passing over the threads that wait or have ended. *)
Fixpoint limited_sched {A} (cap : nat) (order : list nat) (ts : list (Prog A)) (w : World) : list (Prog A) * World :=
  match order with
  | [] => (ts, w)
  | i :: order' =>
      match ts !! i with
      | Some (Do e k) =>
          if waits cap w (Do e k) then limited_sched cap order' ts w
          else let '(x, w') := run_eff env e w in limited_sched cap order' (<[i := k x]> ts) w'
      | _ => limited_sched cap order' ts w
      end
  end.

Lemma limited_sched_steps {A} cap order (ts : list (Prog A)) w :
  rtc (limited_step cap) (ts, w) (limited_sched cap order ts w).
Proof.
  revert ts w. induction order as [|i order IH]; intros ts w; cbn [limited_sched]; [done|].
  destruct (ts !! i) as [[a|e k]|] eqn:Hi; [apply IH| |apply IH].
  destruct (waits cap w (Do e k)) eqn:Hn; [apply IH|]. destruct (run_eff env e w) as [x w'] eqn:He.
  eapply rtc_l; [by econstructor|apply IH].
Qed.

(** ** Stops wait for each other *)

Definition reads_pool {A} (p : Prog A) : Prop := exists s k, p = Do (ESql Pool s) k.

(** A stop that has begun the transaction [t]. *)
Definition begun_stop (id : string) (t : nat) : Prog (result unit) :=
  match StopContainer id with Do EBegin k => k (Ok t) | p => p end.

Lemma all_begin cap (ids : list string) : forall pre w, sql_up env -> world_ok w -> Forall reads_pool pre ->
  (size (w_txs w) + length ids <= cap)%nat ->
  exists ts' w', rtc (limited_step cap) (pre ++ map StopContainer ids, w) (ts', w') /\
    Forall reads_pool ts' /\ size (w_txs w') = (size (w_txs w) + length ids)%nat.
Proof.
  induction ids as [|id ids IH]; intros pre w Hup Hw Hpre Hcap; simpl in *.
  { exists pre, w. rewrite app_nil_r, Nat.add_0_r. by split. }
  pose proof (run_eff_ok env EBegin w Hw) as Hw1. pose proof (run_eff_txs env EBegin w) as Hx.
  destruct (run_eff env EBegin w) as [x w1] eqn:E. cbn [fst snd] in *.
  assert (exists t, x = Ok t) as [t ->].
  { unfold run_eff in E. rewrite Hup in E. injection E as <- _. by eexists. }
  destruct Hx as (-> & _ & st & Ht).
  assert (w_txs w !! w_next_tx w = None) as Hfresh.
  { apply eq_None_not_Some. intros [s Hs]. pose proof (ok_txs _ Hw _ _ Hs). lia. }
  assert (size (w_txs w1) = S (size (w_txs w))) as Hsize by (by rewrite Ht, map_size_insert_None).
  destruct (IH (pre ++ [begun_stop id (w_next_tx w)]) w1) as (ts' & w' & Hr & Hts & Hs).
  - done.
  - done.
  - apply Forall_app. split; [done|]. constructor; [|done]. by eexists _, _.
  - lia.
  - exists ts', w'. split; [|split; [done|lia]]. eapply rtc_l; [|exact Hr]. rewrite <- app_assoc. simpl.
    assert (pre ++ begun_stop id (w_next_tx w) :: map StopContainer ids =
      <[length pre := begun_stop id (w_next_tx w)]> (pre ++ StopContainer id :: map StopContainer ids)) as ->.
    { rewrite insert_app_r_alt by lia. by rewrite Nat.sub_diag. }
    assert ((pre ++ StopContainer id :: map StopContainer ids) !! length pre = Some (StopContainer id)) as Hi
      by by apply list_lookup_middle.
    refine (limited_step_intro cap _ _ EBegin _ w _ w1 Hi _ E). apply Nat.leb_gt. lia.
Qed.

(** As many stops as there are connections: each begins its transaction, and
    then each reads its container outside of it. *)
Theorem stops_deadlock ids w : sql_up env -> world_ok w -> w_txs w = ∅ -> length ids = MaxConns ->
  exists ts' w', rtc (limited_step MaxConns) (map StopContainer ids, w) (ts', w') /\
    Forall (fun p => waits MaxConns w' p = true) ts' /\ forall c, ~ limited_step MaxConns (ts', w') c.
Proof.
  intros Hup Hw Hn Hl. destruct (all_begin MaxConns ids [] w Hup Hw) as (ts' & w' & Hr & Hts & Hs); [by constructor| |].
  { rewrite Hn, map_size_empty, Hl. lia. }
  assert (Forall (fun p => waits MaxConns w' p = true) ts') as Hwait.
  { apply (Forall_impl _ _ _ Hts). intros p (s & k & ->). apply Nat.leb_le. rewrite Hs, Hn, map_size_empty, Hl. lia. }
  exists ts', w'. split; [exact Hr|]. split; [done|]. intros c. by apply limited_stuck.
Qed.
End Limited.

Section Bound.
Context {PG : Postgres} {JL : JwtLib} {BC : Bcrypt} {VL : ValidatorLib} {UC : UnicodeCase} {MT : MimeTypes}
  {WL : WsLib} {RL : RateLib}.
Context (dp : Deployment) (peers : Peers) (env : Env).

End Bound.

(** * A concrete run *)


Lemma stops_deadlock_witness : exists ts' w',
  rtc (limited_step env_ok MaxConns) (map StopContainer (replicate 10 "1"), fixture_world) (ts', w') /\
  forall c, ~ limited_step env_ok MaxConns (ts', w') c.
Proof.
  destruct (stops_deadlock env_ok (replicate 10 "1") fixture_world) as (ts' & w' & Hr & _ & Hs).
  - intros n. reflexivity.
  - exact fixture_world_ok.
  - reflexivity.
  - reflexivity.
  - exists ts', w'. split; [exact Hr|exact Hs].
Defined.
