(* ===== verification/Divergences.v ===== *)
(** Divergences: what the server does although its authors meant otherwise, where
    several components have part in it. *)

From S2P Require Import Fixtures UsersProps RecoveryProps Protocols AutoStop Transactions.
From S2P Require Export Server.

Open Scope prog_scope.

(** * The owner of a container is not asked for *)

Section Callers.
Context {PG : Postgres} {MT : MimeTypes} {WL : WsLib} (dp : Deployment) (peers : Peers).

(** The handlers of creation, lifecycle, commands and files. *)
Definition project_handlers : list Handler :=
  [handle_GetContainer (dp_manager dp); handle_StartContainer; handle_StopContainer; handle_RemoveContainer;
   handle_ExecCommand; handle_TreeFolder; handle_ReadFile; handle_WriteFile; handle_UploadFile; handle_DownloadFile;
   handle_CreateContainer (dp_manager dp)].

(** Whoever calls, these handlers do the same: what a user may do to a
    container, every other signed-in user may. *)
Theorem containers_ignore_caller u u' rq :
  Forall (fun h => h (with_user u rq) = h (with_user u' rq)) project_handlers.
Proof. unfold project_handlers. repeat (apply Forall_cons_2; [reflexivity|]). by constructor. Qed.

(** The streams too, as the WebSocket library does not know the user. *)
Theorem streams_ignore_caller env w u u' rq :
  (forall v, handshake (with_user v rq) = handshake rq) ->
  (forall v, dp_upgrade_refusal dp (with_user v rq) = dp_upgrade_refusal dp rq) ->
  Forall (fun h => run env (h (with_user u rq)) w = run env (h (with_user u' rq)) w)
    [metric_route dp peers; terminal_route dp peers; logs_route dp peers].
Proof.
  intros Hh Hr.
  assert (forall v, Upgrade (dp_allowedOrigins dp) (with_user v rq) = Upgrade (dp_allowedOrigins dp) rq) as Hu.
  { intros v. unfold Upgrade. by rewrite Hh. }
  assert (forall M v (e : WsEnd M), ws_status dp (with_user v rq) e = ws_status dp rq e) as Hs.
  { intros M v e. destruct e; try done. apply Hr. }
  repeat apply Forall_cons_2; [..|by constructor].
  all: unfold metric_route, terminal_route, logs_route, Metric_WsHandler, Terminal_WsHandler, Logs_WsHandler.
  all: rewrite !Hu, !run_bind.
  all: change (query (with_user u rq)) with (query rq); change (query (with_user u' rq)) with (query rq).
  all: destruct (run env _ w) as [e w']; by rewrite !Hs.
Qed.
End Callers.

Definition bob_token : string :=
  match clear_sign fixture_secret (access_claims "bob" "bob@example.org" "2" 5000) with
  | Ok t => t
  | Err _ => ""
  end.
Definition bob_removes : Request :=
  request "DELETE" [("Authorization", cat ["Bearer "; bob_token])] [("project_id", "1")] [] no_body.

(** Bob removes the container of Alice. *)
Example bob_removes_alices_container :
  let c := run env_ok (jwt fixture_deployment handle_RemoveContainer bob_removes) fixture_world in
  option_map c_user_id (containers (w_db fixture_world) !! 1) = Some 1 /\
  rp_Status c.1 = StatusOK /\ containers (w_db c.2) !! 1 = None.
Proof. vm_compute. repeat split. Qed.

(** * A container stopped by its user is restarted *)

Definition killed : EventMessage := {| em_Action := "die"; em_ActorID := "c-1"; em_exitCode := "137" |}.

(** Alice stops her container; its process ends by the signal, which the event
    stream reports as a crash, and the container runs again. *)
Example stopped_container_restarted :
  let stopped := (run env_ok (StopContainer "1") fixture_world).2 in
  option_map c_status (containers (w_db stopped) !! 1) = Some "stopped" /\
  exists g, dispatch killed = [g] /\
    let w' := (run env_ok g stopped).2 in
    option_map c_status (containers (w_db w') !! 1) = Some "running" /\
    exists r, EvDocker (ContainerRestart "c-1" (Some 10)) r ∈ w_trace w'.
Proof.
  intros stopped. split; [vm_compute; reflexivity|]. eexists. split; [reflexivity|]. intros w'.
  split; [vm_compute; reflexivity|]. eexists. apply list_elem_of_lookup_2 with (i := 2%nat). vm_compute. reflexivity.
Qed.

(** * The limit on networks falls with the count *)

Definition network_world : World :=
  world_of (exec_all [(fixture_ctx 5 "n1", InsertNetwork "1" "first" "d-1" "dw-first")] fixture_db).

(** Alice's plan allows one network and she has one: when the count fails she
    gets a second. *)
Example failed_count_lifts_limit :
  is_ok (run env_ok (CreateNetwork "1" "second") network_world).1 = false /\
  let env := env_failing (fun _ => false) (fun n => bool_decide (n = 1%nat)) in
  is_ok (run env (CreateNetwork "1" "second") network_world).1 = true.
Proof. vm_compute. by split. Qed.

(** * A container without an image name cannot be read *)

(** Whatever else the row holds, a NULL in [image_name], as migration 4 leaves it
    in the rows that are there, makes every read of the container fail. *)
Theorem null_image_unreadable {PG : Postgres} env projectID w i row :
  to_bigint projectID = Some i -> containers (w_db w) !! i = Some row -> c_image_name row = None ->
  is_ok (run env (GetContainerByID Pool projectID) w).1 = false.
Proof.
  intros Hp Hi Hn. unfold GetContainerByID. rewrite run_bind, run_perform. unfold run_eff, run_sql.
  destruct (e_sql env (w_tick w)); [by simpl; destruct (errors_Is _ _)|]. simpl. unfold sql_select_container, with_bigint. rewrite Hp. simpl.
  destruct (tfirst (on_container i) (containers (w_db w))) as [[j r]|e] eqn:E; simpl; [|by destruct (errors_Is _ _)].
  apply tfirst_Ok in E as [Hj Ho]. unfold on_container in Ho. bool_norm. subst j.
  assert (r = row) as -> by congruence. unfold scan_container. simpl. rewrite Hn.
  destruct (scan_string (c_port row)); simpl; try done; by destruct (errors_Is _ _).
Qed.

(** * Nothing is audited *)

Definition unaudited : Protocol := {|
  pr_state := unit;
  pr_allowed _ e := match e with ESql _ (InsertAudit _ _ _ _ _ _ _) => False | _ => True end;
  pr_answer _ _ _ := True;
  pr_next _ _ _ := tt;
|}.

Lemma unaudited_ignores_host : ignores_host unaudited.
Proof. intros [] e He. split; [by destruct e|done]. Qed.

Ltac audit_step :=
  walk_step ltac:(cbn [pr_state pr_allowed pr_answer pr_next unaudited] in * ) ltac:(exact I)
    ltac:(apply unaudited_ignores_host).

(** No handler adds an audit record: [AuditMiddleware] is on no route. *)
Theorem nothing_audited {PG : Postgres} {JL : JwtLib} {BC : Bcrypt} {VL : ValidatorLib} {UC : UnicodeCase}
    {MT : MimeTypes} {WL : WsLib} {RL : RateLib} dp peers wr :
  Forall (fun th => forall rq, follows unaudited tt (th.2 rq) (fun _ _ => True)) (routes dp peers wr).
Proof.
  unfold routes, jwt, auth. repeat apply Forall_cons_2; [..|by constructor].
  all: cbn [fst snd]; intros rq; repeat audit_step.
Qed.
