(* ===== verification/Main.v ===== *)
(** Main: main.go, migrations_runner.go and db_config/db.go, the life of the
    process: its configuration, the start-up, the two listeners, and the way it
    ends.

    A [log.Fatal] ends the process at once, from whichever goroutine, without
    any deferred call.  [time.ParseDuration] is a parameter; so is the list of
    incidents that the process lives through once it serves. *)

From S2P Require Import Fixtures.
From S2P Require Export Server.

Open Scope prog_scope.

(** * Configuration *)

(** [for prefix := range ... { if HasPrefix(dsn, prefix) { return ... } }] *)
Fixpoint first_prefix (prefixes : list string) (dsn : string) : string :=
  match prefixes with
  | [] => dsn
  | prefix :: prefixes' =>
      if HasPrefix dsn prefix then String.append "pgx5://" (drop_str (String.length prefix) dsn)
      else first_prefix prefixes' dsn
  end.
Definition toMigrateURL (dsn : string) : string := first_prefix ["postgresql://"; "postgres://"] dsn.

Record Config := {
  cf_appAddr : string;
  cf_adminAddr : string;
  cf_serviceName : string;
  cf_basePath : string;
  cf_dsn : string;
  cf_autoStopTimeout : Z;
  cf_pprof : bool;
}.

Definition or_default (value fallback : string) : string :=
  if bool_decide (value = "") then fallback else value.

(** [getenv]: the environment; an [Err] is a [log.Fatal] (its message
    without the rejected value). *)
Definition read_config (getenv : string -> string) (ParseDuration : string -> result Z) : result Config :=
  let dsn := getenv "DATABASE_URL" in
  if bool_decide (dsn = "") then Err (ErrText "DATABASE_URL environment variable must be set")
  else
    let text := or_default (getenv "CONTAINER_AUTO_STOP_TIMEOUT") "30m" in
    match ParseDuration text with
    | Err e => Err (ErrWrap "Invalid CONTAINER_AUTO_STOP_TIMEOUT value: " e)
    | Ok timeout =>
        Ok {| cf_appAddr := or_default (getenv "APP_ADDR") ":8080";
              cf_adminAddr := or_default (getenv "ADMIN_ADDR") ":2112";
              cf_serviceName := or_default (getenv "OTEL_SERVICE_NAME") "my-go-service";
              cf_basePath := or_default (getenv "PROJECTS_BASE_PATH") "/tmp/projects";
              cf_dsn := dsn; cf_autoStopTimeout := timeout;
              cf_pprof := bool_decide (getenv "ENABLE_PPROF" = "true") |}
    end.

(** * The database *)

(** db_config: the package's [once] and [pool]. *)
Record DbConfig := {
  dc_done : bool;
  dc_pool : bool;
}.

Definition db_Init (dsn : string) (s : DbConfig) : Prog (result unit * DbConfig) :=
  if dc_done s then Ret (Ok tt, s)
  else
    initErr <-
      (_ <-? sys (PoolParseConfig dsn) ;;
       _ <-? sys PoolNew ;;
       ping <- sys PoolPing ;;
       match ping with
       | Err e => sys PoolClose ;;; Ret (Err e)
       | Ok _ => Ret (Ok tt)
       end) ;;
    Ret (initErr, {| dc_done := true; dc_pool := is_ok initErr |}).

(** [None]: [log.Panic]. *)
Definition db_Pool (s : DbConfig) : option unit := if dc_pool s then Some tt else None.

Definition db_Close (s : DbConfig) : Prog unit :=
  if dc_pool s then ignore (sys PoolClose) else Ret tt.

Definition runMigrations (dsn : string) : Prog (result unit) :=
  _ <-? sys MigrationSource wrap "failed to create migration source: " ;;
  let dbURL := toMigrateURL dsn in
  _ <-? sys (NewMigrator dbURL) wrap "failed to create migrator: " ;;
  defer
    (up <- sys MigrateUp ;;
     match up with
     | UpNoChange => Ret (Ok tt)
     | UpFailed e => Ret (Err (ErrWrap "migration failed: " e))
     | UpDone => sys MigrateVersion ;;; Ret (Ok tt)
     end)
    (fun _ => ignore (sys MigratorClose)).

(** * The monitoring endpoints *)

Definition json_text (status : Z) (members : list (string * string)) : Reply :=
  {| rp_Status := status; rp_Headers := [("Content-Type", "application/json")];
     rp_Body := BodyText (cat ["{"; Join "," (map (fun kv => cat [quote kv.1; ":"; quote kv.2]) members); "}"]) |}.

Definition healthz : Reply := json_text StatusOK [("status", "ok")].

(** [ping]: the answer of [Pool().Ping]. *)
Definition readyz (ping : result unit) : Reply :=
  match ping with
  | Err _ => json_text StatusServiceUnavailable [("status", "unavailable"); ("reason", "database unreachable")]
  | Ok _ => json_text StatusOK [("status", "ready")]
  end.

(** The patterns of the second server. *)
Definition admin_patterns (pprof : bool) : list string :=
  ["/metrics"; "/healthz"; "/readyz"] ++
  (if pprof then ["/debug/pprof/"; "/debug/pprof/cmdline"; "/debug/pprof/profile"; "/debug/pprof/symbol";
                  "/debug/pprof/trace"] else []).


(** * Observability *)

(** The function returned shuts the tracer down. *)
Definition initOpenTelemetry (endpoint serviceName : string) : Prog (result (Prog unit)) :=
  if bool_decide (endpoint = "") then Ret (Ok (Ret tt))
  else
    _ <-? sys OtlpExporter ;;
    _ <-? sys (OtelResource serviceName) ;;
    sys SetTracerProvider ;;;
    sys SetTextMapPropagator ;;;
    Ret (Ok (ignore (sys OtelShutdown))).

(** [httpMetrics], in the order of its fields; the gauge has no label. *)
Definition newHTTPMetrics : list Metric :=
  [{| mt_name := "http_in_flight_requests"; mt_labels := [] |};
   {| mt_name := "http_requests_total"; mt_labels := ["handler"; "code"; "method"] |};
   {| mt_name := "http_request_duration_seconds"; mt_labels := ["handler"; "code"; "method"] |}].

(** * The process *)

(** How the process is: past a point of [main], ended by [log.Fatal], or still
    serving when the incidents have run out. *)
Inductive Life (A : Type) := Running (a : A) | Exited (message : string) | Serving (dp : Deployment).
Arguments Running {A} a.
Arguments Exited {A} message.
Arguments Serving {A} dp.

Notation "x <-! p ;; q" :=
  (bind p (fun l => match l with Running x => q | Exited m => Ret (Exited m) | Serving d => Ret (Serving d) end))
  (at level 100, p at next level, right associativity) : prog_scope.

(** [if err != nil { log.Fatalf(context+"%v", err) }] *)
Definition or_fatal {A} (context : string) (p : Prog (result A)) : Prog (Life A) :=
  r <- p ;; Ret (match r with Ok a => Running a | Err e => Exited (cat [context; error_text e]) end).

(** [defer cleanup()]: only a body that returns runs it. *)
Definition deferred {A} (cleanup : Prog unit) (body : Prog (Life A)) : Prog (Life A) :=
  l <- body ;; match l with Running a => cleanup ;;; Ret (Running a) | _ => Ret l end.

(** What can happen while [main] waits: a signal, or the end of a listener.
    [ListenAndServe] never returns nil. *)
Inductive ListenEnd := ServerClosed | ListenError (e : GoError).
Inductive Incident := Signal | AdminEnds (r : ListenEnd) | AppEnds (r : ListenEnd).

(** The two goroutines around [ListenAndServe]: the message they die with. *)
Definition admin_listener (r : ListenEnd) : option string :=
  match r with
  | ServerClosed => None
  | ListenError e => Some (cat ["admin server error"; "err"; error_text e])
  end.
Definition app_listener (r : ListenEnd) : option string :=
  match r with
  | ServerClosed => None
  | ListenError e => Some (cat ["Server error: "; error_text e])
  end.

(** [<-ctx.Done()] *)
Fixpoint wait_done (dp : Deployment) (incidents : list Incident) : Life unit :=
  match incidents with
  | [] => Serving dp
  | Signal :: _ => Running tt
  | AdminEnds r :: l => match admin_listener r with Some m => Exited m | None => wait_done dp l end
  | AppEnds r :: l => match app_listener r with Some m => Exited m | None => wait_done dp l end
  end.

Section Main.
Context (getenv : string -> string) (ParseDuration : string -> result Z)
  (instrument : string -> Writer -> Writer) (refusal : Request -> Reply).

(** The handlers, each with what it takes from the environment. *)
Definition deployment (h : ContainerHandler) : Deployment :=
  {| dp_handler := h; dp_secretKey := getenv "JWT_SECRET_KEY"; dp_userHandler := NewUserHandler getenv;
     dp_allowedOrigins := getenv "ALLOWED_ORIGINS";
     dp_instrument := instrument; dp_upgrade_refusal := refusal |}.

(** From [context.WithTimeout] on. *)
Definition shutdown (cf : Config) : Prog (Life unit) :=
  sys (WithTimeout (10 * Second)) ;;;
  deferred (ignore (sys CancelTimeout))
    (sys (ServerShutdown (cf_appAddr cf)) ;;;
     sys (ServerShutdown (cf_adminAddr cf)) ;;;
     Ret (Running tt)).

(** From [handler.StartAutoStopWatcher()] on. *)
Definition serve_until (cf : Config) (db : DbConfig) (handler : ContainerHandler) (incidents : list Incident)
    : Prog (Life unit) :=
  sys GoAutoStopWatcher ;;;
  deferred (sys CloseStopChan ;;; Handler_Close handler ;;; db_Close db)
    (let handler := SetRecovery handler in
     sys GoContainerEvents ;;;
     sys (GoListenAndServe (cf_adminAddr cf)) ;;;
     sys (GoListenAndServe (cf_appAddr cf)) ;;;
     _ <-! Ret (wait_done (deployment handler) incidents) ;;
     shutdown cf).

(** From the registration of the metrics on. *)
Definition start (incidents : list Incident) : Prog (Life unit) :=
  sys (MustRegister newHTTPMetrics) ;;;
  cf <-! or_fatal "" (Ret (read_config getenv ParseDuration)) ;;
  init <- db_Init (cf_dsn cf) {| dc_done := false; dc_pool := false |} ;;
  _ <-! or_fatal "Failed to initialize database: " (Ret init.1) ;;
  _ <-! or_fatal "Failed to run database migrations: " (runMigrations (cf_dsn cf)) ;;
  handler <-! or_fatal "Failed to create handler: " (NewHandler (cf_basePath cf) (cf_autoStopTimeout cf)) ;;
  serve_until cf init.2 handler incidents.

Definition main (incidents : list Incident) : Prog (Life unit) :=
  let serviceName := or_default (getenv "OTEL_SERVICE_NAME") "my-go-service" in
  sys NotifyContext ;;;
  deferred (ignore (sys StopNotify))
    (shutdownOtel <-! or_fatal "otel init failederr"
       (initOpenTelemetry (getenv "OTEL_EXPORTER_OTLP_ENDPOINT") serviceName) ;;
     deferred shutdownOtel (start incidents)).
End Main.

(** * Facts *)

(** A PostgreSQL URL keeps everything after its scheme, which becomes the
    migrator's; any other text is left alone, so converting twice is converting
    once. *)
Theorem toMigrateURL_scheme dsn rest :
  toMigrateURL (String.append "postgres://" rest) = String.append "pgx5://" rest /\
  toMigrateURL (String.append "postgresql://" rest) = String.append "pgx5://" rest /\
  (HasPrefix dsn "postgres://" = false -> HasPrefix dsn "postgresql://" = false -> toMigrateURL dsn = dsn) /\
  toMigrateURL (toMigrateURL dsn) = toMigrateURL dsn.
Proof.
  assert (forall r, toMigrateURL (String.append "pgx5://" r) = String.append "pgx5://" r) as Hp by done.
  split; [by destruct rest|]. split; [by destruct rest|]. split.
  - intros H1 H2. unfold toMigrateURL. simpl. by rewrite H1, H2.
  - unfold toMigrateURL at 2 3. cbn [first_prefix].
    destruct (HasPrefix dsn "postgresql://") eqn:E1; [apply Hp|].
    destruct (HasPrefix dsn "postgres://") eqn:E2; [apply Hp|].
    unfold toMigrateURL. cbn [first_prefix]. by rewrite E1, E2.
Qed.


Lemma Init_once env dsn w e w1 s :
  run env (db_Init dsn {| dc_done := false; dc_pool := false |}) w = ((Err e, s), w1) ->
  (forall dsn' w2, run env (db_Init dsn' s) w2 = ((Ok tt, s), w2)) /\ db_Pool s = None.
Proof.
  unfold db_Init, sys, perform. cbn [dc_done bind run run_eff].
  repeat match goal with |- context [match ?r with Ok _ => _ | Err _ => _ end] => destruct r; cbn [bind run run_eff] end;
    intros [= <- <- <-]; done.
Qed.

(** ** The life of the process *)

Definition sys_calls (tr : list Event) : list SysCall :=
  omap (fun ev => match ev with EvSys c _ => Some c | _ => None end) tr.

(** The calls whose failure ends the start-up. *)
Definition needed (c : SysCall) : bool :=
  match c with
  | OtlpExporter | OtelResource _ | PoolParseConfig _ | PoolNew | PoolPing | MigrationSource | NewMigrator _
  | MigrateUp | NewDockerClient => true
  | _ => false
  end.

(** The calls before anything is running in the background. *)
Definition preparing (c : SysCall) : bool :=
  needed c ||
  match c with
  | NotifyContext | SetTracerProvider | SetTextMapPropagator | MustRegister _ | PoolClose | MigrateVersion
  | MigratorClose => true
  | _ => false
  end.

(** A step that had to succeed and did not. *)
Definition fault (ev : Event) : bool :=
  match ev with
  | EvSys c ok => needed c && negb ok
  | EvMkdirAll _ ok => negb ok
  | _ => false
  end.

Section Lifecycle.
Context {PG : Postgres} (env : Env) (getenv : string -> string) (ParseDuration : string -> result Z)
  (instrument : string -> Writer -> Writer) (refusal : Request -> Reply).

Definition traced : bool := bool_decide (getenv "OTEL_EXPORTER_OTLP_ENDPOINT" <> "").

(** What a complete start-up asks for, in order; [fresh]: some migration was applied. *)
Definition startup_calls (cf : Config) (fresh : bool) : list SysCall :=
  [NotifyContext] ++
  (if traced then [OtlpExporter; OtelResource (cf_serviceName cf); SetTracerProvider; SetTextMapPropagator] else []) ++
  [MustRegister newHTTPMetrics; PoolParseConfig (cf_dsn cf); PoolNew; PoolPing;
   MigrationSource; NewMigrator (toMigrateURL (cf_dsn cf)); MigrateUp] ++
  (if fresh then [MigrateVersion] else []) ++
  [MigratorClose; NewDockerClient; GoAutoStopWatcher; GoContainerEvents;
   GoListenAndServe (cf_adminAddr cf); GoListenAndServe (cf_appAddr cf)].

(** What a shutdown asks for, in order. *)
Definition shutdown_calls (cf : Config) : list SysCall :=
  [WithTimeout (10 * Second); ServerShutdown (cf_appAddr cf); ServerShutdown (cf_adminAddr cf); CancelTimeout;
   CloseStopChan; CloseDockerClient; PoolClose] ++
  (if traced then [OtelShutdown] else []) ++ [StopNotify].

Definition configured (cf : Config) : Deployment :=
  deployment getenv instrument refusal
    {| hd_manager := {| cm_basePath := cf_basePath cf; cm_autoStopTimeout := cf_autoStopTimeout cf |};
       hd_recovery := true |}.

(** [p] changes nothing but the trace, and ends with a result and a trace
    that satisfy [Q]. *)
Definition does {A} (p : Prog A) (Q : A -> list Event -> Prop) : Prop :=
  forall w, exists tr, only_trace w tr (run env p w).2 /\ Q (run env p w).1 tr.

Lemma only_trace_app w tr w1 tr' w' :
  only_trace w tr w1 -> only_trace w1 tr' w' -> only_trace w (tr ++ tr') w'.
Proof. intros [O1 T1] [O2 T2]. split; [by transitivity w1|]. by rewrite T2, T1, app_assoc. Qed.

Lemma does_ret {A} (a : A) (Q : A -> list Event -> Prop) : Q a [] -> does (Ret a) Q.
Proof. intros H w. exists []. split; [apply only_trace_nil|done]. Qed.

Lemma does_bind {A B} (p : Prog A) (f : A -> Prog B) P Q :
  does p P -> (forall a tr, P a tr -> does (f a) (fun b tr' => Q b (tr ++ tr'))) -> does (bind p f) Q.
Proof.
  intros Hp Hf w. destruct (Hp w) as (tr & Ht & HP). destruct (Hf _ _ HP (run env p w).2) as (tr' & Ht' & HQ).
  rewrite run_bind. destruct (run env p w) as [a w1]. exists (tr ++ tr'). split; [|done].
  by eapply only_trace_app.
Qed.

Lemma does_mono {A} (p : Prog A) (P Q : A -> list Event -> Prop) :
  does p P -> (forall a tr, P a tr -> Q a tr) -> does p Q.
Proof. intros Hp HQ w. destruct (Hp w) as (tr & Ht & H). eauto. Qed.

Lemma does_sys c : does (sys c) (fun r tr => tr = [EvSys c (sys_ok c r)]).
Proof. intros w. eexists. split; [by split|done]. Qed.

Lemma does_mkdir path : does (perform (EMkdirAll path)) (fun r tr => tr = [EvMkdirAll path (is_ok r)]).
Proof. intros w. eexists. split; [by split|done]. Qed.

Lemma does_ignore c : does (ignore (sys c)) (fun _ tr => exists ok, tr = [EvSys c ok]).
Proof. intros w. eexists. split; [by split|]. by eexists. Qed.

Lemma sys_calls_app tr1 tr2 : sys_calls (tr1 ++ tr2) = sys_calls tr1 ++ sys_calls tr2.
Proof. apply omap_app. Qed.

(** A step of the start-up that fails comes from a fault while nothing runs in
    the background. *)
Definition refused (tr : list Event) : Prop :=
  Forall (fun c => preparing c = true) (sys_calls tr) /\ Exists (fun ev => fault ev = true) tr.
Definition clean (tr : list Event) : Prop := Forall (fun ev => fault ev = false) tr.
Definition step_post {A} (P : A -> list Event -> Prop) (r : result A) (tr : list Event) : Prop :=
  match r with
  | Ok a => clean tr /\ P a tr
  | Err _ => refused tr
  end.

Lemma clean_app tr1 tr2 : clean tr1 -> clean tr2 -> clean (tr1 ++ tr2).
Proof. intros. by apply Forall_app. Qed.

Lemma refused_app tr1 tr2 :
  Forall (fun c => preparing c = true) (sys_calls tr1) -> refused tr2 -> refused (tr1 ++ tr2).
Proof.
  intros H1 [H2 H3]. unfold refused. rewrite sys_calls_app, Forall_app, Exists_app. by split; [split|right].
Qed.

(** Walks through a program of such calls, splitting on every answer. *)
Ltac does_step :=
  match goal with
  | |- does (bind (sys _) _) _ => eapply does_bind; [apply does_sys|]; intros ? ? ->
  | |- does (bind (perform (EMkdirAll _)) _) _ => eapply does_bind; [apply does_mkdir|]; intros ? ? ->
  | |- does (Ret _) _ => apply does_ret
  | |- does (match ?r with Ok _ => _ | Err _ => _ end) _ => destruct r
  | |- does (match ?r with UpDone => _ | UpNoChange => _ | UpFailed _ => _ end) _ => destruct r
  end.
Ltac settle :=
  unfold step_post; cbn; split; [repeat constructor|]; try (repeat first [left; reflexivity|right]); eauto.

Lemma does_otel endpoint serviceName :
  does (initOpenTelemetry endpoint serviceName) (step_post (fun shutdown tr =>
    shutdown = (if bool_decide (endpoint <> "") then ignore (sys OtelShutdown) else Ret tt) /\
    sys_calls tr = if bool_decide (endpoint <> "")
      then [OtlpExporter; OtelResource serviceName; SetTracerProvider; SetTextMapPropagator] else [])).
Proof.
  unfold initOpenTelemetry. case_bool_decide as E.
  - rewrite bool_decide_eq_false_2 by auto. does_step. settle.
  - rewrite bool_decide_eq_true_2 by done. repeat does_step; settle.
Qed.

Lemma does_Init dsn :
  does (db_Init dsn {| dc_done := false; dc_pool := false |}) (fun r tr =>
    step_post (fun _ tr => sys_calls tr = [PoolParseConfig dsn; PoolNew; PoolPing] /\ dc_pool r.2 = true) r.1 tr).
Proof.
  unfold db_Init. cbn [dc_done].
  eapply (does_bind _ _ (step_post (fun _ tr => sys_calls tr = [PoolParseConfig dsn; PoolNew; PoolPing]))).
  - repeat does_step; settle.
  - intros r tr H. does_step. rewrite app_nil_r. destruct r; [|done]. destruct H. by split.
Qed.

Lemma does_migrations dsn :
  does (runMigrations dsn) (step_post (fun _ tr => exists fresh : bool,
    sys_calls tr = [MigrationSource; NewMigrator (toMigrateURL dsn); MigrateUp] ++
      (if fresh then [MigrateVersion] else []) ++ [MigratorClose])).
Proof.
  unfold runMigrations. does_step. does_step; [|does_step; settle].
  does_step. does_step; [|does_step; settle]. unfold defer.
  eapply (does_bind _ _ (step_post (fun _ tr => exists fresh : bool,
    sys_calls tr = [MigrateUp] ++ if fresh then [MigrateVersion] else []))).
  - repeat does_step; settle; [by exists true|by exists false].
  - intros r tr H. eapply does_bind; [apply does_ignore|]. intros [] ? [ok ->]. does_step.
    rewrite app_nil_r. destruct r.
    + destruct H as [H [fresh Hc]]. split; [repeat apply clean_app; first [exact H|by repeat constructor]|].
      exists fresh. rewrite !sys_calls_app, Hc. by destruct fresh.
    + do 2 (apply (refused_app [_]); [by repeat constructor|]). destruct H as [Hp Hx].
      unfold refused. rewrite sys_calls_app, Forall_app, Exists_app. split; [by split; [|repeat constructor]|by left].
Qed.

Lemma does_NewHandler basePath timeout :
  does (NewHandler basePath timeout) (step_post (fun h tr => sys_calls tr = [NewDockerClient] /\
    h = {| hd_manager := {| cm_basePath := basePath; cm_autoStopTimeout := timeout |}; hd_recovery := false |} /\
    EvMkdirAll basePath true ∈ tr)).
Proof.
  unfold NewHandler, NewContainerManager.
  eapply (does_bind _ _ (step_post (fun m tr => sys_calls tr = [NewDockerClient] /\
    m = {| cm_basePath := basePath; cm_autoStopTimeout := timeout |} /\ EvMkdirAll basePath true ∈ tr))).
  - repeat does_step; settle. split_and!; [done|done|right; left].
  - intros r tr H. destruct r; does_step; rewrite app_nil_r; [|exact H].
    destruct H as [H (Hc & -> & Hm)]. by split.
Qed.

(** A step whose failure is fatal, with what follows it. *)
Lemma does_or_fatal {A B} context (p : Prog (result A)) P (k : A -> Prog (Life B)) Q :
  does p (step_post P) ->
  (forall m tr, refused tr -> Q (Exited m) tr) ->
  (forall a tr, clean tr -> P a tr -> does (k a) (fun l tr' => Q l (tr ++ tr'))) ->
  does (x <-! or_fatal context p ;; k x) Q.
Proof.
  intros Hp Hx Hk. eapply does_bind; [eapply does_bind; [exact Hp|]|].
  - intros r tr Hr. apply does_ret. rewrite app_nil_r.
    instantiate (1 := fun l tr => match l with
      | Running a => step_post P (Ok a) tr | Exited _ => refused tr | Serving _ => False end). by destruct r.
  - intros [a|m|d] tr H; [by apply Hk; apply H| |done]. apply does_ret. rewrite app_nil_r. by apply Hx.
Qed.

(** What follows the start-up depends on the incidents alone. *)
Lemma does_serve cf db handler incidents : dc_pool db = true ->
  does (serve_until getenv instrument refusal cf db handler incidents) (fun l tr =>
    let life := wait_done (deployment getenv instrument refusal (SetRecovery handler)) incidents in
    l = life /\ Forall (fun ev => fault ev = false) tr /\
    sys_calls tr = [GoAutoStopWatcher; GoContainerEvents; GoListenAndServe (cf_adminAddr cf);
                    GoListenAndServe (cf_appAddr cf)] ++
      match life with
      | Running _ => [WithTimeout (10 * Second); ServerShutdown (cf_appAddr cf); ServerShutdown (cf_adminAddr cf);
                      CancelTimeout; CloseStopChan; CloseDockerClient; PoolClose]
      | _ => []
      end).
Proof.
  intros Hdb w. unfold serve_until, shutdown, deferred, Handler_Close, ContainerManager_Close, db_Close, ignore, sys, perform.
  rewrite Hdb. cbv zeta. cbn [bind].
  destruct (wait_done _ incidents) as [[]|m|dp]; cbn [bind run run_eff]; eexists;
    (split; [split; [by split|cbn [tick emit w_trace fst snd]; rewrite <- !app_assoc; reflexivity]|]);
    (split; [reflexivity|]); (split; [by repeat constructor|reflexivity]).
Qed.

(** The two ends of the process, with the calls before [start] and after it. *)
Definition ends (before after : list SysCall) (incidents : list Incident) (l : Life unit) (tr : list Event) : Prop :=
  (exists m, l = Exited m /\ Forall (fun c => preparing c = true) (sys_calls tr) /\
      (Exists (fun ev => fault ev = true) tr \/ exists e, read_config getenv ParseDuration = Err e)) \/
  (exists cf (fresh : bool), read_config getenv ParseDuration = Ok cf /\ l = wait_done (configured cf) incidents /\
      clean tr /\ EvMkdirAll (cf_basePath cf) true ∈ tr /\
      sys_calls tr = before ++
        [MustRegister newHTTPMetrics; PoolParseConfig (cf_dsn cf); PoolNew; PoolPing;
         MigrationSource; NewMigrator (toMigrateURL (cf_dsn cf)); MigrateUp] ++
        (if fresh then [MigrateVersion] else []) ++
        [MigratorClose; NewDockerClient; GoAutoStopWatcher; GoContainerEvents;
         GoListenAndServe (cf_adminAddr cf); GoListenAndServe (cf_appAddr cf)] ++
        match wait_done (configured cf) incidents with
        | Running _ =>
            [WithTimeout (10 * Second); ServerShutdown (cf_appAddr cf); ServerShutdown (cf_adminAddr cf); CancelTimeout;
             CloseStopChan; CloseDockerClient; PoolClose] ++ after
        | _ => []
        end).

Lemma ends_refused before after incidents m tr : refused tr -> ends before after incidents (Exited m) tr.
Proof. intros [Hp Hx]. left. exists m. by split; [|split; [|left]]. Qed.

Lemma does_start incidents :
  does (start getenv ParseDuration instrument refusal incidents) (ends [] [] incidents).
Proof.
  unfold start. does_step. unfold or_fatal at 1. cbn [bind].
  destruct (read_config getenv ParseDuration) as [cf|e] eqn:Hcf; cbn [bind].
  2:{ apply does_ret. left. eexists. split; [reflexivity|]. split; [by repeat constructor|]. right. by exists e. }
  eapply does_bind; [apply does_Init|]. intros [r db] tr1 H1. cbn [fst snd] in *.
  unfold or_fatal at 1. cbn [bind]. destruct r as [[]|e].
  2:{ apply does_ret. rewrite app_nil_r. apply ends_refused, (refused_app [_]); [by repeat constructor|done]. }
  destruct H1 as (Hf1 & Hc1 & Hdb).
  eapply does_or_fatal; [apply does_migrations| |].
  { intros m tr H. apply ends_refused, (refused_app [_]), refused_app; [by repeat constructor| |done].
    rewrite Hc1. by repeat constructor. }
  intros [] tr2 Hf2 [fresh Hc2].
  eapply does_or_fatal; [apply does_NewHandler| |].
  { intros m tr H. apply ends_refused, (refused_app [_]), refused_app, refused_app; [by repeat constructor| | |done].
    - rewrite Hc1. by repeat constructor.
    - rewrite Hc2. by destruct fresh; repeat constructor. }
  intros h tr3 Hf3 (Hc3 & -> & Hm). eapply does_mono; [by apply does_serve|].
  intros l tr4 (-> & Hf4 & Hc4). right. exists cf, fresh. split; [done|]. split; [done|].
  split; [repeat apply clean_app; first [done|by repeat constructor]|].
  split; [apply elem_of_app; right; do 2 (apply elem_of_app; right); apply elem_of_app; by left|].
  rewrite !sys_calls_app, Hc1, Hc2, Hc3, Hc4. unfold configured, SetRecovery. cbn [hd_manager].
  destruct fresh, (wait_done _ _); reflexivity.
Qed.

(** A deferred call is made only when the body returns. *)
Lemma does_deferred {A} (cleanup : Prog unit) (body : Prog (Life A)) P Q cs :
  does cleanup (fun _ tr => sys_calls tr = cs /\ clean tr) -> does body P ->
  (forall l tr, P l tr -> match l with
     | Running _ => forall tr', sys_calls tr' = cs -> clean tr' -> Q l (tr ++ tr')
     | _ => Q l tr end) ->
  does (deferred cleanup body) Q.
Proof.
  intros Hc Hb HQ. unfold deferred. eapply does_bind; [exact Hb|]. intros [a|m|d] tr H%HQ.
  - eapply does_bind; [exact Hc|]. intros [] tr' [E Hf]. apply does_ret. rewrite app_nil_r. by apply H.
  - apply does_ret. by rewrite app_nil_r.
  - apply does_ret. by rewrite app_nil_r.
Qed.

Lemma does_cleanup c : needed c = false -> does (ignore (sys c)) (fun _ tr => sys_calls tr = [c] /\ clean tr).
Proof.
  intros Hn. eapply does_mono; [apply does_ignore|]. intros [] tr [ok ->]. split; [done|].
  constructor; [simpl; by rewrite Hn|constructor].
Qed.

Lemma ends_after before after cs incidents l tr : ends before after incidents l tr ->
  match l with
  | Running _ => forall tr', sys_calls tr' = cs -> clean tr' -> ends before (after ++ cs) incidents l (tr ++ tr')
  | _ => ends before (after ++ cs) incidents l tr
  end.
Proof.
  intros [(m & -> & H)|(cf & fresh & Hcf & -> & Hf & Hm & Hc)]; [left; eauto|].
  destruct (wait_done _ _) as [[]|m|d] eqn:E.
  - intros tr' Hc' Hf'. right. exists cf, fresh. rewrite E in *. split; [done|]. split; [done|].
    split; [by apply clean_app|]. split; [apply elem_of_app; by left|].
    rewrite sys_calls_app, Hc, Hc'. by rewrite <- !app_assoc.
  - right. exists cf, fresh. by rewrite E in *.
  - right. exists cf, fresh. by rewrite E in *.
Qed.

Lemma ends_before cs before after incidents l tr0 tr :
  sys_calls tr0 = cs -> Forall (fun c => preparing c = true) cs -> clean tr0 ->
  ends before after incidents l tr -> ends (cs ++ before) after incidents l (tr0 ++ tr).
Proof.
  intros Hcs Hp Hf0 [(m & -> & Hp' & Hr)|(cf & fresh & Hcf & -> & Hf & Hm & Hc)].
  - left. exists m. rewrite sys_calls_app, Hcs, Forall_app. split; [done|]. split; [done|].
    rewrite Exists_app. destruct Hr; [left; by right|by right].
  - right. exists cf, fresh. split; [done|]. split; [done|]. split; [by apply clean_app|].
    split; [apply elem_of_app; by right|]. by rewrite sys_calls_app, Hcs, Hc, <- app_assoc.
Qed.

Definition otel_calls : list SysCall :=
  if traced then [OtlpExporter; OtelResource (or_default (getenv "OTEL_SERVICE_NAME") "my-go-service");
                  SetTracerProvider; SetTextMapPropagator] else [].
Definition otel_stop : list SysCall := if traced then [OtelShutdown] else [].

Lemma does_main incidents :
  does (main getenv ParseDuration instrument refusal incidents)
    (ends ([NotifyContext] ++ otel_calls) (otel_stop ++ [StopNotify]) incidents).
Proof.
  unfold main. cbv zeta. does_step. eapply (does_mono _ (ends otel_calls (otel_stop ++ [StopNotify]) incidents)).
  2:{ intros l tr H. by apply ends_before; [|repeat constructor|repeat constructor|]. }
  eapply (does_deferred _ _ (ends otel_calls otel_stop incidents)); [by apply does_cleanup| |].
  2:{ intros l tr. apply ends_after. }
  eapply does_or_fatal; [apply does_otel|apply ends_refused|]. intros sh tr Hf [-> Hc].
  eapply (does_mono _ (ends [] otel_stop incidents)).
  2:{ intros l tr' H. rewrite <- (app_nil_r otel_calls). apply ends_before; [exact Hc| |done|done].
      unfold otel_calls. by destruct traced; repeat constructor. }
  eapply (does_deferred _ _ (ends [] [] incidents) _ otel_stop).
  - unfold otel_stop, traced. case_bool_decide; [by apply does_cleanup|]. apply does_ret. by split; [|constructor].
  - apply does_start.
  - intros l tr'. apply (ends_after [] []).
Qed.

(** C38: the process starts all or nothing.  Either [main] ends with a
    [log.Fatal] while it prepares, because the configuration is wrong or a step
    it needs has failed: then nothing is listening, no goroutine is running and
    no deferred call is made.  Or the database answered, the migrations are in
    place, the Docker client and the base folder exist, and only then the
    watcher, the event listener and the two servers are started, in that order;
    from there on the incidents decide.  On a signal both servers are shut down
    within 10 s before the watcher, the Docker client and the pool are closed,
    each once; when a listener fails first the process ends without any of it. *)
Theorem main_lifecycle incidents w l w' :
  run env (main getenv ParseDuration instrument refusal incidents) w = (l, w') ->
  exists tr, only_trace w tr w' /\
  ((exists m, l = Exited m /\ Forall (fun c => preparing c = true) (sys_calls tr) /\
      (Exists (fun ev => fault ev = true) tr \/ exists e, read_config getenv ParseDuration = Err e)) \/
   (exists cf (fresh : bool), read_config getenv ParseDuration = Ok cf /\ l = wait_done (configured cf) incidents /\
      Forall (fun ev => fault ev = false) tr /\ EvMkdirAll (cf_basePath cf) true ∈ tr /\
      sys_calls tr = startup_calls cf fresh ++
        (match wait_done (configured cf) incidents with Running _ => shutdown_calls cf | _ => [] end))).
Proof.
  intros Hr. destruct (does_main incidents w) as (tr & Ht & H). rewrite Hr in Ht, H. cbn [fst snd] in *.
  exists tr. split; [exact Ht|]. destruct H as [H|(cf & fresh & Hcf & -> & Hf & Hm & Hc)]; [by left|right].
  exists cf, fresh. do 4 (split; [done|]). rewrite Hc. unfold startup_calls, shutdown_calls, otel_calls, otel_stop.
  assert (cf_serviceName cf = or_default (getenv "OTEL_SERVICE_NAME") "my-go-service") as ->.
  { unfold read_config in Hcf. case_bool_decide; [done|]. destruct (ParseDuration _); [|done]. by injection Hcf as <-. }
  destruct traced, fresh, (wait_done _ _); reflexivity.
Qed.
End Lifecycle.

(** * A concrete process *)

(** An environment that names the database and nothing else. *)
Definition bare_env (name : string) : string :=
  if bool_decide (name = "DATABASE_URL") then "postgres://db/app" else "".
Definition parse_minutes (s : string) : result Z :=
  if bool_decide (s = "30m") then Ok (30 * Minute) else Err (ErrText "time: invalid duration").
Definition bare_config : Config :=
  {| cf_appAddr := ":8080"; cf_adminAddr := ":2112"; cf_serviceName := "my-go-service";
     cf_basePath := "/tmp/projects"; cf_dsn := "postgres://db/app"; cf_autoStopTimeout := 30 * Minute;
     cf_pprof := false |}.
Definition same_writer (label : string) (w : Writer) : Writer := w.
Definition refuse_upgrade (rq : Request) : Reply := bare_status StatusForbidden.
#[local] Notation bare_main := (main bare_env parse_minutes same_writer refuse_upgrade).

Lemma main_lifecycle_witness :
  let c := run env_ok (bare_main [Signal]) fixture_world in
  c.1 = Running tt /\ exists fresh,
    sys_calls (w_trace c.2) = startup_calls bare_env bare_config fresh ++ shutdown_calls bare_env bare_config.
Proof.
  intros c. assert (c.1 = Running tt) as Hl by (vm_compute; reflexivity). split; [exact Hl|].
  destruct c as [l w'] eqn:Hrun. cbn [fst snd] in *. unfold c in Hrun.
  destruct (main_lifecycle env_ok bare_env parse_minutes same_writer refuse_upgrade [Signal] fixture_world l w' Hrun)
    as (tr & [_ Ht] & H).
  assert (read_config bare_env parse_minutes = Ok bare_config) as Hcf by (vm_compute; reflexivity).
  destruct H as [(m & Hm & _)|(cf & fresh & Hcf' & _ & _ & _ & Hc)].
  - rewrite Hl in Hm. discriminate Hm.
  - rewrite Hcf in Hcf'. injection Hcf' as <-. exists fresh. rewrite Ht. exact Hc.
Defined.

(** The secret of the tokens is not looked at before a token is: the server
    starts without one, and [loadSecret] then ends the process. *)
Example serves_without_secret :
  let dp := configured bare_env same_writer refuse_upgrade bare_config in
  (run env_ok (bare_main []) fixture_world).1 = Serving dp /\ loadSecret (dp_secretKey dp) = None.
Proof. intros dp. split; [vm_compute; reflexivity|reflexivity]. Qed.

(** A listener that cannot listen ends the process where the start-up left it:
    nothing is shut down or closed. *)
Example listener_failure_skips_cleanup :
  let c := run env_ok (bare_main [AdminEnds (ListenError (ErrText "bind: address already in use"))]) fixture_world in
  c.1 = Exited "admin server errorerrbind: address already in use" /\
  sys_calls (w_trace c.2) = startup_calls bare_env bare_config true.
Proof. intros c. split; vm_compute; reflexivity. Qed.
